(* ===== verification/_CoqProject ===== *)
-Q . S2P
Prelude.v
Programs.v
Memory.v
RouteStore.v
Balancer.v
Http.v
Mux.v
Forward.v
Cost.v
RouteApi.v
Gateway.v
Command.v
Overlap.v
Crd.v
DeepCopy.v
Kube.v
Offloader.v
Configurer.v
Reliable.v
Mirror.v
Registry.v
Metric.v
Prometheus.v
Health.v
HealthRun.v
Convert.v
BeamlitClient.v
ModelReconciler.v
ModelSync.v
ModelLoop.v
Publish.v
Requests.v
Interleave.v
Stuck.v
ModelShare.v
Progress.v
PolicyReconciler.v
Scheme.v
Config.v
System.v
Wire.v
Whole.v
Recovery.v
Restart.v
