(* ===== verification/Prelude.v ===== *)
(** * The Beamlit controller and its gateway: a verification development

    ** The program

    beamlit-controller is two programs.  The _controller_ (src/cmd/main.go) watches
    ModelDeployment and Policy resources of a Kubernetes cluster, mirrors them to the
    Beamlit API, and, for a model with offloading settings, decides which share of the
    model's traffic a remote backend serves.  The _gateway_ (src/gateway/) is the reverse
    proxy that applies the decision: it holds routes, each with host names and weighted
    backends, and sends every request to one of them.

    They interact like this.  Reconciling a model ([ModelReconciler]) converts it
    ([Convert]), writes it to Beamlit ([BeamlitClient]), takes its service over in the
    cluster ([Configurer]), registers a metric watcher ([Metric] or [Prometheus]) and a
    health watcher ([Health]), and has the offloader ([Offloader]) register a route with
    the gateway through its management API ([RouteApi]).  The watchers send events; the
    controller answers an event by having the offloader change the route's weights.
    The gateway looks a request's host up in its tables ([RouteStore]), draws a backend
    ([Balancer]), rewrites and forwards the request, and falls back to another backend
    when that fails ([Forward]).

    ** The files

    - [Prelude] (this file): Go's integers, errors and outcomes, the state monad with its
      program logic ([wp], [triple], [preserves], [onok]), strings, generic lemmas, the
      hint database [inv].
    - [Programs]: computations as sequences of atomic actions.  A handler written against
      [Lift] and [Attempt] is both a computation [M S A] and a program [prog S A], and
      [runs_as] relates the two.  [pool_step] interleaves programs.  Two logics reason about a
      pool: [owp] for programs that each own a part of the state, [rgp] (rely and guarantee; [yields]
      when an invariant is all that is shared) for programs that share it, each of which may see the shared state as a part of a state
      of its own ([View], [private], [widen]).
    - [RouteStore]: gateway/api/v1alpha1 types, gateway/internal/persistence, the tables
      of gateway/internal/proxy/proxy.go.  The persistence interface is a class with a
      contract ([PersistenceSpec]); the in-memory store is an instance.
    - [Balancer]: gateway/internal/proxy/utils.go, [weightedRandomBackend]; [removePathPrefix].
    - [Http]: requests, responses, headers and writers of net/http as the handlers use them.
    - [Forward]: gateway/internal/proxy/handler.go, the three hooks of the reverse proxy, written
      once ([Traffic]) and used as computations and as programs.  [Cost]: what a request costs.
    - [Mux]: the cleaning of paths by which net/http's ServeMux redirects requests.
      [RouteApi]: gateway/api (server) and gateway/clientset (client), connected.
    - [Gateway]: gateway/cmd/run.go and gateway/api/router.go, the process that serves both
      ports, one request after the other, and ([Gateway.Concurrent]) with its requests
      interleaved between any two operations of the concurrent maps.  [Overlap]: the same with
      whole requests of clients, their round trips and fallbacks included.  [Command]:
      gateway/main.go and gateway/cmd, the flags, the configuration file, and the process as it
      begins to listen, serves and exits.
    - [Crd]: api/v1alpha1, the custom resources, as the values they mean.  [Memory]: values that
      lie in memory ([Layout]: what they mean and the cells they are made of), and what a deep
      copy is.  [DeepCopy]: zz_generated.deepcopy.go, on the resources as they lie in memory.
    - [Kube]: services, endpoint slices, the API server as a class with laws ([KubeSpec])
      and an in-memory server that obeys them.
    - [Offloader]: internal/dataplane/offloader; the [Offloader] interface, its contract
      [OffloaderSpec], and the gateway offloader as an instance of both.
    - [Configurer]: internal/dataplane/configurer, with the goroutines it starts; [Reliable]:
      what it does on an API server that works; [Mirror]: the goroutine that mirrors a model's
      endpoint slices, over the events of its watch.
    - [Registry], [Metric], [Prometheus], [Health]: internal/informers.  [Registry] is what
      the informers share: a map of watchers and the goroutines behind them.  [HealthRun]: the
      health informer with the calls of the reconciler, its loop and its watchers interleaved.
    - [Convert], [BeamlitClient]: internal/controller/helper and internal/beamlit.
    - [ModelReconciler]: internal/controller/modeldeployment_controller.go.  Its handlers
      ([Handlers]) are written once and used both run to their end and as programs.
    - [ModelSync]: what a handler relies on and leaves, handler by handler.  [ModelLoop]: the
      model controller as a step relation over reconciliations and events.  [Interleave]:
      the same handlers with their actions interleaved.  [ModelShare]: the share of a model as
      a small abstract machine, which the controller runs.  [Progress]: what attempts at a
      reconciliation leave, failed ones included; a model whose services work is set up, and its
      machine started.  [Stuck]: a model whose service cannot be given
      back, with handlers overlapping in any way.  [Publish]: what reconciling puts on
      Beamlit, whose API server is a class with laws ([BeamlitServer]).  [Requests]: the client's
      calls request by request, with the requests of one among those of another.
    - [PolicyReconciler]: internal/controller/policy_controller.go, and the controller of the
      tool deployments.
    - [Scheme]: the registration of the resource types with the API machinery, and the
      controllers that are made for them.
    - [Config]: internal/config and cmd/main.go: the configuration, its validation, the
      sequence of start-up steps with their exits, and the goroutines it begins.
    - [System]: controller, offloader and gateway composed.  [Wire]: the offloader with the
      client set and the management API between it and the gateway.  [Whole]: the controller over all
      of its real services (configurer, offloader, informers, API client) at once.  [Recovery]: what
      becomes of a model in it after a set-up that failed half way.  [Restart]: the set-up of a
      model in it after a restart of the controller, when what the controller calls works.

    Every definition that translates code carries its place, [[src/file:first-last name]].

    ** How the code is modelled

    A Go function that can fail is a computation [M S A]: from a state to a state and an
    outcome, which is a value, an error or a run-time panic (nil dereference, index out of
    range, division by zero, write to a nil map).  State changed before a failure stays
    changed.  A component with a state of its own runs in [component * world]; [self]
    acts on the component and [outer] calls into the world.  [int] and [int32] are [Z]
    with their wrap-around where arithmetic or a conversion can leave the range.  Maps are
    [gmap]s.  Code outside the repository (the API server, net/http, the Beamlit SDK, codecs,
    the random generator, the clock, resource quantities) is a class of operations, and what is
    relied on is a class of laws, each with an instance that satisfies it.  Where goroutines
    meet, in the model controller and in the gateway, one access to a map or one call of
    another component is one atomic action, and a schedule is any order of the actions.

    ** What is shown

    - Gateway: the split is exact ([weighted_choice_exact_share]), unless the weights leave
      the integers ([weights_wrap_around]); requests are rewritten to a weighted backend
      ([rewrite_targets_a_backend]); transport errors are answered ([error_handler_answers]), but
      a fallback after an error status is aborted ([error_status_fallback_aborts]); a request costs
      so many round trips of the reverse proxy, client calls and token calls at most, each with
      its redirects and probes ([request_cost_is_bounded]).  Every
      request to the management port has the effect of the one call it asks for, or none where
      ServeMux redirects it ([requests_make_their_calls]), and through the client set that of the
      direct call, for what a URL and JSON hold as it is
      ([client_call_refines_direct_call], and for every use the offloader makes of it
      [wired_offloader_is_direct]).  A route stays in force until another request
      says otherwise ([accepted_route_stays]); the tables are sound at every moment of any
      interleaving of requests ([concurrent_requests_are_sound]), and a client whose host keeps a
      route is answered in each of them, or aborted for what a backend did
      ([overlapping_requests_are_answered]).
    - Dataplane: [Configure] of the offloader puts exactly the percentage in force
      ([configured_percentage_is_exact]) and its routes are well formed
      ([offloader_routes_are_sound]); the configurer takes a service over and gives it back
      ([configure_takes_over], [unconfigure_gives_back]); the mirrored slice follows the pods
      while the watch lasts ([mirror_follows_the_pods]); its waiting loop terminates
      ([handover_wait_terminates]).
    - Informers: one live watcher per model ([one_live_watcher_per_model]); a condition is
      the table of the last observations, with the time it was last entered
      ([condition_tracks_last_observations]); Prometheus events are the verdicts on the scrapes,
      when they change ([prometheus_events_alternate]); health reports are exact
      ([health_reports]), but an error of a watcher that was replaced ends its successor
      ([late_error_unwatches_the_model]).
    - Controller: the recorded percentage is the one in force after any run
      ([recorded_share_is_in_force]), also when handlers of different models overlap and
      some of them panic and are recovered ([interleaved_record_is_in_force]), but not when
      handlers of one model overlap ([overlapping_handlers_lose_the_share]).  The share of a
      model is an abstract machine ([events_run_the_share_machine]) that drains a model that is
      down ([down_model_is_drained]) and that metrics offload once ([metric_offloads_once]).
      Reconciling is idempotent and a failure is retried ([reconcile_settles_or_forgets]).  The
      retry need not succeed: the very first set-up finds no slices of the service it has just
      made ([early_configure_leaves_half]), and once the configurer has failed half way no later
      attempt succeeds, in any interleaving ([half_configured_model_never_recovers]).  When the
      slices are there, after a restart, and what is called works, it succeeds, down to the
      gateway ([set_up_after_restart_succeeds]).  What is taken for done is on Beamlit
      ([published_models_are_current], [reconcile_publishes], [reconcile_publishes_policies]); when
      requests fall among each other, what is there is still some whole version that was sent
      ([served_models_were_sent]), though not always the last one ([notice_undoes_an_edit]).
    - System: with every real component below the controller the recorded percentage is
      the weight of the remote backend in the gateway ([whole_record_is_the_weight]), it
      reaches the requests ([configured_share_reaches_requests]), and a workload that is not
      healthy has its traffic at the remote backend ([dead_workload_traffic_goes_remote]).
      Start-up is all or nothing ([start_is_all_or_nothing]), and its controllers find their types
      registered ([controllers_know_their_types]).
    - Resources: a deep copy reads as the original and shares no memory with it
      ([deep_copies_are_separate]); the reference that the reconciler renames is such a copy
      ([renamed_reference_is_a_copy]), so that having it as a plain value loses nothing.
    - Behaviours that are not what the code means are stated as theorems of their own, for
      instance [failed_policy_is_never_retried], [mirror_ends_with_the_watch],
      [delete_beside_update_loses_it], [fallback_response_body_is_lost], [watchers_never_stop],
      [refused_model_takes_the_other_away].

    ** Bounds

    [watchEndpointsSliceToBeUpdated] runs on fuel 5, as many passes as its counter allows
    ([handover_wait_terminates] shows that more makes no difference).  The retries of the
    gateway are a loop over 4 attempts, as in the code.  [ticks n] are the first [n] turns of
    a watcher that the code runs until it is stopped, and [mirror_loop] consumes the list of
    signals a goroutine receives.  Infinite runs of reports are functions on [nat].  All
    other recursion is structural.

    ** What is not modelled

    An access to a map is one action: a data race on a plain map (which the Go runtime aborts)
    is listed as a finding, not as a behaviour.  One call of the Beamlit client is one action of the
    controller, although it makes two requests; what falls between them is in [Requests].  In
    [published_models_are_current] nothing but the controller writes to Beamlit, the answers of
    the API server come in order, and no model that described the same model of Beamlit has been
    deleted.  In [recorded_share_is_in_force], where
    handlers run to their end, a handler that panics takes no step, and there and in
    [interleaved_record_is_in_force] a failed call of the offloader had no effect, which
    [Offloader] itself does not assume.  [System] and [Whole] use the direct calls of the
    gateway, which the client set refines for names a URL, and routes JSON, holds as they are ([Wire]).  A round
    trip is one action: that a client goes away while it is under way is one of its failures.
    Of the reverse proxy, protocol upgrades (status 101) and trailers are left out, and of a URL
    an encoding other than the default one; of a redirect of ServeMux the status is kept and the location's escapes are not.
    The loop of the health informer ends with the process in [HealthRun], which leaves [Stop]
    out.  Watching the cluster's caches, logging, the flags of the controller, managers and the
    mocks of the tests are left out.
    Log messages are dropped, and error texts are kept where they are returned. *)

From Stdlib Require Import Ascii.
From stdpp Require Import base gmap strings list pretty numbers.

Local Open Scope Z_scope.

(** ** Go's integers

    [int] is 64 bits wide on every platform the project builds for; arithmetic
    wraps around silently. *)

Definition wrap (w z : Z) : Z := (z + 2 ^ (w - 1)) `mod` 2 ^ w - 2 ^ (w - 1).
Definition int64 (z : Z) : Z := wrap 64 z.
Definition int32 (z : Z) : Z := wrap 32 z.

Definition max_int64 : Z := 2 ^ 63 - 1.

Definition in_int64 (z : Z) : Prop := - 2 ^ 63 <= z < 2 ^ 63.
Definition in_int32 (z : Z) : Prop := - 2 ^ 31 <= z < 2 ^ 31.

(** Addition and multiplication of [int]/[int64] operands, the product of two of
    which wraps. *)
Definition add64 (a b : Z) : Z := int64 (a + b).
Definition mul64 (a b : Z) : Z := int64 (a * b).

Lemma int64_id z : in_int64 z -> int64 z = z.
Proof.
  unfold in_int64, int64, wrap. intros H.
  change (2 ^ (64 - 1)) with (2 ^ 63). change (2 ^ 64) with (2 * 2 ^ 63).
  rewrite Z.mod_small; lia.
Qed.

Lemma int32_id z : in_int32 z -> int32 z = z.
Proof.
  unfold in_int32, int32, wrap. intros H.
  change (2 ^ (32 - 1)) with (2 ^ 31). change (2 ^ 32) with (2 * 2 ^ 31).
  rewrite Z.mod_small; lia.
Qed.

Lemma int64_range z : in_int64 (int64 z).
Proof.
  unfold in_int64, int64, wrap.
  change (2 ^ (64 - 1)) with (2 ^ 63). change (2 ^ 64) with (2 * 2 ^ 63).
  pose proof (Z.mod_pos_bound (z + 2 ^ 63) (2 * 2 ^ 63)). lia.
Qed.

Lemma int32_range z : in_int32 (int32 z).
Proof.
  unfold in_int32, int32, wrap.
  change (2 ^ (32 - 1)) with (2 ^ 31). change (2 ^ 32) with (2 * 2 ^ 31).
  pose proof (Z.mod_pos_bound (z + 2 ^ 31) (2 * 2 ^ 31)). lia.
Qed.

Lemma add64_id a b : in_int64 (a + b) -> add64 a b = a + b.
Proof. apply int64_id. Qed.

(** Wrapping a part of a sum first changes nothing. *)
Lemma int64_add_l a b : int64 (int64 a + b) = int64 (a + b).
Proof.
  unfold int64, wrap. change (2 ^ (64 - 1)) with (2 ^ 63). change (2 ^ 64) with (2 * 2 ^ 63). f_equal.
  replace ((a + 2 ^ 63) `mod` (2 * 2 ^ 63) - 2 ^ 63 + b + 2 ^ 63) with ((a + 2 ^ 63) `mod` (2 * 2 ^ 63) + b) by lia.
  rewrite Zplus_mod_idemp_l. f_equal. lia.
Qed.

(** ** Go's errors

    An error is known to the code by its message ([err.Error()]) and, for the
    errors of the Kubernetes API machinery, by its status reason
    ([errors.IsNotFound], [errors.IsConflict]). *)

Inductive StatusReason :=
| StatusReasonUnknown
| StatusReasonNotFound
| StatusReasonConflict.

#[global] Instance StatusReason_eq_dec : EqDecision StatusReason.
Proof. solve_decision. Defined.

Record error := mkError { err_message : string; err_reason : StatusReason }.

#[global] Instance error_eq_dec : EqDecision error.
Proof. solve_decision. Defined.

(** [fmt.Errorf] and [errors.New] without a wrapped API error. *)
Definition Errorf (s : string) : error := mkError s StatusReasonUnknown.

(** [fmt.Errorf] with the verb [%w]: the wrapped error's reason stays visible. *)
Definition Wrapf (s : string) (e : error) : error := mkError (s +:+ err_message e) (err_reason e).

Definition IsNotFound (e : error) : bool := bool_decide (err_reason e = StatusReasonNotFound).
Definition IsConflict (e : error) : bool := bool_decide (err_reason e = StatusReasonConflict).

(** ** Outcomes and the state monad

    A Go function that returns [(T, error)] ends in a value, in an error, or in
    a run-time panic (a nil dereference, an index out of range, a division by
    zero, a write to a nil map).  What it mutated before it ended stays
    mutated, so the state is returned in all three cases. *)

Inductive res (A : Type) :=
| Ok (a : A)
| Err (e : error)
| Panic.
Arguments Ok {A} a.
Arguments Err {A} e.
Arguments Panic {A}.

#[global] Instance res_eq_dec {A} `{EqDecision A} : EqDecision (res A).
Proof. solve_decision. Defined.

Definition is_Ok {A} (r : res A) : bool := match r with Ok _ => true | _ => false end.

Definition M (S A : Type) : Type := S -> S * res A.

#[global] Instance M_ret {S} : MRet (M S) := fun A a s => (s, Ok a).
#[global] Instance M_bind {S} : MBind (M S) := fun A B k m s =>
  match m s with
  | (s', Ok a) => k a s'
  | (s', Err e) => (s', Err e)
  | (s', Panic) => (s', Panic)
  end.

Section Monad.
Context {S : Type}.

Definition throw {A} (e : error) : M S A := fun s => (s, Err e).
Definition panic {A} : M S A := fun s => (s, Panic).
Definition gets {A} (f : S -> A) : M S A := fun s => (s, Ok (f s)).
Definition modify (f : S -> S) : M S unit := fun s => (f s, Ok tt).
(** The [if err != nil] of a caller that goes on: the error as a value. *)
Definition try {A} (m : M S A) : M S (A + error) := fun s =>
  match m s with
  | (s', Ok a) => (s', Ok (inl a))
  | (s', Err e) => (s', Ok (inr e))
  | (s', Panic) => (s', Panic)
  end.
(** [return fmt.Errorf("...: %w", err)]. *)
Definition wrap_err {A} (msg : string) (m : M S A) : M S A := fun s =>
  match m s with
  | (s', Err e) => (s', Err (Wrapf msg e))
  | r => r
  end.
Definition of_res {A} (r : res A) : M S A := fun s => (s, r).
(** [*p] for a pointer that may be nil. *)
Definition deref {A} (p : option A) : M S A :=
  match p with Some a => mret a | None => panic end.
(** [for _, x := range l { ... }] whose body may return early. *)
Fixpoint foreach {A} (l : list A) (f : A -> M S unit) : M S unit :=
  match l with
  | [] => mret tt
  | x :: l' => f x ;; foreach l' f
  end.
End Monad.

(** A component's operation run on the part of a larger state it owns. *)
Definition zoom {S T A} (get : S -> T) (set : T -> S -> S) (m : M T A) : M S A := fun s =>
  match m (get s) with (t, r) => (set t s, r) end.

(** A component with a state of its own, in a world it shares: its operations on
    itself, and the calls it makes into the world. *)
Definition self {S W A} (m : M S A) : M (S * W) A := zoom fst (fun s x => (s, x.2)) m.
Definition outer {S W A} (m : M W A) : M (S * W) A := zoom snd (fun w x => (x.1, w)) m.

(** ** Reasoning about computations

    [wp m Q s]: run from [s], [m] ends in an outcome and a state that satisfy
    [Q].  [triple P m Q] says so of every start in [P]; [preserves I m] that [m]
    keeps the invariant [I] whichever way it ends. *)

Definition wp {S A} (m : M S A) (Q : res A -> S -> Prop) (s : S) : Prop :=
  Q (m s).2 (m s).1.

Definition triple {S A} (P : S -> Prop) (m : M S A) (Q : res A -> S -> Prop) : Prop :=
  forall s, P s -> wp m Q s.

Definition preserves {S A} (I : S -> Prop) (m : M S A) : Prop :=
  triple I m (fun _ => I).

(** [keeps view m]: whichever way [m] ends, it leaves what [view] shows of the state as it
    was. *)
Definition keeps {S A V} (view : S -> V) (m : M S A) : Prop := forall s, view (m s).1 = view s.

Create HintDb inv discriminated.

Section Wp.
Context {S : Type}.
Implicit Types (s : S).

Lemma wp_run {A} (m : M S A) Q s s' r : m s = (s', r) -> Q r s' -> wp m Q s.
Proof. unfold wp. by intros ->. Qed.

Lemma wp_ret {A} (a : A) (Q : res A -> S -> Prop) s : Q (Ok a) s -> wp (mret a) Q s.
Proof. done. Qed.
Lemma wp_throw {A} e (Q : res A -> S -> Prop) s : Q (Err e) s -> wp (throw e) Q s.
Proof. done. Qed.
Lemma wp_of_res {A} (r : res A) (Q : res A -> S -> Prop) s : Q r s -> wp (of_res r) Q s.
Proof. done. Qed.
Lemma wp_gets {A} (f : S -> A) Q s : Q (Ok (f s)) s -> wp (gets f) Q s.
Proof. done. Qed.
Lemma wp_modify (f : S -> S) Q s : Q (Ok tt) (f s) -> wp (modify f) Q s.
Proof. done. Qed.

Lemma wp_bind {A B} (m : M S A) (k : A -> M S B) Q s :
  wp m (fun r s' => match r with
                    | Ok a => wp (k a) Q s'
                    | Err e => Q (Err e) s'
                    | Panic => Q Panic s'
                    end) s ->
  wp (m ≫= k) Q s.
Proof. unfold wp, mbind, M_bind. by destruct (m s) as [s' [a|e|]]. Qed.

Lemma wp_try {A} (m : M S A) Q s :
  wp m (fun r s' => match r with
                    | Ok a => Q (Ok (inl a)) s'
                    | Err e => Q (Ok (inr e)) s'
                    | Panic => Q Panic s'
                    end) s ->
  wp (try m) Q s.
Proof. unfold wp, try. by destruct (m s) as [s' [a|e|]]. Qed.

Lemma wp_wrap_err {A} (m : M S A) msg Q s :
  wp m (fun r s' => match r with Err e => Q (Err (Wrapf msg e)) s' | _ => Q r s' end) s ->
  wp (wrap_err msg m) Q s.
Proof. unfold wp, wrap_err. by destruct (m s) as [s' [a|e|]]. Qed.

Lemma wp_zoom {T A} get set (m : M T A) Q s :
  wp m (fun r t => Q r (set t s)) (get s) -> wp (zoom get set m) Q s.
Proof. unfold wp, zoom. by destruct (m (get s)). Qed.

Lemma wp_self {W A} (m : M S A) (Q : res A -> S * W -> Prop) s w :
  wp m (fun r s' => Q r (s', w)) s -> wp (self m) Q (s, w).
Proof. unfold wp, self, zoom. cbn. by destruct (m s). Qed.

Lemma wp_outer {W A} (m : M W A) (Q : res A -> S * W -> Prop) s w :
  wp m (fun r w' => Q r (s, w')) w -> wp (outer m) Q (s, w).
Proof. unfold wp, outer, zoom. cbn. by destruct (m w). Qed.

Lemma wp_mono {A} (m : M S A) Q Q' s :
  wp m Q' s -> (forall r s', Q' r s' -> Q r s') -> wp m Q s.
Proof. unfold wp. auto. Qed.

Lemma wp_triple {A} P (m : M S A) Q Q' s :
  triple P m Q' -> P s -> (forall r s', Q' r s' -> Q r s') -> wp m Q s.
Proof. intros Hm Hs HQ. apply HQ, Hm, Hs. Qed.
End Wp.

(** Run a straight-line computation whose calls are in normal form. *)
Ltac mrun :=
  unfold wp, self, outer, zoom, wrap_err, try, gets, modify, of_res, deref, throw, panic,
    mbind, M_bind, mret, M_ret; cbn.

(** One step of symbolic execution: the head of the computation is a construct of
    the monad. *)
Ltac wp_step :=
  lazymatch goal with
  | |- wp (mbind _ _) _ _ => apply wp_bind
  | |- wp (mret _) _ _ => apply wp_ret
  | |- wp (throw _) _ _ => apply wp_throw
  | |- wp (gets _) _ _ => apply wp_gets
  | |- wp (modify _) _ _ => apply wp_modify
  | |- wp (of_res _) _ _ => apply wp_of_res
  | |- wp (try _) _ _ => apply wp_try
  | |- wp (wrap_err _ _) _ _ => apply wp_wrap_err
  | |- wp (self _) _ (_, _) => apply wp_self
  | |- wp (outer _) _ (_, _) => apply wp_outer
  | |- wp (zoom _ _ _) _ _ => apply wp_zoom
  end.

Section Triples.
Context {S : Type}.
Implicit Types (I P : S -> Prop).

Lemma triple_bind {A B} P (m : M S A) (k : A -> M S B) Q R :
  triple P m Q ->
  (forall a, triple (Q (Ok a)) (k a) R) ->
  (forall e s, Q (Err e) s -> R (Err e) s) ->
  (forall s, Q Panic s -> R Panic s) ->
  triple P (m ≫= k) R.
Proof.
  intros Hm Hk He Hp s Hs. apply wp_bind. eapply wp_triple; [exact Hm|done|].
  intros [a|e|] s' Hr; [by apply Hk|auto|auto].
Qed.

Lemma triple_conseq {A} P P' (m : M S A) Q Q' :
  triple P' m Q' -> (forall s, P s -> P' s) -> (forall r s, Q' r s -> Q r s) ->
  triple P m Q.
Proof. intros Hm HP HQ s Hs. eapply wp_mono; [by apply Hm, HP|done]. Qed.

Lemma preserves_ret {A} I (a : A) : preserves I (mret a).
Proof. by intros s. Qed.
Lemma preserves_throw {A} I e : preserves I (throw (A:=A) e).
Proof. by intros s. Qed.
Lemma preserves_panic {A} I : preserves I (panic (A:=A)).
Proof. by intros s. Qed.
Lemma preserves_gets {A} I (f : S -> A) : preserves I (gets f).
Proof. by intros s. Qed.
Lemma preserves_of_res {A} I (r : res A) : preserves I (of_res r).
Proof. by intros s. Qed.
Lemma preserves_deref {A} I (p : option A) : preserves I (deref p).
Proof. destruct p; by intros s. Qed.
Lemma preserves_modify I (f : S -> S) :
  (forall s, I s -> I (f s)) -> preserves I (modify f).
Proof. intros H s Hs. by apply H. Qed.

Lemma preserves_bind {A B} I (m : M S A) (k : A -> M S B) :
  preserves I m -> (forall a, preserves I (k a)) -> preserves I (m ≫= k).
Proof. intros Hm Hk. eapply triple_bind; [exact Hm|exact Hk|done|done]. Qed.

(** Into a computation whose first part keeps an invariant. *)
Lemma wp_bind_preserves {A B} I (m : M S A) (k : A -> M S B) Q s :
  preserves I m -> I s -> (forall e s', I s' -> Q (Err e) s') -> (forall s', I s' -> Q Panic s') ->
  (forall a s', I s' -> wp (k a) Q s') -> wp (m ≫= k) Q s.
Proof. intros Hm Hs He Hp Hk. apply wp_bind. eapply wp_mono; [by apply Hm|]. intros [a|e|] s' Hs'; auto. Qed.

Lemma preserves_try {A} I (m : M S A) : preserves I m -> preserves I (try m).
Proof.
  intros Hm s Hs. apply wp_try. eapply wp_mono; [by apply Hm|]. by intros [a|e|].
Qed.

Lemma preserves_foreach {A} I (l : list A) (f : A -> M S unit) :
  (forall x, x ∈ l -> preserves I (f x)) -> preserves I (foreach l f).
Proof.
  induction l as [|x l IH]; intros Hf; cbn.
  - apply preserves_ret.
  - apply preserves_bind.
    + apply Hf. set_solver.
    + intros _. apply IH. intros y Hy. apply Hf. set_solver.
Qed.

Lemma preserves_if {A} I (b : bool) (m1 m2 : M S A) :
  preserves I m1 -> preserves I m2 -> preserves I (if b then m1 else m2).
Proof. by destruct b. Qed.

Lemma preserves_option {A B} I (o : option B) (m1 : B -> M S A) (m2 : M S A) :
  (forall b, preserves I (m1 b)) -> preserves I m2 ->
  preserves I (match o with Some b => m1 b | None => m2 end).
Proof. destruct o; auto. Qed.

Lemma preserves_sum {A B C} I (o : B + C) (m1 : B -> M S A) (m2 : C -> M S A) :
  (forall b, preserves I (m1 b)) -> (forall c, preserves I (m2 c)) ->
  preserves I (match o with inl b => m1 b | inr c => m2 c end).
Proof. destruct o; auto. Qed.

Lemma preserves_zoom {T A} (I : S -> Prop) get set (m : M T A) :
  (forall s t, I s -> I (set t s)) -> preserves I (zoom get set m).
Proof.
  intros H s Hs. apply wp_zoom. unfold wp. by apply H.
Qed.
End Triples.

Section Keeps.
Context {S V : Type} (view : S -> V).

Lemma keeps_ret {A} (a : A) : keeps view (mret a).
Proof. done. Qed.
Lemma keeps_throw {A} e : keeps view (throw (A:=A) e).
Proof. done. Qed.
Lemma keeps_panic {A} : keeps view (panic (A:=A)).
Proof. done. Qed.
Lemma keeps_of_res {A} (r : res A) : keeps view (of_res r).
Proof. done. Qed.
Lemma keeps_deref {A} (o : option A) : keeps view (deref o).
Proof. by destruct o. Qed.
Lemma keeps_bind {A B} (m : M S A) (k : A -> M S B) :
  keeps view m -> (forall a, keeps view (k a)) -> keeps view (m ≫= k).
Proof.
  intros Hm Hk s. unfold mbind, M_bind. specialize (Hm s). destruct (m s) as [s' [a|e|]]; cbn in *; [|done|done].
  by rewrite Hk.
Qed.
Lemma keeps_if {A} (b : bool) (m1 m2 : M S A) : keeps view m1 -> keeps view m2 -> keeps view (if b then m1 else m2).
Proof. by destruct b. Qed.
Lemma keeps_preserves {A} (I : V -> Prop) (m : M S A) : keeps view m -> preserves (fun s => I (view s)) m.
Proof. intros Hm s Hs. unfold wp. by rewrite Hm. Qed.
End Keeps.

Section Parts.
Context {S W : Type}.

Lemma preserves_self {A} (J : S -> Prop) (m : M S A) :
  preserves J m -> preserves (fun x : S * W => J x.1) (self m).
Proof. intros Hm [s w] Hs. apply wp_self. by apply Hm. Qed.
Lemma preserves_outer_fst {A} (J : S -> Prop) (m : M W A) :
  preserves (fun x : S * W => J x.1) (outer m).
Proof. intros [s w] Hs. apply wp_outer. done. Qed.
End Parts.

(** ** Success

    [onok P m Q]: a run of [m] from a state in [P] that ends in a value satisfies [Q]
    of the value and the final state.  Failing runs are not constrained. *)

Definition onok {S A} (P : S -> Prop) (m : M S A) (Q : A -> S -> Prop) : Prop :=
  forall s s' a, P s -> m s = (s', Ok a) -> Q a s'.

Section Onok.
Context {S : Type}.
Implicit Types (P : S -> Prop).

Lemma onok_conseq {A} P P' (m : M S A) Q Q' :
  onok P' m Q' -> (forall s, P s -> P' s) -> (forall a s, Q' a s -> Q a s) -> onok P m Q.
Proof. intros Hm HP HQ s s' a Hs E. eapply HQ, Hm; [by apply HP|exact E]. Qed.

Lemma onok_pre {A} P P' (m : M S A) Q :
  (forall s, P s -> P' s) -> onok P' m Q -> onok P m Q.
Proof. intros HP Hm. eapply onok_conseq; [exact Hm|done|done]. Qed.

Lemma onok_bind {A B} P (m : M S A) (k : A -> M S B) R Q :
  onok P m R -> (forall a, onok (R a) (k a) Q) -> onok P (m ≫= k) Q.
Proof.
  intros Hm Hk s s' b Hs. unfold mbind, M_bind.
  destruct (m s) as [s1 [a|e|]] eqn:E; [|done|done]. intros E'.
  eapply Hk; [|exact E']. by eapply Hm.
Qed.

Lemma onok_ret {A} (a : A) (Q : A -> S -> Prop) : onok (Q a) (mret a) Q.
Proof. by intros s s' b Hs [= <- <-]. Qed.
Lemma onok_skip {A} P (a : A) : onok P (mret a) (fun _ => P).
Proof. by intros s s' b Hs [= <- <-]. Qed.
Lemma onok_throw {A} P e (Q : A -> S -> Prop) : onok P (throw e) Q.
Proof. by intros s s' b Hs [=]. Qed.
Lemma onok_panic {A} P (Q : A -> S -> Prop) : onok P panic Q.
Proof. by intros s s' b Hs [=]. Qed.
Lemma onok_gets {A} P (f : S -> A) : onok P (gets f) (fun a s => P s /\ a = f s).
Proof. by intros s s' b Hs [= <- <-]. Qed.
Lemma onok_modify (f : S -> S) (Q : unit -> S -> Prop) : onok (fun s => Q tt (f s)) (modify f) Q.
Proof. by intros s s' [] Hs [= <-]. Qed.
Lemma onok_deref {A} P (p : option A) : onok P (deref p) (fun a s => P s /\ p = Some a).
Proof. destruct p as [a|]; [by intros s s' b Hs [= <- <-]|apply onok_panic]. Qed.
Lemma onok_bind_some {A B} P (a : A) (k : A -> M S B) Q :
  onok P (k a) Q -> onok P (deref (Some a) ≫= k) Q.
Proof. intros Hk s s' b Hs E. by eapply Hk. Qed.
Lemma onok_of_res {A} P (r : res A) : onok P (of_res r) (fun a s => P s /\ r = Ok a).
Proof. by intros s s' b Hs [= <- H]. Qed.

(** A loop whose invariant speaks of the elements still to come. *)
Lemma onok_foreach {A} (Inv : list A -> S -> Prop) (l : list A) (f : A -> M S unit) :
  (forall x l', onok (Inv (x :: l')) (f x) (fun _ => Inv l')) ->
  onok (Inv l) (foreach l f) (fun _ => Inv []).
Proof.
  intros Hf. induction l as [|x l IH]; cbn; [apply (onok_ret tt (fun _ => Inv []))|].
  eapply onok_bind; [apply Hf|]. intros ?. apply IH.
Qed.
End Onok.

Lemma onok_self {S W A} (P : S * W -> Prop) (m : M S A) Q :
  (forall w, onok (fun s => P (s, w)) m (fun a s => Q a (s, w))) -> onok P (self m) Q.
Proof.
  intros Hm [s w] x' a Hs. unfold self, zoom. cbn. destruct (m s) as [s' r] eqn:E.
  intros [= <- ->]. by eapply Hm.
Qed.
Lemma onok_outer {S W A} (P : S * W -> Prop) (m : M W A) Q :
  (forall s, onok (fun w => P (s, w)) m (fun a w => Q a (s, w))) -> onok P (outer m) Q.
Proof.
  intros Hm [s w] x' a Hs. unfold outer, zoom. cbn. destruct (m w) as [w' r] eqn:E.
  intros [= <- ->]. by eapply Hm.
Qed.

(** Taking apart a run that ended in a value. *)
Lemma self_gets_bind {S W A B} (f : S -> A) (k : A -> M (S * W) B) s w :
  (self (gets f) ≫= k) (s, w) = k (f s) (s, w).
Proof. done. Qed.
Lemma bind_run {S A B} (m : M S A) (k : A -> M S B) s :
  (m ≫= k) s = match m s with (s', Ok a) => k a s' | (s', Err e) => (s', Err e) | (s', Panic) => (s', Panic) end.
Proof. done. Qed.
Lemma bind_Ok_run {S A B} (m : M S A) (k : A -> M S B) s s' a :
  m s = (s', Ok a) -> (m ≫= k) s = k a s'.
Proof. intros E. unfold mbind, M_bind. by rewrite E. Qed.
Lemma try_Ok_run {S A} (m : M S A) s s' a : m s = (s', Ok a) -> try m s = (s', Ok (inl a)).
Proof. intros E. unfold try. by rewrite E. Qed.
Lemma bind_Ok_inv {S A B} (m : M S A) (k : A -> M S B) s s' b :
  (m ≫= k) s = (s', Ok b) -> exists s1 a, m s = (s1, Ok a) /\ k a s1 = (s', Ok b).
Proof. unfold mbind, M_bind. destruct (m s) as [s1 [a|e|]]; [eauto|done|done]. Qed.
Lemma outer_Ok_inv {S W A} (m : M W A) (s : S) w x' a :
  outer m (s, w) = (x', Ok a) -> exists w', x' = (s, w') /\ m w = (w', Ok a).
Proof. unfold outer, zoom. cbn. destruct (m w) as [w' r]. intros [= <- ->]. eauto. Qed.
Lemma try_Ok_inv {S A} (m : M S A) s s' v :
  try m s = (s', Ok v) -> s' = (m s).1 /\ (m s).2 = match v with inl a => Ok a | inr e => Err e end.
Proof. unfold try. destruct (m s) as [s1 [a|e|]]; intros E; by simplify_eq. Qed.

#[export] Hint Resolve keeps_ret keeps_throw keeps_panic keeps_of_res keeps_deref keeps_bind keeps_if : inv.
#[export] Hint Resolve preserves_self preserves_outer_fst : inv.
#[export] Hint Resolve preserves_ret preserves_throw preserves_panic preserves_gets
  preserves_of_res preserves_deref preserves_bind preserves_try preserves_if
  preserves_option preserves_sum : inv.

(** Through a handler action by action. *)
Ltac walk := repeat first
  [ solve [auto 2 with inv nocore] | progress intros | case_match
  | lazymatch goal with
    | |- preserves _ (mbind _ _) => apply preserves_bind
    | |- preserves _ (try _) => apply preserves_try
    end ].

(** ** Strings of Go's standard library *)

Section Strings.
(** [strings.Split(s, sep)] for a separator of one byte. *)
Fixpoint Split (s : string) (sep : Ascii.ascii) : list string :=
  match s with
  | EmptyString => [EmptyString]
  | String a s' =>
      if Ascii.eqb a sep then EmptyString :: Split s' sep
      else match Split s' sep with
           | x :: l => String a x :: l
           | [] => [String a EmptyString]
           end
  end.

(** [strings.Join(l, sep)] for the same separators. *)
Fixpoint Join (l : list string) (sep : Ascii.ascii) : string :=
  match l with
  | [] => EmptyString
  | [x] => x
  | x :: l' => x +:+ String sep (Join l' sep)
  end.

Fixpoint contains_byte (c : Ascii.ascii) (s : string) : bool :=
  match s with
  | EmptyString => false
  | String a s' => Ascii.eqb a c || contains_byte c s'
  end.

(** [strings.HasPrefix(s, p)]. *)
Definition HasPrefix (s p : string) : bool := String.prefix p s.

(** [s[n:]] for [n] at most the length of [s]. *)
Fixpoint str_drop (n : nat) (s : string) : string :=
  match n, s with
  | O, _ => s
  | S n', String _ s' => str_drop n' s'
  | S _, EmptyString => EmptyString
  end.

(** [strings.TrimPrefix(s, p)]. *)
Definition TrimPrefix (s p : string) : string :=
  if HasPrefix s p then str_drop (String.length p) s else s.

(** [strings.HasSuffix(s, p)]. *)
Definition HasSuffix (s p : string) : bool :=
  (String.length p <=? String.length s)%nat &&
  String.eqb (str_drop (String.length s - String.length p) s) p.

(** [strings.ReplaceAll(s, old, new)] for a non-empty [old]: after a match the
    scan goes on behind it ([skip] bytes of the match are left to pass). *)
Fixpoint replace_scan (old new s : string) (skip : nat) : string :=
  match s with
  | EmptyString => EmptyString
  | String c s' =>
      match skip with
      | S k => replace_scan old new s' k
      | O => if HasPrefix s old
             then new +:+ replace_scan old new s' (String.length old - 1)
             else String c (replace_scan old new s' 0)
      end
  end.
Definition ReplaceAll (s old new : string) : string := replace_scan old new s 0.

(** [strconv.FormatBool]. *)
Definition FormatBool (b : bool) : string := if b then "true" else "false".
(** The verb [%d]. *)
Definition Itoa (z : Z) : string := pretty z.
End Strings.

Section StringLemmas.
Implicit Types (s t p : string) (c : Ascii.ascii).

Lemma app_cons_str a s t : String a s +:+ t = String a (s +:+ t).
Proof. reflexivity. Qed.
Lemma app_nil_l_str t : "" +:+ t = t.
Proof. reflexivity. Qed.

Lemma app_nil_r_str s : s +:+ "" = s.
Proof. induction s as [|a s IH]; [done|]. by rewrite app_cons_str, IH. Qed.

Lemma app_assoc_str s t p : s +:+ (t +:+ p) = (s +:+ t) +:+ p.
Proof. induction s as [|a s IH]; [done|]. by rewrite !app_cons_str, IH. Qed.

Lemma HasPrefix_app p s : HasPrefix (p +:+ s) p = true.
Proof.
  unfold HasPrefix. induction p as [|a p IH]; [by destruct s|].
  rewrite app_cons_str. cbn. destruct (Ascii.ascii_dec a a); [done|congruence].
Qed.

Lemma str_drop_app p s : str_drop (String.length p) (p +:+ s) = s.
Proof. by induction p. Qed.

Lemma TrimPrefix_app p s : TrimPrefix (p +:+ s) p = s.
Proof. unfold TrimPrefix. by rewrite HasPrefix_app, str_drop_app. Qed.

Lemma HasPrefix_spec s p : HasPrefix s p = true <-> exists t, s = p +:+ t.
Proof.
  split; [|intros [t ->]; apply HasPrefix_app].
  unfold HasPrefix. revert s. induction p as [|a p IH]; intros s H.
  - by exists s.
  - destruct s as [|b s]; [done|]. cbn in H.
    destruct (Ascii.ascii_dec a b) as [->|]; [|done].
    destruct (IH s H) as [t ->]. by exists t.
Qed.

Lemma replace_scan_skip old new s t :
  replace_scan old new (s +:+ t) (String.length s) = ReplaceAll t old new.
Proof. induction s as [|a s IH]; [done|]. rewrite app_cons_str. apply IH. Qed.

Lemma ReplaceAll_match c old new t :
  ReplaceAll (String c old +:+ t) (String c old) new = new +:+ ReplaceAll t (String c old) new.
Proof.
  unfold ReplaceAll at 1. rewrite app_cons_str. cbn [replace_scan].
  rewrite <- app_cons_str, HasPrefix_app. f_equal. cbn [String.length].
  replace (S (String.length old) - 1)%nat with (String.length old) by lia. apply replace_scan_skip.
Qed.

(** Text without the first byte of [old] is passed over. *)
Lemma ReplaceAll_literal c old new s t :
  contains_byte c s = false ->
  ReplaceAll (s +:+ t) (String c old) new = s +:+ ReplaceAll t (String c old) new.
Proof.
  induction s as [|a s IH]; [done|]. cbn. intros [Ha Hs]%orb_false_iff.
  rewrite !app_cons_str. unfold ReplaceAll at 1. cbn [replace_scan].
  assert (HasPrefix (String a (s +:+ t)) (String c old) = false) as ->.
  { unfold HasPrefix. cbn. destruct (Ascii.ascii_dec c a) as [->|]; [|done].
    by rewrite Ascii.eqb_refl in Ha. }
  f_equal. by apply IH.
Qed.

Lemma Split_not_nil s c : Split s c <> [].
Proof. destruct s as [|a s]; cbn; [done|]. destruct (Ascii.eqb a c); [done|]. by case_match. Qed.

Lemma Split_no_sep s c : contains_byte c s = false -> Split s c = [s].
Proof.
  induction s as [|a s IH]; [done|]. cbn. intros [Ha Hs]%orb_false_iff.
  rewrite Ha. by rewrite (IH Hs).
Qed.

Lemma Split_sep s c : contains_byte c s = true -> exists x y l, Split s c = x :: y :: l.
Proof.
  induction s as [|a s IH]; [done|]. cbn. destruct (Ascii.eqb a c).
  - intros _. pose proof (Split_not_nil s c). destruct (Split s c) as [|y l]; [done|]. by exists "", y, l.
  - cbn. intros Hs. destruct (IH Hs) as (x & y & l & ->). by do 3 eexists.
Qed.

Lemma Split_app_sep s t c :
  contains_byte c s = false -> Split (s +:+ String c t) c = s :: Split t c.
Proof.
  induction s as [|a s IH]; rewrite ?app_nil_l_str, ?app_cons_str; cbn.
  - intros _. by rewrite Ascii.eqb_refl.
  - intros [Ha Hs]%orb_false_iff. rewrite Ha. by rewrite (IH Hs).
Qed.

Lemma Split_pieces s c : Forall (fun x => contains_byte c x = false) (Split s c).
Proof.
  induction s as [|a s IH]; cbn; [by repeat constructor|].
  destruct (Ascii.eqb a c) eqn:Ha; [by constructor|].
  destruct (Split s c) as [|x l]; [by repeat constructor; cbn; rewrite Ha|].
  inversion IH; subst. constructor; [|done]. cbn. by rewrite Ha.
Qed.

Lemma Join_Split s c : Join (Split s c) c = s.
Proof.
  induction s as [|a s IH]; [done|]. cbn [Split].
  destruct (Ascii.eqb a c) eqn:Ha.
  - apply Ascii.eqb_eq in Ha as ->.
    pose proof (Split_not_nil s c). destruct (Split s c); [done|]. cbn in *. by rewrite IH.
  - pose proof (Split_not_nil s c). destruct (Split s c) as [|x [|y l]]; [done| |];
      cbn in *; by rewrite <- IH.
Qed.

Lemma contains_byte_app c s t :
  contains_byte c (s +:+ t) = contains_byte c s || contains_byte c t.
Proof. induction s as [|a s IH]; [done|]. rewrite app_cons_str. cbn. by rewrite IH, orb_assoc. Qed.

Lemma app_inj_sep s1 s2 t1 t2 c :
  contains_byte c s1 = false -> contains_byte c s2 = false ->
  s1 +:+ String c t1 = s2 +:+ String c t2 -> s1 = s2 /\ t1 = t2.
Proof.
  revert s2. induction s1 as [|a s1 IH]; intros [|b s2];
    rewrite ?app_nil_l_str, ?app_cons_str; cbn; intros H1 H2 [= ];
    simplify_eq; try (by rewrite Ascii.eqb_refl in *); [done|].
  apply orb_false_iff in H1 as [_ H1], H2 as [_ H2].
  by destruct (IH s2 H1 H2) as [-> ->].
Qed.
End StringLemmas.

(** The keys ["namespace/name"] the controller indexes its maps with. *)
Definition slash_key (a b : string) : string := a +:+ "/" +:+ b.

Lemma slash_key_inj a1 a2 b1 b2 :
  contains_byte "/"%char a1 = false -> contains_byte "/"%char a2 = false ->
  slash_key a1 b1 = slash_key a2 b2 -> a1 = a2 /\ b1 = b2.
Proof. intros H1 H2. by apply app_inj_sep. Qed.

(** ** Loops and maps *)

(** A loop whose body only updates the state is a left fold. *)
Lemma foreach_modify {S A} (l : list A) (f : A -> S -> S) s :
  foreach l (fun x => modify (f x)) s = (foldl (fun s x => f x s) s l, Ok tt).
Proof. revert s. induction l as [|x l IH]; intros s; [done|]. cbn. apply IH. Qed.

(** Storing one value under every key of a list, in order. *)
Definition store_all {K V} `{Countable K} (l : list K) (v : V) (m : gmap K V) : gmap K V :=
  foldl (fun m k => <[k := v]> m) m l.

Lemma lookup_store_all {K V} `{Countable K} (l : list K) (v : V) (m : gmap K V) k :
  store_all l v m !! k = if decide (k ∈ l) then Some v else m !! k.
Proof.
  unfold store_all. revert m. induction l as [|x l IH]; intros m; cbn.
  - case_decide as E; [by apply not_elem_of_nil in E|done].
  - rewrite IH. destruct (decide (k = x)) as [->|Hne].
    + rewrite lookup_insert_eq. rewrite (decide_True (P:=x ∈ x :: l)) by (apply elem_of_cons; by left).
      by case_decide.
    + rewrite lookup_insert_ne by done. apply decide_ext. rewrite elem_of_cons. tauto.
Qed.

(** Reachability keeps an invariant that holds at the start and across each step. *)
Lemma rtc_invariant {S} (R : relation S) (I : S -> Prop) s s' :
  (forall x y, I x -> R x y -> I y) -> I s -> rtc R s s' -> I s'.
Proof. intros Hstep Hs Hrtc. induction Hrtc; eauto. Qed.
