(* ===== verification/Programs.v ===== *)
(** Programs as sequences of atomic actions: a computation written once against an
    interface of control operations is both a state transformer that runs to its end and
    a resumption that other programs can be interleaved with. *)

From stdpp Require Import base list strings relations.
From S2P Require Import Prelude.

(** ** Control operations

    What the body of a handler is written with, besides [mret] and [mbind]: an atomic
    action of the shared state, and the error of a part as a value. *)
Class Lift (S : Type) (F : Type -> Type) := lift : forall A, M S A -> F A.
Class Attempt (F : Type -> Type) := attempt : forall A, F A -> F (A + error)%type.
Arguments lift {S F _ A} _.
Arguments attempt {F _ A} _.

#[export] Instance M_lift {S} : Lift S (M S) := fun A m => m.
#[export] Instance M_attempt {S} : Attempt (M S) := fun A m => try m.

(** [for _, x := range l { ... }]. *)
Fixpoint each {F : Type -> Type} `{MRet F, MBind F} {A} (l : list A) (f : A -> F unit) : F unit :=
  match l with
  | [] => mret tt
  | x :: l' => f x ;; each l' f
  end.

(** ** Resumptions

    A program is finished, or performs an action and goes on with its outcome. *)
Inductive prog (S A : Type) : Type :=
| Ret (a : A)
| Fail (e : error)
| Crash
| Act (B : Type) (m : M S B) (k : res B -> prog S A).
Arguments Ret {S A} a.
Arguments Fail {S A} e.
Arguments Crash {S A}.
Arguments Act {S A B} m k.

Section Prog.
Context {S : Type}.

Definition of_outcome {A} (r : res A) : prog S A :=
  match r with Ok a => Ret a | Err e => Fail e | Panic => Crash end.

Fixpoint prog_bind {A B} (p : prog S A) (f : A -> prog S B) : prog S B :=
  match p with
  | Ret a => f a
  | Fail e => Fail e
  | Crash => Crash
  | Act m k => Act m (fun r => prog_bind (k r) f)
  end.

Fixpoint prog_try {A} (p : prog S A) : prog S (A + error) :=
  match p with
  | Ret a => Ret (inl a)
  | Fail e => Ret (inr e)
  | Crash => Crash
  | Act m k => Act m (fun r => prog_try (k r))
  end.

#[export] Instance prog_ret : MRet (prog S) := fun A a => Ret a.
#[export] Instance prog_mbind : MBind (prog S) := fun A B f p => prog_bind p f.
#[export] Instance prog_lift : Lift S (prog S) := fun A m => Act m of_outcome.
#[export] Instance prog_attempt : Attempt (prog S) := fun A p => prog_try p.

(** *** Run alone *)

Fixpoint run {A} (p : prog S A) : M S A :=
  match p with
  | Ret a => mret a
  | Fail e => throw e
  | Crash => panic
  | Act m k => fun s => let '(s', r) := m s in run (k r) s'
  end.

(** [runs_as p c]: run alone, the program is the computation. *)
Definition runs_as {A} (p : prog S A) (c : M S A) : Prop := forall s, run p s = c s.

Lemma runs_as_ret {A} (a : A) : runs_as (mret a) (mret a).
Proof. done. Qed.
Lemma runs_as_lift {A} (m : M S A) : runs_as (lift m) (lift m).
Proof. intros s. unfold lift, prog_lift, M_lift. cbn. by destruct (m s) as [s' [a|e|]]. Qed.
Lemma runs_as_bind {A B} (p : prog S A) c (f : A -> prog S B) g :
  runs_as p c -> (forall a, runs_as (f a) (g a)) -> runs_as (p ≫= f) (c ≫= g).
Proof.
  intros Hp Hf s. unfold mbind, prog_mbind, M_bind. rewrite <- Hp. clear Hp c.
  revert s. induction p as [a|e| |C m k IH]; intros s; cbn; [apply Hf|done|done|].
  destruct (m s) as [s' r]. apply IH.
Qed.
Lemma runs_as_each {A} (l : list A) (f : A -> prog S unit) (g : A -> M S unit) :
  (forall x, runs_as (f x) (g x)) -> runs_as (each l f) (foreach l g).
Proof.
  intros Hf. induction l as [|x l IH]; cbn [each foreach]; [apply runs_as_ret|].
  apply runs_as_bind; [apply Hf|by intros _].
Qed.
Lemma runs_as_attempt {A} (p : prog S A) c : runs_as p c -> runs_as (attempt p) (attempt c).
Proof.
  intros Hp s. unfold attempt, M_attempt, try. rewrite <- Hp. clear Hp c.
  revert s. induction p as [a|e| |C m k IH]; intros s; cbn; [done..|].
  destruct (m s) as [s' r]. apply IH.
Qed.
End Prog.

(** A program written as the computation is shown to run as it by following the text of
    both; the parts are found in [runs]. *)
Create HintDb runs.
Ltac runs :=
  repeat first
    [ solve [eauto 1 with runs nocore] | done | apply runs_as_ret | apply runs_as_lift | apply runs_as_attempt
    | apply runs_as_bind; [|intros ?] | case_match ].

(** ** Interleaving

    The programs in flight, each with a tag.  One step starts a program, performs the next
    action of one, or retires one that is finished.  A program that crashed stays, unless
    crashes under its tag are recovered. *)
Section Interleaving.
Context {S T A : Type}.
Definition pool : Type := list (T * prog S A).

(** [admits l t p]: with [l] in flight, the program [p] may be started under [t]. *)
Inductive pool_step (recovers : T -> Prop) (admits : pool -> T -> prog S A -> Prop) (world : relation S) : relation (S * pool) :=
| pool_start s l t p : admits l t p -> pool_step recovers admits world (s, l) (s, l ++ [(t, p)])
| pool_act s l1 l2 t B (m : M S B) k :
    pool_step recovers admits world (s, l1 ++ (t, Act m k) :: l2) ((m s).1, l1 ++ (t, k (m s).2) :: l2)
| pool_retire s l1 l2 t r : r <> Panic ->
    pool_step recovers admits world (s, l1 ++ (t, of_outcome r) :: l2) (s, l1 ++ l2)
| pool_recover s l1 l2 t : recovers t ->
    pool_step recovers admits world (s, l1 ++ (t, Crash) :: l2) (s, l1 ++ l2)
| pool_world s s' l : world s s' -> pool_step recovers admits world (s, l) (s', l).

(** A schedule picks the program that goes on next, or is retired. *)
Context `{EqDecision T}.
Fixpoint advance (t : T) (s : S) (l : pool) : option (S * pool) :=
  match l with
  | [] => None
  | (t', p) :: l' =>
      if decide (t' = t) then
        match p with
        | Act m k => Some ((m s).1, (t', k (m s).2) :: l')
        | Ret _ | Fail _ => Some (s, l')
        | Crash => None
        end
      else '(s', l'') ← advance t s l'; Some (s', (t', p) :: l'')
  end.

Lemma advance_sound recovers admits world t s l c : advance t s l = Some c ->
  forall l0, pool_step recovers admits world (s, l0 ++ l) (c.1, l0 ++ c.2).
Proof.
  revert c. induction l as [|[t' p] l IH]; intros c; [done|]. cbn. case_decide as Ht.
  - destruct p as [a|e| |B m k]; [| |done|]; intros [= <-] l0; cbn.
    + by apply (pool_retire recovers admits world s l0 l t' (Ok a)).
    + by apply (pool_retire recovers admits world s l0 l t' (Err e)).
    + apply pool_act.
  - destruct (advance t s l) as [[s' l'']|] eqn:E; [|done]. intros [= <-] l0. cbn.
    pose proof (IH _ eq_refl (l0 ++ [(t', p)])) as Hstep. cbn in Hstep. by rewrite <-!app_assoc in Hstep.
Qed.

Definition turn (t : T) (c : S * pool) : S * pool := default c (advance t c.1 c.2).

Lemma turns_sound recovers admits world (sched : list T) c :
  rtc (pool_step recovers admits world) c (foldl (fun c t => turn t c) c sched).
Proof.
  revert c. induction sched as [|t sched IH]; intros c; cbn; [done|]. transitivity (turn t c); [|apply IH].
  clear IH. unfold turn. destruct c as [s l]. cbn. destruct (advance t s l) as [c|] eqn:E; cbn; [|done].
  apply rtc_once. destruct c. by apply (advance_sound _ _ _ _ _ _ _ E []).
Qed.
End Interleaving.
Arguments pool : clear implicits.

(** ** Programs that own a part of the state

    [mine t s] is the part of the state that a program tagged [t] may rely on: no other
    program writes it.  [owp t p Q v]: started when its part is [v], [p] keeps the state
    [good] and every other part as it is, and ends with an outcome and a part that
    satisfy [Q], unless it crashes. *)
Section Owned.
Context {S T V : Type} `{EqDecision T} (good : S -> Prop) (mine : T -> S -> V).

Definition others_kept (t : T) (s s' : S) : Prop := forall t', t' <> t -> mine t' s' = mine t' s.

Fixpoint owp (t : T) {A} (p : prog S A) (Q : res A -> V -> Prop) (v : V) : Prop :=
  match p with
  | Ret a => Q (Ok a) v
  | Fail e => Q (Err e) v
  | Crash => True
  | Act m k => forall s, good s -> mine t s = v ->
      good (m s).1 /\ others_kept t s (m s).1 /\ owp t (k (m s).2) Q (mine t (m s).1)
  end.

Lemma others_kept_refl t s : others_kept t s s.
Proof. by intros t' _. Qed.
Lemma others_kept_trans t s1 s2 s3 : others_kept t s1 s2 -> others_kept t s2 s3 -> others_kept t s1 s3.
Proof. intros H1 H2 t' Ht. by rewrite (H2 t' Ht), (H1 t' Ht). Qed.

Lemma owp_mono t {A} (p : prog S A) (Q Q' : res A -> V -> Prop) v :
  owp t p Q v -> (forall r v', Q r v' -> Q' r v') -> owp t p Q' v.
Proof.
  intros Hp HQ. revert v Hp. induction p as [a|e| |B m k IH]; intros v Hp; cbn in *; auto.
  intros s Hs Hv. destruct (Hp s Hs Hv) as (Hg & Hk & Hp'). auto.
Qed.

Lemma owp_ret t {A} (a : A) (Q : res A -> V -> Prop) v : Q (Ok a) v -> owp t (mret a) Q v.
Proof. done. Qed.

Lemma owp_lift t {A} (m : M S A) (Q : res A -> V -> Prop) v :
  (forall s, good s -> mine t s = v ->
     good (m s).1 /\ others_kept t s (m s).1 /\ ((m s).2 <> Panic -> Q (m s).2 (mine t (m s).1))) ->
  owp t (lift m) Q v.
Proof.
  intros Hm s Hs Hv. destruct (Hm s Hs Hv) as (Hg & Hk & HQ). split_and!; [done..|].
  destruct (m s).2; cbn; [by apply HQ..|done].
Qed.

Lemma owp_bind t {A B} (p : prog S A) (f : A -> prog S B) (Q : res B -> V -> Prop) v :
  owp t p (fun r v' => match r with Ok a => owp t (f a) Q v' | Err e => Q (Err e) v' | Panic => True end) v ->
  owp t (p ≫= f) Q v.
Proof.
  unfold mbind, prog_mbind. revert v. induction p as [a|e| |C m k IH]; intros v Hp; cbn in *; try done.
  intros s Hs Hv. destruct (Hp s Hs Hv) as (Hg & Hk & Hp'). auto.
Qed.

Lemma owp_attempt t {A} (p : prog S A) (Q : res (A + error) -> V -> Prop) v :
  owp t p (fun r v' => match r with Ok a => Q (Ok (inl a)) v' | Err e => Q (Ok (inr e)) v' | Panic => True end) v ->
  owp t (attempt p) Q v.
Proof.
  unfold attempt, prog_attempt. revert v. induction p as [a|e| |C m k IH]; intros v Hp; cbn in *; try done.
  intros s Hs Hv. destruct (Hp s Hs Hv) as (Hg & Hk & Hp'). auto.
Qed.

(** Run alone, it does the same. *)
Lemma owp_run t {A} (p : prog S A) (Q : res A -> V -> Prop) s s' r :
  owp t p Q (mine t s) -> good s -> run p s = (s', r) -> r <> Panic ->
  good s' /\ others_kept t s s' /\ Q r (mine t s').
Proof.
  revert s. induction p as [a|e| |C m k IH]; intros s Hp Hs; cbn in *.
  - intros [= <- <-] _. split_and!; [done|apply others_kept_refl|done].
  - intros [= <- <-] _. split_and!; [done|apply others_kept_refl|done].
  - by intros [= <- <-].
  - destruct (Hp s Hs eq_refl) as (Hg & Hk & Hp'). destruct (m s) as [s1 r1]. cbn in *. intros Hrun Hr.
    destruct (IH r1 s1 Hp' Hg Hrun Hr) as (Hg' & Hk' & HQ). split_and!; [done| |done].
    by eapply others_kept_trans.
Qed.

(** *** Non-interference

    Programs in flight under different tags do not disturb each other: while one is in
    flight its part is its own, and every other part is settled. *)
Context (settled : T -> V -> Prop).
Definition settles (t : T) {A} (r : res A) (v : V) : Prop := settled t v.

Definition exclusive (startable : T -> prog S unit -> Prop) (l : pool S T unit) (t : T) (p : prog S unit) : Prop :=
  t ∉ l.*1 /\ startable t p.
Definition part_preserving (s s' : S) : Prop := (good s -> good s') /\ forall t, mine t s' = mine t s.

Definition pool_ok (c : S * pool S T unit) : Prop :=
  good c.1 /\ NoDup c.2.*1 /\
  (forall t p, (t, p) ∈ c.2 -> owp t p (settles t) (mine t c.1)) /\
  (forall t, t ∉ c.2.*1 -> settled t (mine t c.1)).

Lemma fmap_fst_act (l1 l2 : pool S T unit) t p p' :
  (l1 ++ (t, p') :: l2).*1 = (l1 ++ (t, p) :: l2).*1.
Proof. by rewrite !fmap_app. Qed.

Lemma pool_others (l1 l2 : pool S T unit) t p t' p' :
  NoDup (l1 ++ (t, p) :: l2).*1 -> (t', p') ∈ l1 ++ l2 -> t' <> t.
Proof.
  rewrite fmap_app. cbn. intros Hnd Hin. apply NoDup_app in Hnd as (_ & Hd & Hnd).
  apply NoDup_cons in Hnd as [Hni _]. intros ->. apply elem_of_app in Hin as [Hin|Hin].
  - apply (Hd t); [by eapply (list_elem_of_fmap_2 fst) in Hin|by left].
  - apply Hni. by eapply (list_elem_of_fmap_2 fst) in Hin.
Qed.

(** A program leaves the pool with its part settled. *)
Lemma pool_drop_ok s l1 l2 t p : pool_ok (s, l1 ++ (t, p) :: l2) -> settled t (mine t s) -> pool_ok (s, l1 ++ l2).
Proof.
  intros (Hg & Hnd & Hin & Hout) Hs. unfold pool_ok in *. cbn in *.
  assert (sublist (l1 ++ l2).*1 (l1 ++ (t, p) :: l2).*1) as Hsub.
  { rewrite !fmap_app. cbn. apply sublist_app; [done|]. by constructor. }
  split_and!; [done|by eapply sublist_NoDup| |].
  - intros t' p' Hp. apply Hin. set_solver.
  - intros t' Ht'. destruct (decide (t' = t)) as [->|Hne]; [done|].
    apply Hout. intros Hin'. apply Ht'. rewrite fmap_app in Hin' |- *. set_solver.
Qed.

Lemma pool_step_ok recovers startable world c c' :
  (forall t p v, startable t p -> settled t v -> owp t p (settles t) v) ->
  (forall t v, recovers t -> settled t v) ->
  (forall s s', world s s' -> part_preserving s s') ->
  pool_ok c -> pool_step recovers (exclusive startable) world c c' -> pool_ok c'.
Proof.
  intros Hstart Hrec Hworld (Hg & Hnd & Hin & Hout) Hstep.
  destruct Hstep as [s l t p [Ht Hp]|s l1 l2 t B m k|s l1 l2 t r Hr|s l1 l2 t Ht|s s' l Hw]; cbn in *.
  - unfold pool_ok. cbn. rewrite fmap_app. cbn. split_and!; [done| | |].
    + apply NoDup_app. split_and!; [done| |apply NoDup_singleton]. intros x Hx ->%list_elem_of_singleton. done.
    + intros t' p' [Hl|[= -> ->]%list_elem_of_singleton]%elem_of_app; [by apply Hin|]. by apply Hstart, Hout.
    + intros t' [Hl _]%not_elem_of_app. by apply Hout.
  - pose proof (Hin t (Act m k)) as Hact. destruct (Hact ltac:(set_solver) s Hg eq_refl) as (Hg' & Hk & Hp').
    unfold pool_ok. cbn. rewrite (fmap_fst_act l1 l2 t (Act m k)). split_and!; [done|done| |].
    + intros t' p' Hp. assert ((t', p') = (t, k (m s).2) \/ (t', p') ∈ l1 ++ l2) as [[= -> ->]|Hl] by set_solver; [done|].
      rewrite (Hk t'); [apply Hin; set_solver|]. by eapply pool_others.
    + intros t' Ht'. rewrite (Hk t'); [by apply Hout|]. intros ->. apply Ht'. rewrite fmap_app. set_solver.
  - apply (pool_drop_ok s l1 l2 t (of_outcome r)); [by split_and!|]. pose proof (Hin t (of_outcome r) ltac:(set_solver)) as Hr'. by destruct r.
  - apply (pool_drop_ok s l1 l2 t Crash); [by split_and!|auto].
  - destruct (Hworld _ _ Hw) as [Hgood Hmine]. unfold pool_ok. cbn. split_and!; [by apply Hgood|done| |].
    + intros t' p' Hp. rewrite Hmine. by apply Hin.
    + intros t' Ht'. rewrite Hmine. by apply Hout.
Qed.

Lemma pool_steps_ok recovers startable world c c' :
  (forall t p v, startable t p -> settled t v -> owp t p (settles t) v) ->
  (forall t v, recovers t -> settled t v) ->
  (forall s s', world s s' -> part_preserving s s') ->
  pool_ok c -> rtc (pool_step recovers (exclusive startable) world) c c' -> pool_ok c'.
Proof. intros ??? Hok Hsteps. induction Hsteps; [done|]. eauto using pool_step_ok. Qed.
End Owned.

(** ** Programs that share the state

    Where every program reads and writes the same tables, what a program knows has to
    survive the others.  A program may also have a state of its own beside them: [X] is
    what its actions see, and a view tells which part [S] of it the others may change. *)
Class View (S X : Type) := { shared_of : X -> S; put_shared : S -> X -> X }.
Class ViewLaws (S X : Type) `{View S X} : Prop := {
  get_put s x : shared_of (put_shared s x) = s;
  put_get x : put_shared (shared_of x) x = x;
  put_put s s' x : put_shared s (put_shared s' x) = put_shared s x
}.
#[export] Instance view_all {S} : View S S | 10 := { shared_of s := s; put_shared s _ := s }.
#[export] Instance view_all_laws {S} : ViewLaws S S.
Proof. done. Qed.

(** Nothing is promised about what the others do. *)
Definition anything {S} : relation S := fun _ _ => True.
#[export] Instance anything_preorder {S} : PreOrder (@anything S).
Proof. done. Qed.

(** [Inv] holds of the shared part between any two actions and [rely] relates it before and
    after any of them.  [rgp p Q x]: going on from [x], every action [p] takes keeps [Inv]
    and is in [rely] whatever the others did in between, and [p] ends with an outcome and a
    state that satisfy [Q]. *)
Section Shared.
Context {S X : Type} `{Hview : View S X} (Inv : S -> Prop) (rely : relation S).

Fixpoint rgp {A} (p : prog X A) (Q : res A -> X -> Prop) (x : X) : Prop :=
  match p with
  | Ret a => Q (Ok a) x
  | Fail e => Q (Err e) x
  | Crash => Q Panic x
  | Act m k => forall s, rely (shared_of x) s -> Inv s ->
      Inv (shared_of (m (put_shared s x)).1) /\ rely s (shared_of (m (put_shared s x)).1) /\
      rgp (k (m (put_shared s x)).2) Q (m (put_shared s x)).1
  end.

Definition stable (P : X -> Prop) : Prop := forall x s, P x -> rely (shared_of x) s -> P (put_shared s x).

Lemma rgp_stable `{!PreOrder rely} `{!ViewLaws S X} {A} (p : prog X A) Q x s :
  (forall r, stable (Q r)) -> rgp p Q x -> rely (shared_of x) s -> rgp p Q (put_shared s x).
Proof.
  intros HQ Hp Hs. destruct p as [a|e| |B m k]; cbn in *; [by apply HQ..|].
  intros s2 Hs2. rewrite get_put in Hs2. rewrite put_put. apply Hp. by transitivity s.
Qed.

Lemma rgp_mono {A} (p : prog X A) (Q Q' : res A -> X -> Prop) x :
  rgp p Q x -> (forall r x', Q r x' -> Q' r x') -> rgp p Q' x.
Proof.
  intros Hp HQ. revert x Hp. induction p as [a|e| |B m k IH]; intros x Hp; cbn in *; auto.
  intros s Hs Hi. destruct (Hp s Hs Hi) as (Hg & Hr & Hk). auto.
Qed.

Lemma rgp_ret {A} (a : A) (Q : res A -> X -> Prop) x : Q (Ok a) x -> rgp (mret a) Q x.
Proof. done. Qed.

Lemma rgp_lift {A} (m : M X A) (Q : res A -> X -> Prop) x :
  (forall s, rely (shared_of x) s -> Inv s ->
     Inv (shared_of (m (put_shared s x)).1) /\ rely s (shared_of (m (put_shared s x)).1) /\
     Q (m (put_shared s x)).2 (m (put_shared s x)).1) ->
  rgp (lift m) Q x.
Proof.
  intros Hm s Hs Hi. destruct (Hm s Hs Hi) as (Hg & Hr & HQ). split_and!; [done..|].
  by destruct (m (put_shared s x)).2.
Qed.

Lemma rgp_bind {A B} (p : prog X A) (f : A -> prog X B) (Q : res B -> X -> Prop) x :
  rgp p (fun r x' => match r with Ok a => rgp (f a) Q x' | Err e => Q (Err e) x' | Panic => Q Panic x' end) x ->
  rgp (p ≫= f) Q x.
Proof.
  unfold mbind, prog_mbind. revert x. induction p as [a|e| |C m k IH]; intros x Hp; cbn in *; try done.
  intros s Hs Hi. destruct (Hp s Hs Hi) as (Hg & Hr & Hk). auto.
Qed.

Lemma rgp_attempt {A} (p : prog X A) (Q : res (A + error) -> X -> Prop) x :
  rgp p (fun r x' => match r with Ok a => Q (Ok (inl a)) x' | Err e => Q (Ok (inr e)) x' | Panic => Q Panic x' end) x ->
  rgp (attempt p) Q x.
Proof.
  unfold attempt, prog_attempt. revert x. induction p as [a|e| |C m k IH]; intros x Hp; cbn in *; try done.
  intros s Hs Hi. destruct (Hp s Hs Hi) as (Hg & Hr & Hk). auto.
Qed.

(** What is stable and true at the start is true at the end. *)
Lemma rgp_frame {A} (p : prog X A) (Q : res A -> X -> Prop) (P : S -> Prop) x :
  (forall s s', P s -> rely s s' -> P s') -> P (shared_of x) -> rgp p Q x -> rgp p (fun r x' => Q r x' /\ P (shared_of x')) x.
Proof.
  intros HP. revert x. induction p as [a|e| |C m k IH]; intros x Hs Hp; cbn in *; try done.
  intros s Hs' Hi. destruct (Hp s Hs' Hi) as (Hg & Hr & Hk). split_and!; [done..|].
  apply IH; [|done]. eapply HP; [|exact Hr]. by eapply HP.
Qed.

(** Alone, nothing changes between two actions. *)
Lemma rgp_run `{!Reflexive rely} `{!ViewLaws S X} {A} (p : prog X A) (Q : res A -> X -> Prop) x :
  rgp p Q x -> Inv (shared_of x) -> Inv (shared_of (run p x).1) /\ Q (run p x).2 (run p x).1.
Proof.
  revert x. induction p as [a|e| |C m k IH]; intros x Hp Hi; cbn in *; [by split..|].
  destruct (Hp (shared_of x) ltac:(reflexivity) Hi) as (Hg & _ & Hk). rewrite put_get in *.
  destruct (m x) as [x' r]. by apply IH.
Qed.
End Shared.

(** *** Outcomes under an invariant alone

    [yields p Q]: however the others act, as long as they keep the invariant, every action
    of [p] keeps it, and the outcome of [p] is in [Q]. *)
Section Yields.
Context {S : Type} (Inv : S -> Prop).

Definition yields {A} (p : prog S A) (Q : res A -> Prop) : Prop := forall s, rgp Inv anything p (fun r _ => Q r) s.
Definition maintains {A} (p : prog S A) : Prop := yields p (fun _ => True).

Lemma yields_mono {A} (p : prog S A) (Q Q' : res A -> Prop) : yields p Q -> (forall r, Q r -> Q' r) -> yields p Q'.
Proof. intros Hp HQ s. eapply rgp_mono; [apply Hp|]. intros r x. apply HQ. Qed.
Lemma yields_maintains {A} (p : prog S A) Q : yields p Q -> maintains p.
Proof. intros Hp. by eapply yields_mono. Qed.
Lemma yields_ret {A} (a : A) (Q : res A -> Prop) : Q (Ok a) -> yields (mret a) Q.
Proof. intros HQ s. exact HQ. Qed.
Lemma yields_lift {A} (m : M S A) (Q : res A -> Prop) :
  (forall s, Inv s -> Inv (m s).1 /\ Q (m s).2) -> yields (lift m) Q.
Proof.
  intros Hm s. apply (rgp_lift Inv anything m (fun r _ => Q r) s). intros s' _ Hs'. destruct (Hm s' Hs') as [Hi HQ]. by split_and!.
Qed.
Lemma yields_bind {A B} (p : prog S A) (f : A -> prog S B) (Q1 : res A -> Prop) (Q : res B -> Prop) :
  yields p Q1 -> (forall a, Q1 (Ok a) -> yields (f a) Q) -> (forall e, Q1 (Err e) -> Q (Err e)) -> (Q1 Panic -> Q Panic) ->
  yields (p ≫= f) Q.
Proof.
  intros Hp Hf He Hc s. apply rgp_bind. eapply rgp_mono; [apply Hp|]. intros [a|e|] x Hx; [by apply Hf|by apply He|by apply Hc].
Qed.
Lemma yields_attempt {A} (p : prog S A) (Q : res (A + error) -> Prop) :
  yields p (fun r => match r with Ok a => Q (Ok (inl a)) | Err e => Q (Ok (inr e)) | Panic => Q Panic end) -> yields (attempt p) Q.
Proof. intros Hp s. apply rgp_attempt. eapply rgp_mono; [apply Hp|]. by intros [a|e|] x Hx. Qed.

Lemma maintains_ret {A} (a : A) : maintains (mret a).
Proof. by apply yields_ret. Qed.
Lemma maintains_lift {A} (m : M S A) : preserves Inv m -> maintains (lift m).
Proof. intros Hm. apply yields_lift. intros s Hs. split; [|done]. specialize (Hm s Hs). unfold wp in Hm. by destruct (m s). Qed.
Lemma maintains_bind {A B} (p : prog S A) (f : A -> prog S B) : maintains p -> (forall a, maintains (f a)) -> maintains (p ≫= f).
Proof. intros Hp Hf. eapply yields_bind; [exact Hp|by intros a _; apply Hf|done|done]. Qed.
Lemma maintains_attempt {A} (p : prog S A) : maintains p -> maintains (attempt p).
Proof. intros Hp. apply yields_attempt. eapply yields_mono; [exact Hp|]. by intros [a|e|] _. Qed.

(** Run alone. *)
Lemma yields_run {A} (p : prog S A) Q s : yields p Q -> Inv s -> Inv (run p s).1 /\ Q (run p s).2.
Proof. intros Hp Hs. apply (rgp_run Inv anything p (fun r _ => Q r) s (Hp s) Hs). Qed.
End Yields.

Section SharedLoop.
Context {S X : Type} `{Hview : View S X} (Inv : S -> Prop) (rely : relation S).

(** A loop each of whose rounds establishes a stable fact about its element. *)
Lemma rgp_each {A} (l : list A) (f : A -> prog X unit) (fact : A -> S -> Prop) x :
  (forall a s s', fact a s -> rely s s' -> fact a s') ->
  (forall a x', a ∈ l -> rgp Inv rely (f a) (fun r x' => r = Ok tt /\ fact a (shared_of x')) x') ->
  rgp Inv rely (each l f) (fun r x' => r = Ok tt /\ forall a, a ∈ l -> fact a (shared_of x')) x.
Proof.
  intros Hst. revert x. induction l as [|a l IH]; intros x Hf; cbn [each].
  { apply rgp_ret. split; [done|]. by intros a ?%not_elem_of_nil. }
  apply rgp_bind. eapply rgp_mono; [apply Hf; left|]. intros r x' [-> Hx].
  eapply rgp_mono; [eapply (rgp_frame Inv rely (each l f) _ (fact a)); [apply Hst|exact Hx|apply IH]|].
  - intros y x2 Hy. apply Hf. by right.
  - intros r x2 [[-> Hl] Hx2]. split; [done|]. intros y [->|Hy]%elem_of_cons; auto.
Qed.
End SharedLoop.

(** *** Any number of programs side by side *)
Section SharedPool.
Context {S T A : Type} (Inv : S -> Prop) (rely : relation S) `{!PreOrder rely} (post : T -> res A -> S -> Prop).

Definition shared_ok (c : S * pool S T A) : Prop :=
  Inv c.1 /\ forall t p, (t, p) ∈ c.2 -> rgp Inv rely p (post t) c.1.

Lemma rgp_later (p : prog S A) Q (s s' : S) :
  (forall r, stable rely (Q r)) -> rgp Inv rely p Q s -> rely s s' -> rgp Inv rely p Q s'.
Proof. exact (rgp_stable (S:=S) (X:=S) Inv rely p Q s s'). Qed.

Lemma shared_step_ok recovers admits world c c' :
  (forall t r, stable rely (post t r)) ->
  (forall l t p s, admits l t p -> rgp Inv rely p (post t) s) ->
  (forall s s', world s s' -> Inv s -> Inv s' /\ rely s s') ->
  shared_ok c -> pool_step recovers admits world c c' -> shared_ok c'.
Proof.
  intros Hpost Hstart Hworld [Hi Hin] Hstep.
  destruct Hstep as [s l t p Hp|s l1 l2 t B m k|s l1 l2 t r Hr|s l1 l2 t Ht|s s' l Hw]; cbn in *.
  - split; [done|]. intros t' p' [Hl|[= -> ->]%list_elem_of_singleton]%elem_of_app; cbn; eauto.
  - destruct (Hin t (Act m k) ltac:(set_solver) s ltac:(reflexivity) Hi) as (Hi' & Hr & Hk).
    split; [done|]. intros t' p' Hp. cbn in *.
    assert ((t', p') = (t, k (m s).2) \/ (t', p') ∈ l1 ++ l2) as [[= -> ->]|Hl] by set_solver; [done|].
    apply (rgp_later p' _ s (m s).1); [apply Hpost|apply Hin; set_solver|exact Hr].
  - split; [done|]. intros t' p' Hp. apply Hin. cbn in *. set_solver.
  - split; [done|]. intros t' p' Hp. apply Hin. cbn in *. set_solver.
  - destruct (Hworld _ _ Hw Hi) as [Hi' Hr]. split; [done|]. intros t' p' Hp.
    apply (rgp_later p' _ s s'); [apply Hpost|by apply Hin|exact Hr].
Qed.

Lemma shared_steps_ok recovers admits world c c' :
  (forall t r, stable rely (post t r)) ->
  (forall l t p s, admits l t p -> rgp Inv rely p (post t) s) ->
  (forall s s', world s s' -> Inv s -> Inv s' /\ rely s s') ->
  shared_ok c -> rtc (pool_step recovers admits world) c c' -> shared_ok c'.
Proof. intros ??? Hok Hsteps. induction Hsteps; [done|]. eauto using shared_step_ok. Qed.
End SharedPool.

(** Programs that keep an invariant, started at will, side by side with a world that does. *)
Lemma maintained {S T A : Type} (Inv : S -> Prop) recovers (admits : pool S T A -> T -> prog S A -> Prop) world s s' l' :
  (forall l t p, admits l t p -> maintains Inv p) -> (forall s1 s2, world s1 s2 -> Inv s1 -> Inv s2) ->
  Inv s -> rtc (pool_step recovers admits world) (s, []) (s', l') -> Inv s'.
Proof.
  intros Hadmits Hworld Hs Hrun.
  apply (shared_steps_ok Inv anything (fun _ _ _ => True)) in Hrun; [apply Hrun|done| | |].
  - intros l t p s0 Hp. by apply (Hadmits l t p).
  - intros s1 s2 Hw Hi. split; [by apply (Hworld s1)|done].
  - split; [done|]. by intros t p ?%not_elem_of_nil.
Qed.

(** *** A program with a state of its own, among programs that see the shared part

    [private fin p x]: the program [p], whose own state is that of [x], as a program of the
    shared part; its outcome and its last state are made into a value by [fin]. *)
Section Private.
Context {S X A B : Type} `{Hview : View S X} (fin : X -> res A -> B).

Fixpoint private (p : prog X A) (x : X) : prog S B :=
  match p with
  | Ret a => Ret (fin x (Ok a))
  | Fail e => Ret (fin x (Err e))
  | Crash => Ret (fin x Panic)
  | Act m k => Act (fun s => let y := m (put_shared s x) in (shared_of y.1, Ok y))
                 (fun o => match o with Ok y => private (k y.2) y.1 | _ => Crash end)
  end.

Lemma rgp_private Inv rely `{!PreOrder rely} `{!ViewLaws S X} p (Q : res A -> X -> Prop) (Q' : res B -> S -> Prop) x s :
  rgp Inv rely p Q x -> rely (shared_of x) s ->
  (forall r x' s', Q r x' -> rely (shared_of x') s' -> Q' (Ok (fin x' r)) s') ->
  rgp Inv rely (private p x) Q' s.
Proof.
  intros Hp Hs HQ. revert x s Hp Hs. induction p as [a|e| |C m k IH]; intros x s Hp Hs; cbn in *; [by eapply HQ..|].
  intros s' Hs' Hi. destruct (Hp s' ltac:(by transitivity s) Hi) as (Hg & Hr & Hk).
  split_and!; [done..|]. apply IH; [done|reflexivity].
Qed.

(** Alone, the program runs on the shared state it finds. *)
Lemma private_alone `{!ViewLaws S X} p x s :
  run (private p x) s = match p with
                        | Act _ _ => let y := run p (put_shared s x) in (shared_of y.1, Ok (fin y.1 y.2))
                        | _ => (s, Ok (fin x (run p x).2))
                        end.
Proof.
  assert (forall p x, run (private p x) (shared_of x) =
    (shared_of (run p x).1, Ok (fin (run p x).1 (run p x).2))) as Hgo.
  { clear p x. intros p. induction p as [a|e| |C m k IH]; intros x; cbn; [done..|].
    rewrite put_get. destruct (m x) as [x' r]. cbn. apply IH. }
  destruct p as [a|e| |C m k]; [done..|]. cbn. destruct (m (put_shared s x)) as [x' r]. apply Hgo.
Qed.
End Private.

(** A program that sees a part of the shared state only. *)
Section Widen.
Context {S U A : Type}.
Fixpoint widen (p : prog S A) : prog (S * U) A :=
  match p with
  | Ret a => Ret a
  | Fail e => Fail e
  | Crash => Crash
  | Act m k => Act (self m) (fun o => widen (k o))
  end.

Lemma rgp_widen (Inv : S -> Prop) (rely : relation S) p (Q : res A -> S -> Prop) (x : S * U) :
  rgp Inv rely p Q x.1 ->
  rgp (fun s => Inv s.1) (fun s s' => rely s.1 s'.1) (widen p) (fun r x' => Q r x'.1) x.
Proof.
  revert x. induction p as [a|e| |C m k IH]; intros x Hp; cbn in *; [done..|].
  intros [s u] Hs Hi. unfold self, zoom. cbn in *. destruct (Hp s Hs Hi) as (Hg & Hr & Hk).
  destruct (m s) as [s' r]. cbn in *. split_and!; [done..|]. by apply IH.
Qed.
End Widen.
