(* ===== verification/Memory.v ===== *)
(** Memory: Go values that lie in memory, with pointers, slices and maps between them; what
    such a value means, which cells it is made of, and what it takes to copy one deeply. *)

From stdpp Require Import base numbers gmap gmultiset strings list.
From S2P Require Import Prelude.

(** ** Cells

    A cell holds one allocated object: what a pointer points to, the array of a slice, or a
    map.  [C] is the type of the contents of cells; [Stored T] says that a [T] may be one. *)
Class Stored (C T : Type) := {
  to_cell : T -> C;
  of_cell : C -> option T;
  of_to_cell t : of_cell (to_cell t) = Some t
}.

Definition loc : Type := positive.

(** References are typed, and may be nil.  A slice is the whole of its array. *)
Record ptr (T : Type) := Ptr { addr : option loc }.
Arguments Ptr {T} _.
Arguments addr {T} _.
Record slice (T : Type) := Slice { array : option loc }.
Arguments Slice {T} _.
Arguments array {T} _.
Record mapref := MapRef { table : option loc }.

Section Memory.
Context {C : Type}.
Local Abbreviation heap := (gmap loc C).
Implicit Types (h : heap) (l : loc).

(** ** Access

    [load] of an address is a nil dereference when there is no cell of its type. *)
Definition load `{Stored C T} (l : loc) : M heap T := fun h =>
  (h, match h !! l ≫= of_cell with Some t => Ok t | None => Panic end).
Definition alloc `{Stored C T} (t : T) : M heap loc := fun h =>
  let l := fresh (dom h) in (<[l := to_cell t]> h, Ok l).
Definition store `{Stored C T} (l : loc) (t : T) : M heap unit := modify <[l := to_cell t]>.

(** ** Copying

    [new(T)] and the copy into it.  What is allocated first is a copy of the object itself,
    since [*out = *in] is the first thing any copy does. *)
Definition copy_ptr `{Stored C T} (into : T -> M heap T) (p : ptr T) : M heap (ptr T) :=
  match addr p with
  | None => mret (Ptr None)
  | Some l =>
      t ← load l;
      q ← alloc t;
      out ← into t;
      store q out ;;
      mret (Ptr (Some q))
  end.

Fixpoint copy_each {T} (into : T -> M heap T) (ts : list T) : M heap (list T) :=
  match ts with
  | [] => mret []
  | t :: ts => out ← into t; outs ← copy_each into ts; mret (out :: outs)
  end.
(** [make([]T, len)] and a loop that copies every element. *)
Definition copy_slice `{Stored C (list T)} (into : T -> M heap T) (s : slice T) : M heap (slice T) :=
  match array s with
  | None => mret (Slice None)
  | Some l =>
      ts ← load l;
      q ← alloc ts;
      outs ← copy_each into ts;
      store q outs ;;
      mret (Slice (Some q))
  end.

(** [make(map[string]string)] and a loop that stores every entry. *)
Definition copy_map `{Stored C (gmap string string)} (m : mapref) : M heap mapref :=
  match table m with
  | None => mret (MapRef None)
  | Some l =>
      kvs ← load l;
      q ← alloc (∅ : gmap string string);
      foreach (map_to_list kvs) (fun kv : string * string =>
        out ← load q;
        store q (<[kv.1 := kv.2]> (out : gmap string string))) ;;
      mret (MapRef (Some q))
  end.

(** ** What a value means

    A layout of [T] reads a [T] that lies in memory as a plain value, and tells the cells it
    is made of.  The reading depends on these cells only. *)
Class Layout (T V : Type) := {
  reads : heap -> T -> option V;
  cells : heap -> T -> gset loc;
  reads_frame h h' t v : reads h t = Some v -> (forall l, l ∈ cells h t -> h' !! l = h !! l) ->
    reads h' t = Some v /\ cells h' t = cells h t;
  cells_dom h t v : reads h t = Some v -> cells h t ⊆ dom h
}.

Lemma reads_later `{Layout T V} h h' t v : reads h t = Some v -> h ⊆ h' ->
  reads h' t = Some v /\ cells h' t = cells h t.
Proof.
  intros Hr Hh. apply (reads_frame h h' t v Hr). intros l Hl. pose proof (cells_dom h t v Hr l Hl) as Hd.
  apply elem_of_dom in Hd as [c Hc]. rewrite Hc. by eapply lookup_weaken.
Qed.

(** Plain data. *)
Class Flat (T : Type) := flat : True.
#[global] Instance flat_layout `{Flat T} : Layout T T.
Proof. refine {| reads _ t := Some t; cells _ _ := ∅ |}; [by intros|set_solver]. Defined.

Section Pointers.
Context `{Hst : Stored C T, Hl : !Layout T V}.

Definition cell_at h l : option T := h !! l ≫= of_cell.
Lemma cell_at_insert h l t : cell_at (<[l := to_cell t]> h) l = Some t.
Proof. unfold cell_at. rewrite lookup_insert_eq. cbn. apply of_to_cell. Qed.
Lemma cell_at_later h h' l t : cell_at h l = Some t -> h ⊆ h' -> cell_at h' l = Some t.
Proof.
  unfold cell_at. intros (c & Hc & Ht)%bind_Some Hh. apply bind_Some. exists c. split; [|done]. by eapply lookup_weaken.
Qed.
Lemma cell_at_dom h l t : cell_at h l = Some t -> l ∈ dom h.
Proof. unfold cell_at. intros (c & Hc & _)%bind_Some. by apply elem_of_dom_2 in Hc. Qed.
Lemma cell_at_same h h' l : h' !! l = h !! l -> cell_at h' l = cell_at h l.
Proof. unfold cell_at. by intros ->. Qed.

Definition ptr_cells h (p : ptr T) : gset loc :=
  match addr p with
  | Some l => {[l]} ∪ match cell_at h l with Some t => cells h t | None => ∅ end
  | None => ∅
  end.
#[global] Instance ptr_layout : Layout (ptr T) (option V).
Proof.
  refine {| reads h p := match addr p with Some l => Some <$> (t ← cell_at h l; reads h t) | None => Some None end;
            cells := ptr_cells |}.
  - intros h h' [[l|]] v Hr Hsame; cbn in *; [|done].
    unfold ptr_cells in *. cbn in *. rewrite (cell_at_same h h') by (apply Hsame; set_solver).
    destruct (cell_at h l) as [t|]; [|done]. cbn in *. destruct (reads h t) as [w|] eqn:E; [|done]. cbn in Hr.
    destruct (reads_frame h h' t w E) as [-> ->]; [|done]. set_solver.
  - intros h [[l|]] v Hr; cbn in *; unfold ptr_cells; cbn; [|set_solver].
    destruct (cell_at h l) as [t|] eqn:Hc; [|done]. cbn in Hr. destruct (reads h t) as [w|] eqn:E; [|done].
    pose proof (cell_at_dom h l t Hc). pose proof (cells_dom h t w E). set_solver.
Defined.
End Pointers.

(** A pair, a list, and a type that is laid out as another one. *)
Section Compound.
Context `{Hlt : Layout T V, Hlu : Layout U X}.

#[global] Instance pair_layout : Layout (T * U) (V * X).
Proof.
  refine {| reads h t := v ← reads h t.1; x ← reads h t.2; Some (v, x); cells h t := cells h t.1 ∪ cells h t.2 |}.
  - intros h h' [t u] v (a & Ha & (b & Hb & [= <-])%bind_Some)%bind_Some Hsame. cbn in *.
    destruct (reads_frame h h' t a Ha) as [-> ->]; [set_solver|].
    destruct (reads_frame h h' u b Hb) as [-> ->]; [set_solver|]. done.
  - intros h [t u] v (a & Ha & (b & Hb & [= <-])%bind_Some)%bind_Some. cbn in *.
    pose proof (cells_dom h t a Ha). pose proof (cells_dom h u b Hb). set_solver.
Defined.
Lemma reads_pair h t u v x : reads h (t, u) = Some (v, x) -> reads h t = Some v /\ reads h u = Some x.
Proof. by intros (a & Ha & (b & Hb & [= -> ->])%bind_Some)%bind_Some. Qed.

Definition list_cells h (ts : list T) : gset loc := ⋃ (map (cells h) ts).
#[global] Instance list_layout : Layout (list T) (list V).
Proof.
  refine {| reads h ts := mapM (reads h) ts; cells := list_cells |}.
  - intros h h' ts. unfold list_cells. induction ts as [|t ts IH]; intros vs Hr Hsame; [done|]. cbn in Hr.
    apply bind_Some in Hr as (v & Hv & (vs' & Hvs & [= <-])%bind_Some). cbn in *.
    destruct (reads_frame h h' t v Hv) as [-> ->]; [set_solver|].
    destruct (IH vs' Hvs) as [E1 E2]; [set_solver|]. cbn. rewrite E1, E2. done.
  - intros h ts. unfold list_cells. induction ts as [|t ts IH]; intros vs Hr; cbn; [set_solver|]. cbn in Hr.
    apply bind_Some in Hr as (v & Hv & (vs' & Hvs & [= <-])%bind_Some).
    pose proof (cells_dom h t v Hv). pose proof (IH vs' Hvs). set_solver.
Defined.

Definition layout_via {R D} (to : R -> T) (from : V -> D) : Layout R D.
Proof.
  refine {| reads h r := from <$> reads h (to r); cells h r := cells h (to r) |}.
  - intros h h' r d Hr Hsame. destruct (reads h (to r)) as [v|] eqn:E; [|done].
    destruct (reads_frame h h' (to r) v E Hsame) as [-> ->]. done.
  - intros h r d Hr. destruct (reads h (to r)) as [v|] eqn:E; [|done]. by eapply cells_dom.
Defined.
End Compound.

#[global] Instance slice_layout `{Hst : Stored C (list T), Hl : Layout T V} : Layout (slice T) (option (list V)) :=
  layout_via (fun s => Ptr (array s)) id.
#[global] Instance strings_flat : Flat (gmap string string).
Proof. done. Qed.
#[global] Instance map_layout `{Hst : Stored C (gmap string string)} : Layout mapref (option (gmap string string)) :=
  layout_via (fun m => Ptr (table m)) id.

(** ** Deep copies

    [t'] is a copy, made between [h] and [h'], of a value [v] that lay in [h]: it reads the
    same, nothing that was there has been written, and it is made of new cells. *)
Record copied `{Layout T V} h h' (t' : T) (v : V) : Prop := {
  copied_later : h ⊆ h';
  copied_reads : reads h' t' = Some v;
  copied_fresh : cells h' t' ## dom h
}.
Definition copies `{Layout T V} (f : T -> M heap T) : Prop := forall h t v, reads h t = Some v ->
  exists h' t', f t h = (h', Ok t') /\ copied h h' t' v.

Section Copied.
Context `{Hlt : Layout T V}.

Lemma copied_here h t v : reads h t = Some v -> cells h t = ∅ -> copied h h t v.
Proof. intros Hr Hc. split; [done|done|]. by rewrite Hc. Qed.
Lemma copied_then h h1 h2 t v : copied h h1 t v -> h1 ⊆ h2 -> copied h h2 t v.
Proof.
  intros [Hl Hr Hf] Hh. destruct (reads_later h1 h2 t v Hr Hh) as [Hr' Hc]. split; [by etransitivity|done|by rewrite Hc].
Qed.
Lemma copied_from h0 h h' t v : copied h h' t v -> h0 ⊆ h -> copied h0 h' t v.
Proof.
  intros [Hl Hr Hf] Hh. split; [by etransitivity|done|]. apply subseteq_dom in Hh. set_solver.
Qed.

Lemma alloc_run `{Hst : Stored C U} (u : U) h :
  exists q, q ∉ dom h /\ alloc u h = (<[q := to_cell u]> h, Ok q) /\ h ⊆ <[q := to_cell u]> h.
Proof.
  exists (fresh (dom h)). pose proof (is_fresh (dom h)) as Hf. split_and!; [done|done|].
  apply insert_subseteq. by apply not_elem_of_dom.
Qed.
Lemma load_run `{Hst : Stored C U} h l (u : U) : cell_at h l = Some u -> load l h = (h, Ok u).
Proof. unfold load, cell_at. by intros ->. Qed.

(** A store to a cell that is not part of a copy. *)
Lemma copied_store `{Hst : Stored C U} h h1 t v q (u : U) : copied h h1 t v -> q ∉ dom h -> q ∉ cells h1 t ->
  let h2 := <[q := to_cell u]> h1 in h ⊆ h2 /\ reads h2 t = Some v /\ cells h2 t = cells h1 t.
Proof.
  intros [Hl Hr Hf] Hq Hc h2. split.
  - apply map_subseteq_spec. intros l c Hlc. unfold h2. rewrite lookup_insert_ne; [by eapply lookup_weaken|].
    intros ->. apply Hq. by apply elem_of_dom_2 in Hlc.
  - apply (reads_frame h1); [done|]. intros l Hlc. unfold h2. rewrite lookup_insert_ne; [done|]. by intros ->.
Qed.

End Copied.

Section Copies.
Context `{Hlt : Layout T V}.

Lemma copies_ptr `{Hst : Stored C T} (into : T -> M heap T) : copies into -> copies (copy_ptr into).
Proof.
  intros Hi h [[l|]] v Hr; cbn in Hr; [|injection Hr as <-; by exists h, (Ptr None)].
  destruct (cell_at h l) as [t|] eqn:Hcell; [|done]. cbn in Hr. destruct (reads h t) as [w|] eqn:Ht; [|done].
  injection Hr as <-. unfold copy_ptr. cbn [addr]. rewrite (bind_Ok_run _ _ _ _ _ (load_run h l t Hcell)).
  destruct (alloc_run t h) as (q & Hq & Ea & Hh1). rewrite (bind_Ok_run _ _ _ _ _ Ea).
  set (h1 := <[q := to_cell t]> h) in *. destruct (reads_later h h1 t w Ht Hh1) as [Ht1 _].
  destruct (Hi h1 t w Ht1) as (h2 & out & E2 & Hout). rewrite (bind_Ok_run _ _ _ _ _ E2).
  pose proof (copied_from h h1 h2 out w Hout Hh1) as Hout'.
  assert (q ∉ cells h2 out) as Hqc by (pose proof (copied_fresh _ _ _ _ Hout); set_solver).
  destruct (copied_store h h2 out w q out Hout' Hq Hqc) as (Hl3 & Hr3 & Hc3).
  exists (<[q := to_cell out]> h2), (Ptr (Some q)). split; [done|]. split; [done|..]; cbn.
  - rewrite cell_at_insert. cbn. by rewrite Hr3.
  - unfold ptr_cells. cbn. rewrite cell_at_insert, Hc3. pose proof (copied_fresh _ _ _ _ Hout'). set_solver.
Qed.

Lemma copies_each (into : T -> M heap T) : copies into -> copies (copy_each into).
Proof.
  intros Hi h ts. revert h. induction ts as [|t ts IH]; intros h vs Hr; cbn in Hr.
  { injection Hr as <-. exists h, []. split; [done|]. by split. }
  apply bind_Some in Hr as (v & Hv & (vs' & Hvs & [= <-])%bind_Some).
  destruct (Hi h t v Hv) as (h1 & out & E1 & H1). cbn [copy_each]. rewrite (bind_Ok_run _ _ _ _ _ E1).
  change (reads h ts = Some vs') in Hvs.
  destruct (reads_later h h1 ts vs' Hvs (copied_later _ _ _ _ H1)) as [Hvs1 _].
  destruct (IH h1 vs' Hvs1) as (h2 & outs & E2 & H2). rewrite (bind_Ok_run _ _ _ _ _ E2).
  exists h2, (out :: outs). split; [done|].
  pose proof (copied_then _ _ _ _ _ H1 (copied_later _ _ _ _ H2)) as H1'.
  pose proof (copied_from _ _ _ _ _ H2 (copied_later _ _ _ _ H1)) as H2'.
  destruct H1' as [Ha Hb Hc], H2' as [_ Hd He]. split; [done| |]; cbn in *.
  - by rewrite Hb, Hd.
  - unfold list_cells in *. cbn. set_solver.
Qed.

Lemma copies_flat `{Flat U} : copies (T:=U) mret.
Proof. intros h t v Hr. injection Hr as <-. exists h, t. split; [done|]. by apply copied_here. Qed.
End Copies.

Lemma copies_slice `{Hst : Stored C (list T), Hl : Layout T V} (into : T -> M heap T) :
  copies into -> copies (copy_slice into).
Proof.
  intros Hi h s v Hr. assert (exists v0, reads h (Ptr (array s)) = Some v0 /\ v0 = v) as (v0 & Hr0 & ->).
  { cbn in *. destruct (array s); [|by exists None; injection Hr as <-]. destruct (_ ≫= _); [|done].
    injection Hr as <-. by eexists. }
  destruct (copies_ptr (copy_each into) (copies_each into Hi) h _ _ Hr0) as (h' & p & E & [H1 H2 H3]).
  exists h', (Slice (addr p)). split; [|split; [done|cbn in *; by rewrite H2|done]].
  unfold copy_ptr, copy_slice in *. cbn [addr] in E. destruct (array s) as [l|]; [|by injection E as <- <-].
  rewrite !bind_run in *. destruct (load l h) as [h1 [ts|e|]]; [|done..].
  rewrite !bind_run in *. destruct (alloc ts h1) as [h2 [q|e|]]; [|done..].
  rewrite !bind_run in *. destruct (copy_each into ts h2) as [h3 [outs|e|]]; [|done..].
  by injection E as <- <-.
Qed.

Lemma fill_map `{Hst : Stored C (gmap string string)} q (l : list (string * string)) h (m : gmap string string) :
  cell_at h q = Some m ->
  foreach l (fun kv => out ← load q; store q (<[kv.1 := kv.2]> (out : gmap string string))) h =
    (match l with [] => h | _ => <[q := to_cell (foldl (fun m kv => <[kv.1 := kv.2]> m) m l)]> h end, Ok tt).
Proof.
  revert h m. induction l as [|[k w] l IH]; intros h m Hq; [done|]. cbn [foreach].
  rewrite !bind_run, (load_run h q m Hq). cbn [store modify fst snd].
  rewrite (IH _ (<[k := w]> m)) by apply cell_at_insert. destruct l; [done|]. by rewrite insert_insert_eq.
Qed.
Lemma foldl_map_to_list (m : gmap string string) :
  foldl (fun m kv => <[kv.1 := kv.2]> m) (∅ : gmap string string) (map_to_list m) = m.
Proof.
  assert (forall (l : list (string * string)) (m0 : gmap string string), NoDup l.*1 ->
    (forall k, k ∈ l.*1 -> m0 !! k = None) ->
    foldl (fun m kv => <[kv.1 := kv.2]> m) m0 l = list_to_map l ∪ m0) as Hfold.
  { induction l as [|[k v] l IH]; intros m0 Hnd Hm0; cbn; [by rewrite (left_id_L ∅ (∪))|].
    apply NoDup_cons in Hnd as [Hk Hnd]. rewrite IH; [|done|].
    - rewrite <-insert_union_l. symmetry. apply insert_union_r. by apply not_elem_of_list_to_map_1.
    - intros k' Hk'. cbn. rewrite lookup_insert_ne by (intros ->; done). apply Hm0. cbn. set_solver. }
  rewrite Hfold; [|apply NoDup_fst_map_to_list|done]. by rewrite list_to_map_to_list, (right_id_L ∅ (∪)).
Qed.

Lemma copies_map `{Hst : Stored C (gmap string string)} : copies copy_map.
Proof.
  intros h [[l|]] v Hr; cbn in Hr; [|by injection Hr as <-; exists h, (MapRef None)].
  destruct (cell_at h l) as [m|] eqn:Hcell; [|done]. injection Hr as <-.
  unfold copy_map. cbn [table]. rewrite (bind_Ok_run _ _ _ _ _ (load_run h l m Hcell)).
  destruct (alloc_run (∅ : gmap string string) h) as (q & Hq & Ea & Hh1). rewrite (bind_Ok_run _ _ _ _ _ Ea).
  set (h1 := <[q := to_cell ∅]> h) in *.
  rewrite (bind_Ok_run _ _ _ _ _ (fill_map q (map_to_list m) h1 ∅ (cell_at_insert h q ∅))), foldl_map_to_list.
  set (h2 := match map_to_list m with [] => h1 | _ => _ end).
  assert (h2 = <[q := to_cell m]> h) as ->.
  { subst h2 h1. destruct (map_to_list m) eqn:E; [by apply map_to_list_empty_iff in E as ->|by rewrite insert_insert_eq]. }
  exists (<[q := to_cell m]> h), (MapRef (Some q)). split; [done|].
  assert (h ⊆ <[q := to_cell m]> h) as Hl by (apply insert_subseteq; by apply not_elem_of_dom).
  split; [done|cbn; by rewrite cell_at_insert|]. cbn. unfold ptr_cells. cbn. rewrite cell_at_insert. cbn. set_solver.
Qed.

(** Field by field. *)
Definition copy_pair {T U} (f : T -> M heap T) (g : U -> M heap U) (tu : T * U) : M heap (T * U) :=
  t ← f tu.1; u ← g tu.2; mret (t, u).
Lemma copies_pair `{Hlt : Layout T V, Hlu : Layout U X} (f : T -> M heap T) (g : U -> M heap U) :
  copies f -> copies g -> copies (copy_pair f g).
Proof.
  intros Hf Hg h [t u] [v x] [Hv Hx]%reads_pair. unfold copy_pair. cbn [fst snd].
  destruct (Hf h t v Hv) as (h1 & t' & E1 & H1). rewrite (bind_Ok_run _ _ _ _ _ E1).
  destruct (reads_later h h1 u x Hx (copied_later _ _ _ _ H1)) as [Hx1 _].
  destruct (Hg h1 u x Hx1) as (h2 & u' & E2 & H2). rewrite (bind_Ok_run _ _ _ _ _ E2).
  exists h2, (t', u'). split; [done|].
  pose proof (copied_then _ _ _ _ _ H1 (copied_later _ _ _ _ H2)) as [Ha Hb Hc].
  pose proof (copied_from _ _ _ _ _ H2 (copied_later _ _ _ _ H1)) as [_ Hd He].
  split; [done| |]; cbn; [by rewrite Hb, Hd|set_solver].
Qed.
(** A struct is copied as the tuple of its fields is. *)
Lemma copies_via `{Hlt : Layout T V} {R D} (to : R -> T) (build : T -> R) (from : V -> D) (f : R -> M heap R) (g : T -> M heap T) :
  copies g -> (forall t, to (build t) = t) -> (forall r h, f r h = (t ← g (to r); mret (build t)) h) ->
  copies (H:=layout_via to from) f.
Proof.
  intros Hg Hto Hf h r d Hr. cbn in Hr. destruct (reads h (to r)) as [v|] eqn:E; [|done]. injection Hr as <-.
  destruct (Hg h (to r) v E) as (h' & t' & E' & [H1 H2 H3]). exists h', (build t').
  rewrite Hf, (bind_Ok_run _ _ _ _ _ E'). split; [done|]. split; [done|cbn; by rewrite Hto, H2|cbn; by rewrite Hto].
Qed.

(** What a deep copy is for: the original and the copy can be changed independently.  Whatever
    is done to the cells there were, the copy reads the same, and so does the original
    whatever is done to the cells there were not. *)
Definition separate `{Layout T V} (f : T -> M heap T) : Prop := forall h t v, reads h t = Some v ->
  exists h' t', f t h = (h', Ok t') /\ h ⊆ h' /\
    (forall h2, (forall l, l ∉ dom h -> h2 !! l = h' !! l) -> reads h2 t' = Some v) /\
    (forall h2, (forall l, l ∈ dom h -> h2 !! l = h' !! l) -> reads h2 t = Some v).
Lemma copies_separate `{Layout T V} (f : T -> M heap T) : copies f -> separate f.
Proof.
  intros Hf h t v Hr. destruct (Hf h t v Hr) as (h' & t' & E & [H1 H2 H3]). exists h', t'. split_and!; [done..| |].
  - intros h2 Hh2. apply (reads_frame h'); [done|]. intros l Hl. apply Hh2. set_solver.
  - intros h2 Hh2. apply (reads_frame h h2 t v Hr). intros l Hl. pose proof (cells_dom h t v Hr l Hl) as Hd.
    rewrite Hh2 by done. apply elem_of_dom in Hd as [c Hc]. rewrite Hc. by eapply lookup_weaken.
Qed.
End Memory.
Arguments Layout : clear implicits.
