(* ===== verification/RouteStore.v ===== *)
(** The gateway's data and route tables: the types of gateway/api/v1alpha1, the
    persistence interface and its in-memory implementation, and the part of
    [ProxyV1Alpha1] that registers, updates, finds and deletes routes. *)

From Stdlib Require Import Ascii.
From stdpp Require Import base gmap strings list.
From S2P Require Import Prelude.
Local Open Scope Z_scope.

(** ** Data *)

(** [src/gateway/api/v1alpha1/auth.go:3-7 AuthType] a string type with one constant *)
Definition AuthType : Type := string.
Definition AuthTypeOAuth : AuthType := "oauth".

(** [src/gateway/api/v1alpha1/auth.go:14-18 OAuth] *)
Record OAuth := mkOAuth {
  oauth_ClientID : string;
  oauth_ClientSecret : string;
  oauth_TokenURL : string
}.

(** [src/gateway/api/v1alpha1/auth.go:9-12 Auth] *)
Record Auth := mkAuth {
  auth_Type : AuthType;
  auth_OAuth : option OAuth
}.

(** [src/gateway/api/v1alpha1/backend.go:3-12 Backend] *)
Record Backend := mkBackend {
  backend_Host : string;
  backend_Weight : Z;
  backend_Auth : option Auth;
  backend_PathPrefix : string;
  backend_HeadersToAdd : gmap string string;
  backend_Scheme : string
}.

(** [src/gateway/api/v1alpha1/route.go:3-7 Route] *)
Record Route := mkRoute {
  route_Name : string;
  route_Hostnames : list string;
  route_Backends : list Backend
}.

(** The zero value [v1alpha1.Route{}]. *)
Definition zeroRoute : Route := mkRoute "" [] [].

#[global] Instance OAuth_eq_dec : EqDecision OAuth.
Proof. solve_decision. Defined.
#[global] Instance Auth_eq_dec : EqDecision Auth.
Proof. solve_decision. Defined.
#[global] Instance Backend_eq_dec : EqDecision Backend.
Proof. solve_decision. Defined.
#[global] Instance Route_eq_dec : EqDecision Route.
Proof. solve_decision. Defined.

(** [src/gateway/api/v1alpha1/errors.go:5-5 ErrRouteNotFound] *)
Definition ErrRouteNotFound : error := Errorf "route not found".

(** ** The persistence interface and its contract *)

(** [src/gateway/internal/persistence/persistence.go:9-14 PersistenceV1Alpha1] *)
Class PersistenceV1Alpha1 (P : Type) := {
  per_RegisterRoute : Route -> M P Route;
  per_GetRoute : string -> M P Route;
  per_UpdateRoute : Route -> M P Route;
  per_DeleteRoute : string -> M P Route
}.

(** What the proxy relies on: the store behaves as a finite map from route
    names to routes. *)
Class PersistenceSpec (P : Type) `{PersistenceV1Alpha1 P} := {
  stored : P -> gmap string Route;
  spec_register : forall r s, exists s',
    per_RegisterRoute r s = (s', Ok r) /\ stored s' = <[route_Name r := r]> (stored s);
  spec_update : forall r s, exists s',
    per_UpdateRoute r s = (s', Ok r) /\ stored s' = <[route_Name r := r]> (stored s);
  spec_get : forall n s,
    per_GetRoute n s =
      (s, match stored s !! n with Some r => Ok r | None => Err ErrRouteNotFound end);
  spec_delete : forall n s, exists s',
    per_DeleteRoute n s =
      (s', match stored s !! n with Some r => Ok r | None => Err ErrRouteNotFound end) /\
    stored s' = delete n (stored s)
}.

(** ** The in-memory store *)

Module InMem.
(** [src/gateway/internal/persistence/inmem.go:10-12 InMem] the [sync.Map] from
    route names to routes *)
Definition t : Type := gmap string Route.

(** [src/gateway/internal/persistence/inmem.go:14-16 NewInMemV1Alpha1] *)
Definition NewInMemV1Alpha1 : t := ∅.

(** [src/gateway/internal/persistence/inmem.go:18-21 InMem.RegisterRoute] *)
Definition RegisterRoute (route : Route) : M t Route :=
  modify (S:=t) (fun i => <[route_Name route := route]> (i : gmap string Route)) ;;
  mret route.

(** [src/gateway/internal/persistence/inmem.go:23-29 InMem.GetRoute] *)
Definition GetRoute (name : string) : M t Route :=
  o ← gets (S:=t) (fun i => (i : gmap string Route) !! name);
  match o with
  | None => throw ErrRouteNotFound
  | Some route => mret route
  end.

(** [src/gateway/internal/persistence/inmem.go:31-34 InMem.UpdateRoute] *)
Definition UpdateRoute (route : Route) : M t Route :=
  modify (S:=t) (fun i => <[route_Name route := route]> (i : gmap string Route)) ;;
  mret route.

(** [src/gateway/internal/persistence/inmem.go:36-43 InMem.DeleteRoute] *)
Definition DeleteRoute (name : string) : M t Route :=
  o ← gets (S:=t) (fun i => (i : gmap string Route) !! name);
  match o with
  | None => throw ErrRouteNotFound
  | Some route =>
      modify (S:=t) (fun i => delete name (i : gmap string Route)) ;;
      mret route
  end.

#[global] Instance persistence : PersistenceV1Alpha1 t := {
  per_RegisterRoute := RegisterRoute;
  per_GetRoute := GetRoute;
  per_UpdateRoute := UpdateRoute;
  per_DeleteRoute := DeleteRoute
}.

#[global] Program Instance persistence_spec : PersistenceSpec t := {
  stored := fun i => i
}.
Next Obligation. intros r s. by eexists. Qed.
Next Obligation. intros r s. by eexists. Qed.
Next Obligation.
  intros n s. cbn. unfold GetRoute, mbind, M_bind, gets.
  by destruct ((s : gmap string Route) !! n).
Qed.
Next Obligation.
  intros n s. cbn. unfold DeleteRoute, mbind, M_bind, gets.
  destruct ((s : gmap string Route) !! n) as [r|] eqn:E; [by eexists|].
  exists s. split; [done|]. symmetry. by apply delete_id.
Qed.
End InMem.

(** ** The proxy's tables *)

(** [src/gateway/internal/proxy/utils.go:47-49 extractHost] the first piece of
    the split, which is never empty *)
Definition extractHost (h : string) : string :=
  match Split h ":"%char with x :: _ => x | [] => "" end.

Section Proxy.
Context {P : Type} `{PersistenceV1Alpha1 P}.

(** [src/gateway/internal/proxy/proxy.go:15-20 ProxyV1Alpha1] *)
Record ProxyV1Alpha1 := mkProxy {
  persistenceV1Alpha1 : P;
  routesPerHost : gmap string string;
  backendHostToRoute : gmap string string
}.

Definition with_persistence {A} (m : M P A) : M ProxyV1Alpha1 A :=
  zoom persistenceV1Alpha1
    (fun s p => mkProxy s (routesPerHost p) (backendHostToRoute p)) m.

(** [src/gateway/internal/proxy/proxy.go:41-43 routesPerHost.Store] *)
Definition store_hostnames (route : Route) : M ProxyV1Alpha1 unit :=
  foreach (route_Hostnames route) (fun hostname =>
    modify (fun p => mkProxy (persistenceV1Alpha1 p)
                       (<[hostname := route_Name route]> (routesPerHost p))
                       (backendHostToRoute p))).

(** [src/gateway/internal/proxy/proxy.go:44-46 backendHostToRoute.Store] the key
    is written [strings.Split(b.Host, ":")[0]] there *)
Definition store_backend_hosts (route : Route) : M ProxyV1Alpha1 unit :=
  foreach (route_Backends route) (fun b =>
    modify (fun p => mkProxy (persistenceV1Alpha1 p) (routesPerHost p)
                       (<[extractHost (backend_Host b) := route_Name route]>
                          (backendHostToRoute p)))).

(** [src/gateway/internal/proxy/proxy.go:40-48 ProxyV1Alpha1.RegisterRoute] *)
Definition RegisterRoute (route : Route) : M ProxyV1Alpha1 Route :=
  store_hostnames route ;;
  store_backend_hosts route ;;
  with_persistence (per_RegisterRoute route).

(** [src/gateway/internal/proxy/proxy.go:50-52 ProxyV1Alpha1.GetRoute] *)
Definition GetRoute (name : string) : M ProxyV1Alpha1 Route :=
  with_persistence (per_GetRoute name).

(** [src/gateway/internal/proxy/proxy.go:54-62 ProxyV1Alpha1.UpdateRoute] *)
Definition UpdateRoute (route : Route) : M ProxyV1Alpha1 Route :=
  store_hostnames route ;;
  store_backend_hosts route ;;
  with_persistence (per_UpdateRoute route).

(** [src/gateway/internal/proxy/proxy.go:64-66 ProxyV1Alpha1.DeleteRoute] *)
Definition DeleteRoute (name : string) : M ProxyV1Alpha1 Route :=
  with_persistence (per_DeleteRoute name).
End Proxy.
Arguments ProxyV1Alpha1 P : clear implicits.
Arguments mkProxy {P}.

(** [src/gateway/internal/proxy/proxy.go:22-34 New] the tables of a fresh proxy;
    its reverse proxy is in [Forward] *)
Definition New : ProxyV1Alpha1 InMem.t := mkProxy InMem.NewInMemV1Alpha1 ∅ ∅.

(** How a request's host leads to a route, the two lookups of [RewriteV1Alpha1]. *)

Section Resolve.
Context {P : Type} `{PersistenceV1Alpha1 P}.

(** [src/gateway/internal/proxy/handler.go:18-32 ProxyV1Alpha1.RewriteV1Alpha1] either
    failure is answered in the same way by the caller *)
Definition resolve_host (host : string) : M (ProxyV1Alpha1 P) Route :=
  o ← gets (fun p => routesPerHost p !! extractHost host);
  match o with
  | None => throw ErrRouteNotFound
  | Some routeName => with_persistence (per_GetRoute routeName)
  end.

(** The calls of the management API, and a run of them. *)
Inductive api_call :=
| CallRegister (route : Route)
| CallUpdate (route : Route)
| CallGet (name : string)
| CallDelete (name : string).

Definition run_call (c : api_call) : M (ProxyV1Alpha1 P) Route :=
  match c with
  | CallRegister route => RegisterRoute route
  | CallUpdate route => UpdateRoute route
  | CallGet name => GetRoute name
  | CallDelete name => DeleteRoute name
  end.

(** A step is one call, restricted to the routes a predicate allows. *)
Inductive api_step (allowed : Route -> Prop) : relation (ProxyV1Alpha1 P) :=
| api_step_register r p : allowed r -> api_step allowed p (run_call (CallRegister r) p).1
| api_step_update r p : allowed r -> api_step allowed p (run_call (CallUpdate r) p).1
| api_step_get n p : api_step allowed p (run_call (CallGet n) p).1
| api_step_delete n p : api_step allowed p (run_call (CallDelete n) p).1.

Context `{!PersistenceSpec P}.

Definition routes (p : ProxyV1Alpha1 P) : gmap string Route := stored (persistenceV1Alpha1 p).

(** Every stored route is filed under its name, and each of its host names and
    backend hosts is in the tables. *)
Definition tables_cover (p : ProxyV1Alpha1 P) : Prop :=
  forall n r, routes p !! n = Some r ->
    route_Name r = n /\
    (forall h, h ∈ route_Hostnames r -> is_Some (routesPerHost p !! h)) /\
    (forall b, b ∈ route_Backends r ->
       is_Some (backendHostToRoute p !! extractHost (backend_Host b))).

(** Host names are owned: no table entry leads to a route that is not the
    owner's. *)
Definition tables_owned (owner : string -> string) (p : ProxyV1Alpha1 P) : Prop :=
  forall h n, routesPerHost p !! h = Some n -> n = owner h.

Definition owns_hostnames (owner : string -> string) (r : Route) : Prop :=
  forall h, h ∈ route_Hostnames r -> owner h = route_Name r.
End Resolve.

(** ** Lemmas *)

Section Lemmas.
Context {P : Type} `{Hspec : PersistenceSpec P}.
Implicit Types (p : ProxyV1Alpha1 P) (r : Route).

Definition file_tables r p (s : P) : ProxyV1Alpha1 P :=
  mkProxy s
    (store_all (route_Hostnames r) (route_Name r) (routesPerHost p))
    (store_all (map (fun b => extractHost (backend_Host b)) (route_Backends r)) (route_Name r)
       (backendHostToRoute p)).

Lemma store_hostnames_run r p :
  store_hostnames r p =
    (mkProxy (persistenceV1Alpha1 p)
       (store_all (route_Hostnames r) (route_Name r) (routesPerHost p))
       (backendHostToRoute p), Ok tt).
Proof.
  unfold store_hostnames. rewrite foreach_modify. f_equal. unfold store_all.
  destruct p as [s a b]; cbn. generalize (route_Hostnames r) as l. intros l. revert a.
  induction l as [|h l IH]; intros a; [done|]. cbn. apply IH.
Qed.

Lemma store_backend_hosts_run r p :
  store_backend_hosts r p =
    (mkProxy (persistenceV1Alpha1 p) (routesPerHost p)
       (store_all (map (fun b => extractHost (backend_Host b)) (route_Backends r))
          (route_Name r) (backendHostToRoute p)), Ok tt).
Proof.
  unfold store_backend_hosts. rewrite foreach_modify. f_equal. unfold store_all.
  destruct p as [s a b]; cbn. generalize (route_Backends r) as l. intros l. revert b.
  induction l as [|h l IH]; intros b; [done|]. cbn. apply IH.
Qed.

(** Registering and updating file the route in the same way. *)
Lemma RegisterRoute_run r p : exists s,
  RegisterRoute r p = (file_tables r p s, Ok r) /\
  stored s = <[route_Name r := r]> (routes p).
Proof.
  destruct (spec_register r (persistenceV1Alpha1 p)) as (s & Hs & Hst). exists s.
  unfold RegisterRoute, mbind, M_bind. rewrite store_hostnames_run, store_backend_hosts_run.
  unfold with_persistence, zoom. cbn. by rewrite Hs.
Qed.

Lemma UpdateRoute_run r p : exists s,
  UpdateRoute r p = (file_tables r p s, Ok r) /\
  stored s = <[route_Name r := r]> (routes p).
Proof.
  destruct (spec_update r (persistenceV1Alpha1 p)) as (s & Hs & Hst). exists s.
  unfold UpdateRoute, mbind, M_bind. rewrite store_hostnames_run, store_backend_hosts_run.
  unfold with_persistence, zoom. cbn. by rewrite Hs.
Qed.

Lemma GetRoute_run n p :
  GetRoute n p =
    (p, match routes p !! n with Some r => Ok r | None => Err ErrRouteNotFound end).
Proof. unfold GetRoute, with_persistence, zoom, routes. rewrite spec_get. by destruct p. Qed.

Lemma DeleteRoute_run n p : exists s,
  DeleteRoute n p =
    (mkProxy s (routesPerHost p) (backendHostToRoute p),
     match routes p !! n with Some r => Ok r | None => Err ErrRouteNotFound end) /\
  stored s = delete n (routes p).
Proof.
  destruct (spec_delete n (persistenceV1Alpha1 p)) as (s & Hs & Hst). exists s.
  unfold DeleteRoute, with_persistence, zoom. by rewrite Hs.
Qed.

Lemma resolve_host_run h p :
  resolve_host h p =
    (p, match routesPerHost p !! extractHost h with
        | None => Err ErrRouteNotFound
        | Some n => match routes p !! n with Some r => Ok r | None => Err ErrRouteNotFound end
        end).
Proof.
  unfold resolve_host, mbind, M_bind, gets.
  destruct (routesPerHost p !! extractHost h) as [n|]; [|done]. apply GetRoute_run.
Qed.

Lemma file_tables_cover r p s :
  stored s = <[route_Name r := r]> (routes p) -> tables_cover p ->
  tables_cover (file_tables r p s).
Proof.
  intros Hs Hp n r' Hr'. unfold routes in Hr'. cbn in Hr'. rewrite Hs in Hr'.
  apply lookup_insert_Some in Hr' as [[<- <-]|[Hn Hr']].
  - split; [done|]. cbn. split; intros h Hh; rewrite lookup_store_all, decide_True; eauto.
    apply list_elem_of_fmap. eauto.
  - destruct (Hp n r' Hr') as (Hname & Hh & Hb). split; [done|]. cbn.
    split; intros x Hx; rewrite lookup_store_all; case_decide; eauto.
Qed.

Lemma file_tables_owned owner r p s :
  owns_hostnames owner r -> tables_owned owner p -> tables_owned owner (file_tables r p s).
Proof.
  intros Hr Hp h n. cbn. rewrite lookup_store_all. case_decide as Hin; [|apply Hp].
  intros [= <-]. symmetry. by apply Hr.
Qed.

Lemma api_step_cover allowed p p' :
  tables_cover p -> api_step allowed p p' -> tables_cover p'.
Proof.
  intros Hp Hstep. destruct Hstep as [r p Hr|r p Hr|n p|n p]; cbn [run_call].
  - destruct (RegisterRoute_run r p) as (s & -> & Hs). by apply file_tables_cover.
  - destruct (UpdateRoute_run r p) as (s & -> & Hs). by apply file_tables_cover.
  - by rewrite GetRoute_run.
  - destruct (DeleteRoute_run n p) as (s & -> & Hs). intros n' r' Hr'.
    unfold routes in Hr'. cbn in Hr'. rewrite Hs in Hr'.
    apply lookup_delete_Some in Hr' as [_ Hr']. by apply Hp.
Qed.

Lemma api_step_owned owner p p' :
  tables_owned owner p -> api_step (owns_hostnames owner) p p' -> tables_owned owner p'.
Proof.
  intros Hp Hstep. destruct Hstep as [r p Hr|r p Hr|n p|n p]; cbn [run_call].
  - destruct (RegisterRoute_run r p) as (s & -> & Hs). by apply file_tables_owned.
  - destruct (UpdateRoute_run r p) as (s & -> & Hs). by apply file_tables_owned.
  - by rewrite GetRoute_run.
  - by destruct (DeleteRoute_run n p) as (s & -> & Hs).
Qed.

Lemma tables_cover_init p : routes p = ∅ -> tables_cover p.
Proof. intros Hp n r. by rewrite Hp, lookup_empty. Qed.
End Lemmas.

Lemma extractHost_no_port h : contains_byte ":"%char h = false -> extractHost h = h.
Proof. intros Hh. unfold extractHost. by rewrite Split_no_sep. Qed.

Lemma extractHost_port h port :
  contains_byte ":"%char h = false -> extractHost (h +:+ String ":" port) = h.
Proof. intros Hh. unfold extractHost. by rewrite Split_app_sep. Qed.

Lemma extractHost_clean h : contains_byte ":"%char (extractHost h) = false.
Proof.
  unfold extractHost. pose proof (Split_pieces h ":"%char) as Hf.
  destruct (Split h ":"%char) as [|x l]; [done|]. by inversion Hf.
Qed.

(** ** Properties *)

Section Properties.
Context {P : Type} `{Hspec : PersistenceSpec P}.

(** Registering a route always succeeds and returns it; afterwards the
    route is stored under its name, exactly its host names (and the hosts of
    its backends, without their ports) lead to it, and no other name, host or
    route has changed. *)
Theorem register_route_effect r (p : ProxyV1Alpha1 P) :
  let p' := (RegisterRoute r p).1 in
  (RegisterRoute r p).2 = Ok r /\
  routes p' = <[route_Name r := r]> (routes p) /\
  (forall h, routesPerHost p' !! h =
     if decide (h ∈ route_Hostnames r) then Some (route_Name r) else routesPerHost p !! h) /\
  (forall h, backendHostToRoute p' !! h =
     if decide (h ∈ map (fun b => extractHost (backend_Host b)) (route_Backends r))
     then Some (route_Name r) else backendHostToRoute p !! h).
Proof.
  destruct (RegisterRoute_run r p) as (s & -> & Hs). cbn.
  repeat split; [done| |]; intros h; apply lookup_store_all.
Qed.

(** Whatever calls the management API receives, every stored route stays
    filed under its own name with all of its host names and backend hosts in
    the tables: the proxy always has an entry for a served host. *)
Theorem gateway_tables_cover (p0 p : ProxyV1Alpha1 P) :
  routes p0 = ∅ -> rtc (api_step (fun _ => True)) p0 p -> tables_cover p.
Proof.
  intros Hempty. apply rtc_invariant; [apply api_step_cover|by apply tables_cover_init].
Qed.

(** When no two routes claim the same host name, a request for a host name
    of a stored route is always served by that route, after any sequence of
    registrations, updates, look-ups and deletions. *)
Theorem hosts_resolve_to_their_route owner (p0 p : ProxyV1Alpha1 P) n r h :
  routes p0 = ∅ -> routesPerHost p0 = ∅ ->
  rtc (api_step (owns_hostnames owner)) p0 p ->
  routes p !! n = Some r -> owns_hostnames owner r ->
  h ∈ route_Hostnames r -> extractHost h = h ->
  resolve_host h p = (p, Ok r).
Proof.
  intros Hempty Hr0 Hrtc Hr Hown Hh Hport.
  assert (tables_owned owner p) as Howned.
  { eapply rtc_invariant; [apply api_step_owned| |exact Hrtc].
    intros h' n'. by rewrite Hr0, lookup_empty. }
  assert (tables_cover p) as Hcover.
  { eapply rtc_invariant; [apply api_step_cover| |exact Hrtc]. by apply tables_cover_init. }
  destruct (Hcover n r Hr) as (Hname & Hhosts & _).
  destruct (Hhosts h Hh) as [n' Hn']. rewrite resolve_host_run, Hport, Hn'.
  by rewrite (Howned h n' Hn'), (Hown h Hh), Hname, Hr.
Qed.

(** After a route is deleted no host is served by it any more: a look-up of
    any host gives another route or fails. *)
Theorem deleted_route_unreachable n (p : ProxyV1Alpha1 P) h r :
  tables_cover p -> (resolve_host h (DeleteRoute n p).1).2 = Ok r -> route_Name r <> n.
Proof.
  intros Hp. destruct (DeleteRoute_run n p) as (s & -> & Hs). rewrite resolve_host_run. cbn.
  destruct (routesPerHost p !! extractHost h) as [n'|]; [|done].
  unfold routes. cbn. rewrite Hs, lookup_delete.
  case_decide as Hn; [done|].
  destruct (routes p !! n') as [r'|] eqn:E; [|done]. intros [= <-].
  destruct (Hp n' r' E) as [-> _]. by intros ->.
Qed.

(** An update never withdraws a host name: a host that led to the route
    before the update is still served by the updated route even when the
    update no longer lists it. *)
Theorem update_keeps_dropped_hosts r (p : ProxyV1Alpha1 P) h :
  routesPerHost p !! extractHost h = Some (route_Name r) ->
  (resolve_host h (UpdateRoute r p).1).2 = Ok r.
Proof.
  intros Hh. destruct (UpdateRoute_run r p) as (s & -> & Hs). rewrite resolve_host_run. cbn.
  rewrite lookup_store_all.
  assert ((if decide (extractHost h ∈ route_Hostnames r) then Some (route_Name r)
           else routesPerHost p !! extractHost h) = Some (route_Name r)) as ->.
  { by case_decide. }
  unfold routes. cbn. by rewrite Hs, lookup_insert_eq.
Qed.
End Properties.

(** ** Witnesses *)

Module RouteStoreExamples.
Definition api := mkRoute "api" ["api.example.com"] [mkBackend "10.0.0.1:80" 1 None "" ∅ "http"].
Definition web := mkRoute "web" ["web.example.com"] [mkBackend "10.0.0.2:80" 1 None "" ∅ "http"].
Definition owner (h : string) : string := if String.eqb h "api.example.com" then "api" else "web".
Definition two_routes : ProxyV1Alpha1 InMem.t := (run_call (CallUpdate web)
  (run_call (CallRegister api) New).1).1.
Definition api_without_host := mkRoute "api" [] (route_Backends api).

Lemma api_owned : owns_hostnames owner api.
Proof. intros h Hh. apply list_elem_of_singleton in Hh as ->. reflexivity. Qed.
Lemma web_owned : owns_hostnames owner web.
Proof. intros h Hh. apply list_elem_of_singleton in Hh as ->. reflexivity. Qed.

Lemma two_routes_reachable (allowed : Route -> Prop) :
  allowed api -> allowed web -> rtc (api_step allowed) New two_routes.
Proof.
  intros Ha Hw. eapply rtc_l; [exact (api_step_register allowed api New Ha)|].
  eapply rtc_l; [exact (api_step_update allowed web _ Hw)|]. reflexivity.
Qed.

Lemma gateway_tables_cover_witness : tables_cover two_routes.
Proof.
  apply (gateway_tables_cover New two_routes); [reflexivity|].
  by apply two_routes_reachable.
Defined.

Lemma hosts_resolve_to_their_route_witness :
  resolve_host "web.example.com" two_routes = (two_routes, Ok web).
Proof.
  apply (hosts_resolve_to_their_route owner New two_routes "web" web).
  - reflexivity.
  - reflexivity.
  - apply two_routes_reachable; [apply api_owned|apply web_owned].
  - reflexivity.
  - apply web_owned.
  - apply list_elem_of_singleton. reflexivity.
  - reflexivity.
Defined.

Lemma deleted_route_unreachable_witness :
  (resolve_host "web.example.com" (DeleteRoute "api" two_routes).1).2 = Ok web /\
  route_Name web <> "api".
Proof.
  assert ((resolve_host "web.example.com" (DeleteRoute "api" two_routes).1).2 = Ok web) as Hok
    by reflexivity.
  split; [exact Hok|].
  apply (deleted_route_unreachable "api" two_routes "web.example.com" web); [|exact Hok].
  apply (rtc_invariant (api_step (fun _ => True)) _ New);
    [apply api_step_cover|by apply tables_cover_init|by apply two_routes_reachable].
Defined.

Lemma update_keeps_dropped_hosts_witness :
  (resolve_host "api.example.com" (UpdateRoute api_without_host two_routes).1).2
    = Ok api_without_host.
Proof. apply (update_keeps_dropped_hosts api_without_host two_routes). reflexivity. Defined.
End RouteStoreExamples.
