(* ===== verification/Balancer.v ===== *)
(** The gateway's load balancing and path handling (gateway/internal/proxy/utils.go
    and the end of handler.go): the weighted random choice of a backend and the
    removal of a path prefix. *)

From Stdlib Require Import Ascii.
From stdpp Require Import base numbers gmap strings list.
From S2P Require Import Prelude RouteStore.
Local Open Scope Z_scope.

(** [golang.org/x/exp/rand.Intn]: the generator is outside the repository. *)
Class Rand (W : Type) := { Intn : Z -> M W Z }.

(** What its documentation promises: [Intn n] is in [[0, n)] and panics when [n <= 0]. *)
Class RandSpec (W : Type) `{Rand W} : Prop := {
  Intn_range n w : 0 < n -> exists r w', Intn n w = (w', Ok r) /\ 0 <= r < n;
  Intn_panic n w : n <= 0 -> (Intn n w).2 = Panic
}.

(** [src/gateway/internal/proxy/utils.go:13-16 weightedBackend] *)
Record weightedBackend := mkWeighted {
  wb_backend : Backend;
  wb_weight : Z
}.

(** [src/gateway/internal/proxy/utils.go:20-26 weightedRandomBackend] the loop: the first
    backend whose cumulated weight exceeds the drawn index *)
Fixpoint pick_loop (backends : list weightedBackend) (lastWeight randomIndex : Z) : option Backend :=
  match backends with
  | [] => None
  | wb :: rest =>
      let lastWeight' := add64 lastWeight (wb_weight wb) in
      if randomIndex <? lastWeight' then Some (wb_backend wb)
      else pick_loop rest lastWeight' randomIndex
  end.

(** [src/gateway/internal/proxy/utils.go:20-27 weightedRandomBackend] with the index drawn:
    the loop, then [backends[len(backends)-1]], which panics on no backend *)
Definition choose (backends : list weightedBackend) (randomIndex : Z) : res Backend :=
  match pick_loop backends 0 randomIndex with
  | Some b => Ok b
  | None => match last backends with Some wb => Ok (wb_backend wb) | None => Panic end
  end.

(** [src/gateway/internal/proxy/utils.go:18-28 weightedRandomBackend] *)
Definition weightedRandomBackend {W} `{Rand W}
    (backends : list weightedBackend) (totalWeight : Z) : M W Backend :=
  randomIndex ← Intn totalWeight;
  of_res (choose backends randomIndex).

(** [src/gateway/internal/proxy/handler.go:228-236 removePathPrefix] *)
Definition removePathPrefix (path pre : string) : string :=
  let pre := if negb (HasPrefix path "/") && HasPrefix pre "/" then str_drop 1 pre else pre in
  if negb (HasPrefix path pre) then path
  else str_drop (String.length pre) path.

(** ** Specification of the split *)

Definition total_weight (l : list weightedBackend) : Z :=
  foldr (fun wb acc => wb_weight wb + acc) 0 l.

(** The weight the entries of a backend carry together. *)
Definition weight_of (b : Backend) (l : list weightedBackend) : Z :=
  foldr (fun wb acc => (if decide (wb_backend wb = b) then wb_weight wb else 0) + acc) 0 l.

Definition weights_ok (l : list weightedBackend) : Prop :=
  Forall (fun wb => 0 <= wb_weight wb) l /\ total_weight l < 2 ^ 63.

(** How many of the draws in [[0, total)] give [b]. *)
Definition share (b : Backend) (l : list weightedBackend) : nat :=
  length (filter (fun r => choose l r = Ok b) (seqZ 0 (total_weight l))).

(** ** Lemmas *)

Lemma total_weight_cons wb l : total_weight (wb :: l) = wb_weight wb + total_weight l.
Proof. reflexivity. Qed.

Lemma weight_of_cons b wb l :
  weight_of b (wb :: l) = (if decide (wb_backend wb = b) then wb_weight wb else 0) + weight_of b l.
Proof. reflexivity. Qed.

Lemma total_weight_nonneg l : Forall (fun wb => 0 <= wb_weight wb) l -> 0 <= total_weight l.
Proof. induction 1; rewrite ?total_weight_cons; cbn; lia. Qed.

(** The loop finds its backend as soon as the draw is below the total weight. *)
Lemma pick_loop_found l acc r :
  Forall (fun wb => 0 <= wb_weight wb) l -> 0 <= acc -> acc + total_weight l < 2 ^ 63 ->
  acc <= r < acc + total_weight l ->
  exists wb, wb ∈ l /\ 0 < wb_weight wb /\ pick_loop l acc r = Some (wb_backend wb).
Proof.
  intros Hl. revert acc. induction Hl as [|wb l Hwb Hl IH]; intros acc Hacc Hmax Hr.
  { cbn in Hr. lia. }
  pose proof (total_weight_nonneg l Hl). rewrite total_weight_cons in *. cbn.
  rewrite add64_id by (unfold in_int64; lia).
  destruct (Z.ltb_spec r (acc + wb_weight wb)) as [Hlt|Hge].
  - exists wb. split; [apply elem_of_cons; by left|]. split; [lia|done].
  - destruct (IH (acc + wb_weight wb)) as (wb' & Hin & Hpos & ->); [lia..|]. exists wb'. split; [by apply elem_of_cons; right|done].
Qed.

Lemma filter_seqZ_split (P : Z -> Prop) `{!forall x, Decision (P x)} m n1 n2 :
  0 <= n1 -> 0 <= n2 ->
  length (filter P (seqZ m (n1 + n2))) =
    (length (filter P (seqZ m n1)) + length (filter P (seqZ (m + n1) n2)))%nat.
Proof. intros H1 H2. rewrite seqZ_app by done. by rewrite filter_app, length_app. Qed.

Lemma filter_all_length {A} (P : A -> Prop) `{!forall x, Decision (P x)} (l : list A) :
  (forall x, x ∈ l -> P x) -> length (filter P l) = length l.
Proof.
  intros HP. induction l as [|x l IH]; [done|]. rewrite filter_cons_True by (apply HP; set_solver).
  cbn. rewrite IH; [done|]. intros y Hy. apply HP. set_solver.
Qed.

Lemma filter_none_length {A} (P : A -> Prop) `{!forall x, Decision (P x)} (l : list A) :
  (forall x, x ∈ l -> ~ P x) -> length (filter P l) = 0%nat.
Proof.
  intros HP. induction l as [|x l IH]; [done|]. rewrite filter_cons_False by (apply HP; set_solver).
  apply IH. intros y Hy. apply HP. set_solver.
Qed.

Lemma filter_ext_length {A} (P Q : A -> Prop) `{!forall x, Decision (P x)}
    `{!forall x, Decision (Q x)} (l : list A) :
  (forall x, x ∈ l -> P x <-> Q x) -> length (filter P l) = length (filter Q l).
Proof.
  intros HPQ. induction l as [|x l IH]; [done|]. setoid_rewrite elem_of_cons in HPQ.
  assert (length (filter P l) = length (filter Q l)) as IH'
    by (apply IH; auto).
  assert (P x <-> Q x) as Hx by auto.
  rewrite !filter_cons. repeat case_decide; cbn; tauto || lia.
Qed.

(** The draws between [acc] and the end give each backend its weight. *)
Lemma pick_loop_share b l acc :
  Forall (fun wb => 0 <= wb_weight wb) l -> 0 <= acc -> acc + total_weight l < 2 ^ 63 ->
  Z.of_nat (length (filter (fun r => pick_loop l acc r = Some b) (seqZ acc (total_weight l))))
    = weight_of b l.
Proof.
  intros Hl. revert acc. induction Hl as [|wb l Hwb Hl IH]; intros acc Hacc Hmax; [done|].
  pose proof (total_weight_nonneg l Hl) as Hnn.
  rewrite total_weight_cons in *. rewrite weight_of_cons.
  rewrite filter_seqZ_split by lia. rewrite Nat2Z.inj_add.
  rewrite <- (IH (acc + wb_weight wb)) by lia. f_equal.
  - case_decide as Hb.
    + rewrite filter_all_length; [rewrite length_seqZ; lia|].
      intros r Hr%elem_of_seqZ. cbn. rewrite add64_id by (unfold in_int64; lia).
      assert ((r <? acc + wb_weight wb) = true) as -> by lia. by rewrite Hb.
    + rewrite filter_none_length; [done|].
      intros r Hr%elem_of_seqZ. cbn. rewrite add64_id by (unfold in_int64; lia).
      assert ((r <? acc + wb_weight wb) = true) as -> by lia. congruence.
  - f_equal. apply filter_ext_length. intros r Hr%elem_of_seqZ. cbn.
    rewrite add64_id by (unfold in_int64; lia).
    assert ((r <? acc + wb_weight wb) = false) as -> by lia. done.
Qed.

Lemma choose_in_range l r :
  weights_ok l -> 0 <= r < total_weight l ->
  exists wb, wb ∈ l /\ 0 < wb_weight wb /\ choose l r = Ok (wb_backend wb).
Proof.
  intros [Hl Hmax] Hr. destruct (pick_loop_found l 0 r) as (wb & Hin & Hpos & Hp); [done|lia..|].
  exists wb. unfold choose. by rewrite Hp.
Qed.

Lemma share_weight_of b l : weights_ok l -> Z.of_nat (share b l) = weight_of b l.
Proof.
  intros [Hl Hmax]. rewrite <- (pick_loop_share b l 0) by (done || lia). unfold share. f_equal.
  apply filter_ext_length. intros r Hr%elem_of_seqZ.
  destruct (pick_loop_found l 0 r) as (wb & _ & _ & Hp); [done|lia..|].
  unfold choose. rewrite Hp. split; congruence.
Qed.

Lemma weighted_choice_run {W} `{RandSpec W} l (w : W) :
  weights_ok l -> 0 < total_weight l ->
  exists wb w', wb ∈ l /\ 0 < wb_weight wb /\
    weightedRandomBackend l (total_weight l) w = (w', Ok (wb_backend wb)).
Proof.
  intros Hl Hpos. destruct (Intn_range (total_weight l) w Hpos) as (r & w' & Hw & Hr).
  destruct (choose_in_range l r Hl Hr) as (wb & Hin & Hwb & Hc).
  exists wb, w'. repeat split; [done..|]. unfold weightedRandomBackend, mbind, M_bind.
  rewrite Hw. unfold of_res. by rewrite Hc.
Qed.

(** ** Properties *)

(** C19. The split is exact: of the equally likely draws below the total weight,
    each backend receives as many as its weight, so a request goes to it with
    probability weight over total; no draw is left over and none falls to a
    candidate without weight. *)
Theorem weighted_choice_exact_share l :
  weights_ok l ->
  (forall b, Z.of_nat (share b l) = weight_of b l) /\
  (forall r, 0 <= r < total_weight l ->
     exists wb, wb ∈ l /\ 0 < wb_weight wb /\ choose l r = Ok (wb_backend wb)).
Proof. intros Hl. split; [intros b; by apply share_weight_of|intros r; by apply choose_in_range]. Qed.

(** With a positive total the choice ends in one of the candidates that has a
    positive weight, for every draw of the generator: it never falls through to the
    last element.  With no weight at all it panics instead of choosing. *)
Theorem weighted_choice_total {W} `{RandSpec W} l (w : W) :
  weights_ok l ->
  (0 < total_weight l ->
   exists wb w', wb ∈ l /\ 0 < wb_weight wb /\
     weightedRandomBackend l (total_weight l) w = (w', Ok (wb_backend wb))) /\
  (total_weight l = 0 -> (weightedRandomBackend l (total_weight l) w).2 = Panic).
Proof.
  intros Hl. split; [by apply weighted_choice_run|]. intros Hz.
  unfold weightedRandomBackend, mbind, M_bind. pose proof (Intn_panic (total_weight l) w) as Hp.
  destruct (Intn (total_weight l) w) as [w' r]. cbn in Hp. by rewrite Hp by lia.
Qed.

(** Removing a path prefix undoes putting it in front of the path, for every
    prefix and path. *)
Theorem removePathPrefix_roundtrip (pre path : string) :
  removePathPrefix (pre +:+ path) pre = path.
Proof.
  unfold removePathPrefix.
  destruct (negb (HasPrefix (pre +:+ path) "/") && HasPrefix pre "/") eqn:E.
  - apply andb_true_iff in E as [E1 E2]. apply HasPrefix_spec in E2 as [t ->].
    by rewrite <- app_assoc_str, HasPrefix_app in E1.
  - rewrite HasPrefix_app. cbn. apply str_drop_app.
Qed.

(** ** Witnesses *)

Module BalancerExamples.
Definition local := mkBackend "model-beamlit.default.svc.cluster.local:80" 50 None "" ∅ "http".
Definition remote := mkBackend "run.beamlit.com" 50 None "" ∅ "https".
Definition half := [mkWeighted local 50; mkWeighted remote 50].

(** A generator that always draws the index it holds (cut to the range). *)
#[export] Instance const_rand : Rand Z := {
  Intn n w := if n <=? 0 then (w, Panic) else (w, Ok (w `mod` n))
}.
#[export] Instance const_rand_spec : RandSpec Z.
Proof.
  constructor; intros n w Hn; cbn.
  - assert ((n <=? 0) = false) as -> by lia. exists (w `mod` n), w. split; [done|].
    by apply Z.mod_pos_bound.
  - by assert ((n <=? 0) = true) as -> by lia.
Qed.

Lemma half_ok : weights_ok half.
Proof. split; [repeat constructor; cbn; lia|reflexivity]. Qed.

Lemma weighted_choice_exact_share_witness : Z.of_nat (share remote half) = 50.
Proof. rewrite (proj1 (weighted_choice_exact_share half half_ok) remote). reflexivity. Defined.

Lemma weighted_choice_total_witness :
  exists wb w', wb ∈ half /\ 0 < wb_weight wb /\
    weightedRandomBackend half 100 (77 : Z) = (w', Ok (wb_backend wb)).
Proof. apply (weighted_choice_total half (77 : Z)); [exact half_ok|reflexivity]. Defined.
End BalancerExamples.
