(* ===== verification/Http.v ===== *)
(** The values of net/http the gateway works on (requests, responses, headers,
    response writers) and the environment it calls: the HTTP client, the token
    source, the random generator and the clock. *)

From Stdlib Require Import Ascii.
From stdpp Require Import base numbers gmap strings list.
From S2P Require Import Prelude RouteStore Balancer.
Local Open Scope Z_scope.

(** ** Headers *)

Abbreviation Header := (gmap string (list string)).

Definition is_lower (c : ascii) : bool := (97 <=? nat_of_ascii c)%nat && (nat_of_ascii c <=? 122)%nat.
Definition is_upper (c : ascii) : bool := (65 <=? nat_of_ascii c)%nat && (nat_of_ascii c <=? 90)%nat.
Definition is_digit (c : ascii) : bool := (48 <=? nat_of_ascii c)%nat && (nat_of_ascii c <=? 57)%nat.

(** The bytes a header name may hold. *)
Definition is_token_byte (c : ascii) : bool :=
  is_lower c || is_upper c || is_digit c || contains_byte c "!#$%&'*+-.^_`|~".

Fixpoint all_bytes (f : ascii -> bool) (s : string) : bool :=
  match s with EmptyString => true | String c s' => f c && all_bytes f s' end.

Fixpoint canonical_bytes (upper : bool) (s : string) : string :=
  match s with
  | EmptyString => EmptyString
  | String c s' =>
      let c' := if upper && is_lower c then ascii_of_nat (nat_of_ascii c - 32)
                else if negb upper && is_upper c then ascii_of_nat (nat_of_ascii c + 32)
                else c in
      String c' (canonical_bytes (Ascii.eqb c "-"%char) s')
  end.

(** [http.CanonicalHeaderKey]. *)
Definition CanonicalHeaderKey (s : string) : string :=
  if all_bytes is_token_byte s then canonical_bytes true s else s.

(** [Header.Set], [Header.Add], [Header.Del], [Header.Get]. *)
Definition header_Set (k v : string) (h : Header) : Header := <[CanonicalHeaderKey k := [v]]> h.
Definition header_Add (k v : string) (h : Header) : Header :=
  <[CanonicalHeaderKey k := default [] (h !! CanonicalHeaderKey k) ++ [v]]> h.
Definition header_Del (k : string) (h : Header) : Header := delete (CanonicalHeaderKey k) h.
Definition header_Get (k : string) (h : Header) : string :=
  match h !! CanonicalHeaderKey k with Some (v :: _) => v | _ => "" end.

(** [for k, v := range src { dst[k] = v }]. *)
Definition copy_header (src dst : Header) : Header := src ∪ dst.

(** ** Bodies, requests and responses *)

(** A response body: absent, or a stream of bytes that may break off with an
    error and that fails once it is closed. *)
Inductive Body :=
| NoBody
| Stream (content : string) (broken : option error) (closed : bool).

Definition body_of (s : string) : Body := Stream s None false.

Definition Close (b : Body) : Body :=
  match b with NoBody => NoBody | Stream s e _ => Stream s e true end.

Definition errReadOnClosedResBody : error := Errorf "http: read on closed response body".

(** What reading a body to its end gives: the bytes, and the error it ends with. *)
Definition read_body (b : Body) : string * option error :=
  match b with
  | NoBody => ("", None)
  | Stream _ _ true => ("", Some errReadOnClosedResBody)
  | Stream s e false => (s, e)
  end.

Record URL := mkURL { url_Scheme : string; url_Host : string; url_Path : string }.

(** The fields of a redirect response that the gateway writes through
    [Request.Response]. *)
Record Redirect := mkRedirect { rd_Status : string; rd_StatusCode : Z; rd_Body : Body }.

(** [req_Response] is nil on the requests a server receives, and on their clones:
    only a client that follows a redirect fills it.  [req_ClientIP] is the host
    part of [RemoteAddr], when it has one, and [req_TLS] whether [TLS] is set. *)
Record Request := mkRequest {
  req_Method : string;
  req_URL : URL;
  req_Host : string;
  req_Header : Header;
  req_Body : string;
  req_Proto : string * (Z * Z);
  req_Response : option Redirect;
  req_ClientIP : option string;
  req_TLS : bool
}.

Record Response := mkResponse {
  resp_StatusCode : Z;
  resp_Status : string;
  resp_Header : Header;
  resp_Body : Body
}.

Definition set_url (u : URL) (r : Request) : Request :=
  mkRequest (req_Method r) u (req_Host r) (req_Header r) (req_Body r) (req_Proto r)
    (req_Response r) (req_ClientIP r) (req_TLS r).
Definition set_host (h : string) (r : Request) : Request :=
  mkRequest (req_Method r) (req_URL r) h (req_Header r) (req_Body r) (req_Proto r)
    (req_Response r) (req_ClientIP r) (req_TLS r).
Definition set_header (h : Header) (r : Request) : Request :=
  mkRequest (req_Method r) (req_URL r) (req_Host r) h (req_Body r) (req_Proto r)
    (req_Response r) (req_ClientIP r) (req_TLS r).
Definition set_proto (v : string * (Z * Z)) (r : Request) : Request :=
  mkRequest (req_Method r) (req_URL r) (req_Host r) (req_Header r) (req_Body r) v
    (req_Response r) (req_ClientIP r) (req_TLS r).
Definition set_response (v : option Redirect) (r : Request) : Request :=
  mkRequest (req_Method r) (req_URL r) (req_Host r) (req_Header r) (req_Body r) (req_Proto r)
    v (req_ClientIP r) (req_TLS r).
Definition set_path (p : string) (r : Request) : Request :=
  set_url (mkURL (url_Scheme (req_URL r)) (url_Host (req_URL r)) p) r.

(** ** Response writers *)

(** What a handler has written: the header map it may still edit, and, once the
    status line is out, the status and the header as they were sent. *)
Record ResponseWriter := mkWriter {
  rw_header : Header;
  rw_sent : option (Z * Header);
  rw_body : string
}.

Definition newWriter : ResponseWriter := mkWriter ∅ None "".

(** Sending a final status; only the first one has an effect. *)
Definition send_status (code : Z) (w : ResponseWriter) : ResponseWriter :=
  match rw_sent w with
  | Some _ => w
  | None => mkWriter (rw_header w) (Some (code, rw_header w)) (rw_body w)
  end.

(** The codes that a status line can have, and those that announce another status. *)
Definition valid_code (code : Z) : bool := (100 <=? code) && (code <=? 999).
Definition informational (code : Z) : bool := (100 <=? code) && (code <=? 199) && negb (code =? 101).

(** [ResponseWriter.WriteHeader]: once the status is out another call is only logged; before
    that an invalid code is a panic, and an informational one is sent at once and leaves the
    status open. *)
Definition WriteHeader (code : Z) : M ResponseWriter unit := fun w =>
  match rw_sent w with
  | Some _ => (w, Ok tt)
  | None => if negb (valid_code code) then (w, Panic)
            else if informational code then (w, Ok tt)
            else (send_status code w, Ok tt)
  end.

(** The first write sends status 200 when no status was sent. *)
Definition Write (data : string) (w : ResponseWriter) : ResponseWriter :=
  let w' := send_status 200 w in mkWriter (rw_header w') (rw_sent w') (rw_body w' +:+ data).

Definition rw_status (w : ResponseWriter) : option Z := fst <$> rw_sent w.

(** [http.Error], whose codes are valid wherever it is called. *)
Definition http_Error (msg : string) (code : Z) (w : ResponseWriter) : ResponseWriter :=
  Write (msg +:+ String (ascii_of_nat 10) "")
    (send_status code
       (mkWriter (header_Set "X-Content-Type-Options" "nosniff"
                    (header_Set "Content-Type" "text/plain; charset=utf-8" (rw_header w)))
          (rw_sent w) (rw_body w))).

Lemma send_status_sent code w : is_Some (rw_sent (send_status code w)).
Proof. unfold send_status. destruct (rw_sent w) eqn:E; [by rewrite E|by eexists]. Qed.
Lemma send_status_first code w : rw_sent w = None -> rw_sent (send_status code w) = Some (code, rw_header w).
Proof. unfold send_status. by intros ->. Qed.
Lemma send_status_keeps code w : is_Some (rw_sent w) -> send_status code w = w.
Proof. intros [x Hx]. unfold send_status. by rewrite Hx. Qed.
Lemma send_status_body code w : rw_body (send_status code w) = rw_body w.
Proof. unfold send_status. by destruct (rw_sent w). Qed.

(** A final code is sent. *)
Lemma WriteHeader_final code w : valid_code code = true -> informational code = false ->
  WriteHeader code w = (send_status code w, Ok tt).
Proof. intros Hv Hi. unfold WriteHeader, send_status. destruct (rw_sent w); [done|]. by rewrite Hv, Hi. Qed.
Lemma WriteHeader_again code w : is_Some (rw_sent w) -> WriteHeader code w = (w, Ok tt).
Proof. intros [x Hx]. unfold WriteHeader. by rewrite Hx. Qed.

Lemma Write_sent data w : is_Some (rw_sent (Write data w)).
Proof. unfold Write. cbn. apply send_status_sent. Qed.
Lemma Write_keeps data w : is_Some (rw_sent w) -> rw_sent (Write data w) = rw_sent w.
Proof. intros Hw. unfold Write. cbn. by rewrite send_status_keeps. Qed.
Lemma Write_body data w : rw_body (Write data w) = rw_body w +:+ data.
Proof. unfold Write. cbn. by rewrite send_status_body. Qed.

(** ** The environment *)

(** [Do] is [http.DefaultClient.Do], [RoundTrip] the reverse proxy's transport,
    [Token] the OAuth client-credentials exchange (the access token it yields),
    [ParseURL] [url.Parse] of [URL.String()], [Sleep] takes nanoseconds. *)
Class HttpEnv (W : Type) := {
  http_rand :: Rand W;
  Do : Request -> M W Response;
  RoundTrip : Request -> M W Response;
  Token : OAuth -> M W string;
  ParseURL : URL -> res URL;
  Sleep : Z -> M W unit
}.

(** What a transport gives: a code of three digits, after any informational ones; that a
    backend switches protocols is left out. *)
Definition final_code (code : Z) : Prop := 0 <= code <= 999 /\ ~ 100 <= code < 200.

(** The documented behaviour the properties rely on: no call panics, codes are final, and
    sleeping succeeds. *)
Class HttpEnvSpec (W : Type) `{HttpEnv W} : Prop := {
  env_rand :: RandSpec W;
  Do_no_panic r w : (Do r w).2 <> Panic;
  Do_final r w resp : (Do r w).2 = Ok resp -> final_code (resp_StatusCode resp);
  RoundTrip_no_panic r w : (RoundTrip r w).2 <> Panic;
  RoundTrip_final r w resp : (RoundTrip r w).2 = Ok resp -> final_code (resp_StatusCode resp);
  Token_no_panic o w : (Token o w).2 <> Panic;
  ParseURL_no_panic u : ParseURL u <> Panic;
  Sleep_ok n w : (Sleep n w).2 = Ok tt
}.

Lemma final_not_informational code : final_code code -> informational code = false.
Proof.
  unfold final_code, informational. intros [_ H]. destruct (100 <=? code) eqn:E1, (code <=? 199) eqn:E2; [|done..].
  apply Z.leb_le in E1, E2. lia.
Qed.
Lemma final_valid code : final_code code -> valid_code code = (100 <=? code).
Proof. unfold final_code, valid_code. intros [Hc _]. rewrite (proj2 (Z.leb_le code 999)) by lia. by rewrite andb_true_r. Qed.

(** [http.NewRequest]: the URL's host becomes the request's host. *)
Definition NewRequest (parse : URL -> res URL) (method : string) (u : URL) (body : string) : res Request :=
  match parse u with
  | Ok u' => Ok (mkRequest method u' (url_Host u') ∅ body ("HTTP/1.1", (1, 1)) None None false)
  | Err e => Err e
  | Panic => Panic
  end.
