(* ===== verification/Mux.v ===== *)
(** The multiplexer of net/http, as far as the management API meets it: the cleaning of
    paths, with the redirect that answers a path that is not clean; and text that is valid
    UTF-8, which is what encoding/json carries unchanged. *)

From Stdlib Require Import Ascii.
From stdpp Require Import base numbers gmap strings list.
From S2P Require Import Prelude RouteStore Balancer Http.
Local Open Scope Z_scope.

(** ** Clean paths *)

(** One element of a path: empty ones and ["."] count for nothing, [".."] takes the last one
    away.  The elements are kept in reverse. *)
Definition clean_element (acc : list string) (x : string) : list string :=
  if String.eqb x "" || String.eqb x "." then acc
  else if String.eqb x ".." then tail acc
  else x :: acc.

(** [path.Clean] of a path that begins with a slash. *)
Definition path_Clean (p : string) : string :=
  String "/" (Join (rev (foldl clean_element [] (Split p "/"))) "/").

(** [p[len(p)-1] == c]. *)
Fixpoint ends_with (c : ascii) (s : string) : bool :=
  match s with
  | EmptyString => false
  | String a EmptyString => Ascii.eqb a c
  | String _ s' => ends_with c s'
  end.

(** [cleanPath] of net/http: the cleaned path, with the slash at its end if it had one. *)
Definition cleanPath (p : string) : string :=
  if String.eqb p "" then "/"
  else
    let p := if HasPrefix p "/" then p else String "/" p in
    let np := path_Clean p in
    if ends_with "/" p && negb (String.eqb np "/") then np +:+ "/" else np.

(** [http.Redirect] with 301, to a path; a GET gets a text as well.  The escapes of the
    location are left out. *)
Definition quote : string := String (ascii_of_nat 34) "".
Definition http_Redirect (r : Request) (path : string) (w : ResponseWriter) : ResponseWriter :=
  let typed := bool_decide (is_Some (rw_header w !! "Content-Type")) in
  let get := String.eqb (req_Method r) "GET" in
  let h := header_Set "Location" path (rw_header w) in
  let h := if negb typed && (get || String.eqb (req_Method r) "HEAD")
           then header_Set "Content-Type" "text/html; charset=utf-8" h else h in
  let w := send_status 301 (mkWriter h (rw_sent w) (rw_body w)) in
  if negb typed && get
  then Write ("<a href=" +:+ quote +:+ path +:+ quote +:+ ">Moved Permanently</a>." +:+
              String (ascii_of_nat 10) (String (ascii_of_nat 10) "")) w
  else w.

(** [ServeMux.findHandler]: every method but CONNECT is redirected to the clean path.  The path
    is the decoded one, of a URL whose encoding is the default one: cleaning it is cleaning
    the encoded path. *)
Definition redirected (r : Request) : bool :=
  negb (String.eqb (req_Method r) "CONNECT") &&
  negb (String.eqb (cleanPath (url_Path (req_URL r))) (url_Path (req_URL r))).

(** [ServeMux.ServeHTTP]: the path that stands for the server is refused. *)
Definition server_path (r : Request) : bool := String.eqb (url_Path (req_URL r)) "*".

(** ** UTF-8 *)

(** The first byte of a character tells how many follow, and the range of the first of these;
    the others are between 128 and 191. *)
Definition between (a b : nat) (c : ascii) : bool := (a <=? nat_of_ascii c)%nat && (nat_of_ascii c <=? b)%nat.
Definition utf8_head (c : ascii) : option (nat * (ascii -> bool)) :=
  if between 0 127 c then Some (0%nat, between 128 191)
  else if between 194 223 c then Some (1%nat, between 128 191)
  else if between 224 224 c then Some (2%nat, between 160 191)
  else if between 225 236 c || between 238 239 c then Some (2%nat, between 128 191)
  else if between 237 237 c then Some (2%nat, between 128 159)
  else if between 240 240 c then Some (3%nat, between 144 191)
  else if between 241 243 c then Some (3%nat, between 128 191)
  else if between 244 244 c then Some (3%nat, between 128 143)
  else None.

(** [more] bytes of the present character are to come, the next one as [next] says. *)
Fixpoint utf8_scan (more : nat) (next : ascii -> bool) (s : string) : bool :=
  match s, more with
  | EmptyString, O => true
  | EmptyString, S _ => false
  | String c s', O => match utf8_head c with Some (k, f) => utf8_scan k f s' | None => false end
  | String c s', S k => next c && utf8_scan k (between 128 191) s'
  end.
(** [utf8.ValidString]. *)
Definition ValidString (s : string) : bool := utf8_scan 0 (between 128 191) s.

Example valid_strings :
  map ValidString ["model"; ""; String (ascii_of_nat 195) (String (ascii_of_nat 169) "t");
                   String (ascii_of_nat 195) "t"; String (ascii_of_nat 192) (String (ascii_of_nat 128) "");
                   String (ascii_of_nat 237) (String (ascii_of_nat 160) (String (ascii_of_nat 128) ""))]
  = [true; true; true; false; false; false].
Proof. reflexivity. Qed.

Example clean_paths :
  map cleanPath [""; "/"; "/v1alpha1/routes"; "/v1alpha1/routes/"; "/v1alpha1/routes//x"; "/v1alpha1/routes/.";
                 "/v1alpha1/routes/.."; "/../healthz"; "a/./b/"; "/v1alpha1/routes/x/"]
  = ["/"; "/"; "/v1alpha1/routes"; "/v1alpha1/routes/"; "/v1alpha1/routes/x"; "/v1alpha1/routes";
     "/v1alpha1"; "/healthz"; "/a/b/"; "/v1alpha1/routes/x/"].
Proof. reflexivity. Qed.

(** ** Facts *)

Section Facts.
Implicit Types (s t : string) (c : ascii).

Lemma ends_with_app c s t : t <> "" -> ends_with c (s +:+ t) = ends_with c t.
Proof.
  intros Ht. induction s as [|a s IH]; [done|]. rewrite app_cons_str. cbn [ends_with].
  destruct (s +:+ t) as [|b u] eqn:E; [|by rewrite <-IH]. by destruct s, t.
Qed.
Lemma ends_with_no_byte c s : contains_byte c s = false -> ends_with c s = false.
Proof.
  induction s as [|a s IH]; [done|]. cbn. intros [Ha Hs]%orb_false_iff. destruct s; [exact Ha|by apply IH].
Qed.

(** A name that is one element of a path, and not one of the two that lead elsewhere. *)
Definition path_element s : Prop := contains_byte "/" s = false /\ s <> "." /\ s <> "..".

Lemma clean_element_name acc x : path_element x -> clean_element acc x = if String.eqb x "" then acc else x :: acc.
Proof.
  intros (_ & H1 & H2). unfold clean_element. rewrite (proj2 (String.eqb_neq x ".") H1), (proj2 (String.eqb_neq x "..") H2).
  by destruct (String.eqb x "").
Qed.

Lemma path_Clean_member a b x : path_element a -> path_element b -> path_element x -> a <> "" -> b <> "" ->
  path_Clean (String "/" (a +:+ String "/" (b +:+ String "/" x))) =
    String "/" (a +:+ String "/" (if String.eqb x "" then b else b +:+ String "/" x)).
Proof.
  intros Ha Hb Hx Ha0 Hb0. unfold path_Clean.
  assert (forall s, Split (String "/" s) "/" = "" :: Split s "/") as -> by (intros s; exact (Split_app_sep "" s "/" eq_refl)).
  rewrite !Split_app_sep by (done || apply Ha || apply Hb). rewrite Split_no_sep by apply Hx.
  cbn [foldl]. rewrite !clean_element_name by (done || split; done).
  rewrite (proj2 (String.eqb_neq a "") Ha0), (proj2 (String.eqb_neq b "") Hb0). cbn [String.eqb].
  by destruct (String.eqb x "").
Qed.

(** A collection and a name in it make a clean path. *)
Lemma cleanPath_member a b x : path_element a -> path_element b -> path_element x -> a <> "" -> b <> "" ->
  let p := String "/" (a +:+ String "/" (b +:+ String "/" x)) in cleanPath p = p.
Proof.
  intros Ha Hb Hx Ha0 Hb0 p. unfold cleanPath. subst p. cbn [String.eqb].
  assert (forall s, HasPrefix (String "/" s) "/" = true) as -> by (intros s; exact (HasPrefix_app "/" s)).
  rewrite path_Clean_member by done.
  assert (forall s, String.eqb (String "/" (a +:+ String "/" s)) "/" = false) as Hroot.
  { intros s. apply String.eqb_neq. destruct a; [done|]. by intros [= ]. }
  rewrite Hroot, andb_true_r. change (String "/" (a +:+ String "/" (b +:+ String "/" x))) with
    (("/" +:+ a) +:+ String "/" (b +:+ String "/" x)).
  rewrite ends_with_app by done. change (String "/" (b +:+ String "/" x)) with (("/" +:+ b) +:+ String "/" x).
  rewrite ends_with_app by done.
  destruct (String.eqb_spec x "") as [->|Hx0].
  - change (ends_with "/" "/") with true. cbn iota. rewrite app_cons_str, <-(app_assoc_str a), app_cons_str. reflexivity.
  - change (String "/" x) with ("/" +:+ x). rewrite ends_with_app by done. rewrite ends_with_no_byte by apply Hx. done.
Qed.
End Facts.
