(* ===== verification/Forward.v ===== *)
(** The gateway's handling of a proxied request (gateway/internal/proxy/handler.go):
    the choice of a backend, the rewriting of the outgoing request, and the
    fallback to another backend after a transport error or an error status.

    The handlers are written once, against [Lift] and [Attempt]: run to its end ([M]) a
    handler is a computation, as a program ([prog]) it goes on between the actions of other
    requests. *)

From Stdlib Require Import Ascii.
From stdpp Require Import base numbers gmap strings list.
From S2P Require Import Prelude Programs RouteStore Balancer Http.
Local Open Scope Z_scope.

Section Forward.
Context {P W : Type} `{PersistenceV1Alpha1 P} `{HttpEnv W}.

(** One request on its way: the proxy's tables and the environment, the outgoing
    request ([r.Out], which the fallback handlers keep editing), the client's
    response writer and the response under modification. *)
Record Exchange := mkExchange {
  ex_proxy : ProxyV1Alpha1 P;
  ex_env : W;
  ex_out : Request;
  ex_w : ResponseWriter;
  ex_resp : Response
}.

Definition on_proxy {A} (m : M (ProxyV1Alpha1 P) A) : M Exchange A :=
  zoom ex_proxy (fun p x => mkExchange p (ex_env x) (ex_out x) (ex_w x) (ex_resp x)) m.
Definition on_env {A} (m : M W A) : M Exchange A :=
  zoom ex_env (fun e x => mkExchange (ex_proxy x) e (ex_out x) (ex_w x) (ex_resp x)) m.
Definition upd_out (f : Request -> Request) : M Exchange unit :=
  modify (fun x => mkExchange (ex_proxy x) (ex_env x) (f (ex_out x)) (ex_w x) (ex_resp x)).
Definition upd_w (f : ResponseWriter -> ResponseWriter) : M Exchange unit :=
  modify (fun x => mkExchange (ex_proxy x) (ex_env x) (ex_out x) (f (ex_w x)) (ex_resp x)).
Definition on_w {A} (m : M ResponseWriter A) : M Exchange A :=
  zoom ex_w (fun w x => mkExchange (ex_proxy x) (ex_env x) (ex_out x) w (ex_resp x)) m.
Definition upd_resp (f : Response -> Response) : M Exchange unit :=
  modify (fun x => mkExchange (ex_proxy x) (ex_env x) (ex_out x) (ex_w x) (f (ex_resp x))).

(** [src/gateway/internal/proxy/utils.go:30-45 handleOAuth] no token and no error when
    the OAuth settings are missing *)
Definition handleOAuth (auth : Auth) : M W (option string) :=
  match auth_OAuth auth with
  | None => mret None
  | Some oauth => token ← Token oauth; mret (Some token)
  end.

(** [src/gateway/internal/proxy/handler.go:65-74 handleBackend] the rewriting that follows *)
Definition target_backend (backend : Backend) (r : Request) : Request :=
  let r := set_url (mkURL (backend_Scheme backend) (backend_Host backend) (url_Path (req_URL r))) r in
  let r := set_host (extractHost (backend_Host backend)) r in
  let r := set_header (foldl (fun h kv => header_Add kv.1 kv.2 h) (req_Header r)
                         (map_to_list (backend_HeadersToAdd backend))) r in
  if bool_decide (backend_PathPrefix backend = "") then r
  else set_path (backend_PathPrefix backend +:+ url_Path (req_URL r)) r.

(** [ProxyRequest.SetXForwarded] of net/http/httputil. *)
Definition SetXForwarded (r_in out : Request) : Request :=
  let h := req_Header out in
  let h := match req_ClientIP r_in with
           | Some ip =>
               let prior := default [] (h !! "X-Forwarded-For") in
               header_Set "X-Forwarded-For" (foldr (fun p acc => p +:+ ", " +:+ acc) ip prior) h
           | None => header_Del "X-Forwarded-For" h
           end in
  let h := header_Set "X-Forwarded-Host" (req_Host r_in) h in
  let h := header_Set "X-Forwarded-Proto" (if req_TLS r_in then "https" else "http") h in
  set_header h out.

(** [src/gateway/internal/proxy/handler.go:34-43 ProxyV1Alpha1.RewriteV1Alpha1] every backend
    with its weight, and the total *)
Definition all_backends (backends : list Backend) : Z * list weightedBackend :=
  foldl (fun '(total, wbs) b => (add64 total (backend_Weight b), wbs ++ [mkWeighted b (backend_Weight b)]))
    (0, []) backends.

(** [src/gateway/internal/proxy/handler.go:112-114 ProxyV1Alpha1.errorHandler] a zero weight
    counts as one in a fallback *)
Definition bumped (b : Backend) : Backend :=
  if backend_Weight b =? 0
  then mkBackend (backend_Host b) 1 (backend_Auth b) (backend_PathPrefix b)
         (backend_HeadersToAdd b) (backend_Scheme b)
  else b.

(** [src/gateway/internal/proxy/handler.go:108-121 ProxyV1Alpha1.errorHandler] one round of the
    loop over the backends; the loop of [ModifyResponse] (lines 180-193) differs
    in the skipped backends only *)
Definition fallback_step (skip : Backend -> bool) (acc : Z * list weightedBackend * string)
    (backend : Backend) : Z * list weightedBackend * string :=
  let '(total, wbs, path) := acc in
  if skip backend then (total, wbs, path)
  else
    let b := bumped backend in
    (add64 total (backend_Weight b), wbs ++ [mkWeighted b (backend_Weight b)],
     removePathPrefix path (backend_PathPrefix b)).

(** [src/gateway/internal/proxy/handler.go:106-121 ProxyV1Alpha1.errorHandler] the candidates of a
    fallback, their total weight, and the path without their prefixes *)
Definition fallback_backends (skip : Backend -> bool) (backends : list Backend) (path : string)
    : Z * list weightedBackend * string :=
  foldl (fallback_step skip) (0, [], path) backends.

(** [src/gateway/internal/proxy/handler.go:93-93 ProxyV1Alpha1.ErrorHandler] [time.Duration(10^i) * time.Millisecond]:
    the operator is Go's exclusive or *)
Definition backoff (i : Z) : Z := Z.lxor 10 i * 1000000.

End Forward.
Arguments Exchange P W : clear implicits.
Arguments mkExchange {P W}.

(** ** The handlers *)

Module Traffic.
Section Handlers.
Context {P W : Type} {F : Type -> Type} `{Hret : MRet F} `{Hbind : MBind F}
  `{Hlift : Lift (Exchange P W) F} `{Hatt : Attempt F} `{Hper : PersistenceV1Alpha1 P} `{Henv : HttpEnv W}.

(** An atomic action: on the tables, the environment, or the request's own data. *)
Definition act {A} (m : M (Exchange P W) A) : F A := lift m.

(** [src/gateway/internal/proxy/handler.go:55-64 handleBackend] the OAuth part: [token.AccessToken]
    dereferences the token *)
Definition authorize (backend : Backend) : F unit :=
  match backend_Auth backend with
  | None => mret tt
  | Some auth =>
      if bool_decide (auth_Type auth = AuthTypeOAuth) then
        token ← act (on_env (handleOAuth auth));
        accessToken ← act (deref token);
        act (upd_out (fun r => set_header (header_Set "Authorization" ("Bearer " +:+ accessToken) (req_Header r)) r))
      else mret tt
  end.

(** [src/gateway/internal/proxy/handler.go:54-76 handleBackend] *)
Definition handleBackend (backend : Backend) : F unit :=
  authorize backend ;;
  act (upd_out (target_backend backend)).

(** [src/gateway/internal/proxy/handler.go:28-33 ProxyV1Alpha1.RewriteV1Alpha1] the three
    assignments go through the pointer [r.Out.Response] *)
Definition reply_not_found : F unit :=
  out ← act (gets ex_out);
  _ ← act (deref (req_Response out));
  act (upd_out (set_response (Some (mkRedirect "Not Found" 404 (body_of "not found"))))).

(** [src/gateway/internal/proxy/handler.go:18-27 ProxyV1Alpha1.RewriteV1Alpha1] the two
    look-ups, each of them atomic; together they are [RouteStore.resolve_host] *)
Definition resolve (host : string) : F Route :=
  o ← act (gets (fun x => routesPerHost (ex_proxy x) !! extractHost host));
  match o with
  | None => act (throw ErrRouteNotFound)
  | Some routeName => act (on_proxy (with_persistence (per_GetRoute routeName)))
  end.

(** [src/gateway/internal/proxy/handler.go:17-52 ProxyV1Alpha1.RewriteV1Alpha1] *)
Definition RewriteV1Alpha1 (r_in : Request) : F unit :=
  found ← attempt (resolve (req_Host r_in));
  match found with
  | inr _ => reply_not_found
  | inl route =>
      let '(totalWeight, weightedBackends) := all_backends (route_Backends route) in
      if totalWeight =? 0 then mret tt
      else
        randomBackend ← act (on_env (weightedRandomBackend weightedBackends totalWeight));
        _ ← attempt (handleBackend randomBackend);
        act (upd_out (SetXForwarded r_in))
  end.

(** [src/gateway/internal/proxy/handler.go:101-160 ProxyV1Alpha1.errorHandler] *)
Definition errorHandler (routeName : string) : F unit :=
  found ← attempt (act (on_proxy (with_persistence (per_GetRoute routeName))));
  match found with
  | inr _ => act (throw (Errorf "not found"))
  | inl route =>
      r ← act (gets ex_out);
      let '(totalWeight, weightedBackends, path) :=
        fallback_backends (fun b => bool_decide (backend_Host b = req_Host r))
          (route_Backends route) (url_Path (req_URL r)) in
      act (upd_out (set_path path)) ;;
      if totalWeight =? 0 then act (throw (Errorf "no backends"))
      else
        randomBackend ← act (on_env (weightedRandomBackend weightedBackends totalWeight));
        handleBackend randomBackend ;;
        r ← act (gets ex_out);
        req ← act (wrap_err "error creating request: "
                (of_res (NewRequest ParseURL (req_Method r) (req_URL r) (req_Body r))));
        let req := set_proto (req_Proto r) (set_host (req_Host r) (set_header (req_Header r) req)) in
        resp ← act (wrap_err "error contacting backend: " (on_env (Do req)));
        act (upd_w (fun w => mkWriter (copy_header (resp_Header resp) (rw_header w)) (rw_sent w) (rw_body w))) ;;
        act (on_w (WriteHeader (resp_StatusCode resp))) ;;
        let '(content, failed) := read_body (resp_Body resp) in
        act (upd_w (Write content)) ;;
        match failed with
        | Some e => act (throw (Wrapf "error copying response: " e))
        | None => mret tt
        end
  end.

(** [src/gateway/internal/proxy/handler.go:88-94 ProxyV1Alpha1.ErrorHandler] [attempts] rounds are
    left; the result tells whether one of them served the request *)
Fixpoint retry_loop (attempts : nat) (i : Z) (routeName : string) : F bool :=
  match attempts with
  | O => mret false
  | S attempts' =>
      done ← attempt (errorHandler routeName);
      match done with
      | inl _ => mret true
      | inr _ => act (on_env (Sleep (backoff i))) ;; retry_loop attempts' (i + 1) routeName
      end
  end.

(** [src/gateway/internal/proxy/handler.go:78-99 ProxyV1Alpha1.ErrorHandler] *)
Definition ErrorHandler : F unit :=
  r ← act (gets ex_out);
  o ← act (gets (fun x => backendHostToRoute (ex_proxy x) !! req_Host r));
  match o with
  | None => act (on_w (WriteHeader 404)) ;; act (upd_w (Write "not found"))
  | Some routeName =>
      served ← retry_loop 4 0 routeName;
      if served : bool then mret tt
      else act (on_w (WriteHeader 503)) ;; act (upd_w (Write "service unavailable"))
  end.

(** [src/gateway/internal/proxy/handler.go:162-226 ProxyV1Alpha1.ModifyResponse] the deferred
    [resp.Body.Close()] runs when the function returns, after [r.Body] has become
    that same body *)
Definition ModifyResponse : F unit :=
  r ← act (gets ex_resp);
  let status code := act (upd_resp (fun r => mkResponse code (resp_Status r) (resp_Header r) (resp_Body r))) in
  if resp_StatusCode r <? 399 then mret tt
  else
    request ← act (gets ex_out);
    o ← act (gets (fun x => backendHostToRoute (ex_proxy x) !! req_Host request));
    match o with
    | None => status 404
    | Some routeName =>
        found ← attempt (act (on_proxy (with_persistence (per_GetRoute routeName))));
        match found with
        | inr _ => status 404
        | inl route =>
            let '(totalWeight, weightedBackends, path) :=
              fallback_backends (fun b => bool_decide (backend_Host b = req_Host request) &&
                                          bool_decide (backend_Scheme b = url_Scheme (req_URL request)))
                (route_Backends route) (url_Path (req_URL request)) in
            act (upd_out (set_path path)) ;;
            if totalWeight =? 0 then mret tt
            else
              randomBackend ← act (on_env (weightedRandomBackend weightedBackends totalWeight));
              handleBackend randomBackend ;;
              request ← act (gets ex_out);
              req ← act (of_res (NewRequest ParseURL (req_Method request) (req_URL request) (req_Body request)));
              resp ← act (on_env (Do (set_header (req_Header request) req)));
              act (upd_resp (fun r => mkResponse (resp_StatusCode resp) (resp_Status resp)
                                   (copy_header (resp_Header resp) (resp_Header r))
                                   (Close (resp_Body resp))))
        end
    end.

(** [src/gateway/internal/proxy/proxy.go:36-38 ProxyV1Alpha1.ServeHTTP] the reverse proxy of
    net/http/httputil with the three hooks [New] installs.  [prepare] is what it
    does to the request before the rewrite hook (clone, removal of hop-by-hop
    headers).  When the body of the response cannot be copied to its end, it panics with
    [http.ErrAbortHandler]: the server drops the connection. *)
Definition ServeHTTP (prepare : Request -> Request) (r : Request) : F unit :=
  act (upd_out (fun _ => prepare r)) ;;
  RewriteV1Alpha1 r ;;
  out ← act (gets ex_out);
  sent ← attempt (act (on_env (RoundTrip out)));
  match sent with
  | inr _ => ErrorHandler
  | inl resp =>
      act (upd_resp (fun _ => resp)) ;;
      modified ← attempt ModifyResponse;
      match modified with
      | inr _ => ErrorHandler
      | inl _ =>
          resp ← act (gets ex_resp);
          act (upd_w (fun w => mkWriter (copy_header (resp_Header resp) (rw_header w)) (rw_sent w) (rw_body w))) ;;
          act (on_w (WriteHeader (resp_StatusCode resp))) ;;
          let '(content, failed) := read_body (resp_Body resp) in
          act (upd_w (Write content)) ;;
          match failed with Some _ => act panic | None => mret tt end
      end
  end.
End Handlers.
End Traffic.

(** Run to their end. *)
Notation authorize := (Traffic.authorize (F:=M (Exchange _ _))).
Notation handleBackend := (Traffic.handleBackend (F:=M (Exchange _ _))).
Notation reply_not_found := (Traffic.reply_not_found (F:=M (Exchange _ _))).
Notation resolve := (Traffic.resolve (F:=M (Exchange _ _))).
Notation RewriteV1Alpha1 := (Traffic.RewriteV1Alpha1 (F:=M (Exchange _ _))).
Notation errorHandler := (Traffic.errorHandler (F:=M (Exchange _ _))).
Notation retry_loop := (Traffic.retry_loop (F:=M (Exchange _ _))).
Notation ErrorHandler := (Traffic.ErrorHandler (F:=M (Exchange _ _))).
Notation ModifyResponse := (Traffic.ModifyResponse (F:=M (Exchange _ _))).
Notation ServeHTTP := (Traffic.ServeHTTP (F:=M (Exchange _ _))).

(** Enter a handler that runs to its end. *)
Tactic Notation "serve" reference(f) := unfold f, Traffic.act, lift, M_lift, attempt, M_attempt; cbv beta.

(** ** Notions the properties speak of *)

Section Notions.
Context {P W : Type} `{PersistenceV1Alpha1 P} `{HttpEnv W}.

Definition weighted (b : Backend) : weightedBackend := mkWeighted b (backend_Weight b).

(** The backend needs no OAuth token. *)
Definition no_oauth (b : Backend) : Prop :=
  match backend_Auth b with Some a => auth_Type a <> AuthTypeOAuth | None => True end.
#[global] Instance no_oauth_dec b : Decision (no_oauth b).
Proof. unfold no_oauth. destruct (backend_Auth b); apply _. Defined.

(** An OAuth backend has its OAuth settings. *)
Definition oauth_configured (b : Backend) : Prop :=
  match backend_Auth b with
  | Some a => auth_Type a = AuthTypeOAuth -> is_Some (auth_OAuth a)
  | None => True
  end.

(** What handling the chosen backend makes of a request: it is addressed to the backend, with a
    token where it asks for one; when the token server gives none the request stays as it came,
    addressed to no backend. *)
Inductive addressed (b : Backend) (w : W) (out : Request) : W -> Request -> Prop :=
| addressed_plain : no_oauth b -> addressed b w out w (target_backend b out)
| addressed_token auth o w' token :
    backend_Auth b = Some auth -> auth_Type auth = AuthTypeOAuth -> auth_OAuth auth = Some o ->
    Token o w = (w', Ok token) ->
    addressed b w out w'
      (target_backend b (set_header (header_Set "Authorization" ("Bearer " +:+ token) (req_Header out)) out))
| addressed_refused auth o w' e :
    backend_Auth b = Some auth -> auth_Type auth = AuthTypeOAuth -> auth_OAuth auth = Some o ->
    Token o w = (w', Err e) -> addressed b w out w' out.

(** A route the gateway handles without a run-time panic: non-negative weights
    that do not overflow when added up, and complete OAuth settings. *)
Definition sound_route (r : Route) : Prop :=
  Forall oauth_configured (route_Backends r) /\
  weights_ok (map (fun b => weighted (bumped b)) (route_Backends r)).

Definition not_panic {A} (r : res A) : Prop := r <> Panic.

(** The answers that backends can give: to a fallback, and to the first attempt. *)
Definition gave (resp : Response) : Prop := exists req (w : W), (Do req w).2 = Ok resp.
Definition came (resp : Response) : Prop := exists req (w : W), (RoundTrip req w).2 = Ok resp.
Definition content (resp : Response) : string := (read_body (resp_Body resp)).1.

(** What a fallback leaves on the client's writer: nothing, or the answer of a backend, with
    whatever later attempts add to its body. *)
Definition unwritten (w w' : ResponseWriter) : Prop := rw_sent w' = rw_sent w /\ rw_body w' = rw_body w.
Definition relayed (w w' : ResponseWriter) : Prop :=
  (is_Some (rw_sent w) -> rw_sent w' = rw_sent w /\ exists more, rw_body w' = rw_body w +:+ more) /\
  (rw_sent w = None -> exists resp more, gave resp /\ 100 <= resp_StatusCode resp /\
     rw_status w' = Some (resp_StatusCode resp) /\ rw_body w' = rw_body w +:+ (content resp +:+ more)).
(** A backend's status code that cannot be written. *)
Definition bad_status : Prop := exists resp, gave resp /\ resp_StatusCode resp < 100.

(** How the error handler ends, when the failed host belongs to the route [found]. *)
Definition fallback_outcome (found : option string) (w : ResponseWriter) (r : res unit) (w' : ResponseWriter) : Prop :=
  match found with
  | None => r = Ok tt /\ rw_sent w' = Some (404, rw_header w) /\ rw_body w' = rw_body w +:+ "not found"
  | Some _ =>
      r = Ok tt /\ relayed w w' \/
      r = Ok tt /\ rw_status w' = Some 503 /\ rw_body w' = rw_body w +:+ "service unavailable" \/
      r = Panic /\ bad_status
  end.

(** Why a request may be aborted: a backend's status code that cannot be written, a body that
    breaks off, or a fallback after an error status, whose body is closed before it is read. *)
Definition aborted : Prop :=
  (exists resp, (gave resp \/ came resp) /\ resp_StatusCode resp < 100) \/
  (exists resp, came resp /\ is_Some (read_body (resp_Body resp)).2) \/
  (exists first resp, came first /\ 399 <= resp_StatusCode first /\ gave resp /\ resp_Body resp <> NoBody).
End Notions.
Arguments addressed {W _} _ _ _ _ _.
Arguments gave {W _} _.
Arguments came {W _} _.
Arguments relayed {W _} _ _.
Arguments bad_status {W _}.
Arguments fallback_outcome {W _} _ _ _ _.
Arguments aborted {W _}.

Section Lemmas.
Context {P W : Type} `{Hspec : PersistenceSpec P} `{Hhttp : HttpEnv W}.
Implicit Types (x : Exchange P W).

Lemma all_backends_acc bs t wbs :
  Forall (fun b => 0 <= backend_Weight b) bs -> 0 <= t ->
  t + total_weight (map weighted bs) < 2 ^ 63 ->
  foldl (fun '(total, wbs) b => (add64 total (backend_Weight b), wbs ++ [weighted b])) (t, wbs) bs
    = (t + total_weight (map weighted bs), wbs ++ map weighted bs).
Proof.
  intros Hbs. revert t wbs. induction Hbs as [|b bs Hb Hbs IH]; intros t wbs Ht Hmax.
  { cbn. rewrite app_nil_r. apply (f_equal2 pair); [lia|done]. }
  cbn [map foldl] in *. rewrite total_weight_cons in *. cbn [wb_weight weighted] in *.
  assert (0 <= total_weight (map weighted bs)).
  { apply total_weight_nonneg, Forall_map. eapply Forall_impl; [exact Hbs|done]. }
  rewrite add64_id by (unfold in_int64; lia). rewrite IH by lia.
  rewrite <- app_assoc. apply (f_equal2 pair); [lia|done].
Qed.

Lemma all_backends_spec bs :
  weights_ok (map weighted bs) ->
  all_backends bs = (total_weight (map weighted bs), map weighted bs).
Proof.
  intros [Hbs Hmax]. rewrite Forall_map in Hbs.
  exact (all_backends_acc bs 0 [] Hbs (Z.le_refl 0) Hmax).
Qed.

(** Whatever the weights are, the total is their sum modulo 2^64. *)
Lemma all_backends_wraps bs :
  all_backends bs = (int64 (total_weight (map weighted bs)), map weighted bs).
Proof.
  assert (forall t wbs, foldl (fun '(total, wbs) b => (add64 total (backend_Weight b), wbs ++ [weighted b])) (int64 t, wbs) bs
    = (int64 (t + total_weight (map weighted bs)), wbs ++ map weighted bs)) as Hacc.
  { unfold total_weight. induction bs as [|b bs IH]; intros t wbs; cbn; [by rewrite Z.add_0_r, app_nil_r|].
    unfold add64 at 2. rewrite int64_add_l, IH, <-app_assoc. by rewrite Z.add_assoc. }
  exact (Hacc 0 []).
Qed.

(** The candidates of a fallback are the unskipped backends, bumped. *)
Lemma fallback_backends_acc skip bs t wbs path :
  (foldl (fallback_step skip) (t, wbs, path) bs).1.2
  = wbs ++ map (fun b => weighted (bumped b)) (filter (fun b => skip b = false) bs).
Proof.
  revert t wbs path. induction bs as [|b bs IH]; intros t wbs path; [by rewrite app_nil_r|].
  cbn [foldl fallback_step]. destruct (skip b) eqn:E; rewrite IH.
  - by rewrite filter_cons_False by congruence.
  - rewrite filter_cons_True by done. cbn. by rewrite <- app_assoc.
Qed.

Lemma fallback_candidates skip bs path :
  (fallback_backends skip bs path).1.2
  = map (fun b => weighted (bumped b)) (filter (fun b => skip b = false) bs).
Proof. apply (fallback_backends_acc skip bs 0 [] path). Qed.

Lemma weights_ok_sublist l1 l2 : sublist l1 l2 -> weights_ok l2 -> weights_ok l1.
Proof.
  intros Hsub [Hl Hmax]. enough (Forall (fun wb => 0 <= wb_weight wb) l1 /\
    total_weight l1 <= total_weight l2) by (split; [tauto|lia]).
  clear Hmax. induction Hsub as [|wb l1 l2 Hsub IH|wb l1 l2 Hsub IH]; [done| |];
    apply Forall_cons in Hl as [Hwb Hl]; destruct (IH Hl) as [IH1 IH2];
    rewrite !total_weight_cons; split; try constructor; done || lia.
Qed.

Lemma fallback_total_acc skip bs t wbs path :
  Forall (fun b => 0 <= backend_Weight (bumped b)) bs -> 0 <= t ->
  t + total_weight (map (fun b => weighted (bumped b)) bs) < 2 ^ 63 ->
  (foldl (fallback_step skip) (t, wbs, path) bs).1.1
  = t + total_weight (map (fun b => weighted (bumped b)) (filter (fun b => skip b = false) bs)).
Proof.
  intros Hbs. revert t wbs path. induction Hbs as [|b bs Hb Hbs IH]; intros t wbs path Ht Hmax.
  { cbn. lia. }
  cbn [map foldl fallback_step] in *. rewrite total_weight_cons in Hmax.
  cbn [wb_weight weighted] in Hmax.
  assert (0 <= total_weight (map (fun b => weighted (bumped b)) bs)).
  { apply total_weight_nonneg, Forall_map. eapply Forall_impl; [exact Hbs|done]. }
  destruct (skip b) eqn:E.
  - rewrite filter_cons_False by congruence. apply IH; lia.
  - rewrite filter_cons_True by done. cbn [map]. rewrite total_weight_cons. cbn [wb_weight weighted].
    cbv zeta. rewrite add64_id by (unfold in_int64; lia). rewrite IH by lia. lia.
Qed.

Lemma fallback_total skip bs path :
  weights_ok (map (fun b => weighted (bumped b)) bs) ->
  (fallback_backends skip bs path).1.1 = total_weight (fallback_backends skip bs path).1.2.
Proof.
  intros [Hbs Hmax]. rewrite fallback_candidates. rewrite Forall_map in Hbs.
  rewrite <- (Z.add_0_l (total_weight _)). apply fallback_total_acc; done || lia.
Qed.

Lemma fallback_weights_ok skip bs path :
  weights_ok (map (fun b => weighted (bumped b)) bs) ->
  weights_ok (fallback_backends skip bs path).1.2.
Proof.
  intros Hok. rewrite fallback_candidates. eapply weights_ok_sublist; [|exact Hok].
  assert (sublist (filter (fun b => skip b = false) bs) bs) as Hsub.
  { clear. induction bs as [|b bs IH]; [constructor|]. rewrite filter_cons.
    case_decide; by constructor. }
  clear Hok. induction Hsub; cbn; by constructor.
Qed.

(** No candidate is drawn unless it is one of the route's backends. *)
Lemma fallback_from_route skip bs path wb :
  wb ∈ (fallback_backends skip bs path).1.2 ->
  exists b, b ∈ bs /\ skip b = false /\ wb = weighted (bumped b).
Proof.
  rewrite fallback_candidates. intros (b & -> & Hb)%list_elem_of_fmap.
  apply list_elem_of_filter in Hb as [Hskip Hb]. eauto.
Qed.

Lemma bumped_oauth b : oauth_configured b -> oauth_configured (bumped b).
Proof. unfold bumped. by destruct (backend_Weight b =? 0). Qed.

Lemma handleBackend_plain b x :
  no_oauth b ->
  handleBackend b x =
    (mkExchange (ex_proxy x) (ex_env x) (target_backend b (ex_out x)) (ex_w x) (ex_resp x), Ok tt).
Proof.
  unfold no_oauth. serve handleBackend. unfold Traffic.authorize. destruct (backend_Auth b) as [a|]; [|done].
  intros Ha. by rewrite bool_decide_false.
Qed.

(** Whatever its authentication, unless the credentials are missing. *)
Lemma handleBackend_addressed `{!HttpEnvSpec W} b x : oauth_configured b ->
  exists (w : W) (out : Request) (v : unit + error), addressed b (ex_env x) (ex_out x) w out /\
    try (handleBackend b) x = (mkExchange (ex_proxy x) w out (ex_w x) (ex_resp x), Ok v).
Proof.
  intros Hb. destruct (decide (no_oauth b)) as [Hplain|Hoauth].
  { do 3 eexists. split; [by apply addressed_plain|]. by apply try_Ok_run, handleBackend_plain. }
  unfold no_oauth, oauth_configured in *. destruct (backend_Auth b) as [auth|] eqn:Ea; [|done].
  destruct (decide (auth_Type auth = AuthTypeOAuth)) as [Ht|]; [|done]. destruct (Hb Ht) as [o Ho].
  destruct (Token o (ex_env x)) as [w' [token|e|]] eqn:Et; [| |by destruct (Token_no_panic o (ex_env x)); rewrite Et].
  - do 3 eexists. split; [by eapply addressed_token|]. apply try_Ok_run. serve handleBackend. unfold Traffic.authorize.
    rewrite Ea, bool_decide_true by done. unfold Traffic.act, lift, M_lift, handleOAuth, on_env, zoom. rewrite Ho. mrun. by rewrite Et.
  - do 3 eexists. split; [by eapply addressed_refused|]. unfold try. serve handleBackend. unfold Traffic.authorize.
    rewrite Ea, bool_decide_true by done. unfold Traffic.act, lift, M_lift, handleOAuth, on_env, zoom. rewrite Ho. mrun. by rewrite Et.
Qed.

End Lemmas.

(** ** Requests among other requests

    What a request shares with the others is the proxy's tables and the environment; the
    rest of the exchange is its own. *)
Section Among.
Context {P W : Type} `{Hspec : PersistenceSpec P} `{Hhttp : HttpEnvSpec W}.
Implicit Types (x : Exchange P W) (p : ProxyV1Alpha1 P).

#[export] Instance view_exchange : View (ProxyV1Alpha1 P * W) (Exchange P W) := {
  shared_of x := (ex_proxy x, ex_env x);
  put_shared s x := mkExchange s.1 s.2 (ex_out x) (ex_w x) (ex_resp x)
}.
#[export] Instance view_exchange_laws : ViewLaws (ProxyV1Alpha1 P * W) (Exchange P W).
Proof. split; [by intros []|by intros []|done]. Qed.

(** Whatever else goes on keeps the tables good, where good tables hold sound routes only. *)
Variable good : ProxyV1Alpha1 P -> Prop.
Hypothesis good_sound : forall p n r, good p -> routes p !! n = Some r -> sound_route r.
Notation among := (rgp (fun s : ProxyV1Alpha1 P * W => good s.1) anything).

(** The request's own data, beside the shared part of the moment. *)
Definition own_part p (w : W) x : Exchange P W := mkExchange p w (ex_out x) (ex_w x) (ex_resp x).

(** An action of a request leaves the tables alone. *)
Lemma among_act {A} (m : M (Exchange P W) A) (Q : res A -> Exchange P W -> Prop) x :
  (forall p w, good p -> ex_proxy (m (own_part p w x)).1 = p /\ Q (m (own_part p w x)).2 (m (own_part p w x)).1) ->
  among (Traffic.act m) Q x.
Proof.
  intros Hm. apply rgp_lift. intros [p w] _ Hp. destruct (Hm p w Hp) as [E HQ].
  change (put_shared (p, w) x) with (own_part p w x). split_and!; [|done|done].
  cbn [shared_of view_exchange fst]. by rewrite E.
Qed.

Lemma among_env {A} (m : M W A) (Q : res A -> Exchange P W -> Prop) x :
  (forall p w, good p -> Q (m w).2 (mkExchange p (m w).1 (ex_out x) (ex_w x) (ex_resp x))) ->
  among (Traffic.act (on_env m)) Q x.
Proof.
  intros Hm. apply among_act. intros p w Hp. specialize (Hm p w Hp). unfold on_env, zoom. cbn.
  destruct (m w) as [w' r]. by split.
Qed.

Lemma among_gets {A B} (f : Exchange P W -> A) (k : A -> prog (Exchange P W) B) Q x :
  (forall p w, good p -> among (k (f (own_part p w x))) Q (own_part p w x)) ->
  among (Traffic.act (gets f) ≫= k) Q x.
Proof. intros Hk. apply rgp_bind, among_act. intros p w Hp. split; [done|]. exact (Hk p w Hp). Qed.
Lemma among_modify {B} (f : Exchange P W -> Exchange P W) (k : unit -> prog (Exchange P W) B) Q x :
  (forall x', ex_proxy (f x') = ex_proxy x') ->
  (forall p w, good p -> among (k tt) Q (f (own_part p w x))) ->
  among (Traffic.act (modify f) ≫= k) Q x.
Proof. intros Hf Hk. apply rgp_bind, among_act. intros p w Hp. split; [apply Hf|]. exact (Hk p w Hp). Qed.
Lemma among_last (f : Exchange P W -> Exchange P W) (Q : res unit -> Exchange P W -> Prop) x :
  (forall x', ex_proxy (f x') = ex_proxy x') ->
  (forall p w, Q (Ok tt) (f (own_part p w x))) -> among (Traffic.act (modify f)) Q x.
Proof. intros Hf HQ. apply among_act. intros p w Hp. split; [apply Hf|]. apply HQ. Qed.
Lemma among_throw {A} e (Q : res A -> Exchange P W -> Prop) x :
  (forall p w, Q (Err e) (own_part p w x)) -> among (Traffic.act (throw e)) Q x.
Proof. intros HQ. apply among_act. intros p w _. split; [done|]. apply HQ. Qed.

Lemma handleOAuth_token a o (w : W) : auth_OAuth a = Some o ->
  match (handleOAuth a w).2 with Ok t => is_Some t | Err _ => True | Panic => False end.
Proof.
  intros Ho. pose proof (Token_no_panic o w) as Ht. unfold handleOAuth. rewrite Ho. mrun.
  destruct (Token o w) as [w' [t|e|]]; [by eexists|done..].
Qed.

(** Rewriting for a backend touches the outgoing request and the environment only. *)
Lemma among_handleBackend b x (Q : res unit -> Exchange P W -> Prop) :
  oauth_configured b ->
  (forall r x', not_panic r -> ex_w x' = ex_w x -> ex_resp x' = ex_resp x -> Q r x') ->
  among (Traffic.handleBackend b) Q x.
Proof.
  unfold oauth_configured, Traffic.handleBackend, Traffic.authorize. intros Hb HQ. apply rgp_bind.
  assert (forall x1, ex_w x1 = ex_w x -> ex_resp x1 = ex_resp x ->
    among (Traffic.act (upd_out (target_backend b))) Q x1) as Hend.
  { intros x1 Hw Hr. apply among_act. intros p w _. split; [done|]. by apply HQ. }
  destruct (backend_Auth b) as [a|]; [|by apply rgp_ret, Hend].
  case_bool_decide as Ha; [|by apply rgp_ret, Hend].
  destruct (Hb Ha) as [o Ho]. apply rgp_bind, among_env. intros p w _.
  pose proof (handleOAuth_token a o w Ho) as Htok. destruct (handleOAuth a w).2 as [tok|e|]; [|by apply HQ|done].
  destruct Htok as [t ->]. apply rgp_bind, among_act. intros p2 w2 _. split; [done|]. cbn [fst snd].
  apply among_act. intros p3 w3 _. split; [done|]. by apply Hend.
Qed.

(** Errors that get a prefix. *)
Definition wrapped {A} (msg : string) (r : res A) : res A :=
  match r with Err e => Err (Wrapf msg e) | _ => r end.
Lemma wrapped_res {A} msg (r : res A) x : wrap_err msg (of_res r) x = (x, wrapped msg r).
Proof. by destruct r. Qed.
Lemma wrapped_env {A} msg (m : M W A) x :
  wrap_err msg (on_env m) x =
    (mkExchange (ex_proxy x) (m (ex_env x)).1 (ex_out x) (ex_w x) (ex_resp x), wrapped msg (m (ex_env x)).2).
Proof. unfold wrap_err, on_env, zoom. by destruct (m (ex_env x)) as [w [a|e|]]. Qed.
Lemma NewRequest_no_panic r : NewRequest ParseURL (req_Method r) (req_URL r) (req_Body r) <> Panic.
Proof. unfold NewRequest. pose proof (ParseURL_no_panic (req_URL r)). by destruct (ParseURL (req_URL r)). Qed.

Lemma get_route_run n x : on_proxy (with_persistence (per_GetRoute n)) x =
  (x, match routes (ex_proxy x) !! n with Some r => Ok r | None => Err ErrRouteNotFound end).
Proof.
  unfold on_proxy, zoom. change (with_persistence (per_GetRoute n)) with (GetRoute (P:=P) n). rewrite GetRoute_run.
  by destruct x.
Qed.

(** A route that is found is sound. *)
Lemma among_get_route n x (Q : res (Route + error) -> Exchange P W -> Prop) :
  (forall p w, good p -> let x' := mkExchange p w (ex_out x) (ex_w x) (ex_resp x) in
     (forall r, sound_route r -> Q (Ok (inl r)) x') /\ (routes p !! n = None -> Q (Ok (inr ErrRouteNotFound)) x')) ->
  among (attempt (Traffic.act (on_proxy (with_persistence (per_GetRoute n))))) Q x.
Proof.
  intros HQ. apply rgp_attempt, among_act. intros p w Hp. rewrite get_route_run. split; [done|]. cbn [fst snd own_part ex_proxy].
  destruct (HQ p w Hp) as [Hok Herr]. destruct (routes p !! n) as [r|] eqn:E; [|by apply Herr].
  by apply Hok, (good_sound p n).
Qed.

(** Drawing one of some weighted backends, when the total is not zero. *)
Lemma among_draw wbs x (Q : res Backend -> Exchange P W -> Prop) :
  weights_ok wbs -> total_weight wbs <> 0 ->
  (forall b p w, b ∈ map wb_backend wbs -> good p -> Q (Ok b) (mkExchange p w (ex_out x) (ex_w x) (ex_resp x))) ->
  among (Traffic.act (on_env (weightedRandomBackend wbs (total_weight wbs)))) Q x.
Proof.
  intros Hok Hne HQ. apply among_env. intros p w Hp.
  assert (0 < total_weight wbs) as Hpos by (pose proof (total_weight_nonneg _ (proj1 Hok)); lia).
  destruct (weighted_choice_run wbs w Hok Hpos) as (wb & w' & Hin & _ & Hrun).
  rewrite Hrun. apply HQ; [|done]. by apply list_elem_of_fmap_2.
Qed.

Lemma fallback_oauth skip bs path b :
  Forall oauth_configured bs -> b ∈ map wb_backend (fallback_backends skip bs path).1.2 -> oauth_configured b.
Proof.
  intros Hauth (wb & -> & Hwb)%list_elem_of_fmap.
  destruct (fallback_from_route _ _ _ _ Hwb) as (b & Hb & _ & ->). apply bumped_oauth.
  by eapply (proj1 (Forall_forall _ _)).
Qed.

Lemma unwritten_refl w : unwritten w w.
Proof. done. Qed.
Lemma relayed_then w w1 w2 : relayed (W:=W) w w1 -> unwritten w1 w2 \/ relayed (W:=W) w1 w2 -> relayed (W:=W) w w2.
Proof.
  intros [H1 H2] H3. assert (is_Some (rw_sent w1)) as Hs.
  { destruct (rw_sent w) eqn:E; [by destruct H1 as [-> _]|]. destruct (H2 eq_refl) as (resp & more & _ & _ & Hst & _).
    unfold rw_status in Hst. by destruct (rw_sent w1). }
  assert (rw_sent w2 = rw_sent w1 /\ exists more, rw_body w2 = rw_body w1 +:+ more) as [Es [more Eb]].
  { destruct H3 as [[Es Eb]|[H3 _]]; [|by apply H3]. split; [done|]. exists "". by rewrite app_nil_r_str. }
  split.
  - intros Hw. destruct (H1 Hw) as [E [more' E']]. split; [by rewrite Es|]. exists (more' +:+ more). by rewrite Eb, E', app_assoc_str.
  - intros Hw. destruct (H2 Hw) as (resp & more' & Hg & Hc & Hst & Hb). exists resp, (more' +:+ more).
    split_and!; [done|done|by unfold rw_status; rewrite Es|]. by rewrite Eb, Hb, !app_assoc_str.
Qed.
Lemma unwritten_then w w1 w2 : unwritten w w1 -> unwritten w1 w2 -> unwritten w w2.
Proof. unfold unwritten. by intros [-> ->]. Qed.
Lemma unwritten_relayed w w1 w2 : unwritten w w1 -> relayed (W:=W) w1 w2 -> relayed (W:=W) w w2.
Proof. unfold unwritten, relayed. by intros [-> ->]. Qed.
Lemma relayed_sent w w' : relayed (W:=W) w w' -> is_Some (rw_sent w').
Proof.
  intros [H1 H2]. destruct (rw_sent w) eqn:E; [by destruct H1 as [-> _]|]. destruct (H2 eq_refl) as (resp & more & _ & _ & Hst & _).
  unfold rw_status in Hst. by destruct (rw_sent w').
Qed.

(** How one attempt ends. *)
Definition attempt_outcome (w : ResponseWriter) (r : res unit) (w' : ResponseWriter) : Prop :=
  match r with
  | Ok _ => relayed (W:=W) w w'
  | Err _ => unwritten w w' \/ relayed (W:=W) w w'
  | Panic => bad_status (W:=W)
  end.

(** The answer of a backend, written. *)
Lemma relayed_write resp h w : gave (W:=W) resp -> 100 <= resp_StatusCode resp ->
  relayed (W:=W) w (Write (content resp) (send_status (resp_StatusCode resp) (mkWriter h (rw_sent w) (rw_body w)))).
Proof.
  intros Hg Hc. split.
  - intros [st Hs]. rewrite Hs. split; [done|]. exists (content resp). by rewrite Write_body.
  - intros Hs. rewrite Hs. exists resp, "". rewrite app_nil_r_str. by split_and!.
Qed.

(** The writer's own calls. *)
Lemma among_on_w {A} (m : M ResponseWriter A) (Q : res A -> Exchange P W -> Prop) x :
  (forall p w, good p -> Q (m (ex_w x)).2 (mkExchange p w (ex_out x) (m (ex_w x)).1 (ex_resp x))) ->
  among (Traffic.act (on_w m)) Q x.
Proof.
  intros Hm. apply among_act. intros p w Hp. specialize (Hm p w Hp). unfold on_w, zoom. cbn.
  by destruct (m (ex_w x)) as [w' r].
Qed.

(** A failure before anything is written. *)
Ltac unanswered := by left.
(** An access of the request to its own data. *)
Ltac own_step :=
  first [apply among_gets; intros ?pv ?wv _ | apply among_modify; [done|intros ?pv ?wv _]]; cbn [own_part ex_proxy ex_env ex_out ex_w ex_resp].

Lemma among_errorHandler n x :
  among (Traffic.errorHandler n) (fun r x' => attempt_outcome (ex_w x) r (ex_w x')) x.
Proof.
  unfold Traffic.errorHandler. apply rgp_bind, among_get_route. intros p0 w0 _ x0.
  split; [|intros _; apply among_throw; intros; unanswered].
  intros rt [Hauth Hok]. subst x0. own_step.
  set (skip := fun b => bool_decide (backend_Host b = req_Host (ex_out x))).
  set (path := url_Path (req_URL (ex_out x))).
  pose proof (fallback_total skip _ path Hok) as Htot. pose proof (fallback_weights_ok skip _ path Hok) as Hwok.
  pose proof (fun b => fallback_oauth skip _ path b Hauth) as Hoauth.
  destruct (fallback_backends skip (route_Backends rt) path) as [[total wbs] path']. cbn [fst snd] in Htot, Hwok, Hoauth. subst total.
  own_step. destruct (Z.eqb_spec (total_weight wbs) 0) as [|Hne]; [apply among_throw; intros; unanswered|].
  apply rgp_bind, among_draw; [done..|]. intros b pd wd Hb _. apply rgp_bind, among_handleBackend; [by apply Hoauth|].
  intros [[]|e|] x1 Hnp Hw _; cbn in Hw; [|rewrite Hw; unanswered|done]. own_step.
  apply rgp_bind, among_act. intros pn wn _. rewrite wrapped_res. split; [done|]. cbn [fst snd].
  pose proof (NewRequest_no_panic (ex_out x1)) as Hnew.
  destruct (NewRequest _ _ _ _) as [req|e|]; cbn [wrapped]; [|cbn; rewrite Hw; unanswered|done].
  apply rgp_bind, among_act. intros po wo _. rewrite wrapped_env. split; [done|]. cbn [fst snd ex_env ex_out ex_w ex_resp].
  match goal with |- context [Do ?r ?w] => pose proof (Do_no_panic r w) as Hdo; pose proof (Do_final r w) as Hfin;
    pose proof (fun resp (E : (Do r w).2 = Ok resp) => ex_intro _ r (ex_intro _ w E) : gave (W:=W) resp) as Hgave;
    destruct (Do r w) as [wr [resp|e|]] end;
    cbn [wrapped fst snd] in Hdo |- *; [|cbn; rewrite Hw; unanswered|done].
  specialize (Hgave resp eq_refl). specialize (Hfin resp eq_refl). own_step. rewrite Hw.
  set (w1 := mkWriter _ _ _). apply rgp_bind, among_on_w. intros ps ws _. cbn [ex_w ex_out ex_resp].
  assert (WriteHeader (resp_StatusCode resp) w1 = (send_status (resp_StatusCode resp) w1, Ok tt) /\ 100 <= resp_StatusCode resp \/
    (WriteHeader (resp_StatusCode resp) w1).2 = Panic /\ bad_status (W:=W) \/ WriteHeader (resp_StatusCode resp) w1 = (w1, Ok tt) /\ is_Some (rw_sent (ex_w x))) as Hwh.
  { destruct (rw_sent w1) as [st|] eqn:Es; [right; right; split; [by apply WriteHeader_again; rewrite Es|by exists st]|].
    destruct (100 <=? resp_StatusCode resp) eqn:E100.
    - left. split; [|by apply Z.leb_le]. by apply WriteHeader_final; [rewrite final_valid|apply final_not_informational].
    - right; left. unfold WriteHeader. rewrite Es, final_valid, E100 by done. split; [done|]. exists resp. split; [done|]. by apply Z.leb_gt. }
  assert (forall w2, w2 = send_status (resp_StatusCode resp) w1 /\ 100 <= resp_StatusCode resp \/ w2 = w1 /\ is_Some (rw_sent (ex_w x)) ->
    relayed (W:=W) (ex_w x) (Write (content resp) w2)) as Hrel.
  { intros w2 [[-> Hc]|[-> [st Hs]]]; [by apply relayed_write|]. split; [|congruence].
    intros _. rewrite Write_keeps by (by exists st). split; [done|]. exists (content resp). by rewrite Write_body. }
  destruct Hwh as [[-> Hc]|[[Hp Hbad]|[-> Hs]]]; cbn [fst snd].
  2: { rewrite Hp. exact Hbad. }
  1: specialize (Hrel _ (or_introl (conj eq_refl Hc))). 2: specialize (Hrel _ (or_intror (conj eq_refl Hs))).
  all: unfold content in Hrel; destruct (read_body (resp_Body resp)) as [text failed]; cbn [fst] in Hrel; own_step;
    destruct failed as [e|]; [apply among_throw; intros pe we; right; exact Hrel|apply rgp_ret; exact Hrel].
Qed.

Lemma among_retry_loop k i n x :
  among (Traffic.retry_loop k i n) (fun r x' =>
    match r with
    | Ok true => relayed (W:=W) (ex_w x) (ex_w x')
    | Ok false => unwritten (ex_w x) (ex_w x') \/ relayed (W:=W) (ex_w x) (ex_w x')
    | Err _ => False
    | Panic => bad_status (W:=W)
    end) x.
Proof.
  revert i x. induction k as [|k IH]; intros i x; cbn [Traffic.retry_loop].
  { apply rgp_ret. by left. }
  apply rgp_bind, rgp_attempt. eapply rgp_mono; [apply among_errorHandler|].
  intros [[]|e|] x1 Hx1; cbn in Hx1; [by apply rgp_ret| |done].
  apply rgp_bind, among_env. intros p w _. rewrite Sleep_ok. eapply rgp_mono; [apply IH|]. cbn [ex_w].
  intros [[]|e'|] x2 Hx2; [| |done|done].
  - destruct Hx1 as [Hx1|Hx1]; [by eapply unwritten_relayed|eapply relayed_then; [exact Hx1|by right]].
  - destruct Hx1 as [Hx1|Hx1]; [|right; by eapply relayed_then].
    destruct Hx2; [left; by eapply unwritten_then|right; by eapply unwritten_relayed].
Qed.

(** The error handler ends as it should, with the tables of some moment. *)
Lemma among_ErrorHandler x : rw_sent (ex_w x) = None ->
  among Traffic.ErrorHandler (fun r x' => exists p, good p /\
    fallback_outcome (W:=W) (backendHostToRoute p !! req_Host (ex_out x)) (ex_w x) r (ex_w x')) x.
Proof.
  intros Hnone. unfold Traffic.ErrorHandler. own_step. apply among_gets. intros pt wt Hpt. cbn [own_part ex_proxy ex_out].
  destruct (backendHostToRoute pt !! _) as [n|] eqn:E.
  - apply rgp_bind. eapply rgp_mono; [apply among_retry_loop|]. intros r x1 Hr. cbn [ex_w] in Hr.
    destruct r as [[]|e|]; [| |done|exists pt; split; [done|]; rewrite E; right; by right].
    + apply rgp_ret. exists pt. split; [done|]. rewrite E. by left.
    + apply rgp_bind, among_on_w. intros ps ws _. destruct Hr as [[E1 E2]|Hr].
      * rewrite WriteHeader_final by done. apply among_last; [done|]. intros pl wl. exists pt. split; [done|]. rewrite E. right; left.
        cbn. split; [done|]. unfold rw_status. cbn. rewrite !send_status_body, E2. split; [|done].
        rewrite (send_status_keeps 200) by apply send_status_sent. by rewrite send_status_first by (by rewrite E1).
      * pose proof (relayed_sent _ _ Hr) as Hs. rewrite WriteHeader_again by done. apply among_last; [done|]. intros pl wl.
        exists pt. split; [done|]. rewrite E. left. split; [done|]. eapply relayed_then; [exact Hr|]. right. split.
        -- intros _. cbn [own_part ex_w]. rewrite Write_keeps, Write_body by done. split; [done|]. by eexists.
        -- intros Hn. rewrite Hn in Hs. by destruct Hs.
  - apply rgp_bind, among_on_w. intros ps ws _. rewrite WriteHeader_final by done. apply among_last; [done|]. intros pl wl.
    exists pt. split; [done|]. rewrite E. cbn. rewrite !send_status_body. split_and!; [done| |done].
    rewrite (send_status_keeps 200) by apply send_status_sent. by rewrite send_status_first.
Qed.

(** A response that the hook has left as it was, or given another code, or replaced by the
    answer of another backend, closed. *)
Definition modified_from (resp resp' : Response) : Prop :=
  resp' = resp \/ resp_StatusCode resp' = 404 /\ resp_Body resp' = resp_Body resp \/
  399 <= resp_StatusCode resp /\ exists other, gave (W:=W) other /\ final_code (resp_StatusCode other) /\
    resp_StatusCode resp' = resp_StatusCode other /\ resp_Body resp' = Close (resp_Body other).

(** The response hook may replace the response; it writes nothing. *)
Lemma among_ModifyResponse x :
  among Traffic.ModifyResponse (fun r x' => not_panic r /\ ex_w x' = ex_w x /\
    (r = Ok tt -> modified_from (ex_resp x) (ex_resp x'))) x.
Proof.
  unfold Traffic.ModifyResponse, not_panic. own_step. destruct (_ <? _) eqn:E399; [apply rgp_ret; split; [done|]; split; [done|]; by left|].
  apply Z.ltb_ge in E399. do 2 own_step.
  assert (forall x1, ex_w x1 = ex_w x -> ex_resp x1 = ex_resp x -> among (Traffic.act (upd_resp
    (fun r => mkResponse 404 (resp_Status r) (resp_Header r) (resp_Body r)))) (fun r x' => r <> Panic /\ ex_w x' = ex_w x /\
    (r = Ok tt -> modified_from (ex_resp x) (ex_resp x'))) x1) as H404.
  { intros x1 Hw Hr. apply among_last; [done|]. intros pl wl. cbn. rewrite Hw, Hr. repeat split; [done|]. intros _. right; left. done. }
  destruct (_ !! _) as [n|]; [|by apply H404].
  apply rgp_bind, among_get_route. intros p0 w0 _ x0. split; [|by intros _; apply H404].
  intros rt [Hauth Hok]. subst x0. set (skip := fun b => _ && _).
  generalize (url_Path (req_URL (ex_out x))). intros path.
  pose proof (fallback_total skip _ path Hok) as Htot. pose proof (fallback_weights_ok skip _ path Hok) as Hwok.
  pose proof (fun b => fallback_oauth skip _ path b Hauth) as Hoauth.
  destruct (fallback_backends skip (route_Backends rt) path) as [[total wbs] path']. cbn [fst snd] in Htot, Hwok, Hoauth. subst total.
  own_step. destruct (Z.eqb_spec (total_weight wbs) 0) as [|Hne]; [apply rgp_ret; split; [done|]; split; [done|]; by left|].
  apply rgp_bind, among_draw; [done..|]. intros b pd wd Hb _. apply rgp_bind, among_handleBackend; [by apply Hoauth|].
  intros [[]|e|] x1 Hnp Hw Hr; cbn in Hw, Hr; [|by repeat split|done]. own_step.
  apply rgp_bind, among_act. intros pn wn _. split; [done|]. cbn [fst snd of_res].
  pose proof (NewRequest_no_panic (ex_out x1)) as Hnew. destruct (NewRequest _ _ _ _) as [req|e|]; [|by repeat split|done].
  apply rgp_bind, among_env. intros po wo _.
  match goal with |- context [Do ?r ?w] => pose proof (Do_no_panic r w) as Hdo; pose proof (Do_final r w) as Hfin;
    pose proof (fun resp (E : (Do r w).2 = Ok resp) => ex_intro _ r (ex_intro _ w E) : gave (W:=W) resp) as Hgave;
    destruct (Do r w) as [wr [resp|e|]] end;
    cbn [fst snd] in Hdo |- *; [|by repeat split|done]. apply among_last; [done|]. intros pl wl. cbn. rewrite Hw.
  repeat split; [done|]. intros _. right; right. split; [lia|]. exists resp. split_and!; [by apply Hgave|by apply Hfin|done|done].
Qed.

Lemma total_unbumped bs : weights_ok (map (fun b => weighted (bumped b)) bs) ->
  weights_ok (map weighted bs).
Proof.
  intros [Hl Hmax]. enough (Forall (fun wb => 0 <= wb_weight wb) (map weighted bs) /\
    total_weight (map weighted bs) <= total_weight (map (fun b => weighted (bumped b)) bs)) by (split; [tauto|lia]).
  clear Hmax. induction bs as [|b bs IH]; [done|]. cbn [map] in *. apply Forall_cons in Hl as [Hb Hl].
  destruct (IH Hl) as [IH1 IH2]. rewrite !total_weight_cons. unfold bumped in *.
  cbn [wb_weight weighted] in *.
  destruct (Z.eqb_spec (backend_Weight b) 0); cbn [backend_Weight] in *; (split; [constructor; [|done]|]; cbn [wb_weight weighted]; lia).
Qed.

(** A host that good tables lead to a route. *)
Definition served_host (host : string) : Prop := exists n, forall p, good p ->
  routesPerHost p !! extractHost host = Some n /\ is_Some (routes p !! n).

Lemma served_host_found host n p p' : served_host host -> good p -> good p' ->
  routesPerHost p !! extractHost host = Some n -> is_Some (routes p' !! n).
Proof. intros [n' Hn] Hp Hp' E. destruct (Hn p Hp) as [E' _]. rewrite E' in E. injection E as ->. by apply Hn. Qed.

Lemma among_reply_not_found x (Q : res unit -> Exchange P W -> Prop) :
  (forall r x', ex_w x' = ex_w x -> Q r x') -> among Traffic.reply_not_found Q x.
Proof.
  intros HQ. unfold Traffic.reply_not_found. own_step. apply rgp_bind, among_act. intros p w _.
  destruct (req_Response _); cbn [deref]; (split; [done|]); [|by apply HQ]. apply among_last; [done|]. intros pl wl. by apply HQ.
Qed.

Lemma among_RewriteV1Alpha1 r_in x :
  among (Traffic.RewriteV1Alpha1 r_in) (fun r x' => (served_host (req_Host r_in) -> r = Ok tt) /\ ex_w x' = ex_w x) x.
Proof.
  unfold Traffic.RewriteV1Alpha1, Traffic.resolve. apply rgp_bind, rgp_attempt.
  apply among_gets. intros pg wg Hg. cbn [own_part ex_proxy].
  destruct (routesPerHost pg !! _) as [n|] eqn:E.
  2: { apply among_throw. intros p w. apply among_reply_not_found. intros r x' Hw. split; [|exact Hw]. intros [n Hn].
       destruct (Hn pg Hg) as [E' _]. congruence. }
  apply among_act. intros p w Hp. rewrite get_route_run. split; [done|]. cbn [fst snd own_part ex_proxy].
  destruct (routes p !! n) as [rt|] eqn:Hrt.
  2: { apply among_reply_not_found. intros r x' Hw. split; [|exact Hw]. intros Hs.
       destruct (served_host_found _ n pg p Hs Hg Hp E) as [rt Hrt']. congruence. }
  destruct (good_sound p n rt Hp Hrt) as [Hauth Hok]. pose proof (total_unbumped _ Hok) as Hok'.
  rewrite all_backends_spec by done. destruct (Z.eqb_spec (total_weight (map weighted (route_Backends rt))) 0) as [|Hne].
  { by apply rgp_ret. }
  apply rgp_bind, among_draw; [done..|]. intros b pd wd Hb _. apply rgp_bind, rgp_attempt, among_handleBackend.
  { rewrite map_map in Hb. cbn in Hb. rewrite map_id in Hb. by eapply (proj1 (Forall_forall _ _)). }
  intros [[]|e|] x1 Hnp Hw _; cbn in Hw; [| |done]; (apply among_last; [done|]; intros pl wl; split; [done|exact Hw]).
Qed.

(** Writing a response out: it is answered, or there is a reason why not. *)
Lemma modified_code resp resp' : came (W:=W) resp -> final_code (resp_StatusCode resp) -> modified_from resp resp' ->
  informational (resp_StatusCode resp') = false /\
  (valid_code (resp_StatusCode resp') = true \/ aborted (W:=W)) /\
  (is_Some (read_body (resp_Body resp')).2 -> aborted (W:=W)).
Proof.
  intros Hc Hf Hm.
  assert (forall r, (gave (W:=W) r \/ came (W:=W) r) -> final_code (resp_StatusCode r) ->
    informational (resp_StatusCode r) = false /\ (valid_code (resp_StatusCode r) = true \/ aborted (W:=W))) as Hcode.
  { intros r Hr Hfr. split; [by apply final_not_informational|]. rewrite final_valid by done.
    destruct (100 <=? resp_StatusCode r) eqn:E; [by left|]. right. left. exists r. split; [done|]. by apply Z.leb_gt. }
  destruct Hm as [->|[[-> ->]|(H399 & other & Ho & Hfo & -> & ->)]].
  - destruct (Hcode resp (or_intror Hc) Hf). split_and!; [done..|]. intros Hb. right; left. by exists resp.
  - split_and!; [done|by left|]. intros Hb. right; left. by exists resp.
  - destruct (Hcode other (or_introl Ho) Hfo). split_and!; [done..|]. intros Hb. right; right. exists resp, other.
    split_and!; [done..|]. intros En. rewrite En in Hb. by destruct Hb.
Qed.

(** A request for a served host is answered, or there is a reason why not. *)
Lemma among_ServeHTTP prepare r x : rw_sent (ex_w x) = None ->
  among (Traffic.ServeHTTP prepare r) (fun o x' => served_host (req_Host r) ->
    o = Ok tt /\ is_Some (rw_sent (ex_w x')) \/ o = Panic /\ aborted (W:=W)) x.
Proof.
  intros Hnone. assert (forall x1, rw_sent (ex_w x1) = None -> among Traffic.ErrorHandler
    (fun o x' => served_host (req_Host r) -> o = Ok tt /\ is_Some (rw_sent (ex_w x')) \/ o = Panic /\ aborted (W:=W)) x1) as Herr.
  { intros x1 Hx1. eapply rgp_mono; [by apply among_ErrorHandler|]. intros o x' (p & _ & Hend) _.
    unfold fallback_outcome in Hend. destruct (_ !! _) as [n|].
    - destruct Hend as [[-> Hr]|[(-> & Hs & _)|[-> (resp & Hg & Hb)]]].
      + left. split; [done|]. by apply (relayed_sent (ex_w x1)).
      + left. split; [done|]. unfold rw_status in Hs. by destruct (rw_sent (ex_w x')).
      + right. split; [done|]. left. exists resp. auto.
    - destruct Hend as (-> & -> & _). left. split; [done|by eexists]. }
  unfold Traffic.ServeHTTP. own_step. apply rgp_bind. eapply rgp_mono; [by apply among_RewriteV1Alpha1|].
  intros [[]|e|] x1 [Hok Hw1]; [|intros Hs; by specialize (Hok Hs)..]. clear Hok. cbn in Hw1.
  own_step. apply rgp_bind, rgp_attempt, among_env. intros pt wt _.
  match goal with |- context [RoundTrip ?r ?w] => pose proof (RoundTrip_no_panic r w) as Hdo; pose proof (RoundTrip_final r w) as Hfin;
    pose proof (fun resp (E : (RoundTrip r w).2 = Ok resp) => ex_intro _ r (ex_intro _ w E) : came (W:=W) resp) as Hcame;
    destruct (RoundTrip r w) as [wr [resp|e|]] end;
    cbn [fst snd] in Hdo |- *; [|apply Herr; cbn; by rewrite Hw1|done].
  specialize (Hfin resp eq_refl). specialize (Hcame resp eq_refl).
  own_step. apply rgp_bind, rgp_attempt. eapply rgp_mono; [apply among_ModifyResponse|]. cbn [ex_w ex_resp].
  intros [[]|e|] x2 (Hnp & Hw2 & Hmod); [|apply Herr; by rewrite Hw2, Hw1|done]. do 2 own_step.
  specialize (Hmod eq_refl). destruct (modified_code resp (ex_resp x2) Hcame Hfin Hmod) as (Hinf & Hval & Hbody).
  apply rgp_bind, among_on_w. intros ps ws _. cbn [ex_w]. unfold WriteHeader. cbn [rw_sent]. rewrite Hw2, Hw1, Hnone, Hinf.
  destruct (valid_code (resp_StatusCode (ex_resp x2))); cbn [negb fst snd].
  2: { intros _. right. by destruct Hval. }
  destruct (read_body (resp_Body (ex_resp x2))) as [text failed]. own_step.
  destruct failed as [e|]; [|apply rgp_ret; intros _; left; split; [done|apply Write_sent]].
  apply among_act. intros pe we _. split; [done|]. intros _. right. split; [done|]. by apply Hbody.
Qed.
End Among.

(** ** Properties *)

Section Properties.
Context {P W : Type} `{Hspec : PersistenceSpec P} `{Hhttp : HttpEnvSpec W}.
Implicit Types (x : Exchange P W).

(** The two look-ups run together. *)
Lemma resolve_alone h x : resolve h x = on_proxy (resolve_host h) x.
Proof.
  destruct x as [p e o w r]. serve resolve. unfold on_proxy, resolve_host. mrun.
  destruct (routesPerHost p !! extractHost h) as [n|]; [|done]. reflexivity.
Qed.

Lemma RewriteV1Alpha1_found r_in x route :
  resolve_host (req_Host r_in) (ex_proxy x) = (ex_proxy x, Ok route) ->
  RewriteV1Alpha1 r_in x =
    (let '(total, wbs) := all_backends (route_Backends route) in
     if total =? 0 then mret tt
     else randomBackend ← on_env (weightedRandomBackend wbs total);
          _ ← try (handleBackend randomBackend); upd_out (SetXForwarded r_in)) x.
Proof.
  intros Hres. serve RewriteV1Alpha1. unfold mbind at 1, M_bind at 1, try at 1. rewrite resolve_alone.
  unfold on_proxy at 1, zoom at 1. rewrite Hres. destruct x. by destruct (all_backends (route_Backends route)).
Qed.

(** The rewriting of a request, given what the load balancer draws. *)
Lemma rewrite_with_choice r_in x route b w' :
  resolve_host (req_Host r_in) (ex_proxy x) = (ex_proxy x, Ok route) ->
  weights_ok (map weighted (route_Backends route)) ->
  0 < total_weight (map weighted (route_Backends route)) ->
  weightedRandomBackend (map weighted (route_Backends route))
    (total_weight (map weighted (route_Backends route))) (ex_env x) = (w', Ok b) ->
  oauth_configured b ->
  exists w out, addressed b w' (ex_out x) w out /\
    RewriteV1Alpha1 r_in x = (mkExchange (ex_proxy x) w (SetXForwarded r_in out) (ex_w x) (ex_resp x), Ok tt).
Proof.
  intros Hres Hok Hpos Hrun Hauth.
  destruct (handleBackend_addressed b (mkExchange (ex_proxy x) w' (ex_out x) (ex_w x) (ex_resp x)) Hauth)
    as (w & out & v & Hout & Hv).
  exists w, out. split; [exact Hout|]. rewrite (RewriteV1Alpha1_found r_in x route Hres).
  rewrite all_backends_spec by done. rewrite (proj2 (Z.eqb_neq _ _)) by lia.
  erewrite bind_Ok_run by (unfold on_env, zoom; by rewrite Hrun).
  by rewrite (bind_Ok_run _ _ _ _ _ Hv).
Qed.

Lemma no_oauth_configured b : no_oauth b -> oauth_configured b.
Proof. unfold no_oauth, oauth_configured. by destruct (backend_Auth b). Qed.
Lemma addressed_plain_inv b w out w' out' : no_oauth b -> addressed (W:=W) b w out w' out' ->
  w' = w /\ out' = target_backend b out.
Proof. unfold no_oauth. intros Hb. destruct 1 as [|auth o w' t Ea Ht _ _|auth o w' e Ea Ht _ _]; [done|by rewrite Ea in Hb..]. Qed.

(** A request whose host leads to a route is sent to one of that route's
    backends with a positive weight: scheme, host, host header, added headers and
    path prefix become the backend's, and the forwarding headers are set. *)
Theorem rewrite_targets_a_backend r_in x route :
  resolve_host (req_Host r_in) (ex_proxy x) = (ex_proxy x, Ok route) ->
  weights_ok (map weighted (route_Backends route)) ->
  0 < total_weight (map weighted (route_Backends route)) ->
  Forall no_oauth (route_Backends route) ->
  exists b w', b ∈ route_Backends route /\ 0 < backend_Weight b /\
    RewriteV1Alpha1 r_in x =
      (mkExchange (ex_proxy x) w' (SetXForwarded r_in (target_backend b (ex_out x)))
         (ex_w x) (ex_resp x), Ok tt).
Proof.
  intros Hres Hok Hpos Hplain.
  destruct (weighted_choice_run _ (ex_env x) Hok Hpos) as (wb & w' & Hin & Hwb & Hrun).
  apply list_elem_of_fmap in Hin as (b & -> & Hb). exists b, w'. repeat split; [done..|].
  assert (no_oauth b) as Hb0 by (by eapply (proj1 (Forall_forall _ _))).
  destruct (rewrite_with_choice r_in x route b w' Hres Hok Hpos Hrun (no_oauth_configured b Hb0)) as (w2 & out & Hout & E).
  by destruct (addressed_plain_inv b _ _ _ _ Hb0 Hout) as [-> ->].
Qed.

(** The weights of a route are not checked when it is registered, and their total is a
    64-bit sum that wraps around: a request for a route whose total comes out negative
    ends in a panic of the generator, one for a route whose total comes out as zero is
    forwarded without a backend having been chosen. *)
Theorem weights_wrap_around r_in x route :
  resolve_host (req_Host r_in) (ex_proxy x) = (ex_proxy x, Ok route) ->
  let total := int64 (total_weight (map weighted (route_Backends route))) in
  (total < 0 -> (RewriteV1Alpha1 r_in x).2 = Panic) /\
  (total = 0 -> RewriteV1Alpha1 r_in x = (x, Ok tt)).
Proof.
  intros Hres total.
  pose proof (RewriteV1Alpha1_found r_in x route Hres) as E. rewrite all_backends_wraps in E. fold total in E.
  rewrite E. split; intros Ht.
  - assert (total =? 0 = false) as -> by lia. unfold on_env, weightedRandomBackend, mbind, M_bind, zoom.
    pose proof (Intn_panic total (ex_env x) ltac:(lia)) as Hp.
    destruct (Intn total (ex_env x)) as [w' [a|e|]]; [done..|]. done.
  - assert (total =? 0 = true) as -> by lia. done.
Qed.

(** A request for a host no route declares is not answered with a 404: the
    handler writes it through the nil [Response] pointer of the outgoing request
    and panics, before anything is written to the client. *)
Theorem unknown_host_panics prepare r x :
  routesPerHost (ex_proxy x) !! extractHost (req_Host r) = None ->
  req_Response (prepare r) = None ->
  wp (ServeHTTP prepare r) (fun res x' => res = Panic /\ ex_w x' = ex_w x) x.
Proof.
  intros Hhost Hnil. serve ServeHTTP. unfold upd_out. wp_step. wp_step. wp_step.
  serve RewriteV1Alpha1. wp_step. wp_step. unfold wp at 1. rewrite resolve_alone. unfold on_proxy, zoom.
  rewrite resolve_host_run. cbn [ex_proxy]. rewrite Hhost. cbn [fst snd]. serve reply_not_found. mrun. by rewrite Hnil.
Qed.

(** The fallback keeps the backend that has just failed among its candidates
    whenever the backend's address carries a port: the request's host has lost
    the port, so the two are never equal. *)
Theorem failed_backend_stays_candidate (b : Backend) (bs : list Backend) r :
  b ∈ bs -> contains_byte ":"%char (backend_Host b) = true ->
  req_Host r = extractHost (backend_Host b) ->
  weighted (bumped b) ∈
    (fallback_backends (fun c => bool_decide (backend_Host c = req_Host r)) bs
       (url_Path (req_URL r))).1.2.
Proof.
  intros Hb Hport Hhost. rewrite fallback_candidates.
  apply (list_elem_of_fmap_2 (fun b => weighted (bumped b))), list_elem_of_filter.
  split; [|done]. apply bool_decide_false. rewrite Hhost. intros Heq.
  pose proof (extractHost_clean (backend_Host b)) as Hclean. by rewrite <- Heq, Hport in Hclean.
Qed.

(** Backends are looked up by host alone, so when two routes share a backend
    host, a failed request of the first one falls back to the backends of the
    route that was registered last. *)
Theorem shared_backend_host_misroutes (r1 r2 : Route) (b1 b2 : Backend) (p : ProxyV1Alpha1 P) :
  b1 ∈ route_Backends r1 -> b2 ∈ route_Backends r2 ->
  extractHost (backend_Host b1) = extractHost (backend_Host b2) ->
  let p' := (RegisterRoute r2 (RegisterRoute r1 p).1).1 in
  backendHostToRoute p' !! extractHost (backend_Host b1) = Some (route_Name r2) /\
  routes p' !! route_Name r2 = Some r2.
Proof.
  intros _ Hb2 Heq. destruct (RegisterRoute_run r1 p) as (s1 & -> & Hs1).
  cbn [fst]. destruct (RegisterRoute_run r2 (file_tables r1 p s1)) as (s2 & -> & Hs2). cbn.
  split; [|unfold routes; cbn; by rewrite Hs2, lookup_insert_eq].
  rewrite lookup_store_all, decide_True; [done|]. rewrite Heq.
  by apply (list_elem_of_fmap_2 (fun b => extractHost (backend_Host b))).
Qed.

(** *** Alone

    A request that meets no other is one of a pool with nothing else in it. *)
Lemma runs_handleBackend b :
  runs_as (Traffic.handleBackend (P:=P) (W:=W) (F:=prog _) b) (Traffic.handleBackend (F:=M _) b).
Proof. unfold Traffic.handleBackend, Traffic.authorize, Traffic.act. runs. Qed.
Hint Resolve runs_handleBackend : runs.
Lemma runs_errorHandler n :
  runs_as (Traffic.errorHandler (P:=P) (W:=W) (F:=prog _) n) (Traffic.errorHandler (F:=M _) n).
Proof. unfold Traffic.errorHandler, Traffic.act. runs. Qed.
Hint Resolve runs_errorHandler : runs.
Lemma runs_retry_loop k i n :
  runs_as (Traffic.retry_loop (P:=P) (W:=W) (F:=prog _) k i n) (Traffic.retry_loop (F:=M _) k i n).
Proof. revert i. induction k as [|k IH]; intros i; cbn [Traffic.retry_loop]; unfold Traffic.act; runs; apply IH. Qed.
Hint Resolve runs_retry_loop : runs.
Lemma runs_ErrorHandler :
  runs_as (Traffic.ErrorHandler (P:=P) (W:=W) (F:=prog _)) (Traffic.ErrorHandler (F:=M _)).
Proof. unfold Traffic.ErrorHandler, Traffic.act. runs. Qed.
Hint Resolve runs_ErrorHandler : runs.
Lemma runs_ModifyResponse :
  runs_as (Traffic.ModifyResponse (P:=P) (W:=W) (F:=prog _)) (Traffic.ModifyResponse (F:=M _)).
Proof. unfold Traffic.ModifyResponse, Traffic.act. runs. Qed.
Hint Resolve runs_ModifyResponse : runs.
Lemma runs_RewriteV1Alpha1 r :
  runs_as (Traffic.RewriteV1Alpha1 (P:=P) (W:=W) (F:=prog _) r) (Traffic.RewriteV1Alpha1 (F:=M _) r).
Proof. unfold Traffic.RewriteV1Alpha1, Traffic.resolve, Traffic.reply_not_found, Traffic.act. runs. Qed.
Hint Resolve runs_RewriteV1Alpha1 : runs.
Lemma runs_ServeHTTP prepare r :
  runs_as (Traffic.ServeHTTP (P:=P) (W:=W) (F:=prog _) prepare r) (Traffic.ServeHTTP (F:=M _) prepare r).
Proof. unfold Traffic.ServeHTTP, Traffic.act. runs. Qed.

Definition sound_routes x : Prop :=
  forall n r, routes (ex_proxy x) !! n = Some r -> sound_route r.

Lemma error_handler_ends x :
  sound_routes x -> rw_sent (ex_w x) = None ->
  ex_proxy (ErrorHandler x).1 = ex_proxy x /\
  fallback_outcome (W:=W) (backendHostToRoute (ex_proxy x) !! req_Host (ex_out x)) (ex_w x) (ErrorHandler x).2 (ex_w (ErrorHandler x).1).
Proof.
  intros Hsound Hnone. rewrite <- (runs_ErrorHandler x).
  destruct (rgp_run (fun s : ProxyV1Alpha1 P * W => s.1 = ex_proxy x) anything Traffic.ErrorHandler
    (fun r x' => exists p, p = ex_proxy x /\
      fallback_outcome (W:=W) (backendHostToRoute p !! req_Host (ex_out x)) (ex_w x) r (ex_w x')) x) as [Hp (p & -> & Hr)];
    [|done|by split].
  apply (among_ErrorHandler (fun p => p = ex_proxy x)); [|exact Hnone]. intros p n r -> Hr. by apply (Hsound n).
Qed.

(** The first attempt that serves the request is the answer. *)
Lemma first_attempt_serves x n x1 : backendHostToRoute (ex_proxy x) !! req_Host (ex_out x) = Some n ->
  errorHandler n x = (x1, Ok tt) -> ErrorHandler x = (x1, Ok tt).
Proof.
  intros Hn E. unfold ErrorHandler. rewrite (bind_Ok_run _ _ x x (ex_out x) eq_refl).
  rewrite (bind_Ok_run _ _ x x (Some n)) by (unfold Traffic.act, lift, M_lift, gets; by rewrite Hn).
  cbv iota beta. rewrite (bind_Ok_run _ _ x x1 true); [done|]. cbn [Traffic.retry_loop].
  by rewrite (bind_Ok_run _ _ x x1 (inl tt) (try_Ok_run _ _ _ _ E)).
Qed.


(** A response below 399 reaches the client as it came: nothing of the
    exchange changes. *)
Theorem modify_response_passes_success x :
  resp_StatusCode (ex_resp x) < 399 -> ModifyResponse x = (x, Ok tt).
Proof. intros Hs. serve ModifyResponse. mrun. by rewrite (proj2 (Z.ltb_lt _ _)). Qed.

Lemma get_route_wp n x (Q : res (Route + error) -> Exchange P W -> Prop) :
  (forall r, Q (Ok (inl r)) x) -> Q (Ok (inr ErrRouteNotFound)) x ->
  wp (try (on_proxy (with_persistence (per_GetRoute n)))) Q x.
Proof. intros Hsome Hnone. unfold wp, try. rewrite get_route_run. by destruct (routes (ex_proxy x) !! n); cbn. Qed.

(** When the fallback of a failed response installs the response of another
    backend, the client receives none of its body: the body was closed on the way
    out of the handler, and what is left to copy is empty. *)
Theorem fallback_response_body_is_lost x :
  399 <= resp_StatusCode (ex_resp x) ->
  wp ModifyResponse (fun r x' =>
    r = Ok tt -> resp_Status (ex_resp x') <> resp_Status (ex_resp x) ->
    (read_body (resp_Body (ex_resp x'))).1 = "") x.
Proof.
  intros Hs. serve ModifyResponse. unfold upd_resp, upd_out. do 2 wp_step.
  assert ((resp_StatusCode (ex_resp x) <? 399) = false) as -> by lia. do 4 wp_step.
  destruct (backendHostToRoute (ex_proxy x) !! req_Host (ex_out x)) as [n|]; [|by wp_step].
  wp_step. apply get_route_wp; [|by wp_step]. intros rt.
  destruct (fallback_backends _ _ _) as [[total wbs] path']. do 2 wp_step.
  destruct (Z.eqb total 0); [by wp_step|]. unfold on_env. do 2 wp_step.
  unfold wp at 1. destruct (weightedRandomBackend _ _ _) as [w1 [b|e|]]; cbn [fst snd]; [|done..].
  wp_step. unfold wp at 1. destruct (handleBackend b _) as [x1 [[]|e|]]; cbn [fst snd]; [|done..].
  do 4 wp_step. destruct (NewRequest _ _ _ _) as [req|e|]; [|done..].
  do 2 wp_step. unfold wp at 1. destruct (Do _ _) as [w2 [resp|e|]]; cbn [fst snd]; [|done..].
  wp_step. cbn. intros _ _. by destruct (resp_Body resp).
Qed.

(** *** After an error status *)

(** The candidates have a positive total. *)
Lemma candidates_total skip bs path :
  weights_ok (map (fun b => weighted (bumped b)) bs) -> (exists b, b ∈ bs /\ skip b = false) ->
  0 < total_weight (fallback_backends skip bs path).1.2.
Proof.
  intros [Hw _] (b & Hb & Hs). rewrite fallback_candidates. rewrite Forall_map, Forall_forall in Hw.
  assert (Forall (fun c => 0 < wb_weight (weighted (bumped c))) (filter (fun b => skip b = false) bs)) as Hpos.
  { apply Forall_forall. intros c [_ Hc]%list_elem_of_filter. specialize (Hw c Hc). revert Hw. unfold bumped.
    destruct (Z.eqb_spec (backend_Weight c) 0); cbn; lia. }
  assert (b ∈ filter (fun b => skip b = false) bs) as Hin by (by apply list_elem_of_filter).
  destruct (filter _ bs) as [|c l]; [by apply not_elem_of_nil in Hin|]. apply Forall_cons in Hpos as [Hc Hl].
  cbn [map]. rewrite total_weight_cons.
  assert (0 <= total_weight (map (fun b => weighted (bumped b)) l)); [|lia].
  apply total_weight_nonneg, Forall_map. eapply Forall_impl; [exact Hl|]. cbn. lia.
Qed.

Definition same_backend x (b : Backend) : bool :=
  bool_decide (backend_Host b = req_Host (ex_out x)) && bool_decide (backend_Scheme b = url_Scheme (req_URL (ex_out x))).

(** The other backends of the route of a failed request work: the proxy can name them, and they
    answer, with a body. *)
Definition others_answer : Prop :=
  (forall u, exists u', ParseURL u = Ok u') /\
  (forall req (w : W), exists w' other s, Do req w = (w', Ok other) /\ resp_Body other = body_of s /\ 100 <= resp_StatusCode other).

Lemma fallback_is_installed x n route :
  399 <= resp_StatusCode (ex_resp x) -> backendHostToRoute (ex_proxy x) !! req_Host (ex_out x) = Some n ->
  routes (ex_proxy x) !! n = Some route -> sound_route route -> Forall no_oauth (route_Backends route) ->
  (exists b, b ∈ route_Backends route /\ same_backend x b = false) -> others_answer ->
  exists x2 s, ModifyResponse x = (x2, Ok tt) /\ ex_w x2 = ex_w x /\ 100 <= resp_StatusCode (ex_resp x2) /\
    final_code (resp_StatusCode (ex_resp x2)) /\ resp_Body (ex_resp x2) = Close (body_of s).
Proof.
  intros H399 Hn Hroute [_ Hok] Hplain Hother [Hparse Hdo]. unfold ModifyResponse.
  rewrite (bind_Ok_run _ _ x x (ex_resp x)) by done. rewrite (proj2 (Z.ltb_ge _ _) H399).
  rewrite (bind_Ok_run _ _ x x (ex_out x)) by done.
  rewrite (bind_Ok_run _ _ x x (Some n)) by (unfold Traffic.act, lift, M_lift, gets; by rewrite Hn). cbv iota beta.
  rewrite (bind_Ok_run _ _ x x (inl route)).
  2: { apply try_Ok_run. unfold Traffic.act, lift, M_lift. rewrite get_route_run. by rewrite Hroute. }
  cbv iota beta. change (fun b => _ && _) with (same_backend x).
  set (path := url_Path (req_URL (ex_out x))).
  pose proof (fallback_total (same_backend x) _ path Hok) as Htot. pose proof (fallback_weights_ok (same_backend x) _ path Hok) as Hwok.
  pose proof (candidates_total (same_backend x) _ path Hok Hother) as Hpos.
  pose proof (fun wb => fallback_from_route (same_backend x) (route_Backends route) path wb) as Hfrom.
  destruct (fallback_backends (same_backend x) (route_Backends route) path) as [[total wbs] path']. cbn [fst snd] in *. subst total.
  set (x1 := mkExchange (ex_proxy x) (ex_env x) (set_path path' (ex_out x)) (ex_w x) (ex_resp x)).
  rewrite (bind_Ok_run _ _ x x1 tt) by done. rewrite (proj2 (Z.eqb_neq _ _)) by lia.
  destruct (weighted_choice_run wbs (ex_env x) Hwok Hpos) as (wb & w' & Hin & _ & Hrun).
  set (x2 := mkExchange (ex_proxy x) w' (set_path path' (ex_out x)) (ex_w x) (ex_resp x)).
  rewrite (bind_Ok_run _ _ x1 x2 (wb_backend wb)) by (unfold Traffic.act, lift, M_lift, on_env, zoom; cbn; by rewrite Hrun).
  assert (no_oauth (wb_backend wb)) as Hno.
  { destruct (Hfrom wb Hin) as (b & Hb & _ & ->). cbn. unfold bumped.
    pose proof (proj1 (Forall_forall _ _) Hplain b Hb) as Hp. by destruct (backend_Weight b =? 0). }
  rewrite (bind_Ok_run _ _ x2 _ tt (handleBackend_plain _ x2 Hno)).
  set (x3 := mkExchange _ _ _ _ _). rewrite (bind_Ok_run _ _ x3 x3 (ex_out x3)) by done.
  destruct (Hparse (req_URL (ex_out x3))) as [u Hu].
  rewrite (bind_Ok_run _ _ x3 x3 (mkRequest (req_Method (ex_out x3)) u (url_Host u) ∅ (req_Body (ex_out x3)) ("HTTP/1.1", (1, 1)) None None false))
    by (unfold Traffic.act, lift, M_lift, of_res, NewRequest; by rewrite Hu).
  match goal with |- context [Do ?q] => destruct (Hdo q (ex_env x3)) as (w4 & other & s & E & Hbody & Hcode) end.
  match type of E with Do ?q _ = _ => pose proof (Do_final q (ex_env x3) other ltac:(by rewrite E)) as Hfin end.
  set (x4 := mkExchange (ex_proxy x) w4 (ex_out x3) (ex_w x) (ex_resp x)).
  rewrite (bind_Ok_run _ _ x3 x4 other) by (unfold Traffic.act, lift, M_lift, on_env, zoom; by rewrite E).
  do 2 eexists. split; [reflexivity|]. cbn. by rewrite Hbody.
Qed.

End Properties.

(** ** Witnesses *)

Module ForwardExamples.
(** An environment whose state is the list of the durations slept: it draws the
    lowest index, its token server refuses, and every request fails except one to
    the host "up". *)
Definition example_do (r : Request) : M (list Z) Response := fun w =>
  if String.eqb (url_Host (req_URL r)) "up"
  then (w, Ok (mkResponse 200 "200 OK" ∅ (body_of "hello")))
  else (w, Err (Errorf "connection refused")).

#[global] Instance example_rand : Rand (list Z) := {
  Intn n w := if n <=? 0 then (w, Panic) else (w, Ok 0)
}.
#[global] Instance example_env : HttpEnv (list Z) := {
  Do := example_do;
  RoundTrip := example_do;
  Token _ w := (w, Err (Errorf "invalid_client"));
  ParseURL u := Ok u;
  Sleep n w := (w ++ [n], Ok tt)
}.
#[global] Instance example_env_spec : HttpEnvSpec (list Z).
Proof.
  constructor; try done; try (intros r w; cbn; unfold example_do; by case_match).
  2,3: intros r w resp; cbn; unfold example_do; case_match; [|done]; intros [= <-]; cbn; unfold final_code; lia.
  constructor; intros n w Hn; cbn.
  - assert ((n <=? 0) = false) as -> by lia. exists 0, w. split; [done|lia].
  - by assert ((n <=? 0) = true) as -> by lia.
Qed.

Definition get (host path : string) : Request :=
  mkRequest "GET" (mkURL "" "" path) host ∅ "" ("HTTP/1.1", (1, 1)) None (Some "192.0.2.7") false.
Definition local := mkBackend "model-beamlit.default.svc:80" 100 None "" ∅ "http".
Definition remote := mkBackend "run.beamlit.com" 0 None "/ws" ∅ "https".
Definition model := mkRoute "model" ["model"] [local; remote].
Definition other := mkRoute "other" ["other"] [mkBackend "other-beamlit.default.svc:80" 100 None "" ∅ "http"; remote].
Definition table : ProxyV1Alpha1 InMem.t := (RegisterRoute model New).1.
Definition start (r : Request) (resp : Response) : Exchange InMem.t (list Z) :=
  mkExchange table [] r newWriter resp.
Definition no_resp := mkResponse 0 "" ∅ NoBody.
Definition failing := (target_backend local (get "model" "/v1")).

Lemma rewrite_targets_a_backend_witness :
  exists b w', b ∈ route_Backends model /\ 0 < backend_Weight b /\
    RewriteV1Alpha1 (get "model" "/v1") (start (get "model" "/v1") no_resp) =
      (mkExchange table w' (SetXForwarded (get "model" "/v1") (target_backend b (get "model" "/v1")))
         newWriter no_resp, Ok tt).
Proof.
  apply (rewrite_targets_a_backend (get "model" "/v1") (start (get "model" "/v1") no_resp) model).
  - reflexivity.
  - split; [repeat constructor; cbn; lia|reflexivity].
  - reflexivity.
  - repeat constructor.
Defined.

(** Two weights whose sum is one too large. *)
Definition heavy (n : string) : Backend := mkBackend n (2 ^ 62) None "" ∅ "http".
Definition heavy_route : Route := mkRoute "heavy" ["heavy"] [heavy "a"; heavy "b"].
Lemma weights_wrap_around_witness :
  (RewriteV1Alpha1 (get "heavy" "/") (mkExchange (RegisterRoute heavy_route New).1 [] (get "heavy" "/") newWriter no_resp)).2 = Panic.
Proof.
  apply (weights_wrap_around (get "heavy" "/")
    (mkExchange (RegisterRoute heavy_route New).1 [] (get "heavy" "/") newWriter no_resp) heavy_route); reflexivity.
Defined.

Lemma unknown_host_panics_witness :
  wp (ServeHTTP (fun r => r) (get "nobody" "/")) (fun res x' => res = Panic /\ ex_w x' = newWriter)
    (start (get "nobody" "/") no_resp).
Proof. apply (unknown_host_panics (fun r => r) (get "nobody" "/")); reflexivity. Defined.

Lemma failed_backend_stays_candidate_witness :
  weighted (bumped local) ∈
    (fallback_backends (fun c => bool_decide (backend_Host c = req_Host failing)) [local; remote] "/v1").1.2.
Proof. apply (failed_backend_stays_candidate local [local; remote] failing); [left|reflexivity|reflexivity]. Defined.

Lemma shared_backend_host_misroutes_witness :
  backendHostToRoute (RegisterRoute other (RegisterRoute model New).1).1 !! "run.beamlit.com" = Some "other".
Proof.
  apply (shared_backend_host_misroutes model other remote remote New);
    [right; left|right; left|reflexivity].
Defined.

Lemma start_sound r resp : sound_routes (start r resp).
Proof.
  intros n rt. change (routes (ex_proxy (start r resp))) with (<["model" := model]> (∅ : gmap string Route)).
  intros Hrt. apply lookup_insert_Some in Hrt as [[<- <-]|[_ Hrt]]; [|by rewrite lookup_empty in Hrt].
  split; [repeat constructor|]. split; [repeat constructor; cbn; lia|reflexivity].
Qed.


(** All four attempts fail: the client gets a 503, and the pauses between the
    attempts are 10, 11, 8 and 9 milliseconds. *)
Example error_handler_pauses :
  (fun x' => (ex_env x', rw_status (ex_w x'))) (ErrorHandler (start failing no_resp)).1
    = ([10000000; 11000000; 8000000; 9000000], Some 503).
Proof. vm_compute. reflexivity. Qed.

Lemma modify_response_passes_success_witness :
  ModifyResponse (start failing (mkResponse 200 "200 OK" ∅ (body_of "hi")))
    = (start failing (mkResponse 200 "200 OK" ∅ (body_of "hi")), Ok tt).
Proof. apply modify_response_passes_success. reflexivity. Defined.

Definition failed_502 := mkResponse 502 "502 Bad Gateway" ∅ (body_of "bad gateway").
Definition after_local :=
  target_backend (mkBackend "model-beamlit.default.svc" 1 None "" ∅ "http") (get "model" "/v1").
(** A route whose first backend carries no port: a failure of it is recognised and
    the fallback goes to the spare. *)
Definition spare_route := mkRoute "model" ["model"]
  [mkBackend "model-beamlit.default.svc" 100 None "" ∅ "http"; mkBackend "up" 0 None "" ∅ "http"].
Definition spare_served := ModifyResponse
  (mkExchange (RegisterRoute spare_route New).1 [] after_local newWriter failed_502).

Lemma fallback_response_body_is_lost_witness :
  (read_body (resp_Body (ex_resp spare_served.1))).1 = "" /\
  resp_StatusCode (ex_resp spare_served.1) = 200.
Proof.
  split; [|vm_compute; reflexivity].
  apply (fallback_response_body_is_lost
           (mkExchange (RegisterRoute spare_route New).1 [] after_local newWriter failed_502)).
  - vm_compute. discriminate.
  - vm_compute. reflexivity.
  - vm_compute. discriminate.
Defined.

(** Another environment: the backend chosen first answers every request with 502, and a new
    attempt is answered by another one. *)
#[local] Instance recovering_rand : Rand unit := { Intn n w := if n <=? 0 then (w, Panic) else (w, Ok 0) }.
#[local] Instance recovering_env : HttpEnv unit := {
  Do _ w := (w, Ok (mkResponse 200 "200 OK" ∅ (body_of "hello")));
  RoundTrip _ w := (w, Ok failed_502);
  Token _ w := (w, Err (Errorf "invalid_client"));
  ParseURL u := Ok u;
  Sleep _ w := (w, Ok tt)
}.
#[local] Instance recovering_env_spec : HttpEnvSpec unit.
Proof.
  constructor; try done.
  2,3: intros r w resp [= <-]; cbn; unfold final_code; lia.
  constructor; intros n w Hn; cbn.
  - assert ((n <=? 0) = false) as -> by lia. exists 0, w. split; [done|lia].
  - by assert ((n <=? 0) = true) as -> by lia.
Qed.

Definition spare_start : Exchange InMem.t unit :=
  mkExchange (RegisterRoute spare_route New).1 tt (get "model" "/v1") newWriter no_resp.

End ForwardExamples.
