(* ===== verification/Cost.v ===== *)
(** What a request of a client costs the gateway: the round trips for backends and for tokens,
    and the time spent waiting between the attempts of a fallback.  A round trip is one call of
    a transport.  The gateway's reverse proxy makes one; a call of an [http.Client] makes several
    when it is redirected (at most ten), and so does asking for a token, which may try two
    ways of sending the credentials: how many is a parameter. *)

From stdpp Require Import base numbers gmap strings list.
From S2P Require Import Prelude Programs RouteStore Balancer Http Forward.
Local Open Scope Z_scope.

(** ** Costs *)

Record cost := mkCost { trips : Z; tokens : Z; slept : Z }.
Definition cost_add (c d : cost) : cost := mkCost (trips c + trips d) (tokens c + tokens d) (slept c + slept d).
Definition cost_le (c d : cost) : Prop := trips c <= trips d /\ tokens c <= tokens d /\ slept c <= slept d.
Definition free : cost := mkCost 0 0 0.
Definition a_trip : cost := mkCost 1 0 0.
Definition a_pause (n : Z) : cost := mkCost 0 0 n.

Declare Scope cost_scope.
Delimit Scope cost_scope with cost.
Bind Scope cost_scope with cost.
Infix "+" := cost_add : cost_scope.
Infix "<=" := cost_le : cost_scope.

#[global] Instance cost_le_preorder : PreOrder cost_le.
Proof. split; [intros c|intros c d e]; unfold cost_le; lia. Qed.
#[global] Instance cost_add_mono : Proper (cost_le ==> cost_le ==> cost_le) cost_add.
Proof. intros c c' Hc d d' Hd. unfold cost_le in *. cbn. lia. Qed.
Lemma cost_add_assoc c d e : (c + (d + e))%cost = (c + d + e)%cost.
Proof. unfold cost_add. cbn. by rewrite !Z.add_assoc. Qed.
Lemma cost_add_free c : (c + free)%cost = c.
Proof. destruct c. unfold cost_add. cbn. by rewrite !Z.add_0_r. Qed.

(** An environment that counts: the reverse proxy makes one round trip, a call of a client at
    most [hops] and one for a token at most [probes]; drawing costs nothing. *)
Class Metered (W : Type) `{HttpEnv W} := {
  meter : W -> cost;
  hops : Z;
  probes : Z;
  hops_pos : 0 <= hops;
  probes_pos : 0 <= probes;
  meter_Intn n w : meter (Intn n w).1 = meter w;
  meter_Do r w : (meter (Do r w).1 <= meter w + mkCost hops 0 0)%cost;
  meter_RoundTrip r w : meter (RoundTrip r w).1 = (meter w + a_trip)%cost;
  meter_Token o w : (meter (Token o w).1 <= meter w + mkCost 0 probes 0)%cost;
  meter_Sleep n w : meter (Sleep n w).1 = (meter w + a_pause n)%cost
}.

Section Costs.
Context {P W : Type} `{PersistenceV1Alpha1 P} `{Hm : Metered W}.
Implicit Types (x : Exchange P W).
Definition a_call : cost := mkCost (hops (W:=W)) 0 0.
Definition a_token : cost := mkCost 0 (probes (W:=W)) 0.

(** [m] costs at most [c], however it ends. *)
Definition spends {A} (c : cost) (m : M (Exchange P W) A) : Prop :=
  forall x, (meter (ex_env (m x).1) <= meter (ex_env x) + c)%cost.

Lemma spends_mono {A} c d (m : M (Exchange P W) A) : spends c m -> (c <= d)%cost -> spends d m.
Proof. intros Hs Hcd x. etransitivity; [apply Hs|]. by apply cost_add_mono. Qed.
Lemma spends_bind {A B} c d (m : M (Exchange P W) A) (k : A -> M (Exchange P W) B) :
  (free <= d)%cost -> spends c m -> (forall a, spends d (k a)) -> spends (c + d) (m ≫= k).
Proof.
  intros Hd Hs Hk x. rewrite bind_run, cost_add_assoc. specialize (Hs x). destruct (m x) as [x' [a|e|]]; cbn [fst] in *.
  - etransitivity; [apply Hk|]. by apply cost_add_mono.
  - rewrite <-(cost_add_free (meter (ex_env x'))). by apply cost_add_mono.
  - rewrite <-(cost_add_free (meter (ex_env x'))). by apply cost_add_mono.
Qed.
Lemma spends_first {A B} c (m : M (Exchange P W) A) (k : A -> M (Exchange P W) B) :
  (free <= c)%cost -> spends free m -> (forall a, spends c (k a)) -> spends c (m ≫= k).
Proof. intros Hc Hs Hk. eapply spends_mono; [by eapply spends_bind|]. destruct c; unfold cost_le; cbn; lia. Qed.
Lemma spends_try {A} c (m : M (Exchange P W) A) : spends c m -> spends c (try m).
Proof. intros Hs x. specialize (Hs x). unfold try. by destruct (m x) as [x' [a|e|]]. Qed.
Lemma spends_wrap {A} c msg (m : M (Exchange P W) A) : spends c m -> spends c (wrap_err msg m).
Proof. intros Hs x. specialize (Hs x). unfold wrap_err. by destruct (m x) as [x' [a|e|]]. Qed.

(** What does not leave the gateway. *)
Lemma spends_still {A} (m : M (Exchange P W) A) : (forall x, ex_env (m x).1 = ex_env x) -> spends free m.
Proof. intros Hf x. rewrite Hf, cost_add_free. done. Qed.
Lemma spends_ret {A} (a : A) : spends free (mret a).
Proof. by apply spends_still. Qed.
Lemma spends_throw {A} e : spends (A:=A) free (throw e).
Proof. by apply spends_still. Qed.
Lemma spends_of_res {A} (r : res A) : spends free (of_res r).
Proof. by apply spends_still. Qed.
Lemma spends_deref {A} (o : option A) : spends free (deref o).
Proof. by destruct o; apply spends_still. Qed.
Lemma spends_gets {A} (f : Exchange P W -> A) : spends free (gets f).
Proof. by apply spends_still. Qed.
Lemma spends_upd_out f : spends free (upd_out f).
Proof. by apply spends_still. Qed.
Lemma spends_upd_w f : spends free (upd_w f).
Proof. by apply spends_still. Qed.
Lemma spends_on_w {A} (m : M ResponseWriter A) : spends free (on_w m).
Proof. apply spends_still. intros x. unfold on_w, zoom. by destruct (m (ex_w x)). Qed.
Lemma spends_panic {A} : spends (A:=A) free panic.
Proof. by apply spends_still. Qed.
Lemma spends_upd_resp f : spends free (upd_resp f).
Proof. by apply spends_still. Qed.
Lemma spends_on_proxy {A} (m : M (ProxyV1Alpha1 P) A) : spends free (on_proxy m).
Proof. apply spends_still. intros x. unfold on_proxy, zoom. by destruct (m (ex_proxy x)). Qed.
Lemma spends_on_env {A} c (m : M W A) : (forall w, (meter (m w).1 <= meter w + c)%cost) -> spends c (on_env m).
Proof. intros Hc x. specialize (Hc (ex_env x)). unfold on_env, zoom. by destruct (m (ex_env x)). Qed.

Lemma spends_draw l t : spends free (on_env (weightedRandomBackend l t)).
Proof.
  apply spends_on_env. intros w. rewrite cost_add_free. unfold weightedRandomBackend. rewrite bind_run.
  pose proof (meter_Intn t w) as Hw. destruct (Intn t w) as [w' [i|e|]]; cbn [fst] in *; by rewrite <-Hw.
Qed.
Lemma spends_Do r : spends a_call (on_env (Do r)).
Proof. apply spends_on_env, meter_Do. Qed.
Lemma spends_RoundTrip r : spends a_trip (on_env (RoundTrip r)).
Proof. apply spends_on_env. intros w. by rewrite meter_RoundTrip. Qed.
Lemma spends_Sleep n : spends (a_pause n) (on_env (Sleep n)).
Proof. apply spends_on_env. intros w. by rewrite meter_Sleep. Qed.
Lemma spends_OAuth a : spends a_token (on_env (handleOAuth a)).
Proof.
  unfold handleOAuth. destruct (auth_OAuth a) as [o|].
  - apply spends_on_env. intros w. rewrite bind_run. pose proof (meter_Token o w) as Hw. by destruct (Token o w) as [w' [t|e|]].
  - eapply spends_mono; [apply (spends_still (on_env (mret None)))|]; [done|]. pose proof (probes_pos (W:=W)). unfold cost_le. cbn. lia.
Qed.
Hint Resolve spends_ret spends_throw spends_of_res spends_deref spends_gets spends_upd_out spends_upd_w spends_upd_resp spends_on_w spends_panic
  spends_on_proxy spends_draw spends_try spends_wrap : cost.

(** The bookkeeping of bounds that are numbers. *)
Ltac amounts :=
  pose proof (hops_pos (W:=W)); pose proof (probes_pos (W:=W));
  unfold cost_le, cost_add, free, a_trip, a_call, a_token, a_pause; cbn; lia.
(** Through what costs nothing. *)
Ltac costless := repeat first
  [ solve [auto 3 with cost nocore] | progress intros | case_match | apply spends_first; [amounts|solve [auto 4 with cost nocore]|] ].

(** ** The handlers *)

Lemma spends_handleBackend b : spends a_token (handleBackend b).
Proof.
  serve Traffic.handleBackend. eapply spends_mono; [apply (spends_bind a_token free)|amounts]; [amounts| |by costless].
  serve Traffic.authorize. destruct (backend_Auth b) as [auth|]; [|by eapply spends_mono; [apply spends_ret|amounts]].
  case_match; [|by eapply spends_mono; [apply spends_ret|amounts]].
  eapply spends_mono; [apply (spends_bind a_token free)|amounts]; [amounts|apply spends_OAuth|costless].
Qed.
Hint Resolve spends_handleBackend : cost.

(** One attempt of a fallback: a token, and a call of a client. *)
Definition an_attempt : cost := (a_token + a_call)%cost.
Lemma spends_errorHandler n : spends an_attempt (errorHandler n).
Proof.
  serve Traffic.errorHandler. apply spends_first; [amounts|auto 3 with cost nocore|intros [route|e]].
  2: { eapply spends_mono; [apply spends_throw|amounts]. }
  apply spends_first; [amounts|auto 3 with cost nocore|intros r]. case_match. case_match.
  apply spends_first; [amounts|auto 3 with cost nocore|intros _].
  case_match; [eapply spends_mono; [apply spends_throw|amounts]|].
  apply spends_first; [amounts|apply spends_draw|intros b].
  apply spends_bind; [amounts|apply spends_handleBackend|intros _].
  do 2 (apply spends_first; [amounts|auto 4 with cost nocore|intros ?]).
  eapply spends_mono; [apply (spends_bind a_call free)|amounts]; [amounts|apply spends_wrap, spends_Do|costless].
Qed.

(** The pauses of [k] attempts, the first of which is number [i]. *)
Fixpoint pauses (k : nat) (i : Z) : Z := match k with O => 0 | S k => backoff i + pauses k (i + 1) end.
Lemma pauses_pos k i : 0 <= i -> 0 <= pauses k i.
Proof.
  revert i. induction k as [|k IH]; intros i Hi; cbn; [lia|]. specialize (IH (i + 1)). unfold backoff.
  assert (0 <= Z.lxor 10 i) by (apply Z.lxor_nonneg; lia). lia.
Qed.
Definition some_attempts (k : nat) (pause : Z) : cost := mkCost (Z.of_nat k * hops (W:=W)) (Z.of_nat k * probes (W:=W)) pause.
Lemma spends_retry_loop k i n : 0 <= i -> spends (some_attempts k (pauses k i)) (retry_loop k i n).
Proof.
  revert i. induction k as [|k IH]; intros i Hi; cbn [Traffic.retry_loop pauses].
  { eapply spends_mono; [apply spends_ret|amounts]. }
  specialize (IH (i + 1) ltac:(lia)). pose proof (pauses_pos k (i + 1)) as Hp.
  assert (0 <= backoff i) as Hb by (unfold backoff; assert (0 <= Z.lxor 10 i) by (apply Z.lxor_nonneg; lia); lia).
  unfold Traffic.act, lift, M_lift, attempt, M_attempt.
  eapply spends_mono; [apply (spends_bind an_attempt (a_pause (backoff i) + some_attempts k (pauses k (i + 1))))|].
  - amounts.
  - apply spends_try, spends_errorHandler.
  - intros [[]|e]; [eapply spends_mono; [apply spends_ret|amounts]|].
    apply spends_bind; [amounts|apply spends_Sleep|intros _; exact IH].
  - amounts.
Qed.

(** All four attempts: 10, 11, 8 and 9 milliseconds of pauses. *)
Definition a_fallback : cost := some_attempts 4 38000000.
Lemma spends_ErrorHandler : spends a_fallback ErrorHandler.
Proof.
  serve Traffic.ErrorHandler. do 2 (apply spends_first; [amounts|auto 3 with cost nocore|intros ?]).
  case_match; [|eapply spends_mono; [apply (spends_bind free free)|amounts]; [amounts|auto 3 with cost nocore..]].
  eapply spends_mono; [apply (spends_bind a_fallback free)|amounts]; [amounts|apply (spends_retry_loop 4 0); lia|costless].
Qed.

Lemma spends_ModifyResponse : spends an_attempt ModifyResponse.
Proof.
  assert (forall A (m : M (Exchange P W) A), spends free m -> spends an_attempt m) as Hfree
    by (intros A m Hf; eapply spends_mono; [exact Hf|amounts]).
  serve Traffic.ModifyResponse. apply spends_first; [amounts|auto 3 with cost nocore|intros r].
  case_match; [apply Hfree; auto 3 with cost nocore|].
  do 2 (apply spends_first; [amounts|auto 3 with cost nocore|intros ?]). case_match; [|apply Hfree; auto 3 with cost nocore].
  apply spends_first; [amounts|auto 3 with cost nocore|intros [route|e]]; [|apply Hfree; auto 3 with cost nocore].
  case_match. case_match. apply spends_first; [amounts|auto 3 with cost nocore|intros _].
  case_match; [apply Hfree; auto 3 with cost nocore|].
  apply spends_first; [amounts|apply spends_draw|intros b].
  apply spends_bind; [amounts|apply spends_handleBackend|intros _].
  do 2 (apply spends_first; [amounts|auto 4 with cost nocore|intros ?]).
  eapply spends_mono; [apply (spends_bind a_call free)|amounts]; [amounts|apply spends_Do|costless].
Qed.

Lemma spends_RewriteV1Alpha1 r : spends a_token (RewriteV1Alpha1 r).
Proof.
  serve Traffic.RewriteV1Alpha1. apply spends_first; [amounts| |intros [route|e]].
  - apply spends_try. serve Traffic.resolve. apply spends_first; [amounts|auto 3 with cost nocore|intros [n|]]; auto 3 with cost nocore.
  - case_match. case_match; [eapply spends_mono; [apply spends_ret|amounts]|].
    apply spends_first; [amounts|apply spends_draw|intros b].
    eapply spends_mono; [apply (spends_bind a_token free)|amounts]; [amounts|apply spends_try, spends_handleBackend|costless].
  - apply (spends_mono free); [|amounts]. serve Traffic.reply_not_found. costless.
Qed.

(** ** The whole of a request *)

(** C18. Whatever the routes, the backends and the token servers do, and however it ends, a
    request of a client makes the reverse proxy's one round trip, at most five calls of a client
    (one after an answer that is an error, four after a failure), at most six token calls, and
    waits at most 38 milliseconds: [1 + 5 * hops] round trips for backends where a call of a client
    takes at most [hops], and [6 * probes] for tokens where asking for one takes at most [probes]. *)
Theorem request_cost_is_bounded prepare r x :
  (meter (ex_env (ServeHTTP prepare r x).1) <=
    meter (ex_env x) + mkCost (1 + 5 * hops (W:=W)) (6 * probes (W:=W)) 38000000)%cost.
Proof.
  revert x. set (total := mkCost _ _ _). change (spends total (ServeHTTP prepare r)). subst total. serve Traffic.ServeHTTP.
  apply spends_first; [amounts|auto 3 with cost nocore|intros _].
  eapply spends_mono; [apply (spends_bind a_token (mkCost (1 + 5 * hops (W:=W)) (5 * probes (W:=W)) 38000000)); [amounts|apply spends_RewriteV1Alpha1|intros _]|amounts].
  apply spends_first; [amounts|auto 3 with cost nocore|intros out].
  eapply spends_mono; [apply (spends_bind a_trip (mkCost (5 * hops (W:=W)) (5 * probes (W:=W)) 38000000)); [amounts|apply spends_try, spends_RoundTrip|]|amounts].
  intros [resp|e]; [|eapply spends_mono; [apply spends_ErrorHandler|amounts]].
  apply spends_first; [amounts|auto 3 with cost nocore|intros _].
  eapply spends_mono; [apply (spends_bind an_attempt a_fallback); [amounts|apply spends_try, spends_ModifyResponse|]|amounts].
  intros [[]|e]; [|apply spends_ErrorHandler]. apply (spends_mono free); [|amounts]. costless.
Qed.
End Costs.

(** The bound is met: a backend that answers with an error, another that redirects every
    client ten times, and a token server that is asked twice each time. *)
Module CostExamples.
Import ForwardExamples.

#[local] Instance metered_rand : Rand cost := { Intn n w := (w, if n <=? 0 then Panic else Ok 0) }.
#[local] Instance metered_env : HttpEnv cost := {
  Do r w := (w + mkCost 10 0 0, Err (Errorf "stopped after 10 redirects"))%cost;
  RoundTrip r w := (w + a_trip, Ok (mkResponse 500 "500 Internal Server Error" ∅ (body_of "")))%cost;
  Token o w := (w + mkCost 0 2 0, Ok "token")%cost;
  ParseURL u := Ok u;
  Sleep n w := (w + a_pause n, Ok tt)%cost
}.
#[local] Instance metered : Metered cost.
Proof. by refine {| meter := id; hops := 10; probes := 2 |}. Defined.

Definition with_oauth (host : string) : Backend :=
  mkBackend host 50 (Some (mkAuth AuthTypeOAuth (Some (mkOAuth "id" "secret" "https://tokens")))) "" ∅ "http".
Definition oauth_route : Route := mkRoute "model" ["model"] [with_oauth "a"; with_oauth "b"].

Lemma request_cost_is_bounded_witness :
  let x := mkExchange (RegisterRoute oauth_route New).1 free (get "model" "/") newWriter no_resp in
  meter (ex_env (ServeHTTP id (get "model" "/") x).1) = mkCost 51 12 38000000 /\
  (meter (ex_env (ServeHTTP id (get "model" "/") x).1) <= meter (ex_env x) + mkCost 51 12 38000000)%cost.
Proof.
  intros x. split; [vm_compute; reflexivity|]. exact (request_cost_is_bounded id (get "model" "/") x).
Defined.
End CostExamples.
