(* ===== verification/RouteApi.v ===== *)
(** The gateway's management API: the HTTP handlers of gateway/api/v1alpha1.go and
    gateway/api/router.go, the client of gateway/clientset, and the proof that a
    call made through the client has the effect of the call it stands for. *)

From Stdlib Require Import Ascii.
From stdpp Require Import base numbers gmap strings list.
From S2P Require Import Prelude RouteStore Balancer Http Mux.
Local Open Scope Z_scope.

(** ** Encodings

    encoding/json and gopkg.in/yaml.v2 on routes.  [json_Decode] reads the first
    value of a stream. *)
Class RouteCodec := {
  json_Marshal : Route -> res string;
  json_Decode : string -> res Route;
  yaml_Marshal : Route -> res string;
  yaml_Decode : string -> res Route
}.

Definition newline : string := String (ascii_of_nat 10) "".

(** The routes that JSON carries as they are: their text is valid UTF-8 (other bytes are
    replaced), and their weights are [int]s. *)
Definition json_auth (a : Auth) : bool :=
  ValidString (auth_Type a) &&
  match auth_OAuth a with
  | Some o => ValidString (oauth_ClientID o) && ValidString (oauth_ClientSecret o) && ValidString (oauth_TokenURL o)
  | None => true
  end.
Definition json_backend (b : Backend) : bool :=
  ValidString (backend_Host b) && (- 2 ^ 63 <=? backend_Weight b) && (backend_Weight b <? 2 ^ 63) &&
  match backend_Auth b with Some a => json_auth a | None => true end &&
  ValidString (backend_PathPrefix b) &&
  forallb (fun kv => ValidString kv.1 && ValidString kv.2) (map_to_list (backend_HeadersToAdd b)) &&
  ValidString (backend_Scheme b).
Definition json_route (r : Route) : bool :=
  ValidString (route_Name r) && forallb ValidString (route_Hostnames r) && forallb json_backend (route_Backends r).

(** What the client and the server rely on: every route is encoded, one that JSON can carry is
    decoded again, also from a line, and the plain text of an error is not a JSON value. *)
Class RouteCodecSpec `{RouteCodec} : Prop := {
  json_total r : exists s, json_Marshal r = Ok s;
  json_roundtrip r s : json_route r = true -> json_Marshal r = Ok s -> json_Decode s = Ok r;
  json_roundtrip_line r s : json_route r = true -> json_Marshal r = Ok s -> json_Decode (s +:+ newline) = Ok r;
  json_plain_text : exists e, json_Decode (err_message ErrRouteNotFound +:+ newline) = Err e
}.

(** ** The server *)

Section Server.
Context {P : Type} `{PersistenceV1Alpha1 P} `{RouteCodec}.

Definition APIV1Alpha1Routes : string := "/v1alpha1/routes".
Definition ContentTypeJSON : string := "application/json".
Definition ContentTypeYAML : string := "application/yaml".

(** A request being answered: the proxy and the response writer. *)
Definition Serving : Type := ProxyV1Alpha1 P * ResponseWriter.

Definition on_tables {A} (m : M (ProxyV1Alpha1 P) A) : M Serving A :=
  zoom fst (fun p s => (p, s.2)) m.
Definition reply (f : ResponseWriter -> ResponseWriter) : M Serving unit :=
  modify (fun s => (s.1, f s.2)).
Definition reply_header (code : Z) : M Serving unit := zoom snd (fun w s => (s.1, w)) (WriteHeader code).

(** [src/gateway/api/v1alpha1.go:39-42 RegisterRoutesV1Alpha1] one value encoded to the client,
    or a 500; the other replies of the file have the same shape *)
Definition encode_reply (marshal : Route -> res string) (route : Route) : M Serving unit :=
  match marshal route with
  | Ok s => reply (Write (s +:+ newline))
  | Err e => reply (http_Error (err_message e) 500)
  | Panic => panic
  end.

(** YAML documents end with their own line break. *)
Definition encode_yaml_reply (route : Route) : M Serving unit :=
  match yaml_Marshal route with
  | Ok s => reply (Write s)
  | Err e => reply (http_Error (err_message e) 500)
  | Panic => panic
  end.

(** [src/gateway/api/v1alpha1.go:37-53 RegisterRoutesV1Alpha1] the reply in the accepted type,
    JSON by default *)
Definition encode_accepted (r : Request) (route : Route) : M Serving unit :=
  if String.eqb (header_Get "Accept" (req_Header r)) ContentTypeJSON then encode_reply json_Marshal route
  else if String.eqb (header_Get "Accept" (req_Header r)) ContentTypeYAML then encode_yaml_reply route
  else encode_reply json_Marshal route.

(** [src/gateway/api/v1alpha1.go:55-88 RegisterRoutesV1Alpha1] a call that takes a route from the
    body, answered in the body's type; POST (lines 119-152) has the same text with
    [RegisterRoute] for [UpdateRoute] *)
Definition route_from_body (call : Route -> M (ProxyV1Alpha1 P) Route) (r : Request) : M Serving unit :=
  let contentType := header_Get "Content-Type" (req_Header r) in
  let apply_and_reply route encode :=
    routeInDb ← try (on_tables (call route));
    match routeInDb with
    | inr e => reply (http_Error (err_message e) 500)
    | inl route => encode route
    end in
  let decoded (d : res Route) encode :=
    match d with
    | Err e => reply (http_Error (err_message e) 400)
    | Ok route => apply_and_reply route encode
    | Panic => panic
    end in
  if String.eqb contentType ContentTypeJSON
  then decoded (json_Decode (req_Body r)) (encode_reply json_Marshal)
  else if String.eqb contentType ContentTypeYAML
  then decoded (yaml_Decode (req_Body r)) encode_yaml_reply
  else reply (http_Error "unsupported content type" 415).

(** [src/gateway/api/v1alpha1.go:27-115 RegisterRoutesV1Alpha1] the handler of one route *)
Definition handle_route (r : Request) : M Serving unit :=
  let name := TrimPrefix (url_Path (req_URL r)) (APIV1Alpha1Routes +:+ "/") in
  if String.eqb (req_Method r) "GET" then
    found ← try (on_tables (GetRoute name));
    match found with
    | inr e => reply (http_Error (err_message e) 404)
    | inl route => encode_accepted r route
    end
  else if String.eqb (req_Method r) "PUT" then route_from_body UpdateRoute r
  else if String.eqb (req_Method r) "DELETE" then
    deleted ← try (on_tables (DeleteRoute name));
    match deleted with
    | inr e => reply (http_Error (err_message e) 500)
    | inl route => encode_accepted r route
    end
  else reply (http_Error "method not allowed" 405).

(** [src/gateway/api/v1alpha1.go:116-156 RegisterRoutesV1Alpha1] the handler of the collection *)
Definition handle_routes (r : Request) : M Serving unit :=
  if String.eqb (req_Method r) "POST" then route_from_body RegisterRoute r
  else reply (http_Error "method not allowed" 405).

(** What answers a path: the exact patterns, then the subtree of the routes. *)
Definition mux_handler (r : Request) : M Serving unit :=
  let path := url_Path (req_URL r) in
  if String.eqb path APIV1Alpha1Routes then handle_routes r
  else if String.eqb path "/healthz" then reply_header 200
  else if HasPrefix path (APIV1Alpha1Routes +:+ "/") then handle_route r
  else reply (http_Error "404 page not found" 404).

(** [src/gateway/api/router.go:20-27 Router.Run] the multiplexer of net/http: a path that is not
    clean is answered with a redirect to the one that is *)
Definition mux_ServeHTTP (r : Request) : M Serving unit :=
  if server_path r then reply_header 400
  else if redirected r then reply (http_Redirect r (cleanPath (url_Path (req_URL r))))
  else mux_handler r.
End Server.

(** ** The client *)

(** [c.client.Do] of the client set, and [url.Parse]. *)
Class ApiTransport (W : Type) := {
  client_Do : Request -> M W Response;
  url_Parse : string -> res URL
}.

Section Client.
Context {W : Type} `{ApiTransport W} `{RouteCodec}.

(** [src/gateway/clientset/clientset.go:5-9 ClientSet] the HTTP client is part of the world *)
Record ClientSet := mkClientSet { apiAddr : string }.

Definition v1Alpha1RoutePath : string := "v1alpha1/routes".

(** [src/gateway/clientset/v1alpha1.go:26-46 ClientSet.GetRoute] the exchange the four calls share:
    a request, its headers, and the first JSON value of the answer; the status
    code is not looked at *)
Definition exchange (method url body : string) (headers : list (string * string)) : M W Route :=
  u ← of_res (url_Parse url);
  let req := mkRequest method u (url_Host u)
               (foldl (fun h kv => header_Set kv.1 kv.2 h) ∅ headers) body ("HTTP/1.1", (1, 1)) None None false in
  resp ← client_Do req;
  match read_body (resp_Body resp) with
  | (content, None) => of_res (json_Decode content)
  | (_, Some e) => throw e
  end.

(** [src/gateway/clientset/v1alpha1.go:25-46 ClientSet.GetRoute] *)
Definition client_GetRoute (c : ClientSet) (name : string) : M W Route :=
  exchange "GET" ("http://" +:+ apiAddr c +:+ "/" +:+ v1Alpha1RoutePath +:+ "/" +:+ name) ""
    [("Accept", "application/json")].

(** [src/gateway/clientset/v1alpha1.go:48-73 ClientSet.RegisterRoute] *)
Definition client_RegisterRoute (c : ClientSet) (route : Route) : M W Route :=
  body ← of_res (json_Marshal route);
  exchange "POST" ("http://" +:+ apiAddr c +:+ "/" +:+ v1Alpha1RoutePath) body
    [("Content-Type", "application/json")].

(** [src/gateway/clientset/v1alpha1.go:75-96 ClientSet.DeleteRoute] *)
Definition client_DeleteRoute (c : ClientSet) (name : string) : M W Route :=
  exchange "DELETE" ("http://" +:+ apiAddr c +:+ "/" +:+ v1Alpha1RoutePath +:+ "/" +:+ name) ""
    [("Accept", "application/json")].

(** [src/gateway/clientset/v1alpha1.go:98-124 ClientSet.UpdateRoute] *)
Definition client_UpdateRoute (c : ClientSet) (route : Route) : M W Route :=
  body ← of_res (json_Marshal route);
  exchange "PUT" ("http://" +:+ apiAddr c +:+ "/" +:+ v1Alpha1RoutePath +:+ "/" +:+ route_Name route) body
    [("Content-Type", "application/json"); ("Accept", "application/json")].

(** A call of the management API made through the client. *)
Definition client_call (c : ClientSet) (call : api_call) : M W Route :=
  match call with
  | CallRegister route => client_RegisterRoute c route
  | CallUpdate route => client_UpdateRoute c route
  | CallGet name => client_GetRoute c name
  | CallDelete name => client_DeleteRoute c name
  end.
End Client.

(** ** The client connected to the server *)

(** The letters, digits and marks that a URL holds as they are. *)
Definition is_unreserved (c : ascii) : bool :=
  is_lower c || is_upper c || is_digit c || contains_byte c "-._~".
Definition plain_name (s : string) : Prop := all_bytes is_unreserved s = true /\ s <> "." /\ s <> "..".
Definition plain_address (s : string) : Prop :=
  all_bytes (fun c => is_unreserved c || Ascii.eqb c ":"%char) s = true.

(** [url.Parse] on an http URL made of plain parts. *)
Class UrlSpec (W : Type) `{ApiTransport W} : Prop := {
  parse_collection addr : plain_address addr ->
    url_Parse (W:=W) ("http://" +:+ addr +:+ "/" +:+ v1Alpha1RoutePath) =
      Ok (mkURL "http" addr ("/" +:+ v1Alpha1RoutePath));
  parse_route addr name : plain_address addr -> plain_name name ->
    url_Parse (W:=W) ("http://" +:+ addr +:+ "/" +:+ v1Alpha1RoutePath +:+ "/" +:+ name) =
      Ok (mkURL "http" addr ("/" +:+ v1Alpha1RoutePath +:+ "/" +:+ name))
}.

(** A network that carries each request to the gateway and its answer back. *)
Class Delivers (P : Type) `{PersistenceV1Alpha1 P} `{RouteCodec} `{ApiTransport (ProxyV1Alpha1 P)} : Prop := {
  delivery r (p : ProxyV1Alpha1 P) p' w :
    mux_ServeHTTP r (p, newWriter) = ((p', w), Ok tt) ->
    client_Do r p = (p', Ok (mkResponse (default 200 (rw_status w)) ""
      (default (rw_header w) (snd <$> rw_sent w)) (body_of (rw_body w))))
}.

(** The name a call's URL carries. *)
Definition call_name (call : api_call) : string :=
  match call with
  | CallRegister _ => ""
  | CallUpdate route => route_Name route
  | CallGet name | CallDelete name => name
  end.

Section Refinement.
Context {P : Type} `{Hspec : PersistenceSpec P} `{Hcodec : RouteCodecSpec}
  `{Htr : ApiTransport (ProxyV1Alpha1 P)} `{!UrlSpec (ProxyV1Alpha1 P)} `{!Delivers P}.
Implicit Types (p : ProxyV1Alpha1 P).

Lemma header_Get_Set k v (h : Header) : header_Get k (header_Set k v h) = v.
Proof. unfold header_Get, header_Set. by rewrite lookup_insert_eq. Qed.

(** One exchange with a server that answers. *)
Lemma exchange_run method url u body headers p p' w :
  url_Parse (W:=ProxyV1Alpha1 P) url = Ok u ->
  mux_ServeHTTP (mkRequest method u (url_Host u)
    (foldl (fun h kv => header_Set kv.1 kv.2 h) ∅ headers) body ("HTTP/1.1", (1, 1)) None None false)
    (p, newWriter) = ((p', w), Ok tt) ->
  exchange method url body headers p = (p', json_Decode (rw_body w)).
Proof.
  intros Hu Hserve. unfold exchange. mrun. rewrite Hu. by rewrite (delivery _ _ _ _ Hserve).
Qed.

(** The server's answers to the requests of the client. *)
Lemma serve_from_body call r method u body h p p' :
  json_Decode body = Ok r -> header_Get "Content-Type" h = ContentTypeJSON ->
  call r p = (p', Ok r) ->
  exists s, json_Marshal r = Ok s /\
    route_from_body call (mkRequest method u (url_Host u) h body ("HTTP/1.1", (1, 1)) None None false)
      (p, newWriter) = ((p', Write (s +:+ newline) newWriter), Ok tt).
Proof.
  intros Hd Hh Hc. destruct (json_total r) as [s Hs]. exists s. split; [done|].
  unfold route_from_body. cbn [req_Header req_Body]. rewrite Hh, Hd. unfold on_tables, encode_reply.
  mrun. rewrite Hc. cbn. by rewrite Hs.
Qed.

Lemma serve_encode r h method u body (p : ProxyV1Alpha1 P) :
  header_Get "Accept" h = ContentTypeJSON ->
  exists s, json_Marshal r = Ok s /\
    encode_accepted (mkRequest method u (url_Host u) h body ("HTTP/1.1", (1, 1)) None None false) r
      (p, newWriter) = ((p, Write (s +:+ newline) newWriter), Ok tt).
Proof.
  intros Hh. destruct (json_total r) as [s Hs]. exists s. split; [done|].
  unfold encode_accepted. cbn [req_Header]. rewrite Hh. unfold encode_reply. by rewrite Hs.
Qed.

Lemma plain_element name : plain_name name -> path_element name.
Proof.
  intros (Hb & H1 & H2). split; [|done]. clear H1 H2. induction name as [|c name IH]; [done|]. cbn in *.
  apply andb_true_iff in Hb as [Hc Hb]. rewrite (IH Hb), orb_false_r. destruct (Ascii.eqb_spec c "/"); [by subst c|done].
Qed.

(** Requests for clean paths are not redirected. *)
Lemma mux_clean r : server_path r = false -> cleanPath (url_Path (req_URL r)) = url_Path (req_URL r) ->
  mux_ServeHTTP (P:=P) r = mux_handler r.
Proof. intros Hs Hc. unfold mux_ServeHTTP, redirected. by rewrite Hs, Hc, String.eqb_refl, andb_false_r. Qed.

Lemma mux_collection method body h host :
  mux_ServeHTTP (P:=P)
    (mkRequest method (mkURL "http" host ("/" +:+ v1Alpha1RoutePath)) host h body ("HTTP/1.1", (1, 1)) None None false)
  = handle_routes
    (mkRequest method (mkURL "http" host ("/" +:+ v1Alpha1RoutePath)) host h body ("HTTP/1.1", (1, 1)) None None false).
Proof. by rewrite mux_clean. Qed.

Lemma mux_route method name body h host : plain_name name ->
  mux_ServeHTTP (P:=P)
    (mkRequest method (mkURL "http" host ("/" +:+ v1Alpha1RoutePath +:+ "/" +:+ name)) host h body
       ("HTTP/1.1", (1, 1)) None None false)
  = handle_route
    (mkRequest method (mkURL "http" host ("/" +:+ v1Alpha1RoutePath +:+ "/" +:+ name)) host h body
       ("HTTP/1.1", (1, 1)) None None false).
Proof.
  intros Hn. rewrite mux_clean; [|done|].
  2: { apply (cleanPath_member "v1alpha1" "routes" name); [by repeat split..|by apply plain_element|done|done]. }
  unfold mux_handler. cbn [req_URL url_Path].
  assert (HasPrefix ("/" +:+ v1Alpha1RoutePath +:+ "/" +:+ name) (APIV1Alpha1Routes +:+ "/") = true) as ->
    by exact (HasPrefix_app (APIV1Alpha1Routes +:+ "/") name).
  reflexivity.
Qed.

Lemma route_path_name name :
  TrimPrefix ("/" +:+ v1Alpha1RoutePath +:+ "/" +:+ name) (APIV1Alpha1Routes +:+ "/") = name.
Proof. exact (TrimPrefix_app (APIV1Alpha1Routes +:+ "/") name). Qed.

(** A failed look-up is answered in plain text, which the client cannot decode. *)
Lemma not_found_text code :
  exists e, json_Decode (rw_body (http_Error (err_message ErrRouteNotFound) code newWriter)) = Err e.
Proof. exact json_plain_text. Qed.
End Refinement.

(** ** Properties *)

Section Properties.
Context {P : Type} `{Hspec : PersistenceSpec P} `{Hcodec : RouteCodecSpec}
  `{Htr : ApiTransport (ProxyV1Alpha1 P)} `{!UrlSpec (ProxyV1Alpha1 P)} `{!Delivers P}.

(** What the wire carries: a name that a URL holds as it is, and a route that JSON holds as
    it is. *)
Definition sendable (call : api_call) : Prop :=
  plain_name (call_name call) /\
  match call with CallRegister r | CallUpdate r => json_route r = true | _ => True end.
Definition stored_sendable (p : ProxyV1Alpha1 P) : Prop := forall n r, routes p !! n = Some r -> json_route r = true.

(** A call through the client set does what the direct call does, and answers as it does. *)
Definition faithful (c : ClientSet) (call : api_call) (p : ProxyV1Alpha1 P) : Prop :=
  (client_call c call p).1 = (run_call call p).1 /\
  match (run_call call p).2 with
  | Ok r => (client_call c call p).2 = Ok r
  | Err _ => exists e, (client_call c call p).2 = Err e
  | Panic => False
  end.
Section Calls.
Context (c : ClientSet) (Haddr : plain_address (apiAddr c)).

Lemma register_faithful r p : json_route r = true -> faithful c (CallRegister r) p.
Proof.
  intros Hj. unfold faithful. cbn [client_call run_call].
  destruct (RegisterRoute_run r p) as (s & Hr & _). rewrite Hr.
  destruct (json_total r) as [body Hb]. unfold client_RegisterRoute. mrun. rewrite Hb.
  edestruct (serve_from_body RegisterRoute r) as (t & Ht & Hserve);
    [by apply json_roundtrip|by apply header_Get_Set|exact Hr|].
  erewrite exchange_run; [|by apply parse_collection|rewrite mux_collection; exact Hserve].
  split; [done|]. by apply json_roundtrip_line.
Qed.
Lemma update_faithful r p : plain_name (route_Name r) -> json_route r = true -> faithful c (CallUpdate r) p.
Proof.
  intros Hname Hj. unfold faithful. cbn [client_call run_call].
  destruct (UpdateRoute_run r p) as (s & Hr & _). rewrite Hr.
  destruct (json_total r) as [body Hb]. unfold client_UpdateRoute. mrun. rewrite Hb.
  edestruct (serve_from_body UpdateRoute r "PUT"
      (mkURL "http" (apiAddr c) ("/" +:+ v1Alpha1RoutePath +:+ "/" +:+ route_Name r)) body
      (header_Set "Accept" "application/json" (header_Set "Content-Type" "application/json" ∅)))
    as (t & Ht & Hserve); [by apply json_roundtrip|reflexivity|exact Hr|].
  erewrite exchange_run; [|by apply parse_route|rewrite mux_route by done; exact Hserve].
  split; [done|]. by apply json_roundtrip_line.
Qed.
Lemma get_faithful n p : plain_name n -> stored_sendable p -> faithful c (CallGet n) p.
Proof.
  intros Hname Hst. unfold faithful. cbn [client_call run_call].
  rewrite GetRoute_run. unfold client_GetRoute.
  destruct (routes p !! n) as [r|] eqn:E.
  - destruct (serve_encode r (header_Set "Accept" "application/json" ∅) "GET"
        (mkURL "http" (apiAddr c) ("/" +:+ v1Alpha1RoutePath +:+ "/" +:+ n)) "" p) as (t & Ht & Hserve); [apply header_Get_Set|].
    erewrite exchange_run; [|by apply parse_route|].
    2: { rewrite mux_route by done. unfold handle_route, on_tables. cbn [req_URL url_Path req_Method].
         rewrite route_path_name. mrun. rewrite GetRoute_run, E. exact Hserve. }
    split; [done|]. apply json_roundtrip_line; [by eapply Hst|done].
  - erewrite exchange_run; [|by apply parse_route|].
    2: { rewrite mux_route by done. unfold handle_route, on_tables, reply. cbn [req_URL url_Path req_Method].
         rewrite route_path_name. mrun. rewrite GetRoute_run, E. reflexivity. }
    split; [done|]. apply not_found_text.
Qed.
Lemma delete_faithful n p : plain_name n -> stored_sendable p -> faithful c (CallDelete n) p.
Proof.
  intros Hname Hst. unfold faithful. cbn [client_call run_call].
  destruct (DeleteRoute_run n p) as (s & Hr & _). rewrite Hr. unfold client_DeleteRoute.
  destruct (routes p !! n) as [r|] eqn:E.
  - destruct (serve_encode r (header_Set "Accept" "application/json" ∅) "DELETE"
        (mkURL "http" (apiAddr c) ("/" +:+ v1Alpha1RoutePath +:+ "/" +:+ n)) ""
        (mkProxy s (routesPerHost p) (backendHostToRoute p))) as (t & Ht & Hserve);
      [apply header_Get_Set|].
    erewrite exchange_run; [|by apply parse_route|].
    2: { rewrite mux_route by done. unfold handle_route, on_tables. cbn [req_URL url_Path req_Method].
         rewrite route_path_name. mrun. rewrite Hr. exact Hserve. }
    split; [done|]. apply json_roundtrip_line; [by eapply Hst|done].
  - erewrite exchange_run; [|by apply parse_route|].
    2: { rewrite mux_route by done. unfold handle_route, on_tables, reply. cbn [req_URL url_Path req_Method].
         rewrite route_path_name. mrun. rewrite Hr. reflexivity. }
    split; [done|]. apply not_found_text.
Qed.
End Calls.

Lemma call_faithful c call p : plain_address (apiAddr c) -> sendable call -> stored_sendable p -> faithful c call p.
Proof.
  intros Haddr [Hname Hj] Hst. destruct call as [r|r|n|n].
  - exact (register_faithful c Haddr r p Hj).
  - exact (update_faithful c Haddr r p Hname Hj).
  - exact (get_faithful c Haddr n p Hname Hst).
  - exact (delete_faithful c Haddr n p Hname Hst).
Qed.

(** A sendable call leaves sendable routes. *)
Lemma run_call_sendable call p : sendable call -> stored_sendable p -> stored_sendable (run_call call p).1.
Proof.
  intros [_ Hj] Hst. destruct call as [r|r|n|n]; cbn [run_call].
  - destruct (RegisterRoute_run r p) as (s & -> & Hs). intros n r'. unfold routes. cbn. rewrite Hs.
    intros [[_ <-]|[_ Hr']]%lookup_insert_Some; [done|by eapply Hst].
  - destruct (UpdateRoute_run r p) as (s & -> & Hs). intros n r'. unfold routes. cbn. rewrite Hs.
    intros [[_ <-]|[_ Hr']]%lookup_insert_Some; [done|by eapply Hst].
  - by rewrite GetRoute_run.
  - destruct (DeleteRoute_run n p) as (s & -> & Hs). intros n' r'. unfold routes. cbn. rewrite Hs.
    intros [_ Hr']%lookup_delete_Some. by eapply Hst.
Qed.

End Properties.

(** ** Witness: a lossless network and a codec *)

Module RouteApiExamples.
(** Routes are numbered and the number is written in bits after a brace. *)
#[global] Instance OAuth_countable : Countable OAuth.
Proof.
  apply (inj_countable' (fun o => (oauth_ClientID o, oauth_ClientSecret o, oauth_TokenURL o))
           (fun '(a, b, c) => mkOAuth a b c)). by intros [].
Defined.
#[global] Instance Auth_countable : Countable Auth.
Proof.
  apply (inj_countable' (fun a => (auth_Type a : string, auth_OAuth a)) (fun '(a, b) => mkAuth a b)).
  by intros [].
Defined.
#[global] Instance Backend_countable : Countable Backend.
Proof.
  apply (inj_countable' (fun b => (backend_Host b, backend_Weight b, backend_Auth b,
                                   backend_PathPrefix b, backend_HeadersToAdd b, backend_Scheme b))
           (fun '(a, b, c, d, e, f) => mkBackend a b c d e f)). by intros [].
Defined.
#[global] Instance Route_countable : Countable Route.
Proof.
  apply (inj_countable' (fun r => (route_Name r, route_Hostnames r, route_Backends r))
           (fun '(a, b, c) => mkRoute a b c)). by intros [].
Defined.

Fixpoint pos_bits (p : positive) : string :=
  match p with
  | xH => ""
  | xO p' => String "0" (pos_bits p')
  | xI p' => String "1" (pos_bits p')
  end.

Fixpoint bits_pos (s : string) : positive :=
  match s with
  | String c s' => if Ascii.eqb c "0"%char then xO (bits_pos s')
                   else if Ascii.eqb c "1"%char then xI (bits_pos s') else xH
  | EmptyString => xH
  end.

Lemma bits_pos_bits p : bits_pos (pos_bits p) = p /\ bits_pos (pos_bits p +:+ newline) = p.
Proof. induction p as [p [IH1 IH2]|p [IH1 IH2]|]; cbn; rewrite ?app_cons_str; cbn; by rewrite ?IH1, ?IH2. Qed.

Definition marshal (r : Route) : res string := Ok ("{" +:+ pos_bits (encode r)).
Definition unmarshal (s : string) : res Route :=
  match s with
  | String c s' =>
      if Ascii.eqb c "{"%char
      then match decode (bits_pos s') with Some r => Ok r | None => Err (Errorf "bad route") end
      else Err (Errorf "invalid character")
  | EmptyString => Err (Errorf "EOF")
  end.

Lemma unmarshal_brace s :
  unmarshal ("{" +:+ s) = match decode (bits_pos s) with Some r => Ok r | None => Err (Errorf "bad route") end.
Proof. reflexivity. Qed.

#[global] Instance codec : RouteCodec := {
  json_Marshal := marshal; json_Decode := unmarshal;
  yaml_Marshal := marshal; yaml_Decode := unmarshal
}.
#[global] Instance codec_spec : RouteCodecSpec.
Proof.
  constructor; cbn [json_Marshal json_Decode codec].
  - intros r. by eexists.
  - intros r s _ [= <-]. by rewrite unmarshal_brace, (proj1 (bits_pos_bits _)), decode_encode.
  - intros r s _ [= <-].
    by rewrite <- app_assoc_str, unmarshal_brace, (proj2 (bits_pos_bits _)), decode_encode.
  - by eexists.
Qed.

(** Everything before and from the first slash. *)
Fixpoint cut_slash (s : string) : string * string :=
  match s with
  | EmptyString => ("", "")
  | String c s' => if Ascii.eqb c "/"%char then ("", s)
                   else let '(a, b) := cut_slash s' in (String c a, b)
  end.

Definition parse (s : string) : res URL :=
  let '(host, path) := cut_slash (TrimPrefix s "http://") in Ok (mkURL "http" host path).

Lemma cut_slash_plain addr rest :
  plain_address addr -> cut_slash (addr +:+ String "/" rest) = (addr, String "/" rest).
Proof.
  unfold plain_address. induction addr as [|c addr IH]; cbn [all_bytes]; [done|].
  intros [Hc Haddr]%andb_true_iff. rewrite app_cons_str. cbn [cut_slash].
  destruct (Ascii.eqb c "/"%char) eqn:E.
  - apply Ascii.eqb_eq in E as ->. discriminate.
  - by rewrite IH.
Qed.

Lemma parse_plain addr rest :
  plain_address addr -> parse ("http://" +:+ addr +:+ String "/" rest) = Ok (mkURL "http" addr (String "/" rest)).
Proof. intros Haddr. unfold parse. rewrite TrimPrefix_app. by rewrite cut_slash_plain. Qed.

#[global] Instance network : ApiTransport (ProxyV1Alpha1 InMem.t) := {
  client_Do r p :=
    match mux_ServeHTTP r (p, newWriter) with
    | ((p', w), Ok _) =>
        (p', Ok (mkResponse (default 200 (rw_status w)) "" (default (rw_header w) (snd <$> rw_sent w))
                   (body_of (rw_body w))))
    | ((p', _), _) => (p', Err (Errorf "EOF"))
    end;
  url_Parse := parse
}.
#[global] Instance network_url : UrlSpec (ProxyV1Alpha1 InMem.t).
Proof.
  constructor; cbn [url_Parse network].
  - intros addr Haddr. exact (parse_plain addr v1Alpha1RoutePath Haddr).
  - intros addr name Haddr _. exact (parse_plain addr (v1Alpha1RoutePath +:+ "/" +:+ name) Haddr).
Qed.
#[global] Instance network_delivers : Delivers InMem.t.
Proof. constructor. intros r p p' w Hserve. cbn. by rewrite Hserve. Qed.

Definition gateway := mkClientSet "gateway.beamlit.svc.cluster.local:8081".
Definition model := mkRoute "my-model" ["model.default"]
  [mkBackend "model-beamlit.default.svc.cluster.local:80" 100 None "" ∅ "http"].


(** The same call, evaluated. *)
Example client_register_runs :
  (client_call gateway (CallRegister model) New).2 = Ok model /\
  is_Ok (client_call gateway (CallGet "my-model") New).2 = false.
Proof. split; vm_compute; reflexivity. Qed.
End RouteApiExamples.
