(* ===== verification/Gateway.v ===== *)
(** The gateway as a process: the management API and the reverse proxy listen side by side
    and serve one [ProxyV1Alpha1] (gateway/cmd/run.go, gateway/api/router.go). *)

From Stdlib Require Import Ascii.
From stdpp Require Import base numbers gmap strings list relations.
From S2P Require Import Prelude Programs RouteStore Balancer Http Mux Forward RouteApi.
Local Open Scope Z_scope.

(** ** What a request to the management port asks for *)

Section Effect.
Context `{RouteCodec}.

Definition ok_value {A} (r : res A) : option A := match r with Ok a => Some a | _ => None end.

(** The route in the body, in the body's type. *)
Definition body_route (r : Request) : option Route :=
  if String.eqb (header_Get "Content-Type" (req_Header r)) ContentTypeJSON
  then ok_value (json_Decode (req_Body r))
  else if String.eqb (header_Get "Content-Type" (req_Header r)) ContentTypeYAML
  then ok_value (yaml_Decode (req_Body r))
  else None.

(** The call of the proxy a request makes, if any; an update files the route under the
    name in its body, whatever name the path has.  A request that is redirected to its clean
    path makes none. *)
Definition requested_call (r : Request) : option api_call :=
  if server_path r || redirected r then None else
  let path := url_Path (req_URL r) in
  let name := TrimPrefix path (APIV1Alpha1Routes +:+ "/") in
  if String.eqb path APIV1Alpha1Routes then
    if String.eqb (req_Method r) "POST" then CallRegister <$> body_route r else None
  else if HasPrefix path (APIV1Alpha1Routes +:+ "/") then
    if String.eqb (req_Method r) "GET" then Some (CallGet name)
    else if String.eqb (req_Method r) "PUT" then CallUpdate <$> body_route r
    else if String.eqb (req_Method r) "DELETE" then Some (CallDelete name)
    else None
  else None.
End Effect.

(** The codecs return. *)
Class CalmCodec `{RouteCodec} : Prop := {
  json_Marshal_calm r : json_Marshal r <> Panic;
  json_Decode_calm s : json_Decode s <> Panic;
  yaml_Marshal_calm r : yaml_Marshal r <> Panic;
  yaml_Decode_calm s : yaml_Decode s <> Panic
}.

(** ** The process *)

Section Process.
Context {P W : Type} `{Hspec : PersistenceSpec P} `{Hhttp : HttpEnv W} `{Hcodec : RouteCodec}.

Record Gateway := mkGateway { gw_proxy : ProxyV1Alpha1 P; gw_env : W }.

(** A request to the port of the management API, or to the port of the proxy. *)
Inductive gateway_request :=
| ToApi (r : Request)
| ToProxy (r : Request).

(** [src/gateway/api/router.go:9-27 Router] the router holds the proxy its handlers call *)
Definition serve_api (r : Request) : M Gateway ResponseWriter := fun g =>
  let '((p, w), o) := mux_ServeHTTP r (gw_proxy g, newWriter) in
  (mkGateway p (gw_env g), match o with Ok _ => Ok w | Err e => Err e | Panic => Panic end).

Definition noResponse : Response := mkResponse 0 "" ∅ NoBody.

Definition serve_proxy (prepare : Request -> Request) (r : Request) : M Gateway ResponseWriter := fun g =>
  let '(x, o) := ServeHTTP prepare r (mkExchange (gw_proxy g) (gw_env g) r newWriter noResponse) in
  (mkGateway (ex_proxy x) (ex_env x), match o with Ok _ => Ok (ex_w x) | Err e => Err e | Panic => Panic end).

Definition serve (prepare : Request -> Request) (q : gateway_request) : M Gateway ResponseWriter :=
  match q with ToApi r => serve_api r | ToProxy r => serve_proxy prepare r end.

(** net/http recovers the panic of a handler and closes its connection, so the process
    goes on in the state the handler left. *)
Definition serve_all (prepare : Request -> Request) (qs : list gateway_request) (g : Gateway) : Gateway :=
  foldl (fun g q => (serve prepare q g).1) g qs.

(** *** The management API makes the call it is asked for *)

Lemma on_tables_run {A} (m : M (ProxyV1Alpha1 P) A) s : on_tables m s = (((m s.1).1, s.2), (m s.1).2).
Proof. unfold on_tables, zoom. by destruct (m s.1). Qed.
Lemma reply_run f (s : Serving (P:=P)) : reply f s = ((s.1, f s.2), Ok tt).
Proof. done. Qed.

Lemma encode_reply_tables marshal r (s : Serving (P:=P)) : (encode_reply marshal r s).1.1 = s.1.
Proof. unfold encode_reply. by destruct (marshal r). Qed.
Lemma encode_yaml_reply_tables r (s : Serving (P:=P)) : (encode_yaml_reply r s).1.1 = s.1.
Proof. unfold encode_yaml_reply. by destruct (yaml_Marshal r). Qed.
Lemma encode_accepted_tables q r (s : Serving (P:=P)) : (encode_accepted q r s).1.1 = s.1.
Proof.
  unfold encode_accepted. repeat case_match; auto using encode_reply_tables, encode_yaml_reply_tables.
Qed.

(** A call and the reply to its outcome leave the tables as the call does. *)
Lemma call_then_reply_tables {A} (m : M (ProxyV1Alpha1 P) A) (k : A + error -> M (Serving (P:=P)) unit) s :
  (forall o s', (k o s').1.1 = s'.1) ->
  ((try (on_tables m) ≫= k) s).1.1 = (m s.1).1.
Proof.
  intros Hk. unfold mbind, M_bind, try. rewrite on_tables_run.
  destruct (m s.1) as [p' [a|e|]]; cbn; [by rewrite Hk..|done].
Qed.

Lemma route_from_body_tables (call : Route -> M (ProxyV1Alpha1 P) Route) r s :
  (route_from_body call r s).1.1 = match body_route r with Some route => (call route s.1).1 | None => s.1 end.
Proof.
  unfold route_from_body, body_route, ok_value.
  repeat case_match; simplify_eq; try done; apply call_then_reply_tables;
    intros [?|?] ?; auto using encode_reply_tables, encode_yaml_reply_tables.
Qed.

Lemma reply_header_tables code (s : Serving (P:=P)) : (reply_header code s).1.1 = s.1.
Proof. unfold reply_header, zoom. by destruct (WriteHeader code s.2). Qed.

Lemma mux_tables r s :
  (mux_ServeHTTP r s).1.1 = match requested_call r with Some c => (run_call c s.1).1 | None => s.1 end.
Proof.
  unfold mux_ServeHTTP, requested_call. destruct (server_path r); [by rewrite reply_header_tables|].
  destruct (redirected r); [done|]. cbn [orb]. unfold mux_handler. destruct (String.eqb (url_Path (req_URL r)) APIV1Alpha1Routes).
  { unfold handle_routes. destruct (String.eqb (req_Method r) "POST"); [|done].
    rewrite route_from_body_tables. by destruct (body_route r). }
  destruct (String.eqb (url_Path (req_URL r)) "/healthz") eqn:Hz.
  { apply String.eqb_eq in Hz as ->. by rewrite reply_header_tables. }
  destruct (HasPrefix _ _); [|done]. unfold handle_route.
  destruct (String.eqb (req_Method r) "GET"); [|destruct (String.eqb (req_Method r) "PUT");
    [|destruct (String.eqb (req_Method r) "DELETE"); [|done]]].
  - apply call_then_reply_tables. intros [?|?] ?; [apply encode_accepted_tables|done].
  - rewrite route_from_body_tables. by destruct (body_route r).
  - apply call_then_reply_tables. intros [?|?] ?; [apply encode_accepted_tables|done].
Qed.
(** *** and answers *)

Definition answers (m : M (Serving (P:=P)) unit) : Prop :=
  forall s, (m s).2 = Ok tt /\ is_Some (rw_sent (m s).1.2).

Lemma answers_Write t : answers (reply (Write t)).
Proof. intros s. split; [done|apply Write_sent]. Qed.
Lemma answers_Error t code : answers (reply (http_Error t code)).
Proof. intros s. split; [done|apply Write_sent]. Qed.
Lemma answers_code code : valid_code code = true -> informational code = false -> answers (reply_header code).
Proof.
  intros Hv Hi s. unfold reply_header, zoom. destruct (rw_sent s.2) as [st|] eqn:E.
  - rewrite WriteHeader_again by (by rewrite E). cbn. by rewrite E.
  - rewrite WriteHeader_final by done. split; [done|]. apply send_status_sent.
Qed.
Lemma answers_redirect r path : answers (reply (http_Redirect r path)).
Proof.
  intros s. split; [done|]. unfold http_Redirect, reply. cbn. case_match; [apply Write_sent|apply send_status_sent].
Qed.
#[local] Hint Resolve answers_Write answers_Error answers_redirect : core.

Lemma answers_encode marshal r : (forall r, marshal r <> Panic) -> answers (encode_reply marshal r).
Proof. intros Hm. unfold encode_reply. pose proof (Hm r). destruct (marshal r); by auto. Qed.
Lemma answers_encode_yaml `{!CalmCodec} r : answers (encode_yaml_reply r).
Proof. unfold encode_yaml_reply. pose proof (yaml_Marshal_calm r). destruct (yaml_Marshal r); by auto. Qed.
Lemma answers_accepted `{!CalmCodec} q r : answers (encode_accepted q r).
Proof.
  unfold encode_accepted. repeat case_match; auto using answers_encode, json_Marshal_calm, answers_encode_yaml.
Qed.

Lemma answers_call {A} (m : M (ProxyV1Alpha1 P) A) (k : A + error -> M (Serving (P:=P)) unit) :
  (forall p, (m p).2 <> Panic) -> (forall o, answers (k o)) -> answers (try (on_tables m) ≫= k).
Proof.
  intros Hm Hk s. unfold mbind, M_bind, try. rewrite on_tables_run. pose proof (Hm s.1).
  destruct (m s.1) as [p' [b|e|]]; cbn in *; [apply Hk..|done].
Qed.

Lemma answers_body `{!CalmCodec} (call : Route -> M (ProxyV1Alpha1 P) Route) r :
  (forall route p, (call route p).2 <> Panic) -> answers (route_from_body call r).
Proof.
  intros Hc. unfold route_from_body. pose proof (json_Decode_calm (req_Body r)).
  pose proof (yaml_Decode_calm (req_Body r)).
  repeat case_match; simplify_eq; try by auto.
  all: apply answers_call; [by intros ?; apply Hc|].
  all: intros [?|?]; auto using answers_encode, json_Marshal_calm, answers_encode_yaml.
Qed.

Lemma calls_never_panic c (p : ProxyV1Alpha1 P) : (run_call c p).2 <> Panic.
Proof.
  destruct c as [r|r|n|n]; cbn [run_call].
  - by destruct (RegisterRoute_run r p) as (s & -> & _).
  - by destruct (UpdateRoute_run r p) as (s & -> & _).
  - rewrite GetRoute_run. cbn. by destruct (routes p !! n).
  - destruct (DeleteRoute_run n p) as (s & -> & _). cbn. by destruct (routes p !! n).
Qed.

Lemma mux_answers `{!CalmCodec} r : answers (mux_ServeHTTP r).
Proof.
  pose proof (fun route => calls_never_panic (CallRegister route)) as Hreg.
  pose proof (fun route => calls_never_panic (CallUpdate route)) as Hupd.
  pose proof (fun n => calls_never_panic (CallGet n)) as Hget.
  pose proof (fun n => calls_never_panic (CallDelete n)) as Hdel.
  unfold mux_ServeHTTP, mux_handler, handle_routes, handle_route.
  repeat case_match; try by auto using answers_body, answers_code.
  all: apply answers_call; [first [exact (Hget _)|exact (Hdel _)]|intros [?|?]; auto using answers_accepted].
Qed.

(** *** Traffic leaves the routes alone *)

Definition same_tables p (x : Exchange P W) : Prop := ex_proxy x = p.

Lemma on_env_keeps {A} p (m : M W A) : preserves (same_tables p) (on_env m).
Proof. by apply preserves_zoom. Qed.
Lemma upd_out_keeps p f : preserves (same_tables p) (upd_out (P:=P) (W:=W) f).
Proof. by apply preserves_modify. Qed.
Lemma upd_w_keeps p f : preserves (same_tables p) (upd_w (P:=P) (W:=W) f).
Proof. by apply preserves_modify. Qed.
Lemma on_w_keeps {A} p (m : M ResponseWriter A) : preserves (same_tables p) (on_w (P:=P) (W:=W) m).
Proof. by apply preserves_zoom. Qed.
Lemma panic_keeps {A} p : preserves (same_tables p) (panic (A:=A)).
Proof. by intros x. Qed.
Lemma upd_resp_keeps p f : preserves (same_tables p) (upd_resp (P:=P) (W:=W) f).
Proof. by apply preserves_modify. Qed.
Lemma on_proxy_keeps {A} p (m : M (ProxyV1Alpha1 P) A) :
  (forall q, (m q).1 = q) -> preserves (same_tables p) (on_proxy (W:=W) m).
Proof. intros Hm x Hx. unfold wp, on_proxy, zoom. pose proof (Hm (ex_proxy x)). by destruct (m (ex_proxy x)); cbn in *; subst. Qed.
Lemma get_route_keeps p n : preserves (same_tables p) (on_proxy (W:=W) (with_persistence (per_GetRoute n))).
Proof. apply on_proxy_keeps. intros q. exact (f_equal fst (GetRoute_run n q)). Qed.
Lemma resolve_host_keeps p h : preserves (same_tables p) (on_proxy (W:=W) (resolve_host h)).
Proof. apply on_proxy_keeps. intros q. by rewrite resolve_host_run. Qed.
Lemma wrap_err_keeps {A} p msg (m : M (Exchange P W) A) :
  preserves (same_tables p) m -> preserves (same_tables p) (wrap_err msg m).
Proof. intros Hm x Hx. apply wp_wrap_err. eapply wp_mono; [by apply Hm|]. by intros [?|?|]. Qed.
#[local] Hint Resolve on_env_keeps upd_out_keeps upd_w_keeps on_w_keeps panic_keeps upd_resp_keeps get_route_keeps
  resolve_host_keeps wrap_err_keeps : inv.
(** Split a handler along its code. *)
Ltac along_code :=
  repeat first [case_match | apply preserves_bind; [|intros ?] | apply preserves_try | progress eauto with inv].

Lemma handleBackend_keeps p b : preserves (same_tables p) (handleBackend b).
Proof. serve handleBackend. serve authorize. along_code. Qed.

Lemma errorHandler_keeps p n : preserves (same_tables p) (errorHandler n).
Proof. pose proof handleBackend_keeps. serve errorHandler. along_code. Qed.
Lemma retry_loop_keeps p k i n : preserves (same_tables p) (retry_loop k i n).
Proof.
  pose proof errorHandler_keeps. revert i. induction k as [|k IH]; intros i; cbn [Traffic.retry_loop]; unfold Traffic.act, lift, M_lift, attempt, M_attempt; along_code.
Qed.
Lemma ErrorHandler_keeps p : preserves (same_tables p) (ErrorHandler).
Proof. pose proof retry_loop_keeps. serve ErrorHandler. along_code. Qed.
Lemma ModifyResponse_keeps p : preserves (same_tables p) (ModifyResponse).
Proof. pose proof handleBackend_keeps. serve ModifyResponse. along_code. Qed.
Lemma RewriteV1Alpha1_keeps p r : preserves (same_tables p) (RewriteV1Alpha1 r).
Proof. pose proof handleBackend_keeps. serve RewriteV1Alpha1. serve resolve. serve reply_not_found. along_code. Qed.
Lemma ServeHTTP_keeps p prepare r : preserves (same_tables p) (ServeHTTP prepare r).
Proof.
  pose proof RewriteV1Alpha1_keeps. pose proof ErrorHandler_keeps. pose proof ModifyResponse_keeps.
  serve ServeHTTP. along_code.
Qed.

Lemma serve_api_tables r g :
  gw_proxy (serve_api r g).1 =
    match requested_call r with Some c => (run_call c (gw_proxy g)).1 | None => gw_proxy g end.
Proof.
  unfold serve_api. pose proof (mux_tables r (gw_proxy g, newWriter)) as Ht.
  by destruct (mux_ServeHTTP r (gw_proxy g, newWriter)) as [[p w] o].
Qed.
Lemma serve_proxy_tables prepare r g : gw_proxy (serve_proxy prepare r g).1 = gw_proxy g.
Proof.
  unfold serve_proxy. set (x := mkExchange _ _ _ _ _).
  pose proof (ServeHTTP_keeps (gw_proxy g) prepare r x eq_refl) as Hk. unfold wp, same_tables in Hk.
  by destruct (ServeHTTP prepare r x) as [x' o].
Qed.
End Process.

(** ** Requests side by side

    net/http answers every request in a goroutine of its own.  The tables and the store
    are [sync.Map]s, whose operations are atomic; between two of them any other request may
    go on. *)

Module Concurrent.
Abbreviation Tables := (ProxyV1Alpha1 InMem.t).

Section Code.
Context {F : Type -> Type} `{MRet F, MBind F, Lift Tables F}.

(** [src/gateway/internal/proxy/proxy.go:41-46 ProxyV1Alpha1.RegisterRoute] the same lines
    open [UpdateRoute] *)
Definition file_hosts (route : Route) : F unit :=
  each (route_Hostnames route) (fun hostname =>
    lift (modify (fun p : Tables => mkProxy (persistenceV1Alpha1 p)
            (<[hostname := route_Name route]> (routesPerHost p)) (backendHostToRoute p)))) ;;
  each (route_Backends route) (fun b =>
    lift (modify (fun p : Tables => mkProxy (persistenceV1Alpha1 p) (routesPerHost p)
            (<[extractHost (backend_Host b) := route_Name route]> (backendHostToRoute p))))).

(** [src/gateway/internal/proxy/proxy.go:40-48 ProxyV1Alpha1.RegisterRoute] *)
Definition RegisterRoute (route : Route) : F Route :=
  file_hosts route ;;
  lift (with_persistence (InMem.RegisterRoute route)).

(** [src/gateway/internal/proxy/proxy.go:54-62 ProxyV1Alpha1.UpdateRoute] *)
Definition UpdateRoute (route : Route) : F Route :=
  file_hosts route ;;
  lift (with_persistence (InMem.UpdateRoute route)).

(** [src/gateway/internal/proxy/proxy.go:50-52 ProxyV1Alpha1.GetRoute] *)
Definition GetRoute (name : string) : F Route :=
  lift (with_persistence (InMem.GetRoute name)).

(** [src/gateway/internal/persistence/inmem.go:36-43 InMem.DeleteRoute] a [Load] and a
    [Delete] *)
Definition DeleteRoute (name : string) : F Route :=
  o ← lift (gets (fun p : Tables => (persistenceV1Alpha1 p : gmap string Route) !! name));
  match o with
  | None => lift (S:=Tables) (throw ErrRouteNotFound)
  | Some route =>
      lift (modify (fun p : Tables => mkProxy (delete name (persistenceV1Alpha1 p : gmap string Route))
              (routesPerHost p) (backendHostToRoute p))) ;;
      mret route
  end.

(** [src/gateway/internal/proxy/handler.go:18-27 ProxyV1Alpha1.RewriteV1Alpha1] the two
    look-ups of a request of a client *)
Definition resolve_host (host : string) : F Route :=
  o ← lift (gets (fun p : Tables => routesPerHost p !! extractHost host));
  match o with
  | None => lift (S:=Tables) (throw ErrRouteNotFound)
  | Some routeName => GetRoute routeName
  end.

Definition call (c : api_call) : F Route :=
  match c with
  | CallRegister route => RegisterRoute route
  | CallUpdate route => UpdateRoute route
  | CallGet name => GetRoute name
  | CallDelete name => DeleteRoute name
  end.
End Code.

(** A goroutine's use of the tables. *)
Inductive job := Call (c : api_call) | Lookup (host : string).
#[global] Instance api_call_eq_dec : EqDecision api_call.
Proof. solve_decision. Defined.
#[global] Instance job_eq_dec : EqDecision job.
Proof. solve_decision. Defined.

Definition program (j : job) : prog Tables Route :=
  match j with Call c => call c | Lookup host => resolve_host host end.
Definition alone (j : job) : M Tables Route :=
  match j with Call c => run_call c | Lookup host => RouteStore.resolve_host host end.

(** *** Alone, each is the operation of the proxy *)

Lemma runs_file_hosts r : runs_as (file_hosts r) (store_hostnames r ;; store_backend_hosts r).
Proof.
  unfold file_hosts, store_hostnames, store_backend_hosts.
  apply runs_as_bind; [|intros _]; apply runs_as_each; intros x; apply runs_as_lift.
Qed.
Lemma runs_filed r (m : M Tables Route) :
  runs_as (file_hosts r ;; lift m) (store_hostnames r ;; store_backend_hosts r ;; m).
Proof.
  intros s. rewrite (runs_as_bind _ _ _ (fun _ => lift m) (runs_file_hosts r) (fun _ => runs_as_lift m) s).
  unfold mbind, M_bind. by destruct (store_hostnames r s) as [s1 [?|?|]].
Qed.

Lemma runs_program j : runs_as (program j) (alone j).
Proof.
  destruct j as [[r|r|n|n]|h]; cbn [program alone call run_call].
  - apply runs_filed.
  - apply runs_filed.
  - apply runs_as_lift.
  - intros [i hosts backends]. unfold RouteStore.DeleteRoute, with_persistence. cbn. unfold InMem.DeleteRoute. mrun.
    by destruct (lookup (M:=gmap string Route) n _).
  - intros p. unfold RouteStore.resolve_host. mrun. destruct (routesPerHost p !! extractHost h) as [n|]; cbn; [|done].
    unfold with_persistence, zoom. by destruct (InMem.GetRoute n (persistenceV1Alpha1 p)) as [s [?|?|]].
Qed.

(** *** What every request keeps *)
Section Kept.
Context (owner : string -> string).

Definition tables_sound (p : Tables) : Prop := tables_cover p /\ tables_owned owner p.
(** Entries are overwritten and never removed. *)
Definition tables_grow (p p' : Tables) : Prop :=
  (forall h, is_Some (routesPerHost p !! h) -> is_Some (routesPerHost p' !! h)) /\
  (forall h, is_Some (backendHostToRoute p !! h) -> is_Some (backendHostToRoute p' !! h)).
#[global] Instance tables_grow_preorder : PreOrder tables_grow.
Proof. split; [done|]. intros p1 p2 p3 [H1 H2] [H3 H4]. split; auto. Qed.

Definition host_filed (h : string) (p : Tables) : Prop := is_Some (routesPerHost p !! h).
Definition backend_filed (b : Backend) (p : Tables) : Prop :=
  is_Some (backendHostToRoute p !! extractHost (backend_Host b)).
Lemma host_filed_stable h : stable tables_grow (host_filed h).
Proof. intros p p' Hh [Hg _]. by apply Hg. Qed.
Lemma backend_filed_stable b : stable tables_grow (backend_filed b).
Proof. intros p p' Hb [_ Hg]. by apply Hg. Qed.

Definition allowed (j : job) : Prop :=
  match j with Call (CallRegister r) | Call (CallUpdate r) => owns_hostnames owner r | _ => True end.

(** What a request is answered with. *)
Definition answer (j : job) (o : res Route) (p : Tables) : Prop :=
  match j with
  | Call (CallRegister r) | Call (CallUpdate r) => o = Ok r
  | Call (CallGet n) | Call (CallDelete n) =>
      match o with Ok r => route_Name r = n | Err e => e = ErrRouteNotFound | Panic => False end
  | Lookup h =>
      match o with Ok r => route_Name r = owner (extractHost h) | Err e => e = ErrRouteNotFound | Panic => False end
  end.
Lemma answer_stable j o : stable tables_grow (answer j o).
Proof. intros p p' Ha _. exact Ha. Qed.

Lemma store_host_kept r h p : h ∈ route_Hostnames r -> owns_hostnames owner r -> tables_sound p ->
  let p' := mkProxy (persistenceV1Alpha1 p) (<[h := route_Name r]> (routesPerHost p)) (backendHostToRoute p) in
  tables_sound p' /\ tables_grow p p' /\ host_filed h p'.
Proof.
  intros Hh Hr [Hc Ho]. cbn.
  assert (forall h', is_Some (routesPerHost p !! h') -> is_Some (<[h := route_Name r]> (routesPerHost p) !! h')) as Hg.
  { intros h' Hs. rewrite lookup_insert. by case_decide. }
  split_and!; [split|split; [exact Hg|done]|].
  - intros n r' Hr'. destruct (Hc n r' Hr') as (? & Hhs & ?). split_and!; [done| |done]. intros h' Hh'. by apply Hg, Hhs.
  - intros h' n. cbn. rewrite lookup_insert. case_decide as E; [|apply Ho]. intros [= <-]. subst h'. symmetry. by apply Hr.
  - unfold host_filed. cbn. by rewrite lookup_insert_eq.
Qed.

Lemma store_backend_kept r b p : tables_sound p ->
  let p' := mkProxy (persistenceV1Alpha1 p) (routesPerHost p)
              (<[extractHost (backend_Host b) := route_Name r]> (backendHostToRoute p)) in
  tables_sound p' /\ tables_grow p p' /\ backend_filed b p'.
Proof.
  intros [Hc Ho]. cbn.
  assert (forall h', is_Some (backendHostToRoute p !! h') ->
    is_Some (<[extractHost (backend_Host b) := route_Name r]> (backendHostToRoute p) !! h')) as Hg.
  { intros h' Hs. rewrite lookup_insert. by case_decide. }
  split_and!; [split; [|exact Ho]|split; [done|exact Hg]|].
  - intros n r' Hr'. destruct (Hc n r' Hr') as (? & ? & Hbs). split_and!; [done..|]. intros b' Hb'. by apply Hg, Hbs.
  - unfold backend_filed. cbn. by rewrite lookup_insert_eq.
Qed.

(** A route goes into the store once its hosts are filed. *)
Lemma store_route_kept r p : tables_sound p ->
  (forall h, h ∈ route_Hostnames r -> host_filed h p) -> (forall b, b ∈ route_Backends r -> backend_filed b p) ->
  tables_sound (mkProxy (<[route_Name r := r]> (persistenceV1Alpha1 p : gmap string Route))
                 (routesPerHost p) (backendHostToRoute p)).
Proof.
  intros [Hc Ho] Hh Hb. split; [|exact Ho]. intros n r' Hr'.
  cbn in Hr'. apply lookup_insert_Some in Hr' as [[<- <-]|[_ Hr']]; [by split_and!|by apply Hc].
Qed.

Lemma delete_route_kept n p : tables_sound p ->
  tables_sound (mkProxy (delete n (persistenceV1Alpha1 p : gmap string Route)) (routesPerHost p) (backendHostToRoute p)).
Proof. intros [Hc Ho]. split; [|exact Ho]. intros n' r' Hr'. cbn in Hr'. apply lookup_delete_Some in Hr' as [_ Hr']. by apply Hc. Qed.

Lemma file_hosts_kept r p : owns_hostnames owner r ->
  rgp tables_sound tables_grow (file_hosts r)
    (fun o p' => o = Ok tt /\ (forall h, h ∈ route_Hostnames r -> host_filed h p') /\
                 (forall b, b ∈ route_Backends r -> backend_filed b p')) p.
Proof.
  intros Hr. apply rgp_bind. eapply rgp_mono; [apply (rgp_each _ _ _ _ host_filed)|].
  - apply host_filed_stable.
  - intros h p1 Hh. apply rgp_lift. intros p2 _ Hi. cbn.
    destruct (store_host_kept r h p2 Hh Hr Hi) as (? & ? & ?). by split_and!.
  - intros o p1 [-> Hh]. eapply rgp_mono; 
      [eapply (rgp_frame tables_sound tables_grow _ _ (fun p' => forall h, h ∈ route_Hostnames r -> host_filed h p'));
       [|exact Hh|apply (rgp_each _ _ _ _ backend_filed)]|].
    + intros p2 p3 H2 Hg h Hin. by eapply host_filed_stable; [apply H2|].
    + apply backend_filed_stable.
    + intros b p2 _. apply rgp_lift. intros p3 _ Hi. cbn.
      destruct (store_backend_kept r b p3 Hi) as (? & ? & ?). by split_and!.
    + intros o p2 [[-> Hb] Hh2]. by split_and!.
Qed.

Lemma filed_kept r p (m : M Tables Route) : owns_hostnames owner r ->
  (forall p', m p' = (mkProxy (<[route_Name r := r]> (persistenceV1Alpha1 p' : gmap string Route))
                       (routesPerHost p') (backendHostToRoute p'), Ok r)) ->
  rgp tables_sound tables_grow (file_hosts r ;; lift m) (fun o _ => o = Ok r) p.
Proof.
  intros Hr Hm. apply rgp_bind. eapply rgp_mono; [by apply file_hosts_kept|].
  intros o p1 (-> & Hh & Hb). apply rgp_lift. intros p2 Hg Hi. cbn [shared_of put_shared view_all]. rewrite Hm. cbn. split_and!; [|done|done].
  apply store_route_kept; [done| |]; intros x Hx;
    [eapply host_filed_stable; [by apply Hh|done]|eapply backend_filed_stable; [by apply Hb|done]].
Qed.

Lemma get_route_kept n p :
  rgp tables_sound tables_grow (GetRoute n)
    (fun o _ => match o with Ok r => route_Name r = n | Err e => e = ErrRouteNotFound | Panic => False end) p.
Proof.
  apply rgp_lift. intros p' _ Hi. pose proof (GetRoute_run n p') as Hrun. cbn [shared_of put_shared view_all].
  change (with_persistence (InMem.GetRoute n)) with (RouteStore.GetRoute (P:=InMem.t) n).
  destruct (routes p' !! n) as [r|] eqn:E; rewrite Hrun; split_and!; try done. by apply Hi.
Qed.

Lemma program_kept j p : allowed j -> rgp tables_sound tables_grow (program j) (answer j) p.
Proof.
  intros Hj. destruct j as [[r|r|n|n]|h]; cbn [program call answer allowed] in *.
  - by apply filed_kept.
  - by apply filed_kept.
  - apply get_route_kept.
  - apply rgp_bind, rgp_lift. intros p1 _ Hi. cbn. split_and!; [done|done|].
    destruct ((persistenceV1Alpha1 p1 : gmap string Route) !! n) as [r|] eqn:E; cbn.
    + intros p2 _ Hi2. split_and!; [by apply delete_route_kept|done|]. by apply Hi.
    + intros p2 _ Hi2. by split_and!.
  - apply rgp_bind, rgp_lift. intros p1 _ Hi. cbn. split_and!; [done|done|].
    destruct (routesPerHost p1 !! extractHost h) as [n|] eqn:E; cbn.
    + apply Hi in E. subst n. apply get_route_kept.
    + intros p2 _ Hi2. by split_and!.
Qed.

(** Any request may start at any time; net/http recovers a panic. *)
Definition starts (l : pool Tables job Route) (j : job) (p : prog Tables Route) : Prop :=
  allowed j /\ p = program j.
Definition gateway_step : relation (Tables * pool Tables job Route) := pool_step (fun _ => True) starts (fun _ _ => False).

Lemma gateway_ok p l : rtc gateway_step (New, []) (p, l) -> shared_ok tables_sound tables_grow answer (p, l).
Proof.
  apply shared_steps_ok; [exact _|apply answer_stable| |done|].
  - intros l' j q p' [Hj ->]. by apply program_kept.
  - split; [|by intros j q Hin%not_elem_of_nil]. split; [by apply tables_cover_init|done].
Qed.
End Kept.
End Concurrent.

(** ** Properties *)

Section Properties.
Context {P W : Type} `{Hspec : PersistenceSpec P} `{Hhttp : HttpEnv W} `{Hcodec : RouteCodec}.

(** C17. Whatever is sent to the management API is answered and has the effect of the one
    call it asks for: the method and the path choose it; a body that does not decode, another
    method, or a path that net/http redirects to its clean form asks for none; and the
    environment is not touched.  A request to the
    proxy's port leaves the routes and tables as they are, however it ends. *)
Theorem requests_make_their_calls `{!CalmCodec} (g : Gateway (P:=P) (W:=W)) (prepare : Request -> Request) r :
  (exists w, serve_api r g =
     (mkGateway (match requested_call r with Some c => (run_call c (gw_proxy g)).1 | None => gw_proxy g end)
        (gw_env g), Ok w) /\ is_Some (rw_status w)) /\
  gw_proxy (serve_proxy prepare r g).1 = gw_proxy g.
Proof.
  split; [|apply serve_proxy_tables]. destruct (mux_answers r (gw_proxy g, newWriter)) as [Hok Hsent].
  pose proof (serve_api_tables r g) as Ht. unfold serve_api in *.
  destruct (mux_ServeHTTP r (gw_proxy g, newWriter)) as [[p w] o]. cbn in *. subst. exists w. split; [done|].
  unfold rw_status. by rewrite fmap_is_Some.
Qed.

(** A request that neither files a route under the name or the host, nor deletes it. *)
Definition spares (name host : string) (q : gateway_request) : bool :=
  match q with
  | ToProxy _ => true
  | ToApi r =>
      match requested_call r with
      | Some (CallRegister r') | Some (CallUpdate r') =>
          bool_decide (route_Name r' <> name) && bool_decide (host ∉ route_Hostnames r')
      | Some (CallDelete n) => bool_decide (n <> name)
      | Some (CallGet _) | None => true
      end
  end.

Definition routed (route : Route) (host : string) (p : ProxyV1Alpha1 P) : Prop :=
  routesPerHost p !! host = Some (route_Name route) /\ routes p !! route_Name route = Some route.

Lemma filed_routed route host p s : host ∈ route_Hostnames route ->
  stored s = <[route_Name route := route]> (routes p) -> routed route host (file_tables route p s).
Proof.
  intros Hh Hs. split; cbn; [by rewrite lookup_store_all, decide_True|].
  unfold routes. cbn. by rewrite Hs, lookup_insert_eq.
Qed.

Lemma spared_file route host r' p s :
  bool_decide (route_Name r' <> route_Name route) && bool_decide (host ∉ route_Hostnames r') = true ->
  stored s = <[route_Name r' := r']> (routes p) -> routed route host p -> routed route host (file_tables r' p s).
Proof.
  intros [Hn%bool_decide_eq_true_1 Hh%bool_decide_eq_true_1]%andb_true_iff Hs [Hp1 Hp2]. split; cbn.
  - by rewrite lookup_store_all, decide_False.
  - unfold routes. cbn. by rewrite Hs, lookup_insert_ne.
Qed.

Lemma spared_serve prepare route host q (g : Gateway (P:=P) (W:=W)) :
  spares (route_Name route) host q = true -> routed route host (gw_proxy g) ->
  routed route host (gw_proxy (serve prepare q g).1).
Proof.
  destruct q as [r|r]; cbn [serve spares]; [rewrite serve_api_tables|by rewrite serve_proxy_tables].
  destruct (requested_call r) as [[r'|r'|n|n]|]; cbn [run_call]; intros Hq Hr; [| | | |done].
  - destruct (RegisterRoute_run r' (gw_proxy g)) as (s & -> & Hs). by apply spared_file.
  - destruct (UpdateRoute_run r' (gw_proxy g)) as (s & -> & Hs). by apply spared_file.
  - by rewrite GetRoute_run.
  - destruct (DeleteRoute_run n (gw_proxy g)) as (s & -> & Hs). destruct Hr as [Hr1 Hr2]. split; [done|].
    unfold routes. cbn. apply bool_decide_eq_true_1 in Hq. by rewrite Hs, lookup_delete_ne.
Qed.

(** C14. A route stays in force: once a request has registered or updated a route, every
    request for one of its host names is looked up to that very route, until another
    request files a route under its name or host name or deletes it; no other traffic, on
    either port, valid or not, answered or panicking, changes that. *)
Theorem accepted_route_stays prepare r0 route host qs (g : Gateway (P:=P) (W:=W)) :
  requested_call r0 = Some (CallRegister route) \/ requested_call r0 = Some (CallUpdate route) ->
  extractHost host ∈ route_Hostnames route ->
  forallb (spares (route_Name route) (extractHost host)) qs = true ->
  let p := gw_proxy (serve_all prepare qs (serve_api r0 g).1) in
  resolve_host host p = (p, Ok route).
Proof.
  intros Hcall Hh Hqs p.
  assert (routed route (extractHost host) p) as [H1 H2]; [|by rewrite resolve_host_run, H1, H2].
  assert (routed route (extractHost host) (gw_proxy (serve_api r0 g).1)) as Hr.
  { rewrite serve_api_tables. destruct Hcall as [-> | ->]; cbn [run_call].
    - destruct (RegisterRoute_run route (gw_proxy g)) as (s & -> & Hs). by apply filed_routed.
    - destruct (UpdateRoute_run route (gw_proxy g)) as (s & -> & Hs). by apply filed_routed. }
  subst p. revert Hr. generalize (serve_api r0 g).1 as g1. clear -Hqs Hspec.
  induction qs as [|q qs IH]; intros g1 Hr; [done|]. cbn in Hqs. apply andb_true_iff in Hqs as [Hq Hqs].
  apply (IH Hqs). by apply spared_serve.
Qed.
End Properties.

(** C15. Requests may overlap in any way: as long as each host name has one owner, at every
    moment every stored route has its hosts in the tables, a request of a client that found
    a route found one of its host's owner, and a registration or update that ended returned
    its route. *)
Theorem concurrent_requests_are_sound (owner : string -> string) p (l : pool _ Concurrent.job Route) :
  rtc (Concurrent.gateway_step owner) (New, []) (p, l) ->
  tables_cover p /\
  (forall host r, (Concurrent.Lookup host, Ret r) ∈ l -> route_Name r = owner (extractHost host)) /\
  (forall r r', (Concurrent.Call (CallUpdate r), Ret r') ∈ l \/ (Concurrent.Call (CallRegister r), Ret r') ∈ l -> r' = r) /\
  (forall j, (j, Crash) ∉ l).
Proof.
  intros [[Hc _] Hl]%Concurrent.gateway_ok. cbn in Hl. split_and!; [done| | |].
  - intros host r Hin. exact (Hl _ _ Hin).
  - intros r r' [Hin|Hin]; specialize (Hl _ _ Hin); cbn in Hl; congruence.
  - intros j Hin. specialize (Hl _ _ Hin). by destruct j as [[?|?|?|?]|?].
Qed.

(** ** Witnesses and a race *)

Module GatewayExamples.
Import ForwardExamples RouteApiExamples.

#[global] Instance codec_calm : CalmCodec.
Proof.
  assert (forall s, unmarshal s <> Panic) as Hu.
  { intros [|c s]; cbn; [done|]. case_match; [|done]. by destruct (decode (A:=Route) _). }
  by constructor.
Qed.

Definition to_api (method path contentType body : string) : Request :=
  mkRequest method (mkURL "http" "gateway:8081" path) "gateway:8081" {["Content-Type" := [contentType]]} body
    ("HTTP/1.1", (1, 1)) None None false.
Definition text (r : Route) : string := "{" +:+ pos_bits (encode r).
Definition fresh : Gateway (P:=InMem.t) (W:=list Z) := mkGateway New [].
Definition post_model : Request := to_api "POST" "/v1alpha1/routes" "application/json" (text ForwardExamples.model).

(** Traffic for a known and an unknown host, a body that is no route, another route, a
    health check, a deletion of something else. *)
Definition busy : list gateway_request :=
  [ToProxy (get "model" "/v1"); ToProxy (get "unknown" "/"); ToApi (to_api "PUT" "/v1alpha1/routes/model" "application/json" "oops");
   ToApi (to_api "POST" "/v1alpha1/routes" "application/yaml" (text ForwardExamples.other));
   ToApi (to_api "GET" "/healthz" "" ""); ToApi (to_api "DELETE" "/v1alpha1/routes/gone" "" "");
   ToApi (to_api "PATCH" "/v1alpha1/routes/model" "" "")].

Lemma post_model_call : requested_call post_model = Some (CallRegister ForwardExamples.model).
Proof. vm_compute. reflexivity. Qed.

Lemma requests_make_their_calls_witness :
  (exists w, serve_api post_model fresh =
     (mkGateway (match requested_call post_model with Some c => (run_call c New).1 | None => New end) [], Ok w) /\
     is_Some (rw_status w)) /\
  gw_proxy (serve_proxy id (get "unknown" "/") fresh).1 = New.
Proof. exact (requests_make_their_calls fresh id post_model). Defined.

Lemma accepted_route_stays_witness :
  let p := gw_proxy (serve_all id busy (serve_api post_model fresh).1) in
  resolve_host "model:8080" p = (p, Ok ForwardExamples.model).
Proof.
  pose proof post_model_call as Hcall.
  assert (forallb (spares "model" "model") busy = true) as Hbusy by (vm_compute; reflexivity).
  assert (extractHost "model:8080" ∈ route_Hostnames ForwardExamples.model) as Hh by (by left).
  exact (accepted_route_stays id post_model ForwardExamples.model "model:8080" busy fresh (or_introl Hcall) Hh Hbusy).
Defined.

(** A deletion that is stopped between its [Load] and its [Delete]. *)
Definition before : Route := mkRoute "m" ["m"] [mkBackend "a:80" 1 None "" ∅ "http"].
Definition after : Route := mkRoute "m" ["m"] [mkBackend "b:80" 1 None "" ∅ "http"].
Definition owned_by_m (h : string) : string := "m".
Definition config : Type := ProxyV1Alpha1 InMem.t * pool (ProxyV1Alpha1 InMem.t) Concurrent.job Route.
Definition start_job (j : Concurrent.job) (c : config) : config := (c.1, c.2 ++ [(j, Concurrent.program j)]).
Definition turns (n : nat) (j : Concurrent.job) (c : config) : config := foldl (fun c t => turn t c) c (replicate n j).
Definition registering := Concurrent.Call (CallRegister before).
Definition updating := Concurrent.Call (CallUpdate after).
Definition deleting := Concurrent.Call (CallDelete "m").
Definition looking := Concurrent.Lookup "m".

Lemma start_job_run j c : Concurrent.allowed owned_by_m j -> rtc (Concurrent.gateway_step owned_by_m) c (start_job j c).
Proof. intros Hj. apply rtc_once. destruct c as [p l]. by apply pool_start. Qed.
Lemma gateway_turns_run n j c : rtc (Concurrent.gateway_step owned_by_m) c (turns n j c).
Proof. apply turns_sound. Qed.
Lemma job_run n j c : Concurrent.allowed owned_by_m j ->
  rtc (Concurrent.gateway_step owned_by_m) c (turns n j (start_job j c)).
Proof. intros Hj. etransitivity; [by apply start_job_run|apply gateway_turns_run]. Qed.
Lemma owned_before : owns_hostnames owned_by_m before.
Proof. by intros h ->%list_elem_of_singleton. Qed.
Lemma owned_after : owns_hostnames owned_by_m after.
Proof. by intros h ->%list_elem_of_singleton. Qed.

Definition registered : config := turns 4 registering (start_job registering (New, [])).
Definition raced : config := turns 1 deleting (turns 3 updating (start_job updating
  (turns 1 deleting (start_job deleting registered)))).
Lemma registered_run : rtc (Concurrent.gateway_step owned_by_m) (New, []) registered.
Proof. apply job_run, owned_before. Qed.
Lemma raced_gateway_run : rtc (Concurrent.gateway_step owned_by_m) (New, []) raced.
Proof.
  etransitivity; [apply registered_run|]. etransitivity; [by apply (job_run 1 deleting)|].
  etransitivity; [apply (job_run 3 updating), owned_after|]. apply gateway_turns_run.
Qed.

(** A client's request that overlaps an update. *)
Definition overlapped : config := turns 1 looking (turns 3 updating (start_job updating
  (turns 1 looking (start_job looking registered)))).
Lemma overlapped_run : rtc (Concurrent.gateway_step owned_by_m) (New, []) overlapped.
Proof.
  etransitivity; [apply registered_run|]. etransitivity; [by apply (job_run 1 looking)|].
  etransitivity; [apply (job_run 3 updating), owned_after|]. apply gateway_turns_run.
Qed.

Lemma concurrent_requests_are_sound_witness :
  overlapped.2 = [(looking, Ret after); (updating, Ret after)] /\ tables_cover overlapped.1 /\
  (forall r, (looking, Ret r) ∈ overlapped.2 -> route_Name r = "m").
Proof.
  pose proof overlapped_run as Hrun. assert (overlapped.2 = [(looking, Ret after); (updating, Ret after)]) as Hl
    by (vm_compute; reflexivity).
  split; [exact Hl|]. revert Hrun. generalize overlapped. clear. intros [p l] Hrun.
  destruct (concurrent_requests_are_sound owned_by_m p l Hrun) as (Hc & Hlook & _).
  split; [exact Hc|]. exact (Hlook "m").
Defined.

(** The store deletes in two operations, a [Load] and a [Delete]: an update that falls
    between them is answered with success and is lost, and the deletion answers with the
    route that was there before it.  One after the other, in either order, the update is
    still there or the deletion answers with it. *)
Theorem delete_beside_update_loses_it :
  (exists p, rtc (Concurrent.gateway_step owned_by_m) (New, []) (p, [(deleting, Ret before); (updating, Ret after)]) /\
     routes p = ∅) /\
  (let p0 := (run_call (CallRegister before) New).1 in
   (run_call (CallDelete "m") (run_call (CallUpdate after) p0).1).2 = Ok after /\
   routes (run_call (CallUpdate after) (run_call (CallDelete "m") p0).1).1 !! "m" = Some after).
Proof.
  split; [|split; vm_compute; reflexivity]. exists raced.1.
  assert (raced.2 = [(deleting, Ret before); (updating, Ret after)]) as Hl by (vm_compute; reflexivity).
  split; [rewrite <- Hl, <- surjective_pairing; apply raced_gateway_run|]. vm_compute. reflexivity.
Qed.
End GatewayExamples.
