(* ===== verification/Command.v ===== *)
(** The command of the gateway (gateway/main.go, gateway/cmd): its flags, its configuration
    file, and the process that listens on two ports and serves one proxy on both. *)

From stdpp Require Import base numbers gmap strings list relations.
From S2P Require Import Prelude RouteStore Http Forward RouteApi Gateway.
Local Open Scope Z_scope.

(** ** The command line *)

Record RunFlags := mkRunFlags { listen_addr : string; api_addr : string }.

(** [src/gateway/cmd/run.go:39-46 registerFlags] the defaults *)
Definition registerFlags : RunFlags := mkRunFlags ":8080" ":8081".

(** cobra reads a command line, given the defaults: without a command it prints a help text,
    else it has the flags of [run] and the value of [--config]. *)
Class Cobra := cobra_Parse : RunFlags -> string -> list string -> res (option (RunFlags * string)).

(** viper, and the working directory. *)
Class Viper (V : Type) := {
  viper_SetConfigFile : string -> V -> V;
  viper_AddConfigPath : string -> V -> V;
  viper_SetConfigType : string -> V -> V;
  viper_SetConfigName : string -> V -> V;
  viper_AutomaticEnv : V -> V;
  viper_ReadInConfig : M V unit;
  os_Getwd : M V string
}.

(** [src/gateway/cmd/root.go:32-52 initConfig] [cobra.CheckErr] exits; a file that cannot be read is
    passed over *)
Definition initConfig `{Viper V} (cfgFile : string) : M V unit :=
  (if negb (String.eqb cfgFile "") then modify (viper_SetConfigFile cfgFile)
   else
     cwd ← os_Getwd;
     modify (viper_AddConfigPath cwd) ;;
     modify (viper_SetConfigType "yaml") ;;
     modify (viper_SetConfigName "beamlit-gateway")) ;;
  modify viper_AutomaticEnv ;;
  _ ← try viper_ReadInConfig;
  mret tt.

(** ** The process *)

(** [net.Listen]: what may become of binding an address while the process holds others; an
    address it holds is taken. *)
Class Net := {
  net_Listen : list string -> string -> bool -> Prop;
  net_taken held a : a ∈ held -> ~ net_Listen held a true
}.

Section Process.
Context {W : Type} `{Hhttp : HttpEnv W} `{Hcodec : RouteCodec} `{Net}.
Local Abbreviation Gateway := (Gateway (P:=InMem.t) (W:=W)).

(** One proxy, and which of the two servers listens. *)
Record Process := mkProcess { ps_gateway : Gateway; ps_api : bool; ps_http : bool }.
Inductive gateway_process := Running (p : Process) | Exited (code : Z).

Definition held (f : RunFlags) (p : Process) : list string :=
  (if ps_api p then [api_addr f] else []) ++ (if ps_http p then [listen_addr f] else []).

(** [src/gateway/cmd/run.go:18-36 runCmd] the management API is started in a goroutine, so either server
    may be the first to listen; each request is served in the order they come; when either
    server cannot listen, or fails, the process exits *)
Inductive process_step (f : RunFlags) (prepare : Request -> Request) : relation gateway_process :=
| api_listens g h : net_Listen (held f (mkProcess g false h)) (api_addr f) true ->
    process_step f prepare (Running (mkProcess g false h)) (Running (mkProcess g true h))
| api_cannot_listen g h : net_Listen (held f (mkProcess g false h)) (api_addr f) false ->
    process_step f prepare (Running (mkProcess g false h)) (Exited 1)
| http_listens g a : net_Listen (held f (mkProcess g a false)) (listen_addr f) true ->
    process_step f prepare (Running (mkProcess g a false)) (Running (mkProcess g a true))
| http_cannot_listen g a : net_Listen (held f (mkProcess g a false)) (listen_addr f) false ->
    process_step f prepare (Running (mkProcess g a false)) (Exited 1)
| api_serves g h r :
    process_step f prepare (Running (mkProcess g true h)) (Running (mkProcess (serve prepare (ToApi r) g).1 true h))
| http_serves g a r :
    process_step f prepare (Running (mkProcess g a true)) (Running (mkProcess (serve prepare (ToProxy r) g).1 a true))
| server_fails g a h : a || h = true -> process_step f prepare (Running (mkProcess g a h)) (Exited 1).

(** [src/gateway/main.go:10-15 main] up to the start of the servers *)
Definition main `{Cobra} `{Viper V} (args : list string) (v : V) (w : W) : (option RunFlags * gateway_process) :=
  match cobra_Parse registerFlags "" args with
  | Ok (Some (flags, cfgFile)) =>
      match (initConfig cfgFile v).2 with
      | Ok _ => (Some flags, Running (mkProcess (mkGateway New w) false false))
      | _ => (None, Exited 1)
      end
  | Ok None => (None, Exited 0)
  | _ => (None, Exited 1)
  end.

(** ** Properties *)

(** What the process has served. *)
Definition served (prepare : Request -> Request) (w : W) (f : RunFlags) (p : Process) (qs : list gateway_request) : Prop :=
  ps_gateway p = serve_all prepare qs (mkGateway New w) /\
  (forall r, ToApi r ∈ qs -> ps_api p = true) /\ (forall r, ToProxy r ∈ qs -> ps_http p = true) /\
  (api_addr f = listen_addr f -> ps_api p && ps_http p = false).

Lemma served_snoc prepare q qs (g : Gateway) : serve_all prepare (qs ++ [q]) g = (serve prepare q (serve_all prepare qs g)).1.
Proof. unfold serve_all. by rewrite foldl_app. Qed.

Lemma served_step f prepare w p p' qs : served prepare w f p qs -> process_step f prepare (Running p) (Running p') ->
  exists qs', served prepare w f p' qs'.
Proof.
  intros (Hg & Ha & Hh & Hsame) Hstep. inversion Hstep; subst; cbn in *.
  - exists qs. split_and!; [done|done|done|]. cbn. intros E. destruct h; [|done]. exfalso.
    eapply net_taken; [|eassumption]. rewrite E. by left.
  - exists qs. split_and!; [done|done|done|]. cbn. intros E. destruct a; [|done]. exfalso.
    eapply net_taken; [|eassumption]. rewrite E. by left.
  - exists (qs ++ [ToApi r]). split_and!; [by rewrite served_snoc, <-Hg|done| |done]. cbn.
    intros r' [Hr|[=]%list_elem_of_singleton]%elem_of_app. by eapply Hh.
  - exists (qs ++ [ToProxy r]). split_and!; [by rewrite served_snoc, <-Hg| |done|done]. cbn.
    intros r' [Hr|[=]%list_elem_of_singleton]%elem_of_app. by eapply Ha.
Qed.

(** A process that runs has served a sequence of requests with one proxy, each at a port
    that listens; it never runs with both servers at one address; and once it has exited
    nothing more happens. *)
Theorem process_serves_one_proxy `{Cobra} `{Viper V} args (v : V) (w : W) f start p prepare :
  main args v w = (Some f, start) -> rtc (process_step f prepare) start (Running p) ->
  exists qs, served prepare w f p qs.
Proof.
  intros Hmain Hrun. assert (start = Running (mkProcess (mkGateway New w) false false)) as ->.
  { unfold main in Hmain. by repeat case_match; simplify_eq. }
  assert (forall x y, rtc (process_step f prepare) x y -> forall p p', x = Running p -> y = Running p' ->
    (exists qs, served prepare w f p qs) -> exists qs, served prepare w f p' qs) as Hgo.
  { clear. intros x y Hrun. induction Hrun as [x|x y z Hxy Hyz IH]; intros p p' -> Hz [qs Hq].
    - injection Hz as ->. by exists qs.
    - destruct y as [p1|code]; [|inversion Hyz as [|? ? ? Hs]; subst; [done|inversion Hs]].
      apply (IH p1 p'); [done..|]. by eapply served_step. }
  eapply Hgo; [exact Hrun|done..|]. exists []. split_and!; [done|..]; by try intros r ?%not_elem_of_nil.
Qed.

(** With one address for both servers the process ends as soon as the second one is to
    listen, however the binding of the address turns out. *)
Theorem one_address_exits f prepare g x :
  api_addr f = listen_addr f -> process_step f prepare (Running (mkProcess g true false)) x ->
  (exists r, x = Running (mkProcess (serve prepare (ToApi r) g).1 true false)) \/ x = Exited 1.
Proof.
  intros E Hstep. inversion Hstep; subst; [|by right|by left; eexists|by right]. exfalso.
  eapply net_taken; [|eassumption]. cbn. rewrite E. by left.
Qed.

(** Whatever the configuration file and the environment hold, the process is the same. *)
Theorem config_is_not_used `{Cobra} `{Viper V} args (v v' : V) (w : W) :
  (forall (v : V), is_Ok (os_Getwd v).2 = true) -> (forall (v : V), (viper_ReadInConfig v).2 <> Panic) ->
  main args v w = main args v' w.
Proof.
  intros Hcwd Hread.
  assert (forall cfgFile (v : V), exists u, (initConfig cfgFile v).2 = Ok u) as Hinit.
  { clear v v'. intros cfgFile v.
    assert (exists v1, (if negb (String.eqb cfgFile "") then modify (viper_SetConfigFile cfgFile)
      else cwd ← os_Getwd; modify (viper_AddConfigPath cwd) ;; modify (viper_SetConfigType "yaml") ;;
           modify (viper_SetConfigName "beamlit-gateway")) v = (v1, Ok tt)) as [v1 E].
    { destruct (negb _); [by eexists|]. rewrite bind_run. pose proof (Hcwd v) as Hc.
      destruct (os_Getwd v) as [v1 [cwd|e|]]; [by eexists|done..]. }
    unfold initConfig. rewrite (bind_Ok_run _ _ _ _ _ E), (bind_Ok_run (modify viper_AutomaticEnv) _ v1 _ tt eq_refl), bind_run.
    unfold try. pose proof (Hread (viper_AutomaticEnv v1)) as Hr.
    destruct (viper_ReadInConfig _) as [v2 [[]|e|]]; [by eexists..|done]. }
  unfold main. destruct (cobra_Parse _ _ _) as [[[f c]|]|e|]; [|done..].
  destruct (Hinit c v) as [? ->], (Hinit c v') as [? ->]. done.
Qed.
End Process.
