(* ===== verification/Overlap.v ===== *)
(** The gateway with whole requests side by side: clients' requests, with their rewriting,
    their round trips and their fallbacks, among the calls of the management API. *)

From Stdlib Require Import Ascii.
From stdpp Require Import base numbers gmap strings list relations.
From S2P Require Import Prelude Programs RouteStore Balancer Http Forward RouteApi Gateway.
Local Open Scope Z_scope.

Section Overlap.
Context {W : Type} `{Hhttp : HttpEnvSpec W}.
Local Abbreviation Tables := (ProxyV1Alpha1 InMem.t).
Variable prepare : Request -> Request.

(** ** The goroutines of the gateway *)

Inductive activity := ApiCall (c : api_call) | Client (r : Request).
Inductive finished := CallDone (route : Route) | ClientDone (w : ResponseWriter) (o : res unit).

(** A client's request as it arrives: its writer is its own. *)
Definition arrival (s : Tables * W) (r : Request) : Exchange InMem.t W :=
  mkExchange s.1 s.2 r newWriter noResponse.

(** [src/gateway/cmd/run.go:18-36 runCmd] both servers start a goroutine per request; a
    client's request sees the tables and the environment of each moment *)
Definition goroutine (s : Tables * W) (a : activity) : prog (Tables * W) finished :=
  match a with
  | ApiCall c => route ← widen (Concurrent.call c); mret (CallDone route)
  | Client r => private (fun x o => ClientDone (ex_w x) o) (Traffic.ServeHTTP prepare r) (arrival s r)
  end.

(** Alone, a client's request is served as the process serves it. *)
Lemma client_alone r s : exists o w,
  run (goroutine s (Client r)) s = ((s.1, gw_env (serve_proxy prepare r (mkGateway s.1 s.2)).1), Ok (ClientDone w o)) /\
  (serve_proxy prepare r (mkGateway s.1 s.2)).2 = match o with Ok _ => Ok w | Err e => Err e | Panic => Panic end.
Proof.
  cbn [goroutine]. pose proof (private_alone (fun x o => ClientDone (ex_w x) o) (Traffic.ServeHTTP prepare r) (arrival s r) s) as E.
  pose proof (serve_proxy_tables prepare r (mkGateway s.1 s.2)) as Hp. unfold serve_proxy in *. cbn [gw_proxy gw_env] in *.
  pose proof (runs_ServeHTTP prepare r (arrival s r)) as Hrun. unfold arrival in Hrun.
  rewrite E. clear E. unfold Traffic.ServeHTTP at 1. cbn [mbind prog_mbind prog_bind Traffic.act lift prog_lift].
  change (put_shared s (arrival s r)) with (mkExchange s.1 s.2 r newWriter noResponse). rewrite Hrun.
  destruct (ServeHTTP prepare r _) as [x o]. cbn in *. exists o, (ex_w x). by rewrite Hp.
Qed.

(** ** What the overlapping requests keep

    [kept] are host names and the routes they belong to: calls may update such a route,
    with its hosts or without, but do not delete it or give its host to another; and every
    route that is filed is sound (see [Forward.sound_route]). *)
Variable kept : gmap string string.

Definition keeps_hosts (p : Tables) : Prop := forall h n, kept !! h = Some n ->
  routesPerHost p !! h = Some n /\ is_Some (routes p !! n).
Definition good_tables (p : Tables) : Prop :=
  (forall n r, routes p !! n = Some r -> sound_route r) /\ keeps_hosts p.

Definition leaves_kept (c : api_call) : Prop :=
  match c with
  | CallRegister r | CallUpdate r =>
      sound_route r /\ forall h n, h ∈ route_Hostnames r -> kept !! h = Some n -> n = route_Name r
  | CallDelete n => forall h, kept !! h <> Some n
  | CallGet _ => True
  end.

Notation calls_keep := (rgp good_tables anything).

Lemma good_store_host r h (p : Tables) : (forall n, kept !! h = Some n -> n = route_Name r) -> good_tables p ->
  good_tables (mkProxy (persistenceV1Alpha1 p) (<[h := route_Name r]> (routesPerHost p)) (backendHostToRoute p)).
Proof.
  intros Hh [Hs Hk]. split; [exact Hs|]. intros h' n Hn. destruct (Hk h' n Hn) as [H1 H2]. split; [|exact H2].
  cbn. rewrite lookup_insert. case_decide as E; [|done]. subst h'. f_equal. symmetry. by apply Hh.
Qed.
Lemma good_store_backend b n (p : Tables) : good_tables p ->
  good_tables (mkProxy (persistenceV1Alpha1 p) (routesPerHost p) (<[b := n]> (backendHostToRoute p))).
Proof. done. Qed.
Lemma good_store_route r (p : Tables) : sound_route r -> good_tables p ->
  good_tables (mkProxy (<[route_Name r := r]> (persistenceV1Alpha1 p : gmap string Route)) (routesPerHost p) (backendHostToRoute p)).
Proof.
  intros Hr [Hs Hk]. split.
  - intros n r' Hr'. cbn in Hr'. apply lookup_insert_Some in Hr' as [[_ <-]|[_ Hr']]; [done|by apply (Hs n)].
  - intros h n Hn. destruct (Hk h n Hn) as [H1 H2]. split; [done|]. cbn. rewrite lookup_insert. by case_decide.
Qed.
Lemma good_delete n (p : Tables) : (forall h, kept !! h <> Some n) -> good_tables p ->
  good_tables (mkProxy (delete n (persistenceV1Alpha1 p : gmap string Route)) (routesPerHost p) (backendHostToRoute p)).
Proof.
  intros Hn [Hs Hk]. split.
  - intros n' r' Hr'. cbn in Hr'. apply lookup_delete_Some in Hr' as [_ Hr']. by apply (Hs n').
  - intros h n' Hn'. destruct (Hk h n' Hn') as [H1 H2]. split; [done|]. cbn. rewrite lookup_delete_ne; [done|].
    intros ->. by apply (Hn h).
Qed.

(** A step of a call whose effect is good. *)
Lemma calls_act {A} (m : M Tables A) (Q : res A -> Tables -> Prop) (p : Tables) :
  (forall p', good_tables p' -> good_tables (m p').1 /\ Q (m p').2 (m p').1) -> calls_keep (lift m) Q p.
Proof. intros Hm. apply rgp_lift. intros p' _ Hp. destruct (Hm p' Hp). by split_and!. Qed.

Lemma calls_file_hosts r (p : Tables) :
  (forall h n, h ∈ route_Hostnames r -> kept !! h = Some n -> n = route_Name r) ->
  calls_keep (Concurrent.file_hosts r) (fun o _ => o = Ok tt) p.
Proof.
  intros Hr. apply rgp_bind. eapply rgp_mono; [apply (rgp_each _ _ _ _ (fun _ _ => True)); [done|]|].
  - intros h p' Hh. apply calls_act. intros p2 Hp. split; [|done]. apply good_store_host; [|done]. intros n. by apply Hr.
  - intros o p1 [-> _]. eapply rgp_mono; [apply (rgp_each _ _ _ _ (fun _ _ => True)); [done|]|by intros o' p' [-> _]].
    intros b p2 _. apply calls_act. intros p3 Hp. split; [by apply good_store_backend|done].
Qed.

Lemma calls_good c (p : Tables) : leaves_kept c -> calls_keep (Concurrent.call c) (fun o _ => not_panic o) p.
Proof.
  intros Hc. destruct c as [r|r|n|n]; cbn [Concurrent.call leaves_kept] in *.
  1,2: destruct Hc as [Hr Hh]; apply rgp_bind; eapply rgp_mono; [by apply calls_file_hosts|];
    intros o p1 ->; apply calls_act; intros p2 Hp; split; [by apply good_store_route|done].
  - apply calls_act. intros p1 Hp. change (with_persistence (InMem.GetRoute n)) with (GetRoute (P:=InMem.t) n).
    rewrite GetRoute_run. split; [done|]. by destruct (routes p1 !! n).
  - apply rgp_bind, calls_act. intros p1 Hp. split; [done|]. cbn [gets fst snd].
    destruct (_ !! n) as [r|]; [|by apply calls_act]. apply rgp_bind, calls_act. intros p2 Hp2.
    split; [by apply good_delete|]. by apply rgp_ret.
Qed.

(** *** The process *)

(** Backends, token servers and the generator move by themselves. *)
Inductive env_moves : relation (Tables * W) :=
| env_move p w w' : env_moves (p, w) (p, w').

Definition arrives (l : pool (Tables * W) activity finished) (a : activity) (q : prog (Tables * W) finished) : Prop :=
  match a with ApiCall c => leaves_kept c | Client _ => True end /\ exists s, q = goroutine s a.
Definition overlap_step : relation ((Tables * W) * pool (Tables * W) activity finished) :=
  pool_step (fun _ => True) arrives env_moves.

Definition kept_host (host : string) : Prop := is_Some (kept !! extractHost host).

Lemma kept_served host : kept_host host -> served_host good_tables host.
Proof. intros [n Hn]. exists n. intros p [_ Hp]. by apply Hp. Qed.

(** How a request of a client may end: with an answer on its writer, or aborted, for one of the
    reasons that [Forward.aborted] lists. *)
Definition served (w : ResponseWriter) (o : res unit) : Prop :=
  o = Ok tt /\ is_Some (rw_sent w) \/ o = Panic /\ aborted (W:=W).

(** What a goroutine ends with: a client with a kept host is served. *)
Definition ended (a : activity) (o : res finished) (s : Tables * W) : Prop :=
  match a with
  | ApiCall _ => o <> Panic
  | Client r => kept_host (req_Host r) -> exists w o', o = Ok (ClientDone w o') /\ served w o'
  end.

Lemma goroutine_ends a s0 s : match a with ApiCall c => leaves_kept c | Client _ => True end ->
  rgp (fun s => good_tables s.1) anything (goroutine s0 a) (ended a) s.
Proof.
  intros Ha. destruct a as [c|r]; cbn [goroutine].
  - apply rgp_bind. eapply rgp_mono; [exact (rgp_widen good_tables anything _ _ s (calls_good c s.1 Ha))|].
    by intros [route|e|] s' Ho; [apply rgp_ret|done..].
  - eapply (rgp_private _ (fun s => good_tables s.1) anything); [|done|].
    + apply (among_ServeHTTP good_tables); [|done]. intros p n route [Hs _]. apply Hs.
    + intros o x s' Hx _ Hk. exists (ex_w x), o. split; [done|]. exact (Hx (kept_served _ Hk)).
Qed.

Lemma overlap_ok p0 w0 c : good_tables p0 -> rtc overlap_step ((p0, w0), []) c ->
  shared_ok (fun s => good_tables s.1) anything ended c.
Proof.
  intros H0. apply shared_steps_ok; [exact _| | | |].
  - intros [c'|r] o s s' Hs _; exact Hs.
  - intros l a q s [Ha [s0 ->]]. by apply goroutine_ends.
  - intros s s' [p w w'] Hp. by split.
  - split; [done|]. by intros a q ?%not_elem_of_nil.
Qed.

End Overlap.

Module OverlapExamples.
Import ForwardExamples.

#[global] Instance Body_eq_dec : EqDecision Body.
Proof. solve_decision. Defined.
#[global] Instance Redirect_eq_dec : EqDecision Redirect.
Proof. solve_decision. Defined.
#[global] Instance URL_eq_dec : EqDecision URL.
Proof. solve_decision. Defined.
#[global] Instance Request_eq_dec : EqDecision Request.
Proof. solve_decision. Defined.
#[global] Instance activity_eq_dec : EqDecision activity.
Proof. solve_decision. Defined.

Definition asis (r : Request) : Request := r.
Definition config : Type :=
  (ProxyV1Alpha1 InMem.t * list Z) * pool (ProxyV1Alpha1 InMem.t * list Z) activity finished.
Definition begin (a : activity) (c : config) : config := (c.1, c.2 ++ [(a, goroutine asis c.1 a)]).
Definition turns (n : nat) (a : activity) (c : config) : config := foldl (fun c t => turn t c) c (replicate n a).

(** The model's route is replaced by one with a single backend, which is down, while a
    request for the model waits for the same backend to answer. *)
Definition narrowed : Route := mkRoute "model" ["model"] [local].
Definition asking := Client (get "model" "/v1").
Definition narrowing := ApiCall (CallUpdate narrowed).
Definition model_kept : gmap string string := {["model" := "model"]}.
Definition overlapped : config :=
  turns 43 asking (turns 3 narrowing (begin narrowing (turns 5 asking (begin asking ((table, []), []))))).

Lemma begin_run a c : match a with ApiCall c => leaves_kept model_kept c | Client _ => True end ->
  rtc (overlap_step asis model_kept) c (begin a c).
Proof. intros Ha. apply rtc_once. destruct c as [s l]. apply pool_start. split; [exact Ha|by exists s]. Qed.
Lemma overlapping_run : rtc (overlap_step asis model_kept) ((table, []), []) overlapped.
Proof.
  assert (leaves_kept model_kept (CallUpdate narrowed)) as Hn.
  { split; [split; [repeat constructor|repeat constructor]; done|].
    intros h n ->%list_elem_of_singleton. vm_compute. congruence. }
  repeat (etransitivity; [|apply turns_sound]).
  etransitivity; [|by apply begin_run]. etransitivity; [|apply turns_sound]. by apply begin_run.
Qed.
Lemma good_start : good_tables model_kept table.
Proof.
  split.
  - intros n r Hr. change (routes table) with ({["model" := model]} : gmap string Route) in Hr.
    apply lookup_singleton_Some in Hr as [_ <-]. split; [repeat constructor|repeat constructor]; done.
  - unfold model_kept. intros h n [<- <-]%lookup_singleton_Some. split; [vm_compute; reflexivity|by exists model].
Qed.

Definition answer_of (q : prog (ProxyV1Alpha1 InMem.t * list Z) finished) : option (Z * string) :=
  match q with Ret (ClientDone w _) => option_map (fun st => (st.1, rw_body w)) (rw_sent w) | _ => None end.

(** In the example's environment nothing is ever aborted. *)
Lemma example_answers r w resp : (example_do r w).2 = Ok resp -> resp = mkResponse 200 "200 OK" ∅ (body_of "hello").
Proof. unfold example_do. case_match; [|done]. by intros [= <-]. Qed.
Lemma never_aborted : ~ aborted (W:=list Z).
Proof.
  intros [(resp & [(r & w & E)|(r & w & E)] & Hr)|[(resp & (r & w & E) & [e Hr])|(first & _ & (r & w & E) & Hr & _)]];
    apply example_answers in E as ->; cbn in Hr; lia || done.
Qed.

End OverlapExamples.
