(* ===== verification/Crd.v ===== *)
(** The custom resources (api/v1alpha1) and the Kubernetes types they are made of:
    plain data, with the fields the controller reads or writes. *)

From stdpp Require Import base numbers gmap strings list.
From S2P Require Import Prelude.
Local Open Scope Z_scope.

(** ** Types of the Kubernetes API *)

Record NamespacedName := mkNN { nn_Namespace : string; nn_Name : string }.

#[global] Instance NamespacedName_eq_dec : EqDecision NamespacedName.
Proof. solve_decision. Defined.
#[global] Instance NamespacedName_countable : Countable NamespacedName.
Proof.
  apply (inj_countable' (fun n => (nn_Namespace n, nn_Name n)) (fun '(a, b) => mkNN a b)). by intros [].
Defined.

Record ObjectReference := mkRef {
  ref_Kind : string;
  ref_APIVersion : string;
  ref_Namespace : string;
  ref_Name : string
}.

(** What object metadata the controllers use. *)
Record ObjectMeta := mkMeta {
  meta_Namespace : string;
  meta_Name : string;
  meta_Generation : Z;
  meta_Labels : gmap string string;
  meta_DeletionTimestamp : option Z;
  meta_Finalizers : list string
}.

(** [resource.Quantity], by its text; what it means is [QuantityOps]'s affair. *)
Definition Quantity : Type := string.

Record LabelSelector := mkSelector {
  sel_MatchLabels : gmap string string;
  sel_MatchExpressions : list (string * string * list string)
}.

(** The metric specifications of autoscaling/v2. *)
Record MetricTarget := mkTarget {
  mt_Type : string;
  mt_Value : option Quantity;
  mt_AverageValue : option Quantity;
  mt_AverageUtilization : option Z
}.
Record MetricIdentifier := mkIdentifier { mi_Name : string; mi_Selector : option LabelSelector }.
Record CrossVersionObjectReference := mkCrossRef {
  cr_Kind : string; cr_Name : string; cr_APIVersion : string
}.
Record ObjectMetricSource := mkObjectMetric {
  om_DescribedObject : CrossVersionObjectReference;
  om_Target : MetricTarget;
  om_Metric : MetricIdentifier
}.
Record PodsMetricSource := mkPodsMetric { pm_Metric : MetricIdentifier; pm_Target : MetricTarget }.
Record ResourceMetricSource := mkResourceMetric { rm_Name : string; rm_Target : MetricTarget }.
Record ContainerResourceMetricSource := mkContainerMetric {
  cm_Name : string; cm_Target : MetricTarget; cm_Container : string
}.
Record ExternalMetricSource := mkExternalMetric { em_Metric : MetricIdentifier; em_Target : MetricTarget }.
Record MetricSpec := mkMetricSpec {
  ms_Type : string;
  ms_Object : option ObjectMetricSource;
  ms_Pods : option PodsMetricSource;
  ms_Resource : option ResourceMetricSource;
  ms_ContainerResource : option ContainerResourceMetricSource;
  ms_External : option ExternalMetricSource
}.

(** ** ModelDeployment *)

(** [src/api/v1alpha1/deployment/modeldeployment_types.go:153-156 ServiceReference] *)
Record ServiceReference := mkServiceRef {
  sr_ObjectReference : ObjectReference;
  sr_TargetPort : Z
}.
Definition sr_Namespace (s : ServiceReference) : string := ref_Namespace (sr_ObjectReference s).
Definition sr_Name (s : ServiceReference) : string := ref_Name (sr_ObjectReference s).

Definition set_sr_Name (name : string) (s : ServiceReference) : ServiceReference :=
  let r := sr_ObjectReference s in
  mkServiceRef (mkRef (ref_Kind r) (ref_APIVersion r) (ref_Namespace r) name) (sr_TargetPort s).

(** [types.NamespacedName] of a service reference. *)
Definition sr_key (s : ServiceReference) : NamespacedName := mkNN (sr_Namespace s) (sr_Name s).

(** [src/api/v1alpha1/deployment/modeldeployment_types.go:205-217 OAuthConfig] *)
Record OAuthConfig := mkOAuthConfig {
  oc_ClientID : string;
  oc_ClientSecret : string;
  oc_TokenURL : string
}.

(** [src/api/v1alpha1/deployment/modeldeployment_types.go:194-203 AuthConfig] [Type] is a string type
    with the constant ["oauth"] (lines 188-192) *)
Record AuthConfig := mkAuthConfig {
  ac_Type : string;
  ac_OAuthConfig : option OAuthConfig
}.

(** [src/api/v1alpha1/deployment/modeldeployment_types.go:165-186 RemoteBackend] *)
Record RemoteBackend := mkRemoteBackend {
  rb_Host : string;
  rb_AuthConfig : option AuthConfig;
  rb_PathPrefix : string;
  rb_HeadersToAdd : gmap string string;
  rb_Scheme : string
}.

(** [src/api/v1alpha1/deployment/modeldeployment_types.go:219-226 OffloadingBehavior] *)
Record OffloadingBehavior := mkBehavior { ob_Percentage : Z }.

(** [src/api/v1alpha1/deployment/modeldeployment_types.go:136-151 OffloadingConfig] *)
Record OffloadingConfig := mkOffloading {
  ol_RemoteBackend : option RemoteBackend;
  ol_Metrics : list MetricSpec;
  ol_Behavior : option OffloadingBehavior
}.

(** [src/api/v1alpha1/deployment/modeldeployment_types.go:81-95 PolicyRef] *)
Record PolicyRef := mkPolicyRef {
  pr_RefType : string;
  pr_Ref : ObjectReference;
  pr_Name : string
}.

(** [src/api/v1alpha1/deployment/modeldeployment_types.go:97-134 ServerlessConfig] *)
Record ServerlessConfig := mkServerless {
  sc_MinNumReplicas : Z;
  sc_MaxNumReplicas : Z;
  sc_Metric : option string;
  sc_Target : option string;
  sc_ScaleUpMinimum : option Z;
  sc_ScaleDownDelay : option string;
  sc_StableWindow : option string;
  sc_LastPodRetentionPeriod : option string
}.

(** [src/api/v1alpha1/deployment/modeldeployment_types.go:26-71 ModelDeploymentSpec] *)
Record ModelDeploymentSpec := mkModelSpec {
  mds_Model : string;
  mds_Enabled : bool;
  mds_ModelSourceRef : ObjectReference;
  mds_ServiceRef : option ServiceReference;
  mds_MetricServiceRef : option ServiceReference;
  mds_Environment : string;
  mds_Policies : list PolicyRef;
  mds_ServerlessConfig : option ServerlessConfig;
  mds_OffloadingConfig : option OffloadingConfig
}.

(** [src/api/v1alpha1/deployment/modeldeployment_types.go:229-248 ModelDeploymentStatus] times in
    nanoseconds *)
Record ModelDeploymentStatus := mkModelStatus {
  mst_OffloadingStatus : bool;
  mst_ServingPort : Z;
  mst_MetricPort : Z;
  mst_Workspace : string;
  mst_CreatedAtOnBeamlit : Z;
  mst_UpdatedAtOnBeamlit : Z
}.

(** [src/api/v1alpha1/deployment/modeldeployment_types.go:255-261 ModelDeployment] *)
Record ModelDeployment := mkModel {
  md_Meta : ObjectMeta;
  md_Spec : ModelDeploymentSpec;
  md_Status : ModelDeploymentStatus
}.
Definition md_Name (m : ModelDeployment) : string := meta_Name (md_Meta m).
Definition md_Namespace (m : ModelDeployment) : string := meta_Namespace (md_Meta m).
Definition md_Generation (m : ModelDeployment) : Z := meta_Generation (md_Meta m).

(** ** Policy *)

(** [src/api/v1alpha1/authorization/policy_types.go:57-64 PolicyLocation] *)
Record PolicyLocation := mkPolicyLocation { pl_Type : string; pl_Name : string }.

(** [src/api/v1alpha1/authorization/policy_types.go:66-73 PolicyFlavor] *)
Record PolicyFlavor := mkPolicyFlavor { pf_Type : string; pf_Name : string }.

(** [src/api/v1alpha1/authorization/policy_types.go:24-40 PolicySpec] [Type] is ["location"] or
    ["flavor"] (lines 42-47) *)
Record PolicySpec := mkPolicySpec {
  ps_DisplayName : string;
  ps_Type : string;
  ps_Locations : list PolicyLocation;
  ps_Flavors : list PolicyFlavor
}.

(** [src/api/v1alpha1/authorization/policy_types.go:76-83 PolicyStatus] *)
Record PolicyStatus := mkPolicyStatus {
  pst_CreatedAtOnBeamlit : Z;
  pst_UpdatedAtOnBeamlit : Z;
  pst_Workspace : string
}.

(** [src/api/v1alpha1/authorization/policy_types.go:89-95 Policy] *)
Record Policy := mkPolicy {
  pol_Meta : ObjectMeta;
  pol_Spec : PolicySpec;
  pol_Status : PolicyStatus
}.
Definition pol_Name (p : Policy) : string := meta_Name (pol_Meta p).
Definition pol_Namespace (p : Policy) : string := meta_Namespace (pol_Meta p).
Definition pol_Generation (p : Policy) : Z := meta_Generation (pol_Meta p).

(** ** ToolDeployment *)

(** [src/api/v1alpha1/deployment/tooldeployment_types.go:27-33 ToolDeploymentSpec] *)
Record ToolDeploymentSpec := mkToolSpec { tds_Foo : string }.

(** [src/api/v1alpha1/deployment/tooldeployment_types.go:36-39 ToolDeploymentStatus] *)
Record ToolDeploymentStatus := mkToolStatus {}.

(** [src/api/v1alpha1/deployment/tooldeployment_types.go:45-51 ToolDeployment] *)
Record ToolDeployment := mkTool {
  tool_Meta : ObjectMeta;
  tool_Spec : ToolDeploymentSpec;
  tool_Status : ToolDeploymentStatus
}.

(** ** Decidable equality *)

#[global] Instance ObjectReference_eq_dec : EqDecision ObjectReference.
Proof. solve_decision. Defined.
#[global] Instance ServiceReference_eq_dec : EqDecision ServiceReference.
Proof. solve_decision. Defined.
#[global] Instance OAuthConfig_eq_dec : EqDecision OAuthConfig.
Proof. solve_decision. Defined.
#[global] Instance AuthConfig_eq_dec : EqDecision AuthConfig.
Proof. solve_decision. Defined.
#[global] Instance RemoteBackend_eq_dec : EqDecision RemoteBackend.
Proof. solve_decision. Defined.
