(* ===== verification/DeepCopy.v ===== *)
(** Copying the custom resources deeply (zz_generated.deepcopy.go): the resources as they lie
    in memory, the copying functions, and that a copy reads the same and shares nothing. *)

From stdpp Require Import base numbers gmap strings list.
From S2P Require Import Prelude Memory Crd.
Local Open Scope Z_scope.

(** ** The API machinery

    Object and list metadata, metric specifications and times are types of other packages,
    with memory and copying functions of their own. *)
Class Machinery := {
  xMeta : Type;
  xListMeta : Type;
  xMetric : Type;
  xTime : Type;
  xCell : Type
}.
Record TypeMeta := mkTypeMeta { tm_Kind : string; tm_APIVersion : string }.

(** ** The resources in memory *)
Section Types.
Context `{Machinery}.

Record pAuthConfig := mkPAuth { pac_Type : string; pac_OAuthConfig : ptr OAuthConfig }.
Record pRemoteBackend := mkPRemote {
  prb_Host : string;
  prb_AuthConfig : ptr pAuthConfig;
  prb_PathPrefix : string;
  prb_HeadersToAdd : mapref;
  prb_Scheme : string
}.
Record pOffloadingConfig := mkPOffloading {
  pol_RemoteBackend : ptr pRemoteBackend;
  pol_Metrics : slice xMetric;
  pol_Behavior : ptr OffloadingBehavior
}.
Record pServerlessConfig := mkPServerless {
  psc_MinNumReplicas : Z;
  psc_MaxNumReplicas : Z;
  psc_Metric : ptr string;
  psc_Target : ptr string;
  psc_ScaleUpMinimum : ptr Z;
  psc_ScaleDownDelay : ptr string;
  psc_StableWindow : ptr string;
  psc_LastPodRetentionPeriod : ptr string
}.
Record pModelSpec := mkPModelSpec {
  pms_Model : string;
  pms_Enabled : bool;
  pms_ModelSourceRef : ObjectReference;
  pms_ServiceRef : ptr ServiceReference;
  pms_MetricServiceRef : ptr ServiceReference;
  pms_Environment : string;
  pms_Policies : slice PolicyRef;
  pms_ServerlessConfig : ptr pServerlessConfig;
  pms_OffloadingConfig : ptr pOffloadingConfig
}.
Record pModelStatus := mkPModelStatus {
  pmt_OffloadingStatus : bool;
  pmt_ServingPort : Z;
  pmt_MetricPort : Z;
  pmt_Workspace : string;
  pmt_CreatedAtOnBeamlit : xTime;
  pmt_UpdatedAtOnBeamlit : xTime
}.
Record pModel := mkPModel { pm_TypeMeta : TypeMeta; pm_ObjectMeta : xMeta; pm_Spec : pModelSpec; pm_Status : pModelStatus }.
Record pTool := mkPTool {
  pt_TypeMeta : TypeMeta; pt_ObjectMeta : xMeta; pt_Spec : ToolDeploymentSpec; pt_Status : ToolDeploymentStatus
}.
Record pPolicySpec := mkPPolicySpec {
  pps_DisplayName : string;
  pps_Type : string;
  pps_Locations : slice PolicyLocation;
  pps_Flavors : slice PolicyFlavor
}.
Record pPolicyStatus := mkPPolicyStatus {
  ppt_CreatedAtOnBeamlit : xTime; ppt_UpdatedAtOnBeamlit : xTime; ppt_Workspace : string
}.
Record pPolicy := mkPPolicy { pp_TypeMeta : TypeMeta; pp_ObjectMeta : xMeta; pp_Spec : pPolicySpec; pp_Status : pPolicyStatus }.
Record pList (T : Type) := mkPList { plist_TypeMeta : TypeMeta; plist_ListMeta : xListMeta; plist_Items : slice T }.

(** What a cell may hold. *)
Inductive cell :=
| CMachinery (x : xCell)
| CMetrics (x : list xMetric)
| CString (x : string)
| CInt (x : Z)
| CHeaders (x : gmap string string)
| COAuthConfig (x : OAuthConfig)
| CAuthConfig (x : pAuthConfig)
| CRemoteBackend (x : pRemoteBackend)
| CBehavior (x : OffloadingBehavior)
| COffloadingConfig (x : pOffloadingConfig)
| CServerlessConfig (x : pServerlessConfig)
| CServiceReference (x : ServiceReference)
| CPolicyRef (x : PolicyRef)
| CPolicyRefs (x : list PolicyRef)
| CModelSpec (x : pModelSpec)
| CModelStatus (x : pModelStatus)
| CModel (x : pModel)
| CModels (x : list pModel)
| CModelList (x : pList pModel)
| CToolSpec (x : ToolDeploymentSpec)
| CToolStatus (x : ToolDeploymentStatus)
| CTool (x : pTool)
| CTools (x : list pTool)
| CToolList (x : pList pTool)
| CPolicyLocation (x : PolicyLocation)
| CPolicyLocations (x : list PolicyLocation)
| CPolicyFlavor (x : PolicyFlavor)
| CPolicyFlavors (x : list PolicyFlavor)
| CPolicySpec (x : pPolicySpec)
| CPolicyStatus (x : pPolicyStatus)
| CPolicy (x : pPolicy)
| CPolicies (x : list pPolicy)
| CPolicyList (x : pList pPolicy).

Local Abbreviation heap := (gmap loc cell).
(** A cell of the constructor [K] is read back, any other one is not. *)
#[local] Ltac stored K :=
  unshelve refine {| to_cell := K; of_cell := _ |};
  [let c := fresh in intros c; destruct c; solve [apply Some; assumption|exact None]|done].
#[global] Instance stored_CMetrics : Stored cell (list xMetric). Proof. stored CMetrics. Defined.
#[global] Instance stored_CString : Stored cell (string). Proof. stored CString. Defined.
#[global] Instance stored_CInt : Stored cell (Z). Proof. stored CInt. Defined.
#[global] Instance stored_CHeaders : Stored cell (gmap string string). Proof. stored CHeaders. Defined.
#[global] Instance stored_COAuthConfig : Stored cell (OAuthConfig). Proof. stored COAuthConfig. Defined.
#[global] Instance stored_CAuthConfig : Stored cell (pAuthConfig). Proof. stored CAuthConfig. Defined.
#[global] Instance stored_CRemoteBackend : Stored cell (pRemoteBackend). Proof. stored CRemoteBackend. Defined.
#[global] Instance stored_CBehavior : Stored cell (OffloadingBehavior). Proof. stored CBehavior. Defined.
#[global] Instance stored_COffloadingConfig : Stored cell (pOffloadingConfig). Proof. stored COffloadingConfig. Defined.
#[global] Instance stored_CServerlessConfig : Stored cell (pServerlessConfig). Proof. stored CServerlessConfig. Defined.
#[global] Instance stored_CServiceReference : Stored cell (ServiceReference). Proof. stored CServiceReference. Defined.
#[global] Instance stored_CPolicyRef : Stored cell (PolicyRef). Proof. stored CPolicyRef. Defined.
#[global] Instance stored_CPolicyRefs : Stored cell (list PolicyRef). Proof. stored CPolicyRefs. Defined.
#[global] Instance stored_CModelSpec : Stored cell (pModelSpec). Proof. stored CModelSpec. Defined.
#[global] Instance stored_CModelStatus : Stored cell (pModelStatus). Proof. stored CModelStatus. Defined.
#[global] Instance stored_CModel : Stored cell (pModel). Proof. stored CModel. Defined.
#[global] Instance stored_CModels : Stored cell (list pModel). Proof. stored CModels. Defined.
#[global] Instance stored_CModelList : Stored cell (pList pModel). Proof. stored CModelList. Defined.
#[global] Instance stored_CToolSpec : Stored cell (ToolDeploymentSpec). Proof. stored CToolSpec. Defined.
#[global] Instance stored_CToolStatus : Stored cell (ToolDeploymentStatus). Proof. stored CToolStatus. Defined.
#[global] Instance stored_CTool : Stored cell (pTool). Proof. stored CTool. Defined.
#[global] Instance stored_CTools : Stored cell (list pTool). Proof. stored CTools. Defined.
#[global] Instance stored_CToolList : Stored cell (pList pTool). Proof. stored CToolList. Defined.
#[global] Instance stored_CPolicyLocation : Stored cell (PolicyLocation). Proof. stored CPolicyLocation. Defined.
#[global] Instance stored_CPolicyLocations : Stored cell (list PolicyLocation). Proof. stored CPolicyLocations. Defined.
#[global] Instance stored_CPolicyFlavor : Stored cell (PolicyFlavor). Proof. stored CPolicyFlavor. Defined.
#[global] Instance stored_CPolicyFlavors : Stored cell (list PolicyFlavor). Proof. stored CPolicyFlavors. Defined.
#[global] Instance stored_CPolicySpec : Stored cell (pPolicySpec). Proof. stored CPolicySpec. Defined.
#[global] Instance stored_CPolicyStatus : Stored cell (pPolicyStatus). Proof. stored CPolicyStatus. Defined.
#[global] Instance stored_CPolicy : Stored cell (pPolicy). Proof. stored CPolicy. Defined.
#[global] Instance stored_CPolicies : Stored cell (list pPolicy). Proof. stored CPolicies. Defined.
#[global] Instance stored_CPolicyList : Stored cell (pList pPolicy). Proof. stored CPolicyList. Defined.
End Types.

(** The copying functions of other packages. *)
Class MachineryCopies `{Machinery} := {
  ObjectMeta_DeepCopyInto : xMeta -> M (gmap loc cell) xMeta;
  ListMeta_DeepCopyInto : xListMeta -> M (gmap loc cell) xListMeta;
  MetricSpec_DeepCopyInto : xMetric -> M (gmap loc cell) xMetric;
  Time_DeepCopyInto : xTime -> M (gmap loc cell) xTime
}.

(** ** The copying functions

    [DeepCopyInto] gives what it leaves in [*out]; [DeepCopy] allocates the copy.  A struct of
    plain fields is copied by [*out = *in]. *)

(** A value of the interface [runtime.Object]. *)
Inductive runtime_Object `{Machinery} :=
| ObjectModelDeployment (p : ptr pModel)
| ObjectModelDeploymentList (p : ptr (pList pModel))
| ObjectToolDeployment (p : ptr pTool)
| ObjectToolDeploymentList (p : ptr (pList pTool))
| ObjectPolicy (p : ptr pPolicy)
| ObjectPolicyList (p : ptr (pList pPolicy)).

Module OAuthConfig.
Section Code.
Context `{MachineryCopies}.
(** [src/api/v1alpha1/deployment/zz_generated.deepcopy.go:166-168 OAuthConfig.DeepCopyInto] *)
Definition DeepCopyInto (in_ : OAuthConfig) : M (gmap loc cell) OAuthConfig := mret in_.

(** [src/api/v1alpha1/deployment/zz_generated.deepcopy.go:171-178 OAuthConfig.DeepCopy] *)
Definition DeepCopy (in_ : ptr OAuthConfig) : M (gmap loc cell) (ptr OAuthConfig) := copy_ptr DeepCopyInto in_.
End Code.
End OAuthConfig.

Module OffloadingBehavior.
Section Code.
Context `{MachineryCopies}.
(** [src/api/v1alpha1/deployment/zz_generated.deepcopy.go:181-183 OffloadingBehavior.DeepCopyInto] *)
Definition DeepCopyInto (in_ : OffloadingBehavior) : M (gmap loc cell) OffloadingBehavior := mret in_.

(** [src/api/v1alpha1/deployment/zz_generated.deepcopy.go:186-193 OffloadingBehavior.DeepCopy] *)
Definition DeepCopy (in_ : ptr OffloadingBehavior) : M (gmap loc cell) (ptr OffloadingBehavior) := copy_ptr DeepCopyInto in_.
End Code.
End OffloadingBehavior.

Module PolicyRef.
Section Code.
Context `{MachineryCopies}.
(** [src/api/v1alpha1/deployment/zz_generated.deepcopy.go:228-231 PolicyRef.DeepCopyInto] *)
Definition DeepCopyInto (in_ : PolicyRef) : M (gmap loc cell) PolicyRef := mret in_.

(** [src/api/v1alpha1/deployment/zz_generated.deepcopy.go:234-241 PolicyRef.DeepCopy] *)
Definition DeepCopy (in_ : ptr PolicyRef) : M (gmap loc cell) (ptr PolicyRef) := copy_ptr DeepCopyInto in_.
End Code.
End PolicyRef.

Module ServiceReference.
Section Code.
Context `{MachineryCopies}.
(** [src/api/v1alpha1/deployment/zz_generated.deepcopy.go:316-319 ServiceReference.DeepCopyInto] *)
Definition DeepCopyInto (in_ : ServiceReference) : M (gmap loc cell) ServiceReference := mret in_.

(** [src/api/v1alpha1/deployment/zz_generated.deepcopy.go:322-329 ServiceReference.DeepCopy] *)
Definition DeepCopy (in_ : ptr ServiceReference) : M (gmap loc cell) (ptr ServiceReference) := copy_ptr DeepCopyInto in_.
End Code.
End ServiceReference.

Module ToolDeploymentSpec.
Section Code.
Context `{MachineryCopies}.
(** [src/api/v1alpha1/deployment/zz_generated.deepcopy.go:391-393 ToolDeploymentSpec.DeepCopyInto] *)
Definition DeepCopyInto (in_ : ToolDeploymentSpec) : M (gmap loc cell) ToolDeploymentSpec := mret in_.

(** [src/api/v1alpha1/deployment/zz_generated.deepcopy.go:396-403 ToolDeploymentSpec.DeepCopy] *)
Definition DeepCopy (in_ : ptr ToolDeploymentSpec) : M (gmap loc cell) (ptr ToolDeploymentSpec) := copy_ptr DeepCopyInto in_.
End Code.
End ToolDeploymentSpec.

Module ToolDeploymentStatus.
Section Code.
Context `{MachineryCopies}.
(** [src/api/v1alpha1/deployment/zz_generated.deepcopy.go:406-408 ToolDeploymentStatus.DeepCopyInto] *)
Definition DeepCopyInto (in_ : ToolDeploymentStatus) : M (gmap loc cell) ToolDeploymentStatus := mret in_.

(** [src/api/v1alpha1/deployment/zz_generated.deepcopy.go:411-418 ToolDeploymentStatus.DeepCopy] *)
Definition DeepCopy (in_ : ptr ToolDeploymentStatus) : M (gmap loc cell) (ptr ToolDeploymentStatus) := copy_ptr DeepCopyInto in_.
End Code.
End ToolDeploymentStatus.

Module PolicyFlavor.
Section Code.
Context `{MachineryCopies}.
(** [src/api/v1alpha1/authorization/zz_generated.deepcopy.go:55-57 PolicyFlavor.DeepCopyInto] *)
Definition DeepCopyInto (in_ : PolicyFlavor) : M (gmap loc cell) PolicyFlavor := mret in_.

(** [src/api/v1alpha1/authorization/zz_generated.deepcopy.go:60-67 PolicyFlavor.DeepCopy] *)
Definition DeepCopy (in_ : ptr PolicyFlavor) : M (gmap loc cell) (ptr PolicyFlavor) := copy_ptr DeepCopyInto in_.
End Code.
End PolicyFlavor.

Module PolicyLocation.
Section Code.
Context `{MachineryCopies}.
(** [src/api/v1alpha1/authorization/zz_generated.deepcopy.go:102-104 PolicyLocation.DeepCopyInto] *)
Definition DeepCopyInto (in_ : PolicyLocation) : M (gmap loc cell) PolicyLocation := mret in_.

(** [src/api/v1alpha1/authorization/zz_generated.deepcopy.go:107-114 PolicyLocation.DeepCopy] *)
Definition DeepCopy (in_ : ptr PolicyLocation) : M (gmap loc cell) (ptr PolicyLocation) := copy_ptr DeepCopyInto in_.
End Code.
End PolicyLocation.

Module AuthConfig.
Section Code.
Context `{MachineryCopies}.
(** [src/api/v1alpha1/deployment/zz_generated.deepcopy.go:29-36 AuthConfig.DeepCopyInto] *)
Definition DeepCopyInto (in_ : pAuthConfig) : M (gmap loc cell) pAuthConfig :=
  oauth ← copy_ptr mret (pac_OAuthConfig in_);
  mret (mkPAuth (pac_Type in_) oauth).

(** [src/api/v1alpha1/deployment/zz_generated.deepcopy.go:39-46 AuthConfig.DeepCopy] *)
Definition DeepCopy (in_ : ptr pAuthConfig) : M (gmap loc cell) (ptr pAuthConfig) := copy_ptr DeepCopyInto in_.
End Code.
End AuthConfig.

Module RemoteBackend.
Section Code.
Context `{MachineryCopies}.
(** [src/api/v1alpha1/deployment/zz_generated.deepcopy.go:244-258 RemoteBackend.DeepCopyInto] *)
Definition DeepCopyInto (in_ : pRemoteBackend) : M (gmap loc cell) pRemoteBackend :=
  auth ← copy_ptr AuthConfig.DeepCopyInto (prb_AuthConfig in_);
  headers ← copy_map (prb_HeadersToAdd in_);
  mret (mkPRemote (prb_Host in_) auth (prb_PathPrefix in_) headers (prb_Scheme in_)).

(** [src/api/v1alpha1/deployment/zz_generated.deepcopy.go:261-268 RemoteBackend.DeepCopy] *)
Definition DeepCopy (in_ : ptr pRemoteBackend) : M (gmap loc cell) (ptr pRemoteBackend) := copy_ptr DeepCopyInto in_.
End Code.
End RemoteBackend.

Module OffloadingConfig.
Section Code.
Context `{MachineryCopies}.
(** [src/api/v1alpha1/deployment/zz_generated.deepcopy.go:196-215 OffloadingConfig.DeepCopyInto] *)
Definition DeepCopyInto (in_ : pOffloadingConfig) : M (gmap loc cell) pOffloadingConfig :=
  remoteBackend ← copy_ptr RemoteBackend.DeepCopyInto (pol_RemoteBackend in_);
  metrics ← copy_slice MetricSpec_DeepCopyInto (pol_Metrics in_);
  behavior ← copy_ptr mret (pol_Behavior in_);
  mret (mkPOffloading remoteBackend metrics behavior).

(** [src/api/v1alpha1/deployment/zz_generated.deepcopy.go:218-225 OffloadingConfig.DeepCopy] *)
Definition DeepCopy (in_ : ptr pOffloadingConfig) : M (gmap loc cell) (ptr pOffloadingConfig) := copy_ptr DeepCopyInto in_.
End Code.
End OffloadingConfig.

Module ServerlessConfig.
Section Code.
Context `{MachineryCopies}.
(** [src/api/v1alpha1/deployment/zz_generated.deepcopy.go:271-303 ServerlessConfig.DeepCopyInto] *)
Definition DeepCopyInto (in_ : pServerlessConfig) : M (gmap loc cell) pServerlessConfig :=
  metric ← copy_ptr mret (psc_Metric in_);
  target ← copy_ptr mret (psc_Target in_);
  scaleUpMinimum ← copy_ptr mret (psc_ScaleUpMinimum in_);
  scaleDownDelay ← copy_ptr mret (psc_ScaleDownDelay in_);
  stableWindow ← copy_ptr mret (psc_StableWindow in_);
  lastPodRetentionPeriod ← copy_ptr mret (psc_LastPodRetentionPeriod in_);
  mret (mkPServerless (psc_MinNumReplicas in_) (psc_MaxNumReplicas in_) metric target scaleUpMinimum scaleDownDelay
          stableWindow lastPodRetentionPeriod).

(** [src/api/v1alpha1/deployment/zz_generated.deepcopy.go:306-313 ServerlessConfig.DeepCopy] *)
Definition DeepCopy (in_ : ptr pServerlessConfig) : M (gmap loc cell) (ptr pServerlessConfig) := copy_ptr DeepCopyInto in_.
End Code.
End ServerlessConfig.

Module ModelDeploymentSpec.
Section Code.
Context `{MachineryCopies}.
(** [src/api/v1alpha1/deployment/zz_generated.deepcopy.go:108-136 ModelDeploymentSpec.DeepCopyInto] *)
Definition DeepCopyInto (in_ : pModelSpec) : M (gmap loc cell) pModelSpec :=
  serviceRef ← copy_ptr mret (pms_ServiceRef in_);
  metricServiceRef ← copy_ptr mret (pms_MetricServiceRef in_);
  policies ← copy_slice mret (pms_Policies in_);
  serverlessConfig ← copy_ptr ServerlessConfig.DeepCopyInto (pms_ServerlessConfig in_);
  offloadingConfig ← copy_ptr OffloadingConfig.DeepCopyInto (pms_OffloadingConfig in_);
  mret (mkPModelSpec (pms_Model in_) (pms_Enabled in_) (pms_ModelSourceRef in_) serviceRef metricServiceRef
          (pms_Environment in_) policies serverlessConfig offloadingConfig).

(** [src/api/v1alpha1/deployment/zz_generated.deepcopy.go:139-146 ModelDeploymentSpec.DeepCopy] *)
Definition DeepCopy (in_ : ptr pModelSpec) : M (gmap loc cell) (ptr pModelSpec) := copy_ptr DeepCopyInto in_.
End Code.
End ModelDeploymentSpec.

Module ModelDeploymentStatus.
Section Code.
Context `{MachineryCopies}.
(** [src/api/v1alpha1/deployment/zz_generated.deepcopy.go:149-153 ModelDeploymentStatus.DeepCopyInto] *)
Definition DeepCopyInto (in_ : pModelStatus) : M (gmap loc cell) pModelStatus :=
  createdAt ← Time_DeepCopyInto (pmt_CreatedAtOnBeamlit in_);
  updatedAt ← Time_DeepCopyInto (pmt_UpdatedAtOnBeamlit in_);
  mret (mkPModelStatus (pmt_OffloadingStatus in_) (pmt_ServingPort in_) (pmt_MetricPort in_) (pmt_Workspace in_)
          createdAt updatedAt).

(** [src/api/v1alpha1/deployment/zz_generated.deepcopy.go:156-163 ModelDeploymentStatus.DeepCopy] *)
Definition DeepCopy (in_ : ptr pModelStatus) : M (gmap loc cell) (ptr pModelStatus) := copy_ptr DeepCopyInto in_.
End Code.
End ModelDeploymentStatus.

Module ModelDeployment.
Section Code.
Context `{MachineryCopies}.
(** [src/api/v1alpha1/deployment/zz_generated.deepcopy.go:49-55 ModelDeployment.DeepCopyInto] *)
Definition DeepCopyInto (in_ : pModel) : M (gmap loc cell) pModel :=
  objectMeta ← ObjectMeta_DeepCopyInto (pm_ObjectMeta in_);
  spec ← ModelDeploymentSpec.DeepCopyInto (pm_Spec in_);
  status ← ModelDeploymentStatus.DeepCopyInto (pm_Status in_);
  mret (mkPModel (pm_TypeMeta in_) objectMeta spec status).

(** [src/api/v1alpha1/deployment/zz_generated.deepcopy.go:58-65 ModelDeployment.DeepCopy] *)
Definition DeepCopy (in_ : ptr pModel) : M (gmap loc cell) (ptr pModel) := copy_ptr DeepCopyInto in_.

(** [src/api/v1alpha1/deployment/zz_generated.deepcopy.go:68-73 ModelDeployment.DeepCopyObject] *)
Definition DeepCopyObject (in_ : ptr pModel) : M (gmap loc cell) (option runtime_Object) :=
  c ← DeepCopy in_;
  mret (match addr c with Some _ => Some (ObjectModelDeployment c) | None => None end).
End Code.
End ModelDeployment.

Module ModelDeploymentList.
Section Code.
Context `{MachineryCopies}.
(** [src/api/v1alpha1/deployment/zz_generated.deepcopy.go:76-87 ModelDeploymentList.DeepCopyInto] *)
Definition DeepCopyInto (in_ : pList pModel) : M (gmap loc cell) (pList pModel) :=
  listMeta ← ListMeta_DeepCopyInto (plist_ListMeta _ in_);
  items ← copy_slice ModelDeployment.DeepCopyInto (plist_Items _ in_);
  mret (mkPList _ (plist_TypeMeta _ in_) listMeta items).

(** [src/api/v1alpha1/deployment/zz_generated.deepcopy.go:90-97 ModelDeploymentList.DeepCopy] *)
Definition DeepCopy (in_ : ptr (pList pModel)) : M (gmap loc cell) (ptr (pList pModel)) := copy_ptr DeepCopyInto in_.

(** [src/api/v1alpha1/deployment/zz_generated.deepcopy.go:100-105 ModelDeploymentList.DeepCopyObject] *)
Definition DeepCopyObject (in_ : ptr (pList pModel)) : M (gmap loc cell) (option runtime_Object) :=
  c ← DeepCopy in_;
  mret (match addr c with Some _ => Some (ObjectModelDeploymentList c) | None => None end).
End Code.
End ModelDeploymentList.

Module ToolDeployment.
Section Code.
Context `{MachineryCopies}.
(** [src/api/v1alpha1/deployment/zz_generated.deepcopy.go:332-338 ToolDeployment.DeepCopyInto] *)
Definition DeepCopyInto (in_ : pTool) : M (gmap loc cell) pTool :=
  objectMeta ← ObjectMeta_DeepCopyInto (pt_ObjectMeta in_);
  mret (mkPTool (pt_TypeMeta in_) objectMeta (pt_Spec in_) (pt_Status in_)).

(** [src/api/v1alpha1/deployment/zz_generated.deepcopy.go:341-348 ToolDeployment.DeepCopy] *)
Definition DeepCopy (in_ : ptr pTool) : M (gmap loc cell) (ptr pTool) := copy_ptr DeepCopyInto in_.

(** [src/api/v1alpha1/deployment/zz_generated.deepcopy.go:351-356 ToolDeployment.DeepCopyObject] *)
Definition DeepCopyObject (in_ : ptr pTool) : M (gmap loc cell) (option runtime_Object) :=
  c ← DeepCopy in_;
  mret (match addr c with Some _ => Some (ObjectToolDeployment c) | None => None end).
End Code.
End ToolDeployment.

Module ToolDeploymentList.
Section Code.
Context `{MachineryCopies}.
(** [src/api/v1alpha1/deployment/zz_generated.deepcopy.go:359-370 ToolDeploymentList.DeepCopyInto] *)
Definition DeepCopyInto (in_ : pList pTool) : M (gmap loc cell) (pList pTool) :=
  listMeta ← ListMeta_DeepCopyInto (plist_ListMeta _ in_);
  items ← copy_slice ToolDeployment.DeepCopyInto (plist_Items _ in_);
  mret (mkPList _ (plist_TypeMeta _ in_) listMeta items).

(** [src/api/v1alpha1/deployment/zz_generated.deepcopy.go:373-380 ToolDeploymentList.DeepCopy] *)
Definition DeepCopy (in_ : ptr (pList pTool)) : M (gmap loc cell) (ptr (pList pTool)) := copy_ptr DeepCopyInto in_.

(** [src/api/v1alpha1/deployment/zz_generated.deepcopy.go:383-388 ToolDeploymentList.DeepCopyObject] *)
Definition DeepCopyObject (in_ : ptr (pList pTool)) : M (gmap loc cell) (option runtime_Object) :=
  c ← DeepCopy in_;
  mret (match addr c with Some _ => Some (ObjectToolDeploymentList c) | None => None end).
End Code.
End ToolDeploymentList.

Module PolicySpec.
Section Code.
Context `{MachineryCopies}.
(** [src/api/v1alpha1/authorization/zz_generated.deepcopy.go:117-129 PolicySpec.DeepCopyInto] *)
Definition DeepCopyInto (in_ : pPolicySpec) : M (gmap loc cell) pPolicySpec :=
  locations ← copy_slice mret (pps_Locations in_);
  flavors ← copy_slice mret (pps_Flavors in_);
  mret (mkPPolicySpec (pps_DisplayName in_) (pps_Type in_) locations flavors).

(** [src/api/v1alpha1/authorization/zz_generated.deepcopy.go:132-139 PolicySpec.DeepCopy] *)
Definition DeepCopy (in_ : ptr pPolicySpec) : M (gmap loc cell) (ptr pPolicySpec) := copy_ptr DeepCopyInto in_.
End Code.
End PolicySpec.

Module PolicyStatus.
Section Code.
Context `{MachineryCopies}.
(** [src/api/v1alpha1/authorization/zz_generated.deepcopy.go:142-146 PolicyStatus.DeepCopyInto] *)
Definition DeepCopyInto (in_ : pPolicyStatus) : M (gmap loc cell) pPolicyStatus :=
  createdAt ← Time_DeepCopyInto (ppt_CreatedAtOnBeamlit in_);
  updatedAt ← Time_DeepCopyInto (ppt_UpdatedAtOnBeamlit in_);
  mret (mkPPolicyStatus createdAt updatedAt (ppt_Workspace in_)).

(** [src/api/v1alpha1/authorization/zz_generated.deepcopy.go:149-156 PolicyStatus.DeepCopy] *)
Definition DeepCopy (in_ : ptr pPolicyStatus) : M (gmap loc cell) (ptr pPolicyStatus) := copy_ptr DeepCopyInto in_.
End Code.
End PolicyStatus.

Module Policy.
Section Code.
Context `{MachineryCopies}.
(** [src/api/v1alpha1/authorization/zz_generated.deepcopy.go:28-34 Policy.DeepCopyInto] *)
Definition DeepCopyInto (in_ : pPolicy) : M (gmap loc cell) pPolicy :=
  objectMeta ← ObjectMeta_DeepCopyInto (pp_ObjectMeta in_);
  spec ← PolicySpec.DeepCopyInto (pp_Spec in_);
  status ← PolicyStatus.DeepCopyInto (pp_Status in_);
  mret (mkPPolicy (pp_TypeMeta in_) objectMeta spec status).

(** [src/api/v1alpha1/authorization/zz_generated.deepcopy.go:37-44 Policy.DeepCopy] *)
Definition DeepCopy (in_ : ptr pPolicy) : M (gmap loc cell) (ptr pPolicy) := copy_ptr DeepCopyInto in_.

(** [src/api/v1alpha1/authorization/zz_generated.deepcopy.go:47-52 Policy.DeepCopyObject] *)
Definition DeepCopyObject (in_ : ptr pPolicy) : M (gmap loc cell) (option runtime_Object) :=
  c ← DeepCopy in_;
  mret (match addr c with Some _ => Some (ObjectPolicy c) | None => None end).
End Code.
End Policy.

Module PolicyList.
Section Code.
Context `{MachineryCopies}.
(** [src/api/v1alpha1/authorization/zz_generated.deepcopy.go:70-81 PolicyList.DeepCopyInto] *)
Definition DeepCopyInto (in_ : pList pPolicy) : M (gmap loc cell) (pList pPolicy) :=
  listMeta ← ListMeta_DeepCopyInto (plist_ListMeta _ in_);
  items ← copy_slice Policy.DeepCopyInto (plist_Items _ in_);
  mret (mkPList _ (plist_TypeMeta _ in_) listMeta items).

(** [src/api/v1alpha1/authorization/zz_generated.deepcopy.go:84-91 PolicyList.DeepCopy] *)
Definition DeepCopy (in_ : ptr (pList pPolicy)) : M (gmap loc cell) (ptr (pList pPolicy)) := copy_ptr DeepCopyInto in_.

(** [src/api/v1alpha1/authorization/zz_generated.deepcopy.go:94-99 PolicyList.DeepCopyObject] *)
Definition DeepCopyObject (in_ : ptr (pList pPolicy)) : M (gmap loc cell) (option runtime_Object) :=
  c ← DeepCopy in_;
  mret (match addr c with Some _ => Some (ObjectPolicyList c) | None => None end).
End Code.
End PolicyList.

(** ** What the resources in memory mean *)

Section Flat.
#[local] Ltac plain := exact I.
#[global] Instance TypeMeta_flat : Flat TypeMeta. Proof. plain. Qed.
#[global] Instance string_flat : Flat string. Proof. plain. Qed.
#[global] Instance Z_flat : Flat Z. Proof. plain. Qed.
#[global] Instance bool_flat : Flat bool. Proof. plain. Qed.
#[global] Instance ObjectReference_flat : Flat ObjectReference. Proof. plain. Qed.
#[global] Instance ServiceReference_flat : Flat ServiceReference. Proof. plain. Qed.
#[global] Instance OAuthConfig_flat : Flat OAuthConfig. Proof. plain. Qed.
#[global] Instance OffloadingBehavior_flat : Flat OffloadingBehavior. Proof. plain. Qed.
#[global] Instance PolicyRef_flat : Flat PolicyRef. Proof. plain. Qed.
#[global] Instance PolicyLocation_flat : Flat PolicyLocation. Proof. plain. Qed.
#[global] Instance PolicyFlavor_flat : Flat PolicyFlavor. Proof. plain. Qed.
#[global] Instance ToolDeploymentSpec_flat : Flat ToolDeploymentSpec. Proof. plain. Qed.
#[global] Instance ToolDeploymentStatus_flat : Flat ToolDeploymentStatus. Proof. plain. Qed.
End Flat.

(** The types of other packages have a meaning as well, and their functions copy them. *)
Class MachinerySpec `{MachineryCopies} := {
  ListMeta : Type;
  meta_layout :: Layout cell xMeta ObjectMeta;
  list_meta_layout :: Layout cell xListMeta ListMeta;
  metric_layout :: Layout cell xMetric MetricSpec;
  time_layout :: Layout cell xTime Z;
  copies_meta : copies ObjectMeta_DeepCopyInto;
  copies_list_meta : copies ListMeta_DeepCopyInto;
  copies_metric : copies MetricSpec_DeepCopyInto;
  copies_time : copies Time_DeepCopyInto
}.

Section Layouts.
Context `{Hspec : MachinerySpec}.

#[global] Instance AuthConfig_layout : Layout cell pAuthConfig AuthConfig :=
  layout_via (fun a => (pac_Type a, pac_OAuthConfig a)) (fun '(t, o) => mkAuthConfig t o).
#[global] Instance RemoteBackend_layout : Layout cell pRemoteBackend RemoteBackend :=
  layout_via (fun b => (prb_Host b, (prb_AuthConfig b, (prb_PathPrefix b, (prb_HeadersToAdd b, prb_Scheme b)))))
    (fun '(h, (a, (p, (m, s)))) => mkRemoteBackend h a p (default ∅ m) s).
#[global] Instance OffloadingConfig_layout : Layout cell pOffloadingConfig OffloadingConfig :=
  layout_via (fun o => (pol_RemoteBackend o, (pol_Metrics o, pol_Behavior o)))
    (fun '(r, (m, b)) => mkOffloading r (default [] m) b).
#[global] Instance ServerlessConfig_layout : Layout cell pServerlessConfig ServerlessConfig :=
  layout_via (fun s => (psc_MinNumReplicas s, (psc_MaxNumReplicas s, (psc_Metric s, (psc_Target s,
                        (psc_ScaleUpMinimum s, (psc_ScaleDownDelay s, (psc_StableWindow s, psc_LastPodRetentionPeriod s))))))))
    (fun '(a, (b, (c, (d, (e, (f, (g, h))))))) => mkServerless a b c d e f g h).
#[global] Instance ModelSpec_layout : Layout cell pModelSpec ModelDeploymentSpec :=
  layout_via (fun s => (pms_Model s, (pms_Enabled s, (pms_ModelSourceRef s, (pms_ServiceRef s, (pms_MetricServiceRef s,
                        (pms_Environment s, (pms_Policies s, (pms_ServerlessConfig s, pms_OffloadingConfig s)))))))))
    (fun '(a, (b, (c, (d, (e, (f, (g, (h, i)))))))) => mkModelSpec a b c d e f (default [] g) h i).
#[global] Instance ModelStatus_layout : Layout cell pModelStatus ModelDeploymentStatus :=
  layout_via (fun s => (pmt_OffloadingStatus s, (pmt_ServingPort s, (pmt_MetricPort s, (pmt_Workspace s,
                        (pmt_CreatedAtOnBeamlit s, pmt_UpdatedAtOnBeamlit s))))))
    (fun '(a, (b, (c, (d, (e, f))))) => mkModelStatus a b c d e f).
#[global] Instance Model_layout : Layout cell pModel (TypeMeta * ModelDeployment) :=
  layout_via (fun m => (pm_TypeMeta m, (pm_ObjectMeta m, (pm_Spec m, pm_Status m))))
    (fun '(t, (d, (s, u))) => (t, mkModel d s u)).
#[global] Instance Tool_layout : Layout cell pTool (TypeMeta * ToolDeployment) :=
  layout_via (fun m => (pt_TypeMeta m, (pt_ObjectMeta m, (pt_Spec m, pt_Status m))))
    (fun '(t, (d, (s, u))) => (t, mkTool d s u)).
#[global] Instance PolicySpec_layout : Layout cell pPolicySpec PolicySpec :=
  layout_via (fun s => (pps_DisplayName s, (pps_Type s, (pps_Locations s, pps_Flavors s))))
    (fun '(a, (b, (c, d))) => mkPolicySpec a b (default [] c) (default [] d)).
#[global] Instance PolicyStatus_layout : Layout cell pPolicyStatus PolicyStatus :=
  layout_via (fun s => (ppt_CreatedAtOnBeamlit s, (ppt_UpdatedAtOnBeamlit s, ppt_Workspace s)))
    (fun '(a, (b, c)) => mkPolicyStatus a b c).
#[global] Instance Policy_layout : Layout cell pPolicy (TypeMeta * Policy) :=
  layout_via (fun m => (pp_TypeMeta m, (pp_ObjectMeta m, (pp_Spec m, pp_Status m))))
    (fun '(t, (d, (s, u))) => (t, mkPolicy d s u)).
#[global] Instance list_of_layout `{Stored cell (list T), !Layout cell T V} : Layout cell (pList T) (TypeMeta * ListMeta * list V) :=
  layout_via (fun l => (plist_TypeMeta T l, (plist_ListMeta T l, plist_Items T l))) (fun '(t, (d, l)) => (t, d, default [] l)).
End Layouts.

(** ** The functions copy *)
Create HintDb copies discriminated.
#[export] Hint Resolve copies_flat copies_ptr copies_slice copies_map copies_pair copies_meta copies_list_meta copies_metric
  copies_time : copies.

(** A struct is copied field by field. *)
Tactic Notation "by_fields" reference(f) uconstr(g) uconstr(build) :=
  refine (copies_via _ build _ _ g _ _ _); [auto 12 with copies|intros; by repeat case_match|
    intros; unfold f, copy_pair, mbind, M_bind, mret, M_ret; cbn; by repeat case_match; simplify_eq].

Section Copies.
Context `{Hspec : MachinerySpec}.

Lemma copies_AuthConfig : copies AuthConfig.DeepCopyInto.
Proof. by_fields AuthConfig.DeepCopyInto (copy_pair mret (copy_ptr mret)) (fun '(t, o) => mkPAuth t o). Qed.
#[local] Hint Resolve copies_AuthConfig : copies.
Lemma copies_RemoteBackend : copies RemoteBackend.DeepCopyInto.
Proof.
  by_fields RemoteBackend.DeepCopyInto
    (copy_pair mret (copy_pair (copy_ptr AuthConfig.DeepCopyInto) (copy_pair mret (copy_pair copy_map mret))))
    (fun '(h, (a, (p, (m, s)))) => mkPRemote h a p m s).
Qed.
#[local] Hint Resolve copies_RemoteBackend : copies.
Lemma copies_OffloadingConfig : copies OffloadingConfig.DeepCopyInto.
Proof.
  by_fields OffloadingConfig.DeepCopyInto
    (copy_pair (copy_ptr RemoteBackend.DeepCopyInto) (copy_pair (copy_slice MetricSpec_DeepCopyInto) (copy_ptr mret)))
    (fun '(r, (m, b)) => mkPOffloading r m b).
Qed.
#[local] Hint Resolve copies_OffloadingConfig : copies.
Lemma copies_ServerlessConfig : copies ServerlessConfig.DeepCopyInto.
Proof.
  by_fields ServerlessConfig.DeepCopyInto
    (copy_pair mret (copy_pair mret (copy_pair (copy_ptr mret) (copy_pair (copy_ptr mret)
    (copy_pair (copy_ptr mret) (copy_pair (copy_ptr mret) (copy_pair (copy_ptr mret) (copy_ptr mret))))))))
    (fun '(a, (b, (c, (d, (e, (f, (g, h))))))) => mkPServerless a b c d e f g h).
Qed.
#[local] Hint Resolve copies_ServerlessConfig : copies.
Lemma copies_ModelDeploymentSpec : copies ModelDeploymentSpec.DeepCopyInto.
Proof.
  by_fields ModelDeploymentSpec.DeepCopyInto
    (copy_pair mret (copy_pair mret (copy_pair mret (copy_pair (copy_ptr mret) (copy_pair (copy_ptr mret)
    (copy_pair mret (copy_pair (copy_slice mret) (copy_pair (copy_ptr ServerlessConfig.DeepCopyInto)
      (copy_ptr OffloadingConfig.DeepCopyInto)))))))))
    (fun '(a, (b, (c, (d, (e, (f, (g, (h, i)))))))) => mkPModelSpec a b c d e f g h i).
Qed.
#[local] Hint Resolve copies_ModelDeploymentSpec : copies.
Lemma copies_ModelDeploymentStatus : copies ModelDeploymentStatus.DeepCopyInto.
Proof.
  by_fields ModelDeploymentStatus.DeepCopyInto
    (copy_pair mret (copy_pair mret (copy_pair mret (copy_pair mret (copy_pair Time_DeepCopyInto Time_DeepCopyInto)))))
    (fun '(a, (b, (c, (d, (e, f))))) => mkPModelStatus a b c d e f).
Qed.
#[local] Hint Resolve copies_ModelDeploymentStatus : copies.
Lemma copies_ModelDeployment : copies ModelDeployment.DeepCopyInto.
Proof.
  by_fields ModelDeployment.DeepCopyInto
    (copy_pair mret (copy_pair ObjectMeta_DeepCopyInto
    (copy_pair ModelDeploymentSpec.DeepCopyInto ModelDeploymentStatus.DeepCopyInto)))
    (fun '(t, (d, (s, u))) => mkPModel t d s u).
Qed.
#[local] Hint Resolve copies_ModelDeployment : copies.
Lemma copies_ToolDeployment : copies ToolDeployment.DeepCopyInto.
Proof.
  by_fields ToolDeployment.DeepCopyInto
    (copy_pair mret (copy_pair ObjectMeta_DeepCopyInto (copy_pair mret mret)))
    (fun '(t, (d, (s, u))) => mkPTool t d s u).
Qed.
#[local] Hint Resolve copies_ToolDeployment : copies.
Lemma copies_PolicySpec : copies PolicySpec.DeepCopyInto.
Proof.
  by_fields PolicySpec.DeepCopyInto
    (copy_pair mret (copy_pair mret (copy_pair (copy_slice mret) (copy_slice mret))))
    (fun '(a, (b, (c, d))) => mkPPolicySpec a b c d).
Qed.
#[local] Hint Resolve copies_PolicySpec : copies.
Lemma copies_PolicyStatus : copies PolicyStatus.DeepCopyInto.
Proof.
  by_fields PolicyStatus.DeepCopyInto
    (copy_pair Time_DeepCopyInto (copy_pair Time_DeepCopyInto mret))
    (fun '(a, (b, c)) => mkPPolicyStatus a b c).
Qed.
#[local] Hint Resolve copies_PolicyStatus : copies.
Lemma copies_Policy : copies Policy.DeepCopyInto.
Proof.
  by_fields Policy.DeepCopyInto
    (copy_pair mret (copy_pair ObjectMeta_DeepCopyInto (copy_pair PolicySpec.DeepCopyInto PolicyStatus.DeepCopyInto)))
    (fun '(t, (d, (s, u))) => mkPPolicy t d s u).
Qed.
#[local] Hint Resolve copies_Policy : copies.
Lemma copies_ModelDeploymentList : copies ModelDeploymentList.DeepCopyInto.
Proof.
  by_fields ModelDeploymentList.DeepCopyInto
    (copy_pair mret (copy_pair ListMeta_DeepCopyInto (copy_slice ModelDeployment.DeepCopyInto)))
    (fun '(t, (d, l)) => mkPList pModel t d l).
Qed.
#[local] Hint Resolve copies_ModelDeploymentList : copies.
Lemma copies_ToolDeploymentList : copies ToolDeploymentList.DeepCopyInto.
Proof.
  by_fields ToolDeploymentList.DeepCopyInto
    (copy_pair mret (copy_pair ListMeta_DeepCopyInto (copy_slice ToolDeployment.DeepCopyInto)))
    (fun '(t, (d, l)) => mkPList pTool t d l).
Qed.
#[local] Hint Resolve copies_ToolDeploymentList : copies.
Lemma copies_PolicyList : copies PolicyList.DeepCopyInto.
Proof.
  by_fields PolicyList.DeepCopyInto
    (copy_pair mret (copy_pair ListMeta_DeepCopyInto (copy_slice Policy.DeepCopyInto)))
    (fun '(t, (d, l)) => mkPList pPolicy t d l).
Qed.
#[local] Hint Resolve copies_PolicyList : copies.
End Copies.

(** ** A copy that is changed

    The reconciler asks the offloader for a service beside the model's own: it copies the
    reference of the model and renames the copy ([Handlers.start_offloading] has the two as
    values). *)
Section Rename.
Context `{MachineryCopies}.

(** [src/internal/controller/modeldeployment_controller.go:272-273 configureOffloading] *)
Definition backendServiceRef (serviceRef : ptr ServiceReference) : M (gmap loc cell) (ptr ServiceReference) :=
  ref ← ServiceReference.DeepCopy serviceRef;
  l ← deref (addr ref);
  s ← load l;
  store l (set_sr_Name (sr_Name s +:+ "-beamlit") s) ;;
  mret ref.
End Rename.

(** ** Properties *)
Section Properties.
Context `{Hspec : MachinerySpec}.

Lemma copies_ServiceReference : copies ServiceReference.DeepCopyInto.
Proof. apply copies_flat. Qed.

(** C40. A deep copy of a custom resource, or of a list of them, reads as the resource does and
    shares no memory with it: copying writes to nothing that was there, and whatever is done
    to either of the two from then on, the other one stays what it was. *)
Theorem deep_copies_are_separate :
  separate ModelDeployment.DeepCopy /\ separate ModelDeploymentList.DeepCopy /\
  separate ModelDeploymentSpec.DeepCopy /\ separate OffloadingConfig.DeepCopy /\ separate RemoteBackend.DeepCopy /\
  separate ServerlessConfig.DeepCopy /\ separate ToolDeployment.DeepCopy /\ separate ToolDeploymentList.DeepCopy /\
  separate Policy.DeepCopy /\ separate PolicyList.DeepCopy /\ separate PolicySpec.DeepCopy.
Proof.
  split_and!; apply copies_separate, copies_ptr;
    first [apply copies_ModelDeploymentList|apply copies_ModelDeploymentSpec|apply copies_ModelDeployment
          |apply copies_OffloadingConfig|apply copies_RemoteBackend|apply copies_ServerlessConfig
          |apply copies_ToolDeploymentList|apply copies_ToolDeployment|apply copies_PolicyList
          |apply copies_PolicySpec|apply copies_Policy].
Qed.

(** The reference the reconciler renames is its own: it reads as the model's with the name
    changed, and the model still reads as it did, its reference included; without a reference
    there is a nil dereference. *)
Theorem renamed_reference_is_a_copy (p : ptr ServiceReference) (m : ptr pModel) h s v :
  reads h p = Some (Some s) -> reads h m = Some v ->
  (exists h' q, backendServiceRef p h = (h', Ok q) /\
    reads h' q = Some (Some (set_sr_Name (sr_Name s +:+ "-beamlit") s)) /\ reads h' m = Some v) /\
  (backendServiceRef (Ptr None) h).2 = Panic.
Proof.
  intros Hp Hm. split; [|done].
  destruct (copies_ptr _ copies_ServiceReference h p _ Hp) as (h1 & [[q|]] & E & [H1 H2 H3]); cbn in H2; [|done].
  destruct (cell_at h1 q) as [s1|] eqn:Hq; [|done]. cbn in H2. injection H2 as ->.
  set (s' := set_sr_Name (sr_Name s +:+ "-beamlit") s).
  exists (<[q := to_cell s']> h1), (Ptr (Some q)). split_and!.
  - unfold backendServiceRef. rewrite (bind_Ok_run _ _ _ _ _ E). cbn [addr deref].
    by rewrite (bind_Ok_run (mret q) _ h1 h1 q eq_refl), (bind_Ok_run _ _ _ _ _ (load_run h1 q s Hq)).
  - pose proof (cell_at_insert h1 q s') as Hi. cbn in *. by rewrite Hi.
  - apply (reads_frame h); [done|]. intros l Hl. pose proof (cells_dom h m v Hm l Hl) as Hd.
    assert (l <> q) as Hne.
    { intros ->. apply (H3 q); [|done]. cbn. unfold ptr_cells. cbn. set_solver +. }
    rewrite lookup_insert_ne by done. apply elem_of_dom in Hd as [c Hc]. rewrite Hc. by eapply lookup_weaken.
Qed.
End Properties.

(** ** Witnesses *)
Module Witness.
(** An API machinery of plain data. *)
#[local] Instance plain_machinery : Machinery :=
  {| xMeta := ObjectMeta; xListMeta := string; xMetric := MetricSpec; xTime := Z; xCell := unit |}.
#[local] Instance plain_copies : MachineryCopies :=
  {| ObjectMeta_DeepCopyInto := mret; ListMeta_DeepCopyInto := mret; MetricSpec_DeepCopyInto := mret;
     Time_DeepCopyInto := mret |}.
#[local] Instance meta_flat : Flat ObjectMeta. Proof. exact I. Qed.
#[local] Instance metric_flat : Flat MetricSpec. Proof. exact I. Qed.
#[local] Instance plain_spec : MachinerySpec.
Proof. refine {| ListMeta := string |}; apply copies_flat. Defined.

(** A model with a reference to a service and an offloading configuration. *)
Definition a_reference : ServiceReference := mkServiceRef (mkRef "Service" "v1" "ns" "svc") 80.
Definition a_backend : pRemoteBackend := mkPRemote "host" (Ptr None) "" (MapRef (Some 5%positive)) "https".
Definition a_spec : pModelSpec :=
  mkPModelSpec "model" true (mkRef "Deployment" "apps/v1" "ns" "dep") (Ptr (Some 2%positive)) (Ptr None) "prod" (Slice None)
    (Ptr None) (Ptr (Some 3%positive)).
Definition a_model : pModel :=
  mkPModel (mkTypeMeta "ModelDeployment" "v1alpha1") (mkMeta "ns" "model" 1 ∅ None []) a_spec (mkPModelStatus false 0 0 "" 0 0).
Definition a_heap : gmap loc cell :=
  <[1%positive := CModel a_model]> (<[2%positive := CServiceReference a_reference]>
  (<[3%positive := COffloadingConfig (mkPOffloading (Ptr (Some 4%positive)) (Slice None) (Ptr None))]>
  (<[4%positive := CRemoteBackend a_backend]> {[5%positive := CHeaders {["k" := "v"]}]}))).

Lemma deep_copies_are_separate_witness : exists v h' p,
  reads a_heap (Ptr (Some 1%positive) : ptr pModel) = Some (Some v) /\
  ModelDeployment.DeepCopy (Ptr (Some 1%positive)) a_heap = (h', Ok p) /\
  reads (<[5%positive := CHeaders ∅]> h') p = Some (Some v).
Proof.
  destruct (reads a_heap (Ptr (Some 1%positive) : ptr pModel)) as [[v|]|] eqn:Hm; [|vm_compute in Hm; discriminate Hm..].
  destruct (proj1 deep_copies_are_separate a_heap _ _ Hm) as (h' & p & E & _ & Hp & _). exists v, h', p. split_and!; [done..|].
  apply Hp. intros l Hl. apply lookup_insert_ne. intros <-. apply Hl. apply elem_of_dom. by vm_compute.
Defined.

Lemma renamed_reference_is_a_copy_witness : exists h' q v,
  backendServiceRef (Ptr (Some 2%positive)) a_heap = (h', Ok q) /\
  reads h' q = Some (Some (set_sr_Name "svc-beamlit" a_reference)) /\
  reads h' (Ptr (Some 1%positive) : ptr pModel) = Some (Some v).
Proof.
  destruct (reads a_heap (Ptr (Some 1%positive) : ptr pModel)) as [[v|]|] eqn:Hm; [|vm_compute in Hm; discriminate Hm..].
  destruct (proj1 (renamed_reference_is_a_copy (Ptr (Some 2%positive)) _ a_heap a_reference _ eq_refl Hm))
    as (h' & q & E & Hq & Hm'). exists h', q, v. done.
Defined.

(** The copy of the model keeps the header although the original's is taken away. *)
Example copied_headers_stay :
  match ModelDeployment.DeepCopy (Ptr (Some 1%positive)) a_heap with
  | (h, Ok p) =>
      match reads (<[5%positive := CHeaders ∅]> h) p, reads (<[5%positive := CHeaders ∅]> h) (Ptr (Some 1%positive) : ptr pModel) with
      | Some (Some (_, c)), Some (Some (_, m)) =>
          let headers (d : ModelDeployment) :=
            o ← mds_OffloadingConfig (md_Spec d); b ← ol_RemoteBackend o; rb_HeadersToAdd b !! "k" in
          (headers c, headers m) = (Some "v", None)
      | _, _ => False
      end
  | _ => False
  end.
Proof. vm_compute. reflexivity. Qed.
End Witness.
