(* ===== verification/Kube.v ===== *)
(** The Kubernetes cluster as the dataplane code uses it: Services and EndpointSlices,
    the API server's calls on them as an interface with its laws, and an in-memory
    API server that obeys the laws. *)

From stdpp Require Import base numbers gmap strings list.
From S2P Require Import Prelude Crd.
Local Open Scope Z_scope.

(** ** Objects *)

(** [intstr.IntOrString]; [IntVal] is 0 when the value is a string. *)
Inductive IntOrString := FromInt (z : Z) | FromString (s : string).
Definition IntVal (v : IntOrString) : Z := match v with FromInt z => z | FromString _ => 0 end.

Record ServicePort := mkServicePort {
  sp_Name : string;
  sp_Protocol : string;
  sp_Port : Z;
  sp_TargetPort : IntOrString
}.
(** The zero value [corev1.ServicePort{}]. *)
Definition zeroServicePort : ServicePort := mkServicePort "" "" 0 (FromInt 0).

Record Service := mkService {
  svc_Namespace : string;
  svc_Name : string;
  svc_Ports : list ServicePort;
  svc_Selector : gmap string string;
  svc_ClusterIP : string;
  svc_ClusterIPs : list string;
  svc_ExternalIPs : list string;
  svc_Type : string
}.
Definition svc_key (s : Service) : NamespacedName := mkNN (svc_Namespace s) (svc_Name s).

Record Endpoint := mkEndpoint {
  ep_Addresses : list string;
  ep_Ready : option bool;
  ep_Serving : option bool;
  ep_Terminating : option bool;
  ep_Hostname : option string;
  ep_NodeName : option string
}.

Record EndpointPort := mkEndpointPort {
  epp_Name : option string;
  epp_Port : option Z;
  epp_Protocol : option string
}.

Record EndpointSlice := mkSlice {
  es_Namespace : string;
  es_Name : string;
  es_Labels : gmap string string;
  es_AddressType : string;
  es_Endpoints : list Endpoint;
  es_Ports : list EndpointPort
}.
Definition es_key (e : EndpointSlice) : NamespacedName := mkNN (es_Namespace e) (es_Name e).

#[global] Instance IntOrString_eq_dec : EqDecision IntOrString.
Proof. solve_decision. Defined.
#[global] Instance ServicePort_eq_dec : EqDecision ServicePort.
Proof. solve_decision. Defined.
#[global] Instance Service_eq_dec : EqDecision Service.
Proof. solve_decision. Defined.
#[global] Instance Endpoint_eq_dec : EqDecision Endpoint.
Proof. solve_decision. Defined.
#[global] Instance EndpointPort_eq_dec : EqDecision EndpointPort.
Proof. solve_decision. Defined.
#[global] Instance EndpointSlice_eq_dec : EqDecision EndpointSlice.
Proof. solve_decision. Defined.

Definition ManagedBy : string := "endpointslice.kubernetes.io/managed-by".
Definition ServiceNameLabel : string := "kubernetes.io/service-name".

(** [src/internal/dataplane/configurer/kubernetes_configurer.go:44-46 OperatorLabel] *)
Definition OperatorLabel : string := "beamlit-operator".

Definition set_labels (m : gmap string string) (e : EndpointSlice) : EndpointSlice :=
  mkSlice (es_Namespace e) (es_Name e) m (es_AddressType e) (es_Endpoints e) (es_Ports e).
Definition set_contents (at_ : string) (eps : list Endpoint) (ports : list EndpointPort)
    (e : EndpointSlice) : EndpointSlice :=
  mkSlice (es_Namespace e) (es_Name e) (es_Labels e) at_ eps ports.
Definition set_svc_network (ports : list ServicePort) (ips : list string) (s : Service) : Service :=
  mkService (svc_Namespace s) (svc_Name s) ports (svc_Selector s) (svc_ClusterIP s) (svc_ClusterIPs s)
    ips (svc_Type s).

(** [e.Labels[k]], the empty string when the label is missing. *)
Definition label (k : string) (e : EndpointSlice) : string := default "" (es_Labels e !! k).

(** [e.Labels[k] = v]: an object read from the API server without labels has a nil
    map, and writing to it panics. *)
Definition set_label {W} (k v : string) (e : EndpointSlice) : M W EndpointSlice :=
  if decide (es_Labels e = ∅) then panic
  else mret (set_labels (<[k := v]> (es_Labels e)) e).

(** ** The API server and the clock

    [svc_Apply] and [es_Apply] are server-side applies of the fields given; [svc_Apply]
    returns the object the server made of it, with what the server fills in.
    [es_List ns v] lists the slices of namespace [ns] whose service-name label is
    [v].  [ctx_Done] says whether the call's context is over. *)
Class KubeAPI (W : Type) := {
  svc_Get : string -> string -> M W Service;
  svc_Apply : Service -> M W Service;
  svc_Update : Service -> M W Service;
  svc_Delete : string -> string -> M W unit;
  es_List : string -> string -> M W (list EndpointSlice);
  es_Get : string -> string -> M W EndpointSlice;
  es_Update : EndpointSlice -> M W EndpointSlice;
  es_Apply : EndpointSlice -> M W EndpointSlice;
  es_Delete : string -> string -> M W unit;
  time_Sleep : Z -> M W unit;
  ctx_Done : M W bool
}.

(** What the API server guarantees of its objects.  Every call may fail, for whatever
    reason and then without effect; one that succeeds does what it documents.
    Reads change nothing.  While the caller sleeps other controllers may act, but none of
    them writes slices labelled as the operator's. *)
Class KubeSpec (W : Type) `{KubeAPI W} := {
  services : W -> gmap NamespacedName Service;
  slices : W -> gmap NamespacedName EndpointSlice;
  svc_Get_law ns n w : exists w' r, svc_Get ns n w = (w', r) /\
    services w' = services w /\ slices w' = slices w /\
    match r with
    | Ok s => services w !! mkNN ns n = Some s /\ svc_key s = mkNN ns n
    | Err _ => True
    | Panic => False
    end;
  svc_Apply_law s w : exists w' r, svc_Apply s w = (w', r) /\ slices w' = slices w /\
    match r with
    | Ok s' => svc_key s' = svc_key s /\ svc_Ports s' = svc_Ports s /\
               services w' = <[svc_key s := s']> (services w)
    | Err _ => services w' = services w
    | Panic => False
    end;
  svc_Update_law s w : exists w' r, svc_Update s w = (w', r) /\ slices w' = slices w /\
    match r with
    | Ok s' => s' = s /\ services w' = <[svc_key s := s]> (services w)
    | Err _ => services w' = services w
    | Panic => False
    end;
  svc_Delete_law ns n w : exists w' r, svc_Delete ns n w = (w', r) /\ slices w' = slices w /\
    match r with
    | Ok _ => services w' = delete (mkNN ns n) (services w)
    | Err _ => services w' = services w
    | Panic => False
    end;
  es_List_law ns v w : exists w' r, es_List ns v w = (w', r) /\
    services w' = services w /\ slices w' = slices w /\
    match r with
    | Ok l => NoDup l /\ (forall e, e ∈ l <-> slices w !! es_key e = Some e /\
                es_Namespace e = ns /\ es_Labels e !! ServiceNameLabel = Some v)
    | Err _ => True
    | Panic => False
    end;
  es_Get_law ns n w : exists w' r, es_Get ns n w = (w', r) /\
    services w' = services w /\ slices w' = slices w /\
    match r with
    | Ok e => slices w !! mkNN ns n = Some e /\ es_key e = mkNN ns n
    | Err _ => True
    | Panic => False
    end;
  es_Update_law e w : exists w' r, es_Update e w = (w', r) /\ services w' = services w /\
    match r with
    | Ok e' => e' = e /\ slices w' = <[es_key e := e]> (slices w)
    | Err _ => slices w' = slices w
    | Panic => False
    end;
  es_Apply_law e w : exists w' r, es_Apply e w = (w', r) /\ services w' = services w /\
    match r with
    | Ok e' => es_key e' = es_key e /\ es_Labels e ⊆ es_Labels e' /\
               es_AddressType e' = es_AddressType e /\ es_Endpoints e' = es_Endpoints e /\
               es_Ports e' = es_Ports e /\ slices w' = <[es_key e := e']> (slices w)
    | Err _ => slices w' = slices w
    | Panic => False
    end;
  es_Delete_law ns n w : exists w' r, es_Delete ns n w = (w', r) /\ services w' = services w /\
    match r with
    | Ok _ => slices w' = delete (mkNN ns n) (slices w)
    | Err _ => slices w' = slices w
    | Panic => False
    end;
  Sleep_law d w : exists w', time_Sleep d w = (w', Ok tt) /\ services w' = services w /\
    (forall k e, slices w' !! k = Some e -> es_Labels e !! ManagedBy = Some OperatorLabel ->
       slices w !! k = Some e);
  ctx_Done_law w : exists w' b, ctx_Done w = (w', Ok b) /\ services w' = services w /\ slices w' = slices w
}.

(** ** An API server in memory

    The objects, the pauses taken, and the deadline of the running call's context. *)
Module MemCluster.
Record t := mk {
  mem_services : gmap NamespacedName Service;
  mem_slices : gmap NamespacedName EndpointSlice;
  mem_slept : list Z;
  mem_deadline : Z
}.

Definition not_found (what name : string) : error :=
  mkError (what +:+ " " +:+ name +:+ " not found") StatusReasonNotFound.

Definition put_service (s : Service) (w : t) : t :=
  mk (<[svc_key s := s]> (mem_services w)) (mem_slices w) (mem_slept w) (mem_deadline w).
Definition put_slice (e : EndpointSlice) (w : t) : t :=
  mk (mem_services w) (<[es_key e := e]> (mem_slices w)) (mem_slept w) (mem_deadline w).

Definition get_service (ns n : string) : M t Service := fun w =>
  match mem_services w !! mkNN ns n with
  | Some s => if decide (svc_key s = mkNN ns n) then (w, Ok s) else (w, Err (not_found "services" n))
  | None => (w, Err (not_found "services" n))
  end.
Definition get_slice (ns n : string) : M t EndpointSlice := fun w =>
  match mem_slices w !! mkNN ns n with
  | Some e => if decide (es_key e = mkNN ns n) then (w, Ok e) else (w, Err (not_found "endpointslices" n))
  | None => (w, Err (not_found "endpointslices" n))
  end.

(** Applying keeps the labels other managers own. *)
Definition apply_slice (e : EndpointSlice) : M t EndpointSlice := fun w =>
  let e' := match mem_slices w !! es_key e with
            | Some old => set_labels (es_Labels e ∪ es_Labels old) e
            | None => e
            end in
  (put_slice e' w, Ok e').

Definition list_slices (ns v : string) (w : t) : list EndpointSlice :=
  filter (fun e => mem_slices w !! es_key e = Some e /\ es_Namespace e = ns /\
                   es_Labels e !! ServiceNameLabel = Some v)
    (remove_dups ((map_to_list (mem_slices w)).*2)).

#[global] Instance api : KubeAPI t := {
  svc_Get := get_service;
  svc_Apply s w := (put_service s w, Ok s);
  svc_Update s w :=
    match mem_services w !! svc_key s with
    | Some _ => (put_service s w, Ok s)
    | None => (w, Err (not_found "services" (svc_Name s)))
    end;
  svc_Delete ns n w :=
    match mem_services w !! mkNN ns n with
    | Some _ => (mk (delete (mkNN ns n) (mem_services w)) (mem_slices w) (mem_slept w) (mem_deadline w), Ok tt)
    | None => (w, Err (not_found "services" n))
    end;
  es_List ns v w := (w, Ok (list_slices ns v w));
  es_Get := get_slice;
  es_Update e w :=
    match mem_slices w !! es_key e with
    | Some _ => (put_slice e w, Ok e)
    | None => (w, Err (not_found "endpointslices" (es_Name e)))
    end;
  es_Apply := apply_slice;
  es_Delete ns n w :=
    match mem_slices w !! mkNN ns n with
    | Some _ => (mk (mem_services w) (delete (mkNN ns n) (mem_slices w)) (mem_slept w) (mem_deadline w), Ok tt)
    | None => (w, Err (not_found "endpointslices" n))
    end;
  time_Sleep d w := (mk (mem_services w) (mem_slices w) (mem_slept w ++ [d]) (mem_deadline w), Ok tt);
  ctx_Done w := (w, Ok (mem_deadline w <=? foldr Z.add 0 (mem_slept w)))
}.

#[global] Program Instance spec : KubeSpec t := {
  services := mem_services;
  slices := mem_slices
}.
Next Obligation.
  intros ns n w. cbn. unfold get_service.
  destruct (mem_services w !! mkNN ns n) as [s|] eqn:E; [case_decide|]; by repeat eexists.
Qed.
Next Obligation. intros s w. by repeat eexists. Qed.
Next Obligation. intros s w. cbn. destruct (mem_services w !! svc_key s); by repeat eexists. Qed.
Next Obligation. intros ns n w. cbn. destruct (mem_services w !! mkNN ns n); by repeat eexists. Qed.
Next Obligation.
  intros ns v w. cbn. do 2 eexists. split_and!; [done..|]. split.
  - apply NoDup_filter, NoDup_remove_dups.
  - intros e. unfold list_slices. rewrite list_elem_of_filter, elem_of_remove_dups, list_elem_of_fmap.
    split; [by intros [? _]|]. intros (He & Hns & Hl). split; [done|].
    exists (es_key e, e). split; [done|]. by apply elem_of_map_to_list.
Qed.
Next Obligation.
  intros ns n w. cbn. unfold get_slice.
  destruct (mem_slices w !! mkNN ns n) as [e|] eqn:E; [case_decide|]; by repeat eexists.
Qed.
Next Obligation. intros e w. cbn. destruct (mem_slices w !! es_key e); by repeat eexists. Qed.
Next Obligation.
  intros e w. cbn. unfold apply_slice. do 2 eexists. split; [done|]. split; [done|].
  destruct (mem_slices w !! es_key e); split_and!; try done. apply map_union_subseteq_l.
Qed.
Next Obligation. intros ns n w. cbn. destruct (mem_slices w !! mkNN ns n); by repeat eexists. Qed.
Next Obligation. intros d w. by repeat eexists. Qed.
Next Obligation. intros w. by repeat eexists. Qed.
End MemCluster.

(** ** A cluster as a part of a larger world *)

Section Beside.
Context {W B : Type} `{Hk : KubeAPI W}.

#[local] Instance kube_beside : KubeAPI (W * B) := {
  svc_Get ns n := self (svc_Get ns n);
  svc_Apply s := self (svc_Apply s);
  svc_Update s := self (svc_Update s);
  svc_Delete ns n := self (svc_Delete ns n);
  es_List ns v := self (es_List ns v);
  es_Get ns n := self (es_Get ns n);
  es_Update e := self (es_Update e);
  es_Apply e := self (es_Apply e);
  es_Delete ns n := self (es_Delete ns n);
  time_Sleep d := self (time_Sleep d);
  ctx_Done := self ctx_Done
}.

Lemma self_run {A} (m : M W A) (w : W) (b : B) :
  self m (w, b) = (((m w).1, b), (m w).2).
Proof. unfold self, zoom. cbn. by destruct (m w). Qed.

Local Ltac by_law law :=
  intros; cbn; match goal with |- exists w' r, self _ ?x = _ /\ _ => destruct x as [w b] end;
  rewrite self_run; edestruct law as (w' & r & E & L); rewrite E; do 2 eexists; split; [reflexivity|exact L].

#[local] Instance kube_beside_spec `{!KubeSpec W} : KubeSpec (W * B).
Proof.
  refine {| services x := services x.1; slices x := slices x.1 |}.
  - by_law svc_Get_law.
  - by_law svc_Apply_law.
  - by_law svc_Update_law.
  - by_law svc_Delete_law.
  - by_law es_List_law.
  - by_law es_Get_law.
  - by_law es_Update_law.
  - by_law es_Apply_law.
  - by_law es_Delete_law.
  - intros d [w b]. cbn. rewrite self_run. destruct (Sleep_law d w) as (w' & -> & L). by exists (w', b).
  - intros [w b]. cbn. rewrite self_run.
    destruct (ctx_Done_law w) as (w' & c & -> & Hs & He). by exists (w', b), c.
Defined.
End Beside.
