(* ===== verification/Offloader.v ===== *)
(** The offloader (internal/dataplane/offloader): the interface the reconciler uses, its
    contract, and the implementation that programs the gateway's routes. *)

From Stdlib Require Import Ascii.
From stdpp Require Import base numbers gmap strings list.
From S2P Require Import Prelude RouteStore Balancer Forward Crd Kube.
Local Open Scope Z_scope.

(** ** The interface and its contract *)

(** [src/internal/dataplane/offloader/offloader.go:52-58 Offloader] the pointers that may be nil are
    options *)
Class Offloader (W : Type) := {
  off_Configure : ModelDeployment -> ServiceReference -> option RemoteBackend -> Z -> M W unit;
  off_Cleanup : ModelDeployment -> M W unit
}.

(** What the reconciler relies on.  [offloaded] is the share of the remote backend that
    is in force for each model name and [managed] the names the offloader answers
    for.  A call touches no other model's share; one that succeeds has put the share
    it was given in force; one that fails may or may not have. *)
Class OffloaderSpec (W : Type) `{Offloader W} := {
  offloaded : W -> gmap string Z;
  managed : W -> gset string;
  Configure_others m lb rb p w n : n <> md_Name m ->
    offloaded (off_Configure m lb rb p w).1 !! n = offloaded w !! n;
  Configure_ok m lb rb p w : (off_Configure m lb rb p w).2 = Ok tt ->
    offloaded (off_Configure m lb rb p w).1 !! md_Name m = Some p /\
    managed (off_Configure m lb rb p w).1 = {[md_Name m]} ∪ managed w;
  Configure_err m lb rb p w : (off_Configure m lb rb p w).2 <> Ok tt ->
    (offloaded (off_Configure m lb rb p w).1 !! md_Name m = offloaded w !! md_Name m \/
     offloaded (off_Configure m lb rb p w).1 !! md_Name m = Some p) /\
    managed (off_Configure m lb rb p w).1 = managed w;
  Configure_no_panic m lb rb p w : is_Some (mds_ServiceRef (md_Spec m)) -> is_Some rb ->
    (off_Configure m lb rb p w).2 <> Panic;
  Cleanup_others m w n : n <> md_Name m ->
    offloaded (off_Cleanup m w).1 !! n = offloaded w !! n;
  Cleanup_managed m w : managed (off_Cleanup m w).1 = managed w ∖ {[md_Name m]};
  Cleanup_ok m w : md_Name m ∈ managed w -> (off_Cleanup m w).2 = Ok tt ->
    offloaded (off_Cleanup m w).1 !! md_Name m = None;
  Cleanup_unmanaged m w : md_Name m ∉ managed w ->
    off_Cleanup m w = (w, Ok tt);
  Cleanup_no_panic m w : (off_Cleanup m w).2 <> Panic
}.

(** ** The gateway as the offloader reaches it: the client set *)

Class GatewayClient (W : Type) := { gw_call : api_call -> M W Route }.

(** The management API is faithful (see [RouteApi]); an answer may be lost on its way. *)
Class GatewaySpec (W : Type) `{KubeAPI W} `{GatewayClient W} := {
  gw_routes : W -> gmap string Route;
  gw_store_law c r w : c = CallRegister r \/ c = CallUpdate r -> exists w' res, gw_call c w = (w', res) /\
    match res with
    | Ok r' => r' = r /\ gw_routes w' = <[route_Name r := r]> (gw_routes w)
    | Err _ => gw_routes w' = gw_routes w \/ gw_routes w' = <[route_Name r := r]> (gw_routes w)
    | Panic => False
    end;
  gw_delete_law n w : exists w' res, gw_call (CallDelete n) w = (w', res) /\
    match res with
    | Ok r => gw_routes w' = delete n (gw_routes w)
    | Err _ => gw_routes w' = gw_routes w \/ gw_routes w' = delete n (gw_routes w)
    | Panic => False
    end;
  gw_svc_Get ns n w : gw_routes (svc_Get ns n w).1 = gw_routes w
}.

(** ** The implementation *)

(** [src/internal/dataplane/offloader/beamlit_gateway_offloader.go:16-21 beamlitGatewayOffloader] the
    clients are the world's *)
Record beamlitGatewayOffloader := mkOffloader {
  managedRoutes : gset string;
  workspace : string
}.

(** [src/internal/dataplane/offloader/beamlit_gateway_offloader.go:23-25 newBeamlitGatewayOffloader] *)
Definition newBeamlitGatewayOffloader : beamlitGatewayOffloader := mkOffloader ∅ "".

(** [src/internal/dataplane/offloader/offloader.go:28-48 NewOffloader] the factory *)
Definition NewOffloader (offloaderType : string) : res beamlitGatewayOffloader :=
  if String.eqb offloaderType "beamlit-gateway" then Ok newBeamlitGatewayOffloader
  else Err (Errorf ("unsupported offloader type: " +:+ offloaderType)).

(** [src/internal/dataplane/offloader/beamlit_gateway_offloader.go:96-100 variableReplace] *)
Definition variableReplace (ws : string) (pathPrefix : string) (model : ModelDeployment) : string :=
  ReplaceAll (ReplaceAll pathPrefix "$workspace" ws) "$model" (mds_Model (md_Spec model)).

(** [src/internal/dataplane/offloader/beamlit_gateway_offloader.go:59-74 Configure] *)
Definition backend_auth (authConfig : option AuthConfig) : option Auth :=
  match authConfig with
  | None => None
  | Some c =>
      let authType := if String.eqb (ac_Type c) "oauth" then AuthTypeOAuth else "" in
      Some (mkAuth authType
        (match ac_OAuthConfig c with
         | Some o => Some (mkOAuth (oc_ClientID o) (oc_ClientSecret o) (oc_TokenURL o))
         | None => None
         end))
  end.

(** [src/internal/dataplane/offloader/beamlit_gateway_offloader.go:37-43 Configure] *)
Definition service_hostnames (service : Service) : list string :=
  let name := svc_Name service in
  let ns := svc_Namespace service in
  [svc_ClusterIP service; name; name +:+ "." +:+ ns; name +:+ "." +:+ ns +:+ ".svc";
   name +:+ "." +:+ ns +:+ ".svc.cluster.local"].

(** [src/internal/dataplane/offloader/beamlit_gateway_offloader.go:45-49 Configure] *)
Definition local_backend (localBackend : ServiceReference) (remoteBackendWeight : Z) : Backend :=
  mkBackend
    (sr_Name localBackend +:+ "." +:+ sr_Namespace localBackend +:+ ".svc.cluster.local:"
       +:+ Itoa (sr_TargetPort localBackend))
    (add64 100 (- remoteBackendWeight)) None "" ∅ "http".

(** [src/internal/dataplane/offloader/beamlit_gateway_offloader.go:50-56 Configure] *)
Definition remote_backend (ws : string) (model : ModelDeployment) (remoteBackend : RemoteBackend)
    (remoteBackendWeight : Z) : Backend :=
  mkBackend (rb_Host remoteBackend) remoteBackendWeight (backend_auth (rb_AuthConfig remoteBackend))
    (variableReplace ws (rb_PathPrefix remoteBackend) model) (rb_HeadersToAdd remoteBackend)
    (rb_Scheme remoteBackend).

(** [src/internal/dataplane/offloader/beamlit_gateway_offloader.go:35-58 Configure] *)
Definition offloading_route (ws : string) (model : ModelDeployment) (service : Service)
    (localBackend : ServiceReference) (remoteBackend : RemoteBackend) (remoteBackendWeight : Z) : Route :=
  mkRoute (md_Name model) (service_hostnames service)
    [local_backend localBackend remoteBackendWeight;
     remote_backend ws model remoteBackend remoteBackendWeight].

(** [src/internal/dataplane/offloader/beamlit_gateway_offloader.go:32-34 Configure] *)
Definition learn_workspace (model : ModelDeployment) (o : beamlitGatewayOffloader) : beamlitGatewayOffloader :=
  if String.eqb (workspace o) "" && negb (String.eqb (mst_Workspace (md_Status model)) "")
  then mkOffloader (managedRoutes o) (mst_Workspace (md_Status model))
  else o.

Section GatewayOffloader.
Context {W : Type} `{KubeAPI W} `{GatewayClient W}.

(** [src/internal/dataplane/offloader/beamlit_gateway_offloader.go:27-85 Configure] *)
Definition Configure (model : ModelDeployment) (localBackend : ServiceReference)
    (remoteBackend : option RemoteBackend) (remoteBackendWeight : Z)
    : M (beamlitGatewayOffloader * W) unit :=
  ref ← deref (mds_ServiceRef (md_Spec model));
  service ← outer (svc_Get (sr_Namespace ref) (sr_Name ref));
  self (modify (learn_workspace model)) ;;
  remote ← deref remoteBackend;
  ws ← self (gets workspace);
  let route := offloading_route ws model service localBackend remote remoteBackendWeight in
  known ← self (gets (fun o => bool_decide (md_Name model ∈ managedRoutes o)));
  outer (gw_call (if (known : bool) then CallUpdate route else CallRegister route)) ;;
  self (modify (fun o => mkOffloader ({[md_Name model]} ∪ managedRoutes o) (workspace o))).

(** [src/internal/dataplane/offloader/beamlit_gateway_offloader.go:87-94 Cleanup] *)
Definition Cleanup (model : ModelDeployment) : M (beamlitGatewayOffloader * W) unit :=
  known ← self (gets (fun o => bool_decide (md_Name model ∈ managedRoutes o)));
  if (known : bool) then
    r ← try (outer (gw_call (CallDelete (md_Name model))));
    self (modify (fun o => mkOffloader (managedRoutes o ∖ {[md_Name model]}) (workspace o))) ;;
    match r with
    | inl _ => mret tt
    | inr e => throw e
    end
  else mret tt.

#[export] Instance gateway_offloader : Offloader (beamlitGatewayOffloader * W) := {
  off_Configure := Configure;
  off_Cleanup := Cleanup
}.
End GatewayOffloader.

(** ** Lemmas *)

(** The remote share of a route: the weight of its second backend. *)
Definition remote_share (r : Route) : option Z := backend_Weight <$> route_Backends r !! 1%nat.

Section Lemmas.
Context {W : Type} `{Hk : KubeAPI W} `{Hks : !KubeSpec W} `{Hg : GatewayClient W} `{Hgs : !GatewaySpec W}.
Implicit Types (o : beamlitGatewayOffloader) (w : W) (m : ModelDeployment).

(** The ways [Configure] ends. *)
Inductive configure_outcome m lb rb p o w : beamlitGatewayOffloader -> W -> res unit -> Prop :=
| configure_done ref service remote o' w' :
    mds_ServiceRef (md_Spec m) = Some ref -> rb = Some remote ->
    services w !! sr_key ref = Some service -> svc_key service = sr_key ref ->
    gw_routes w' = <[md_Name m := offloading_route (workspace o') m service lb remote p]> (gw_routes w) ->
    o' = mkOffloader ({[md_Name m]} ∪ managedRoutes o) (workspace (learn_workspace m o)) ->
    configure_outcome m lb rb p o w o' w' (Ok tt)
| configure_failed o' w' e :
    managedRoutes o' = managedRoutes o ->
    (gw_routes w' = gw_routes w \/
     exists route, route_Name route = md_Name m /\ remote_share route = Some p /\
       gw_routes w' = <[md_Name m := route]> (gw_routes w)) ->
    configure_outcome m lb rb p o w o' w' (Err e)
| configure_nil o' w' :
    mds_ServiceRef (md_Spec m) = None \/ rb = None ->
    managedRoutes o' = managedRoutes o -> gw_routes w' = gw_routes w ->
    configure_outcome m lb rb p o w o' w' Panic.

Lemma learn_workspace_managed m o : managedRoutes (learn_workspace m o) = managedRoutes o.
Proof. unfold learn_workspace. by case_match. Qed.

Lemma Configure_outcome m lb rb p o w : exists o' w' r,
  Configure m lb rb p (o, w) = ((o', w'), r) /\ configure_outcome m lb rb p o w o' w' r.
Proof.
  unfold Configure. mrun.
  destruct (mds_ServiceRef (md_Spec m)) as [ref|] eqn:Eref; cbn.
  2: { do 3 eexists. split; [done|]. apply configure_nil; auto. }
  destruct (svc_Get_law (sr_Namespace ref) (sr_Name ref) w) as (w1 & r1 & E1 & Hs1 & _ & Hr1).
  pose proof (gw_svc_Get (sr_Namespace ref) (sr_Name ref) w) as Hgw1. rewrite E1 in *. cbn in *.
  destruct r1 as [service|e|]; [|by do 3 eexists; split; [done|]; apply configure_failed; auto|done].
  destruct rb as [remote|]; cbn.
  2: { do 3 eexists. split; [done|]. apply configure_nil; auto using learn_workspace_managed. }
  rewrite learn_workspace_managed.
  set (route := offloading_route _ _ _ _ _ _).
  destruct Hr1 as [Hsvc Hkey].
  destruct (gw_store_law (if bool_decide (md_Name m ∈ managedRoutes o) then CallUpdate route
    else CallRegister route) route w1) as (w2 & r2 & E2 & Hr2); [by case_bool_decide; auto|].
  rewrite E2. destruct r2 as [r'|e|]; [| |done]; do 3 eexists; (split; [done|]).
  - destruct Hr2 as [-> Hr2]. rewrite Hgw1 in Hr2. eapply configure_done; cbn; try done. by rewrite learn_workspace_managed.
  - apply configure_failed; [apply learn_workspace_managed|]. rewrite Hgw1 in Hr2.
    destruct Hr2 as [Hr2|Hr2]; [by left|right]. exists route. by split_and!.
Qed.

(** The ways [Cleanup] ends. *)
Lemma Cleanup_outcome m o w : exists o' w' r,
  Cleanup m (o, w) = ((o', w'), r) /\ r <> Panic /\
  managedRoutes o' = managedRoutes o ∖ {[md_Name m]} /\
  (gw_routes w' = gw_routes w \/ gw_routes w' = delete (md_Name m) (gw_routes w)) /\
  (md_Name m ∈ managedRoutes o -> r = Ok tt -> gw_routes w' = delete (md_Name m) (gw_routes w)) /\
  (md_Name m ∉ managedRoutes o -> o' = o /\ w' = w /\ r = Ok tt).
Proof.
  unfold Cleanup. mrun. case_bool_decide as Hin; cbn.
  - destruct (gw_delete_law (md_Name m) w) as (w1 & r1 & E1 & Hr1). rewrite E1.
    destruct r1 as [r|e|]; [| |done]; cbn; do 3 eexists; (split; [done|]); naive_solver.
  - do 3 eexists. split; [done|]. split_and!; try done; [set_solver|by left].
Qed.
End Lemmas.

Lemma offloading_route_share ws m s lb remote p :
  remote_share (offloading_route ws m s lb remote p) = Some p.
Proof. reflexivity. Qed.

(** The implementation meets its contract. *)
#[export] Program Instance gateway_offloader_spec {W} `{KubeSpec W} `{!GatewayClient W} `{!GatewaySpec W} :
    OffloaderSpec (beamlitGatewayOffloader * W) := {
  offloaded x := omap remote_share (gw_routes x.2);
  managed x := managedRoutes x.1
}.
Next Obligation.
  intros W ???? m lb rb p [o w] n Hn. cbn.
  destruct (Configure_outcome m lb rb p o w) as (o' & w' & r & -> & Hout). cbn.
  rewrite !lookup_omap.
  destruct Hout as [ref s rem o' w' ???? -> ?|o' w' e ? [->|(route & ? & ? & ->)]|o' w' ?? ->]; try done;
    by rewrite lookup_insert_ne.
Qed.
Next Obligation.
  intros W ???? m lb rb p [o w]. cbn.
  destruct (Configure_outcome m lb rb p o w) as (o' & w' & r & -> & Hout). cbn.
  intros ->. inversion Hout as [ref s rem o'' w'' ???? Hgw Ho| |]; subst. split; [|done].
  by rewrite lookup_omap, Hgw, lookup_insert_eq.
Qed.
Next Obligation.
  intros W ???? m lb rb p [o w]. cbn.
  destruct (Configure_outcome m lb rb p o w) as (o' & w' & r & -> & Hout). cbn.
  rewrite !lookup_omap. intros Hr.
  destruct Hout as [|o' w' e Hm [->|(route & ? & Hs & ->)]|o' w' ? Hm ->]; [done|by auto| |by auto].
  rewrite lookup_insert_eq. cbn. auto.
Qed.
Next Obligation.
  intros W ???? m lb rb p [o w] [ref Href] [remote Hrem]. cbn.
  destruct (Configure_outcome m lb rb p o w) as (o' & w' & r & -> & Hout). cbn.
  destruct Hout as [| |o' w' [?|?]]; congruence.
Qed.
Next Obligation.
  intros W ???? m [o w] n Hn. cbn.
  destruct (Cleanup_outcome m o w) as (o' & w' & r & -> & _ & _ & Hg & _). cbn.
  rewrite !lookup_omap. destruct Hg as [->| ->]; [done|]. by rewrite lookup_delete_ne.
Qed.
Next Obligation.
  intros W ???? m [o w]. cbn. by destruct (Cleanup_outcome m o w) as (o' & w' & r & -> & _ & ? & _).
Qed.
Next Obligation.
  intros W ???? m [o w] Hin. cbn.
  destruct (Cleanup_outcome m o w) as (o' & w' & r & -> & _ & _ & _ & Hok & _). cbn.
  intros ->. rewrite lookup_omap, (Hok Hin eq_refl). by rewrite lookup_delete_eq.
Qed.
Next Obligation.
  intros W ???? m [o w] Hin. cbn.
  destruct (Cleanup_outcome m o w) as (o' & w' & r & E & _ & _ & _ & _ & Hno). rewrite E.
  by destruct (Hno Hin) as (-> & -> & ->).
Qed.
Next Obligation.
  intros W ???? m [o w]. cbn. by destruct (Cleanup_outcome m o w) as (o' & w' & r & -> & ? & _).
Qed.

(** *** Path prefix templates *)

(** A prefix as its author means it: text and the two variables. *)
Inductive piece := Lit (s : string) | VarWorkspace | VarModel.

Definition piece_source (q : piece) : string :=
  match q with Lit s => s | VarWorkspace => "$workspace" | VarModel => "$model" end.
Definition piece_value (ws model : string) (q : piece) : string :=
  match q with Lit s => s | VarWorkspace => ws | VarModel => model end.
Definition template_source (t : list piece) : string := foldr (fun q s => piece_source q +:+ s) "" t.
Definition template_value (ws model : string) (t : list piece) : string :=
  foldr (fun q s => piece_value ws model q +:+ s) "" t.

Definition no_dollar (s : string) : Prop := contains_byte "$"%char s = false.
Definition literal_ok (q : piece) : Prop := match q with Lit s => no_dollar s | _ => True end.

(** The first pass fills in the workspace and leaves the other variable. *)
Lemma replace_workspace ws t :
  Forall literal_ok t ->
  ReplaceAll (template_source t) "$workspace" ws = template_value ws "$model" t.
Proof.
  induction t as [|q t IH]; [done|]. intros [Hq Ht]%Forall_cons. cbn [foldr template_source template_value].
  destruct q as [s| |]; cbn [piece_source piece_value].
  - rewrite ReplaceAll_literal by exact Hq. f_equal. by apply IH.
  - rewrite ReplaceAll_match. f_equal. by apply IH.
  - transitivity ("$model" +:+ ReplaceAll (template_source t) "$workspace" ws); [reflexivity|].
    f_equal. by apply IH.
Qed.

Lemma replace_model ws model t :
  no_dollar ws -> Forall literal_ok t ->
  ReplaceAll (template_value ws "$model" t) "$model" model = template_value ws model t.
Proof.
  intros Hws. induction t as [|q t IH]; [done|]. intros [Hq Ht]%Forall_cons.
  cbn [foldr template_value]. destruct q as [s| |]; cbn [piece_value].
  - rewrite ReplaceAll_literal by exact Hq. f_equal. by apply IH.
  - rewrite ReplaceAll_literal by exact Hws. f_equal. by apply IH.
  - rewrite ReplaceAll_match. f_equal. by apply IH.
Qed.

(** ** Properties *)

Section Properties.
Context {W : Type} `{Hk : KubeAPI W} `{Hks : !KubeSpec W} `{Hg : GatewayClient W} `{Hgs : !GatewaySpec W}.

(** C22. A successful call of [Configure] with a percentage puts exactly that split in
    force: the gateway holds the route of the model with the local backend, at the service
    it is given, and the remote one, at its host; their weights add up to 100, and of the 100
    draws of the gateway's load balancer exactly the percentage goes to the remote backend and
    the rest to the local one, when the two are at different hosts. *)
Theorem configured_percentage_is_exact m lb remote p (o : beamlitGatewayOffloader) (w : W) x' :
  0 <= p <= 100 -> rb_Host remote <> backend_Host (local_backend lb p) ->
  off_Configure m lb (Some remote) p (o, w) = (x', Ok tt) ->
  exists r l b, gw_routes x'.2 !! md_Name m = Some r /\ route_Backends r = [l; b] /\
    l = local_backend lb p /\ backend_Host b = rb_Host remote /\
    total_weight (map weighted [l; b]) = 100 /\
    Z.of_nat (share b (map weighted [l; b])) = p /\
    Z.of_nat (share l (map weighted [l; b])) = 100 - p.
Proof.
  intros Hp Hhost. cbn [off_Configure gateway_offloader].
  destruct (Configure_outcome m lb (Some remote) p o w) as (o' & w' & r & -> & Hout).
  intros [= <- ->]. inversion Hout as [ref s rem o'' w'' ? Hrem ?? Hgw Ho| |]; subst.
  injection Hrem as <-. cbn [snd]. rewrite Hgw, lookup_insert_eq.
  set (route := offloading_route _ _ _ _ _ _). exists route.
  pose (l := local_backend lb p). pose (b := remote_backend (workspace (learn_workspace m o)) m remote p).
  exists l, b.
  assert (add64 100 (- p) = 100 - p) as Hadd.
  { rewrite add64_id; [lia|]. unfold in_int64. lia. }
  assert (l <> b) as Hne by (intros E; apply Hhost; exact (f_equal backend_Host (eq_sym E))).
  assert (weights_ok (map weighted [l; b])) as Hok.
  { split; [|cbn; rewrite Hadd; lia]. repeat constructor; cbn; rewrite ?Hadd; lia. }
  split; [reflexivity|]. do 3 (split; [reflexivity|]).
  split; [cbn; rewrite Hadd; lia|].
  rewrite !share_weight_of by done.
  cbn [map weight_of foldr weighted wb_backend wb_weight backend_Weight b l local_backend remote_backend].
  rewrite Hadd, (decide_True (P := b = b)), (decide_True (P := l = l)), !decide_False by (done || congruence).
  lia.
Qed.

(** The path prefix of a remote backend is a template: when neither the text nor
    the workspace's name holds a dollar sign, [variableReplace] puts the workspace
    and the model where the two variables stand and changes nothing else. *)
Theorem variable_replace_fills_template (ws : string) (m : ModelDeployment) (t : list piece) :
  no_dollar ws -> Forall literal_ok t ->
  variableReplace ws (template_source t) m = template_value ws (mds_Model (md_Spec m)) t.
Proof. intros Hws Ht. unfold variableReplace. rewrite replace_workspace by done. by apply replace_model. Qed.

(** A failed clean-up is never made up for: the offloader forgets the route even
    when the gateway could not delete it, so that every later [Cleanup] of the
    model succeeds without asking the gateway, and the route stays. *)
Theorem failed_cleanup_leaks_route m (o : beamlitGatewayOffloader) (w : W) e :
  (off_Cleanup m (o, w)).2 = Err e ->
  let x := (off_Cleanup m (o, w)).1 in
  off_Cleanup m x = (x, Ok tt) /\
  (gw_routes x.2 = gw_routes w \/ gw_routes x.2 = delete (md_Name m) (gw_routes w)).
Proof.
  cbn [off_Cleanup gateway_offloader]. destruct (Cleanup_outcome m o w) as (o' & w' & r & -> & _ & Hm & Hdel & _).
  cbn. intros _. split; [|done].
  destruct (Cleanup_outcome m o' w') as (o2 & w2 & r2 & -> & _ & _ & _ & _ & Hno).
  destruct Hno as (-> & -> & ->); [rewrite Hm; set_solver|done].
Qed.

End Properties.

(** ** Witnesses: a cluster beside a gateway that may refuse to delete *)

Module OffloaderExamples.
Definition world : Type := MemCluster.t * (gmap string Route * bool).
#[local] Existing Instance kube_beside.
#[local] Existing Instance kube_beside_spec.

#[local] Instance client : GatewayClient world := {
  gw_call c x :=
    let '(k, (rs, refuses)) := x in
    match c with
    | CallRegister r | CallUpdate r => ((k, (<[route_Name r := r]> rs, refuses)), Ok r)
    | CallGet n => (x, match rs !! n with Some r => Ok r | None => Err ErrRouteNotFound end)
    | CallDelete n =>
        if refuses then (x, Err (Errorf "connection refused"))
        else match rs !! n with
             | Some r => ((k, (delete n rs, refuses)), Ok r)
             | None => (x, Err ErrRouteNotFound)
             end
    end
}.
#[local] Instance client_spec : GatewaySpec world.
Proof.
  refine {| gw_routes x := x.2.1 |}.
  - intros c r [k [rs b]] [-> | ->]; by do 2 eexists.
  - intros n [k [rs b]]. cbn. destruct b; [by do 2 eexists; split; [done|left]|].
    destruct (rs !! n); do 2 eexists; (split; [done|]); [done|by left].
  - intros ns n [k [rs b]]. cbn. by rewrite self_run.
Defined.

Definition svc := mkService "default" "my-model" [mkServicePort "http" "TCP" 80 (FromInt 8080)] ∅
  "10.0.0.7" ["10.0.0.7"] [] "ClusterIP".
Definition cluster : MemCluster.t := MemCluster.put_service svc (MemCluster.mk ∅ ∅ [] 10).
Definition start (refuses : bool) : beamlitGatewayOffloader * world :=
  (newBeamlitGatewayOffloader, (cluster, (∅, refuses))).

Definition ref := mkServiceRef (mkRef "Service" "v1" "default" "my-model") 80.
Definition local_ref := mkServiceRef (mkRef "" "" "default" "my-model-beamlit") 80.
Definition source := mkRef "Deployment" "apps/v1" "default" "my-model".
Definition remote := mkRemoteBackend "run.beamlit.com"
  (Some (mkAuthConfig "oauth" (Some (mkOAuthConfig "id" "secret" "https://api.beamlit.com/v0/oauth/token"))))
  "/$workspace/models/$model" ∅ "https".
Definition model (percentage : Z) : ModelDeployment :=
  mkModel (mkMeta "default" "my-model" 1 ∅ None [])
    (mkModelSpec "llama" true source (Some ref) None "production" [] None
       (Some (mkOffloading (Some remote) [] (Some (mkBehavior percentage)))))
    (mkModelStatus false 0 0 "acme" 0 0).

Lemma configured_percentage_is_exact_witness :
  exists x' r l b, off_Configure (model 30) local_ref (Some remote) 30 (start false) = (x', Ok tt) /\
    gw_routes x'.2 !! "my-model" = Some r /\ route_Backends r = [l; b] /\
    Z.of_nat (share b (map weighted [l; b])) = 30.
Proof.
  destruct (off_Configure (model 30) local_ref (Some remote) 30 (start false)) as [x' r'] eqn:E.
  assert (r' = Ok tt) as -> by (apply (f_equal snd) in E; exact (eq_sym E)).
  destruct (configured_percentage_is_exact (model 30) local_ref remote 30 _ _ x'
              ltac:(lia) ltac:(discriminate) E) as (r & l & b & ? & ? & _ & _ & _ & ? & _).
  by exists x', r, l, b.
Defined.

Definition prefix := [Lit "/"; VarWorkspace; Lit "/models/"; VarModel].
Lemma variable_replace_fills_template_witness :
  template_source prefix = "/$workspace/models/$model" /\
  variableReplace "acme" (template_source prefix) (model 30) = "/acme/models/llama".
Proof.
  split; [reflexivity|].
  apply (variable_replace_fills_template "acme" (model 30) prefix); [reflexivity|repeat constructor].
Defined.

Definition served : beamlitGatewayOffloader * world :=
  (off_Configure (model 30) local_ref (Some remote) 30 (start true)).1.
Lemma failed_cleanup_leaks_route_witness :
  let x := (off_Cleanup (model 30) served).1 in
  off_Cleanup (model 30) x = (x, Ok tt) /\ is_Some (gw_routes x.2 !! "my-model").
Proof.
  intros x. split; [|exists (offloading_route "acme" (model 30) svc local_ref remote 30); vm_compute; reflexivity].
  assert ((off_Cleanup (model 30) (served.1, served.2)).2 = Err (Errorf "connection refused")) as He
    by (vm_compute; reflexivity).
  exact (proj1 (failed_cleanup_leaks_route (model 30) served.1 served.2 _ He)).
Defined.
End OffloaderExamples.
