(* ===== verification/Configurer.v ===== *)
(** The dataplane configurer (internal/dataplane/configurer): how a model's Service is
    taken over so that its traffic reaches the gateway, and how it is given back. *)

From stdpp Require Import base numbers gmap strings list.
From S2P Require Import Prelude Crd Kube.
Local Open Scope Z_scope.

(** ** The interface *)

(** [src/internal/dataplane/configurer/configurer.go:55-65 Configurer] service references are
    pointers that may be nil *)
Class Configurer (W : Type) := {
  cfg_Start : option ServiceReference -> M W unit;
  cfg_Configure : option ServiceReference -> M W unit;
  cfg_Unconfigure : option ServiceReference -> M W unit;
  cfg_GetLocalBeamlitService : option ServiceReference -> M W ServiceReference
}.

(** ** State

    A stop channel is unbuffered: a receive succeeds when a sender waits on it or
    when it is closed. *)
Inductive chan_state := ChanOpen | ChanSending | ChanClosed.

(** The goroutines the configurer starts, each waiting on its stop channel. *)
Inductive watcher :=
| MirrorWatcher (service : ServiceReference) (targetPort : Z) (stopCh : nat)
| ServiceWatcher (service : ServiceReference) (stopCh : nat).

(** [src/internal/dataplane/configurer/kubernetes_configurer.go:36-42 kubernetesConfigurer] with the
    heap of the channels it made and the goroutines it started *)
Record kubernetesConfigurer := mkConfigurer {
  gatewayServiceRef : option ServiceReference;
  beamlitServicesByModelService : gmap NamespacedName (option NamespacedName);
  initialEndpointPerLocalService : gmap NamespacedName (list NamespacedName);
  stopChans : gmap NamespacedName (list nat);
  chans : gmap nat chan_state;
  goroutines : list watcher
}.

(** [src/internal/dataplane/configurer/kubernetes_configurer.go:48-56 newKubernetesConfigurer] *)
Definition newKubernetesConfigurer : kubernetesConfigurer := mkConfigurer None ∅ ∅ ∅ ∅ [].

(** [src/internal/dataplane/configurer/configurer.go:41-48 NewConfigurer] the factory *)
Definition NewConfigurer (configurerType : string) : res kubernetesConfigurer :=
  if String.eqb configurerType "kubernetes" then Ok newKubernetesConfigurer
  else Err (Errorf ("unknown configurer type: " +:+ configurerType)).

Definition set_gateway (g : option ServiceReference) (s : kubernetesConfigurer) : kubernetesConfigurer :=
  mkConfigurer g (beamlitServicesByModelService s) (initialEndpointPerLocalService s) (stopChans s)
    (chans s) (goroutines s).
Definition upd_beamlit_services f (s : kubernetesConfigurer) : kubernetesConfigurer :=
  mkConfigurer (gatewayServiceRef s) (f (beamlitServicesByModelService s))
    (initialEndpointPerLocalService s) (stopChans s) (chans s) (goroutines s).
Definition upd_initial_endpoints f (s : kubernetesConfigurer) : kubernetesConfigurer :=
  mkConfigurer (gatewayServiceRef s) (beamlitServicesByModelService s)
    (f (initialEndpointPerLocalService s)) (stopChans s) (chans s) (goroutines s).
Definition upd_chans f (s : kubernetesConfigurer) : kubernetesConfigurer :=
  mkConfigurer (gatewayServiceRef s) (beamlitServicesByModelService s)
    (initialEndpointPerLocalService s) (stopChans s) (f (chans s)) (goroutines s).

(** [make(chan bool)], its registration under the service, and the goroutine that
    waits on it. *)
Definition start_watcher (key : NamespacedName) (go : nat -> watcher) (s : kubernetesConfigurer)
    : kubernetesConfigurer :=
  let ch := fresh (dom (chans s)) in
  mkConfigurer (gatewayServiceRef s) (beamlitServicesByModelService s) (initialEndpointPerLocalService s)
    (<[key := default [] (stopChans s !! key) ++ [ch]]> (stopChans s))
    (<[ch := ChanOpen]> (chans s)) (goroutines s ++ [go ch]).

(** The code writes ["beamlit-operator"] and the label names out in each function. *)
Definition ToUpdateLabel : string := "beamlit.com/to-update".
Definition ControllerLabel : string := "endpointslice-controller.k8s.io".
Definition beamlit_name (s : ServiceReference) : string := sr_Name s +:+ "-beamlit".
Definition mirrored_name (s : ServiceReference) : string := sr_Name s +:+ "-beamlit-mirrored".

(** [for _, x := range l { if p(x) { found = x; break } }]. *)
Definition first_with {A} (p : A -> bool) (l : list A) : option A := head (filter (fun x => p x = true) l).

(** An event of a watch: an error, an object of the expected type, or another one. *)
Inductive watch_event (A : Type) := EventError | EventObject (a : A) | EventOther.
Arguments EventError {A}.
Arguments EventObject {A} a.
Arguments EventOther {A}.

Section Operations.
Context {W : Type} `{KubeAPI W}.

Definition CM (A : Type) : Type := M (kubernetesConfigurer * W) A.

(** [src/internal/dataplane/configurer/kubernetes_configurer.go:58-61 Start] *)
Definition Start (gatewayService : option ServiceReference) : CM unit :=
  self (modify (set_gateway gatewayService)).

(** [src/internal/dataplane/configurer/kubernetes_configurer.go:63-80 GetLocalBeamlitService] *)
Definition GetLocalBeamlitService (service : option ServiceReference) : CM ServiceReference :=
  service ← deref service;
  found ← self (gets (fun s => beamlitServicesByModelService s !! sr_key service));
  match found with
  | None => throw (Errorf ("proxy service not found for model service " +:+
                           slash_key (sr_Namespace service) (sr_Name service)))
  | Some p =>
      serviceRef ← deref p;
      mret (mkServiceRef (mkRef "" "" (nn_Namespace serviceRef) (nn_Name serviceRef)) (sr_TargetPort service))
  end.

(** [src/internal/dataplane/configurer/kubernetes_configurer.go:133-148 createBeamlitModelService] the
    service applied *)
Definition beamlit_service (serviceRef : ServiceReference) (user : Service) : Service :=
  mkService (sr_Namespace serviceRef) (beamlit_name serviceRef)
    (map (fun port => mkServicePort (sp_Name port) (sp_Protocol port) (sp_Port port)
                        (FromInt (IntVal (sp_TargetPort port)))) (svc_Ports user))
    (svc_Selector user) "" [] [] "ClusterIP".

(** [src/internal/dataplane/configurer/kubernetes_configurer.go:128-160 createBeamlitModelService] *)
Definition createBeamlitModelService (serviceRef : ServiceReference) : CM Service :=
  serviceToConfigure ← outer (svc_Get (sr_Namespace serviceRef) (sr_Name serviceRef));
  beamlitService ← outer (svc_Apply (beamlit_service serviceRef serviceToConfigure));
  self (modify (upd_beamlit_services <[sr_key serviceRef := Some (svc_key beamlitService)]>)) ;;
  mret beamlitService.

(** [src/internal/dataplane/configurer/kubernetes_configurer.go:176-206 addPortToGatewayService] what the
    gateway's service becomes *)
Definition gateway_with_service (serviceRef : ServiceReference) (gatewayPort : Z)
    (gatewayService user : Service) : Service :=
  let portToAdd := default zeroServicePort
    (first_with (fun port => sp_Port port =? sr_TargetPort serviceRef) (svc_Ports user)) in
  let addPort := negb (existsb (fun port => (sp_Port port =? sr_TargetPort serviceRef) &&
                                            String.eqb (sp_Protocol port) (sp_Protocol portToAdd))
                         (svc_Ports gatewayService)) in
  let ports := if addPort
    then svc_Ports gatewayService ++
           [mkServicePort (Itoa (sr_TargetPort serviceRef) +:+ "-beamlit") (sp_Protocol portToAdd)
              (sr_TargetPort serviceRef) (FromInt gatewayPort)]
    else svc_Ports gatewayService in
  let externalIPs := filter (fun ip => ip ∉ svc_ExternalIPs gatewayService) (svc_ClusterIPs user) in
  set_svc_network ports externalIPs gatewayService.

(** [src/internal/dataplane/configurer/kubernetes_configurer.go:162-215 addPortToGatewayService] *)
Definition addPortToGatewayService (serviceRef : ServiceReference) : CM unit :=
  g ← self (gets gatewayServiceRef);
  gw ← deref g;
  gatewayService ← outer (svc_Get (sr_Namespace gw) (sr_Name gw));
  serviceToConfigure ← outer (svc_Get (sr_Namespace serviceRef) (sr_Name serviceRef));
  _ ← outer (svc_Update (gateway_with_service serviceRef (sr_TargetPort gw) gatewayService serviceToConfigure));
  mret tt.

(** [src/internal/dataplane/configurer/kubernetes_configurer.go:219-242 takeOverEndpointsSlices] *)
Definition takeOverEndpointsSlices (serviceRef : ServiceReference) : CM unit :=
  userServiceEndpoints ← outer (es_List (sr_Namespace serviceRef) (sr_Name serviceRef));
  self (modify (upd_initial_endpoints (fun m =>
    match m !! sr_key serviceRef with Some _ => m | None => <[sr_key serviceRef := []]> m end))) ;;
  foreach userServiceEndpoints (fun endpoint =>
    if String.eqb (label ManagedBy endpoint) OperatorLabel then mret tt
    else
      self (modify (upd_initial_endpoints (fun m =>
        <[sr_key serviceRef := default [] (m !! sr_key serviceRef) ++ [es_key endpoint]]> m))) ;;
      endpoint ← set_label ManagedBy OperatorLabel endpoint;
      endpoint ← set_label ServiceNameLabel (sr_Name serviceRef) endpoint;
      _ ← outer (es_Update endpoint);
      mret tt).

(** [src/internal/dataplane/configurer/kubernetes_configurer.go:270-285 createMirroredEndpointsSlice] an
    endpoint, whose conditions must be set *)
Definition mirror_endpoint (e : Endpoint) : CM Endpoint :=
  ready ← deref (ep_Ready e);
  serving ← deref (ep_Serving e);
  terminating ← deref (ep_Terminating e);
  mret (mkEndpoint (ep_Addresses e) (Some ready) (Some serving) (Some terminating) (ep_Hostname e)
          (ep_NodeName e)).

(** [make], the loop and its [append]s. *)
Fixpoint map_each {S A B} (f : A -> M S B) (l : list A) : M S (list B) :=
  match l with
  | [] => mret []
  | x :: l' => y ← f x; ys ← map_each f l'; mret (y :: ys)
  end.

(** [src/internal/dataplane/configurer/kubernetes_configurer.go:288-305 createMirroredEndpointsSlice] *)
Definition mirror_ports (targetPort : Z) (ports : list EndpointPort) : list EndpointPort :=
  filter (fun port => epp_Port port <> Some targetPort) ports.

(** [src/internal/dataplane/configurer/kubernetes_configurer.go:246-323 createMirroredEndpointsSlice] *)
Definition createMirroredEndpointsSlice (serviceRef : ServiceReference) (targetPort : Z) : CM unit :=
  items ← outer (es_List (sr_Namespace serviceRef) (beamlit_name serviceRef));
  match items with
  | [] => throw (Errorf ("no mirrored endpoints slice found for service " +:+ sr_Name serviceRef))
  | [mirrored] =>
      endpoints ← map_each mirror_endpoint (es_Endpoints mirrored);
      _ ← outer (es_Apply (mkSlice (sr_Namespace serviceRef) (mirrored_name serviceRef)
            (<[ToUpdateLabel := "true"]> (<[ServiceNameLabel := sr_Name serviceRef]>
               {[ManagedBy := OperatorLabel]}))
            (es_AddressType mirrored) endpoints (mirror_ports targetPort (es_Ports mirrored))));
      self (modify (start_watcher (sr_key serviceRef) (MirrorWatcher serviceRef targetPort)))
  | _ => throw (Errorf ("multiple mirrored endpoints slices found for service " +:+ sr_Name serviceRef
                        +:+ ", this shouldn't happen"))
  end.

(** [src/internal/dataplane/configurer/kubernetes_configurer.go:325-346 cleanUnusedEndpointSlices] *)
Definition cleanUnusedEndpointSlices (serviceRef : ServiceReference) : CM unit :=
  userServiceEndpoints ← outer (es_List (sr_Namespace serviceRef) (sr_Name serviceRef));
  foreach userServiceEndpoints (fun endpoint =>
    if String.eqb (es_Name endpoint) (mirrored_name serviceRef) then mret tt
    else
      endpoint ← set_label ManagedBy OperatorLabel endpoint;
      _ ← outer (es_Update (set_contents (es_AddressType endpoint) [] [] endpoint));
      mret tt).

(** [src/internal/dataplane/configurer/kubernetes_configurer.go:96-105 Configure] *)
Definition pod_port (serviceRef : ServiceReference) (beamlitService : Service) : Z :=
  match first_with (fun port => sp_Port port =? sr_TargetPort serviceRef) (svc_Ports beamlitService) with
  | Some port => IntVal (sp_TargetPort port)
  | None => 0
  end.

(** [src/internal/dataplane/configurer/kubernetes_configurer.go:82-126 Configure] *)
Definition Configure (serviceRef : option ServiceReference) : CM unit :=
  serviceRef ← deref serviceRef;
  beamlitService ← createBeamlitModelService serviceRef;
  addPortToGatewayService serviceRef ;;
  takeOverEndpointsSlices serviceRef ;;
  let targetPort := pod_port serviceRef beamlitService in
  (if targetPort =? 0
   then throw (Errorf ("target port not found in beamlit service " +:+ svc_Name beamlitService))
   else mret tt) ;;
  createMirroredEndpointsSlice serviceRef targetPort ;;
  cleanUnusedEndpointSlices serviceRef ;;
  self (modify (start_watcher (sr_key serviceRef) (ServiceWatcher serviceRef))).

(** *** Giving a service back *)

(** [src/internal/dataplane/configurer/kubernetes_configurer.go:402-411 stopWatchers] the loop: a
    [return] ends it at the first channel that is neither closed nor being sent on *)
Fixpoint stop_loop (l : list nat) : M kubernetesConfigurer unit :=
  match l with
  | [] => mret tt
  | ch :: l' =>
      st ← gets (fun s => default ChanOpen (chans s !! ch));
      match st with
      | ChanSending => modify (upd_chans <[ch := ChanClosed]>) ;; stop_loop l'
      | ChanClosed => stop_loop l'
      | ChanOpen => mret tt
      end
  end.

(** [src/internal/dataplane/configurer/kubernetes_configurer.go:397-413 stopWatchers] *)
Definition stopWatchers (serviceRef : ServiceReference) : M kubernetesConfigurer unit :=
  stopCh ← gets (fun s => stopChans s !! sr_key serviceRef);
  match stopCh with
  | None => throw (Errorf ("stop channel not found for service " +:+ sr_Name serviceRef))
  | Some l => stop_loop l
  end.

(** [src/internal/dataplane/configurer/kubernetes_configurer.go:415-429 addKubernetesManagedEndpointsSlice] *)
Definition addKubernetesManagedEndpointsSlice (service : ServiceReference) : CM unit :=
  initialEndpoints ← self (gets (fun s => default [] (initialEndpointPerLocalService s !! sr_key service)));
  foreach initialEndpoints (fun endpoint =>
    endpointSlice ← outer (es_Get (nn_Namespace endpoint) (nn_Name endpoint));
    endpointSlice ← set_label ManagedBy ControllerLabel endpointSlice;
    _ ← outer (es_Update endpointSlice);
    mret tt).

(** [src/internal/dataplane/configurer/kubernetes_configurer.go:431-448 deleteBeamlitEndpointsSlice] *)
Definition deleteBeamlitEndpointsSlice (service : ServiceReference) : CM unit :=
  endpointSlices ← outer (es_List (sr_Namespace service) (sr_Name service));
  foreach endpointSlices (fun endpointSlice =>
    if bool_decide (es_Labels endpointSlice !! ManagedBy = Some OperatorLabel)
    then outer (es_Delete (sr_Namespace service) (es_Name endpointSlice))
    else mret tt).

(** [src/internal/dataplane/configurer/kubernetes_configurer.go:388-395 deleteBeamlitService] *)
Definition deleteBeamlitService (service : ServiceReference) : CM unit :=
  beamlitService ← self (gets (fun s => beamlitServicesByModelService s !! sr_key service));
  match beamlitService with
  | None => throw (Errorf ("beamlit service not found for model service " +:+ sr_Name service))
  | Some p =>
      self (modify (upd_beamlit_services (delete (sr_key service)))) ;;
      n ← deref p;
      outer (svc_Delete (nn_Namespace n) (nn_Name n))
  end.

(** [src/internal/dataplane/configurer/kubernetes_configurer.go:450-473 deleteExternalIPsFromGatewayService] *)
Definition deleteExternalIPsFromGatewayService (service : ServiceReference) : CM unit :=
  g ← self (gets gatewayServiceRef);
  gw ← deref g;
  gatewayService ← outer (svc_Get (sr_Namespace gw) (sr_Name gw));
  userService ← outer (svc_Get (sr_Namespace service) (sr_Name service));
  _ ← outer (svc_Update (set_svc_network (svc_Ports gatewayService)
        (filter (fun ip => ip ∉ svc_ClusterIPs userService) (svc_ExternalIPs gatewayService)) gatewayService));
  mret tt.

(** [src/internal/dataplane/configurer/kubernetes_configurer.go:487-499 watchEndpointsSliceToBeUpdated] one
    pass over the slices: [true] when the controller has filled one *)
Fixpoint refilled (l : list NamespacedName) : CM bool :=
  match l with
  | [] => mret false
  | endpoint :: l' =>
      endpointSlice ← outer (es_Get (nn_Namespace endpoint) (nn_Name endpoint));
      if String.eqb (label ManagedBy endpointSlice) ControllerLabel &&
         (0 <? length (es_Endpoints endpointSlice))%nat
      then mret true
      else refilled l'
  end.

Definition maxRetries : Z := 5.
Definition Millisecond : Z := 1000000.

(** [src/internal/dataplane/configurer/kubernetes_configurer.go:479-506 watchEndpointsSliceToBeUpdated] one
    turn of the loop *)
Definition watch_turn (next : Z -> CM unit) (retry : Z) (serviceRef : ServiceReference) : CM unit :=
  done ← outer ctx_Done;
  if (done : bool) then mret tt
  else
    initialEndpoints ← self (gets (fun s =>
      default [] (initialEndpointPerLocalService s !! sr_key serviceRef)));
    match initialEndpoints with
    | [] => mret tt
    | _ =>
        found ← refilled initialEndpoints;
        if (found : bool)
        then self (modify (upd_initial_endpoints (delete (sr_key serviceRef))))
        else
          let retry := retry + 1 in
          if maxRetries <=? retry
          then self (modify (upd_initial_endpoints (delete (sr_key serviceRef))))
          else outer (time_Sleep (retry * 100 * Millisecond)) ;; next retry
    end.

(** [src/internal/dataplane/configurer/kubernetes_configurer.go:478-507 watchEndpointsSliceToBeUpdated] the
    loop with fuel; running out of it is a panic *)
Fixpoint watch_loop (fuel : nat) (retry : Z) (serviceRef : ServiceReference) : CM unit :=
  match fuel with
  | O => panic
  | S fuel' => watch_turn (fun retry => watch_loop fuel' retry serviceRef) retry serviceRef
  end.
(** [src/internal/dataplane/configurer/kubernetes_configurer.go:475-508 watchEndpointsSliceToBeUpdated] *)
Definition watchEndpointsSliceToBeUpdated (serviceRef : ServiceReference) : CM unit :=
  watch_loop 5 0 serviceRef.

(** [src/internal/dataplane/configurer/kubernetes_configurer.go:356-383 Unconfigure] *)
Definition give_back (service : ServiceReference) : CM unit :=
  self (stopWatchers service) ;;
  addKubernetesManagedEndpointsSlice service ;;
  deleteBeamlitEndpointsSlice service ;;
  deleteBeamlitService service ;;
  deleteExternalIPsFromGatewayService service ;;
  watchEndpointsSliceToBeUpdated service.

(** [src/internal/dataplane/configurer/kubernetes_configurer.go:348-386 Unconfigure] the time-out of 10 s
    is the world's [ctx_Done] *)
Definition Unconfigure (service : option ServiceReference) : CM unit :=
  service ← deref service;
  value ← self (gets (fun s => beamlitServicesByModelService s !! sr_key service));
  match value with
  | None | Some None => mret tt
  | Some (Some _) => give_back service
  end.

(** *** Mirroring *)

(** [src/internal/dataplane/configurer/kubernetes_configurer_helper.go:56-64 mirrorEndpointSlices] the loop
    ranges over the slice as it was, [arr] being its backing array, while the body
    shortens the slice to [len] elements and shifts them in that array *)
Fixpoint remove_port_loop (k i : nat) (targetPort : Z) (arr : list EndpointPort) (len : nat)
    : res (list EndpointPort) :=
  match k with
  | O => Ok (take len arr)
  | S k' =>
      match arr !! i with
      | None => Panic
      | Some port =>
          if bool_decide (epp_Port port = Some targetPort) then
            if (len <? i + 1)%nat then Panic
            else remove_port_loop k' (S i) targetPort
                   (take i arr ++ drop (S i) (take len arr) ++ drop (len - 1) arr) (len - 1)
          else remove_port_loop k' (S i) targetPort arr len
      end
  end.
(** [src/internal/dataplane/configurer/kubernetes_configurer_helper.go:55-64 mirrorEndpointSlices] from the
    first element *)
Definition remove_port (targetPort : Z) (ports : list EndpointPort) : res (list EndpointPort) :=
  remove_port_loop (length ports) 0 targetPort ports (length ports).

(** [src/internal/dataplane/configurer/kubernetes_configurer_helper.go:46-94 mirrorEndpointSlices] what an
    event of the watch on the mirrored service does; an error ends the goroutine *)
Definition mirror_event (serviceRef : ServiceReference) (targetPort : Z)
    (event : watch_event EndpointSlice) : M W unit :=
  match event with
  | EventError => throw (Errorf "error watching endpoint slice")
  | EventOther => throw (Errorf "unexpected object type")
  | EventObject endpointSlice =>
      ports ← of_res (remove_port targetPort (es_Ports endpointSlice));
      userServiceEndpointSlices ← es_List (sr_Namespace serviceRef) (sr_Name serviceRef);
      match first_with (fun slice => String.eqb (label ToUpdateLabel slice) "true") userServiceEndpointSlices with
      | None => throw (Errorf "second endpoint slice not found")
      | Some slice =>
          if String.eqb (es_Name slice) "" then throw (Errorf "second endpoint slice not found")
          else
            _ ← es_Update (set_contents (es_AddressType endpointSlice) (es_Endpoints endpointSlice) ports slice);
            mret tt
      end
  end.

#[export] Instance kubernetes_configurer : Configurer (kubernetesConfigurer * W) := {
  cfg_Start := Start;
  cfg_Configure := Configure;
  cfg_Unconfigure := Unconfigure;
  cfg_GetLocalBeamlitService := GetLocalBeamlitService
}.
End Operations.
Arguments CM W A : clear implicits.

(** ** Lemmas: what successful calls do to the objects *)

Section Calls.
Context {W : Type} `{Hk : KubeAPI W} `{Hks : !KubeSpec W}.

(** Assertions on the configurer's state and the cluster's objects. *)
Definition assertion : Type :=
  kubernetesConfigurer -> gmap NamespacedName Service -> gmap NamespacedName EndpointSlice -> Prop.
Definition holds (Q : assertion) (x : kubernetesConfigurer * W) : Prop :=
  Q x.1 (services x.2) (slices x.2).

(** The slices a selector on the service name finds. *)
Definition of_service (ns v : string) (e : EndpointSlice) : Prop :=
  es_Namespace e = ns /\ es_Labels e !! ServiceNameLabel = Some v.

Lemma ok_svc_Get (Q : assertion) ns n :
  onok (holds Q) (outer (svc_Get ns n))
    (fun s => holds (fun c ss es => Q c ss es /\ ss !! mkNN ns n = Some s /\ svc_key s = mkNN ns n)).
Proof.
  apply onok_outer. intros c w w' s HQ E.
  destruct (svc_Get_law ns n w) as (w1 & r & E1 & Hs & He & Hr). rewrite E in E1. injection E1 as <- <-.
  unfold holds in *. cbn in *. by rewrite Hs, He.
Qed.

Lemma ok_svc_Apply (Q : Service -> assertion) s :
  onok (holds (fun c ss es => forall s', svc_key s' = svc_key s -> svc_Ports s' = svc_Ports s ->
                 Q s' c (<[svc_key s := s']> ss) es)) (outer (svc_Apply s)) (fun s' => holds (Q s')).
Proof.
  apply onok_outer. intros c w w' s' HQ E.
  destruct (svc_Apply_law s w) as (w1 & r & E1 & He & Hr). rewrite E in E1. injection E1 as <- <-.
  destruct Hr as (? & ? & Hr). unfold holds in *. cbn in *. rewrite Hr, He. auto.
Qed.

Lemma ok_svc_Update (Q : assertion) s :
  onok (holds (fun c ss es => Q c (<[svc_key s := s]> ss) es)) (outer (svc_Update s)) (fun _ => holds Q).
Proof.
  apply onok_outer. intros c w w' s' HQ E.
  destruct (svc_Update_law s w) as (w1 & r & E1 & He & Hr). rewrite E in E1. injection E1 as <- <-.
  destruct Hr as (? & Hr). unfold holds in *. cbn in *. by rewrite Hr, He.
Qed.

Lemma ok_svc_Delete (Q : assertion) ns n :
  onok (holds (fun c ss es => Q c (delete (mkNN ns n) ss) es)) (outer (svc_Delete ns n)) (fun _ => holds Q).
Proof.
  apply onok_outer. intros c w w' s' HQ E.
  destruct (svc_Delete_law ns n w) as (w1 & r & E1 & He & Hr). rewrite E in E1. injection E1 as <- <-.
  unfold holds in *. cbn in *. by rewrite Hr, He.
Qed.

Lemma ok_es_List (Q : assertion) ns v :
  onok (holds Q) (outer (es_List ns v))
    (fun l => holds (fun c ss es => Q c ss es /\
       forall e, e ∈ l <-> es !! es_key e = Some e /\ of_service ns v e)).
Proof.
  apply onok_outer. intros c w w' l HQ E.
  destruct (es_List_law ns v w) as (w1 & r & E1 & Hs & He & Hr). rewrite E in E1. injection E1 as <- <-.
  destruct Hr as [_ Hr]. unfold holds in *. cbn in *. by rewrite Hs, He.
Qed.

Lemma ok_es_Get (Q : assertion) ns n :
  onok (holds Q) (outer (es_Get ns n))
    (fun e => holds (fun c ss es => Q c ss es /\ es !! mkNN ns n = Some e /\ es_key e = mkNN ns n)).
Proof.
  apply onok_outer. intros c w w' s HQ E.
  destruct (es_Get_law ns n w) as (w1 & r & E1 & Hs & He & Hr). rewrite E in E1. injection E1 as <- <-.
  unfold holds in *. cbn in *. by rewrite Hs, He.
Qed.

Lemma ok_es_Update (Q : assertion) e :
  onok (holds (fun c ss es => Q c ss (<[es_key e := e]> es))) (outer (es_Update e)) (fun _ => holds Q).
Proof.
  apply onok_outer. intros c w w' s' HQ E.
  destruct (es_Update_law e w) as (w1 & r & E1 & Hs & Hr). rewrite E in E1. injection E1 as <- <-.
  destruct Hr as (? & Hr). unfold holds in *. cbn in *. by rewrite Hr, Hs.
Qed.

Lemma ok_es_Apply (Q : assertion) e :
  onok (holds (fun c ss es => forall e', es_key e' = es_key e -> es_Labels e ⊆ es_Labels e' ->
                 es_Endpoints e' = es_Endpoints e -> es_Ports e' = es_Ports e ->
                 Q c ss (<[es_key e := e']> es))) (outer (es_Apply e)) (fun _ => holds Q).
Proof.
  apply onok_outer. intros c w w' e' HQ E.
  destruct (es_Apply_law e w) as (w1 & r & E1 & Hs & Hr). rewrite E in E1. injection E1 as <- <-.
  destruct Hr as (? & ? & _ & ? & ? & Hr). unfold holds in *. cbn in *. rewrite Hr, Hs. auto.
Qed.

Lemma ok_es_Delete (Q : assertion) ns n :
  onok (holds (fun c ss es => Q c ss (delete (mkNN ns n) es))) (outer (es_Delete ns n)) (fun _ => holds Q).
Proof.
  apply onok_outer. intros c w w' s' HQ E.
  destruct (es_Delete_law ns n w) as (w1 & r & E1 & Hs & Hr). rewrite E in E1. injection E1 as <- <-.
  unfold holds in *. cbn in *. by rewrite Hr, Hs.
Qed.

Lemma ok_self_modify (Q : assertion) f :
  onok (holds (fun c => Q (f c))) (self (W:=W) (modify f)) (fun _ => holds Q).
Proof. apply onok_self. by intros w s s' [] HQ [= <-]. Qed.

Lemma ok_self_gets {A} (Q : assertion) (f : kubernetesConfigurer -> A) :
  onok (holds Q) (self (W:=W) (gets f)) (fun a => holds (fun c ss es => Q c ss es /\ a = f c)).
Proof. apply onok_self. by intros w s s' a HQ [= <- <-]. Qed.

Lemma ok_set_label {P : kubernetesConfigurer * W -> Prop} k v e :
  onok P (set_label k v e) (fun e' x => P x /\ e' = set_labels (<[k := v]> (es_Labels e)) e).
Proof.
  unfold set_label. case_decide; [apply onok_panic|]. by intros s s' a HP [= <- <-].
Qed.
End Calls.

Section Steps.
Context {W : Type} `{Hk : KubeAPI W} `{Hks : !KubeSpec W}.
Implicit Types (ref : ServiceReference).

Definition mirrored_key ref : NamespacedName := mkNN (sr_Namespace ref) (mirrored_name ref).

(** Nothing is served from the slice any more. *)
Definition emptied (e : EndpointSlice) : Prop :=
  es_Endpoints e = [] /\ es_Ports e = [] /\ es_Labels e !! ManagedBy = Some OperatorLabel.

(** All slices of the service but the mirrored one are empty. *)
Definition others_emptied ref (es : gmap NamespacedName EndpointSlice) (pending : list EndpointSlice) : Prop :=
  forall e, es !! es_key e = Some e -> of_service (sr_Namespace ref) (sr_Name ref) e ->
    es_Name e = mirrored_name ref \/ emptied e \/ e ∈ pending.

(** Assertions the slice operations do not touch. *)
Definition about_services : Type :=
  gmap NamespacedName (option NamespacedName) -> gmap NamespacedName Service -> Prop.

Lemma ok_foreach_holds {A} (Inv : list A -> assertion) (l : list A) (f : A -> CM W unit) :
  (forall x l', onok (holds (Inv (x :: l'))) (f x) (fun _ => holds (Inv l'))) ->
  onok (holds (Inv l)) (foreach l f) (fun _ => holds (Inv [])).
Proof. exact (onok_foreach (fun l => holds (Inv l)) l f). Qed.

Lemma ok_takeOver (Q : about_services) ref :
  onok (holds (fun c ss _ => Q (beamlitServicesByModelService c) ss))
    (takeOverEndpointsSlices (W:=W) ref)
    (fun _ => holds (fun c ss _ => Q (beamlitServicesByModelService c) ss)).
Proof.
  unfold takeOverEndpointsSlices. set (I := fun c ss (_ : gmap NamespacedName EndpointSlice) => Q _ _).
  eapply onok_bind; [apply ok_es_List|]. intros l.
  eapply (onok_bind _ _ _ (fun _ => holds I)).
  { eapply onok_pre; [|apply (ok_self_modify I)]. by intros x [Hx _]. }
  intros ?. apply (ok_foreach_holds (fun _ => I)). intros e l'.
  case_match; [apply onok_skip|].
  eapply (onok_bind _ _ _ (fun _ => holds I)).
  { eapply onok_pre; [|apply (ok_self_modify I)]. done. }
  intros ?. eapply onok_bind; [apply ok_set_label|]. intros e1.
  eapply onok_bind; [apply ok_set_label|]. intros e2.
  eapply (onok_bind _ _ _ (fun _ => holds I)); [|intros ?; apply onok_skip].
  eapply onok_pre; [|apply (ok_es_Update I)]. by intros x [[Hx _] _].
Qed.

Lemma of_service_stored ref e0 (es : gmap NamespacedName EndpointSlice) l :
  others_emptied ref es (e0 :: l) ->
  forall e0', es_key e0' = es_key e0 -> es_Name e0' <> mirrored_name ref ->
  emptied e0' ->
  others_emptied ref (<[es_key e0' := e0']> es) l.
Proof.
  intros Hes e0' Hk' Hn Hem e1 He1 Hof. destruct (decide (es_key e1 = es_key e0')) as [E|E].
  - rewrite E, lookup_insert_eq in He1. injection He1 as <-. auto.
  - rewrite lookup_insert_ne in He1 by done.
    destruct (Hes e1 He1 Hof) as [?|[?|[->|?]%elem_of_cons]]; auto. congruence.
Qed.

Lemma others_emptied_skip ref e0 (es : gmap NamespacedName EndpointSlice) l :
  others_emptied ref es (e0 :: l) -> es_Name e0 = mirrored_name ref -> others_emptied ref es l.
Proof.
  intros Hes Hn e He Hof. destruct (Hes e He Hof) as [?|[?|[->|?]%elem_of_cons]]; auto.
Qed.

Lemma ok_cleanUnused (Q : gmap NamespacedName (option NamespacedName) -> gmap NamespacedName Service ->
    option EndpointSlice -> Prop) ref :
  onok (holds (fun c ss es => Q (beamlitServicesByModelService c) ss (es !! mirrored_key ref)))
    (cleanUnusedEndpointSlices (W:=W) ref)
    (fun _ => holds (fun c ss es => Q (beamlitServicesByModelService c) ss (es !! mirrored_key ref) /\
                                    others_emptied ref es [])).
Proof.
  unfold cleanUnusedEndpointSlices.
  set (I := fun c ss (es : gmap NamespacedName EndpointSlice) => Q _ _ _).
  eapply onok_bind; [apply ok_es_List|]. intros l.
  eapply onok_pre; [|apply (ok_foreach_holds (fun l c ss es => I c ss es /\ others_emptied ref es l))].
  { intros x [HI Hl]. split; [done|]. intros e He Hof. right. right. by apply Hl. }
  intros e l'. destruct (String.eqb (es_Name e) (mirrored_name ref)) eqn:En.
  - apply String.eqb_eq in En. eapply onok_pre; [|apply onok_skip].
    intros x [HI Hl]. split; [done|]. by eapply others_emptied_skip.
  - apply String.eqb_neq in En. eapply onok_bind; [apply ok_set_label|]. intros e1.
    eapply (onok_bind _ _ _ (fun _ => holds (fun c ss es => I c ss es /\ others_emptied ref es l')));
      [|intros ?; apply onok_skip].
    eapply onok_pre; [|apply ok_es_Update]. intros x [[HI Hl] ->]. unfold holds in *. split.
    + unfold I in *. rewrite lookup_insert_ne; [done|]. unfold es_key, mirrored_key; cbn. congruence.
    + eapply of_service_stored; [exact Hl|done|done|]. split; [done|]. split; [done|].
      cbn. apply lookup_insert_eq.
Qed.

Lemma ok_map_each (P : kubernetesConfigurer * W -> Prop) l :
  onok P (map_each mirror_endpoint l) (fun _ => P).
Proof.
  induction l as [|e l IH]; cbn; [apply onok_skip|].
  eapply (onok_bind _ _ _ (fun _ => P)).
  - unfold mirror_endpoint. intros s s' b HP.
    destruct (ep_Ready e), (ep_Serving e), (ep_Terminating e); mrun; congruence.
  - intros ?. eapply onok_bind; [exact IH|]. intros ?. apply onok_skip.
Qed.

(** The service's own slice carries no port of the model's server. *)
Definition mirrors_without ref (targetPort : Z) (o : option EndpointSlice) : Prop :=
  exists e, o = Some e /\ of_service (sr_Namespace ref) (sr_Name ref) e /\
    es_Labels e !! ManagedBy = Some OperatorLabel /\
    forall port, port ∈ es_Ports e -> epp_Port port <> Some targetPort.

Lemma ok_createMirrored (Q : about_services) ref targetPort :
  onok (holds (fun c ss _ => Q (beamlitServicesByModelService c) ss))
    (createMirroredEndpointsSlice (W:=W) ref targetPort)
    (fun _ => holds (fun c ss es => Q (beamlitServicesByModelService c) ss /\
                                    mirrors_without ref targetPort (es !! mirrored_key ref))).
Proof.
  unfold createMirroredEndpointsSlice.
  set (I := fun c ss (_ : gmap NamespacedName EndpointSlice) => Q _ _).
  eapply onok_bind; [apply ok_es_List|]. intros [|e [|? ?]]; [apply onok_throw| |apply onok_throw].
  eapply onok_bind; [apply ok_map_each|]. intros eps.
  eapply (onok_bind _ _ _ (fun _ => holds (fun c ss es => I c ss es /\
    mirrors_without ref targetPort (es !! mirrored_key ref)))).
  - eapply onok_pre; [|apply ok_es_Apply]. intros x [HI _]. unfold holds. intros e' Hkey Hlab _ Hports.
    split; [exact HI|]. unfold mirrored_key. cbn in Hkey |- *. rewrite lookup_insert_eq.
    exists e'. split; [done|]. unfold es_key in Hkey. injection Hkey as Hns _. split; [split; [done|]|].
    + eapply lookup_weaken; [|exact Hlab]. cbn. rewrite lookup_insert_ne by done. apply lookup_insert_eq.
    + split; [eapply lookup_weaken; [|exact Hlab]; done|].
      intros port Hp. rewrite Hports in Hp. cbn in Hp. unfold mirror_ports in Hp.
      by apply list_elem_of_filter in Hp as [? _].
  - intros ?. eapply onok_pre; [|apply (ok_self_modify (fun c ss es => I c ss es /\
      mirrors_without ref targetPort (es !! mirrored_key ref)))]. done.
Qed.

Lemma ok_createBeamlit (g : option ServiceReference) (Q : gmap NamespacedName Service -> Prop) ref :
  let bkey := mkNN (sr_Namespace ref) (beamlit_name ref) in
  (forall ss s, Q ss -> Q (<[bkey := s]> ss)) ->
  onok (holds (fun c ss _ => gatewayServiceRef c = g /\ Q ss))
    (createBeamlitModelService (W:=W) ref)
    (fun s' => holds (fun c ss _ => gatewayServiceRef c = g /\ Q ss /\ ss !! bkey = Some s' /\
       beamlitServicesByModelService c !! sr_key ref = Some (Some bkey))).
Proof.
  intros bkey HQ. unfold createBeamlitModelService.
  set (I := fun s' c ss (_ : gmap NamespacedName EndpointSlice) => gatewayServiceRef c = g /\ Q ss /\
    ss !! bkey = Some s' /\ beamlitServicesByModelService c !! sr_key ref = Some (Some bkey)).
  eapply onok_bind; [apply ok_svc_Get|]. intros u.
  eapply onok_bind.
  { eapply onok_pre; [|apply (ok_svc_Apply (fun s' c ss _ => gatewayServiceRef c = g /\ Q ss /\
      ss !! bkey = Some s' /\ svc_key s' = bkey))].
    intros x [[Hg Hs] _]. unfold holds. intros s' Hkey _. split_and!; [done|by apply HQ| |done].
    apply lookup_insert_eq. }
  intros s'. eapply (onok_bind _ _ _ (fun _ => holds (I s')));
    [|intros ?; apply (onok_ret s' (fun s' => holds (I s')))].
  eapply onok_pre; [|apply ok_self_modify]. intros x (Hg & Hs & Hb & Hk'). unfold holds, I. cbn.
  rewrite lookup_insert_eq, Hk'. auto.
Qed.

Lemma ok_addPort (Q : about_services) gw ref :
  onok (holds (fun c ss _ => gatewayServiceRef c = Some gw /\
           forall g u, ss !! sr_key gw = Some g -> ss !! sr_key ref = Some u -> svc_key g = sr_key gw ->
             Q (beamlitServicesByModelService c)
               (<[sr_key gw := gateway_with_service ref (sr_TargetPort gw) g u]> ss)))
    (addPortToGatewayService (W:=W) ref)
    (fun _ => holds (fun c ss _ => Q (beamlitServicesByModelService c) ss)).
Proof.
  unfold addPortToGatewayService.
  eapply onok_bind; [apply ok_self_gets|]. intros g.
  eapply onok_bind; [apply onok_deref|]. intros gw'.
  eapply onok_bind.
  { eapply onok_pre; [|apply (ok_svc_Get (fun c ss es => gw' = gw /\ forall g u, ss !! sr_key gw = Some g ->
       ss !! sr_key ref = Some u -> svc_key g = sr_key gw ->
       Q (beamlitServicesByModelService c)
         (<[sr_key gw := gateway_with_service ref (sr_TargetPort gw) g u]> ss)))].
    intros x [[[Hg HQ] Hgx] Hd]. unfold holds. split; [congruence|done]. }
  intros gs. eapply onok_bind; [apply ok_svc_Get|]. intros u.
  eapply (onok_bind _ _ _ (fun _ => holds (fun c ss _ => Q (beamlitServicesByModelService c) ss)));
    [|intros ?; apply onok_skip].
  eapply onok_pre; [|apply ok_svc_Update].
  intros x [[[-> HQ] [Hgs Hgk]] [Hu Huk]]. unfold holds.
  change (svc_key (gateway_with_service _ _ gs u)) with (svc_key gs). rewrite Hgk. by apply HQ.
Qed.

(** What a configured service looks like, given the gateway's service. *)
Definition taken_over ref gw : assertion := fun c ss es =>
  exists b g,
    beamlitServicesByModelService c !! sr_key ref = Some (Some (mkNN (sr_Namespace ref) (beamlit_name ref))) /\
    ss !! mkNN (sr_Namespace ref) (beamlit_name ref) = Some b /\
    ss !! sr_key gw = Some g /\
    (exists port, port ∈ svc_Ports g /\ sp_Port port = sr_TargetPort ref) /\
    pod_port ref b <> 0 /\
    mirrors_without ref (pod_port ref b) (es !! mirrored_key ref) /\
    others_emptied ref es [].

Lemma gateway_port_added ref tp g u :
  exists port, port ∈ svc_Ports (gateway_with_service ref tp g u) /\ sp_Port port = sr_TargetPort ref.
Proof.
  unfold gateway_with_service. cbn.
  match goal with |- context [existsb ?f ?l] => destruct (existsb f l) eqn:E end; cbn.
  - apply existsb_exists in E as (port & Hin & [Hp _]%andb_true_iff).
    exists port. split; [by apply list_elem_of_In|lia].
  - eexists. split; [apply elem_of_app; right; by apply list_elem_of_singleton|done].
Qed.

Lemma gateway_ips_replaced ref tp g u ip :
  ip ∈ svc_ExternalIPs g -> ip ∉ svc_ExternalIPs (gateway_with_service ref tp g u).
Proof. intros Hin Hout. cbn in Hout. by apply list_elem_of_filter in Hout as [? _]. Qed.

(** [Configure] step by step, the assertion carried along the slice operations
    being about services. *)
Lemma ok_Configure (Q : Service -> about_services) gw ref (G : gmap NamespacedName Service -> Prop) :
  let bkey := mkNN (sr_Namespace ref) (beamlit_name ref) in
  (forall ss s, G ss -> G (<[bkey := s]> ss)) ->
  (forall b bs ss g u, G ss -> ss !! bkey = Some b -> bs !! sr_key ref = Some (Some bkey) ->
     ss !! sr_key gw = Some g -> ss !! sr_key ref = Some u ->
     Q b bs (<[sr_key gw := gateway_with_service ref (sr_TargetPort gw) g u]> ss)) ->
  onok (holds (fun c ss _ => gatewayServiceRef c = Some gw /\ G ss)) (Configure (W:=W) (Some ref))
    (fun _ => holds (fun c ss es => exists b, pod_port ref b <> 0 /\
       Q b (beamlitServicesByModelService c) ss /\
       mirrors_without ref (pod_port ref b) (es !! mirrored_key ref) /\ others_emptied ref es [])).
Proof.
  intros bkey HG HQ. unfold Configure.
  apply onok_bind_some. eapply onok_bind; [by apply (ok_createBeamlit (Some gw) G)|]. intros b.
  eapply onok_bind.
  { eapply onok_pre; [|apply (ok_addPort (Q b) gw)]. intros x (Hg & Hs & Hb & Hbs).
    split; [done|]. intros g u Hgk Hu _. exact (HQ b _ _ g u Hs Hb Hbs Hgk Hu). }
  intros ?. eapply onok_bind; [apply ok_takeOver|]. intros ?.
  eapply (onok_bind _ _ _ (fun _ => holds (fun c ss _ => Q b (beamlitServicesByModelService c) ss /\
    pod_port ref b <> 0))).
  { destruct (pod_port ref b =? 0) eqn:E; [apply onok_throw|].
    eapply onok_pre; [|apply onok_skip]. intros x Hx. split; [exact Hx|lia]. }
  intros ?. eapply onok_bind.
  { apply (ok_createMirrored (fun bs ss => Q b bs ss /\ pod_port ref b <> 0)). }
  intros ?. eapply onok_bind.
  { eapply onok_pre; [|apply (ok_cleanUnused (fun bs ss o => (Q b bs ss /\ pod_port ref b <> 0) /\
      mirrors_without ref (pod_port ref b) o))]. by intros x Hx. }
  intros ?. eapply onok_pre; [|apply ok_self_modify].
  intros x [[[HQb Hp] Hm] Ho]. exists b. split_and!; assumption.
Qed.
End Steps.

(** *** Giving back *)

Section GiveBack.
Context {W : Type} `{Hk : KubeAPI W} `{Hks : !KubeSpec W}.
Implicit Types (ref : ServiceReference).

(** Of the operator's slices of the service only those in [pending] are left. *)
Definition operator_slices ref (es : gmap NamespacedName EndpointSlice) (pending : list EndpointSlice) : Prop :=
  (forall e, es !! es_key e = Some e -> of_service (sr_Namespace ref) (sr_Name ref) e ->
     es_Labels e !! ManagedBy = Some OperatorLabel -> e ∈ pending) /\
  (forall e, e ∈ pending -> es_Namespace e = sr_Namespace ref).

Definition about_records : Type :=
  option ServiceReference -> gmap NamespacedName (option NamespacedName) -> gmap NamespacedName Service -> Prop.
Definition rec (Q : about_records) (c : kubernetesConfigurer) : gmap NamespacedName Service -> Prop :=
  Q (gatewayServiceRef c) (beamlitServicesByModelService c).

Lemma ok_stopWatchers (Q : about_records) ref :
  onok (holds (W:=W) (fun c ss _ => rec Q c ss)) (self (stopWatchers ref))
    (fun _ => holds (fun c ss _ => rec Q c ss)).
Proof.
  apply onok_self. intros w. unfold stopWatchers.
  eapply onok_bind; [apply onok_gets|]. intros [l|]; [|apply onok_throw].
  eapply onok_pre; [intros s [Hs _]; exact Hs|].
  set (P := fun s => holds (fun c ss _ => rec Q c ss) (s, w)).
  change (onok P (stop_loop l) (fun _ => P)). clear. induction l as [|ch l IH]; cbn; [apply onok_skip|].
  eapply (onok_bind _ _ _ (fun _ => P)); [eapply onok_conseq; [apply onok_gets|done|by intros a s [? _]]|].
  intros []; [apply onok_skip| |exact IH].
  eapply (onok_bind _ _ _ (fun _ => P)); [|intros ?; exact IH].
  by intros s s' [] Hs [= <-].
Qed.

Lemma ok_addKubernetesManaged (Q : about_records) ref :
  onok (holds (W:=W) (fun c ss _ => rec Q c ss)) (addKubernetesManagedEndpointsSlice ref)
    (fun _ => holds (fun c ss _ => rec Q c ss)).
Proof.
  unfold addKubernetesManagedEndpointsSlice.
  set (I := fun c ss (_ : gmap NamespacedName EndpointSlice) => rec Q c ss).
  eapply onok_bind; [apply ok_self_gets|]. intros l.
  eapply onok_pre; [|apply (ok_foreach_holds (fun _ => I))]; [by intros x [? _]|].
  intros n l'. eapply onok_bind; [apply ok_es_Get|]. intros e.
  eapply onok_bind; [apply ok_set_label|]. intros e'.
  eapply (onok_bind _ _ _ (fun _ => holds I)); [|intros ?; apply onok_skip].
  eapply onok_pre; [|apply ok_es_Update]. by intros x [[? _] _].
Qed.

Lemma ok_deleteSlices (Q : about_records) ref :
  onok (holds (W:=W) (fun c ss _ => rec Q c ss)) (deleteBeamlitEndpointsSlice ref)
    (fun _ => holds (fun c ss es => rec Q c ss /\ operator_slices ref es [])).
Proof.
  unfold deleteBeamlitEndpointsSlice.
  set (I := fun c ss (_ : gmap NamespacedName EndpointSlice) => rec Q c ss).
  eapply onok_bind; [apply ok_es_List|]. intros l.
  eapply onok_pre; [|apply (ok_foreach_holds (fun l c ss es => I c ss es /\ operator_slices ref es l))].
  { intros x [HI Hl]. split; [done|]. split; [intros e He Hof _; by apply Hl|].
    intros e He. by apply Hl in He as [_ [? _]]. }
  intros e l'. case_bool_decide as Hlab.
  - eapply onok_pre; [|apply ok_es_Delete]. intros x [HI [Hop Hns]]. split; [done|].
    split; [|intros e' He'; apply Hns; by apply elem_of_cons; right].
    intros e' He' Hof Hl'. apply lookup_delete_Some in He' as [Hne He'].
    destruct (proj1 (elem_of_cons _ _ _) (Hop e' He' Hof Hl')) as [->|?]; [|done].
    destruct Hne. unfold es_key. by rewrite (proj1 Hof).
  - eapply onok_pre; [|apply onok_skip]. intros x [HI [Hop Hns]]. split; [done|].
    split; [|intros e' He'; apply Hns; by apply elem_of_cons; right].
    intros e' He' Hof Hl'. by destruct (proj1 (elem_of_cons _ _ _) (Hop e' He' Hof Hl')) as [->|?].
Qed.

Lemma ok_deleteBeamlitService (g : option ServiceReference) (E : gmap NamespacedName EndpointSlice -> Prop) n ref :
  onok (holds (W:=W) (fun c ss es => (gatewayServiceRef c = g /\
          beamlitServicesByModelService c !! sr_key ref = Some (Some n)) /\ E es))
    (deleteBeamlitService ref)
    (fun _ => holds (fun c ss es => (gatewayServiceRef c = g /\
          beamlitServicesByModelService c !! sr_key ref = None /\ ss !! n = None) /\ E es)).
Proof.
  unfold deleteBeamlitService. eapply onok_bind; [apply ok_self_gets|]. intros [[n'|]|].
  2, 3: intros s s' a [[[_ Hb] _] Ha]; congruence.
  eapply (onok_bind _ _ _ (fun _ => holds (fun c ss es => (gatewayServiceRef c = g /\
    beamlitServicesByModelService c !! sr_key ref = None /\ n' = n) /\ E es))).
  { eapply onok_pre; [|apply ok_self_modify]. intros x [[[Hg Hb] HE] Ha]. unfold holds. cbn.
    rewrite lookup_delete_eq. split_and!; [done|done|congruence|done]. }
  intros ?. apply onok_bind_some. eapply onok_pre; [|apply ok_svc_Delete].
  intros x [(Hg & Hb & ->) HE]. unfold holds. split; [|done]. split_and!; [done|done|].
  destruct n. apply lookup_delete_eq.
Qed.

(** No external address of the gateway is one of the service's. *)
Definition ips_disjoint ref gw (ss : gmap NamespacedName Service) : Prop :=
  exists g u, ss !! sr_key gw = Some g /\ ss !! sr_key ref = Some u /\
    forall ip, ip ∈ svc_ExternalIPs g -> ip ∉ svc_ClusterIPs u.

Lemma ok_deleteExternalIPs gw (E : gmap NamespacedName EndpointSlice -> Prop) n ref :
  onok (holds (W:=W) (fun c ss es => (gatewayServiceRef c = Some gw /\
          beamlitServicesByModelService c !! sr_key ref = None /\ ss !! n = None) /\ E es))
    (deleteExternalIPsFromGatewayService ref)
    (fun _ => holds (fun c ss es => (beamlitServicesByModelService c !! sr_key ref = None /\
          ss !! n = None /\ ips_disjoint ref gw ss) /\ E es)).
Proof.
  unfold deleteExternalIPsFromGatewayService.
  eapply onok_bind; [apply ok_self_gets|]. intros g. eapply onok_bind; [apply onok_deref|]. intros gw'.
  eapply onok_bind.
  { eapply onok_pre; [|apply (ok_svc_Get (fun c ss es => gw' = gw /\
      (beamlitServicesByModelService c !! sr_key ref = None /\ ss !! n = None) /\ E es))].
    intros x [[[(Hg & Hb & Hn) HE] Ha] Hd]. unfold holds. split_and!; [congruence|done..]. }
  intros gs. eapply onok_bind; [apply ok_svc_Get|]. intros u.
  set (I := fun c ss es => (beamlitServicesByModelService c !! sr_key ref = None /\
          ss !! n = None /\ ips_disjoint ref gw ss) /\ E es).
  eapply (onok_bind _ _ _ (fun _ => holds I)); [|intros ?; apply onok_skip].
  eapply onok_pre; [|apply ok_svc_Update].
  intros x [[(-> & (Hb & Hn) & HE) [Hgs Hgk]] [Hu Huk]]. unfold holds, I. split; [|done].
  set (g' := set_svc_network _ _ gs). assert (svc_key g' = sr_key gw) as -> by done.
  split_and!; [done| |].
  - destruct (decide (n = sr_key gw)) as [->|Hne];
      [unfold sr_key in Hn; congruence|]. by rewrite lookup_insert_ne.
  - assert (forall ip, ip ∈ svc_ExternalIPs g' -> ip ∉ svc_ClusterIPs u) as Hip.
    { intros ip Hip. by apply list_elem_of_filter in Hip as [? _]. }
    exists g'. destruct (decide (sr_key gw = sr_key ref)) as [Heq|Hne].
    + exists g'. rewrite <- Heq, lookup_insert_eq. split_and!; [done..|].
      intros ip Hin. apply Hip in Hin. change (svc_ClusterIPs g') with (svc_ClusterIPs gs).
      assert (Some gs = Some u) as [= ->]; [|done]. rewrite <- Hgs. etransitivity; [|exact Hu]. by f_equal.
    + exists u. rewrite lookup_insert_eq, lookup_insert_ne by done. split_and!; done.
Qed.

Lemma ok_refilled (Q : assertion) l : onok (holds Q) (refilled (W:=W) l) (fun _ => holds Q).
Proof.
  induction l as [|n l IH]; cbn; [apply onok_skip|].
  eapply onok_bind; [apply ok_es_Get|]. intros e.
  eapply onok_pre; [intros x [Hx _]; exact Hx|]. case_match; [apply onok_skip|exact IH].
Qed.

(** What survives the waiting: facts on the services, and slices of the operator that
    have gone. *)
Lemma ok_watch (P : gmap NamespacedName (option NamespacedName) -> gmap NamespacedName Service -> Prop)
    ref fuel retry :
  let Q : assertion := fun c ss es => P (beamlitServicesByModelService c) ss /\ operator_slices ref es [] in
  onok (holds (W:=W) Q) (watch_loop fuel retry ref) (fun _ => holds Q).
Proof.
  intros Q. revert retry. induction fuel as [|fuel IH]; intros retry; cbn [watch_loop]; [apply onok_panic|].
  unfold watch_turn.
  eapply (onok_bind _ _ _ (fun _ => holds Q)).
  { apply onok_outer. intros c w w' b HQ E. destruct (ctx_Done_law w) as (w1 & b1 & E1 & Hs & He).
    rewrite E in E1. injection E1 as <- <-. unfold holds in *. cbn in *. by rewrite Hs, He. }
  intros []; [apply onok_skip|]. eapply onok_bind; [apply ok_self_gets|]. intros l.
  eapply onok_pre; [intros x [Hx _]; exact Hx|]. destruct l as [|n l]; [apply onok_skip|].
  eapply onok_bind; [apply ok_refilled|].
  assert (onok (holds (W:=W) Q) (self (modify (upd_initial_endpoints (delete (sr_key ref))))) (fun _ => holds Q))
    as Hdel by (eapply onok_pre; [|apply (ok_self_modify Q)]; done).
  intros []; [exact Hdel|]. case_match; [exact Hdel|].
  eapply (onok_bind _ _ _ (fun _ => holds Q)); [|intros ?; apply IH].
  apply onok_outer. intros c w w' [] [HP [Hop _]] E.
  destruct (Sleep_law ((retry + 1) * 100 * Millisecond) w) as (w1 & E1 & Hs & He).
  rewrite E in E1. injection E1 as <-. unfold holds, Q in *. cbn in *. rewrite Hs. split; [done|].
  split; [|by intros e Hnil%not_elem_of_nil].
  intros e' Hst Hof Hlab. apply Hop; [|done|done]. by apply He.
Qed.

(** The loop's body runs at most five times. *)
Lemma refilled_no_panic l x : (refilled (W:=W) l x).2 <> Panic.
Proof.
  revert x. induction l as [|n l IH]; intros [c w]; cbn; [done|]. mrun.
  destruct (es_Get_law (nn_Namespace n) (nn_Name n) w) as (w1 & r & -> & _ & _ & Hr). cbn.
  destruct r as [e|e|]; [|done|done]. case_match; [done|]. apply IH.
Qed.

Lemma watch_turn_total next1 next2 retry ref x :
  (retry + 1 < maxRetries -> forall y, (next1 (retry + 1) y).2 <> Panic) ->
  (retry + 1 < maxRetries -> forall y, next1 (retry + 1) y = next2 (retry + 1) y) ->
  (watch_turn (W:=W) next1 retry ref x).2 <> Panic /\
  watch_turn next1 retry ref x = watch_turn next2 retry ref x.
Proof.
  intros Hno Heq. destruct x as [c w]. unfold watch_turn. mrun.
  destruct (ctx_Done_law w) as (w1 & b & -> & _). destruct b; [by split; cbn|]. cbn.
  pose proof (refilled_no_panic (default [] (initialEndpointPerLocalService c !! sr_key ref)) (c, w1)) as Hr.
  destruct (default [] _) as [|n l]; [by split; cbn|].
  destruct (refilled (n :: l) (c, w1)) as [x2 [[]|e|]]; cbn in Hr; [by split; cbn| |by split; cbn|done].
  destruct (maxRetries <=? retry + 1) eqn:Hmax; [by split; cbn|].
  assert (retry + 1 < maxRetries) as Hlt by lia.
  destruct (Sleep_law ((retry + 1) * 100 * Millisecond) x2.2) as (w3 & -> & _).
  cbn. split; [by apply Hno|by apply Heq].
Qed.

Lemma watch_loop_total fuel retry ref x :
  maxRetries <= retry + Z.of_nat fuel -> (0 < fuel)%nat ->
  (watch_loop (W:=W) fuel retry ref x).2 <> Panic /\
  watch_loop (W:=W) fuel retry ref x = watch_loop (S fuel) retry ref x.
Proof.
  revert retry x. induction fuel as [|fuel IH]; intros retry x Hf Hpos; [lia|].
  change (watch_loop (S fuel)) with (fun r s => watch_turn (fun r' => watch_loop (W:=W) fuel r' s) r s).
  change (watch_loop (S (S fuel))) with (fun r s => watch_turn (fun r' => watch_loop (W:=W) (S fuel) r' s) r s).
  apply watch_turn_total; intros Hlt y; apply IH; lia.
Qed.
End GiveBack.


(** *** Channels *)

Definition watcher_chan (g : watcher) : nat :=
  match g with MirrorWatcher _ _ ch => ch | ServiceWatcher _ ch => ch end.

(** Every goroutine still waits on an open channel, and no goroutine of [s0] is gone. *)
Definition all_waiting (s0 s : kubernetesConfigurer) : Prop :=
  goroutines s0 `prefix_of` goroutines s /\
  map_Forall (fun _ st => st = ChanOpen) (chans s) /\
  Forall (fun g => chans s !! watcher_chan g = Some ChanOpen) (goroutines s).

Section Channels.
Context {W : Type} `{Hk : KubeAPI W}.
Implicit Types (ref : ServiceReference) (s : kubernetesConfigurer).

(** A run of the configurer's operations, in any order and however they end. *)
Inductive configurer_step : relation (kubernetesConfigurer * W) :=
| step_Start g x : configurer_step x (cfg_Start g x).1
| step_Configure r x : configurer_step x (cfg_Configure r x).1
| step_Unconfigure r x : configurer_step x (cfg_Unconfigure r x).1
| step_GetLocal r x : configurer_step x (cfg_GetLocalBeamlitService r x).1
| step_cluster s w w' : configurer_step (s, w) (s, w').

Lemma start_watcher_waiting s0 key go s :
  (forall ch, watcher_chan (go ch) = ch) -> all_waiting s0 s -> all_waiting s0 (start_watcher key go s).
Proof.
  intros Hgo (Hpre & Hall & Hw). unfold start_watcher. split_and!; cbn.
  - by apply prefix_app_r.
  - by apply map_Forall_insert_2.
  - apply Forall_app. split; [|by repeat constructor; rewrite Hgo, lookup_insert_eq].
    apply (Forall_impl _ _ _ Hw). intros g Hg. rewrite lookup_insert_ne; [done|]. intros E.
    assert (fresh (dom (chans s)) ∈ dom (chans s)) as Hin.
    { rewrite E at 1. by apply elem_of_dom_2 in Hg. }
    by apply is_fresh in Hin.
Qed.

Lemma stop_loop_noop s0 l s : all_waiting s0 s -> stop_loop l s = (s, Ok tt).
Proof.
  intros (_ & Hall & _). destruct l as [|ch l]; [done|]. cbn. mrun.
  destruct (chans s !! ch) as [st|] eqn:E; cbn; [|done]. by rewrite (Hall ch st E).
Qed.

Definition waiting s0 (x : kubernetesConfigurer * W) : Prop := all_waiting s0 x.1.

(** What the operations on one service leave true of the configurer's records. *)
Record stays (J : kubernetesConfigurer -> Prop) ref : Prop := {
  stays_made own s : J s -> J (upd_beamlit_services <[sr_key ref := Some own]> s);
  stays_gone s : J s -> J (upd_beamlit_services (delete (sr_key ref)) s);
  stays_initial f s : J s -> J (upd_initial_endpoints f s);
  stays_watched go s : (forall ch, watcher_chan (go ch) = ch) -> J s -> J (start_watcher (sr_key ref) go s);
  stays_stopped : preserves J (stopWatchers ref)
}.

Lemma preserves_set_label {S} (I : S -> Prop) k v e : preserves I (set_label k v e).
Proof. unfold set_label. case_decide; auto with inv. Qed.
Lemma preserves_labelled {S B} (I : S -> Prop) k v e (f : EndpointSlice -> M S B) :
  preserves I (f (set_labels (<[k := v]> (es_Labels e)) e)) -> preserves I (set_label k v e ≫= f).
Proof. intros Hf. unfold set_label. case_decide; [by intros s Hs|exact Hf]. Qed.
Lemma preserves_map_each {S A B} (I : S -> Prop) (f : A -> M S B) l :
  (forall x, preserves I (f x)) -> preserves I (map_each f l).
Proof. intros Hf. induction l; cbn; auto 10 with inv. Qed.

Section Stays.
Context (J : kubernetesConfigurer -> Prop).
Let on_records (x : kubernetesConfigurer * W) : Prop := J x.1.

Lemma preserves_outer_records {A} (m : M W A) : preserves on_records (outer m).
Proof. exact (preserves_outer_fst J m). Qed.
Lemma preserves_modify_records f : (forall s, J s -> J (f s)) -> preserves on_records (self (W:=W) (modify f)).
Proof. intros Hf. apply (preserves_self J), preserves_modify, Hf. Qed.
Lemma preserves_gets_records {A} (f : kubernetesConfigurer -> A) : preserves on_records (self (W:=W) (gets f)).
Proof. apply (preserves_self J), preserves_gets. Qed.

Lemma preserves_given {A B} (a : A) (k : A -> CM W B) : preserves on_records (k a) -> preserves on_records (deref (Some a) ≫= k).
Proof. done. Qed.

Local Ltac records_step :=
  first
    [ lazymatch goal with |- preserves _ (mbind _ (deref (Some _))) => apply preserves_given end | apply preserves_bind; [|intros ?] | apply preserves_ret | apply preserves_throw
    | apply preserves_panic | apply preserves_deref | apply preserves_outer_records
    | apply preserves_gets_records | apply preserves_set_label
    | apply preserves_self; by apply stays_stopped
    | apply preserves_modify_records; intros ? ?; first
        [by apply stays_made | by apply stays_gone | by eapply stays_initial | by apply stays_watched]
    | apply preserves_foreach; intros ? _ | apply preserves_map_each; intros ?
    | case_match ].

Lemma preserves_refilled l : preserves on_records (refilled (W:=W) l).
Proof. induction l; cbn [refilled]; repeat (first [assumption | records_step]). Qed.

Lemma preserves_watch_loop fuel retry ref : stays J ref -> preserves on_records (watch_loop (W:=W) fuel retry ref).
Proof.
  intros Hst. revert retry. induction fuel as [|fuel IH]; intros retry; cbn [watch_loop]; unfold watch_turn;
    repeat (first [apply IH | apply preserves_refilled | records_step]).
Qed.

Lemma preserves_Configure ref : stays J ref -> preserves on_records (Configure (W:=W) (Some ref)).
Proof.
  intros Hst. unfold Configure, createBeamlitModelService, addPortToGatewayService, takeOverEndpointsSlices,
    createMirroredEndpointsSlice, cleanUnusedEndpointSlices, mirror_endpoint. repeat records_step.
Qed.
Lemma preserves_Unconfigure ref : stays J ref -> preserves on_records (Unconfigure (W:=W) (Some ref)).
Proof.
  intros Hst. unfold Unconfigure, give_back, addKubernetesManagedEndpointsSlice, deleteBeamlitEndpointsSlice,
    deleteBeamlitService, deleteExternalIPsFromGatewayService, watchEndpointsSliceToBeUpdated;
    repeat (first [apply preserves_watch_loop; exact Hst | records_step]).
Qed.
Lemma preserves_GetLocal r : preserves on_records (GetLocalBeamlitService (W:=W) r).
Proof. unfold GetLocalBeamlitService; repeat records_step. Qed.
End Stays.

Lemma waiting_stays s0 ref : stays (all_waiting s0) ref.
Proof.
  split; [done|done|done|intros; by apply start_watcher_waiting|].
  intros s Hs. unfold stopWatchers, wp. mrun. destruct (stopChans s !! sr_key ref) as [l|]; [|done]. by rewrite (stop_loop_noop s0).
Qed.

Lemma configurer_step_waiting s0 x x' : waiting s0 x -> configurer_step x x' -> waiting s0 x'.
Proof.
  intros Hx Hstep. revert Hx. destruct Hstep as [g y|r y|r y|r y|s w w']; intros Hx;
    [exact Hx| | |by apply (preserves_GetLocal (all_waiting s0))|exact Hx]; destruct r as [ref|]; try done;
    [by apply (preserves_Configure _ _ (waiting_stays s0 ref))|by apply (preserves_Unconfigure _ _ (waiting_stays s0 ref))].
Qed.
End Channels.

(** *** Half configured

    A service that is recorded but has no stop channel: [Configure] records it first and
    makes the channels last. *)
Definition half_configured (key : NamespacedName) (s : kubernetesConfigurer) : Prop :=
  (exists own, beamlitServicesByModelService s !! key = Some (Some own)) /\ stopChans s !! key = None.

Section HalfConfigured.
Context {W : Type} `{Hk : KubeAPI W}.
Implicit Types (ref : ServiceReference) (x : kubernetesConfigurer * W).

Lemma half_configured_stays key ref : sr_key ref <> key -> stays (half_configured key) ref.
Proof.
  intros Hne. split.
  - intros own s [[o Ho] Hs]. split; [|done]. exists o. cbn. by rewrite lookup_insert_ne.
  - intros s [[o Ho] Hs]. split; [|done]. exists o. cbn. by rewrite lookup_delete_ne.
  - done.
  - intros go s _ [[o Ho] Hs]. split; [by exists o|]. cbn. by rewrite lookup_insert_ne.
  - apply preserves_bind; [apply preserves_gets|intros [l|]; [|apply preserves_throw]].
    induction l as [|ch l IH]; cbn [stop_loop]; [apply preserves_ret|]. apply preserves_bind; [apply preserves_gets|intros [| |]];
      [apply preserves_ret| |done]. apply preserves_bind; [by apply preserves_modify|done].
Qed.

(** It is not given back: not by a call for it, nor by anything done to other services. *)
Lemma half_Unconfigure key s x : half_configured key x.1 ->
  half_configured key (Unconfigure s x).1.1 /\ ((Unconfigure s x).2 = Ok tt -> sr_key <$> s <> Some key).
Proof.
  intros Hx. destruct s as [ref|]; [|by split]. destruct (decide (sr_key ref = key)) as [<-|Hne].
  - destruct x as [c w]. destruct Hx as [[own Ho] Hs]. cbn in *. unfold Unconfigure, give_back, stopWatchers. mrun.
    rewrite Ho. unfold self, zoom, mbind, M_bind, gets. cbn. rewrite Hs. cbn. split; [|done]. split; [by exists own|done].
  - split; [|intros _ [=]; congruence]. exact (preserves_Unconfigure _ ref (half_configured_stays key ref Hne) x Hx).
Qed.
Lemma half_Configure key s x : half_configured key x.1 -> sr_key <$> s <> Some key -> half_configured key (Configure s x).1.1.
Proof.
  intros Hx Hs. destruct s as [ref|]; [|done]. apply (preserves_Configure _ ref); [|done]. apply half_configured_stays. cbn in Hs. congruence.
Qed.

Context `{Hks : !KubeSpec W}.

(** No slice has been made yet for the operator's own service. *)
Definition unmade ref (es : gmap NamespacedName EndpointSlice) : Prop :=
  forall k e, es !! k = Some e -> ~ of_service (sr_Namespace ref) (beamlit_name ref) e.
Let before ref x : Prop := stopChans x.1 !! sr_key ref = None /\ unmade ref (slices x.2).

Lemma before_call {A} ref (m : M W A) : (forall w, slices (m w).1 = slices w) -> preserves (before ref) (outer m).
Proof.
  intros Hm [c w] [Hc Hw]. unfold wp, outer, zoom. cbn in *. specialize (Hm w). destruct (m w) as [w' r]. cbn in Hm.
  split; [exact Hc|]. cbn. by rewrite Hm.
Qed.
Lemma before_own ref f : (forall s, stopChans (f s) = stopChans s) -> preserves (before ref) (self (W:=W) (modify f)).
Proof. intros Hf [c w] [Hc Hw]. split; [|exact Hw]. cbn in *. by rewrite Hf. Qed.
Lemma before_gets {A} ref (f : kubernetesConfigurer -> A) : preserves (before ref) (self (W:=W) (gets f)).
Proof. by intros [c w] Hx. Qed.

Lemma slices_svc_Get ns n w : slices (svc_Get ns n w).1 = slices w.
Proof. destruct (svc_Get_law ns n w) as (w' & r & -> & _ & H & _). exact H. Qed.
Lemma slices_svc_Apply s w : slices (svc_Apply s w).1 = slices w.
Proof. destruct (svc_Apply_law s w) as (w' & r & -> & H & _). exact H. Qed.
Lemma slices_svc_Update s w : slices (svc_Update s w).1 = slices w.
Proof. destruct (svc_Update_law s w) as (w' & r & -> & H & _). exact H. Qed.
Lemma slices_es_List ns v w : slices (es_List ns v w).1 = slices w.
Proof. destruct (es_List_law ns v w) as (w' & r & -> & _ & H & _). exact H. Qed.

Lemma before_createBeamlit ref : preserves (before ref) (createBeamlitModelService (W:=W) ref).
Proof.
  apply preserves_bind; [apply before_call, slices_svc_Get|intros u]. apply preserves_bind; [apply before_call, slices_svc_Apply|intros b].
  apply preserves_bind; [by apply before_own|intros _; apply preserves_ret].
Qed.
Lemma before_addPort ref : preserves (before ref) (addPortToGatewayService (W:=W) ref).
Proof.
  apply preserves_bind; [apply before_gets|intros g]. apply preserves_bind; [apply preserves_deref|intros gw].
  do 2 (apply preserves_bind; [apply before_call, slices_svc_Get|intros ?]). apply preserves_bind; [apply before_call, slices_svc_Update|intros ?; apply preserves_ret].
Qed.
Lemma beamlit_name_ne ref : sr_Name ref <> beamlit_name ref.
Proof. unfold beamlit_name. induction (sr_Name ref) as [|a n IH]; [done|]. cbn. intros [=]. by apply IH. Qed.
Lemma before_takeOver ref : preserves (before ref) (takeOverEndpointsSlices (W:=W) ref).
Proof.
  apply preserves_bind; [apply before_call, slices_es_List|intros l]. apply preserves_bind; [by apply before_own|intros _].
  apply preserves_foreach. intros e _. case_match; [apply preserves_ret|]. apply preserves_bind; [by apply before_own|intros _].
  do 2 apply preserves_labelled.
  intros [c w] [Hc Hw]. unfold wp, mbind, M_bind, outer, zoom. cbn [mret M_ret fst snd].
  match goal with |- context [es_Update ?e2 w] => destruct (es_Update_law e2 w) as (w' & r & -> & _ & Hr) end.
  assert (unmade ref (slices w')) as Hw'; [|by destruct r; split].
  destruct r as [e2|er|]; [|by rewrite Hr|done]. destruct Hr as [-> Hr]. rewrite Hr. intros k e3 [[<- <-]|[_ He3]]%lookup_insert_Some.
  - intros [_ Hof]. cbn in Hof. rewrite lookup_insert_eq in Hof. injection Hof as E. by destruct (beamlit_name_ne ref).
  - by eapply Hw.
Qed.

(** Kubernetes makes the slices of a new service some time after the service: a [Configure]
    that comes to look for them first fails, and leaves the service half configured. *)
Theorem early_configure_leaves_half ref x :
  unmade ref (slices x.2) -> stopChans x.1 !! sr_key ref = None ->
  (Configure (Some ref) x).2 <> Ok tt /\
  forall own, beamlitServicesByModelService (Configure (Some ref) x).1.1 !! sr_key ref = Some (Some own) ->
    half_configured (sr_key ref) (Configure (Some ref) x).1.1.
Proof.
  intros Hes Hch. assert (wp (Configure (Some ref)) (fun r x' => r <> Ok tt /\ stopChans x'.1 !! sr_key ref = None) x) as [Hr Hc];
    [|split; [exact Hr|intros own Ho; split; [by exists own|exact Hc]]].
  assert (before ref x) as Hx by done. clear Hes Hch.
  change (wp (b ← createBeamlitModelService ref; addPortToGatewayService ref ;; takeOverEndpointsSlices ref ;;
    (if pod_port ref b =? 0 then throw (Errorf ("target port not found in beamlit service " +:+ svc_Name b)) else mret tt) ;;
    createMirroredEndpointsSlice ref (pod_port ref b) ;; cleanUnusedEndpointSlices ref ;;
    self (modify (start_watcher (sr_key ref) (ServiceWatcher ref)))) (fun r x' => r <> Ok tt /\ stopChans x'.1 !! sr_key ref = None) x).
  eapply (wp_bind_preserves (before ref)); [apply before_createBeamlit|exact Hx|by intros ? ? []|by intros ? []|clear x Hx; intros b x Hx].
  eapply (wp_bind_preserves (before ref)); [apply before_addPort|exact Hx|by intros ? ? []|by intros ? []|clear x Hx; intros _ x Hx].
  eapply (wp_bind_preserves (before ref)); [apply before_takeOver|exact Hx|by intros ? ? []|by intros ? []|clear x Hx; intros _ x Hx].
  eapply (wp_bind_preserves (before ref)); [case_match; [apply preserves_throw|apply preserves_ret]|exact Hx|by intros ? ? []|by intros ? []|clear x Hx; intros _ x Hx].
  apply wp_bind. unfold createMirroredEndpointsSlice. destruct x as [c w]. destruct Hx as [Hc Hw]. cbn in Hc, Hw.
  unfold wp, mbind, M_bind, outer, zoom. cbn [fst snd].
  destruct (es_List_law (sr_Namespace ref) (beamlit_name ref) w) as (w' & r & -> & _ & _ & Hr).
  destruct r as [l|er|]; cbn; [|by split|done]. destruct Hr as [_ Hl]. destruct l as [|e l]; [by split|].
  destruct (proj1 (Hl e) (list_elem_of_here e l)) as (He & Hof). by destruct (Hw _ _ He).
Qed.
End HalfConfigured.

(** *** Removing a port while ranging over the ports *)

Section RemovePort.
Implicit Types (ports arr : list EndpointPort).

Definition not_port (targetPort : Z) (p : EndpointPort) : Prop := epp_Port p <> Some targetPort.

(** Elements that do not match are passed over. *)
Lemma remove_loop_pass targetPort k k' i arr len :
  (forall j p, (i <= j < i + k)%nat -> arr !! j = Some p -> not_port targetPort p) ->
  (i + k <= length arr)%nat ->
  remove_port_loop (k + k') i targetPort arr len = remove_port_loop k' (i + k) targetPort arr len.
Proof.
  revert i. induction k as [|k IH]; intros i Hno Hlen; cbn; [by rewrite Nat.add_0_r|].
  destruct (lookup_lt_is_Some_2 arr i) as [p Hp]; [lia|]. rewrite Hp.
  rewrite bool_decide_eq_false_2 by (apply (Hno i); [lia|done]).
  rewrite IH; [by rewrite Nat.add_succ_r| |lia]. intros j q Hj. apply Hno. lia.
Qed.

Lemma mirror_ports_none targetPort ports : Forall (not_port targetPort) ports -> mirror_ports targetPort ports = ports.
Proof.
  unfold mirror_ports. induction 1 as [|p ports Hp _ IH]; [done|]. by rewrite filter_cons_True, IH.
Qed.

Lemma Forall_lookup_not_port targetPort ports j p :
  Forall (not_port targetPort) ports -> ports !! j = Some p -> not_port targetPort p.
Proof. intros Hall. by apply Forall_lookup_1. Qed.

Lemma remove_port_none targetPort ports :
  Forall (not_port targetPort) ports -> remove_port targetPort ports = Ok ports.
Proof.
  intros Hall. unfold remove_port. rewrite <- (Nat.add_0_r (length ports)) at 1.
  rewrite remove_loop_pass; [by cbn; rewrite firstn_all| |done].
  intros j p _. by apply Forall_lookup_not_port.
Qed.

(** The first match shifts the rest to the left. *)
Lemma remove_loop_first targetPort pre p post :
  Forall (not_port targetPort) pre -> epp_Port p = Some targetPort ->
  remove_port targetPort (pre ++ p :: post) =
    remove_port_loop (length post) (S (length pre)) targetPort
      (pre ++ post ++ drop (length post) (p :: post)) (length (pre ++ post)).
Proof.
  intros Hpre Hp. unfold remove_port. set (arr := pre ++ p :: post).
  assert (length arr = (length pre + S (length post))%nat) as Hlen by (unfold arr; by rewrite length_app).
  rewrite Hlen at 1. rewrite remove_loop_pass; [| |lia].
  2: { intros j q Hj. unfold arr. rewrite lookup_app_l by lia. by apply Forall_lookup_not_port. }
  cbn [remove_port_loop Nat.add]. unfold arr at 1. rewrite list_lookup_middle by done.
  rewrite bool_decide_eq_true_2 by done.
  assert ((length arr <? length pre + 1)%nat = false) as ->.
  { apply Nat.ltb_ge. lia. }
  f_equal.
  - rewrite firstn_all. unfold arr. rewrite take_app_length. f_equal.
    replace (S (length pre)) with (length (pre ++ [p])) by (rewrite length_app; cbn; lia).
    rewrite (cons_middle p pre post), (assoc (++)), drop_app_length. f_equal.
    rewrite <- (assoc (++)), drop_app_ge by (rewrite !length_app; cbn; lia).
    f_equal. rewrite !length_app. cbn. lia.
  - unfold arr. rewrite !length_app. cbn. lia.
Qed.

Lemma remove_port_once targetPort pre p post :
  Forall (not_port targetPort) pre -> epp_Port p = Some targetPort -> Forall (not_port targetPort) post ->
  remove_port targetPort (pre ++ p :: post) = Ok (pre ++ post).
Proof.
  intros Hpre Hp Hpost. rewrite remove_loop_first by done.
  rewrite <- (Nat.add_0_r (length post)) at 1. rewrite remove_loop_pass.
  - cbn [remove_port_loop]. by rewrite (assoc (++)), take_app_length.
  - intros j q Hj. rewrite (assoc (++)). destruct (decide (j < length (pre ++ post))%nat).
    + rewrite lookup_app_l by done. apply Forall_lookup_1. by apply Forall_app.
    + rewrite lookup_app_r by lia. intros Hq. rewrite length_app in *.
      destruct post as [|p' post]; [cbn in *; lia|].
      assert (q ∈ p' :: post) as Hin; [|by eapply Forall_forall in Hpost].
      apply list_elem_of_lookup_2 in Hq. cbn [length drop] in Hq.
      by apply (subseteq_drop (length post)).
  - rewrite !length_app, length_drop. cbn. lia.
Qed.

Lemma first_match targetPort ports :
  Forall (not_port targetPort) ports \/
  exists pre p post, ports = pre ++ p :: post /\ Forall (not_port targetPort) pre /\ epp_Port p = Some targetPort.
Proof.
  induction ports as [|p ports IH]; [by left|].
  destruct (decide (epp_Port p = Some targetPort)) as [Hp|Hp].
  - right. by exists [], p, ports.
  - destruct IH as [?|(pre & q & post & -> & ? & ?)]; [left; by constructor|].
    right. exists (p :: pre), q, post. split_and!; [done|by constructor|done].
Qed.

Lemma filter_length_zero {A} (P : A -> Prop) `{!forall x, Decision (P x)} (l : list A) :
  length (filter P l) = 0%nat -> Forall (fun x => ~ P x) l.
Proof.
  induction l as [|x l IH]; [by constructor|]. rewrite filter_cons. case_decide; [done|].
  intros. constructor; auto.
Qed.
Lemma remove_port_filters (targetPort : Z) (ports : list EndpointPort) :
  (length (filter (fun p => epp_Port p = Some targetPort) ports) <= 1)%nat ->
  remove_port targetPort ports = Ok (mirror_ports targetPort ports).
Proof.
  intros Hl. destruct (first_match targetPort ports) as [Hno|(pre & p & post & -> & Hpre & Hp)].
  - rewrite remove_port_none by done. by rewrite mirror_ports_none.
  - rewrite filter_app, filter_cons_True, length_app in Hl by done. cbn in Hl.
    assert (Forall (not_port targetPort) post) as Hpost 
      by (apply (filter_length_zero (fun p => epp_Port p = Some targetPort)); lia).
    rewrite remove_port_once by done. f_equal. symmetry.
    transitivity (mirror_ports targetPort pre ++ mirror_ports targetPort post);
      [|by rewrite !mirror_ports_none].
    unfold mirror_ports. rewrite filter_app, filter_cons, decide_False; [done|]. intros Hn. by apply Hn.
Qed.
End RemovePort.

(** ** Properties *)

Section Properties.
Context {W : Type} `{Hk : KubeAPI W} `{Hks : !KubeSpec W}.
Implicit Types (ref gw : ServiceReference) (x : kubernetesConfigurer * W).

(** C20. A successful [Configure] takes the service over: the model's own service is
    recorded and exists, the gateway's service listens on the model's port, the
    mirrored slice of the user's service lists no port of the model's server, and
    every other slice of the user's service is empty and the operator's. *)
Theorem configure_takes_over ref gw x x' :
  gatewayServiceRef x.1 = Some gw -> sr_key gw <> mkNN (sr_Namespace ref) (beamlit_name ref) ->
  cfg_Configure (Some ref) x = (x', Ok tt) -> holds (taken_over ref gw) x'.
Proof.
  intros Hgw Hne E.
  set (Q := fun (b : Service) (bs : gmap NamespacedName (option NamespacedName))
    (ss : gmap NamespacedName Service) => exists g,
    bs !! sr_key ref = Some (Some (mkNN (sr_Namespace ref) (beamlit_name ref))) /\
    ss !! mkNN (sr_Namespace ref) (beamlit_name ref) = Some b /\ ss !! sr_key gw = Some g /\
    (exists port, port ∈ svc_Ports g /\ sp_Port port = sr_TargetPort ref)).
  destruct (ok_Configure Q gw ref (fun _ => True)) with x x' tt as (b & Hp & (g & ? & ? & ? & ?) & ? & ?);
    [done| |by split|exact E|].
  { intros b bs ss g u _ Hb Hbs Hg Hu. eexists. split_and!; [done| | |apply gateway_port_added].
    - by rewrite lookup_insert_ne.
    - apply lookup_insert_eq. }
  exists b, g. by split_and!.
Qed.

(** Configuring a service withdraws every external address the gateway's service
    had: the list is replaced by the cluster addresses of the new service that were
    not in it, so the services of the other models no longer lead to the gateway. *)
Theorem configure_withdraws_external_ips ref gw x x' g ip :
  gatewayServiceRef x.1 = Some gw -> sr_key gw <> mkNN (sr_Namespace ref) (beamlit_name ref) ->
  services x.2 !! sr_key gw = Some g -> ip ∈ svc_ExternalIPs g ->
  cfg_Configure (Some ref) x = (x', Ok tt) ->
  exists g', services x'.2 !! sr_key gw = Some g' /\ ip ∉ svc_ExternalIPs g'.
Proof.
  intros Hgw Hne Hg Hip E.
  set (Q := fun (_ : Service) (_ : gmap NamespacedName (option NamespacedName))
    (ss : gmap NamespacedName Service) =>
    exists g', ss !! sr_key gw = Some g' /\ ip ∉ svc_ExternalIPs g').
  destruct (ok_Configure Q gw ref (fun ss => ss !! sr_key gw = Some g)) with x x' tt as (b & _ & Hout & _);
    [| |by split|exact E|exact Hout].
  - intros ss s Hs. by rewrite lookup_insert_ne.
  - intros b bs ss g1 u Hs _ _ Hg1 _. eexists. split; [apply lookup_insert_eq|].
    apply gateway_ips_replaced. congruence.
Qed.

(** C21. A successful [Unconfigure] of a configured service gives it back: the record and
    the model's own service are gone, no slice of the user's service is the operator's
    any more, and no external address of the gateway is one of the service's. *)
Theorem unconfigure_gives_back ref gw n x x' :
  gatewayServiceRef x.1 = Some gw -> beamlitServicesByModelService x.1 !! sr_key ref = Some (Some n) ->
  cfg_Unconfigure (Some ref) x = (x', Ok tt) ->
  beamlitServicesByModelService x'.1 !! sr_key ref = None /\
  services x'.2 !! n = None /\
  ips_disjoint ref gw (services x'.2) /\
  operator_slices ref (slices x'.2) [].
Proof.
  intros Hgw Hn E. change (cfg_Unconfigure (Some ref) x) with (Unconfigure (Some ref) x) in E.
  unfold Unconfigure, mbind, M_bind in E. cbn in E. destruct x as [c w]. cbn in Hgw, Hn, E. rewrite Hn in E.
  set (Q := fun g (bs : gmap NamespacedName (option NamespacedName)) (_ : gmap NamespacedName Service) =>
    g = Some gw /\ bs !! sr_key ref = Some (Some n)).
  assert (onok (holds (W:=W) (fun c ss _ => rec Q c ss)) (give_back ref) (fun _ => holds (fun c ss es =>
    (beamlitServicesByModelService c !! sr_key ref = None /\ ss !! n = None /\ ips_disjoint ref gw ss) /\
    operator_slices ref es []))) as Hok.
  { unfold give_back. eapply onok_bind; [apply ok_stopWatchers|]. intros ?.
    eapply onok_bind; [apply ok_addKubernetesManaged|]. intros ?.
    eapply onok_bind; [apply ok_deleteSlices|]. intros ?.
    eapply onok_bind; [apply (ok_deleteBeamlitService (Some gw))|]. intros ?.
    eapply onok_bind; [apply ok_deleteExternalIPs|]. intros ?.
    apply (ok_watch (fun bs ss => bs !! sr_key ref = None /\ ss !! n = None /\ ips_disjoint ref gw ss)). }
  destruct (Hok (c, w) x' tt) as [(? & ? & ?) ?]; [by split|exact E|]. by split_and!.
Qed.

(** C32. Waiting for the slices to be filled again always ends: the loop makes at most
    five passes, so its result is the same for every larger amount of fuel and it
    never runs out of it. *)
Theorem handover_wait_terminates ref x fuel :
  (5 <= fuel)%nat ->
  (watchEndpointsSliceToBeUpdated ref x).2 <> Panic /\
  watch_loop fuel 0 ref x = watchEndpointsSliceToBeUpdated ref x.
Proof.
  intros Hf. split; [apply watch_loop_total; unfold maxRetries; lia|].
  unfold watchEndpointsSliceToBeUpdated. induction Hf as [|fuel Hf IH]; [done|].
  rewrite <- IH. symmetry. apply watch_loop_total; unfold maxRetries; lia.
Qed.

(** Nothing ever stops a watcher: whatever the configurer is called to do, in any
    order and however the calls end, every goroutine it has started still waits on a
    channel that is open.  [stopWatchers] leaves at the first such channel, so the
    goroutines of unconfigured services go on for ever. *)
Theorem watchers_never_stop (w : W) x :
  rtc configurer_step (newKubernetesConfigurer, w) x ->
  Forall (fun g => chans x.1 !! watcher_chan g = Some ChanOpen) (goroutines x.1) /\
  (forall r, goroutines x.1 `prefix_of` goroutines (cfg_Unconfigure r x).1.1 /\
     Forall (fun g => chans (cfg_Unconfigure r x).1.1 !! watcher_chan g = Some ChanOpen) (goroutines x.1)).
Proof.
  intros Hrtc. assert (waiting newKubernetesConfigurer x) as Hx.
  { eapply rtc_invariant; [apply configurer_step_waiting| |exact Hrtc].
    split_and!; [done|apply map_Forall_empty|constructor]. }
  split; [apply Hx|]. intros r.
  assert (waiting x.1 x) as Hself by (destruct Hx as (_ & ? & ?); by split).
  destruct (configurer_step_waiting x.1 x _ Hself (step_Unconfigure r x)) as (Hpre & _ & Hw).
  split; [exact Hpre|]. destruct Hpre as [l Hl]. rewrite Hl in Hw. by apply Forall_app in Hw as [? _].
Qed.

(** C33. Removing the model's port from the ports of a slice while ranging over them is
    the filter it means to be, as long as the port is listed at most once. *)
Theorem mirror_removes_port (targetPort : Z) (ports : list EndpointPort) :
  (length (filter (fun p => epp_Port p = Some targetPort) ports) <= 1)%nat ->
  remove_port targetPort ports = Ok (mirror_ports targetPort ports).
Proof. exact (remove_port_filters targetPort ports). Qed.

(** A port that ends the list twice (TCP and UDP on one number) makes the mirroring
    goroutine panic, whatever the cluster holds: after the first removal the loop goes
    on over the shortened slice with the old indices. *)
Theorem duplicate_port_panics ref (targetPort : Z) (e : EndpointSlice) pre p q (w : W) :
  es_Ports e = pre ++ [p; q] -> epp_Port p = Some targetPort -> epp_Port q = Some targetPort ->
  Forall (not_port targetPort) pre ->
  mirror_event ref targetPort (EventObject e) w = (w, Panic).
Proof.
  intros He Hp Hq Hpre. unfold mirror_event. mrun. rewrite He, (remove_loop_first targetPort pre p [q]) by done. cbn [length drop].
  cbn [remove_port_loop]. rewrite (assoc (++)).
  assert (length (pre ++ [q]) = S (length pre)) as Hlen by (rewrite length_app; cbn; lia).
  rewrite (list_lookup_middle (pre ++ [q]) [] q) by done. rewrite bool_decide_eq_true_2 by done.
  assert ((length (pre ++ [q]) <? S (length pre) + 1)%nat = true) as -> by (apply Nat.ltb_lt; lia).
  done.
Qed.
(** [Start] runs in a goroutine of its own and nothing waits for it: a service that is
    configured before it has run ends in a nil dereference once the model's own service
    has been made, and that service and its record stay behind. *)
Theorem configure_before_start_panics ref (x x1 : kubernetesConfigurer * W) own :
  gatewayServiceRef x.1 = None -> createBeamlitModelService ref x = (x1, Ok own) ->
  Configure (Some ref) x = (x1, Panic) /\
  beamlitServicesByModelService x1.1 !! sr_key ref = Some (Some (svc_key own)).
Proof.
  destruct x as [c w]. cbn. intros Hg E.
  assert (gatewayServiceRef x1.1 = None /\ beamlitServicesByModelService x1.1 !! sr_key ref = Some (Some (svc_key own)))
    as [Hg1 Hr1].
  { unfold createBeamlitModelService in E. apply bind_Ok_inv in E as (y1 & user & E1 & E).
    apply outer_Ok_inv in E1 as (w1 & -> & _). apply bind_Ok_inv in E as (y2 & made & E2 & E).
    apply outer_Ok_inv in E2 as (w2 & -> & _). apply bind_Ok_inv in E as (y3 & [] & E3 & E).
    injection E3 as <-. injection E as <- <-. cbn. split; [exact Hg|apply lookup_insert_eq]. }
  split; [|exact Hr1]. unfold Configure. unfold mbind at 1, M_bind at 1. cbn.
  unfold mbind at 1, M_bind at 1. rewrite E. destruct x1 as [c1 w1]. cbn in Hg1.
  unfold addPortToGatewayService, mbind, M_bind. cbn. by rewrite Hg1.
Qed.
End Properties.

(** ** Witnesses: a model's service and the gateway in a small cluster *)

Module ConfigurerExamples.
Definition port_80 := mkServicePort "http" "TCP" 80 (FromInt 8080).
Definition user := mkService "default" "my-model" [port_80] {["app" := "my-model"]} "10.0.0.7" ["10.0.0.7"] [] "ClusterIP".
Definition gateway := mkService "beamlit" "beamlit-gateway" [mkServicePort "proxy" "TCP" 8080 (FromInt 8080)] ∅
  "10.0.0.1" ["10.0.0.1"] ["10.0.0.9"] "ClusterIP".
Definition pod := mkEndpoint ["10.1.0.5"] (Some true) (Some true) (Some false) None (Some "node-1").
Definition ep_port (n : Z) (proto : string) := mkEndpointPort (Some "http") (Some n) (Some proto).
Definition slice (name service : string) (ports : list EndpointPort) := mkSlice "default" name
  (<[ServiceNameLabel := service]> {[ManagedBy := ControllerLabel]}) "IPv4" [pod] ports.
Definition user_slice := slice "my-model-x7" "my-model" [ep_port 8080 "TCP"; ep_port 9090 "TCP"].
Definition own_slice := slice "my-model-beamlit-q2" "my-model-beamlit" [ep_port 8080 "TCP"; ep_port 9090 "TCP"].
Definition cluster : MemCluster.t :=
  MemCluster.put_slice own_slice (MemCluster.put_slice user_slice
    (MemCluster.put_service gateway (MemCluster.put_service user (MemCluster.mk ∅ ∅ [] 10000000000)))).
Definition ref := mkServiceRef (mkRef "Service" "v1" "default" "my-model") 80.
Definition gw := mkServiceRef (mkRef "Service" "v1" "beamlit" "beamlit-gateway") 8080.
Definition start : kubernetesConfigurer * MemCluster.t :=
  (cfg_Start (Some gw) (newKubernetesConfigurer, cluster)).1.
Definition configured := (cfg_Configure (Some ref) start).1.
Definition unconfigured := (cfg_Unconfigure (Some ref) configured).1.

Lemma configured_ok : cfg_Configure (Some ref) start = (configured, Ok tt).
Proof. unfold configured. destruct (cfg_Configure (Some ref) start) as [x r] eqn:E. cbn [fst].
  f_equal. apply (f_equal snd) in E. cbn [snd] in E. rewrite <- E. vm_compute. reflexivity. Qed.
Lemma unconfigured_ok : cfg_Unconfigure (Some ref) configured = (unconfigured, Ok tt).
Proof. unfold unconfigured. destruct (cfg_Unconfigure (Some ref) configured) as [x r] eqn:E. cbn [fst].
  f_equal. apply (f_equal snd) in E. cbn [snd] in E. rewrite <- E. vm_compute. reflexivity. Qed.

Definition unstarted : kubernetesConfigurer * MemCluster.t := (newKubernetesConfigurer, cluster).
Lemma configure_before_start_panics_witness : (cfg_Configure (Some ref) unstarted).2 = Panic.
Proof.
  destruct (createBeamlitModelService ref unstarted) as [x1 [own|e|]] eqn:E;
    [|apply (f_equal snd) in E; vm_compute in E; discriminate..].
  exact (f_equal snd (proj1 (configure_before_start_panics ref unstarted x1 own eq_refl E))).
Defined.

Lemma configure_takes_over_witness : holds (taken_over ref gw) configured.
Proof.
  apply (configure_takes_over ref gw start configured); [reflexivity|discriminate|exact configured_ok].
Defined.

Lemma configure_withdraws_external_ips_witness :
  "10.0.0.9" ∈ svc_ExternalIPs gateway /\
  exists g', services configured.2 !! sr_key gw = Some g' /\ "10.0.0.9" ∉ svc_ExternalIPs g'.
Proof.
  assert ("10.0.0.9" ∈ svc_ExternalIPs gateway) as Hin by (by apply list_elem_of_singleton).
  split; [exact Hin|].
  apply (configure_withdraws_external_ips ref gw start configured gateway "10.0.0.9");
    [reflexivity|discriminate|vm_compute; reflexivity|exact Hin|exact configured_ok].
Defined.

Lemma unconfigure_gives_back_witness :
  beamlitServicesByModelService unconfigured.1 !! sr_key ref = None /\
  services unconfigured.2 !! mkNN "default" "my-model-beamlit" = None.
Proof.
  destruct (unconfigure_gives_back ref gw (mkNN "default" "my-model-beamlit") configured unconfigured)
    as (Hb & Hs & _); [vm_compute; reflexivity|vm_compute; reflexivity|exact unconfigured_ok|].
  by split.
Defined.

(** Five passes, with pauses of 100 to 400 ms between them. *)
Lemma handover_wait_terminates_witness :
  watch_loop 7 0 ref configured = watchEndpointsSliceToBeUpdated ref configured /\
  MemCluster.mem_slept unconfigured.2 = [100000000; 200000000; 300000000; 400000000].
Proof.
  split; [|vm_compute; reflexivity].
  exact (proj2 (handover_wait_terminates ref configured 7 ltac:(lia))).
Defined.

Lemma watchers_never_stop_witness :
  length (goroutines unconfigured.1) = 2%nat /\
  Forall (fun g => chans unconfigured.1 !! watcher_chan g = Some ChanOpen) (goroutines unconfigured.1).
Proof.
  split; [vm_compute; reflexivity|].
  refine (proj1 (watchers_never_stop cluster unconfigured _)).
  apply (rtc_l _ _ start); [exact (step_Start (Some gw) _)|].
  apply (rtc_l _ _ configured); [exact (step_Configure (Some ref) _)|].
  apply (rtc_l _ _ unconfigured); [exact (step_Unconfigure (Some ref) _)|apply rtc_refl].
Defined.

Lemma mirror_removes_port_witness :
  remove_port 8080 [ep_port 8080 "TCP"; ep_port 9090 "TCP"] = Ok [ep_port 9090 "TCP"].
Proof. apply (mirror_removes_port 8080). vm_compute. lia. Defined.

Lemma duplicate_port_panics_witness :
  mirror_event ref 53 (EventObject (slice "dns" "my-model-beamlit" [ep_port 53 "TCP"; ep_port 53 "UDP"])) cluster
  = (cluster, Panic).
Proof.
  apply (duplicate_port_panics ref 53 _ [] (ep_port 53 "TCP") (ep_port 53 "UDP")); [reflexivity..|constructor].
Defined.
End ConfigurerExamples.
