(* ===== verification/Reliable.v ===== *)
(** The configurer on an API server that works: [Configure] does not only do the right thing
    when it succeeds, it succeeds, once Kubernetes has made the slice of the operator's own
    service. *)

From stdpp Require Import base numbers gmap strings list.
From S2P Require Import Prelude Crd Kube Configurer.
Local Open Scope Z_scope.

(** ** An API server that works

    [granted up c w]: the call is answered, and the server goes on working.  A call on an
    object needs the object to be there. *)
Definition granted {W A} (up : W -> Prop) (c : M W A) (w : W) : Prop := exists a, (c w).2 = Ok a /\ up (c w).1.

Class Reliable (W : Type) `{KubeSpec W} (up : W -> Prop) : Prop := {
  up_svc_Get ns n w : up w -> is_Some (services w !! mkNN ns n) -> granted up (svc_Get ns n) w;
  up_svc_Apply s w : up w -> granted up (svc_Apply s) w;
  up_svc_Update s w : up w -> is_Some (services w !! svc_key s) -> granted up (svc_Update s) w;
  up_es_List ns v w : up w -> granted up (es_List ns v) w;
  up_es_Update e w : up w -> is_Some (slices w !! es_key e) -> granted up (es_Update e) w;
  up_es_Apply e w : up w -> granted up (es_Apply e) w
}.

Section Total.
Context {W : Type} `{Hk : KubeAPI W} `{Hks : !KubeSpec W} (up : W -> Prop) `{Hup : !Reliable W up}.
Implicit Types (P : assertion) (ref : ServiceReference).

(** [total P c Q]: from [P] the computation ends in a value, with [Q]. *)
Definition stands P (x : kubernetesConfigurer * W) : Prop := up x.2 /\ holds P x.
Definition total {A} P (c : CM W A) (Q : A -> assertion) : Prop :=
  forall x, stands P x -> exists x' a, c x = (x', Ok a) /\ stands (Q a) x'.

Lemma total_ret {A} (a : A) (Q : A -> assertion) : total (Q a) (mret a) Q.
Proof. intros x Hx. by exists x, a. Qed.
Lemma total_bind {A B} P (c : CM W A) (k : A -> CM W B) R Q : total P c R -> (forall a, total (R a) (k a) Q) -> total P (c ≫= k) Q.
Proof.
  intros Hc Hkk x Hx. destruct (Hc x Hx) as (x1 & a & E & Hx1). destruct (Hkk a x1 Hx1) as (x2 & b & E2 & Hx2).
  exists x2, b. split; [|exact Hx2]. by rewrite (bind_Ok_run _ _ _ _ _ E).
Qed.
Lemma total_pre {A} P P' (c : CM W A) Q : (forall s ss es, P s ss es -> P' s ss es) -> total P' c Q -> total P c Q.
Proof. intros HP Hc x [Hu Hx]. apply Hc. split; [exact Hu|]. by apply HP. Qed.
Lemma total_post {A} P (c : CM W A) Q Q' : total P c Q' -> (forall a s ss es, Q' a s ss es -> Q a s ss es) -> total P c Q.
Proof. intros Hc HQ x Hx. destruct (Hc x Hx) as (x' & a & E & Hu & Hx'). exists x', a. split; [done|]. split; [done|]. by apply HQ. Qed.

(** Doing the right thing when it succeeds, and succeeding. *)
Lemma total_of {A} P (c : CM W A) Q : onok (holds P) c (fun a => holds (Q a)) ->
  (forall x, stands P x -> exists a, (c x).2 = Ok a /\ up (c x).1.2) -> total P c Q.
Proof.
  intros Hok Hc x [Hu Hx]. destruct (Hc x (conj Hu Hx)) as (a & E & Hu'). destruct (c x) as [x' r] eqn:Ec. cbn in *. subst r.
  exists x', a. split; [done|]. split; [done|]. by eapply Hok.
Qed.
Lemma total_call {A} P (c : M W A) Q : onok (holds P) (outer c) (fun a => holds (Q a)) ->
  (forall s w, up w -> P s (services w) (slices w) -> granted up c w) -> total P (outer c) Q.
Proof.
  intros Hok Hc. apply total_of; [exact Hok|]. intros [s w] [Hu Hx]. destruct (Hc s w Hu Hx) as (a & E & Hu').
  unfold outer, zoom. cbn. destruct (c w) as [w' r]. cbn in *. by exists a.
Qed.
Lemma total_own P f : total (fun s => P (f s)) (self (W:=W) (modify f)) (fun _ => P).
Proof. intros [s w] Hx. by exists (f s, w), tt. Qed.
Lemma total_gets {A} P (f : kubernetesConfigurer -> A) : total P (self (W:=W) (gets f)) (fun a s ss es => P s ss es /\ a = f s).
Proof. intros [s w] [Hu Hx]. by exists (s, w), (f s). Qed.
Lemma total_given {A B} P (a : A) (k : A -> CM W B) Q : total P (k a) Q -> total P (deref (Some a) ≫= k) Q.
Proof. done. Qed.
Lemma total_foreach {A} (Inv : list A -> assertion) (l : list A) (f : A -> CM W unit) :
  (forall x l', total (Inv (x :: l')) (f x) (fun _ => Inv l')) -> total (Inv l) (foreach l f) (fun _ => Inv []).
Proof.
  intros Hf. induction l as [|x l IH]; cbn [foreach]; [apply (total_ret tt (fun _ => Inv []))|].
  eapply total_bind; [apply Hf|]. intros ?. exact IH.
Qed.
Lemma total_labelled {B} P k v e (f : EndpointSlice -> CM W B) Q : es_Labels e <> ∅ ->
  total P (f (set_labels (<[k := v]> (es_Labels e)) e)) Q -> total P (set_label k v e ≫= f) Q.
Proof. intros He Hf. unfold set_label. by case_decide. Qed.

(** The calls of the API server. *)
Lemma total_svc_Get P ns n : (forall s ss es, P s ss es -> is_Some (ss !! mkNN ns n)) ->
  total P (outer (svc_Get ns n)) (fun a s ss es => P s ss es /\ ss !! mkNN ns n = Some a /\ svc_key a = mkNN ns n).
Proof. intros HP. apply total_call; [apply ok_svc_Get|]. intros s w Hu Hx. apply up_svc_Get; [done|]. by eapply HP. Qed.
Lemma total_svc_Apply s (Q : Service -> assertion) :
  total (fun c ss es => forall s', svc_key s' = svc_key s -> svc_Ports s' = svc_Ports s -> Q s' c (<[svc_key s := s']> ss) es)
    (outer (svc_Apply s)) Q.
Proof. apply total_call; [apply ok_svc_Apply|]. intros c w Hu _. by apply up_svc_Apply. Qed.
Lemma total_svc_Update s P : total (fun c ss es => P c (<[svc_key s := s]> ss) es /\ is_Some (ss !! svc_key s)) (outer (svc_Update s)) (fun _ => P).
Proof.
  apply total_call; [|intros c w Hu [_ Hs]; by apply up_svc_Update]. eapply onok_pre; [|apply ok_svc_Update]. by intros x [Hx _].
Qed.
Lemma total_es_List P ns v : total P (outer (es_List ns v))
  (fun l c ss es => P c ss es /\ NoDup l /\ forall e, e ∈ l <-> es !! es_key e = Some e /\ of_service ns v e).
Proof.
  apply total_call; [|intros c w Hu _; by apply up_es_List]. apply onok_outer. intros c w w' l HQ E.
  destruct (es_List_law ns v w) as (w1 & r & E1 & Hs & He & Hr). rewrite E in E1. injection E1 as <- <-.
  destruct Hr as [Hnd Hr]. unfold holds in *. cbn in *. by rewrite Hs, He.
Qed.
Lemma total_es_Update e P : total (fun c ss es => P c ss (<[es_key e := e]> es) /\ is_Some (es !! es_key e)) (outer (es_Update e)) (fun _ => P).
Proof.
  apply total_call; [|intros c w Hu [_ Hs]; by apply up_es_Update]. eapply onok_pre; [|apply ok_es_Update]. by intros x [Hx _].
Qed.
Lemma total_es_Apply e P :
  total (fun c ss es => forall e', es_key e' = es_key e -> es_Labels e ⊆ es_Labels e' -> P c ss (<[es_key e := e']> es)) (outer (es_Apply e)) (fun _ => P).
Proof.
  apply total_call; [|intros c w Hu _; by apply up_es_Apply]. eapply onok_pre; [|apply ok_es_Apply].
  intros x Hx e' Hk' Hl _ _. by apply Hx.
Qed.
End Total.

(** ** [Configure] *)

Section Configure.
Context {W : Type} `{Hk : KubeAPI W} `{Hks : !KubeSpec W} (up : W -> Prop) `{Hup : !Reliable W up} (ref gw : ServiceReference).
Let bkey : NamespacedName := mkNN (sr_Namespace ref) (beamlit_name ref).
Notation total := (total up).

(** The one slice of the operator's own service, with the conditions of its endpoints. *)
Definition slice_made (e : EndpointSlice) (es : gmap NamespacedName EndpointSlice) : Prop :=
  (forall e', es !! es_key e' = Some e' /\ of_service (sr_Namespace ref) (beamlit_name ref) e' <-> e' = e) /\
  Forall (fun p => is_Some (ep_Ready p) /\ is_Some (ep_Serving p) /\ is_Some (ep_Terminating p)) (es_Endpoints e).

(** What [Configure] needs: the gateway's service, the model's service with its port, and that
    slice: so the operator's own service has been there for a while, from an earlier run or a
    set-up that got as far ([Configure] itself makes it, and then finds no slice of it). *)
Definition configurable : assertion := fun c ss es =>
  gatewayServiceRef c = Some gw /\ is_Some (ss !! sr_key gw) /\
  (exists u port, ss !! sr_key ref = Some u /\
    first_with (fun port => sp_Port port =? sr_TargetPort ref) (svc_Ports u) = Some port /\ IntVal (sp_TargetPort port) <> 0) /\
  exists e, slice_made e es.

(** What stays while it runs. *)
Definition recorded : assertion := fun c ss _ =>
  gatewayServiceRef c = Some gw /\ is_Some (ss !! sr_key gw) /\ is_Some (ss !! sr_key ref) /\
  beamlitServicesByModelService c !! sr_key ref = Some (Some bkey).
Let with_slice e : assertion := fun c ss es => recorded c ss es /\ slice_made e es.

Lemma labelled e ns v : of_service ns v e -> es_Labels e <> ∅.
Proof. intros [_ Hl] E. rewrite E, lookup_empty in Hl. done. Qed.

Lemma first_with_map {A B} (f : A -> B) (p : B -> bool) (l : list A) : first_with p (map f l) = f <$> first_with (p ∘ f) l.
Proof. unfold first_with. induction l as [|x l IH]; [done|]. cbn [map]. rewrite !filter_cons. cbn. by case_decide. Qed.

Lemma pod_port_made b u port : svc_Ports b = svc_Ports (beamlit_service ref u) ->
  first_with (fun port => sp_Port port =? sr_TargetPort ref) (svc_Ports u) = Some port -> pod_port ref b = IntVal (sp_TargetPort port).
Proof. intros E Hp. unfold pod_port. rewrite E. cbn. rewrite first_with_map. unfold compose. cbn. by rewrite Hp. Qed.

Lemma total_createBeamlit :
  total configurable (createBeamlitModelService (W:=W) ref) (fun b c ss es => pod_port ref b <> 0 /\ exists e, with_slice e c ss es).
Proof.
  unfold createBeamlitModelService. eapply total_bind; [apply (total_svc_Get up)|].
  { intros c ss es (_ & _ & (u & p & Hu & _) & _). exists u. exact Hu. }
  intros u. eapply total_bind.
  { eapply total_pre; [|apply (total_svc_Apply up _ (fun b c ss es => pod_port ref b <> 0 /\ svc_key b = bkey /\ gatewayServiceRef c = Some gw /\
      is_Some (ss !! sr_key gw) /\ is_Some (ss !! sr_key ref) /\ exists e, slice_made e es))].
    intros c ss es ((Hg & Hgs & (u' & p & Hu' & Hp & Hne) & He) & Hu & _) b Hkey Hports.
    assert (u' = u) as -> by (change (mkNN (sr_Namespace ref) (sr_Name ref)) with (sr_key ref) in Hu; congruence).
    split_and!; [by rewrite (pod_port_made b u p Hports Hp)|exact Hkey|exact Hg| | |exact He]; apply lookup_insert_is_Some'; right; [exact Hgs|by exists u]. }
  intros b. eapply total_bind; [|intros ?; apply (total_ret up b (fun b c ss es => pod_port ref b <> 0 /\ exists e, with_slice e c ss es))].
  eapply total_pre; [|apply total_own]. intros c ss es (Hp & Hkey & Hg & Hgs & Hu & e & He). split; [exact Hp|]. exists e.
  split; [|exact He]. split_and!; [exact Hg|exact Hgs|exact Hu|]. cbn. by rewrite lookup_insert_eq, Hkey.
Qed.

Lemma total_addPort e : total (with_slice e) (addPortToGatewayService (W:=W) ref) (fun _ => with_slice e).
Proof.
  unfold addPortToGatewayService. eapply total_bind; [apply total_gets|]. intros g.
  eapply total_bind; [eapply (total_pre up _ (fun c ss es => with_slice e c ss es /\ g = Some gw))|].
  { intros c ss es [Hw ->]. split; [exact Hw|]. by destruct Hw as [[Hg _] _]. }
  { instantiate (1 := fun a c ss es => with_slice e c ss es /\ a = gw). intros x (Hu & Hw & ->). by exists x, gw. }
  intros a. eapply total_bind; [apply (total_svc_Get up); intros c ss es [[(_ & Hgs & _) _] ->]; exact Hgs|]. intros gs.
  eapply total_bind; [apply (total_svc_Get up); intros c ss es [[[(_ & _ & Hu & _) _] _] _]; exact Hu|]. intros u.
  eapply total_bind; [|intros ?; apply (total_ret up tt (fun _ => with_slice e))]. eapply total_pre; [|apply (total_svc_Update up)].
  intros c ss es [[[[(Hg & Hgs & Hu & Hr) He] ->] [Egs Hkey]] _]. change (svc_key (gateway_with_service _ _ gs u)) with (svc_key gs). rewrite Hkey.
  change (mkNN (sr_Namespace gw) (sr_Name gw)) with (sr_key gw) in *. split; [|by exists gs]. split; [|exact He].
  split_and!; [exact Hg| | |exact Hr]; apply lookup_insert_is_Some'; by right.
Qed.

(** Writing a slice of the model's service over one of its slices. *)
Lemma slice_made_insert e es k old new : slice_made e es -> es !! k = Some old -> of_service (sr_Namespace ref) (sr_Name ref) old ->
  of_service (sr_Namespace ref) (sr_Name ref) new -> slice_made e (<[k := new]> es).
Proof.
  assert (forall e1, of_service (sr_Namespace ref) (sr_Name ref) e1 -> ~ of_service (sr_Namespace ref) (beamlit_name ref) e1) as Hdis.
  { intros e1 [_ H1] [_ H2]. rewrite H1 in H2. injection H2. apply beamlit_name_ne. }
  intros [He Hc] Hold Ho Hn. split; [|exact Hc]. intros e'. rewrite <-He. split; intros [He' Hof]; (split; [|exact Hof]).
  - apply lookup_insert_Some in He' as [[_ <-]|[_ He']]; [by destruct (Hdis new)|exact He'].
  - rewrite lookup_insert_ne; [exact He'|]. intros Hke. rewrite Hke, He' in Hold. injection Hold as ->. by destruct (Hdis old).
Qed.

(** The slices still to be written are there. *)
Let pending e (l : list EndpointSlice) : assertion := fun c ss es => with_slice e c ss es /\
  forall e0, e0 ∈ l -> of_service (sr_Namespace ref) (sr_Name ref) e0 /\
    exists old, es !! es_key e0 = Some old /\ of_service (sr_Namespace ref) (sr_Name ref) old.

Lemma total_takeOver e : total (with_slice e) (takeOverEndpointsSlices (W:=W) ref) (fun _ => with_slice e).
Proof.
  unfold takeOverEndpointsSlices. eapply total_bind; [apply (total_es_List up)|]. intros l.
  eapply (total_bind up _ _ _ (fun _ => pending e l)).
  { eapply total_pre; [|apply total_own]. intros c ss es (Hw & _ & Hl). split; [exact Hw|]. intros e0 [He0 Hof]%Hl. split; [exact Hof|].
    by exists e0. }
  intros ?. eapply total_post; [apply (total_foreach up (pending e))|by intros ? c ss es [Hw _]]. intros e0 l'. case_match.
  { eapply total_pre; [|apply (total_ret up tt (fun _ => pending e l'))]. intros c ss es [Hw Hl]. split; [exact Hw|]. intros e1 He1. apply Hl. by right. }
  eapply (total_bind up _ _ _ (fun _ => pending e (e0 :: l'))); [eapply total_pre; [|apply total_own]; done|].
  intros ? x Hx. assert (of_service (sr_Namespace ref) (sr_Name ref) e0) as Hof by (apply (proj2 (proj2 Hx)); left). revert x Hx.
  apply total_labelled; [by eapply labelled|]. apply total_labelled; [cbn; intros E; by apply insert_non_empty in E|].
  eapply total_bind; [|intros ?; apply (total_ret up tt (fun _ => pending e l'))]. eapply total_pre; [|apply (total_es_Update up)].
  intros c ss es [[Hr He] Hl]. cbn. destruct (Hl e0 ltac:(left)) as (_ & old & Hold & Hofold).
  match goal with |- context [<[?k := ?n]> es] => set (new := n); change k with (es_key e0) end.
  assert (of_service (sr_Namespace ref) (sr_Name ref) new) as Hnew by (split; [apply Hof|cbn; apply lookup_insert_eq]).
  split; [|by exists old]. split; [split; [exact Hr|by eapply slice_made_insert]|]. intros e1 He1.
  destruct (Hl e1 ltac:(by right)) as (Hof1 & old1 & Hold1 & Hofo1). split; [exact Hof1|].
  destruct (decide (es_key e1 = es_key e0)) as [->|Hne]; [exists new; by rewrite lookup_insert_eq|].
  exists old1. by rewrite lookup_insert_ne.
Qed.

Lemma total_mirror_endpoints P l : Forall (fun p => is_Some (ep_Ready p) /\ is_Some (ep_Serving p) /\ is_Some (ep_Terminating p)) l ->
  total P (map_each mirror_endpoint l) (fun _ => P).
Proof.
  induction 1 as [|p l ([a Ha] & [b Hb] & [c Hc]) _ IH]; cbn [map_each]; [apply (total_ret up [] (fun _ => P))|].
  eapply (total_bind up _ _ _ (fun _ => P)).
  - unfold mirror_endpoint. rewrite Ha, Hb, Hc. do 3 apply total_given. apply (total_ret up _ (fun _ => P)).
  - intros ?. eapply total_bind; [exact IH|]. intros ?. apply (total_ret up _ (fun _ => P)).
Qed.

Lemma total_createMirrored e targetPort : total (with_slice e) (createMirroredEndpointsSlice (W:=W) ref targetPort) (fun _ => recorded).
Proof.
  unfold createMirroredEndpointsSlice. eapply total_bind; [apply (total_es_List up)|]. intros l x Hx.
  assert (l = [e]) as ->.
  { destruct Hx as (_ & [_ [He _]] & Hnd & Hl). assert (forall e', e' ∈ l <-> e' = e) as Hin by (intros e'; by rewrite Hl, He).
    apply Permutation_singleton_r, NoDup_Permutation; [done|apply NoDup_singleton|]. intros e'. by rewrite Hin, list_elem_of_singleton. }
  assert (Forall (fun p => is_Some (ep_Ready p) /\ is_Some (ep_Serving p) /\ is_Some (ep_Terminating p)) (es_Endpoints e)) as Hc by apply Hx.
  revert x Hx. eapply total_bind; [by apply total_mirror_endpoints|]. intros eps. eapply (total_bind up _ _ _ (fun _ => recorded)).
  - eapply total_pre; [|apply (total_es_Apply up)]. intros c ss es [[Hr _] _] e' _ _. exact Hr.
  - intros ?. eapply total_pre; [|apply total_own]; done.
Qed.

Lemma total_cleanUnused : total recorded (cleanUnusedEndpointSlices (W:=W) ref) (fun _ => recorded).
Proof.
  unfold cleanUnusedEndpointSlices. eapply total_bind; [apply (total_es_List up)|]. intros l.
  set (still := fun (l : list EndpointSlice) c ss (es : gmap NamespacedName EndpointSlice) => recorded c ss es /\
    forall e0, e0 ∈ l -> of_service (sr_Namespace ref) (sr_Name ref) e0 /\ is_Some (es !! es_key e0)).
  eapply (total_pre up _ (still l)).
  { intros c ss es (Hr & _ & Hl). split; [exact Hr|]. intros e0 [He0 Hof]%Hl. split; [exact Hof|]. by exists e0. }
  eapply total_post; [apply (total_foreach up still)|by intros ? c ss es [Hr _]]. intros e0 l'. case_match.
  { eapply total_pre; [|apply (total_ret up tt (fun _ => still l'))]. intros c ss es [Hr Hl]. split; [exact Hr|]. intros e1 He1. apply Hl. by right. }
  intros x Hx. assert (of_service (sr_Namespace ref) (sr_Name ref) e0) as Hof by (apply (proj2 (proj2 Hx)); left). revert x Hx.
  apply total_labelled; [by eapply labelled|]. eapply total_bind; [|intros ?; apply (total_ret up tt (fun _ => still l'))].
  eapply total_pre; [|apply (total_es_Update up)]. intros c ss es [Hr Hl]. split; [|exact (proj2 (Hl e0 ltac:(left)))]. split; [exact Hr|]. intros e1 He1.
  destruct (Hl e1 ltac:(by right)) as [Hof1 Hs1]. split; [exact Hof1|]. apply lookup_insert_is_Some'. by right.
Qed.

(** The operation. *)
Lemma total_Configure : total configurable (Configure (W:=W) (Some ref)) (fun _ => recorded).
Proof.
  unfold Configure. apply total_given. eapply total_bind; [apply total_createBeamlit|]. intros b x Hx.
  destruct Hx as (Hu & Hp & e & Hw). assert (stands up (with_slice e) x) as Hx by done. clear Hu Hw. revert x Hx.
  eapply total_bind; [apply total_addPort|]. intros ?. eapply total_bind; [apply total_takeOver|]. intros ?.
  rewrite (proj2 (Z.eqb_neq _ _) Hp). eapply total_bind; [apply (total_ret up tt (fun _ => with_slice e))|]. intros ?.
  eapply total_bind; [apply total_createMirrored|]. intros ?. eapply total_bind; [apply total_cleanUnused|]. intros ?.
  eapply total_pre; [|apply total_own]; done.
Qed.
End Configure.

(** ** The server in memory works *)

Module ReliableMemory.
(** Services are filed under their own names. *)
Definition well_filed (w : MemCluster.t) : Prop := map_Forall (fun k s => svc_key s = k) (MemCluster.mem_services w).

#[export] Instance memory_reliable : Reliable MemCluster.t well_filed.
Proof.
  assert (forall s w, well_filed w -> well_filed (MemCluster.put_service s w)) as Hput by (intros s w Hw; by apply map_Forall_insert_2).
  split.
  - intros ns n w Hw [s Hs]. exists s. cbn in *. unfold MemCluster.get_service. rewrite Hs. by rewrite decide_True by exact (Hw _ _ Hs).
  - intros s w Hw. exists s. split; [done|]. by apply Hput.
  - intros s w Hw [old Hs]. exists s. cbn in *. rewrite Hs. split; [done|]. by apply Hput.
  - intros ns v w Hw. by eexists.
  - intros e w Hw [old Hs]. exists e. cbn in *. by rewrite Hs.
  - intros e w Hw. by eexists.
Qed.
End ReliableMemory.
