(* ===== verification/Mirror.v ===== *)
(** The goroutine that mirrors a model's pods into the user's service
    (configurer/kubernetes_configurer_helper.go): the loop over the watch of the model's
    own slices. *)

From stdpp Require Import base numbers gmap strings list.
From S2P Require Import Prelude Crd Kube Configurer.
Local Open Scope Z_scope.

(** What the [select] of the loop receives: the stop channel, the end of the context, an
    event of the watch, or, once the API server has closed the watch, the zero event that
    a closed channel goes on giving, which holds no object. *)
Inductive mirror_signal := SigStop | SigCancelled | SigEvent (ev : watch_event EndpointSlice) | SigClosed.

Section Loop.
Context {W : Type} `{KubeAPI W}.

(** [src/internal/dataplane/configurer/kubernetes_configurer_helper.go:38-96 mirrorEndpointSlices] the loop on
    the signals it receives; after the last one it waits *)
Fixpoint mirror_loop (serviceRef : ServiceReference) (targetPort : Z) (signals : list mirror_signal) : M W unit :=
  match signals with
  | [] => mret tt
  | SigStop :: _ => mret tt
  | SigCancelled :: _ => throw (Errorf "context canceled")
  | SigEvent event :: signals => mirror_event serviceRef targetPort event ;; mirror_loop serviceRef targetPort signals
  | SigClosed :: signals => mirror_event serviceRef targetPort EventOther ;; mirror_loop serviceRef targetPort signals
  end.

(** [src/internal/dataplane/configurer/kubernetes_configurer_helper.go:29-96 mirrorEndpointSlices] with the
    watch, which may not open *)
Definition mirrorEndpointSlices (serviceRef : ServiceReference) (targetPort : Z) (watched : res (list mirror_signal)) : M W unit :=
  signals ← of_res watched;
  mirror_loop serviceRef targetPort signals.
End Loop.

Section Properties.
Context {W : Type} `{Hk : KubeAPI W} `{Hks : !KubeSpec W}.
Implicit Types (ref : ServiceReference) (w : W) (e : EndpointSlice).

(** The slice the operator made for the service shows the pods of [e] on every port but
    the model's. *)
Definition mirrors ref (targetPort : Z) e w : Prop :=
  exists slice, slices w !! es_key slice = Some slice /\ es_Labels slice !! ToUpdateLabel = Some "true" /\
    es_Labels slice !! ServiceNameLabel = Some (sr_Name ref) /\ es_Namespace slice = sr_Namespace ref /\
    es_Endpoints slice = es_Endpoints e /\ es_AddressType slice = es_AddressType e /\
    es_Ports slice = mirror_ports targetPort (es_Ports e).

Definition port_once (targetPort : Z) e : Prop :=
  (length (filter (fun p => epp_Port p = Some targetPort) (es_Ports e)) <= 1)%nat.

Lemma mirror_event_ok ref targetPort e w w' :
  port_once targetPort e -> mirror_event ref targetPort (EventObject e) w = (w', Ok tt) -> mirrors ref targetPort e w'.
Proof.
  intros Hport E. unfold mirror_event in E. apply bind_Ok_inv in E as (w1 & ports & E1 & E).
  assert (w1 = w /\ ports = mirror_ports targetPort (es_Ports e)) as [-> ->].
  { unfold of_res in E1. rewrite (remove_port_filters targetPort (es_Ports e) Hport) in E1. by injection E1. }
  apply bind_Ok_inv in E as (w2 & l & E2 & E).
  destruct (es_List_law (sr_Namespace ref) (sr_Name ref) w) as (w2' & r2 & El & _ & Hs2 & Hr2).
  rewrite El in E2. injection E2 as -> ->. destruct Hr2 as [_ Hin].
  destruct (first_with _ l) as [slice|] eqn:Ef; [|done].
  destruct (String.eqb (es_Name slice) "") eqn:En; [done|].
  assert (slice ∈ l /\ label ToUpdateLabel slice = "true") as [Hl Hlab].
  { unfold first_with in Ef. apply head_Some_elem_of in Ef. apply list_elem_of_filter in Ef as [Ht Hl].
    split; [exact Hl|by apply String.eqb_eq]. }
  apply Hin in Hl as (Hsl & Hns & Hsv).
  set (s' := set_contents _ _ _ slice) in E. apply bind_Ok_inv in E as (w3 & u & E3 & E). injection E as <-.
  destruct (es_Update_law s' w2) as (w3' & r3 & Eu & _ & Hr3). rewrite Eu in E3. injection E3 as -> ->.
  destruct Hr3 as [-> Hs3]. exists s'. split_and!; try done.
  - by rewrite Hs3, lookup_insert_eq.
  - unfold label in Hlab. cbn. destruct (es_Labels slice !! ToUpdateLabel); cbn in Hlab; congruence.
Qed.

(** C23. The mirror follows the pods: as long as the goroutine runs, the operator's slice of
    the user's service shows the pods of the last event, on every port but the model's, which
    the slice of that event lists at most once (a slice that lists it twice keeps one of the
    two, or is an index out of range: [duplicate_port_panics]). *)
Theorem mirror_follows_the_pods ref targetPort (es : list EndpointSlice) e w w' :
  port_once targetPort e ->
  mirrorEndpointSlices ref targetPort (Ok (map (fun e => SigEvent (EventObject e)) (es ++ [e]))) w = (w', Ok tt) ->
  mirrors ref targetPort e w'.
Proof.
  intros He. change (mirrorEndpointSlices ref targetPort (Ok ?l) w) with (mirror_loop ref targetPort l w).
  revert w. induction es as [|e1 es IH]; intros w E; cbn [app map mirror_loop] in E.
  - apply bind_Ok_inv in E as (w1 & [] & E1 & E2). injection E2 as <-. by eapply mirror_event_ok.
  - apply bind_Ok_inv in E as (w1 & [] & E1 & E2). by eapply IH.
Qed.

Definition ends (s : mirror_signal) : Prop :=
  match s with SigEvent (EventObject _) => False | _ => True end.

(** The goroutine does not outlive the watch: an error, an object of another type or the
    closing of the watch by the API server, which every watch meets in the end, is the last
    signal it takes, and it ends with an error; no later event reaches the user's slice. *)
Theorem mirror_ends_with_the_watch ref targetPort (es : list EndpointSlice) s rest w :
  ends s ->
  let signals := map (fun e => SigEvent (EventObject e)) es in
  mirrorEndpointSlices ref targetPort (Ok (signals ++ s :: rest)) w = mirrorEndpointSlices ref targetPort (Ok (signals ++ [s])) w /\
  (s <> SigStop -> (mirrorEndpointSlices ref targetPort (Ok (signals ++ [s])) w).2 <> Ok tt).
Proof.
  intros Hs signals. change (mirrorEndpointSlices ref targetPort (Ok ?l) w) with (mirror_loop ref targetPort l w). subst signals.
  revert w. induction es as [|e es IH]; intros w; cbn [app map mirror_loop].
  - by destruct s as [| |[|e|]|].
  - unfold mbind, M_bind. destruct (mirror_event ref targetPort (EventObject e) w) as [w1 [[]|err|]]; [apply IH|done..].
Qed.
End Properties.

Module MirrorExamples.
Import ConfigurerExamples.
Definition grown : EndpointSlice := set_contents "IPv4" [pod; mkEndpoint ["10.1.0.6"] (Some true) (Some true) (Some false) None None]
  [ep_port 8080 "TCP"; ep_port 9090 "TCP"] own_slice.
Definition after_growth : MemCluster.t :=
  (mirrorEndpointSlices ref 8080 (Ok [SigEvent (EventObject own_slice); SigEvent (EventObject grown)]) configured.2).1.

Lemma mirror_follows_the_pods_witness : mirrors ref 8080 grown after_growth.
Proof.
  apply (mirror_follows_the_pods ref 8080 [own_slice] grown configured.2 after_growth); [vm_compute; lia|].
  destruct (mirrorEndpointSlices ref 8080 (Ok (map (fun e => SigEvent (EventObject e)) ([own_slice] ++ [grown]))) configured.2)
    as [w r] eqn:E.
  apply (f_equal2 pair); [exact (f_equal fst (eq_sym E))|].
  apply (f_equal snd) in E. cbn [snd] in E. rewrite <-E. vm_compute. reflexivity.
Defined.

Lemma mirror_ends_with_the_watch_witness :
  mirrorEndpointSlices ref 8080 (Ok [SigEvent (EventObject own_slice); SigClosed; SigEvent (EventObject grown)]) configured.2 =
  mirrorEndpointSlices ref 8080 (Ok [SigEvent (EventObject own_slice); SigClosed]) configured.2.
Proof.
  exact (proj1 (mirror_ends_with_the_watch ref 8080 [own_slice] SigClosed [SigEvent (EventObject grown)] configured.2 I)).
Defined.
End MirrorExamples.
