(* ===== verification/Registry.v ===== *)
(** The registries of watchers that both Kubernetes informers keep: a map from models
    to watchers, each with a goroutine of its own whose [cancel] function only exists
    once the goroutine runs. *)

From stdpp Require Import base numbers gmap strings list.
From S2P Require Import Prelude.
Local Open Scope Z_scope.

(** [src/internal/informers/helper.go:25-28 ErrWrapper] what the watchers' goroutines put into
    the channel of errors *)
Record ErrWrapper := mkErrWrapper { ew_ModelName : string; ew_Err : error }.
#[global] Instance ErrWrapper_eq_dec : EqDecision ErrWrapper.
Proof. solve_decision. Defined.
(** [src/internal/informers/helper.go:30-32 Error] *)
Definition ErrWrapper_Error (e : ErrWrapper) : string :=
  err_message (Wrapf ("model " +:+ ew_ModelName e +:+ ": ") (ew_Err e)).

(** A watcher's goroutine: created, past its first lines (so that [cancel] is set), or
    cancelled. *)
Inductive goroutine := GoCreated | GoRunning | GoCancelled.

#[global] Instance goroutine_eq_dec : EqDecision goroutine.
Proof. solve_decision. Defined.

Section Registry.
Context {A : Type}.

(** The map by model, and the heap of the watchers it points to, with the model each
    was made for. *)
Record registry := mkRegistry {
  watchers : gmap string nat;
  heap : gmap nat (string * A * goroutine)
}.
Definition emptyRegistry : registry := mkRegistry ∅ ∅.

(** [watcher.cancel()]: a nil function until the goroutine has run. *)
Definition cancel_watcher (id : nat) : M registry unit := fun r =>
  match heap r !! id with
  | Some (model, a, GoCreated) => (r, Panic)
  | Some (model, a, _) => (mkRegistry (watchers r) (<[id := (model, a, GoCancelled)]> (heap r)), Ok tt)
  | None => (r, Panic)
  end.

Definition remove_model (model : string) : M registry unit :=
  modify (fun r => mkRegistry (delete model (watchers r)) (heap r)).

(** The shape of [Unregister] and of [removeWatcher]. *)
Definition unregister_watcher (model : string) : M registry unit :=
  found ← gets (fun r => watchers r !! model);
  match found with
  | Some id => cancel_watcher id ;; remove_model model
  | None => mret tt
  end.

(** [k.watchers[model] = watcher; go watcher.start(ctx)]. *)
Definition add_watcher (model : string) (a : A) : M registry unit :=
  modify (fun r =>
    let id := fresh (dom (heap r)) in
    mkRegistry (<[model := id]> (watchers r)) (<[id := (model, a, GoCreated)]> (heap r))).

Definition register_watcher (model : string) (a : A) : M registry unit :=
  unregister_watcher model ;; add_watcher model a.

(** The scheduler lets a new goroutine run. *)
Definition run_goroutine (id : nat) (r : registry) : registry :=
  match heap r !! id with
  | Some (model, a, GoCreated) => mkRegistry (watchers r) (<[id := (model, a, GoRunning)]> (heap r))
  | _ => r
  end.

Inductive registry_step : relation registry :=
| step_register model a r : registry_step r (register_watcher model a r).1
| step_unregister model r : registry_step r (unregister_watcher model r).1
| step_schedule id r : registry_step r (run_goroutine id r).

(** A watcher that is not cancelled is the one registered for its model. *)
Definition live_registered (r : registry) : Prop :=
  forall id model a st, heap r !! id = Some (model, a, st) -> st <> GoCancelled ->
    watchers r !! model = Some id.
(** What the map points to exists and is not cancelled. *)
Definition registered_live (r : registry) : Prop :=
  forall model id, watchers r !! model = Some id ->
    exists a st, heap r !! id = Some (model, a, st) /\ st <> GoCancelled.
Definition registry_ok (r : registry) : Prop := live_registered r /\ registered_live r.

Lemma registry_ok_empty : registry_ok emptyRegistry.
Proof. split; intros ?; intros; cbn in *; by rewrite lookup_empty in *. Qed.

(** How [unregister_watcher] ends. *)
Lemma unregister_run model r : registry_ok r ->
  match watchers r !! model with
  | None => unregister_watcher model r = (r, Ok tt)
  | Some id => exists a st, heap r !! id = Some (model, a, st) /\ st <> GoCancelled /\
      unregister_watcher model r =
        if decide (st = GoCreated) then (r, Panic)
        else (mkRegistry (delete model (watchers r)) (<[id := (model, a, GoCancelled)]> (heap r)), Ok tt)
  end.
Proof.
  intros [_ Hreg]. unfold unregister_watcher. mrun.
  destruct (watchers r !! model) as [id|] eqn:E; [|done].
  destruct (Hreg model id E) as (a & st & Hst & Hne). exists a, st. split_and!; [done|done|].
  unfold cancel_watcher. rewrite Hst. by destruct st.
Qed.

Lemma registry_ok_removed model id a r :
  registry_ok r -> watchers r !! model = Some id ->
  registry_ok (mkRegistry (delete model (watchers r)) (<[id := (model, a, GoCancelled)]> (heap r))).
Proof.
  intros [Hlive Hreg] E. split.
  - intros id' m' a' st' Hh Hne. cbn in *. apply lookup_insert_Some in Hh as [[-> ?]|[Hid Hh]]; [congruence|].
    pose proof (Hlive id' m' a' st' Hh Hne) as Hm. apply lookup_delete_Some. split; [congruence|done].
  - intros m' id' Hm. cbn in *. apply lookup_delete_Some in Hm as [Hne Hm].
    destruct (Hreg m' id' Hm) as (a' & st' & Hh & Hst). exists a', st'. split; [|done].
    rewrite lookup_insert_ne; [done|]. intros <-.
    destruct (Hreg model id E) as (a2 & st2 & Hh2 & _). congruence.
Qed.

Lemma registry_ok_added model a r :
  registry_ok r -> watchers r !! model = None ->
  registry_ok (add_watcher model a r).1.
Proof.
  intros [Hlive Hreg] E. cbn. set (id := fresh (dom (heap r))).
  assert (heap r !! id = None) as Hfresh by (apply not_elem_of_dom, is_fresh).
  split.
  - intros id' m' a' st' Hh Hne. cbn in *. apply lookup_insert_Some in Hh as [[<- [= <- <- <-]]|[Hid Hh]].
    + apply lookup_insert_eq.
    + rewrite lookup_insert_ne; [by eapply Hlive|]. intros ->. by rewrite (Hlive id' m' a' st' Hh Hne) in E.
  - intros m' id' Hm. cbn in *. apply lookup_insert_Some in Hm as [[<- <-]|[Hne Hm]].
    + exists a, GoCreated. by rewrite lookup_insert_eq.
    + destruct (Hreg m' id' Hm) as (a' & st' & Hh & Hst). exists a', st'. split; [|done].
      rewrite lookup_insert_ne; [done|]. congruence.
Qed.

Lemma unregister_ok model r :
  registry_ok r -> registry_ok (unregister_watcher model r).1 /\
    ((unregister_watcher model r).2 = Ok tt -> watchers (unregister_watcher model r).1 !! model = None).
Proof.
  intros Hok. pose proof (unregister_run model r Hok) as Hrun.
  destruct (watchers r !! model) as [id|] eqn:E; [|by rewrite Hrun].
  destruct Hrun as (a & st & _ & _ & ->). case_decide; [done|]. cbn. split.
  - by apply registry_ok_removed.
  - intros _. apply lookup_delete_eq.
Qed.

Lemma registry_step_ok r r' : registry_ok r -> registry_step r r' -> registry_ok r'.
Proof.
  intros Hok Hstep. revert Hok. destruct Hstep as [model a r|model r|id r]; intros Hok.
  - unfold register_watcher, mbind, M_bind. destruct (unregister_ok model r Hok) as [Hok' Hnone].
    destruct (unregister_watcher model r) as [r' [[]|e|]]; cbn in *; [|done|done].
    by apply registry_ok_added; [|apply Hnone].
  - by apply unregister_ok.
  - unfold run_goroutine. destruct (heap r !! id) as [[[m a] [| |]]|] eqn:E; [|done|done|done].
    destruct Hok as [Hlive Hreg]. split.
    + intros id' m' a' st' Hh Hne. cbn in *. apply lookup_insert_Some in Hh as [[<- [= <- <- <-]]|[_ Hh]];
        by eapply Hlive.
    + intros m' id' Hm. cbn in *. destruct (Hreg m' id' Hm) as (a' & st' & Hh & Hst).
      destruct (decide (id = id')) as [<-|Hne]; [|exists a', st'; by rewrite lookup_insert_ne].
      exists a, GoRunning. rewrite lookup_insert_eq. split; [|done]. congruence.
Qed.

(** Registering a model anew and unregistering it before its goroutine has run. *)
Lemma unregister_before_start model a r : registry_ok r ->
  (register_watcher model a r).2 = Ok tt ->
  (unregister_watcher model (register_watcher model a r).1).2 = Panic.
Proof.
  intros Hok. unfold register_watcher, mbind, M_bind.
  destruct (unregister_watcher model r) as [r' [[]|e|]]; cbn; [|done|done]. intros _.
  unfold unregister_watcher, mbind, M_bind, gets. cbn. rewrite lookup_insert_eq.
  unfold cancel_watcher. cbn. by rewrite lookup_insert_eq.
Qed.
End Registry.
Arguments registry A : clear implicits.
