(* ===== verification/Metric.v ===== *)
(** The metric informer (internal/informers/metric): when a model's metrics count as
    reached, the condition that collects them, and the registry of watchers. *)

From Stdlib Require Import Ascii.
From stdpp Require Import base numbers gmap strings list.
From S2P Require Import Prelude Crd Registry.
Local Open Scope Z_scope.

(** ** The libraries the informer asks

    [resource.Quantity] and label selectors. *)
Class QuantityOps := {
  Quantity_Equal : Quantity -> Quantity -> bool;
  Quantity_CmpInt64 : Quantity -> Z -> Z;
  MilliValue : Quantity -> Z;
  Selector_String : LabelSelector -> string;
  LabelSelectorAsSelector : option LabelSelector -> res string
}.

(** A quantity stands for an amount, counted here in its smallest unit, the nano. *)
Class QuantitySpec `{QuantityOps} := {
  nanos : Quantity -> Z;
  Equal_law a b : Quantity_Equal a b = (nanos a =? nanos b);
  CmpInt64_law a n : 0 <= Quantity_CmpInt64 a n <-> n * 10 ^ 9 <= nanos a
}.

(** A sample of a pod. *)
Record PodMetric := mkPodMetric {
  pod_Timestamp : Z;
  pod_Window : Z;
  pod_Value : Z
}.

(** The containers of a pod, each with its requests. *)
Definition PodRequests : Type := list (gmap string Quantity).

(** The API server and the metrics API. *)
Class MetricsAPI (W : Type) := {
  ParseGroupVersion : string -> res string;
  RESTMappings : string -> string -> M W (list string);
  Scales_Get : string -> string -> string -> M W (Z * string);
  labels_Parse : string -> res string;
  Pods_List : string -> string -> M W (list PodRequests);
  GetObjectMetric : string -> string -> CrossVersionObjectReference -> string -> M W Z;
  GetRawMetric : string -> string -> string -> string -> M W (list PodMetric);
  GetResourceMetric : string -> string -> string -> string -> M W (list PodMetric);
  GetExternalMetric : string -> string -> string -> M W (list Z);
  time_Now : M W Z
}.

Section Metric.
Context `{QuantityOps}.

(** ** Equality of metric specifications *)

(** [src/internal/informers/metric/kubernetes_helper.go:98-113 equalMetricTarget] *)
Definition equalMetricTarget (a b : MetricTarget) : bool :=
  if negb (String.eqb (mt_Type a) (mt_Type b)) then false
  else if String.eqb (mt_Type a) "Utilization" then
    match mt_AverageUtilization a, mt_AverageUtilization b with
    | Some u, Some v => u =? v
    | _, _ => false
    end
  else if String.eqb (mt_Type a) "Value" then
    match mt_Value a, mt_Value b with
    | Some u, Some v => Quantity_Equal u v
    | _, _ => false
    end
  else if String.eqb (mt_Type a) "AverageValue" then
    match mt_AverageValue a, mt_AverageValue b with
    | Some u, Some v => Quantity_Equal u v
    | _, _ => false
    end
  else false.

(** [src/internal/informers/metric/kubernetes_helper.go:82-96 equalMetricIdentifier] *)
Definition equalMetricIdentifier (a b : MetricIdentifier) : bool :=
  if negb (String.eqb (mi_Name a) (mi_Name b)) then false
  else match mi_Selector a, mi_Selector b with
       | None, None => true
       | None, Some _ | Some _, None => false
       | Some u, Some v => String.eqb (Selector_String u) (Selector_String v)
       end.

(** [src/internal/informers/metric/kubernetes_helper.go:57-59 equalContainerResourceMetricSource] *)
Definition equalContainerResourceMetricSource (a b : ContainerResourceMetricSource) : bool :=
  String.eqb (cm_Name a) (cm_Name b) && String.eqb (cm_Container a) (cm_Container b) &&
  equalMetricTarget (cm_Target a) (cm_Target b).

(** [src/internal/informers/metric/kubernetes_helper.go:61-63 equalExternalMetricSource] *)
Definition equalExternalMetricSource (a b : ExternalMetricSource) : bool :=
  equalMetricIdentifier (em_Metric a) (em_Metric b) && equalMetricTarget (em_Target a) (em_Target b).

(** [src/internal/informers/metric/kubernetes_helper.go:65-72 equalObjectMetricSource] *)
Definition equalObjectMetricSource (a b : ObjectMetricSource) : bool :=
  if negb (String.eqb (cr_APIVersion (om_DescribedObject a)) (cr_APIVersion (om_DescribedObject b))) ||
     negb (String.eqb (cr_Kind (om_DescribedObject a)) (cr_Kind (om_DescribedObject b))) ||
     negb (String.eqb (cr_Name (om_DescribedObject a)) (cr_Name (om_DescribedObject b)))
  then false
  else equalMetricIdentifier (om_Metric a) (om_Metric b) && equalMetricTarget (om_Target a) (om_Target b).

(** [src/internal/informers/metric/kubernetes_helper.go:74-76 equalPodsMetricSource] *)
Definition equalPodsMetricSource (a b : PodsMetricSource) : bool :=
  equalMetricIdentifier (pm_Metric a) (pm_Metric b) && equalMetricTarget (pm_Target a) (pm_Target b).

(** [src/internal/informers/metric/kubernetes_helper.go:78-80 equalResourceMetricSource] *)
Definition equalResourceMetricSource (a b : ResourceMetricSource) : bool :=
  String.eqb (rm_Name a) (rm_Name b) && equalMetricTarget (rm_Target a) (rm_Target b).

(** A comparison of two dereferenced pointers. *)
Definition on_both {A} (eq : A -> A -> bool) (a b : option A) : res bool :=
  match a, b with Some x, Some y => Ok (eq x y) | _, _ => Panic end.

(** [src/internal/informers/metric/kubernetes_helper.go:37-55 IsMetricSpecEqual] *)
Definition IsMetricSpecEqual (a b : MetricSpec) : res bool :=
  if negb (String.eqb (ms_Type a) (ms_Type b)) then Ok false
  else if String.eqb (ms_Type a) "ContainerResource" then
    on_both equalContainerResourceMetricSource (ms_ContainerResource a) (ms_ContainerResource b)
  else if String.eqb (ms_Type a) "External" then
    on_both equalExternalMetricSource (ms_External a) (ms_External b)
  else if String.eqb (ms_Type a) "Object" then
    on_both equalObjectMetricSource (ms_Object a) (ms_Object b)
  else if String.eqb (ms_Type a) "Pods" then
    on_both equalPodsMetricSource (ms_Pods a) (ms_Pods b)
  else if String.eqb (ms_Type a) "Resource" then
    on_both equalResourceMetricSource (ms_Resource a) (ms_Resource b)
  else Ok false.

(** ** Thresholds *)

(** Integer division; Go truncates towards zero and panics on zero. *)
Definition quot64 (a b : Z) : res Z := if b =? 0 then Panic else Ok (int64 (Z.quot a b)).

Definition sum64 (l : list Z) : Z := foldl add64 0 l.

(** [src/internal/informers/metric/kubernetes_helper.go:193-223 isMetricReached] *)
Definition isMetricReached (replicas : Z) (metric : MetricTarget) (metrics : list Z) : res bool :=
  if String.eqb (mt_Type metric) "Utilization" then
    match mt_AverageUtilization metric with
    | None => Err (Errorf "averageUtilization is nil")
    | Some target =>
        match quot64 (sum64 metrics) replicas with
        | Ok averageUtilization => Ok (target <=? averageUtilization)
        | Err e => Err e
        | Panic => Panic
        end
    end
  else if String.eqb (mt_Type metric) "Value" then
    match mt_Value metric with
    | None => Panic
    | Some v => Ok (0 <=? Quantity_CmpInt64 v (sum64 metrics))
    end
  else if String.eqb (mt_Type metric) "AverageValue" then
    match quot64 (sum64 metrics) replicas with
    | Ok averageValue =>
        match mt_AverageValue metric with
        | None => Panic
        | Some v => Ok (0 <=? Quantity_CmpInt64 v averageValue)
        end
    | Err e => Err e
    | Panic => Panic
    end
  else Err (Errorf ("unsupported metric type: " +:+ mt_Type metric)).

(** ** The condition *)

(** The zero [time.Time], in nanoseconds of Unix time. *)
Definition zeroTime : Z := - 62135596800 * 10 ^ 9.

(** [src/internal/informers/metric/kubernetes_informer.go:388-393 metricConditionStatus] *)
Record metricConditionStatus := mkCondition {
  currentMetricReachedMetrics : list MetricSpec;
  mcs_reached : bool;
  mcs_window : Z;
  mcs_sinceTime : Z
}.

(** [src/internal/informers/metric/kubernetes_informer.go:397-402 update] the deferred function *)
Definition settle (mcs : metricConditionStatus) : metricConditionStatus :=
  match currentMetricReachedMetrics mcs with
  | [] => mkCondition [] false (mcs_window mcs) zeroTime
  | _ => mcs
  end.

(** [src/internal/informers/metric/kubernetes_informer.go:404-419 update] the position of the equal
    metric; the loop returns at the first one *)
Fixpoint find_equal (l : list MetricSpec) (currentMetric : MetricSpec) (i : nat) : res (option nat) :=
  match l with
  | [] => Ok None
  | metric :: l' =>
      match IsMetricSpecEqual metric currentMetric with
      | Ok true => Ok (Some i)
      | Ok false => find_equal l' currentMetric (S i)
      | Err e => Err e
      | Panic => Panic
      end
  end.

(** [src/internal/informers/metric/kubernetes_informer.go:396-435 update] *)
Definition update {W} `{MetricsAPI W} (currentMetric : MetricSpec) (reached : bool)
    : M (metricConditionStatus * W) unit :=
  mcs ← self (gets id);
  found ← of_res (find_equal (currentMetricReachedMetrics mcs) currentMetric 0);
  match found with
  | Some i =>
      if reached then self (modify settle)
      else self (modify (fun mcs => settle (mkCondition (delete i (currentMetricReachedMetrics mcs))
                                      (mcs_reached mcs) (mcs_window mcs) (mcs_sinceTime mcs))))
  | None =>
      let l := currentMetricReachedMetrics mcs ++ [currentMetric] in
      if reached && negb (mcs_reached mcs) then
        now ← outer time_Now;
        self (modify (fun mcs => settle (mkCondition l true (mcs_window mcs) now)))
      else if reached && mcs_reached mcs then
        self (modify (fun mcs => settle (mkCondition l (mcs_reached mcs) (mcs_window mcs) (mcs_sinceTime mcs))))
      else self (modify settle)
  end.

(** [time.Since(t)], which saturates. *)
Definition Since (now t : Z) : Z := Z.max (- 2 ^ 63) (Z.min (2 ^ 63 - 1) (now - t)).

(** [src/internal/informers/metric/kubernetes_informer.go:438-446 isReached] *)
Definition isReached {W} `{MetricsAPI W} : M (metricConditionStatus * W) bool :=
  mcs ← self (gets id);
  if negb (mcs_reached mcs) then mret false
  else
    now ← outer time_Now;
    mret (mcs_window mcs <? Since now (mcs_sinceTime mcs)).

(** ** Checking the metrics of a model *)

Section Check.
Context {W : Type} `{MetricsAPI W}.

(** [src/internal/informers/metric/kubernetes_helper.go:156-166 parseHPASelector] *)
Definition parseHPASelector (selector : string) : res string :=
  if String.eqb selector "" then Err (Errorf "selector is required") else labels_Parse selector.

(** [src/internal/informers/metric/kubernetes_helper.go:133-151 getReplicasInfo] the loop: the first
    mapping that has a scale decides; [firstErr] is the error of the first mapping *)
Fixpoint scale_of (mappings : list string) (firstErr : option error) (first : bool) (watchTarget : ObjectReference)
    : M W (Z * string) :=
  match mappings with
  | [] =>
      throw (default (Errorf ("failed to get replicas info for " +:+ ref_Name watchTarget)) firstErr)
  | groupResource :: l =>
      scale ← try (Scales_Get (ref_Namespace watchTarget) groupResource (ref_Name watchTarget));
      match scale with
      | inl (replicas, text) =>
          selector ← of_res (parseHPASelector text);
          mret (replicas, selector)
      | inr e => scale_of l (if first then Some e else firstErr) false watchTarget
      end
  end.

(** [src/internal/informers/metric/kubernetes_helper.go:116-154 getReplicasInfo] *)
Definition getReplicasInfo (watchTarget : ObjectReference) : M W (Z * string) :=
  group ← of_res (ParseGroupVersion (W:=W) (ref_APIVersion watchTarget));
  mappings ← RESTMappings group (ref_Kind watchTarget);
  scale_of mappings None true watchTarget.

(** [src/internal/informers/metric/kubernetes_helper.go:177-186 findRequestedResource] the request of a
    container for the four resources it knows, 0 where it has none *)
Definition requested (resourceName : string) (container : gmap string Quantity) : Z :=
  if bool_decide (resourceName ∈ ["cpu"; "memory"; "ephemeral-storage"; "storage"])
  then match container !! resourceName with Some q => MilliValue q | None => 0 end
  else 0.

(** [src/internal/informers/metric/kubernetes_helper.go:168-191 findRequestedResource] *)
Definition findRequestedResource (namespace labelSelector resourceName : string) : M W Z :=
  podList ← Pods_List namespace labelSelector;
  mret (sum64 (map (requested resourceName) (concat podList))).

(** [src/internal/informers/metric/kubernetes_informer.go:296-304 CheckMetric] *)
Definition utilization_reached (usage : list Z) (requestedResource replicas target : Z) : res bool :=
  match quot64 (mul64 (sum64 usage) 100) requestedResource with
  | Ok percent =>
      match quot64 percent replicas with
      | Ok averageUtilization => Ok (target <=? averageUtilization)
      | Err e => Err e
      | Panic => Panic
      end
  | Err e => Err e
  | Panic => Panic
  end.

(** [src/internal/informers/metric/kubernetes_informer.go:307-311 CheckMetric] the samples that are
    recent enough *)
Definition recent (now scrapeInterval : Z) (usage : list PodMetric) : list Z :=
  map pod_Value (filter (fun m => now - scrapeInterval < pod_Timestamp m + pod_Window m) usage).

(** [src/internal/informers/metric/kubernetes_informer.go:168-179 k8sMetricWatcher] its settings; the
    condition is the state of [CheckMetric] and the channels are the registry's *)
Record k8sMetricWatcher := mkWatcher {
  mw_model : string;
  mw_scrapeInterval : Z;
  mw_metrics : list MetricSpec;
  mw_watchTarget : ObjectReference
}.

(** [src/internal/informers/metric/kubernetes_informer.go:220-375 CheckMetric] whether one metric is
    reached.  The guards against a missing source build their message from that very
    source, so they panic. *)
Definition metric_reached (mw : k8sMetricWatcher) (replicas : Z) (labelSelector : string) (metric : MetricSpec)
    : M W bool :=
  let ns := ref_Namespace (mw_watchTarget mw) in
  if String.eqb (ms_Type metric) "Object" then
    o ← deref (ms_Object metric);
    metricSelector ← of_res (LabelSelectorAsSelector (mi_Selector (om_Metric o)));
    usage ← GetObjectMetric (mi_Name (om_Metric o)) ns
      (mkCrossRef (ref_Kind (mw_watchTarget mw)) (ref_Name (mw_watchTarget mw))
         (ref_APIVersion (mw_watchTarget mw))) metricSelector;
    of_res (isMetricReached replicas (om_Target o) [usage])
  else if String.eqb (ms_Type metric) "Pods" then
    p ← deref (ms_Pods metric);
    metricSelector ← of_res (LabelSelectorAsSelector (mi_Selector (pm_Metric p)));
    usage ← GetRawMetric (mi_Name (pm_Metric p)) ns labelSelector metricSelector;
    of_res (isMetricReached replicas (pm_Target p) (map pod_Value usage))
  else if String.eqb (ms_Type metric) "Resource" then
    r ← deref (ms_Resource metric);
    usage ← GetResourceMetric (rm_Name r) ns labelSelector "";
    match mt_AverageUtilization (rm_Target r) with
    | Some target =>
        requestedResource ← findRequestedResource ns labelSelector (rm_Name r);
        of_res (utilization_reached (map pod_Value usage) requestedResource replicas target)
    | None =>
        now ← time_Now;
        of_res (isMetricReached replicas (rm_Target r) (recent now (mw_scrapeInterval mw) usage))
    end
  else if String.eqb (ms_Type metric) "ContainerResource" then
    c ← deref (ms_ContainerResource metric);
    usage ← GetResourceMetric (cm_Container c) ns labelSelector (cm_Container c);
    of_res (isMetricReached replicas (cm_Target c) (map pod_Value usage))
  else if String.eqb (ms_Type metric) "External" then
    e ← deref (ms_External metric);
    metricSelector ← of_res (LabelSelectorAsSelector (mi_Selector (em_Metric e)));
    usage ← GetExternalMetric (mi_Name (em_Metric e)) ns metricSelector;
    of_res (isMetricReached replicas (em_Target e) usage)
  else panic.

(** [src/internal/informers/metric/kubernetes_informer.go:210-219 CheckMetric] one turn of the loop *)
Definition check_one (mw : k8sMetricWatcher) (metric : MetricSpec) : M (metricConditionStatus * W) unit :=
  info ← outer (getReplicasInfo (mw_watchTarget mw));
  let '(replicas, labelSelector) := info in
  if replicas =? 0 then update metric false
  else
    reached ← outer (metric_reached mw replicas labelSelector metric);
    update metric reached.

(** The loop over the metrics: an error is kept and the loop goes on. *)
Fixpoint check_all (mw : k8sMetricWatcher) (metrics : list MetricSpec) : M (metricConditionStatus * W) (list error) :=
  match metrics with
  | [] => mret []
  | metric :: l =>
      r ← try (check_one mw metric);
      errs ← check_all mw l;
      mret (match r with inl _ => errs | inr e => e :: errs end)
  end.

Definition no_metrics_returned : string := "no metrics returned from resource metrics API".

(** [src/internal/informers/metric/kubernetes_informer.go:208-386 CheckMetric] *)
Definition CheckMetric (mw : k8sMetricWatcher) : M (metricConditionStatus * W) bool :=
  errs ← check_all mw (mw_metrics mw);
  match filter (fun e => err_message e <> no_metrics_returned) errs with
  | e :: _ => throw e
  | [] => isReached
  end.
End Check.
End Metric.

(** ** What a metric is, up to the equality of the code *)

Section Identity.
Context `{Hq : QuantityOps} `{Hqs : !QuantitySpec}.

(** A target by its type and amount, an identifier by its name and selector. *)
Definition target_id : Type := string * Z.
Definition identifier_id : Type := string * option string.
Inductive metric_id :=
| ContainerId (name container : string) (t : target_id)
| ExternalId (i : identifier_id) (t : target_id)
| ObjectId (apiVersion kind name : string) (i : identifier_id) (t : target_id)
| PodsId (i : identifier_id) (t : target_id)
| ResourceId (name : string) (t : target_id).

#[export] Instance metric_id_eq_dec : EqDecision metric_id.
Proof. solve_decision. Defined.

Definition target_key (t : MetricTarget) : option target_id :=
  let amount :=
    if String.eqb (mt_Type t) "Utilization" then mt_AverageUtilization t
    else if String.eqb (mt_Type t) "Value" then nanos <$> mt_Value t
    else if String.eqb (mt_Type t) "AverageValue" then nanos <$> mt_AverageValue t
    else None in
  pair (mt_Type t) <$> amount.
Definition identifier_key (i : MetricIdentifier) : identifier_id := (mi_Name i, Selector_String <$> mi_Selector i).

(** A metric with its source and an amount of its type; the others equal nothing, not
    even themselves. *)
Definition metric_key (m : MetricSpec) : option metric_id :=
  if String.eqb (ms_Type m) "ContainerResource" then
    c ← ms_ContainerResource m; ContainerId (cm_Name c) (cm_Container c) <$> target_key (cm_Target c)
  else if String.eqb (ms_Type m) "External" then
    e ← ms_External m; ExternalId (identifier_key (em_Metric e)) <$> target_key (em_Target e)
  else if String.eqb (ms_Type m) "Object" then
    o ← ms_Object m; ObjectId (cr_APIVersion (om_DescribedObject o)) (cr_Kind (om_DescribedObject o))
                       (cr_Name (om_DescribedObject o)) (identifier_key (om_Metric o)) <$> target_key (om_Target o)
  else if String.eqb (ms_Type m) "Pods" then
    p ← ms_Pods m; PodsId (identifier_key (pm_Metric p)) <$> target_key (pm_Target p)
  else if String.eqb (ms_Type m) "Resource" then
    r ← ms_Resource m; ResourceId (rm_Name r) <$> target_key (rm_Target r)
  else None.

Lemma eqb_decide (a b : string) : String.eqb a b = bool_decide (a = b).
Proof. destruct (String.eqb_spec a b); by case_bool_decide. Qed.
Lemma Z_eqb_decide (a b : Z) : (a =? b) = bool_decide (a = b).
Proof. by case_bool_decide; lia. Qed.

Lemma equalMetricTarget_key a b ka kb :
  target_key a = Some ka -> target_key b = Some kb -> equalMetricTarget a b = bool_decide (ka = kb).
Proof.
  destruct a as [ta va aa ua], b as [tb vb ab ub]. unfold target_key, equalMetricTarget. cbn.
  intros (x & Hx & ->)%fmap_Some (y & Hy & ->)%fmap_Some.
  destruct (String.eqb_spec ta tb) as [<-|E]; cbn; [|symmetry; apply bool_decide_eq_false_2; congruence].
  transitivity (x =? y); [|rewrite Z_eqb_decide; apply bool_decide_ext; naive_solver].
  repeat case_match; simplify_eq; try done;
    repeat match goal with H : _ <$> _ = Some _ |- _ => apply fmap_Some in H as (? & ? & ->) end;
    simplify_eq; apply Equal_law.
Qed.

Lemma equalMetricIdentifier_key a b :
  equalMetricIdentifier a b = bool_decide (identifier_key a = identifier_key b).
Proof.
  destruct a as [na sa], b as [nb sb]. unfold equalMetricIdentifier, identifier_key. cbn.
  destruct (String.eqb_spec na nb) as [<-|E]; cbn; [|symmetry; apply bool_decide_eq_false_2; congruence].
  destruct sa, sb; cbn; rewrite ?eqb_decide;
    [apply bool_decide_ext; split; [by intros ->|by intros [= ->]]|..];
    symmetry; rewrite ?bool_decide_eq_true, ?bool_decide_eq_false; congruence.
Qed.

Definition id_type (k : metric_id) : string :=
  match k with
  | ContainerId _ _ _ => "ContainerResource"
  | ExternalId _ _ => "External"
  | ObjectId _ _ _ _ _ => "Object"
  | PodsId _ _ => "Pods"
  | ResourceId _ _ => "Resource"
  end.

Lemma metric_key_type m k : metric_key m = Some k -> ms_Type m = id_type k.
Proof.
  unfold metric_key. intros Hm. repeat case_match; try done;
    apply bind_Some in Hm as (x & _ & (t & _ & ->)%fmap_Some); cbn; by apply String.eqb_eq.
Qed.

Local Ltac by_injection :=
  apply bool_decide_ext; split;
    [intros; destruct_and?; congruence|intros Heq; injection Heq; intros; repeat split; congruence].

(** On metrics that are complete the code's equality is the equality of their identity:
    an equivalence, and it does not panic. *)
Lemma IsMetricSpecEqual_key a b ka kb :
  metric_key a = Some ka -> metric_key b = Some kb -> IsMetricSpecEqual a b = Ok (bool_decide (ka = kb)).
Proof.
  intros Ha Hb. unfold IsMetricSpecEqual.
  destruct (String.eqb_spec (ms_Type a) (ms_Type b)) as [E|E]; cbn [negb].
  2: { f_equal. symmetry. apply bool_decide_eq_false_2. intros <-. apply E.
       apply metric_key_type in Ha as ->. by apply metric_key_type in Hb as ->. }
  unfold metric_key in *. rewrite <- E in Hb.
  repeat case_match; try done;
    apply bind_Some in Ha as (x & -> & (tx & Hx & ->)%fmap_Some), Hb as (y & -> & (ty & Hy & ->)%fmap_Some);
    cbn; f_equal.
  - unfold equalContainerResourceMetricSource. rewrite (equalMetricTarget_key _ _ _ _ Hx Hy), !eqb_decide.
    rewrite <- !bool_decide_and. by_injection.
  - unfold equalExternalMetricSource. rewrite (equalMetricTarget_key _ _ _ _ Hx Hy), equalMetricIdentifier_key.
    rewrite <- !bool_decide_and. by_injection.
  - unfold equalObjectMetricSource. rewrite (equalMetricTarget_key _ _ _ _ Hx Hy), equalMetricIdentifier_key.
    rewrite <- bool_decide_and.
    repeat match goal with |- context [String.eqb ?u ?v] => destruct (String.eqb_spec u v) end; cbn;
      try (symmetry; apply bool_decide_eq_false_2; intros Heq; injection Heq; congruence). by_injection.
  - unfold equalPodsMetricSource. rewrite (equalMetricTarget_key _ _ _ _ Hx Hy), equalMetricIdentifier_key.
    rewrite <- !bool_decide_and. by_injection.
  - unfold equalResourceMetricSource. rewrite (equalMetricTarget_key _ _ _ _ Hx Hy), !eqb_decide.
    rewrite <- !bool_decide_and. by_injection.
Qed.

End Identity.

(** ** The condition as a table of the last observations *)

Class ClockSpec (W : Type) `{MetricsAPI W} : Prop := {
  Now_law w : exists w' n, time_Now w = (w', Ok n)
}.

Section Condition.
Context `{Hq : QuantityOps} `{Hqs : !QuantitySpec} {W : Type} `{Hm : MetricsAPI W} `{Hc : !ClockSpec W}.
Implicit Types (mcs : metricConditionStatus) (obs : metric_id -> bool).

Definition keys (l : list MetricSpec) : list (option metric_id) := map metric_key l.

(** The metrics kept are those last observed as reached, each once. *)
Definition tracks obs mcs : Prop :=
  let l := currentMetricReachedMetrics mcs in
  NoDup (keys l) /\ Forall (fun m => is_Some (metric_key m)) l /\
  (forall k, Some k ∈ keys l <-> obs k = true) /\
  mcs_reached mcs = negb (bool_decide (l = [])) /\
  (l = [] -> mcs_sinceTime mcs = zeroTime).

Definition observe obs (k : metric_id) (reached : bool) : metric_id -> bool :=
  fun k' => if decide (k' = k) then reached else obs k'.

Lemma find_equal_spec l m k i :
  Forall (fun m => is_Some (metric_key m)) l -> metric_key m = Some k ->
  (exists j x, find_equal l m i = Ok (Some (i + j)%nat) /\ l !! j = Some x /\ metric_key x = Some k) \/
  (find_equal l m i = Ok None /\ Some k ∉ keys l).
Proof.
  intros Hl Hk. revert i. induction Hl as [|x l [kx Hx] Hl IH]; intros i; cbn [find_equal keys map].
  - right. split; [done|apply not_elem_of_nil].
  - rewrite (IsMetricSpecEqual_key x m kx k Hx Hk). case_bool_decide as E.
    + left. exists 0%nat, x. rewrite Nat.add_0_r. subst. done.
    + destruct (IH (S i)) as [(j & y & Hf & Hj & Hy)|[Hf Hnot]].
      * left. exists (S j), y. rewrite Hf. split_and!; [do 2 f_equal; lia|done|done].
      * right. split; [done|]. rewrite Hx. intros [?|?]%elem_of_cons; [congruence|by apply Hnot].
Qed.

(** Taking the [j]-th metric out takes its identity out. *)
Lemma keys_delete l j x k :
  NoDup (keys l) -> l !! j = Some x -> metric_key x = Some k ->
  NoDup (keys (delete j l)) /\ (forall k', Some k' ∈ keys (delete j l) <-> Some k' ∈ keys l /\ k' <> k).
Proof.
  intros Hnd Hj Hx. pose proof (take_drop_middle l j x Hj) as Hl. rewrite delete_take_drop.
  unfold keys in *. rewrite <- Hl in Hnd. rewrite map_app in Hnd. cbn in Hnd. rewrite Hx in Hnd.
  apply NoDup_app in Hnd as (H1 & Hdis & H2). apply NoDup_cons in H2 as [Hx2 H2].
  rewrite map_app. split.
  - apply NoDup_app. split_and!; [done| |done]. intros y Hy Hy2. apply (Hdis y Hy). by apply elem_of_cons; right.
  - intros k'. rewrite <- Hl at 3. rewrite map_app. cbn. rewrite Hx, !elem_of_app, elem_of_cons.
    split; [|naive_solver]. intros Hin. split; [naive_solver|]. intros ->.
    destruct Hin as [Hin|Hin]; [|done]. apply (Hdis _ Hin). by apply elem_of_cons; left.
Qed.

Lemma settle_id mcs : currentMetricReachedMetrics mcs <> [] -> settle mcs = mcs.
Proof. unfold settle. by destruct (currentMetricReachedMetrics mcs). Qed.

(** Settling makes the flag agree with the list, when it held for a non-empty one. *)
Lemma tracks_settle obs l r w t :
  NoDup (keys l) -> Forall (fun m => is_Some (metric_key m)) l ->
  (forall k, Some k ∈ keys l <-> obs k = true) -> (l <> [] -> r = true) ->
  tracks obs (settle (mkCondition l r w t)) /\ mcs_window (settle (mkCondition l r w t)) = w.
Proof.
  intros Hnd Hall Hk Hr. unfold tracks, settle. destruct l as [|x l]; cbn; [done|].
  split; [|done]. split_and!; [done..|by apply Hr|done].
Qed.

Lemma update_tracks obs m k r mcs (w : W) :
  tracks obs mcs -> metric_key m = Some k ->
  exists mcs' w', update m r (mcs, w) = ((mcs', w'), Ok tt) /\
    tracks (observe obs k r) mcs' /\ mcs_window mcs' = mcs_window mcs.
Proof.
  intros (Hnd & Hall & Hobs & Hflag & Hzero) Hk. unfold update. mrun.
  destruct mcs as [l b win since]. cbn in *.
  assert (l <> [] -> b = true) as Hb by (intros Hl; rewrite Hflag; by case_bool_decide).
  destruct (find_equal_spec l m k 0 Hall Hk) as [(j & x & -> & Hj & Hx)|[-> Hnot]]; cbn.
  - assert (Some k ∈ keys l) as Hin.
    { unfold keys. apply list_elem_of_fmap. exists x. split; [by rewrite Hx|by eapply list_elem_of_lookup_2]. }
    destruct r; do 2 eexists; (split; [reflexivity|]).
    + apply tracks_settle; [done|done| |done]. intros k'. rewrite Hobs. unfold observe.
      case_decide as E; [|done]. subst. by rewrite <- Hobs.
    + destruct (keys_delete l j x k Hnd Hj Hx) as [Hnd' Hks]. apply tracks_settle; [done| | |].
      * rewrite delete_take_drop. apply Forall_app. split; [by apply Forall_take|by apply Forall_drop].
      * intros k'. rewrite Hks, Hobs. unfold observe. case_decide; naive_solver.
      * intros Hl. apply Hb. intros ->. by apply Hl.
  - assert (NoDup (keys (l ++ [m])) /\ Forall (fun m => is_Some (metric_key m)) (l ++ [m]) /\
      (forall k', Some k' ∈ keys (l ++ [m]) <-> observe obs k true k' = true)) as (Hnd' & Hall' & Hobs').
    { unfold keys. rewrite map_app. cbn. rewrite Hk. split_and!.
      - apply NoDup_app. split_and!; [done| |by apply NoDup_singleton].
        intros y Hy ->%list_elem_of_singleton. by apply Hnot.
      - apply Forall_app. split; [done|]. repeat constructor. by rewrite Hk.
      - intros k'. rewrite elem_of_app, list_elem_of_singleton, Hobs. unfold observe. case_decide; naive_solver. }
    destruct r; cbn.
    + destruct b; cbn; [do 2 eexists; (split; [reflexivity|]); by apply tracks_settle|].
      destruct (Now_law w) as (w' & n & ->). do 2 eexists. split; [reflexivity|]. by apply tracks_settle.
    + do 2 eexists. split; [reflexivity|]. apply tracks_settle; [done|done| |done].
      intros k'. rewrite Hobs. unfold observe. case_decide as E; [|done]. subst. rewrite <- Hobs.
      split; [intros ?; by destruct Hnot|done].
Qed.

(** The time is read when the condition becomes reached, and kept while it stays so. *)
Lemma settle_reached l b win since :
  mcs_reached (settle (mkCondition l b win since)) = true ->
  l <> [] /\ b = true /\ mcs_sinceTime (settle (mkCondition l b win since)) = since.
Proof. by destruct l. Qed.
Lemma update_since obs m k r mcs (w : W) mcs' w' :
  tracks obs mcs -> metric_key m = Some k -> update m r (mcs, w) = ((mcs', w'), Ok tt) -> mcs_reached mcs' = true ->
  if mcs_reached mcs then mcs_sinceTime mcs' = mcs_sinceTime mcs else time_Now w = (w', Ok (mcs_sinceTime mcs')).
Proof.
  intros (Hnd & Hall & Hobs & Hflag & Hzero) Hk E Hr. unfold update in E. revert E. mrun.
  destruct mcs as [l b win since]. cbn in *.
  destruct (find_equal_spec l m k 0 Hall Hk) as [(j & x & -> & Hj & Hx)|[-> Hnot]]; cbn.
  - destruct r; intros [= <- <-]; apply settle_reached in Hr as (_ & -> & ->); done.
  - destruct r; cbn.
    + destruct b; cbn.
      * intros [= <- <-]. by apply settle_reached in Hr as (_ & _ & ->).
      * destruct (Now_law w) as (w1 & n & En). rewrite En. intros [= <- <-]. by apply settle_reached in Hr as (_ & _ & ->).
    + intros [= <- <-]. apply settle_reached in Hr as (_ & -> & ->). done.
Qed.

(** Observations, oldest first. *)
Definition last_observed (h : list (MetricSpec * bool)) : metric_id -> bool :=
  foldl (fun obs mr => match metric_key mr.1 with Some k => observe obs k mr.2 | None => obs end)
    (fun _ => false) h.
Definition run_updates (h : list (MetricSpec * bool)) : M (metricConditionStatus * W) unit :=
  foreach h (fun mr => update mr.1 mr.2).
Definition freshCondition (window : Z) : metricConditionStatus := mkCondition [] false window zeroTime.

Lemma run_updates_tracks h obs mcs (w : W) :
  tracks obs mcs -> Forall (fun mr => is_Some (metric_key mr.1)) h ->
  exists mcs' w', run_updates h (mcs, w) = ((mcs', w'), Ok tt) /\ mcs_window mcs' = mcs_window mcs /\
    tracks (foldl (fun obs mr => match metric_key mr.1 with Some k => observe obs k mr.2 | None => obs end) obs h) mcs'.
Proof.
  intros Ht Hh. revert obs mcs w Ht. induction Hh as [|[m r] h [k Hk] Hh IH]; intros obs mcs w Ht.
  - by do 2 eexists.
  - destruct (update_tracks obs m k r mcs w Ht Hk) as (mcs1 & w1 & E1 & Ht1 & Hw1).
    destruct (IH _ _ w1 Ht1) as (mcs2 & w2 & E2 & Hw2 & Ht2).
    exists mcs2, w2. unfold run_updates in *. cbn [foreach fst snd]. unfold mbind, M_bind. rewrite E1.
    split_and!; [done|congruence|]. cbn [foldl fst snd] in *. cbn in Hk. by rewrite Hk.
Qed.

(** The clock showed [n] at the observation by which some metric was last seen reached after
    none was, and some metric has been ever since. *)
Definition observed (h : list (MetricSpec * bool)) : Prop := exists k, last_observed h k = true.
Definition reached_since (h : list (MetricSpec * bool)) (s : metricConditionStatus * W) (n : Z) : Prop :=
  exists h1 mr h2 w', h = h1 ++ mr :: h2 /\ ~ observed h1 /\ (forall l, l `prefix_of` h2 -> observed (h1 ++ mr :: l)) /\
    time_Now (run_updates h1 s).1.2 = (w', Ok n).

Lemma prefix_snoc_inv {A} (l k : list A) x : l `prefix_of` k ++ [x] -> l `prefix_of` k \/ l = k ++ [x].
Proof.
  intros [t E]. destruct t as [|y t _] using rev_ind; [right; by rewrite app_nil_r in E|left].
  simplify_list_eq. by exists t.
Qed.
Lemma run_updates_snoc h mr s s1 : run_updates h s = (s1, Ok tt) -> run_updates (h ++ [mr]) s = update mr.1 mr.2 s1.
Proof.
  unfold run_updates. revert s. induction h as [|mr0 h IH]; intros s; cbn [foreach app].
  - intros [= ->]. unfold mbind, M_bind. by destruct (update mr.1 mr.2 s1) as [s2 [[]|e|]].
  - unfold mbind, M_bind. destruct (update mr0.1 mr0.2 s) as [s0 [[]|e|]]; [apply IH|done..].
Qed.
Lemma tracks_flag obs mcs : tracks obs mcs -> (mcs_reached mcs = true <-> exists k, obs k = true).
Proof.
  intros (_ & Hall & Hobs & Hflag & _). rewrite Hflag. destruct (currentMetricReachedMetrics mcs) as [|m l]; cbn.
  - split; [done|]. intros [k Hk]. apply Hobs in Hk. by apply elem_of_nil in Hk.
  - split; [|done]. intros _. apply Forall_cons in Hall as [[k Hk] _]. exists k. apply Hobs.
    cbn. rewrite Hk. by apply elem_of_cons; left.
Qed.
Lemma fresh_tracks window : tracks (fun _ => false) (freshCondition window).
Proof. split_and!; [constructor|constructor| |done|done]. intros k. cbn. rewrite elem_of_nil. naive_solver. Qed.

Lemma run_updates_since h window (w : W) : Forall (fun mr => is_Some (metric_key mr.1)) h ->
  let s := (freshCondition window, w) in
  mcs_reached (run_updates h s).1.1 = true -> reached_since h s (mcs_sinceTime (run_updates h s).1.1).
Proof.
  intros Hh s. induction h as [|mr h IH] using rev_ind; [done|]. apply Forall_app in Hh as [Hh Hlast].
  apply Forall_cons in Hlast as [[k Hk] _]. specialize (IH Hh).
  destruct (run_updates_tracks h _ _ w (fresh_tracks window) Hh) as (mcs & w1 & E & _ & Ht). fold (last_observed h) in Ht.
  assert (Forall (fun mr => is_Some (metric_key mr.1)) (h ++ [mr])) as Hh' by (apply Forall_app; repeat constructor; [done|by eexists]).
  destruct (run_updates_tracks (h ++ [mr]) _ _ w (fresh_tracks window) Hh') as (mcs2 & w2 & E2 & _ & Ht2). fold (last_observed (h ++ [mr])) in Ht2.
  subst s. rewrite E in IH. rewrite E2. cbn [fst snd] in *. rewrite (run_updates_snoc _ _ _ _ E) in E2. intros Hr.
  assert (observed (h ++ [mr])) as Hobs2 by (by apply (tracks_flag _ _ Ht2)).
  pose proof (update_since _ _ _ _ _ _ _ _ Ht Hk E2 Hr) as Hs. destruct (mcs_reached mcs) eqn:Er.
  - rewrite Hs. destruct (IH eq_refl) as (h1 & mr1 & h2 & w' & -> & Hnone & Hl & Hn). exists h1, mr1, (h2 ++ [mr]), w'.
    rewrite <-app_assoc. split_and!; [done|done| |done]. intros l [Hp| ->]%prefix_snoc_inv; [by apply Hl|].
    by rewrite <-app_assoc in Hobs2.
  - exists h, mr, [], w2. split_and!; [done| | |by rewrite E].
    + intros Hob. apply (tracks_flag _ _ Ht) in Hob. congruence.
    + intros l ->%prefix_nil_inv. exact Hobs2.
Qed.
End Condition.

(** ** The interface and the registry *)

(** [src/internal/informers/metric/informer.go:28-31 MetricStatus] *)
Record MetricStatus := mkMetricStatus { mst_ModelName : string; mst_Reached : bool }.

(** [src/internal/informers/metric/informer.go:70-81 MetricInformer] the calls of the reconciler; [Start]
    and [Stop] belong to the main program *)
Class MetricInformer (W : Type) := {
  mi_Register : string -> list MetricSpec -> ObjectReference -> Z -> Z -> M W unit;
  mi_Unregister : string -> M W unit
}.

(** [src/internal/informers/metric/informer.go:33-38 MetricInformerType] *)
Inductive MetricInformerType := K8SMetricInformerType | PrometheusMetricInformerType | OtherMetricInformerType (n : Z).

(** [src/internal/informers/metric/informer.go:56-62 NewMetricInformer] which factory the type names *)
Definition NewMetricInformer (t : MetricInformerType) : res MetricInformerType :=
  match t with
  | OtherMetricInformerType n => Err (Errorf ("unknown metric informer type: " +:+ Itoa n))
  | _ => Ok t
  end.

Section Informer.
Context `{QuantityOps} {W : Type} `{MetricsAPI W}.

(** [src/internal/informers/metric/kubernetes_informer.go:52-57 k8sMetricInformer] the watchers with the
    state of their conditions *)
Definition k8sMetricInformer : Type := registry (k8sMetricWatcher * metricConditionStatus).

(** [src/internal/informers/metric/kubernetes_informer.go:132-159 Register] *)
Definition Register (model : string) (metrics : list MetricSpec) (resource : ObjectReference)
    (scrapeInterval window : Z) : M k8sMetricInformer unit :=
  register_watcher model
    (mkWatcher model scrapeInterval metrics resource, mkCondition [] false window zeroTime).

(** [src/internal/informers/metric/kubernetes_informer.go:161-166 Unregister] *)
Definition Unregister (model : string) : M k8sMetricInformer unit := unregister_watcher model.

(** [src/internal/informers/metric/kubernetes_informer.go:124-130 Stop] cancels every watcher, in the
    map's order; the channels are then closed *)
Definition Stop : M k8sMetricInformer unit :=
  ids ← gets (fun r => (map_to_list (watchers r)).*2);
  foreach ids cancel_watcher.

(** What goes into the channels: a status for the reconciler or an error for the log. *)
Inductive sent := SentStatus (s : MetricStatus) | SentError (e : ErrWrapper).

(** [src/internal/informers/metric/kubernetes_informer.go:190-203 start] a scrape *)
Definition scrape (mw : k8sMetricWatcher) : M (metricConditionStatus * W) sent :=
  r ← try (CheckMetric mw);
  mret (match r with
        | inl reached => SentStatus (mkMetricStatus (mw_model mw) reached)
        | inr e => SentError (mkErrWrapper (mw_model mw) e)
        end).

(** [src/internal/informers/metric/kubernetes_informer.go:181-205 start] the loop: [n] scrapes before the
    context is cancelled *)
Fixpoint scrapes (n : nat) (mw : k8sMetricWatcher) : M (metricConditionStatus * W) (list sent) :=
  match n with
  | O => mret []
  | S n' => s ← scrape mw; l ← scrapes n' mw; mret (s :: l)
  end.
End Informer.

(** ** Properties *)

Section Properties.
Context `{Hq : QuantityOps} `{Hqs : !QuantitySpec} {W : Type} `{Hm : MetricsAPI W} `{Hc : !ClockSpec W}.

(** C26. The condition of a watcher is exactly the table of the last observations: after
    any sequence of updates, of metrics that each have the amount their target's type asks
    for, it is reached when, and only when, some metric was last seen reached; its time is
    then what the clock showed at the observation by which it last became reached, and is
    cleared otherwise. *)
Theorem condition_tracks_last_observations (h : list (MetricSpec * bool)) window (w : W) :
  Forall (fun mr => is_Some (metric_key mr.1)) h ->
  exists mcs w', run_updates h (freshCondition window, w) = ((mcs, w'), Ok tt) /\
    (mcs_reached mcs = true <-> exists k, last_observed h k = true) /\
    (mcs_reached mcs = true -> reached_since h (freshCondition window, w) (mcs_sinceTime mcs)) /\
    (mcs_reached mcs = false -> mcs_sinceTime mcs = zeroTime) /\ mcs_window mcs = window.
Proof.
  intros Hh. destruct (run_updates_tracks h _ _ w (fresh_tracks window) Hh) as (mcs & w' & E & Hw & Ht).
  fold (last_observed h) in Ht. exists mcs, w'. split; [done|]. split; [by apply tracks_flag|].
  split; [|split; [|done]].
  - pose proof (run_updates_since h window w Hh) as Hs. cbv zeta in Hs. rewrite E in Hs. exact Hs.
  - destruct Ht as (_ & _ & _ & Hflag & Hzero). rewrite Hflag. case_bool_decide; [by intros _; apply Hzero|done].
Qed.

(** Thresholds given as a value are read the wrong way round: such a metric counts
    as reached while the total is at most the threshold, and no longer once the total
    exceeds it; utilisation, in the same function, is reached from its target upwards. *)
Theorem value_threshold_is_inverted (t : MetricTarget) v (metrics : list Z) replicas :
  mt_Type t = "Value" -> mt_Value t = Some v ->
  (nanos v < sum64 metrics * 10 ^ 9 -> isMetricReached replicas t metrics = Ok false) /\
  (sum64 metrics * 10 ^ 9 <= nanos v -> isMetricReached replicas t metrics = Ok true).
Proof.
  intros Ht Hv. unfold isMetricReached. rewrite Ht, Hv. cbn. pose proof (CmpInt64_law v (sum64 metrics)).
  split; intros; f_equal; lia.
Qed.

(** Utilisation is divided by the number of replicas although the requests are
    already summed over the pods: [n] pods that each use [u] of the [q] they request
    are compared with the target at one [n]-th of their utilisation. *)
Theorem utilization_divided_twice (n : nat) (u q target : Z) :
  (0 < n)%nat -> 0 <= u -> 0 < q -> Z.of_nat n * u * 100 < 2 ^ 63 -> Z.of_nat n * q < 2 ^ 63 ->
  utilization_reached (replicate n u) (Z.of_nat n * q) (Z.of_nat n) target =
    Ok (target <=? (100 * u / q) / Z.of_nat n).
Proof.
  intros Hn Hu Hq0 Hmax Hqmax.
  assert (forall k acc, 0 <= acc -> acc + Z.of_nat k * u < 2 ^ 63 ->
    foldl add64 acc (replicate k u) = acc + Z.of_nat k * u) as Hsum.
  { induction k as [|k IH]; intros acc Hacc Hlt; [cbn; lia|]. cbn [replicate foldl].
    rewrite add64_id by (unfold in_int64; nia). rewrite IH by nia. lia. }
  assert (0 <= Z.of_nat n * u) as Hnu by nia.
  unfold utilization_reached, sum64. rewrite Hsum by lia. unfold mul64, quot64.
  rewrite (int64_id ((0 + Z.of_nat n * u) * 100)) by (unfold in_int64; lia).
  destruct (Z.eqb_spec (Z.of_nat n * q) 0) as [|_]; [nia|].
  rewrite (Z.quot_div_nonneg ((0 + Z.of_nat n * u) * 100)) by nia.
  replace ((0 + Z.of_nat n * u) * 100) with (Z.of_nat n * (100 * u)) by lia.
  rewrite Z.div_mul_cancel_l by lia.
  assert (100 * u <= Z.of_nat n * u * 100) as Hle by nia.
  assert (0 <= 100 * u / q <= 100 * u) as [Hd0 Hd1].
  { split; [apply Z.div_pos; lia|]. apply Z.div_le_upper_bound; nia. }
  rewrite (int64_id (100 * u / q)) by (unfold in_int64; nia).
  destruct (Z.eqb_spec (Z.of_nat n) 0) as [|_]; [lia|]. rewrite Z.quot_div_nonneg by lia.
  rewrite int64_id; [done|]. unfold in_int64.
  assert (0 <= (100 * u / q) / Z.of_nat n <= 100 * u / q) by (split; [apply Z.div_pos; lia|apply Z.div_le_upper_bound; nia]).
  lia.
Qed.
End Properties.

Section RegistryProperties.
Context `{QuantityOps}.

(** C24. A model never has two live watchers: after any sequence of registrations,
    removals and scheduling steps, every goroutine that has not been cancelled belongs
    to the watcher registered for its model. *)
Theorem one_live_watcher_per_model (r : k8sMetricInformer) id1 id2 model a1 a2 st1 st2 :
  rtc registry_step emptyRegistry r ->
  heap r !! id1 = Some (model, a1, st1) -> st1 <> GoCancelled ->
  heap r !! id2 = Some (model, a2, st2) -> st2 <> GoCancelled ->
  id1 = id2 /\ watchers r !! model = Some id1.
Proof.
  intros Hrtc H1 Hne1 H2 Hne2.
  assert (registry_ok r) as [Hlive _] by (eapply rtc_invariant; [apply registry_step_ok|apply registry_ok_empty|done]).
  pose proof (Hlive _ _ _ _ H1 Hne1). pose proof (Hlive _ _ _ _ H2 Hne2). split; congruence.
Qed.

(** Unregistering a model before the goroutine of its watcher has run panics: the
    [cancel] function is set by that goroutine and is still nil.  Nothing makes the
    reconciler wait for it between two reconciliations of a model. *)
Theorem early_unregister_panics (r : k8sMetricInformer) model metrics resource interval window :
  rtc registry_step emptyRegistry r ->
  (Register model metrics resource interval window r).2 = Ok tt ->
  (Unregister model (Register model metrics resource interval window r).1).2 = Panic.
Proof.
  intros Hrtc. apply unregister_before_start.
  eapply rtc_invariant; [apply registry_step_ok|apply registry_ok_empty|done].
Qed.
End RegistryProperties.

(** ** Witnesses: whole numbers as quantities, a clock, and a deployment with two pods *)

Module MetricExamples.
Fixpoint digits (s : string) (acc : Z) : Z :=
  match s with
  | EmptyString => acc
  | String c s' => digits s' (10 * acc + (Z.of_nat (nat_of_ascii c) - 48))
  end.
Definition number (q : Quantity) : Z := digits q 0.

#[export] Instance quantities : QuantityOps := {
  Quantity_Equal a b := number a =? number b;
  Quantity_CmpInt64 q n := if number q <? n then -1 else if number q =? n then 0 else 1;
  MilliValue q := number q * 1000;
  Selector_String s := Join ((map_to_list (sel_MatchLabels s)).*1) ","%char;
  LabelSelectorAsSelector s := Ok (from_option (fun s => Join ((map_to_list (sel_MatchLabels s)).*1) ","%char) "" s)
}.
#[export] Program Instance quantities_spec : QuantitySpec := { nanos q := number q * 10 ^ 9 }.
Next Obligation. intros a b. cbn. lia. Qed.
Next Obligation.
  intros q n. cbn -[Z.mul Z.pow]. destruct (number q <? n) eqn:E1; [lia|].
  destruct (number q =? n) eqn:E2; lia.
Qed.

(** The world is the clock; two pods request 2 cores each and use 1800 millicores. *)
#[export] Instance metrics_api : MetricsAPI Z := {
  ParseGroupVersion s := Ok "apps";
  RESTMappings g k w := (w, Ok ["deployments"]);
  Scales_Get ns gr n w := (w, Ok (2, "app=my-model"));
  labels_Parse s := Ok s;
  Pods_List ns sel w := (w, Ok [[{["cpu" := "2"]}]; [{["cpu" := "2"]}]]);
  GetObjectMetric n ns r sel w := (w, Ok 40);
  GetRawMetric n ns s1 s2 w := (w, Ok [mkPodMetric w 60 20; mkPodMetric w 60 20]);
  GetResourceMetric n ns s c w := (w, Ok [mkPodMetric w 60 1800; mkPodMetric w 60 1800]);
  GetExternalMetric n ns s w := (w, Ok [40]);
  time_Now w := (w + 1, Ok w)
}.
#[export] Instance clock : ClockSpec Z.
Proof. constructor. intros w. by do 2 eexists. Qed.

Definition target ty v av u := mkTarget ty v av u.
Definition queue := mkMetricSpec "External" None None None None
  (Some (mkExternalMetric (mkIdentifier "queue" None) (target "Value" (Some "30") None None))).
Definition cpu := mkMetricSpec "Resource" None None
  (Some (mkResourceMetric "cpu" (target "Utilization" None None (Some 50)))) None None.
Definition history := [(queue, true); (cpu, true); (queue, false)].

Lemma condition_tracks_last_observations_witness :
  exists mcs w', run_updates history (freshCondition 5, 100) = ((mcs, w'), Ok tt) /\ mcs_reached mcs = true.
Proof.
  destruct (condition_tracks_last_observations history 5 100) as (mcs & w' & E & Hr & _ & _).
  { repeat constructor; eexists; vm_compute; reflexivity. }
  exists mcs, w'. split; [exact E|]. apply Hr.
  exists (ResourceId "cpu" ("Utilization", 50)). vm_compute. reflexivity.
Defined.

Lemma value_threshold_is_inverted_witness :
  isMetricReached 2 (target "Value" (Some "30") None None) [40] = Ok false /\
  isMetricReached 2 (target "Value" (Some "30") None None) [20] = Ok true.
Proof.
  split; apply (value_threshold_is_inverted (target "Value" (Some "30") None None) "30");
    first [reflexivity | vm_compute; reflexivity | vm_compute; discriminate].
Defined.

(** 90% of the requests are in use; the target of 50% is not reached. *)
Lemma utilization_divided_twice_witness :
  utilization_reached (replicate 2 1800) (2 * 2000) 2 50 = Ok false.
Proof. apply (utilization_divided_twice 2 1800 2000 50); lia. Defined.

Definition mw := mkWatcher "default/my-model" 5 [cpu] (mkRef "Deployment" "apps/v1" "default" "my-model").
Example busy_deployment_not_reached :
  (scrapes 2 mw (freshCondition 5, 100)).2 =
    Ok [SentStatus (mkMetricStatus "default/my-model" false); SentStatus (mkMetricStatus "default/my-model" false)].
Proof. vm_compute. reflexivity. Qed.

Definition registered : k8sMetricInformer :=
  (Register "default/my-model" [cpu] (mw_watchTarget mw) 5 5 emptyRegistry).1.
Definition reregistered : k8sMetricInformer :=
  (Register "default/my-model" [cpu] (mw_watchTarget mw) 5 5 (run_goroutine 0%nat registered)).1.

Lemma reregistered_reachable : rtc registry_step emptyRegistry reregistered.
Proof.
  eapply rtc_l; [exact (step_register "default/my-model" (mw, mkCondition [] false 5 zeroTime) emptyRegistry)|].
  eapply rtc_l; [exact (step_schedule 0%nat registered)|].
  eapply rtc_l; [exact (step_register "default/my-model" (mw, mkCondition [] false 5 zeroTime) _)|].
  apply rtc_refl.
Qed.

Lemma one_live_watcher_per_model_witness :
  watchers reregistered !! "default/my-model" = Some 1%nat /\
  heap reregistered !! 0%nat = Some ("default/my-model", (mw, mkCondition [] false 5 zeroTime), GoCancelled).
Proof.
  split; [|vm_compute; reflexivity].
  refine (proj2 (one_live_watcher_per_model reregistered 1 1 "default/my-model" _ _ GoCreated GoCreated
    reregistered_reachable _ _ _ _));
    first [vm_compute; reflexivity | discriminate].
Defined.

Lemma early_unregister_panics_witness : (Unregister "default/my-model" registered).2 = Panic.
Proof.
  refine (early_unregister_panics emptyRegistry "default/my-model" [cpu] (mw_watchTarget mw) 5 5 _ _);
    [apply rtc_refl|reflexivity].
Defined.
End MetricExamples.
