(* ===== verification/Prometheus.v ===== *)
(** The Prometheus metric informer (internal/informers/metric/prometheus_informer.go):
    queries, the scrape of a watcher and the registry with its stop channels. *)

From Stdlib Require Import Ascii.
From stdpp Require Import base numbers gmap strings list.
From S2P Require Import Prelude Crd Registry Metric.
Local Open Scope Z_scope.

(** ** The client library

    Floating point numbers are known by the order the code asks for. *)
Inductive PromValue (F : Type) :=
| ValScalar | ValVector (samples : list F) | ValMatrix | ValNone | ValOther.
Arguments ValScalar {F}.
Arguments ValVector {F} samples.
Arguments ValMatrix {F}.
Arguments ValNone {F}.
Arguments ValOther {F}.

Class PromAPI (W : Type) := {
  Float : Type;
  Float_gt : Float -> Float -> bool;
  Float_zero : Float;
  AsApproximateFloat64 : Quantity -> Float;
  (** [range] over a map, in the order of the day *)
  range_map : gmap string string -> list (string * string);
  prom_Query : string -> Z -> M W (PromValue Float);
  ValueType_MarshalJSON : res string;
  Scalar_UnmarshalJSON : string -> res Float
}.

(** ** Queries *)

(** [src/internal/informers/metric/prometheus_informer.go:193-206 QueryBuilder] [kind] is [""], ["avg"] or
    ["count"] *)
Record QueryBuilder := mkQuery {
  qb_metricName : string;
  qb_kind : string;
  qb_selectors : gmap string string;
  qb_window : Z
}.

(** [src/internal/informers/metric/prometheus_informer.go:208-213 WithSelector] *)
Definition WithSelector (key value : string) (qb : QueryBuilder) : QueryBuilder :=
  mkQuery (qb_metricName qb) (qb_kind qb) (<[key := value]> (qb_selectors qb)) (qb_window qb).
(** [src/internal/informers/metric/prometheus_informer.go:215-217 WithKind] *)
Definition WithKind (kind : string) (qb : QueryBuilder) : QueryBuilder :=
  mkQuery (qb_metricName qb) kind (qb_selectors qb) (qb_window qb).
(** [src/internal/informers/metric/prometheus_informer.go:219-221 WithWindow] the argument is not used *)
Definition WithWindow (window : Z) (qb : QueryBuilder) : QueryBuilder :=
  mkQuery (qb_metricName qb) (qb_kind qb) (qb_selectors qb) (60 * 10 ^ 9).

Section Prometheus.
Context `{QuantityOps} {W : Type} `{MetricsAPI W} `{PromAPI W}.

Definition quote : string := String (ascii_of_nat 34) "".

(** [src/internal/informers/metric/prometheus_informer.go:223-232 Build] the window is always the minute
    [WithWindow] sets, printed ["1m0s"] *)
Definition Build (qb : QueryBuilder) : string :=
  let query := foldl (fun query kv => query +:+ "{" +:+ kv.1 +:+ "=" +:+ quote +:+ kv.2 +:+ quote +:+ "}")
                 (qb_metricName qb) (range_map (qb_selectors qb)) in
  if String.eqb (qb_kind qb) "avg" then "rate(" +:+ query +:+ "[1m0s])" else query.

(** [src/internal/informers/metric/prometheus_informer.go:115-130 start] *)
Definition metric_query (e : ExternalMetricSource) (window : Z) : string :=
  let qb := mkQuery (mi_Name (em_Metric e)) "" ∅ 0 in
  let qb := match mi_Selector (em_Metric e) with
            | Some s => foldl (fun qb kv => WithSelector kv.1 kv.2 qb) qb (range_map (sel_MatchLabels s))
            | None => qb
            end in
  let qb := match mt_AverageValue (em_Target e) with Some _ => WithKind "avg" qb | None => qb end in
  let qb := match mt_Value (em_Target e) with Some _ => WithKind "count" qb | None => qb end in
  Build (WithWindow window qb).

(** [src/internal/informers/metric/prometheus_informer.go:140-145 start] *)
Definition metric_threshold (e : ExternalMetricSource) : Float :=
  match mt_AverageValue (em_Target e), mt_Value (em_Target e) with
  | Some v, _ => AsApproximateFloat64 v
  | None, Some v => AsApproximateFloat64 v
  | None, None => Float_zero
  end.

(** ** Scraping *)

(** [src/internal/informers/metric/prometheus_informer.go:87-98 prometheusMetricWatcher] the settings, and
    what changes while it runs *)
Record prometheusMetricWatcher := mkPromWatcher {
  pw_model : string;
  pw_metrics : list MetricSpec;
  pw_scrapeInterval : Z;
  pw_window : Z
}.
Record prom_state := mkPromState {
  pw_condition : metricConditionStatus;
  pw_lastReachedStatus : bool
}.

Definition on_condition {A} (m : M (metricConditionStatus * W) A) : M (prom_state * W) A :=
  zoom (fun x => (pw_condition x.1, x.2)) (fun cw x => (mkPromState cw.1 (pw_lastReachedStatus x.1), cw.2)) m.

(** [src/internal/informers/metric/prometheus_informer.go:181-187 start] the event of a change *)
Definition announce (pw : prometheusMetricWatcher) : M (prom_state * W) (list MetricStatus) :=
  s ← self (gets id);
  let now := mcs_reached (pw_condition s) in
  if Bool.eqb (pw_lastReachedStatus s) now then mret []
  else
    self (modify (fun s => mkPromState (pw_condition s) now)) ;;
    mret [mkMetricStatus (pw_model pw) now].

(** [src/internal/informers/metric/prometheus_informer.go:111-187 start] one metric: the events it sends; a
    failed query or a scalar result ends the turn without one *)
Definition scrape_metric (pw : prometheusMetricWatcher) (metric : MetricSpec)
    : M (prom_state * W) (list MetricStatus) :=
  if negb (String.eqb (ms_Type metric) "External") then mret []
  else
    e ← deref (ms_External metric);
    now ← outer time_Now;
    result ← try (outer (prom_Query (metric_query e (pw_window pw)) now));
    match result with
    | inr _ => mret []
    | inl ValScalar =>
        match ValueType_MarshalJSON (W:=W) with
        | Err _ => mret []
        | Panic => panic
        | Ok bytes =>
            match Scalar_UnmarshalJSON bytes with
            | Err _ => mret []
            | Panic => panic
            | Ok value => on_condition (update metric (Float_gt value (metric_threshold e))) ;; mret []
            end
        end
    | inl (ValVector samples) =>
        on_condition (update metric (existsb (fun v => Float_gt v (metric_threshold e)) samples)) ;;
        announce pw
    | inl _ => announce pw
    end.

(** [src/internal/informers/metric/prometheus_informer.go:109-189 start] a tick *)
Fixpoint scrape_metrics (pw : prometheusMetricWatcher) (l : list MetricSpec)
    : M (prom_state * W) (list MetricStatus) :=
  match l with
  | [] => mret []
  | metric :: l' => s ← scrape_metric pw metric; rest ← scrape_metrics pw l'; mret (s ++ rest)
  end.
(** [src/internal/informers/metric/prometheus_informer.go:100-191 start] [n] ticks *)
Fixpoint ticks (n : nat) (pw : prometheusMetricWatcher) : M (prom_state * W) (list MetricStatus) :=
  match n with
  | O => mret []
  | S n' => s ← scrape_metrics pw (pw_metrics pw); rest ← ticks n' pw; mret (s ++ rest)
  end.

(** ** The registry *)

(** [src/internal/informers/metric/prometheus_informer.go:17-22 PrometheusMetricInformer] with the heap of
    stop channels, [true] once closed *)
Record PrometheusMetricInformer := mkPromInformer {
  pi_watchers : gmap string prometheusMetricWatcher;
  pi_stopChs : gmap string nat;
  pi_chans : gmap nat bool
}.

(** [close(ch)], a panic on a closed channel. *)
Definition close_chan (ch : nat) : M PrometheusMetricInformer unit := fun p =>
  match pi_chans p !! ch with
  | Some false => (mkPromInformer (pi_watchers p) (pi_stopChs p) (<[ch := true]> (pi_chans p)), Ok tt)
  | _ => (p, Panic)
  end.

(** [src/internal/informers/metric/prometheus_informer.go:38-59 Register] *)
Definition prom_Register (model : string) (metrics : list MetricSpec) (resource : ObjectReference)
    (scrapeInterval window : Z) : M PrometheusMetricInformer unit :=
  modify (fun p =>
    let ch := fresh (dom (pi_chans p)) in
    mkPromInformer (<[model := mkPromWatcher model metrics scrapeInterval window]> (pi_watchers p))
      (<[model := ch]> (pi_stopChs p)) (<[ch := false]> (pi_chans p))).

(** [src/internal/informers/metric/prometheus_informer.go:61-69 Unregister] *)
Definition prom_Unregister (model : string) : M PrometheusMetricInformer unit :=
  stopChan ← gets (fun p => pi_stopChs p !! model);
  match stopChan with
  | None => mret tt
  | Some ch =>
      close_chan ch ;;
      modify (fun p => mkPromInformer (delete model (pi_watchers p)) (delete model (pi_stopChs p)) (pi_chans p))
  end.

(** [src/internal/informers/metric/prometheus_informer.go:75-85 Stop] *)
Definition prom_Stop : M PrometheusMetricInformer unit :=
  chs ← gets (fun p => (map_to_list (pi_stopChs p)).*2);
  foreach chs close_chan ;;
  modify (fun p => mkPromInformer ∅ ∅ (pi_chans p)).
End Prometheus.

(** ** Properties *)

(** *** What the watcher is to say

    What it takes in: the verdict on a metric, from the answer to its query; and the moments at
    which it compares what it knows with what it said last. *)
Section Alternation.
Context `{Hq : QuantityOps} `{Hqs : !QuantitySpec} {W : Type} `{Hm : MetricsAPI W} `{Hc : !ClockSpec W} `{Hp : PromAPI W}.

Inductive look := Saw (metric : MetricSpec) (reached : bool) | Compared.
Definition seen_in (t : list look) : list (MetricSpec * bool) :=
  omap (fun lk => match lk with Saw m r => Some (m, r) | Compared => None end) t.

(** A sample above the threshold, or a scalar that is. *)
Definition verdict (e : ExternalMetricSource) (answer : PromValue Float) : option bool :=
  match answer with
  | ValVector samples => Some (existsb (fun v => Float_gt v (metric_threshold e)) samples)
  | ValScalar =>
      match ValueType_MarshalJSON (W:=W) with
      | Ok bytes => match Scalar_UnmarshalJSON bytes with Ok v => Some (Float_gt v (metric_threshold e)) | _ => None end
      | _ => None
      end
  | _ => None
  end.
Definition genuine_look pw (lk : look) : Prop :=
  match lk with
  | Compared => True
  | Saw m r => m ∈ pw_metrics pw /\ ms_Type m = "External" /\ exists e now w w' answer,
      ms_External m = Some e /\ prom_Query (metric_query e (pw_window pw)) now w = (w', Ok answer) /\ verdict e answer = Some r
  end.

(** Some metric was last seen reached. *)
Definition observedb (h : list (MetricSpec * bool)) : bool :=
  existsb (fun mr => match metric_key mr.1 with Some k => last_observed h k | None => false end) h.

(** At each comparison: what is the case, if it is not what was said last. *)
Fixpoint announcements (model : string) (h : list (MetricSpec * bool)) (last : bool) (t : list look) : list MetricStatus :=
  match t with
  | [] => []
  | Saw m r :: t' => announcements model (h ++ [(m, r)]) last t'
  | Compared :: t' =>
      if Bool.eqb last (observedb h) then announcements model h last t'
      else mkMetricStatus model (observedb h) :: announcements model h (observedb h) t'
  end.

(** Events change the status each time, starting from [last]. *)
Fixpoint alternates (last : bool) (l : list MetricStatus) : Prop :=
  match l with
  | [] => True
  | s :: l' => mst_Reached s = negb last /\ alternates (mst_Reached s) l'
  end.
Fixpoint final_status (start : bool) (l : list MetricStatus) : bool :=
  match l with [] => start | s :: l' => final_status (mst_Reached s) l' end.

Lemma announcements_alternate model h b t : alternates b (announcements model h b t).
Proof.
  revert h b. induction t as [|[m r|] t IH]; intros h b; cbn; [done|apply IH|].
  destruct (Bool.eqb b (observedb h)) eqn:E; [apply IH|]. cbn. split; [|apply IH]. by destruct b, (observedb h).
Qed.
Lemma announcements_app model h b t1 t2 :
  announcements model h b (t1 ++ t2) = announcements model h b t1 ++
    announcements model (h ++ seen_in t1) (final_status b (announcements model h b t1)) t2.
Proof.
  revert h b. induction t1 as [|[m r|] t1 IH]; intros h b; cbn [app announcements].
  - by rewrite app_nil_r.
  - rewrite IH. unfold seen_in. cbn. by rewrite <-app_assoc.
  - destruct (Bool.eqb b (observedb h)); [apply IH|]. cbn. by rewrite IH.
Qed.
Lemma final_status_app b l1 l2 : final_status b (l1 ++ l2) = final_status (final_status b l1) l2.
Proof. revert b. induction l1 as [|s l1 IH]; intros b; [done|]. cbn. apply IH. Qed.

Lemma last_observed_snoc h m r k : metric_key m = Some k -> last_observed (h ++ [(m, r)]) = observe (last_observed h) k r.
Proof. intros Hk. unfold last_observed. rewrite foldl_app. cbn. by rewrite Hk. Qed.
Lemma last_observed_in h k : last_observed h k = true -> exists mr, mr ∈ h /\ metric_key mr.1 = Some k.
Proof.
  induction h as [|[m r] h IH] using rev_ind; [done|]. unfold last_observed. rewrite foldl_app. cbn. fold (last_observed h).
  destruct (metric_key m) as [k'|] eqn:Ek; [unfold observe; case_decide as E|]; intros Hr.
  - subst k'. exists (m, r). split; [apply elem_of_app; right; by apply list_elem_of_singleton|exact Ek].
  - destruct (IH Hr) as (mr & Hin & Hmr). exists mr. split; [apply elem_of_app; by left|exact Hmr].
  - destruct (IH Hr) as (mr & Hin & Hmr). exists mr. split; [apply elem_of_app; by left|exact Hmr].
Qed.
Lemma observedb_spec h : observedb h = true <-> exists k, last_observed h k = true.
Proof.
  unfold observedb. rewrite existsb_exists. split.
  - intros (mr & _ & Hmr). destruct (metric_key mr.1) as [k|]; [by exists k|done].
  - intros [k Hk]. destruct (last_observed_in h k Hk) as (mr & Hin & Hmr). exists mr. rewrite Hmr. split; [by apply list_elem_of_In|exact Hk].
Qed.

(** The watcher's condition is the table of what it saw, and it remembers what it said. *)
Definition stands h (b : bool) (x : prom_state * W) : Prop :=
  tracks (last_observed h) (pw_condition x.1) /\ pw_lastReachedStatus x.1 = b.
Definition speaks pw (m : M (prom_state * W) (list MetricStatus)) : Prop :=
  forall h b x x' l, stands h b x -> m x = (x', Ok l) -> exists t, Forall (genuine_look pw) t /\
    l = announcements (pw_model pw) h b t /\ stands (h ++ seen_in t) (final_status b l) x'.

Lemma says_nothing pw h b x x' l : stands h b x -> (x, Ok []) = (x', Ok l : res (list MetricStatus)) -> exists t, Forall (genuine_look pw) t /\
  l = announcements (pw_model pw) h b t /\ stands (h ++ seen_in t) (final_status b l) x'.
Proof. intros Hx [= <- <-]. exists []. cbn. by rewrite app_nil_r. Qed.
Lemma speaks_nil pw : speaks pw (mret []).
Proof. intros h b x x' l Hx E. by eapply says_nothing. Qed.

Lemma speaks_announce pw : speaks pw (announce pw).
Proof.
  intros h b [s w] x' l [Ht Hb] E. exists [Compared]. split; [by repeat constructor|]. unfold seen_in. cbn. rewrite app_nil_r.
  assert (observedb h = mcs_reached (pw_condition s)) as ->.
  { apply eq_true_iff_eq. rewrite observedb_spec. symmetry. exact (tracks_flag _ _ Ht). }
  revert E. unfold announce. mrun. cbn in Hb. rewrite Hb.
  destruct (Bool.eqb b (mcs_reached (pw_condition s))); intros [= <- <-]; (split; [done|]); by split.
Qed.

(** A verdict that is taken in. *)
Lemma on_update_run h b m k r s (w : W) : stands h b (s, w) -> metric_key m = Some k ->
  exists x1, on_condition (update m r) (s, w) = (x1, Ok tt) /\ stands (h ++ [(m, r)]) b x1.
Proof.
  intros [Ht Hb] Hk. destruct (update_tracks _ m k r (pw_condition s) w Ht Hk) as (c' & w' & E & Ht' & _).
  unfold on_condition, zoom. cbn [fst snd]. rewrite E. eexists. split; [done|]. split; [|done].
  cbn. by rewrite (last_observed_snoc _ _ _ _ Hk).
Qed.

Lemma speaks_scrape_metric pw metric : metric ∈ pw_metrics pw -> (ms_Type metric = "External" -> is_Some (metric_key metric)) ->
  speaks pw (scrape_metric pw metric).
Proof.
  intros Hin Hkey h b [s w] x' l Hx. unfold scrape_metric. destruct (String.eqb_spec (ms_Type metric) "External") as [Htype|]; [|by apply says_nothing].
  destruct (Hkey Htype) as [k Hk]. cbn [negb]. destruct (ms_External metric) as [e|] eqn:Ee; [|done]. mrun. cbn.
  destruct (time_Now w) as [w1 [now|er|]]; [|done..]. cbn.
  destruct (prom_Query (metric_query e (pw_window pw)) now w1) as [w2 [answer|er|]] eqn:Eq; [|by apply says_nothing|done].
  assert (stands h b (s, w2)) as Hx2 by exact Hx. cbn [fst snd].
  assert (forall r, verdict e answer = Some r -> genuine_look pw (Saw metric r)) as Hsaw.
  { intros r Hr. split; [exact Hin|]. split; [exact Htype|]. by exists e, now, w1, w2, answer. }
  destruct answer as [|samples| | |]; try by apply (speaks_announce pw h b (s, w2)).
  - cbn [verdict] in Hsaw. destruct (ValueType_MarshalJSON (W:=W)) as [bytes|er|]; [|by apply says_nothing|done].
    destruct (Scalar_UnmarshalJSON bytes) as [v|er|]; [|by apply says_nothing|done].
    destruct (on_update_run h b metric k (Float_gt v (metric_threshold e)) s w2 Hx2 Hk) as (x1 & E1 & Hx1). rewrite E1.
    intros [= <- <-]. exists [Saw metric (Float_gt v (metric_threshold e))]. split; [constructor; [by apply Hsaw|constructor]|by split].
  - set (r := existsb _ samples) in *.
    destruct (on_update_run h b metric k r s w2 Hx2 Hk) as (x1 & E1 & Hx1). rewrite E1. intros E2.
    destruct (speaks_announce pw _ b x1 x' l Hx1 E2) as (t & Ht & -> & Hx').
    exists (Saw metric r :: t). split; [constructor; [by apply Hsaw|exact Ht]|]. split; [done|]. by rewrite <-app_assoc in Hx'.
Qed.

Lemma speaks_seq pw (m1 m2 : M (prom_state * W) (list MetricStatus)) :
  speaks pw m1 -> speaks pw m2 -> speaks pw (s ← m1; rest ← m2; mret (s ++ rest)).
Proof.
  intros H1 H2 h b x x' l Hx. unfold mbind, M_bind. destruct (m1 x) as [x1 [l1|e|]] eqn:E1; [|done..].
  destruct (H1 _ _ _ _ _ Hx E1) as (t1 & Ht1 & -> & Hx1). destruct (m2 x1) as [x2 [l2|e|]] eqn:E2; [|done..].
  destruct (H2 _ _ _ _ _ Hx1 E2) as (t2 & Ht2 & -> & Hx2). intros [= <- <-]. exists (t1 ++ t2).
  split; [by apply Forall_app|]. split; [by rewrite announcements_app|]. unfold seen_in in *.
  by rewrite omap_app, app_assoc, final_status_app.
Qed.

Lemma speaks_ticks n pw : Forall (fun m => ms_Type m = "External" -> is_Some (metric_key m)) (pw_metrics pw) -> speaks pw (ticks n pw).
Proof.
  intros Hkeys. induction n as [|n IH]; cbn [ticks]; [apply speaks_nil|]. apply speaks_seq; [|exact IH].
  assert (forall l, (forall m, m ∈ l -> m ∈ pw_metrics pw) -> speaks pw (scrape_metrics pw l)) as Hl; [|by apply Hl].
  induction l as [|m l IHl]; intros Hin; cbn [scrape_metrics]; [apply speaks_nil|].
  apply speaks_seq; [|by apply IHl; intros m' Hm'; apply Hin; right]. assert (m ∈ pw_metrics pw) as Hmm by (apply Hin; left).
  apply speaks_scrape_metric; [exact Hmm|]. by apply (proj1 (Forall_forall _ _) Hkeys).
Qed.

End Alternation.

(** ** Witness: a queue that fills up and empties *)

Module PrometheusExamples.
Import MetricExamples.
#[export] Program Instance prometheus : PromAPI Z := {
  Float := Z;
  Float_gt a b := b <? a;
  Float_zero := 0;
  AsApproximateFloat64 q := number q;
  range_map m := map_to_list m;
  prom_Query q now w := (w, Ok (ValVector [if (now <? 102) || (105 <? now) then 10 else 50]));
  ValueType_MarshalJSON := Ok "scalar";
  Scalar_UnmarshalJSON s := Err (Errorf "scalar: unexpected value")
}.

Definition watcher := mkPromWatcher "default/my-model" [queue] 5 5.
Definition status (b : bool) := mkMetricStatus "default/my-model" b.


(** A second selector makes a second pair of braces, which PromQL does not accept. *)
Example two_selectors :
  Build (WithSelector "queue" "jobs" (WithSelector "env" "prod" (mkQuery "length" "" ∅ 0))) =
  "length{env=" +:+ quote +:+ "prod" +:+ quote +:+ "}{queue=" +:+ quote +:+ "jobs" +:+ quote +:+ "}".
Proof. vm_compute. reflexivity. Qed.
End PrometheusExamples.
