(* ===== verification/Health.v ===== *)
(** The health informer (internal/informers/health): what events of the watched object
    report, and the registry of its watchers. *)

From stdpp Require Import base numbers gmap strings list.
From S2P Require Import Prelude Crd Registry.
Local Open Scope Z_scope.

(** [src/internal/informers/health/informer.go:28-31 HealthStatus] *)
Record HealthStatus := mkHealthStatus { hs_ModelName : string; hs_Healthy : bool }.

(** [src/internal/informers/health/informer.go:67-75 HealthInformer] the calls of the reconciler *)
Class HealthInformer (W : Type) := {
  hi_Register : string -> ObjectReference -> M W unit;
  hi_Unregister : string -> M W unit
}.

(** [src/internal/informers/health/informer.go:33-37 HealthInformerType] by its number *)
Definition HealthInformerType : Type := Z.
Definition K8SHealthInformerType : HealthInformerType := 0.

(** ** Events *)

(** The objects an informer of apps/v1 delivers, with the part of their status that is
    read: the ready replicas and, for replica sets, the replicas.  Anything else (such
    as the tombstone of a missed deletion) is [OtherObject]. *)
Inductive workload :=
| Deployment (ns name : string) (readyReplicas : Z)
| StatefulSet (ns name : string) (readyReplicas : Z)
| DaemonSet (ns name : string) (numberReady : Z)
| ReplicaSet (ns name : string) (replicas readyReplicas : Z)
| OtherObject.

(** Creations, updates and deletions are handled alike. *)
Inductive workload_event := Added (o : workload) | Updated (old new : workload) | Deleted (o : workload).

(** [src/internal/informers/health/kubernetes_watcher.go:60-70 start] the handlers of the three events *)
Definition event_object (ev : workload_event) : workload :=
  match ev with Added o => o | Updated _ o => o | Deleted o => o end.

(** [src/internal/informers/health/kubernetes_watcher.go:30-37 k8sHealthWatcher] *)
Record k8sHealthWatcher := mkHealthWatcher {
  hw_model : string;
  hw_watchTarget : ObjectReference
}.

(** What is put into the channels. *)
Inductive reported := ReportNothing | ReportHealth (s : HealthStatus) | ReportError (e : ErrWrapper).

#[global] Instance HealthStatus_eq_dec : EqDecision HealthStatus.
Proof. solve_decision. Defined.
#[global] Instance reported_eq_dec : EqDecision reported.
Proof. solve_decision. Defined.

Definition unsupported_kind (h : k8sHealthWatcher) : error :=
  Errorf ("unsupported resource kind: " +:+ ref_Kind (hw_watchTarget h)).

Definition is_target (h : k8sHealthWatcher) (ns name : string) : bool :=
  String.eqb ns (ref_Namespace (hw_watchTarget h)) && String.eqb name (ref_Name (hw_watchTarget h)).

(** The tail of each case: a foreign object is ignored. *)
Definition report_if (h : k8sHealthWatcher) (ns name : string) (isHealthy : bool) : reported :=
  if is_target h ns name then ReportHealth (mkHealthStatus (hw_model h) isHealthy) else ReportNothing.

(** [src/internal/informers/health/kubernetes_watcher.go:90-149 handleEvent] *)
Definition handleEvent (h : k8sHealthWatcher) (obj : workload) : reported :=
  let kind := ref_Kind (hw_watchTarget h) in
  if String.eqb kind "Deployment" then
    match obj with
    | Deployment ns name ready => report_if h ns name (0 <? ready)
    | _ => ReportNothing
    end
  else if String.eqb kind "StatefulSet" then
    match obj with
    | StatefulSet ns name ready => report_if h ns name (0 <? ready)
    | _ => ReportNothing
    end
  else if String.eqb kind "DaemonSet" then
    match obj with
    | DaemonSet ns name ready => report_if h ns name (0 <? ready)
    | _ => ReportNothing
    end
  else if String.eqb kind "ReplicaSet" then
    match obj with
    | ReplicaSet ns name replicas ready => report_if h ns name (replicas =? ready)
    | _ => ReportNothing
    end
  else ReportError (mkErrWrapper (hw_model h) (unsupported_kind h)).

(** [src/internal/informers/health/kubernetes_watcher.go:43-58 start] which informer the watcher
    subscribes to; for another kind it reports an error and ends *)
Definition start_kind (h : k8sHealthWatcher) : res string :=
  let kind := ref_Kind (hw_watchTarget h) in
  if bool_decide (kind ∈ ["Deployment"; "StatefulSet"; "DaemonSet"; "ReplicaSet"]) then Ok kind
  else Err (unsupported_kind h).
(** [src/internal/informers/health/kubernetes_watcher.go:39-88 start] every event of the namespace is handled
    until the context is cancelled *)
Definition watch_events (h : k8sHealthWatcher) (evs : list workload_event) : list reported :=
  match start_kind h with
  | Ok _ => map (fun ev => handleEvent h (event_object ev)) evs
  | Err e => [ReportError (mkErrWrapper (hw_model h) e)]
  | Panic => []
  end.

(** ** The registry *)

(** [src/internal/informers/health/kubernetes_informer.go:33-38 k8sHealthInformer] *)
Definition k8sHealthInformer : Type := registry k8sHealthWatcher.

(** [src/internal/informers/health/kubernetes_informer.go:99-104 removeWatcher] *)
Definition removeWatcher (model : string) : M k8sHealthInformer unit := unregister_watcher model.

(** [src/internal/informers/health/kubernetes_informer.go:70-82 Register] *)
Definition Register (model : string) (resource : ObjectReference) : M k8sHealthInformer unit :=
  removeWatcher model ;; add_watcher model (mkHealthWatcher model resource).

(** [src/internal/informers/health/kubernetes_informer.go:84-89 Unregister] *)
Definition Unregister (model : string) : M k8sHealthInformer unit := unregister_watcher model.

(** [src/internal/informers/health/kubernetes_informer.go:91-97 Stop] in the order of the map; the channel
    is then closed *)
Definition Stop : M k8sHealthInformer unit :=
  l ← gets (fun r => map_to_list (watchers r));
  foreach l (fun mi => cancel_watcher mi.2 ;; remove_model mi.1).

(** [src/internal/informers/health/kubernetes_informer.go:53-68 Start] what the loop does with an error: the
    watcher registered under the model's name is removed, whichever watcher failed *)
Definition on_error (modelName : string) : M k8sHealthInformer unit := removeWatcher modelName.

(** ** Properties *)

(** The kind, the name and the readiness of an object. *)
Definition workload_ref (o : workload) : option (string * string * string) :=
  match o with
  | Deployment ns n _ => Some ("Deployment", ns, n)
  | StatefulSet ns n _ => Some ("StatefulSet", ns, n)
  | DaemonSet ns n _ => Some ("DaemonSet", ns, n)
  | ReplicaSet ns n _ _ => Some ("ReplicaSet", ns, n)
  | OtherObject => None
  end.
Definition workload_healthy (o : workload) : bool :=
  match o with
  | Deployment _ _ r | StatefulSet _ _ r | DaemonSet _ _ r => 0 <? r
  | ReplicaSet _ _ n r => n =? r
  | OtherObject => false
  end.

Definition target_ref (h : k8sHealthWatcher) : string * string * string :=
  (ref_Kind (hw_watchTarget h), ref_Namespace (hw_watchTarget h), ref_Name (hw_watchTarget h)).

Lemma report_if_spec h kind ns name b :
  kind = ref_Kind (hw_watchTarget h) ->
  report_if h ns name b =
    if decide ((kind, ns, name) = target_ref h) then ReportHealth (mkHealthStatus (hw_model h) b)
    else ReportNothing.
Proof.
  intros ->. unfold report_if, is_target, target_ref.
  destruct (String.eqb_spec ns (ref_Namespace (hw_watchTarget h))) as [->|]; cbn;
    [|rewrite decide_False by congruence; done].
  destruct (String.eqb_spec name (ref_Name (hw_watchTarget h))) as [->|]; cbn;
    [by rewrite decide_True by congruence|by rewrite decide_False by congruence].
Qed.

Lemma handleEvent_spec h o :
  is_Ok (start_kind h) = true ->
  handleEvent h o =
    if decide (workload_ref o = Some (target_ref h))
    then ReportHealth (mkHealthStatus (hw_model h) (workload_healthy o))
    else ReportNothing.
Proof.
  unfold start_kind. case_bool_decide as Hk; [|done]. intros _.
  rewrite !elem_of_cons, elem_of_nil in Hk. unfold handleEvent, target_ref.
  destruct Hk as [Hk|[Hk|[Hk|[Hk|[]]]]]; rewrite Hk; cbn;
    destruct o; cbn; try (by rewrite decide_False by congruence);
    erewrite report_if_spec by (symmetry; exact Hk); unfold target_ref; rewrite Hk; apply decide_ext;
    split; congruence.
Qed.

(** A watcher of a supported kind reports on every event of its own object, in
    order, and on nothing else; a Deployment, StatefulSet or DaemonSet is reported
    healthy exactly when a replica is ready, but a ReplicaSet exactly when all its
    replicas are, so that one scaled to zero is healthy and one with some replicas
    ready is not.  Deletions report the last status seen: a deleted object can be
    reported healthy. *)
Theorem health_reports (h : k8sHealthWatcher) (evs : list workload_event) :
  is_Ok (start_kind h) = true ->
  filter (fun r => r <> ReportNothing) (watch_events h evs) =
    map (fun ev => ReportHealth (mkHealthStatus (hw_model h) (workload_healthy (event_object ev))))
      (filter (fun ev => workload_ref (event_object ev) = Some (target_ref h)) evs).
Proof.
  intros Hk. unfold watch_events. destruct (start_kind h) eqn:E; [|done|done]. clear Hk.
  assert (is_Ok (start_kind h) = true) as Hk by (by rewrite E).
  induction evs as [|ev evs IH]; [done|]. cbn [map]. rewrite handleEvent_spec by done. rewrite !filter_cons.
  destruct (decide (workload_ref (event_object ev) = Some (target_ref h))) as [Hd|Hd]; cbn [map].
  - rewrite decide_True by discriminate. by rewrite IH.
  - rewrite decide_False by (intros Hn; by apply Hn). exact IH.
Qed.

(** An error is charged to the model, not to the watcher that met it: when a model
    has been registered anew, a late error of its old watcher cancels and removes the
    new one, which no one registers again. *)
Theorem late_error_removes_new_watcher (r : k8sHealthInformer) model resource id :
  registry_ok r -> (Register model resource r).2 = Ok tt ->
  let r' := (Register model resource r).1 in
  watchers r' !! model = Some id ->
  let r'' := run_goroutine id r' in
  (on_error model r'').2 = Ok tt /\ watchers (on_error model r'').1 !! model = None /\
  heap (on_error model r'').1 !! id = Some (model, mkHealthWatcher model resource, GoCancelled).
Proof.
  intros Hok. unfold Register, mbind, M_bind, removeWatcher.
  destruct (unregister_ok model r Hok) as [Hok' Hnone].
  destruct (unregister_watcher model r) as [r1 [[]|e|]]; cbn in *; [|done|done]. intros _.
  rewrite lookup_insert_eq. intros [= <-].
  unfold run_goroutine. cbn. rewrite lookup_insert_eq. cbn.
  unfold on_error, removeWatcher, unregister_watcher, mbind, M_bind, gets. cbn. rewrite lookup_insert_eq.
  unfold cancel_watcher. cbn. rewrite lookup_insert_eq. cbn.
  by rewrite lookup_delete_eq, lookup_insert_eq.
Qed.

(** ** Witnesses *)

Module HealthExamples.
Definition target := mkRef "ReplicaSet" "apps/v1" "default" "my-model".
Definition watcher := mkHealthWatcher "default/my-model" target.
Definition set (replicas ready : Z) := ReplicaSet "default" "my-model" replicas ready.
Definition events := [Added (set 0 0); Updated (set 0 0) (set 3 2); Updated (set 3 2) (set 3 3);
  Added (Deployment "default" "my-model" 1); Deleted (set 3 3)].
Definition health (b : bool) := ReportHealth (mkHealthStatus "default/my-model" b).

Lemma health_reports_witness :
  filter (fun r => r <> ReportNothing) (watch_events watcher events) =
    [health true; health false; health true; health true].
Proof. exact (health_reports watcher events eq_refl). Defined.

Definition first : k8sHealthInformer := run_goroutine 0%nat (Register "default/my-model" target emptyRegistry).1.

Lemma first_ok : registry_ok first.
Proof.
  eapply (rtc_invariant registry_step); [apply registry_step_ok|apply registry_ok_empty|].
  eapply rtc_l; [exact (step_register "default/my-model" watcher emptyRegistry)|].
  eapply rtc_l; [exact (step_schedule 0%nat _)|]. apply rtc_refl.
Qed.

Lemma late_error_removes_new_watcher_witness :
  watchers (on_error "default/my-model" (run_goroutine 1%nat (Register "default/my-model" target first).1)).1
    !! "default/my-model" = None.
Proof.
  refine (proj1 (proj2 (late_error_removes_new_watcher first "default/my-model" target 1 first_ok _ _)));
    reflexivity.
Defined.
End HealthExamples.
