(* ===== verification/HealthRun.v ===== *)
(** The health informer with its goroutines side by side: the reconciler's worker that
    registers and unregisters models, the loop of [Start] that receives the errors, and a
    goroutine for each watcher, all on one map without a lock. *)

From stdpp Require Import base numbers gmap strings list relations.
From S2P Require Import Prelude Programs Crd Registry Health.
Local Open Scope Z_scope.

(** ** State *)

(** [src/internal/informers/health/kubernetes_watcher.go:39-88 start] where a watcher's goroutine
    is: not yet begun, before it subscribes, waiting for the cache, waiting for the end, at a
    channel that nobody receives from yet, or over *)
Inductive watcher_at := Begun | Subscribing | Syncing | Watching | Sending (e : ErrWrapper) | Ended.

(** A watcher: where its goroutine is, whether its function [cancel] is there, and whether
    its context is over. *)
Record running := mkRunning {
  ru_watcher : k8sHealthWatcher;
  ru_at : watcher_at;
  ru_cancel : bool;
  ru_over : bool
}.

(** [src/internal/informers/health/kubernetes_informer.go:33-38 k8sHealthInformer] the map, and the
    watchers it points to; [crashed] when a goroutine has panicked *)
Record informer := mkInformer {
  watching : gmap string nat;
  goroutines : gmap nat running;
  crashed : bool
}.
Definition set_watching (f : gmap string nat -> gmap string nat) (s : informer) : informer :=
  mkInformer (f (watching s)) (goroutines s) (crashed s).
Definition set_running (id : nat) (g : running) (s : informer) : informer :=
  mkInformer (watching s) (<[id := g]> (goroutines s)) (crashed s).
Definition crash (s : informer) : informer := mkInformer (watching s) (goroutines s) true.

(** ** The informer's operations, action by action *)
Module Calls.
Section Calls.
Context {F : Type -> Type} `{Hret : MRet F} `{Hbind : MBind F} `{Hlift : Lift informer F}.

(** [watcher.cancel()]: a nil function until the goroutine has set it. *)
Definition call_cancel (id : nat) : M informer unit := fun s =>
  match goroutines s !! id with
  | Some g => if ru_cancel g then (set_running id (mkRunning (ru_watcher g) (ru_at g) true true) s, Ok tt) else (s, Panic)
  | None => (s, Panic)
  end.

(** [src/internal/informers/health/kubernetes_informer.go:99-104 removeWatcher] *)
Definition removeWatcher (model : string) : F unit :=
  found ← lift (gets (fun s => watching s !! model));
  match found with
  | Some id => lift (call_cancel id) ;; lift (modify (set_watching (delete model)))
  | None => mret tt
  end.

(** [src/internal/informers/health/kubernetes_informer.go:84-89 Unregister] *)
Definition Unregister (model : string) : F unit := removeWatcher model.

(** [src/internal/informers/health/kubernetes_informer.go:74-80 Register] the new watcher, under its model *)
Definition file_watcher (model : string) (resource : ObjectReference) (s : informer) : informer :=
  let id := fresh (dom (goroutines s)) in
  set_watching <[model := id]> (set_running id (mkRunning (mkHealthWatcher model resource) Ended false false) s).

(** [src/internal/informers/health/kubernetes_informer.go:81-81 Register] the map is read again; a goroutine
    begun on a nil watcher panics by itself *)
Definition go_start (model : string) (s : informer) : informer :=
  match watching s !! model with
  | Some id =>
      match goroutines s !! id with
      | Some g => set_running id (mkRunning (ru_watcher g) Begun (ru_cancel g) (ru_over g)) s
      | None => crash s
      end
  | None => crash s
  end.

(** [src/internal/informers/health/kubernetes_informer.go:70-82 Register] *)
Definition Register (model : string) (resource : ObjectReference) : F unit :=
  known ← lift (gets (fun s => bool_decide (is_Some (watching s !! model))));
  (if (known : bool) then removeWatcher model else mret tt) ;;
  lift (modify (file_watcher model resource)) ;;
  lift (modify (go_start model)).
End Calls.
End Calls.

(** ** A watcher's goroutine *)

(** [src/internal/informers/health/kubernetes_watcher.go:39-88 start] its steps: [cancel] is set and the
    kind looked at; subscribing may be refused; waiting for the cache fails when the context
    is over *)
Inductive goes : running -> running -> Prop :=
| go_begin h over : goes (mkRunning h Begun false over)
    (mkRunning h (match start_kind h with Ok _ => Subscribing | Err e => Sending (mkErrWrapper (hw_model h) e) | Panic => Ended end) true over)
| go_subscribe h c over : goes (mkRunning h Subscribing c over) (mkRunning h Syncing c over)
| go_refused h c over e : goes (mkRunning h Subscribing c over)
    (mkRunning h (Sending (mkErrWrapper (hw_model h) (Wrapf "failed to add event handler: " e))) c over)
| go_synced h c over : goes (mkRunning h Syncing c over) (mkRunning h Watching c over)
| go_unsynced h c : goes (mkRunning h Syncing c true)
    (mkRunning h (Sending (mkErrWrapper (hw_model h) (Errorf "failed to sync informer cache"))) c true)
| go_end h c : goes (mkRunning h Watching c true) (mkRunning h Ended c true).

(** ** All of them *)

(** The reconciler's worker and the loop, when they are at work. *)
Record config := mkConfig {
  cf_state : informer;
  cf_worker : option (prog informer unit);
  cf_loop : option (prog informer unit)
}.

(** The next action of a program. *)
Definition act (p : prog informer unit) (s : informer) : option (informer * prog informer unit) :=
  match p with Act m k => Some ((m s).1, k (m s).2) | _ => None end.

(** [src/internal/informers/health/kubernetes_informer.go:53-68 Start] what happens without a new call of
    the reconciler; the loop is the receiving half of the last step.  A panic of the worker is recovered; one
    of the loop ends the process.  The channel has no buffer: a watcher that sends an error
    and the loop move on together, and the loop removes what is registered under the model's name. *)
Inductive moves : relation config :=
| mv_worker s p l s' p' : act p s = Some (s', p') -> moves (mkConfig s (Some p) l) (mkConfig s' (Some p') l)
| mv_return s r l : moves (mkConfig s (Some (of_outcome r)) l) (mkConfig s None l)
| mv_loop s w p s' p' : act p s = Some (s', p') -> moves (mkConfig s w (Some p)) (mkConfig s' w (Some p'))
| mv_handled s w r : r <> Panic -> moves (mkConfig s w (Some (of_outcome r))) (mkConfig s w None)
| mv_crash s w : moves (mkConfig s w (Some Crash)) (mkConfig (crash s) w None)
| mv_watcher s w l id g g' : goroutines s !! id = Some g -> goes g g' -> moves (mkConfig s w l) (mkConfig (set_running id g' s) w l)
| mv_error s w id h c over e : goroutines s !! id = Some (mkRunning h (Sending e) c over) ->
    moves (mkConfig s w None) (mkConfig (set_running id (mkRunning h Ended c over) s) w (Some (Calls.removeWatcher (ew_ModelName e)))).
Definition internal (c c' : config) : Prop := crashed (cf_state c) = false /\ moves c c'.

(** The reconciler's calls, one at a time. *)
Inductive requested : prog informer unit -> Prop :=
| rq_Register model resource : requested (Calls.Register model resource)
| rq_Unregister model : requested (Calls.Unregister model).
Inductive informer_step : relation config :=
| is_internal c c' : internal c c' -> informer_step c c'
| is_call s l p : requested p -> informer_step (mkConfig s None l) (mkConfig s (Some p) l).
Definition idle_informer : config := mkConfig (mkInformer ∅ ∅ false) None None.


(** ** Run alone

    With nothing in between, the operations are the ones of [Health], where each is one
    action and a watcher is created, running or cancelled. *)
Section Alone.
Implicit Types (s : informer).

Definition seen (g : running) : string * k8sHealthWatcher * goroutine :=
  (hw_model (ru_watcher g), ru_watcher g, if ru_over g then GoCancelled else if ru_cancel g then GoRunning else GoCreated).
Definition as_registry s : k8sHealthInformer := mkRegistry (watching s) (seen <$> goroutines s).
(** A context that is over has been cancelled. *)
Definition cancellable s : Prop := map_Forall (fun _ g => ru_over g = true -> ru_cancel g = true) (goroutines s).
Definition same_as {A} (out : informer * res A) (out' : k8sHealthInformer * res A) : Prop :=
  (as_registry out.1, out.2) = out' /\ cancellable out.1.

Lemma call_cancel_same id s : cancellable s -> same_as (Calls.call_cancel id s) (cancel_watcher id (as_registry s)).
Proof.
  intros Hs. unfold same_as, Calls.call_cancel, cancel_watcher. cbn. rewrite lookup_fmap. destruct (goroutines s !! id) as [g|] eqn:E; [|done].
  cbn. specialize (Hs id g E) as Hg. destruct g as [h a cancel over]. cbn in *.
  assert (cancellable (set_running id (mkRunning h a true true) s)) as Hc by (by apply map_Forall_insert_2).
  destruct cancel, over; try (by specialize (Hg eq_refl)); cbn; (split; [|done]); unfold as_registry, set_running; cbn; by rewrite ?fmap_insert.
Qed.

Lemma removeWatcher_alone model s : cancellable s -> same_as (run (Calls.removeWatcher model) s) (Health.removeWatcher model (as_registry s)).
Proof.
  intros Hs. unfold Health.removeWatcher, unregister_watcher, mbind at 1, M_bind at 1, gets. cbn.
  destruct (watching s !! model) as [id|]; cbn; [|done]. pose proof (call_cancel_same id s Hs) as [E Hc].
  unfold mbind, M_bind. rewrite <-E. destruct (Calls.call_cancel id s) as [s' [[]|e|]]; done.
Qed.

Lemma register_alone model resource s : cancellable s ->
  same_as (run (Calls.Register model resource) s) (Health.Register model resource (as_registry s)).
Proof.
  intros Hs. pose proof (removeWatcher_alone model s Hs) as Hr.
  assert (run (Calls.Register model resource) s =
    (Calls.removeWatcher (F:=M informer) model ;; modify (Calls.file_watcher model resource) ;; modify (Calls.go_start model)) s) as ->.
  { unfold Calls.Register, Calls.removeWatcher. cbn. unfold mbind, M_bind, lift, M_lift, gets. case_bool_decide as Hk.
    - cbn. destruct (watching s !! model) as [id|]; [|done]. cbn. by destruct (Calls.call_cancel id s) as [s' [[]|e|]].
    - destruct (watching s !! model) as [id|]; [by destruct Hk|done]. }
  assert (run (Calls.removeWatcher model) s = Calls.removeWatcher (F:=M informer) model s) as Hrun.
  { unfold Calls.removeWatcher. cbn. unfold mbind, M_bind, lift, M_lift, gets. destruct (watching s !! model) as [id|]; [|done]. cbn.
    by destruct (Calls.call_cancel id s) as [s' [[]|e|]]. }
  rewrite Hrun in Hr. unfold Health.Register, mbind, M_bind. destruct Hr as [E Hc]. rewrite <-E.
  destruct (Calls.removeWatcher (F:=M informer) model s) as [s' [[]|e|]]; [|done|done]. cbn [fst snd] in *. clear -Hc.
  unfold same_as, add_watcher, Calls.go_start, Calls.file_watcher, modify. cbn. rewrite !lookup_insert_eq. cbn. split.
  - f_equal. unfold as_registry. cbn. rewrite !fmap_insert, dom_fmap_L, insert_insert_eq. done.
  - apply map_Forall_insert_2; [done|]. by apply map_Forall_insert_2.
Qed.
End Alone.

(** ** An error is charged to the model *)

Section LateError.
Implicit Types (c : config) (s : informer).
Context (model : string).

Definition sends s : Prop := exists id h e cancel over,
  goroutines s !! id = Some (mkRunning h (Sending e) cancel over) /\ ew_ModelName e = model.
(** The loop at work on a model. *)
Inductive at_work (m : string) : prog informer unit -> Prop :=
| at_start : at_work m (Calls.removeWatcher m)
| at_found id : at_work m (lift (Calls.call_cancel id) ;; lift (modify (set_watching (delete m))))
| at_cancelled : at_work m (lift (modify (set_watching (delete m)))).
Definition unwatched s : Prop := watching s !! model = None.
Definition loop_ok s (l : option (prog informer unit)) : Prop :=
  match l with
  | None => sends s \/ unwatched s
  | Some p => (exists m, at_work m p /\ (sends s \/ m = model \/ unwatched s)) \/
              (exists r, p = of_outcome r /\ (sends s \/ r = Panic \/ unwatched s))
  end.

(** No call of the reconciler is under way; and an error of the model waits, or is being
    handled, or the model is not watched. *)
Definition doomed c : Prop := cf_worker c = None /\ (crashed (cf_state c) = true \/ loop_ok (cf_state c) (cf_loop c)).

Lemma goes_sends h e cancel over g' : goes (mkRunning h (Sending e) cancel over) g' -> False.
Proof. intros H. inversion H. Qed.

Lemma sends_other s id g g' : goroutines s !! id = Some g -> (forall h e cancel over, g = mkRunning h (Sending e) cancel over -> False) ->
  sends s -> sends (set_running id g' s).
Proof.
  intros Hg Hne (id0 & h & e & c & over & Hid & He). exists id0, h, e, c, over. split; [|exact He]. cbn.
  rewrite lookup_insert_ne; [exact Hid|]. intros <-. rewrite Hid in Hg. injection Hg as <-. by eapply Hne.
Qed.

Lemma sends_cancelled s id : sends s -> sends (Calls.call_cancel id s).1.
Proof.
  intros (id0 & h & e & c & over & Hid & He). unfold Calls.call_cancel. destruct (goroutines s !! id) as [g|] eqn:E; [|by do 5 eexists].
  case_match; [|by do 5 eexists]. cbn. destruct (decide (id0 = id)) as [->|Hne].
  - rewrite Hid in E. injection E as <-. eexists id, h, e, _, _. cbn. by rewrite lookup_insert_eq.
  - exists id0, h, e, c, over. cbn. by rewrite lookup_insert_ne.
Qed.
Lemma watching_cancelled s id : watching (Calls.call_cancel id s).1 = watching s.
Proof. unfold Calls.call_cancel. by repeat case_match. Qed.

(** The loop, one action further. *)
Lemma loop_ok_act s p s' p' : loop_ok s (Some p) -> act p s = Some (s', p') -> loop_ok s' (Some p').
Proof.
  intros [(m & Hp & Hd)|(r & -> & _)] E; [|by destruct r]. destruct Hp as [|id|]; cbn in E.
  - injection E as <- <-. destruct (watching s !! m) as [id|] eqn:Em; [by left; exists m; split; [apply at_found|]|].
    right. exists (Ok tt). split; [done|]. destruct Hd as [Hd|[->|Hd]]; auto.
  - injection E as <- <-. pose proof (watching_cancelled s id) as Hw. pose proof (sends_cancelled s id) as Hs.
    destruct (Calls.call_cancel id s) as [s1 [[]|e|]] eqn:Ec; cbn in *; unfold unwatched in *.
    + left. exists m. split; [apply at_cancelled|]. rewrite Hw. naive_solver.
    + unfold Calls.call_cancel in Ec. by repeat case_match.
    + right. exists Panic. naive_solver.
  - injection E as <- <-. right. exists (Ok tt). split; [done|]. unfold unwatched. cbn.
    destruct Hd as [Hd|[->|Hd]]; [by left|right; right; apply lookup_delete_eq|right; right; apply lookup_delete_None; by right].
Qed.

Lemma doomed_step c c' : internal c c' -> doomed c -> doomed c'.
Proof.
  intros [Hc Hm] [Hw Hd]. destruct Hd as [Hd|Hd]; [congruence|]. unfold doomed. destruct Hm; cbn in *; try done; (split; [done|]).
  - right. by eapply loop_ok_act.
  - right. destruct Hd as [(m & Hp & _)|(r' & Er & Hd)]; [by destruct r; inversion Hp|].
    destruct r, r'; cbn in *; naive_solver.
  - by left.
  - right. assert (sends s -> sends (set_running id g' s)) as Hs.
    { intros Hs. eapply sends_other; [done| |exact Hs]. intros h e cancel over Hg'. subst. by eapply goes_sends. }
    unfold loop_ok in *. change (unwatched (set_running id g' s)) with (unwatched s).
    destruct l as [p|]; [|by destruct Hd; auto].
    by destruct Hd as [(m & Hp & Hd)|(r & Hr & Hd)]; [left; exists m|right; exists r]; (split; [exact Hp || exact Hr|]); destruct Hd; auto.
  - right. unfold loop_ok. left. exists (ew_ModelName e). split; [apply at_start|]. destruct Hd as [Hs|Hd]; [|by auto].
    destruct (decide (ew_ModelName e = model)) as [->|Hne]; [by auto|]. left.
    destruct Hs as (id0 & h0 & e0 & c0 & over0 & Hid & He). exists id0, h0, e0, c0, over0. split; [|exact He]. cbn.
    rewrite lookup_insert_ne; [exact Hid|]. intros <-. congruence.
Qed.

(** Where nothing moves any more, every error has been received. *)
Lemma doomed_end c : doomed c -> (forall c', ~ internal c c') -> crashed (cf_state c) = true \/ unwatched (cf_state c).
Proof.
  destruct c as [s w l]. intros [Hw [Hd|Hd]] Hend; cbn in *; [by left|]. subst w. destruct (crashed s) eqn:Ec; [by left|right].
  assert (forall c', moves (mkConfig s None l) c' -> False) as Hno by (intros c' Hm; by apply (Hend c')).
  destruct l as [p|].
  - exfalso. destruct Hd as [(m & Hp & _)|(r & -> & _)].
    + destruct Hp; eapply Hno, mv_loop; reflexivity.
    + destruct r as [[]|e|]; [eapply Hno, (mv_handled _ _ (Ok tt))|eapply Hno, (mv_handled _ _ (Err e))|eapply Hno, mv_crash]; done.
  - destruct Hd as [(id & h & e & cancel & over & Hid & He)|Hd]; [|exact Hd]. exfalso. by eapply Hno, mv_error.
Qed.

Lemma doomed_run c c' : doomed c -> rtc internal c c' -> doomed c'.
Proof. intros Hc Hrun. induction Hrun; [done|]. eauto using doomed_step. Qed.
End LateError.

(** ** Schedules *)

Inductive choice := Request (p : prog informer unit) | ByWorker | ByLoop | ByWatcher (id : nat) | Receive (id : nat).

(** A watcher moves on; the cache is in sync, unless the context is over. *)
Definition go_on (g : running) : option running :=
  let at_ a c := Some (mkRunning (ru_watcher g) a c (ru_over g)) in
  match ru_at g, ru_cancel g, ru_over g with
  | Begun, false, _ => at_ (match start_kind (ru_watcher g) with Ok _ => Subscribing | Err e => Sending (mkErrWrapper (hw_model (ru_watcher g)) e) | Panic => Ended end) true
  | Subscribing, c, _ => at_ Syncing c
  | Syncing, c, false => at_ Watching c
  | Syncing, c, true => at_ (Sending (mkErrWrapper (hw_model (ru_watcher g)) (Errorf "failed to sync informer cache"))) c
  | Watching, c, true => at_ Ended c
  | _, _, _ => None
  end.
Lemma go_on_sound g g' : go_on g = Some g' -> goes g g'.
Proof.
  destruct g as [h a c over]. unfold go_on. cbn. destruct a, c, over; try done; intros [= <-]; constructor.
Qed.

Definition play (ch : choice) (c : config) : option config :=
  let s := cf_state c in
  if crashed s then None else
  match ch with
  | Request _ => None
  | ByWorker => p ← cf_worker c; match act p s with
                | Some (s', p') => Some (mkConfig s' (Some p') (cf_loop c))
                | None => Some (mkConfig s None (cf_loop c))
                end
  | ByLoop => p ← cf_loop c; match act p s with
              | Some (s', p') => Some (mkConfig s' (cf_worker c) (Some p'))
              | None => match p with Crash => None | _ => Some (mkConfig s (cf_worker c) None) end
              end
  | ByWatcher id => g ← goroutines s !! id; g' ← go_on g; Some (mkConfig (set_running id g' s) (cf_worker c) (cf_loop c))
  | Receive id => g ← goroutines s !! id;
      match ru_at g, cf_loop c with
      | Sending e, None => Some (mkConfig (set_running id (mkRunning (ru_watcher g) Ended (ru_cancel g) (ru_over g)) s) (cf_worker c)
                             (Some (Calls.removeWatcher (ew_ModelName e))))
      | _, _ => None
      end
  end.

Lemma play_sound ch c c' : play ch c = Some c' -> internal c c'.
Proof.
  destruct c as [s w l]. unfold play. cbn. destruct (crashed s) eqn:Ec; [done|]. intros E. split; [exact Ec|].
  destruct ch as [p| | |id|id]; [done| | | |].
  - destruct w as [p|]; [|done]. cbn in E. destruct p as [a|e| |A m k]; injection E as <-;
      [apply (mv_return s (Ok a))|apply (mv_return s (Err e))|apply (mv_return s Panic)|by apply mv_worker].
  - destruct l as [p|]; [|done]. cbn in E. destruct p as [a|e| |A m k]; [| |done|]; injection E as <-;
      [by apply (mv_handled s w (Ok a))|by apply (mv_handled s w (Err e))|by apply mv_loop].
  - destruct (goroutines s !! id) as [g|] eqn:Eg; [|done]. cbn in E. destruct (go_on g) as [g'|] eqn:Eo; [|done]. injection E as <-.
    eapply mv_watcher; [exact Eg|by apply go_on_sound].
  - destruct (goroutines s !! id) as [[h a cancel over]|] eqn:Eg; [|done]. cbn in E. destruct a, l; try done. injection E as <-. by eapply mv_error.
Qed.

(** A schedule is played; a request is made when the worker is free. *)
Definition step_of (c : config) (ch : choice) : config :=
  match ch with
  | Request p => match cf_worker c with None => mkConfig (cf_state c) (Some p) (cf_loop c) | Some _ => c end
  | _ => default c (play ch c)
  end.
Definition playable (ch : choice) : Prop := match ch with Request p => requested p | _ => True end.
Lemma plays_run l c : Forall playable l -> rtc informer_step c (foldl step_of c l).
Proof.
  intros Hl. revert c. induction Hl as [|ch l Hch _ IH]; intros c; cbn; [done|]. transitivity (step_of c ch); [|apply IH].
  destruct ch as [p| | |id|id]; unfold step_of; try (destruct (play _ c) as [c'|] eqn:E; cbn; [apply rtc_once, is_internal; by eapply play_sound|done]).
  destruct c as [s [w|] lo]; cbn; [done|]. by apply rtc_once, is_call.
Qed.
Lemma plays_internal l c : Forall (fun ch => match ch with Request _ => False | _ => True end) l -> rtc internal c (foldl step_of c l).
Proof.
  intros Hl. revert c. induction Hl as [|ch l Hch _ IH]; intros c; cbn; [done|]. transitivity (step_of c ch); [|apply IH].
  destruct ch as [p| | |id|id]; [done|..]; unfold step_of; (destruct (play _ c) as [c'|] eqn:E; cbn; [apply rtc_once; by eapply play_sound|done]).
Qed.

(** ** Properties *)

(** C25. An error is charged to the model, not to the watcher that met it: once a goroutine waits to
    send an error, and whatever watcher the model has been given since, then, unless the
    reconciler makes another call, in every interleaving of the loop and the watchers that
    comes to its end the model is not watched any more (or the process is gone). *)
Theorem late_error_unwatches_the_model (model : string) (c c' : config) :
  cf_worker c = None -> cf_loop c = None -> sends model (cf_state c) ->
  rtc internal c c' -> (forall c'', ~ internal c' c'') ->
  crashed (cf_state c') = true \/ watching (cf_state c') !! model = None.
Proof.
  intros Hw Hl Hs Hrun Hend. apply (doomed_end model); [|exact Hend]. apply (doomed_run model c); [|exact Hrun].
  split; [exact Hw|]. right. rewrite Hl. by left.
Qed.

(** ** A model that is registered anew before its first watcher is in sync *)

Module HealthRunExamples.
Definition resource := mkRef "Deployment" "apps/v1" "default" "my-model".
Definition name : string := "default/my-model".
Definition workers (n : nat) : list choice := replicate n ByWorker.
Definition anew : list choice :=
  Request (Calls.Register name resource) :: workers 8 ++ [ByWatcher 0; ByWatcher 0] ++
  Request (Calls.Unregister name) :: workers 8 ++ Request (Calls.Register name resource) :: workers 8 ++
  [ByWatcher 1; ByWatcher 1; ByWatcher 1; ByWatcher 0].
Definition c_anew : config := foldl step_of idle_informer anew.
Definition received : list choice := [Receive 0; ByLoop; ByLoop; ByLoop; ByLoop; ByWatcher 1].
Definition c_end : config := foldl step_of c_anew received.

Definition over : running := mkRunning (mkHealthWatcher name resource) Ended true true.

(** The new watcher is running when the error of the old one is still to be received. *)
Example new_watcher_runs : rtc informer_step idle_informer c_anew /\ watching (cf_state c_anew) !! name = Some 1%nat /\
  goroutines (cf_state c_anew) !! 1%nat = Some (mkRunning (mkHealthWatcher name resource) Watching true false).
Proof.
  split; [|split; vm_compute; reflexivity]. apply plays_run. unfold anew, workers. cbn [replicate app]. repeat constructor.
Qed.

Lemma late_error_unwatches_the_model_witness :
  crashed (cf_state c_end) = false /\ watching (cf_state c_end) !! name = None.
Proof.
  split; [vm_compute; reflexivity|].
  destruct (late_error_unwatches_the_model name c_anew c_end) as [H|H]; [vm_compute; reflexivity|vm_compute; reflexivity| | | | |exact H].
  - exists 0%nat. do 4 eexists. split; vm_compute; reflexivity.
  - apply plays_internal. repeat constructor.
  - intros c [_ Hm]. revert Hm. assert (cf_worker c_end = None /\ cf_loop c_end = None /\
      forall id g, goroutines (cf_state c_end) !! id = Some g -> ru_at g = Ended) as (Hw & Hl & Hg).
    { split_and!; [vm_compute; reflexivity..|]. intros id g. assert (goroutines (cf_state c_end) = <[0%nat := over]> {[1%nat := over]}) as -> by (vm_compute; reflexivity).
      rewrite lookup_insert_Some, lookup_singleton_Some. by intros [[_ <-]|[_ [_ <-]]]. }
    destruct c_end as [s w l]. cbn in *. subst w l. intros Hm. inversion Hm as [| | | | |s0 w0 l0 id g g' E1 E2|s0 w0 id h cancel over e E1]; subst.
    + apply Hg in E1. destruct g; cbn in E1; subst. inversion E2.
    + apply Hg in E1. done.
  - vm_compute in H. discriminate.
Defined.
End HealthRunExamples.
