(* ===== verification/Convert.v ===== *)
(** Converting the custom resources to the objects of the Beamlit API
    (internal/controller/helper), with the cluster look-ups this takes. *)

From Stdlib Require Import Ascii.
From stdpp Require Import base numbers gmap strings list.
From S2P Require Import Prelude Crd Kube.
Local Open Scope Z_scope.

(** ** The controller's client

    The controller-runtime client, on the objects the controllers use.  A pod template
    is opaque to them. *)
Class CtrlClient (W : Type) := {
  client_GetService : NamespacedName -> M W Service;
  client_GetPodTemplate : string -> NamespacedName -> M W string;
  client_GetModel : NamespacedName -> M W ModelDeployment;
  client_UpdateModel : ModelDeployment -> M W ModelDeployment;
  client_UpdateModelStatus : ModelDeployment -> M W ModelDeployment;
  client_GetPolicy : NamespacedName -> M W Policy;
  client_UpdatePolicy : Policy -> M W Policy;
  client_UpdatePolicyStatus : Policy -> M W Policy;
  mapstructure_Decode : string -> res string
}.

(** ** Objects of the Beamlit API: the fields that are set or read *)

Record Metadata := mkMetadata {
  bm_Name : option string;
  bm_Environment : option string;
  bm_Labels : option (gmap string string);
  bm_DisplayName : option string;
  bm_Workspace : option string;
  bm_CreatedAt : option string;
  bm_UpdatedAt : option string
}.
Record Runtime := mkRuntime { rt_ServingPort : option Z; rt_MetricPort : option Z }.
Record BeamlitServerless := mkBeamlitServerless {
  bs_MinNumReplicas : option Z;
  bs_MaxNumReplicas : option Z;
  bs_Metric : option string;
  bs_Target : option string;
  bs_ScaleUpMinimum : option Z;
  bs_ScaleDownDelay : option string;
  bs_StableWindow : option string;
  bs_LastPodRetentionPeriod : option string
}.
Record BeamlitModel := mkBeamlitModel {
  bmod_Metadata : Metadata;
  bmod_Enabled : option bool;
  bmod_Runtime : option Runtime;
  bmod_Policies : option (list string);
  bmod_ServerlessConfig : option BeamlitServerless;
  bmod_PodTemplate : option string
}.
Record BeamlitPolicy := mkBeamlitPolicy {
  bpol_Metadata : Metadata;
  bpol_Type : option string;
  bpol_Flavors : option (list (option string * option string));
  bpol_Locations : option (list (option string * option string))
}.
#[global] Instance Metadata_eq_dec : EqDecision Metadata.
Proof. solve_decision. Defined.
#[global] Instance Runtime_eq_dec : EqDecision Runtime.
Proof. solve_decision. Defined.
#[global] Instance BeamlitServerless_eq_dec : EqDecision BeamlitServerless.
Proof. solve_decision. Defined.
#[global] Instance BeamlitModel_eq_dec : EqDecision BeamlitModel.
Proof. solve_decision. Defined.
#[global] Instance BeamlitPolicy_eq_dec : EqDecision BeamlitPolicy.
Proof. solve_decision. Defined.

Definition emptyMetadata : Metadata := mkMetadata None None None None None None None.

(** ** Look-ups *)

Section Convert.
Context {W : Type} `{CtrlClient W}.

(** [src/internal/controller/helper/kubernetes_resource.go:31-57 retrievePodTemplate] *)
Definition retrievePodTemplate (kind name namespace : string) : M W string :=
  if bool_decide (kind ∈ ["Deployment"; "StatefulSet"; "DaemonSet"; "ReplicaSet"])
  then client_GetPodTemplate kind (mkNN namespace name)
  else throw (Errorf ("unexpected object type: " +:+ kind)).

(** [src/internal/controller/helper/kubernetes_resource.go:64-69 RetrievePodPort] *)
Fixpoint find_port (ports : list ServicePort) (targetPort : Z) : res Z :=
  match ports with
  | [] => Err (Errorf ("port " +:+ Itoa targetPort +:+ " not found"))
  | port :: l => if sp_Port port =? targetPort then Ok (IntVal (sp_TargetPort port)) else find_port l targetPort
  end.

(** [src/internal/controller/helper/kubernetes_resource.go:59-70 RetrievePodPort] *)
Definition RetrievePodPort (serviceReference : ObjectReference) (targetPort : Z) : M W Z :=
  service ← client_GetService (mkNN (ref_Namespace serviceReference) (ref_Name serviceReference));
  of_res (find_port (svc_Ports service) targetPort).

(** ** Model deployments *)

(** [src/internal/controller/helper/model_conversion.go:92-94 withOffloadingEnabled] *)
Definition withOffloadingEnabled (labels : gmap string string) : gmap string string :=
  <["offloading-enabled" := FormatBool true]> labels.

(** [src/internal/controller/helper/model_conversion.go:96-106 toBeamlitLabels] *)
Definition toBeamlitLabels (labels : gmap string string)
    (opts : list (gmap string string -> gmap string string)) : gmap string string :=
  foldl (fun l opt => opt l) (<["managed-by" := "beamlit-operator"]> labels) opts.

(** [src/internal/controller/helper/model_conversion.go:108-119 toBeamlitPolicies] another reference type
    leaves the empty string *)
Definition toBeamlitPolicies (policies : list PolicyRef) : list string :=
  map (fun policy =>
    if String.eqb (pr_RefType policy) "remotePolicy" then pr_Name policy
    else if String.eqb (pr_RefType policy) "localPolicy" then ref_Name (pr_Ref policy)
    else "") policies.

(** [src/internal/controller/helper/model_conversion.go:58-73 ToBeamlitModelDeployment] *)
Definition toBeamlitServerless (c : ServerlessConfig) : BeamlitServerless :=
  mkBeamlitServerless (Some (sc_MinNumReplicas c)) (Some (sc_MaxNumReplicas c)) (sc_Metric c) (sc_Target c)
    (sc_ScaleUpMinimum c) (sc_ScaleDownDelay c) (sc_StableWindow c) (sc_LastPodRetentionPeriod c).

(** [src/internal/controller/helper/model_conversion.go:37-74 ToBeamlitModelDeployment] the object, with the
    pod template at hand *)
Definition beamlit_model (m : ModelDeployment) (podTemplate : string) : BeamlitModel :=
  let spec := md_Spec m in
  let labelOpts := match mds_OffloadingConfig spec with
                   | Some _ => if mds_Enabled spec then [withOffloadingEnabled] else []
                   | None => []
                   end in
  mkBeamlitModel
    (mkMetadata (Some (mds_Model spec)) (Some (mds_Environment spec))
       (Some (toBeamlitLabels (meta_Labels (md_Meta m)) labelOpts)) None None None None)
    (Some (mds_Enabled spec))
    (Some (mkRuntime (Some (mst_ServingPort (md_Status m))) (Some (mst_MetricPort (md_Status m)))))
    (Some (toBeamlitPolicies (mds_Policies spec)))
    (toBeamlitServerless <$> mds_ServerlessConfig spec)
    (Some podTemplate).

(** [src/internal/controller/helper/model_conversion.go:33-90 ToBeamlitModelDeployment] *)
Definition ToBeamlitModelDeployment (m : ModelDeployment) : M W BeamlitModel :=
  let ref := mds_ModelSourceRef (md_Spec m) in
  template ← retrievePodTemplate (ref_Kind ref) (ref_Name ref) (ref_Namespace ref);
  podTemplate ← of_res (mapstructure_Decode (W:=W) template);
  mret (beamlit_model m podTemplate).

(** The look-ups leave alone whatever the client's reads leave alone. *)
Section Keeps.
Context {V : Type} (view : W -> V).

Lemma keeps_RetrievePodPort ref port :
  (forall k, keeps view (client_GetService k)) -> keeps view (RetrievePodPort ref port).
Proof. intros H1. apply keeps_bind; [apply H1|done]. Qed.
Lemma keeps_ToBeamlitModelDeployment m :
  (forall kind k, keeps view (client_GetPodTemplate kind k)) -> keeps view (ToBeamlitModelDeployment m).
Proof.
  intros H1. apply keeps_bind; [|intros t; by apply keeps_bind].
  unfold retrievePodTemplate. case_match; [apply H1|done].
Qed.
End Keeps.

Lemma ToBeamlitModelDeployment_ok m w w' b :
  ToBeamlitModelDeployment m w = (w', Ok b) -> exists podTemplate, b = beamlit_model m podTemplate.
Proof.
  intros (w1 & t & _ & E)%bind_Ok_inv. apply bind_Ok_inv in E as (w2 & pt & _ & [= _ <-]). by exists pt.
Qed.
End Convert.

(** ** Policies *)

(** [src/internal/controller/helper/policy_conversion.go:24-33 toBeamlitFlavors] a name and a type each *)
Definition toBeamlitFlavors (flavors : list PolicyFlavor) : list (option string * option string) :=
  map (fun flavor => (Some (pf_Name flavor), Some (pf_Type flavor))) flavors.

(** [src/internal/controller/helper/policy_conversion.go:35-45 toBeamlitLocations] *)
Definition toBeamlitLocations (locations : list PolicyLocation) : list (option string * option string) :=
  map (fun location => (Some (pl_Name location), Some (pl_Type location))) locations.

(** [src/internal/controller/helper/policy_conversion.go:8-22 ToBeamlitPolicy] *)
Definition ToBeamlitPolicy (policy : Policy) : BeamlitPolicy :=
  let md := mkMetadata (Some (pol_Name policy)) None None (Some (ps_DisplayName (pol_Spec policy))) None None None in
  let ty := ps_Type (pol_Spec policy) in
  if String.eqb ty "flavor"
  then mkBeamlitPolicy md (Some "flavor") (Some (toBeamlitFlavors (ps_Flavors (pol_Spec policy)))) None
  else if String.eqb ty "location"
  then mkBeamlitPolicy md (Some "location") None (Some (toBeamlitLocations (ps_Locations (pol_Spec policy))))
  else mkBeamlitPolicy md None None None.
