(* ===== verification/BeamlitClient.v ===== *)
(** The client of the Beamlit API (internal/beamlit): models, policies and credentials. *)

From Stdlib Require Import Ascii.
From stdpp Require Import base numbers gmap strings list.
From S2P Require Import Prelude Crd Kube Convert.
Local Open Scope Z_scope.

(** ** The SDK

    A reply is a status code and a body.  [json_*] decode the first value of a body. *)
Definition Reply : Type := Z * string.

Class BeamlitAPI (W : Type) := {
  sdk_GetModel : string -> string -> M W Reply;
  sdk_CreateModel : BeamlitModel -> M W Reply;
  sdk_UpdateModel : string -> BeamlitModel -> M W Reply;
  sdk_DeleteModel : string -> string -> M W Reply;
  sdk_GetPolicy : string -> M W Reply;
  sdk_CreatePolicy : BeamlitPolicy -> M W Reply;
  sdk_UpdatePolicy : string -> BeamlitPolicy -> M W Reply;
  sdk_DeletePolicy : string -> M W Reply;
  json_Model : string -> res BeamlitModel;
  json_Policy : string -> res BeamlitPolicy
}.

Section Client.
Context {W : Type} `{BeamlitAPI W}.

Definition status_error (what : string) (resp : Reply) : error :=
  Errorf ("failed to " +:+ what +:+ ", status code: " +:+ Itoa resp.1 +:+ ", body: " +:+ resp.2).

(** ** Models *)

(** [src/internal/beamlit/model.go:35-54 createModel] *)
Definition createModel (model : BeamlitModel) : M W BeamlitModel :=
  resp ← sdk_CreateModel model;
  if 299 <=? resp.1 then throw (status_error "update Model" resp) else of_res (json_Model (W:=W) resp.2).

(** [src/internal/beamlit/model.go:56-75 updateModel] *)
Definition updateModel (model : BeamlitModel) : M W BeamlitModel :=
  name ← deref (bm_Name (bmod_Metadata model));
  resp ← sdk_UpdateModel name model;
  if 299 <=? resp.1 then throw (status_error "update Model" resp) else of_res (json_Model (W:=W) resp.2).

(** [src/internal/beamlit/model.go:18-33 CreateOrUpdateModel] *)
Definition CreateOrUpdateModel (model : BeamlitModel) : M W BeamlitModel :=
  match bm_Name (bmod_Metadata model), bm_Environment (bmod_Metadata model) with
  | Some name, Some environment =>
      resp ← sdk_GetModel name environment;
      if resp.1 =? 404 then createModel model else updateModel model
  | _, _ => throw (Errorf "name and environment are required")
  end.

(** [src/internal/beamlit/model.go:80-103 DeleteModelDeployment] *)
Definition DeleteModelDeployment (model environment : string) : M W unit :=
  resp ← sdk_DeleteModel model environment;
  if resp.1 =? 404 then mret tt
  else if 299 <=? resp.1 then throw (status_error "delete Model" resp)
  else mret tt.

Definition set_model_labels (l : gmap string string) (m : BeamlitModel) : BeamlitModel :=
  let d := bmod_Metadata m in
  mkBeamlitModel (mkMetadata (bm_Name d) (bm_Environment d) (Some l) (bm_DisplayName d) (bm_Workspace d)
                    (bm_CreatedAt d) (bm_UpdatedAt d))
    (bmod_Enabled m) (bmod_Runtime m) (bmod_Policies m) (bmod_ServerlessConfig m) (bmod_PodTemplate m).

(** [src/internal/beamlit/model.go:105-133 NotifyOnModelOffloading] a model without labels leaves a nil
    map, and the write to it panics *)
Definition NotifyOnModelOffloading (model environment : string) (offloading : bool) : M W unit :=
  resp ← sdk_GetModel model environment;
  if 299 <=? resp.1 then throw (status_error "get ModelDeployment" resp)
  else
    modelDeployment ← of_res (json_Model (W:=W) resp.2);
    labels ← deref (bm_Labels (bmod_Metadata modelDeployment));
    _ ← sdk_UpdateModel model
          (set_model_labels (<["offloading" := FormatBool offloading]> labels) modelDeployment);
    mret tt.

(** ** Policies *)

(** [src/internal/beamlit/policies.go:14-48 CreateOrUpdatePolicy] the message of an unexpected status
    reads the status of a response that is not there yet *)
Definition CreateOrUpdatePolicy (policy : BeamlitPolicy) : M W BeamlitPolicy :=
  match bm_Name (bpol_Metadata policy) with
  | None => throw (Errorf "policy name is required")
  | Some name =>
      policyResp ← sdk_GetPolicy name;
      resp ← (if policyResp.1 =? 404 then sdk_CreatePolicy policy
              else if policyResp.1 =? 200 then sdk_UpdatePolicy name policy
              else panic);
      if 299 <=? resp.1 then throw (status_error "update Policy" resp) else of_res (json_Policy (W:=W) resp.2)
  end.

(** [src/internal/beamlit/policies.go:50-68 DeletePolicy] *)
Definition DeletePolicy (name : string) : M W unit :=
  resp ← sdk_DeletePolicy name;
  if resp.1 =? 404 then mret tt
  else if 299 <=? resp.1 then throw (status_error "delete Policy" resp)
  else mret tt.

(** What no request touches, the client's operations leave alone. *)
Section Keeps.
Context {V : Type} (view : W -> V).
Hypothesis Hget : forall n e, keeps view (sdk_GetModel n e).
Hypothesis Hupdate : forall n m, keeps view (sdk_UpdateModel n m).

Lemma keeps_CreateOrUpdateModel model :
  (forall m, keeps view (sdk_CreateModel m)) -> keeps view (CreateOrUpdateModel model).
Proof.
  intros Hcreate. unfold CreateOrUpdateModel, createModel, updateModel. repeat case_match; auto 6 with inv.
Qed.
Lemma keeps_DeleteModelDeployment n e :
  (forall n e, keeps view (sdk_DeleteModel n e)) -> keeps view (DeleteModelDeployment n e).
Proof. intros Hdelete. unfold DeleteModelDeployment. auto 6 with inv. Qed.
Lemma keeps_NotifyOnModelOffloading n e b : keeps view (NotifyOnModelOffloading n e b).
Proof.
  apply keeps_bind; [apply Hget|intros resp]. apply keeps_if; [done|].
  apply keeps_bind; [done|intros md]. apply keeps_bind; [apply keeps_deref|intros l].
  apply keeps_bind; [apply Hupdate|done].
Qed.
End Keeps.
End Client.

(** ** Credentials

    The environment is a map from variables to values, [""] when unset;
    [base64_Decode] is encoding/base64's. *)

Definition envBaseURL : string := "BEAMLIT_BASE_URL".
Definition envToken : string := "BEAMLIT_TOKEN".
(** [src/internal/beamlit/client.go:10-14 defaultBaseURL] *)
Definition defaultBaseURL : string := "https://api.beamlit.com/v0".

Class Base64 := { base64_Decode : string -> res string; base64_Encode : string -> string }.
Class Base64Spec `{Base64} : Prop := { base64_roundtrip s : base64_Decode (base64_Encode s) = Ok s }.

(** [src/internal/beamlit/client.go:27-30 NewClient] and auth_utils.go:47-49 *)
Definition base_url (env : gmap string string) : string :=
  let v := default "" (env !! envBaseURL) in if String.eqb v "" then defaultBaseURL else v.

(** [src/internal/beamlit/auth_utils.go:43-66 retrieveInfoFromEnv] client id, secret and base URL *)
Definition retrieveInfoFromEnv `{Base64} (env : gmap string string) : res (string * string * string) :=
  let beamlitToken := default "" (env !! envToken) in
  if String.eqb beamlitToken "" then Ok ("", "", "")
  else match base64_Decode beamlitToken with
       | Err e => Err (Wrapf "failed to decode Beamlit token: " e)
       | Panic => Panic
       | Ok decodedToken =>
           match Split decodedToken ":"%char with
           | [id; secret] => Ok (id, secret, base_url env)
           | _ => Err (Errorf "invalid Beamlit token format")
           end
       end.

(** The settings of golang.org/x/oauth2/clientcredentials that are set. *)
Record ClientCredentials := mkCredentials { cc_ClientID : string; cc_ClientSecret : string; cc_TokenURL : string }.

(** [src/internal/beamlit/auth_utils.go:15-20 BeamlitToken] the settings are made on demand *)
Record BeamlitToken := mkToken {
  tok_clientID : string;
  tok_clientSecret : string;
  tok_baseURL : string;
  tok_cfg : option ClientCredentials
}.

(** [src/internal/beamlit/auth_utils.go:26-37 NewBeamlitToken] *)
Definition NewBeamlitToken `{Base64} (env : gmap string string) : res BeamlitToken :=
  match retrieveInfoFromEnv env with
  | Ok (id, secret, url) => Ok (mkToken id secret url None)
  | Err e => Err e
  | Panic => Panic
  end.

Definition credentials_of (b : BeamlitToken) : ClientCredentials :=
  mkCredentials (tok_clientID b) (tok_clientSecret b) (tok_baseURL b +:+ "/oauth/token").
Definition set_cfg (b : BeamlitToken) : BeamlitToken :=
  match tok_cfg b with
  | Some _ => b
  | None => mkToken (tok_clientID b) (tok_clientSecret b) (tok_baseURL b) (Some (credentials_of b))
  end.

(** [src/internal/beamlit/auth_utils.go:68-81 client] the client it returns asks for a token with these
    settings before each request that finds none *)
Definition client : M BeamlitToken ClientCredentials :=
  modify set_cfg ;;
  cfg ← gets tok_cfg;
  deref cfg.

(** The token end point: [cfg.Token] of golang.org/x/oauth2. *)
Class OAuth2 (W : Type) := { oauth2_Token : ClientCredentials -> M W string }.

(** [src/internal/beamlit/auth_utils.go:83-100 GetToken] *)
Definition GetToken `{OAuth2 W} : M (BeamlitToken * W) string :=
  cfg ← self client;
  outer (oauth2_Token cfg).

(** [src/internal/beamlit/client.go:16-19 Client] the address and the credentials its requests carry *)
Record Client := mkClient { client_baseURL : string; client_credentials : ClientCredentials }.

(** [src/internal/beamlit/client.go:21-40 NewClient] [sdk_NewClient] is the SDK's check of the address *)
Definition NewClient `{Base64} (sdk_NewClient : string -> res unit) (env : gmap string string) : res Client :=
  match NewBeamlitToken env with
  | Ok beamlitToken =>
      match (client beamlitToken).2 with
      | Ok credentials =>
          match sdk_NewClient (base_url env) with
          | Ok _ => Ok (mkClient (base_url env) credentials)
          | Err e => Err e
          | Panic => Panic
          end
      | Err e => Err e
      | Panic => Panic
      end
  | Err e => Err e
  | Panic => Panic
  end.

(** ** Properties *)

Section Properties.
Context {W : Type} `{Hb : BeamlitAPI W}.

(** Notifying changes one label of the remote model and nothing else: the update sent
    is the model that was read with the label set.  The answer to it is not looked at,
    and a model that was read without labels is a write to a nil map. *)
Theorem notify_changes_one_label name environment (b : bool) (w w1 : W) code text model :
  sdk_GetModel name environment w = (w1, Ok (code, text)) -> code < 299 ->
  json_Model (W:=W) text = Ok model ->
  match bm_Labels (bmod_Metadata model) with
  | None => NotifyOnModelOffloading name environment b w = (w1, Panic)
  | Some labels =>
      let sent := set_model_labels (<["offloading" := FormatBool b]> labels) model in
      (NotifyOnModelOffloading name environment b w).1 = (sdk_UpdateModel name sent w1).1 /\
      (is_Ok (NotifyOnModelOffloading name environment b w).2 = is_Ok (sdk_UpdateModel name sent w1).2) /\
      forall k, k <> "offloading" ->
        (bm_Labels (bmod_Metadata sent) ≫= lookup k) = labels !! k
  end.
Proof.
  intros Hget Hcode Hjson. unfold NotifyOnModelOffloading, mbind, M_bind. rewrite Hget. cbn.
  assert ((299 <=? code) = false) as -> by lia. unfold of_res. rewrite Hjson.
  destruct (bm_Labels (bmod_Metadata model)) as [labels|]; [|done]. cbn.
  split_and!; [by destruct (sdk_UpdateModel _ _ w1) as [w2 [?|?|]]..|].
  intros k Hk. cbn. by rewrite lookup_insert_ne.
Qed.

(** A policy is looked up before it is written: it is created when the API does not
    know it and updated when it does; any other answer to the look-up is a nil
    dereference in the branch that was to report it. *)
Theorem policy_write_follows_lookup policy name (w w1 : W) code text :
  bm_Name (bpol_Metadata policy) = Some name ->
  sdk_GetPolicy name w = (w1, Ok (code, text)) ->
  (code = 404 -> (CreateOrUpdatePolicy policy w).1 = (sdk_CreatePolicy policy w1).1) /\
  (code = 200 -> (CreateOrUpdatePolicy policy w).1 = (sdk_UpdatePolicy name policy w1).1) /\
  (code <> 404 -> code <> 200 -> CreateOrUpdatePolicy policy w = (w1, Panic)).
Proof.
  intros Hn Hget. unfold CreateOrUpdatePolicy. rewrite Hn. unfold mbind, M_bind. rewrite Hget. cbn.
  split_and!.
  - intros ->. cbn. destruct (sdk_CreatePolicy policy w1) as [w2 [resp|e|]]; cbn; [by case_match|done..].
  - intros ->. cbn. destruct (sdk_UpdatePolicy name policy w1) as [w2 [resp|e|]]; cbn; [by case_match|done..].
  - intros H1 H2. by rewrite (proj2 (Z.eqb_neq _ _) H1), (proj2 (Z.eqb_neq _ _) H2).
Qed.
End Properties.

(** C37. The token of the environment carries the credentials it was made of; a secret
    with a colon in it makes a token that is refused. *)
Theorem token_carries_credentials `{Base64Spec} (env : gmap string string) (id secret : string) :
  contains_byte ":"%char id = false ->
  env !! envToken = Some (base64_Encode (id +:+ ":" +:+ secret)) ->
  base64_Encode (id +:+ ":" +:+ secret) <> "" ->
  retrieveInfoFromEnv env =
    if contains_byte ":"%char secret then Err (Errorf "invalid Beamlit token format")
    else Ok (id, secret, base_url env).
Proof.
  intros Hid Henv Hne. unfold retrieveInfoFromEnv. rewrite Henv. cbn [default from_option].
  unfold Datatypes.id. rewrite (proj2 (String.eqb_neq _ _) Hne), base64_roundtrip.
  change (id +:+ ":" +:+ secret) with (id +:+ String ":" secret). rewrite Split_app_sep by done.
  destruct (contains_byte ":"%char secret) eqn:E.
  - destruct (Split_sep secret ":"%char E) as (x & y & l & ->). done.
  - by rewrite Split_no_sep.
Qed.

(** The settings of the credentials are made once: whatever the order in which clients and
    tokens are asked for, every one of them uses the credentials of the environment. *)
Theorem credentials_are_made_once `{OAuth2 W} (b : BeamlitToken) (w : W) :
  tok_cfg b = None \/ tok_cfg b = Some (credentials_of b) ->
  client b = (set_cfg b, Ok (credentials_of b)) /\
  GetToken (b, w) = ((set_cfg b, (oauth2_Token (credentials_of b) w).1), (oauth2_Token (credentials_of b) w).2) /\
  tok_cfg (set_cfg b) = Some (credentials_of (set_cfg b)) /\ credentials_of (set_cfg b) = credentials_of b.
Proof.
  intros Hcfg. assert (client b = (set_cfg b, Ok (credentials_of b))) as E.
  { unfold client, set_cfg. mrun. unfold set_cfg. by destruct Hcfg as [-> | E]; [|rewrite E; cbn; rewrite E]. }
  split_and!; [exact E| | |].
  - unfold GetToken, mbind, M_bind, self, outer, zoom. cbn. rewrite E. cbn. by destruct (oauth2_Token _ w).
  - unfold set_cfg. by destruct Hcfg as [-> | E']; [|rewrite E'].
  - unfold set_cfg. by destruct (tok_cfg b).
Qed.

(** A client without a token in its environment is made all the same, but not an anonymous
    one: its requests first ask for a token with empty credentials, at an address without a
    host, even when the environment names the API's address. *)
Theorem client_without_token `{Base64} sdk_NewClient (env : gmap string string) :
  default "" (env !! envToken) = "" -> sdk_NewClient (base_url env) = Ok tt ->
  NewClient sdk_NewClient env = Ok (mkClient (base_url env) (mkCredentials "" "" "/oauth/token")).
Proof.
  intros Hno Hsdk. unfold NewClient, NewBeamlitToken, retrieveInfoFromEnv. rewrite Hno. cbn. by rewrite Hsdk.
Qed.

Module ClientExamples.
(** A model with one label; a server that knows it and takes every update. *)
Definition known (labels : option (gmap string string)) : BeamlitModel :=
  mkBeamlitModel (mkMetadata (Some "m") (Some "prod") labels None None None None) None None None None None.
Definition server (labels : option (gmap string string)) (lookup : Z) : BeamlitAPI (list BeamlitModel) := {|
  sdk_GetModel a b := mret (200, "");
  sdk_CreateModel a := mret (200, "");
  sdk_UpdateModel a m := modify (cons m) ;; mret (500, "");
  sdk_DeleteModel a b := mret (200, "");
  sdk_GetPolicy a := mret (lookup, "");
  sdk_CreatePolicy a := mret (200, "");
  sdk_UpdatePolicy a b := mret (200, "");
  sdk_DeletePolicy a := mret (200, "");
  json_Model s := Ok (known labels);
  json_Policy s := Err (Errorf "")
|}.
Definition own_labels : gmap string string := {["team" := "a"]}.

Lemma notify_changes_one_label_witness :
  let H := server (Some own_labels) 200 in
  (NotifyOnModelOffloading (H:=H) "m" "prod" true []).1 =
    [set_model_labels (<["offloading" := "true"]> own_labels) (known (Some own_labels))] /\
  NotifyOnModelOffloading (H:=server None 200) "m" "prod" true [] = ([], Panic).
Proof.
  split.
  - exact (proj1 (notify_changes_one_label (Hb:=server (Some own_labels) 200) "m" "prod" true [] [] 200 ""
      (known (Some own_labels)) eq_refl eq_refl eq_refl)).
  - exact (notify_changes_one_label (Hb:=server None 200) "m" "prod" true [] [] 200 "" (known None)
      eq_refl eq_refl eq_refl).
Defined.

Definition a_policy : BeamlitPolicy :=
  mkBeamlitPolicy (mkMetadata (Some "eu-only") None None None None None None) (Some "location") None None.
Lemma policy_write_follows_lookup_witness :
  CreateOrUpdatePolicy (H:=server None 503) a_policy [] = ([], Panic).
Proof.
  exact (proj2 (proj2 (policy_write_follows_lookup (Hb:=server None 503) a_policy "eu-only" [] [] 503 "" eq_refl eq_refl))
    ltac:(lia) ltac:(lia)).
Defined.

(** A code that needs no decoding. *)
#[local] Instance plain_code : Base64 := { base64_Decode := Ok; base64_Encode s := s }.
#[local] Instance plain_code_spec : Base64Spec.
Proof. done. Qed.
Lemma client_without_token_witness :
  NewClient (fun _ => Ok tt) {[envBaseURL := "https://api.example.com"]} =
    Ok (mkClient "https://api.example.com" (mkCredentials "" "" "/oauth/token")).
Proof. exact (client_without_token (fun _ => Ok tt) {[envBaseURL := "https://api.example.com"]} eq_refl eq_refl). Defined.

#[local] Instance count_tokens : OAuth2 nat := { oauth2_Token c n := (S n, Ok (cc_ClientID c +:+ "-token")) }.
Lemma credentials_are_made_once_witness :
  let b := mkToken "client" "s3cret" defaultBaseURL None in
  (GetToken (set_cfg b, 1%nat)).2 = Ok "client-token".
Proof.
  intros b. exact (f_equal snd (proj1 (proj2 (credentials_are_made_once (set_cfg b) 1%nat (or_intror eq_refl))))).
Defined.

Lemma token_carries_credentials_witness :
  retrieveInfoFromEnv {[envToken := "client:s3cret"]} = Ok ("client", "s3cret", defaultBaseURL) /\
  retrieveInfoFromEnv {[envToken := "client:s3:cret"]} = Err (Errorf "invalid Beamlit token format").
Proof.
  split.
  - exact (token_carries_credentials {[envToken := "client:s3cret"]} "client" "s3cret" eq_refl eq_refl ltac:(discriminate)).
  - exact (token_carries_credentials {[envToken := "client:s3:cret"]} "client" "s3:cret" eq_refl eq_refl ltac:(discriminate)).
Defined.
End ClientExamples.
