(* ===== verification/ModelReconciler.v ===== *)
(** The model controller (internal/controller/modeldeployment_controller.go): its
    reconciliation loop, the events of the informers, and the maps both keep. *)

From Stdlib Require Import Ascii.
From stdpp Require Import base numbers gmap strings list.
From S2P Require Import Prelude Programs Crd Kube Offloader Configurer Registry Metric Health Convert BeamlitClient.
Local Open Scope Z_scope.

(** ** State *)

(** [src/internal/controller/modeldeployment_controller.go:48-53 ManagedModel] *)
Record ManagedModel := mkManaged {
  mm_namespace : string;
  mm_name : string;
  mm_healthy : bool;
  mm_lastGeneration : Z
}.

(** [src/internal/controller/modeldeployment_controller.go:55-73 ModelDeploymentReconciler] the maps and the
    default backend; the clients, informers and channels are the world's *)
Record ModelDeploymentReconciler := mkReconciler {
  OngoingOffloadings : gmap string Z;
  ModelState : gmap string bool;
  ManagedModels : gmap string ManagedModel;
  BeamlitModels : gmap string string;
  DefaultRemoteBackend : option RemoteBackend
}.

Definition upd_ongoing f (r : ModelDeploymentReconciler) : ModelDeploymentReconciler :=
  mkReconciler (f (OngoingOffloadings r)) (ModelState r) (ManagedModels r) (BeamlitModels r) (DefaultRemoteBackend r).
Definition upd_state f (r : ModelDeploymentReconciler) : ModelDeploymentReconciler :=
  mkReconciler (OngoingOffloadings r) (f (ModelState r)) (ManagedModels r) (BeamlitModels r) (DefaultRemoteBackend r).
Definition upd_managed f (r : ModelDeploymentReconciler) : ModelDeploymentReconciler :=
  mkReconciler (OngoingOffloadings r) (ModelState r) (f (ManagedModels r)) (BeamlitModels r) (DefaultRemoteBackend r).
Definition upd_beamlit f (r : ModelDeploymentReconciler) : ModelDeploymentReconciler :=
  mkReconciler (OngoingOffloadings r) (ModelState r) (ManagedModels r) (f (BeamlitModels r)) (DefaultRemoteBackend r).

(** The keys of the maps: [namespace/name] and [environment/model]. *)
Definition model_key (m : ModelDeployment) : string := slash_key (md_Namespace m) (md_Name m).
Definition beamlit_key (m : ModelDeployment) : string :=
  slash_key (mds_Environment (md_Spec m)) (mds_Model (md_Spec m)).

(** [src/internal/controller/modeldeployment_controller.go:44-44 modelDeploymentFinalizer] *)
Definition modelDeploymentFinalizer : string := "modeldeployment.beamlit.com/finalizer".

(** controllerutil's functions on the list of finalizers. *)
Definition ContainsFinalizer (f : string) (m : ObjectMeta) : bool := bool_decide (f ∈ meta_Finalizers m).
Definition set_finalizers (l : list string) (m : ObjectMeta) : ObjectMeta :=
  mkMeta (meta_Namespace m) (meta_Name m) (meta_Generation m) (meta_Labels m) (meta_DeletionTimestamp m) l.
Definition AddFinalizer (f : string) (m : ObjectMeta) : ObjectMeta :=
  if ContainsFinalizer f m then m else set_finalizers (meta_Finalizers m ++ [f]) m.
Definition RemoveFinalizer (f : string) (m : ObjectMeta) : ObjectMeta :=
  set_finalizers (filter (fun g => g <> f) (meta_Finalizers m)) m.

Definition set_meta (d : ObjectMeta) (m : ModelDeployment) : ModelDeployment := mkModel d (md_Spec m) (md_Status m).
Definition set_status (s : ModelDeploymentStatus) (m : ModelDeployment) : ModelDeployment :=
  mkModel (md_Meta m) (md_Spec m) s.
Definition set_ServingPort (z : Z) (m : ModelDeployment) : ModelDeployment :=
  let s := md_Status m in set_status (mkModelStatus (mst_OffloadingStatus s) z (mst_MetricPort s)
    (mst_Workspace s) (mst_CreatedAtOnBeamlit s) (mst_UpdatedAtOnBeamlit s)) m.
Definition set_MetricPort (z : Z) (m : ModelDeployment) : ModelDeployment :=
  let s := md_Status m in set_status (mkModelStatus (mst_OffloadingStatus s) (mst_ServingPort s) z
    (mst_Workspace s) (mst_CreatedAtOnBeamlit s) (mst_UpdatedAtOnBeamlit s)) m.
Definition set_beamlit_status (ws : string) (created updated : Z) (m : ModelDeployment) : ModelDeployment :=
  let s := md_Status m in set_status (mkModelStatus (mst_OffloadingStatus s) (mst_ServingPort s) (mst_MetricPort s)
    ws created updated) m.
Definition set_offloading (o : OffloadingConfig) (m : ModelDeployment) : ModelDeployment :=
  let s := md_Spec m in mkModel (md_Meta m) (mkModelSpec (mds_Model s) (mds_Enabled s) (mds_ModelSourceRef s)
    (mds_ServiceRef s) (mds_MetricServiceRef s) (mds_Environment s) (mds_Policies s) (mds_ServerlessConfig s) (Some o))
    (md_Status m).

(** [if ...RemoteBackend == nil { ...RemoteBackend = r.DefaultRemoteBackend }]. *)
Definition with_default_backend (d : option RemoteBackend) (o : OffloadingConfig) : OffloadingConfig :=
  match ol_RemoteBackend o with
  | Some _ => o
  | None => mkOffloading d (ol_Metrics o) (ol_Behavior o)
  end.

(** [time.Parse(time.RFC3339, s)]. *)
Class TimeParse := { time_Parse : string -> res Z }.

Definition RM (W A : Type) : Type := M (ModelDeploymentReconciler * W) A.
Definition Second : Z := 1000000000.

(** ** Handlers

    They are written against the control operations of [Programs], so that each is a
    computation that runs to its end ([RM W]) and a program that other handlers can be
    interleaved with ([prog]). *)

(** The loop of WatchForInformerUpdates is a sequence of the last two; reconciliations
    run beside it. *)
Inductive controller_event :=
| EvReconcile (req : NamespacedName)
| EvHealth (s : HealthStatus)
| EvMetric (s : MetricStatus).

Module Handlers.
Section Reconciler.
Context {W : Type} {F : Type -> Type} `{Hret : MRet F} `{Hbind : MBind F}
  `{Hlift : Lift (ModelDeploymentReconciler * W) F} `{Hatt : Attempt F}
  `{Hcl : CtrlClient W} `{Hb : BeamlitAPI W} `{Ho : Offloader W} `{Hcf : Configurer W}
  `{Hmi : MetricInformer W} `{Hhi : HealthInformer W} `{Htp : TimeParse}.

(** The atomic actions: one access to the controller's maps, one call of another
    component. *)
Definition own {A} (c : M ModelDeploymentReconciler A) : F A := lift (self c).
Definition call {A} (c : M W A) : F A := lift (outer c).
Definition raise {A} (e : error) : F A := lift (S:=ModelDeploymentReconciler * W) (throw e).
Definition need {A} (o : option A) : F A := lift (S:=ModelDeploymentReconciler * W) (deref o).
Definition yield_res {A} (r : res A) : F A := lift (S:=ModelDeploymentReconciler * W) (of_res r).

(** *** Reconciling *)

(** [src/internal/controller/modeldeployment_controller.go:262-280 configureOffloading] the model is
    recorded, watched, and handed to the offloader with nothing offloaded *)
Definition start_offloading (model : ModelDeployment) (o : OffloadingConfig) : F unit :=
  let key := model_key model in
  own (modify (upd_ongoing <[key := 0]>)) ;;
  own (modify (upd_state <[key := true]>)) ;;
  call (mi_Register key (ol_Metrics o) (mds_ModelSourceRef (md_Spec model)) (5 * Second) (5 * Second)) ;;
  call (hi_Register key (mds_ModelSourceRef (md_Spec model))) ;;
  ref ← need (mds_ServiceRef (md_Spec model));
  let backendServiceRef := set_sr_Name (sr_Name ref +:+ "-beamlit") ref in
  call (off_Configure model backendServiceRef (ol_RemoteBackend o) 0).

(** [src/internal/controller/modeldeployment_controller.go:232-281 configureOffloading] the model is
    returned with the default backend filled in *)
Definition configureOffloading (model : ModelDeployment) : F ModelDeployment :=
  let key := model_key model in
  call (hi_Unregister key) ;;
  call (mi_Unregister key) ;;
  call (cfg_Unconfigure (mds_ServiceRef (md_Spec model))) ;;
  call (off_Cleanup model) ;;
  own (modify (upd_ongoing (delete key))) ;;
  own (modify (upd_state (delete key))) ;;
  own (modify (upd_managed (delete key))) ;;
  match mds_OffloadingConfig (md_Spec model) with
  | None => mret model
  | Some o =>
      if negb (mds_Enabled (md_Spec model)) then mret model
      else
        d ← own (gets DefaultRemoteBackend);
        let o := with_default_backend d o in
        let model := set_offloading o model in
        call (cfg_Configure (mds_ServiceRef (md_Spec model))) ;;
        start_offloading model o ;;
        mret model
  end.

(** [src/internal/controller/modeldeployment_controller.go:163-174 createOrUpdate] the port of a service
    that the model names, or none *)
Definition port_of (service : option ServiceReference) : F (option Z) :=
  match service with
  | None => mret None
  | Some s =>
      port ← call (RetrievePodPort (mkRef (ref_Kind (sr_ObjectReference s)) "" (sr_Namespace s) (sr_Name s))
                      (sr_TargetPort s));
      mret (Some (int32 port))
  end.

(** [src/internal/controller/modeldeployment_controller.go:148-161 createOrUpdate] whether there is nothing
    to do: another model owns the name on Beamlit, or the generation is known *)
Definition skip_model (r : ModelDeploymentReconciler) (model : ModelDeployment) : bool :=
  match BeamlitModels r !! beamlit_key model with
  | Some value => negb (String.eqb value (md_Name model))
  | None => false
  end ||
  match ManagedModels r !! model_key model with
  | Some value => mm_lastGeneration value =? md_Generation model
  | None => false
  end.

(** [src/internal/controller/modeldeployment_controller.go:162-230 createOrUpdate] the rest of it *)
Definition apply_model (model : ModelDeployment) : F unit :=
  servingPort ← port_of (mds_ServiceRef (md_Spec model));
  let model := match servingPort with Some p => set_ServingPort p model | None => model end in
  metricPort ← port_of (mds_MetricServiceRef (md_Spec model));
  let model := match metricPort with Some p => set_MetricPort p model | None => model end in
  beamlitModelDeployment ← call (ToBeamlitModelDeployment model);
  own (modify (upd_beamlit <[beamlit_key model := md_Name model]>)) ;;
  updated ← call (CreateOrUpdateModel beamlitModelDeployment);
  ws ← need (bm_Workspace (bmod_Metadata updated));
  createdText ← need (bm_CreatedAt (bmod_Metadata updated));
  createdAt ← yield_res (time_Parse createdText);
  updatedText ← need (bm_UpdatedAt (bmod_Metadata updated));
  updatedAt ← yield_res (time_Parse updatedText);
  let model := set_beamlit_status ws createdAt updatedAt model in
  model ← configureOffloading model;
  _ ← call (client_UpdateModelStatus model);
  own (modify (upd_managed <[model_key model :=
    mkManaged (md_Namespace model) (md_Name model) true (md_Generation model)]>)).

(** [src/internal/controller/modeldeployment_controller.go:148-230 createOrUpdate] *)
Definition createOrUpdate (model : ModelDeployment) : F unit :=
  skip ← own (gets (fun r => skip_model r model));
  if (skip : bool) then mret tt else apply_model model.

(** [src/internal/controller/modeldeployment_controller.go:283-314 finalizeModel] *)
Definition finalizeModel (model : ModelDeployment) : F unit :=
  let key := model_key model in
  own (modify (upd_beamlit (delete (beamlit_key model)))) ;;
  own (modify (upd_ongoing (delete key))) ;;
  own (modify (upd_state (delete key))) ;;
  own (modify (upd_managed (delete key))) ;;
  match mds_OffloadingConfig (md_Spec model) with
  | None => mret tt
  | Some _ =>
      call (mi_Unregister key) ;;
      call (hi_Unregister key) ;;
      call (cfg_Unconfigure (mds_ServiceRef (md_Spec model))) ;;
      call (off_Cleanup model) ;;
      call (DeleteModelDeployment (mds_Model (md_Spec model)) (mds_Environment (md_Spec model)))
  end.

(** [src/internal/controller/modeldeployment_controller.go:133-145 Reconcile] the end of the loop: a
    conflict asks for another round ([true]), another error forgets the model *)
Definition settle_model (model : ModelDeployment) : F bool :=
  r ← attempt (createOrUpdate model);
  match r with
  | inl _ => mret false
  | inr e =>
      if IsConflict e then mret true
      else
        own (modify (upd_state (delete (model_key model)))) ;;
        own (modify (upd_ongoing (delete (model_key model)))) ;;
        own (modify (upd_managed (delete (model_key model)))) ;;
        raise e
  end.

(** [src/internal/controller/modeldeployment_controller.go:94-146 Reconcile] whether to requeue *)
Definition Reconcile (req : NamespacedName) : F bool :=
  got ← attempt (call (client_GetModel req));
  match got with
  | inr e => if IsNotFound e then mret false else raise e
  | inl model =>
      match meta_DeletionTimestamp (md_Meta model) with
      | Some _ =>
          if ContainsFinalizer modelDeploymentFinalizer (md_Meta model) then
            finalizeModel model ;;
            _ ← call (client_UpdateModel
                  (set_meta (RemoveFinalizer modelDeploymentFinalizer (md_Meta model)) model));
            mret false
          else mret false
      | None =>
          if negb (ContainsFinalizer modelDeploymentFinalizer (md_Meta model)) then
            _ ← call (client_UpdateModel
                  (set_meta (AddFinalizer modelDeploymentFinalizer (md_Meta model)) model));
            mret false
          else settle_model model
      end
  end.

(** *** Events *)

(** [src/internal/controller/modeldeployment_controller.go:477-479 notifyOnBeamlit] *)
Definition notifyOnBeamlit (model : ModelDeployment) (offloading : bool) : F unit :=
  call (NotifyOnModelOffloading (mds_Model (md_Spec model)) (mds_Environment (md_Spec model)) offloading).

(** [src/internal/controller/modeldeployment_controller.go:410-418 metricCallback] the pair of calls that every
    change of the share makes, with the percentage at hand: the local service, then the
    offloader with it *)
Definition offload_to (model : ModelDeployment) (o : OffloadingConfig) (percentage : Z) : F unit :=
  localServiceRef ← call (cfg_GetLocalBeamlitService (mds_ServiceRef (md_Spec model)));
  call (off_Configure model localServiceRef (ol_RemoteBackend o) percentage).

(** [src/internal/controller/modeldeployment_controller.go:376-426 metricCallback] *)
Definition metricCallback (model : ModelDeployment) (o : OffloadingConfig) (reached : bool) : F unit :=
  let key := model_key model in
  state ← own (gets (fun r => ModelState r !! key));
  ongoing ← own (gets (fun r => OngoingOffloadings r !! key));
  match state, ongoing with
  | Some false, _ => mret tt
  | _, None => mret tt
  | _, Some value =>
      if negb reached then
        if value =? 0 then mret tt
        else
          own (modify (upd_ongoing (delete key))) ;;
          offload_to model o 0 ;;
          _ ← attempt (notifyOnBeamlit model false);
          mret tt
      else
        behavior ← need (ol_Behavior o);
        if value =? ob_Percentage behavior then mret tt
        else
          offload_to model o (ob_Percentage behavior) ;;
          own (modify (upd_ongoing <[key := ob_Percentage behavior]>)) ;;
          _ ← attempt (notifyOnBeamlit model true);
          mret tt
  end.

(** [src/internal/controller/modeldeployment_controller.go:428-475 healthCheckCallback] *)
Definition healthCheckCallback (model : ModelDeployment) (o : OffloadingConfig) (healthStatus : bool) : F unit :=
  let key := model_key model in
  if negb healthStatus then
    offload_to model o 100 ;;
    own (modify (upd_ongoing <[key := 100]>)) ;;
    _ ← attempt (notifyOnBeamlit model true);
    own (modify (upd_state <[key := false]>))
  else
    ongoing ← own (gets (fun r => OngoingOffloadings r !! key));
    match ongoing with
    | None => mret tt
    | Some value =>
        behavior ← need (ol_Behavior o);
        if value =? ob_Percentage behavior then mret tt
        else
          offload_to model o (ob_Percentage behavior) ;;
          own (modify (upd_ongoing <[key := ob_Percentage behavior]>)) ;;
          _ ← attempt (notifyOnBeamlit model true);
          own (modify (upd_state <[key := true]>))
    end.

(** [src/internal/controller/modeldeployment_controller.go:356-364 WatchForInformerUpdates] the model of an
    event and its offloading settings, a nil dereference when it has none *)
Definition event_model (value : ManagedModel) : F (ModelDeployment * OffloadingConfig) :=
  model ← call (client_GetModel (mkNN (mm_namespace value) (mm_name value)));
  o ← need (mds_OffloadingConfig (md_Spec model));
  d ← own (gets DefaultRemoteBackend);
  let o := with_default_backend d o in
  mret (set_offloading o model, o).

(** [src/internal/controller/modeldeployment_controller.go:330-348 WatchForInformerUpdates] errors are
    logged and the loop goes on *)
Definition on_health (healthStatus : HealthStatus) : F unit :=
  found ← own (gets (fun r => ManagedModels r !! hs_ModelName healthStatus));
  match found with
  | None => mret tt
  | Some value =>
      _ ← attempt ('(model, o) ← event_model value; healthCheckCallback model o (hs_Healthy healthStatus));
      mret tt
  end.

(** [src/internal/controller/modeldeployment_controller.go:349-371 WatchForInformerUpdates] *)
Definition on_metric (metricStatus : MetricStatus) : F unit :=
  found ← own (gets (fun r => ManagedModels r !! mst_ModelName metricStatus));
  match found with
  | None => mret tt
  | Some value =>
      if negb (mm_healthy value) then mret tt
      else
        _ ← attempt ('(model, o) ← event_model value; metricCallback model o (mst_Reached metricStatus));
        mret tt
  end.

(** [src/internal/controller/modeldeployment_controller.go:323-374 WatchForInformerUpdates] one turn of the loop,
    or one reconciliation *)
Definition handle (ev : controller_event) : F unit :=
  match ev with
  | EvReconcile req => _ ← attempt (Reconcile req); mret tt
  | EvHealth s => on_health s
  | EvMetric s => on_metric s
  end.
End Reconciler.
End Handlers.

(** Run to their end. *)
Notation start_offloading := (Handlers.start_offloading (F:=M (ModelDeploymentReconciler * _))).
Notation configureOffloading := (Handlers.configureOffloading (F:=M (ModelDeploymentReconciler * _))).
Notation port_of := (Handlers.port_of (F:=M (ModelDeploymentReconciler * _))).
Notation apply_model := (Handlers.apply_model (F:=M (ModelDeploymentReconciler * _))).
Notation createOrUpdate := (Handlers.createOrUpdate (F:=M (ModelDeploymentReconciler * _))).
Notation finalizeModel := (Handlers.finalizeModel (F:=M (ModelDeploymentReconciler * _))).
Notation settle_model := (Handlers.settle_model (F:=M (ModelDeploymentReconciler * _))).
Notation Reconcile := (Handlers.Reconcile (F:=M (ModelDeploymentReconciler * _))).
Notation notifyOnBeamlit := (Handlers.notifyOnBeamlit (F:=M (ModelDeploymentReconciler * _))).
Notation offload_to := (Handlers.offload_to (F:=M (ModelDeploymentReconciler * _))).
Notation metricCallback := (Handlers.metricCallback (F:=M (ModelDeploymentReconciler * _))).
Notation healthCheckCallback := (Handlers.healthCheckCallback (F:=M (ModelDeploymentReconciler * _))).
Notation event_model := (Handlers.event_model (F:=M (ModelDeploymentReconciler * _))).
Notation on_health := (Handlers.on_health (F:=M (ModelDeploymentReconciler * _))).
Notation on_metric := (Handlers.on_metric (F:=M (ModelDeploymentReconciler * _))).
Notation handle := (Handlers.handle (F:=M (ModelDeploymentReconciler * _))).
Notation skip_model := Handlers.skip_model.

(** Enter a handler that runs to its end. *)
Tactic Notation "enter" reference(f) := unfold f, Handlers.own, Handlers.call, Handlers.raise, Handlers.need, Handlers.yield_res,
  lift, M_lift, attempt, M_attempt; cbv beta.
Tactic Notation "enter" reference(f) "in" hyp(H) := unfold f, Handlers.own, Handlers.call, Handlers.raise, Handlers.need,
  Handlers.yield_res, lift, M_lift, attempt, M_attempt in H; cbv beta in H.

(** ** What the controller assumes of its surroundings

    Everything but the offloader leaves the shares in force alone; registering a watcher
    returns nothing, so it does not fail; the API server returns the object asked for. *)
Class Surroundings (W : Type) `{OffloaderSpec W} `{CtrlClient W} `{BeamlitAPI W} `{Configurer W}
    `{MetricInformer W} `{HealthInformer W} : Prop := {
  keeps_GetModel k w : offloaded (client_GetModel k w).1 = offloaded w;
  keeps_UpdateModel m w : offloaded (client_UpdateModel m w).1 = offloaded w;
  keeps_UpdateModelStatus m w : offloaded (client_UpdateModelStatus m w).1 = offloaded w;
  keeps_GetService k w : offloaded (client_GetService k w).1 = offloaded w;
  keeps_GetPodTemplate s k w : offloaded (client_GetPodTemplate s k w).1 = offloaded w;
  keeps_sdk_GetModel a b w : offloaded (sdk_GetModel a b w).1 = offloaded w;
  keeps_sdk_CreateModel a w : offloaded (sdk_CreateModel a w).1 = offloaded w;
  keeps_sdk_UpdateModel a b w : offloaded (sdk_UpdateModel a b w).1 = offloaded w;
  keeps_sdk_DeleteModel a b w : offloaded (sdk_DeleteModel a b w).1 = offloaded w;
  keeps_cfg_Configure s w : offloaded (cfg_Configure s w).1 = offloaded w;
  keeps_cfg_Unconfigure s w : offloaded (cfg_Unconfigure s w).1 = offloaded w;
  keeps_cfg_GetLocal s w : offloaded (cfg_GetLocalBeamlitService s w).1 = offloaded w;
  keeps_mi_Register a b c d e w : offloaded (mi_Register a b c d e w).1 = offloaded w;
  keeps_mi_Unregister a w : offloaded (mi_Unregister a w).1 = offloaded w;
  keeps_hi_Register a b w : offloaded (hi_Register a b w).1 = offloaded w;
  keeps_hi_Unregister a w : offloaded (hi_Unregister a w).1 = offloaded w;
  mi_Register_no_error a b c d f w e : (mi_Register a b c d f w).2 <> Err e;
  hi_Register_no_error a b w e : (hi_Register a b w).2 <> Err e;
  GetModel_named k w m : (client_GetModel k w).2 = Ok m -> md_Namespace m = nn_Namespace k /\ md_Name m = nn_Name k
}.

(** Failed calls of the offloader had no effect (no answer of the gateway was lost), and
    its errors are not conflicts of the Kubernetes API. *)
Class CleanFailures (W : Type) `{OffloaderSpec W} : Prop := {
  clean_Configure m lb rb p w : (off_Configure m lb rb p w).2 <> Ok tt ->
    offloaded (off_Configure m lb rb p w).1 = offloaded w;
  Configure_no_conflict m lb rb p w e : (off_Configure m lb rb p w).2 = Err e -> IsConflict e = false;
  clean_Cleanup m w : (off_Cleanup m w).2 <> Ok tt -> offloaded (off_Cleanup m w).1 = offloaded w
}.

(** ** Calls that leave the shares in force alone *)
Notation still := (keeps offloaded).
Section Still.
Context {W : Type} `{Ho : Offloader W} `{Hos : !OffloaderSpec W} `{Hcl : CtrlClient W} `{Hb : BeamlitAPI W}
  `{Hcf : Configurer W} `{Hmi : MetricInformer W} `{Hhi : HealthInformer W} `{Hsur : !Surroundings W}.

Lemma still_NotifyOnModelOffloading a b c : still (NotifyOnModelOffloading a b c).
Proof. apply keeps_NotifyOnModelOffloading; intros; intros w; apply Hsur. Qed.
Lemma still_CreateOrUpdateModel a : still (CreateOrUpdateModel a).
Proof. apply keeps_CreateOrUpdateModel; intros; intros w; apply Hsur. Qed.
Lemma still_DeleteModelDeployment a b : still (DeleteModelDeployment a b).
Proof. apply keeps_DeleteModelDeployment; intros; intros w; apply Hsur. Qed.
Lemma still_RetrievePodPort a b : still (RetrievePodPort a b).
Proof. apply keeps_RetrievePodPort; intros; intros w; apply Hsur. Qed.
Lemma still_ToBeamlitModelDeployment m : still (ToBeamlitModelDeployment m).
Proof. apply keeps_ToBeamlitModelDeployment; intros; intros w; apply Hsur. Qed.
End Still.

(** What [configureOffloading] returns is the same model. *)
Lemma configureOffloading_named {W} `{CtrlClient W} `{BeamlitAPI W} `{Offloader W} `{Configurer W} `{MetricInformer W}
    `{HealthInformer W} (m : ModelDeployment) :
  onok (S:=ModelDeploymentReconciler * W) (fun _ => True) (configureOffloading m) (fun m' _ => md_Meta m' = md_Meta m).
Proof.
  unfold configureOffloading. do 7 (eapply (onok_bind _ _ _ (fun _ _ => True)); [done|intros ?]).
  destruct (mds_OffloadingConfig (md_Spec m)) as [o|]; [|by intros ? ? ? _ [= _ <-]].
  case_match; [by intros ? ? ? _ [= _ <-]|].
  eapply (onok_bind _ _ _ (fun _ _ => True)); [done|intros d].
  do 2 (eapply (onok_bind _ _ _ (fun _ _ => True)); [done|intros ?]). by intros ? ? ? _ [= _ <-].
Qed.
