(* ===== verification/ModelSync.v ===== *)
(** The record of the shares: what a handler of the model controller relies on and what
    it leaves, handler by handler, whether it runs alone or beside handlers of other
    models. *)

From Stdlib Require Import Ascii.
From stdpp Require Import base numbers gmap strings list.
From S2P Require Import Prelude Programs Crd Kube Offloader Configurer Registry Metric Health Convert BeamlitClient.
From S2P Require Import ModelReconciler.
Local Open Scope Z_scope.

(** ** Run alone

    A handler as a program, run to its end, is the handler as a computation. *)
Section RunAlone.
Context {W : Type} `{Ho : Offloader W} `{Hcl : CtrlClient W} `{Hb : BeamlitAPI W}
  `{Hcf : Configurer W} `{Hmi : MetricInformer W} `{Hhi : HealthInformer W} `{Htp : TimeParse}.
Local Abbreviation RW := (ModelDeploymentReconciler * W)%type.

Lemma runs_offload_to m o p :
  runs_as (Handlers.offload_to (F:=prog RW) m o p) (Handlers.offload_to (F:=M RW) m o p).
Proof. unfold Handlers.offload_to. runs. Qed.
Hint Resolve runs_offload_to : runs.
Lemma runs_metricCallback m o b :
  runs_as (Handlers.metricCallback (F:=prog RW) m o b) (Handlers.metricCallback (F:=M RW) m o b).
Proof. unfold Handlers.metricCallback. runs. Qed.
Hint Resolve runs_metricCallback : runs.
Lemma runs_healthCheckCallback m o b :
  runs_as (Handlers.healthCheckCallback (F:=prog RW) m o b) (Handlers.healthCheckCallback (F:=M RW) m o b).
Proof. unfold Handlers.healthCheckCallback. runs. Qed.
Hint Resolve runs_healthCheckCallback : runs.
Lemma runs_event_model v :
  runs_as (Handlers.event_model (F:=prog RW) v) (Handlers.event_model (F:=M RW) v).
Proof. unfold Handlers.event_model. runs. Qed.
Hint Resolve runs_event_model : runs.
Lemma runs_configureOffloading m :
  runs_as (Handlers.configureOffloading (F:=prog RW) m) (Handlers.configureOffloading (F:=M RW) m).
Proof. unfold Handlers.configureOffloading, Handlers.start_offloading. runs. Qed.
Hint Resolve runs_configureOffloading : runs.
Lemma runs_apply_model m :
  runs_as (Handlers.apply_model (F:=prog RW) m) (Handlers.apply_model (F:=M RW) m).
Proof. unfold Handlers.apply_model, Handlers.port_of. runs. Qed.
Hint Resolve runs_apply_model : runs.
Lemma runs_settle_model m :
  runs_as (Handlers.settle_model (F:=prog RW) m) (Handlers.settle_model (F:=M RW) m).
Proof. unfold Handlers.settle_model, Handlers.createOrUpdate. runs. Qed.
Hint Resolve runs_settle_model : runs.
Lemma runs_finalizeModel m :
  runs_as (Handlers.finalizeModel (F:=prog RW) m) (Handlers.finalizeModel (F:=M RW) m).
Proof. unfold Handlers.finalizeModel. runs. Qed.
Hint Resolve runs_finalizeModel : runs.
Lemma runs_Reconcile req :
  runs_as (Handlers.Reconcile (F:=prog RW) req) (Handlers.Reconcile (F:=M RW) req).
Proof. unfold Handlers.Reconcile. runs. Qed.
Hint Resolve runs_Reconcile : runs.

Lemma runs_handle ev : runs_as (Handlers.handle (F:=prog RW) ev) (Handlers.handle (F:=M RW) ev).
Proof.
  unfold Handlers.handle, Handlers.on_health, Handlers.on_metric.
  runs.
Qed.
End RunAlone.

Section Sync.
Context {W : Type} `{Ho : Offloader W} `{Hos : !OffloaderSpec W} `{Hcl : CtrlClient W} `{Hb : BeamlitAPI W}
  `{Hcf : Configurer W} `{Hmi : MetricInformer W} `{Hhi : HealthInformer W} `{Htp : TimeParse}
  `{Hsur : !Surroundings W} `{Hclean : !CleanFailures W}.
Variable ns : string.
Hypothesis Hns : contains_byte "/"%char ns = false.
Local Abbreviation RW := (ModelDeploymentReconciler * W)%type.
Implicit Types (x : RW) (r : ModelDeploymentReconciler) (w : W) (m : ModelDeployment).

(** ** What a handler of a model owns

    The percentage recorded for it and the one in force; they agree between two handlers,
    if one is recorded.  Of a model one of whose handlers panicked and was recovered
    nothing is said: [lax] tells whether this is such a model. *)
Variable lax : Prop.
Definition share : Type := option Z * option Z.
Definition mine (n : string) x : share := (OngoingOffloadings x.1 !! slash_key ns n, offloaded x.2 !! n).
Definition in_step (v : share) : Prop := lax \/ forall p, v.1 = Some p -> v.2 = Some p.
Lemma in_step_recorded p : in_step (Some p, Some p).
Proof. right. by intros q [= <-]. Qed.
Lemma in_step_none b : in_step (None, b).
Proof. by right. Qed.

(** The watched models are those of the namespace, under their keys. *)
Definition good x : Prop := forall k v, ManagedModels x.1 !! k = Some v ->
  mm_namespace v = ns /\ k = slash_key ns (mm_name v).

Notation owns n p Q v := (owp good mine n p Q v).

(** ** The actions *)

Lemma key_ne n n' : n' <> n -> slash_key ns n <> slash_key ns n'.
Proof. intros Hne E. apply slash_key_inj in E as [_ ?]; congruence. Qed.

Lemma owns_still {A} n (c : M W A) (Q : res A -> share -> Prop) v :
  still c -> (forall w, (c w).2 <> Panic -> Q (c w).2 v) -> owns n (Handlers.call (F:=prog RW) c) Q v.
Proof.
  intros Hc HQ. apply owp_lift. intros [r w] Hg Hv. unfold outer, zoom. cbn. specialize (Hc w). specialize (HQ w).
  destruct (c w) as [w' res]. cbn in *. split_and!; [done| |].
  - intros n' _. unfold mine. cbn. by rewrite Hc.
  - intros Hp. unfold mine. cbn. rewrite Hc. subst v. by apply HQ.
Qed.

Lemma owns_gets {A} n (f : ModelDeploymentReconciler -> A) (Q : res A -> share -> Prop) v :
  (forall r w, good (r, w) -> mine n (r, w) = v -> Q (Ok (f r)) v) ->
  owns n (Handlers.own (W:=W) (F:=prog RW) (gets f)) Q v.
Proof.
  intros HQ. apply owp_lift. intros [r w] Hg Hv. split_and!; [done|apply others_kept_refl|]. intros _. cbn.
  change (mine n (self (gets f) (r, w)).1) with (mine n (r, w)). rewrite Hv. by eapply HQ.
Qed.

Lemma owns_modify n f (Q : res unit -> share -> Prop) v v' :
  (forall r w, good (r, w) -> good (f r, w)) ->
  (forall r n', n' <> n -> OngoingOffloadings (f r) !! slash_key ns n' = OngoingOffloadings r !! slash_key ns n') ->
  (forall r w, mine n (r, w) = v -> mine n (f r, w) = v') ->
  Q (Ok tt) v' -> owns n (Handlers.own (W:=W) (F:=prog RW) (modify f)) Q v.
Proof.
  intros Hgood Hothers Hmine HQ. apply owp_lift. intros [r w] Hg Hv. unfold self, zoom. cbn. split_and!.
  - by apply Hgood.
  - intros n' Hn'. unfold mine. cbn. by rewrite Hothers.
  - intros _. by rewrite (Hmine r w Hv).
Qed.

(** The four ways the maps are written: nothing of the record, no watched model. *)
Lemma owns_quiet n f (Q : res unit -> share -> Prop) v :
  (forall r, OngoingOffloadings (f r) = OngoingOffloadings r) ->
  (forall r, ManagedModels (f r) = ManagedModels r) ->
  Q (Ok tt) v -> owns n (Handlers.own (W:=W) (F:=prog RW) (modify f)) Q v.
Proof.
  intros Hf Hm HQ. apply (owns_modify n f Q v v); [| |intros r w <-|done].
  - unfold good. cbn. intros r w. by rewrite Hm.
  - intros r n' _. by rewrite Hf.
  - unfold mine. cbn. by rewrite Hf.
Qed.
Lemma owns_forget n (Q : res unit -> share -> Prop) v :
  Q (Ok tt) (None, v.2) -> owns n (Handlers.own (W:=W) (F:=prog RW) (modify (upd_ongoing (delete (slash_key ns n))))) Q v.
Proof.
  apply owns_modify; [done| |].
  - intros r n' Hn'. cbn. rewrite lookup_delete_ne; [done|by apply key_ne].
  - intros r w <-. unfold mine. cbn. by rewrite lookup_delete_eq.
Qed.
Lemma owns_record n p (Q : res unit -> share -> Prop) v :
  Q (Ok tt) (Some p, v.2) -> owns n (Handlers.own (W:=W) (F:=prog RW) (modify (upd_ongoing <[slash_key ns n := p]>))) Q v.
Proof.
  apply owns_modify; [done| |].
  - intros r n' Hn'. cbn. rewrite lookup_insert_ne; [done|by apply key_ne].
  - intros r w <-. unfold mine. cbn. by rewrite lookup_insert_eq.
Qed.
Lemma owns_unwatch n k (Q : res unit -> share -> Prop) v :
  Q (Ok tt) v -> owns n (Handlers.own (W:=W) (F:=prog RW) (modify (upd_managed (delete k)))) Q v.
Proof.
  apply owns_modify; [|done|done]. unfold good. cbn. intros r w Hg k' v' [_ Hv']%lookup_delete_Some. by apply Hg.
Qed.
Lemma owns_watch n v0 (Q : res unit -> share -> Prop) v :
  mm_namespace v0 = ns ->
  Q (Ok tt) v -> owns n (Handlers.own (W:=W) (F:=prog RW) (modify (upd_managed <[slash_key ns (mm_name v0) := v0]>))) Q v.
Proof.
  intros Hv0. apply owns_modify; [|done|done]. unfold good. cbn. intros r w Hg k' v' Hk.
  apply lookup_insert_Some in Hk as [[<- <-]|[_ Hk]]; [done|by apply Hg].
Qed.

Lemma owns_raise {A} n e (Q : res A -> share -> Prop) v :
  Q (Err e) v -> owns n (Handlers.raise (W:=W) (F:=prog RW) e) Q v.
Proof.
  intros HQ. apply owp_lift. intros x Hg Hv. split_and!; [done|apply others_kept_refl|]. intros _. cbn.
  change (mine n (throw (A:=A) e x).1) with (mine n x). by rewrite Hv.
Qed.
Lemma owns_need {A} n (o : option A) (Q : res A -> share -> Prop) v :
  (forall a, o = Some a -> Q (Ok a) v) -> owns n (Handlers.need (W:=W) (F:=prog RW) o) Q v.
Proof.
  intros HQ. apply owp_lift. intros x Hg Hv.
  destruct o as [a|]; (split_and!; [done|apply others_kept_refl|]); [intros _; cbn|done].
  change (mine n (deref (Some a) x).1) with (mine n x). rewrite Hv. by apply HQ.
Qed.
Lemma owns_yield {A} n (res : res A) (Q : Prelude.res A -> share -> Prop) v :
  (res <> Panic -> Q res v) -> owns n (Handlers.yield_res (W:=W) (F:=prog RW) res) Q v.
Proof.
  intros HQ. apply owp_lift. intros x Hg Hv. split_and!; [done|apply others_kept_refl|]. cbn.
  change (mine n (of_res res x).1) with (mine n x). by rewrite Hv.
Qed.

(** The offloader's. *)
Lemma owns_Configure m lb rb p (Q : res unit -> share -> Prop) v :
  Q (Ok tt) (v.1, Some p) -> (forall e, IsConflict e = false -> Q (Err e) v) ->
  owns (md_Name m) (Handlers.call (F:=prog RW) (off_Configure m lb rb p)) Q v.
Proof.
  intros Hok Herr. apply owp_lift. intros [r w] Hg Hv. unfold outer, zoom. cbn.
  pose proof (Configure_others m lb rb p w) as Ho'. pose proof (Configure_ok m lb rb p w) as Hp.
  pose proof (clean_Configure m lb rb p w) as Hc. pose proof (Configure_no_conflict m lb rb p w) as Hnc.
  destruct (off_Configure m lb rb p w) as [w' res]. cbn in *. split_and!; [done| |].
  - intros n' Hn'. unfold mine. cbn. by rewrite Ho'.
  - intros Hres. unfold mine in *. cbn in *. destruct res as [[]|e|]; [|rewrite Hc, Hv by done; by apply Herr, Hnc|done].
    destruct (Hp eq_refl) as [Hp' _]. rewrite Hp'. by subst v.
Qed.
Lemma owns_Cleanup m (Q : res unit -> share -> Prop) v :
  (forall b, Q (Ok tt) (v.1, b)) -> (forall e, Q (Err e) v) ->
  owns (md_Name m) (Handlers.call (F:=prog RW) (off_Cleanup m)) Q v.
Proof.
  intros Hok Herr. apply owp_lift. intros [r w] Hg Hv. unfold outer, zoom. cbn.
  pose proof (Cleanup_others m w) as Ho'. pose proof (clean_Cleanup m w) as Hc.
  destruct (off_Cleanup m w) as [w' res]. cbn in *. split_and!; [done| |].
  - intros n' Hn'. unfold mine. cbn. by rewrite Ho'.
  - intros Hres. unfold mine in *. cbn in *. destruct res as [[]|e|]; [by subst v|rewrite Hc, Hv by done; by apply Herr|done].
Qed.

(** A finished action on the way to the goal: only the outcomes that go on remain. *)
Ltac act_with lem := apply owp_bind; apply lem; cbv beta iota.
Ltac quiet := apply owp_bind; apply owns_quiet; [reflexivity..|]; cbv beta iota.

Lemma owns_still_bind {A B} n (c : M W A) (k : A -> prog RW B) (Q : res B -> share -> Prop) v :
  still c -> (forall e, Q (Err e) v) -> (forall a, owns n (k a) Q v) ->
  owns n (Handlers.call (F:=prog RW) c ≫= k) Q v.
Proof. intros Hc Herr Hk. apply owp_bind, owns_still; [done|]. intros w Hnp. destruct (c w).2; auto. Qed.

Lemma owns_get_model n req {B} (k : ModelDeployment + error -> prog RW B) (Q : res B -> share -> Prop) v :
  (forall e, owns n (k (inr e)) Q v) ->
  (forall m, md_Namespace m = nn_Namespace req -> md_Name m = nn_Name req -> owns n (k (inl m)) Q v) ->
  owns n (attempt (Handlers.call (F:=prog RW) (client_GetModel req)) ≫= k) Q v.
Proof.
  intros Herr Hok. apply owp_bind, owp_attempt, owns_still; [intros ?; apply keeps_GetModel|].
  intros w Hnp. pose proof (GetModel_named req w) as Hn. destruct (client_GetModel req w).2 as [m|e|]; cbn; [|apply Herr|done].
  destruct (Hn m eq_refl). by apply Hok.
Qed.

(** ** The handlers *)

Definition settles_or_errs {A} (r : res A) (v : share) : Prop :=
  match r with Err e => IsConflict e = true -> in_step v | _ => in_step v end.

Lemma owns_notify n m b v :
  owns n (attempt (Handlers.notifyOnBeamlit (F:=prog RW) m b)) (fun _ v' => v' = v) v.
Proof.
  apply owp_attempt, owns_still; [intros w; apply still_NotifyOnModelOffloading|]. intros w _. by destruct (_ w).2.
Qed.

(** The percentage put in force; the record is as it was. *)
Lemma owns_offload_to m o p (Q : res unit -> share -> Prop) v :
  Q (Ok tt) (v.1, Some p) -> (forall e, Q (Err e) v) ->
  owns (md_Name m) (Handlers.offload_to (F:=prog RW) m o p) Q v.
Proof.
  intros Hok Herr. apply owns_still_bind; [intros ?; apply keeps_cfg_GetLocal|exact Herr|]. intros lb.
  by apply owns_Configure.
Qed.

(** Put in force and recorded. *)
Lemma owns_offload m o p (k : unit -> prog RW unit) v :
  md_Namespace m = ns -> in_step v ->
  (forall v', in_step v' -> owns (md_Name m) (k tt) (fun _ => in_step) v') ->
  owns (md_Name m) (Handlers.offload_to (F:=prog RW) m o p ;;
    (Handlers.own (W:=W) (F:=prog RW) (modify (upd_ongoing <[model_key m := p]>)) ≫= k)) (fun _ => in_step) v.
Proof.
  intros Hm Hv Hk. apply owp_bind, owns_offload_to; [|by intros e].
  unfold model_key. rewrite Hm. act_with owns_record. apply Hk, in_step_recorded.
Qed.

Lemma owns_metricCallback m o b v :
  md_Namespace m = ns -> in_step v ->
  owns (md_Name m) (Handlers.metricCallback (F:=prog RW) m o b) (fun _ => in_step) v.
Proof.
  intros Hm Hv. unfold Handlers.metricCallback.
  act_with (@owns_gets (option bool)). intros r1 w1 _ _. act_with (@owns_gets (option Z)). intros r2 w2 _ _.
  generalize (ModelState r1 !! model_key m) (OngoingOffloadings r2 !! model_key m). intros st og.
  assert (forall value, owns (md_Name m) (if negb b then
      if value =? 0 then mret tt
      else Handlers.own (W:=W) (F:=prog RW) (modify (upd_ongoing (delete (model_key m)))) ;;
           Handlers.offload_to m o 0 ;; _ ← attempt (Handlers.notifyOnBeamlit m false); mret tt
      else behavior ← Handlers.need (W:=W) (F:=prog RW) (ol_Behavior o);
        if value =? ob_Percentage behavior then mret tt
        else Handlers.offload_to m o (ob_Percentage behavior) ;;
             Handlers.own (W:=W) (F:=prog RW) (modify (upd_ongoing <[model_key m := ob_Percentage behavior]>)) ;;
             _ ← attempt (Handlers.notifyOnBeamlit m true); mret tt) (fun _ => in_step) v) as Hgo.
  { intros value. destruct b; cbn [negb].
    - act_with (@owns_need OffloadingBehavior). intros bh _. case_match; [by apply owp_ret|].
      apply owns_offload; [done..|]. intros v' Hv'. apply owp_bind. eapply owp_mono; [apply owns_notify|].
      by intros [?|e|] v'' ->.
    - case_match; [by apply owp_ret|]. unfold model_key. rewrite Hm. act_with owns_forget.
      apply owp_bind, owns_offload_to; [|intros e; apply in_step_none]. cbv beta iota.
      apply owp_bind. eapply owp_mono; [apply owns_notify|]. intros [?|e|] v1 ->; [apply owp_ret| |done]; apply in_step_none. }
  destruct st as [[]|], og as [value|]; first [by apply owp_ret | apply Hgo].
Qed.

Lemma owns_healthCheckCallback m o b v :
  md_Namespace m = ns -> in_step v ->
  owns (md_Name m) (Handlers.healthCheckCallback (F:=prog RW) m o b) (fun _ => in_step) v.
Proof.
  intros Hm Hv. unfold Handlers.healthCheckCallback.
  assert (forall st v', in_step v' -> owns (md_Name m) (_ ← attempt (Handlers.notifyOnBeamlit (F:=prog RW) m true);
    Handlers.own (W:=W) (F:=prog RW) (modify (upd_state <[model_key m := st]>))) (fun _ => in_step) v') as Hend.
  { intros st v' Hv'. apply owp_bind. eapply owp_mono; [apply owns_notify|]. intros [?|e|] v'' ->; [|done..].
    by apply owns_quiet. }
  destruct b; cbn [negb].
  - act_with (@owns_gets (option Z)). intros r1 w1 _ _. case_match; [|by apply owp_ret].
    act_with (@owns_need OffloadingBehavior). intros bh _. case_match; [by apply owp_ret|].
    apply owns_offload; [done..|]. by apply Hend.
  - apply owns_offload; [done..|]. by apply Hend.
Qed.

(** An event of a model that is watched. *)
Lemma owns_event n v0 (f : ModelDeployment -> OffloadingConfig -> prog RW unit) v :
  mm_namespace v0 = ns -> mm_name v0 = n -> in_step v ->
  (forall m o, md_Namespace m = ns -> md_Name m = n -> owns n (f m o) (fun _ => in_step) v) ->
  owns n (_ ← attempt ('(model, o) ← Handlers.event_model (F:=prog RW) v0; f model o); mret tt) (fun _ => in_step) v.
Proof.
  intros Hns0 Hn0 Hv Hf. apply owp_bind, owp_attempt, owp_bind. unfold Handlers.event_model.
  apply owp_bind, owns_still; [intros ?; apply keeps_GetModel|]. intros w Hnp.
  pose proof (GetModel_named (mkNN (mm_namespace v0) (mm_name v0)) w) as Hn.
  destruct (client_GetModel _ w).2 as [m|e|]; cbv beta iota; [|exact Hv|done].
  destruct (Hn m eq_refl) as [Hm Hm']. cbn in Hm, Hm'.
  act_with (@owns_need OffloadingConfig). intros o _. act_with (@owns_gets (option RemoteBackend)). intros r1 w1 _ _.
  apply owp_ret. eapply owp_mono; [apply Hf; [exact (eq_trans Hm Hns0)|exact (eq_trans Hm' Hn0)]|]. by intros [?|e|] v' Hv'.
Qed.

Lemma owns_on_health n s v :
  hs_ModelName s = slash_key ns n -> in_step v ->
  owns n (Handlers.on_health (F:=prog RW) s) (fun _ => in_step) v.
Proof.
  intros Hs Hv. unfold Handlers.on_health. act_with (@owns_gets (option ManagedModel)). intros r1 w1 Hg _.
  destruct (_ !! _) as [v0|] eqn:E; [|by apply owp_ret]. apply Hg in E as [Hns0 Hn0]. rewrite Hs in Hn0.
  apply slash_key_inj in Hn0 as [_ ->]; [|done..].
  apply owns_event; [done..|]. intros m o Hm Hm'. rewrite <-Hm'. by apply owns_healthCheckCallback.
Qed.

Lemma owns_on_metric n s v :
  mst_ModelName s = slash_key ns n -> in_step v ->
  owns n (Handlers.on_metric (F:=prog RW) s) (fun _ => in_step) v.
Proof.
  intros Hs Hv. unfold Handlers.on_metric. act_with (@owns_gets (option ManagedModel)). intros r1 w1 Hg _.
  destruct (_ !! _) as [v0|] eqn:E; [|by apply owp_ret]. apply Hg in E as [Hns0 Hn0]. rewrite Hs in Hn0.
  apply slash_key_inj in Hn0 as [_ ->]; [|done..]. case_match; [by apply owp_ret|].
  apply owns_event; [done..|]. intros m o Hm Hm'. rewrite <-Hm'. by apply owns_metricCallback.
Qed.

(** *** Reconciling *)

Lemma owns_start_offloading m o v :
  md_Namespace m = ns ->
  owns (md_Name m) (Handlers.start_offloading (F:=prog RW) m o) settles_or_errs v.
Proof.
  intros Hm. unfold Handlers.start_offloading, model_key. rewrite Hm. act_with owns_record. quiet.
  apply owp_bind, owns_still; [intros ?; apply keeps_mi_Register|]. intros w1 Hp1.
  pose proof (mi_Register_no_error (slash_key ns (md_Name m)) (ol_Metrics o) (mds_ModelSourceRef (md_Spec m))
    (5 * Second) (5 * Second) w1) as Hne1.
  destruct (mi_Register _ _ _ _ _ w1).2 as [[]|e|]; cbv beta iota; [|by destruct (Hne1 e)|done].
  apply owp_bind, owns_still; [intros ?; apply keeps_hi_Register|]. intros w2 Hp2.
  pose proof (hi_Register_no_error (slash_key ns (md_Name m)) (mds_ModelSourceRef (md_Spec m)) w2) as Hne2.
  destruct (hi_Register _ _ w2).2 as [[]|e|]; cbv beta iota; [|by destruct (Hne2 e)|done].
  act_with (@owns_need ServiceReference). intros ref _.
  apply owns_Configure; [apply in_step_recorded|]. intros e He. cbn. congruence.
Qed.

(** What [configureOffloading] returns is the same model. *)
Lemma owns_configureOffloading m v :
  md_Namespace m = ns -> in_step v ->
  owns (md_Name m) (Handlers.configureOffloading (F:=prog RW) m)
    (fun out v' => match out with Ok m' => md_Meta m' = md_Meta m /\ in_step v' | _ => settles_or_errs out v' end) v.
Proof.
  intros Hm Hv. unfold Handlers.configureOffloading.
  apply owns_still_bind; [intros ?; apply keeps_hi_Unregister|by intros e ?|intros _].
  apply owns_still_bind; [intros ?; apply keeps_mi_Unregister|by intros e ?|intros _].
  apply owns_still_bind; [intros ?; apply keeps_cfg_Unconfigure|by intros e ?|intros _].
  act_with owns_Cleanup; [|by intros e ?]. intros b. unfold model_key. rewrite Hm. act_with owns_forget. quiet.
  act_with owns_unwatch. pose proof (in_step_none b) as Hv'. revert Hv'.
  change ((None, (v.1, b).2) : share) with ((None, b) : share). generalize ((None, b) : share). clear v Hv b. intros v Hv.
  destruct (mds_OffloadingConfig (md_Spec m)) as [o|]; [|by apply owp_ret].
  case_match; [by apply owp_ret|].
  act_with (@owns_gets (option RemoteBackend)). intros r1 w1 _ _.
  apply owns_still_bind; [intros ?; apply keeps_cfg_Configure|by intros e ?|intros _].
  apply owp_bind. eapply owp_mono; [by apply (owns_start_offloading (set_offloading _ m))|].
  intros [[]|e|] v' Hv'; [by apply owp_ret|exact Hv'|done].
Qed.

Lemma owns_port_of n s {B} (k : option Z -> prog RW B) (Q : res B -> share -> Prop) v :
  (forall e, Q (Err e) v) -> (forall a, owns n (k a) Q v) ->
  owns n (Handlers.port_of (F:=prog RW) s ≫= k) Q v.
Proof.
  intros Herr Hk. apply owp_bind. destruct s as [s|]; [|by apply owp_ret].
  apply owns_still_bind; [intros ?; apply still_RetrievePodPort|exact Herr|]. intros z. by apply owp_ret.
Qed.

Lemma owns_yield_bind {A B} n (out : res A) (k : A -> prog RW B) (Q : res B -> share -> Prop) v :
  (forall e, Q (Err e) v) -> (forall a, owns n (k a) Q v) ->
  owns n (Handlers.yield_res (W:=W) (F:=prog RW) out ≫= k) Q v.
Proof. intros Herr Hk. apply owp_bind, owns_yield. by destruct out. Qed.

Lemma owns_apply_model m v :
  md_Namespace m = ns -> in_step v ->
  owns (md_Name m) (Handlers.apply_model (F:=prog RW) m) settles_or_errs v.
Proof.
  intros Hm Hv. unfold Handlers.apply_model.
  apply owns_port_of; [by intros e ?|]. intros sp. apply owns_port_of; [by intros e ?|]. intros mp.
  set (m2 := match mp with Some p => set_MetricPort p _ | None => _ end).
  assert (md_Meta m2 = md_Meta m) as Hm2 by (by subst m2; destruct mp, sp). clearbody m2.
  apply owns_still_bind; [intros ?; apply still_ToBeamlitModelDeployment|by intros e ?|intros bm]. quiet.
  apply owns_still_bind; [intros ?; apply still_CreateOrUpdateModel|by intros e ?|intros up].
  act_with (@owns_need string). intros ws _. act_with (@owns_need string). intros ct _.
  apply owns_yield_bind; [by intros e ?|]. intros ca.
  act_with (@owns_need string). intros ut _. apply owns_yield_bind; [by intros e ?|]. intros ua.
  set (m3 := set_beamlit_status _ _ _ m2).
  assert (md_Meta m3 = md_Meta m) as Hm3 by exact Hm2. clearbody m3.
  assert (md_Namespace m3 = ns) as Hns3 by (unfold md_Namespace in *; congruence).
  replace (md_Name m) with (md_Name m3) by (unfold md_Name; congruence).
  apply owp_bind. eapply owp_mono; [by apply owns_configureOffloading|].
  intros [m4|e|] v' Hv'; [destruct Hv' as [Hm4 Hv']|exact Hv'|done].
  apply owns_still_bind; [intros ?; apply keeps_UpdateModelStatus|by intros e ?|intros m5].
  assert (md_Namespace m4 = ns) as Hns4 by (unfold md_Namespace in *; congruence).
  unfold model_key. rewrite Hns4.
  by apply (owns_watch (md_Name m3) (mkManaged ns (md_Name m4) true (md_Generation m4))).
Qed.

Lemma owns_settle_model m v :
  md_Namespace m = ns -> in_step v ->
  owns (md_Name m) (Handlers.settle_model (F:=prog RW) m) (fun _ => in_step) v.
Proof.
  intros Hm Hv. unfold Handlers.settle_model, Handlers.createOrUpdate.
  apply owp_bind, owp_attempt. act_with (@owns_gets bool). intros r1 w1 _ _.
  destruct (skip_model r1 m); [by apply owp_ret; apply owp_ret|].
  eapply owp_mono; [by apply owns_apply_model|].
  intros [[]|e|] v' Hv'; cbv beta iota; [by apply owp_ret| |done].
  destruct (IsConflict e) eqn:E; [by apply owp_ret, Hv'|].
  quiet. unfold model_key. rewrite Hm. act_with owns_forget. act_with owns_unwatch. apply owns_raise, in_step_none.
Qed.

(** A model without an entry may be cleaned up. *)
Lemma owns_finalizeModel m v :
  md_Namespace m = ns -> owns (md_Name m) (Handlers.finalizeModel (F:=prog RW) m) (fun _ => in_step) v.
Proof.
  intros Hm. unfold Handlers.finalizeModel, model_key. rewrite Hm. quiet. act_with owns_forget. quiet. act_with owns_unwatch.
  pose proof in_step_none as Hv'.
  destruct (mds_OffloadingConfig (md_Spec m)) as [o|]; [|by apply owp_ret, Hv'].
  apply owns_still_bind; [intros ?; apply keeps_mi_Unregister|intros e; apply Hv'|intros _].
  apply owns_still_bind; [intros ?; apply keeps_hi_Unregister|intros e; apply Hv'|intros _].
  apply owns_still_bind; [intros ?; apply keeps_cfg_Unconfigure|intros e; apply Hv'|intros _].
  act_with owns_Cleanup; [|intros e; apply Hv']. intros b.
  apply owns_still; [intros ?; apply still_DeleteModelDeployment|]. intros w _. by apply Hv'.
Qed.

Lemma owns_UpdateModel n m' v :
  in_step v -> owns n (_ ← Handlers.call (F:=prog RW) (client_UpdateModel m'); mret false) (fun _ => in_step) v.
Proof.
  intros Hv. apply owns_still_bind; [intros ?; apply keeps_UpdateModel|done|]. intros _. by apply owp_ret.
Qed.

Lemma owns_Reconcile n v :
  in_step v -> owns n (Handlers.Reconcile (F:=prog RW) (mkNN ns n)) (fun _ => in_step) v.
Proof.
  intros Hv. apply owns_get_model.
  - intros e. cbv beta iota. case_match; [by apply owp_ret|by apply owns_raise].
  - intros m Hm Hm'. cbv beta iota. cbn in Hm, Hm'. subst n. case_match.
    + case_match; [|by apply owp_ret]. apply owp_bind. eapply owp_mono; [by apply owns_finalizeModel|].
      intros [[]|e|] v' Hv'; [by apply owns_UpdateModel|exact Hv'|done].
    + case_match; [by apply owns_UpdateModel|by apply owns_settle_model].
Qed.

(** ** The loop *)

(** An event that concerns no model but [n]. *)
Definition concerns (n : string) (ev : controller_event) : Prop :=
  match ev with
  | EvReconcile req => req = mkNN ns n
  | EvHealth s => hs_ModelName s = slash_key ns n
  | EvMetric s => mst_ModelName s = slash_key ns n
  end.

Lemma owns_handle n ev v :
  concerns n ev -> in_step v -> owns n (Handlers.handle (F:=prog RW) ev) (fun _ => in_step) v.
Proof.
  destruct ev as [req|s|s]; intros Hev Hv; cbn in Hev; unfold Handlers.handle.
  - subst req. apply owp_bind, owp_attempt. eapply owp_mono; [by apply owns_Reconcile|].
    by intros [b|e|] v' Hv'; [apply owp_ret..|].
  - by apply owns_on_health.
  - by apply owns_on_metric.
Qed.

End Sync.

(** ** Between two handlers *)
Section Synced.
Context {W : Type} `{Ho : Offloader W} `{Hos : !OffloaderSpec W} `{Hcl : CtrlClient W} `{Hb : BeamlitAPI W}
  `{Hcf : Configurer W} `{Hmi : MetricInformer W} `{Hhi : HealthInformer W} `{Htp : TimeParse}
  `{Hsur : !Surroundings W} `{Hclean : !CleanFailures W}.
Variable ns : string.
Hypothesis Hns : contains_byte "/"%char ns = false.
Local Abbreviation RW := (ModelDeploymentReconciler * W)%type.
Implicit Types (x : RW).

(** The record of every model is what is in force. *)
Definition synced x : Prop := good ns x /\ forall n p, (mine ns n x).1 = Some p -> (mine ns n x).2 = Some p.

Lemma synced_handle_concerned n ev x x' out :
  concerns ns n ev -> synced x -> handle ev x = (x', out) -> out <> Panic -> synced x'.
Proof.
  intros Hev [Hg Hs] E Hp.
  destruct (owp_run (good ns) (mine ns) n (Handlers.handle (F:=prog RW) ev) (fun _ => in_step False) x x' out) as (Hg' & Hk & Hv).
  - apply owns_handle; [done..|]. right. by apply Hs.
  - done.
  - by rewrite runs_handle.
  - done.
  - split; [done|]. intros n'. destruct (decide (n' = n)) as [->|Hne]; [by destruct Hv|]. rewrite (Hk n' Hne). apply Hs.
Qed.

(** Of the watched namespace: a request names one of its models, and an event that finds
    its model does. *)
Definition watched (ev : controller_event) : Prop :=
  match ev with EvReconcile req => nn_Namespace req = ns | _ => True end.

Lemma unknown_event_ignored ev key x :
  (ev = EvHealth (mkHealthStatus key true) \/ ev = EvHealth (mkHealthStatus key false) \/
   ev = EvMetric (mkMetricStatus key true) \/ ev = EvMetric (mkMetricStatus key false)) ->
  ManagedModels x.1 !! key = None -> handle ev x = (x, Ok tt).
Proof.
  destruct x as [r w]. cbn. intros Hev E.
  destruct Hev as [->|[->|[->| ->]]]; unfold Handlers.handle; [enter on_health|enter on_health|enter on_metric|enter on_metric];
    mrun; by rewrite E.
Qed.

Lemma synced_handle ev x x' out :
  watched ev -> synced x -> handle ev x = (x', out) -> out <> Panic -> synced x'.
Proof.
  intros Hev Hx. destruct ev as [[ns' n]|[key b]|[key b]]; cbn in Hev.
  - subst ns'. by apply (synced_handle_concerned n).
  - destruct (ManagedModels x.1 !! key) as [v|] eqn:E.
    + apply (proj1 Hx) in E as [_ ->]. by apply (synced_handle_concerned (mm_name v)).
    + rewrite (unknown_event_ignored _ key); [by intros [= <- _]|destruct b; auto|done].
  - destruct (ManagedModels x.1 !! key) as [v|] eqn:E.
    + apply (proj1 Hx) in E as [_ ->]. by apply (synced_handle_concerned (mm_name v)).
    + rewrite (unknown_event_ignored _ key); [by intros [= <- _]|destruct b; auto|done].
Qed.

Lemma synced_init r w : OngoingOffloadings r = ∅ -> ManagedModels r = ∅ -> synced (r, w).
Proof.
  intros Ho0 Hm0. split.
  - intros k v. cbn. by rewrite Hm0, lookup_empty.
  - intros n p. cbn. by rewrite Ho0, lookup_empty.
Qed.
End Synced.
