(* ===== verification/ModelLoop.v ===== *)
(** The model controller as a state machine: reconciliations and informer events in any
    order, what every run of them keeps, and what each event does to the share of the
    remote backend. *)

From Stdlib Require Import Ascii.
From stdpp Require Import base numbers gmap strings list relations.
From S2P Require Import Prelude Programs Crd Kube Offloader Configurer Registry Metric Health Convert BeamlitClient.
From S2P Require Import ModelReconciler ModelSync.
Local Open Scope Z_scope.

Section Loop.
Context {W : Type} `{Ho : Offloader W} `{Hos : !OffloaderSpec W} `{Hcl : CtrlClient W} `{Hb : BeamlitAPI W}
  `{Hcf : Configurer W} `{Hmi : MetricInformer W} `{Hhi : HealthInformer W} `{Htp : TimeParse}.
Implicit Types (r : ModelDeploymentReconciler) (w : W) (m : ModelDeployment) (o : OffloadingConfig).

(** ** The machine

    One step handles one reconciliation request of the watched namespace or one event of
    an informer, to its end.  Between two of them the world moves on by itself without
    touching the shares in force.  A handler that panics takes no step. *)
Inductive controller_step (ns : string) : relation (ModelDeploymentReconciler * W) :=
| step_event ev x x' : watched ns ev -> handle ev x = (x', Ok tt) -> controller_step ns x x'
| step_world r w w' : offloaded w' = offloaded w -> controller_step ns (r, w) (r, w').

Context `{Hsur : !Surroundings W}.

(** ** The share that a handler puts in force *)

Lemma offload_to_ok m o p r w x' :
  offload_to m o p (r, w) = (x', Ok tt) ->
  exists w', x' = (r, w') /\ offloaded w' = <[md_Name m := p]> (offloaded w).
Proof.
  intros ([r1 w1] & lb & E1 & E2)%bind_Ok_inv. apply outer_Ok_inv in E1 as (w2 & [= -> ->] & E1).
  apply outer_Ok_inv in E2 as (w' & -> & E2). exists w'. split; [done|].
  pose proof (keeps_cfg_GetLocal (mds_ServiceRef (md_Spec m)) w) as Hk. rewrite E1 in Hk. cbn in Hk.
  pose proof (Configure_ok m lb (ol_RemoteBackend o) p w2) as Hp. rewrite E2 in Hp. cbn in Hp.
  destruct (Hp eq_refl) as [Hp' _]. apply map_eq. intros n. destruct (decide (n = md_Name m)) as [->|Hn].
  - by rewrite lookup_insert_eq.
  - rewrite lookup_insert_ne by done. rewrite <-Hk.
    pose proof (Configure_others m lb (ol_RemoteBackend o) p w2 n Hn) as Hoth. by rewrite E2 in Hoth.
Qed.

Lemma notify_ok m b (k : RM W unit) r w x' :
  (_ ← try (notifyOnBeamlit m b); k) (r, w) = (x', Ok tt) ->
  exists w', offloaded w' = offloaded w /\ k (r, w') = (x', Ok tt).
Proof.
  intros ([r1 w1] & v & E1 & E2)%bind_Ok_inv. apply try_Ok_inv in E1 as [E1 _].
  enter notifyOnBeamlit in E1. unfold outer, zoom in E1. cbn in E1.
  pose proof (still_NotifyOnModelOffloading (mds_Model (md_Spec m)) (mds_Environment (md_Spec m)) b w) as Hs.
  destruct (NotifyOnModelOffloading _ _ b w) as [w2 rr]. cbn in E1, Hs. injection E1 as -> ->. eauto.
Qed.

(** The three calls of a change: the share, the record of it, the notice. *)
Lemma shift_ok m o p b f (k : RM W unit) r w x' :
  (offload_to m o p ;; self (modify f) ;; _ ← try (notifyOnBeamlit m b); k) (r, w) = (x', Ok tt) ->
  exists w', offloaded w' = <[md_Name m := p]> (offloaded w) /\ k (f r, w') = (x', Ok tt).
Proof.
  intros (x1 & [] & (w1 & -> & E1)%offload_to_ok & E2)%bind_Ok_inv.
  apply bind_Ok_inv in E2 as (x2 & [] & E2 & E3). injection E2 as <-.
  apply notify_ok in E3 as (w' & E3 & E4). exists w'. by rewrite E3.
Qed.

(** ** The events *)

(** A metric event of a model that is down, or has no entry, is ignored. *)
Lemma metricCallback_down m o reached r w :
  ModelState r !! model_key m = Some false -> metricCallback m o reached (r, w) = ((r, w), Ok tt).
Proof. intros E. enter metricCallback. mrun. by rewrite E. Qed.
Lemma metricCallback_no_entry m o reached r w :
  OngoingOffloadings r !! model_key m = None -> metricCallback m o reached (r, w) = ((r, w), Ok tt).
Proof. intros E. enter metricCallback. mrun. rewrite E. by destruct (ModelState r !! model_key m) as [[]|]. Qed.
Lemma healthCheckCallback_no_entry m o r w :
  OngoingOffloadings r !! model_key m = None -> healthCheckCallback m o true (r, w) = ((r, w), Ok tt).
Proof. intros E. enter healthCheckCallback. mrun. by rewrite E. Qed.
Lemma healthCheckCallback_same m o b r w :
  ol_Behavior o = Some b -> OngoingOffloadings r !! model_key m = Some (ob_Percentage b) ->
  healthCheckCallback m o true (r, w) = ((r, w), Ok tt).
Proof. intros Eb E. enter healthCheckCallback. mrun. rewrite E, Eb. cbn. by rewrite Z.eqb_refl. Qed.

(** A report that the model is down sends all of its traffic to the remote backend,
    leaves every other model's share alone, records both, and from then on the metrics
    have no say. *)
Theorem unhealthy_model_is_fully_offloaded m o r w x' :
  healthCheckCallback m o false (r, w) = (x', Ok tt) ->
  offloaded x'.2 = <[md_Name m := 100]> (offloaded w) /\
  x'.1 = upd_state <[model_key m := false]> (upd_ongoing <[model_key m := 100]> r) /\
  forall reached, metricCallback m o reached x' = (x', Ok tt).
Proof.
  intros (w' & Hw & E)%shift_ok. injection E as <-. split_and!; [exact Hw|reflexivity|].
  intros reached. apply metricCallback_down. apply lookup_insert_eq.
Qed.

(** When a metric is back below its target the share is taken back and the model's
    entry is dropped, not set to zero: no later event of a metric, and no report of good
    health, offloads the model again. *)
Theorem metric_offloading_is_one_shot m o value r w x' :
  OngoingOffloadings r !! model_key m = Some value -> value <> 0 ->
  ModelState r !! model_key m <> Some false ->
  metricCallback m o false (r, w) = (x', Ok tt) ->
  offloaded x'.2 = <[md_Name m := 0]> (offloaded w) /\
  (forall reached, metricCallback m o reached x' = (x', Ok tt)) /\
  healthCheckCallback m o true x' = (x', Ok tt).
Proof.
  intros Ev Hv Es. unfold metricCallback at 1.
  intros (x1 & st & E1 & (x2 & og & E2 & E)%bind_Ok_inv)%bind_Ok_inv.
  injection E1 as <- <-. injection E2 as <- <-. rewrite Ev in E. cbn in E. apply Z.eqb_neq in Hv. rewrite Hv in E.
  assert ((self (modify (upd_ongoing (delete (model_key m)))) ;; offload_to m o 0 ;;
    _ ← try (notifyOnBeamlit m false); mret tt) (r, w) = (x', Ok tt)) as E3
    by (by destruct (ModelState r !! model_key m) as [[]|]).
  apply bind_Ok_inv in E3 as (x3 & [] & E3 & E4). injection E3 as <-.
  apply bind_Ok_inv in E4 as (x4 & [] & (w4 & -> & Hw4)%offload_to_ok & E5).
  apply notify_ok in E5 as (w5 & Hw5 & E5). injection E5 as <-.
  assert (OngoingOffloadings (upd_ongoing (delete (model_key m)) r) !! model_key m = None) as Hnone
    by apply lookup_delete_eq.
  split_and!; [cbn; by rewrite Hw5|intros reached; by apply metricCallback_no_entry|by apply healthCheckCallback_no_entry].
Qed.

(** A model whose offloading was just set up is offloaded to its percentage by the
    first report that it is healthy, whatever its metrics say. *)
Theorem first_healthy_report_offloads m o b r w x1 x2 :
  ol_Behavior o = Some b ->
  start_offloading m o (r, w) = (x1, Ok tt) ->
  OngoingOffloadings x1.1 !! model_key m = Some 0 /\
  (healthCheckCallback m o true x1 = (x2, Ok tt) -> ob_Percentage b <> 0 ->
   offloaded x2.2 = <[md_Name m := ob_Percentage b]> (offloaded x1.2) /\
   OngoingOffloadings x2.1 !! model_key m = Some (ob_Percentage b)).
Proof.
  intros Eb Es. assert (OngoingOffloadings x1.1 !! model_key m = Some 0) as Hz.
  { revert Es. enter start_offloading.
    intros (y & [] & E & (y2 & [] & E2 & (y3 & [] & E3 & (y4 & [] & E4 & (y5 & ref & E5 & E6)%bind_Ok_inv)%bind_Ok_inv)
      %bind_Ok_inv)%bind_Ok_inv)%bind_Ok_inv.
    injection E as <-. injection E2 as <-. apply outer_Ok_inv in E3 as (w3 & -> & _).
    apply outer_Ok_inv in E4 as (w4 & -> & _). destruct (mds_ServiceRef (md_Spec m)); [|done]. injection E5 as <- <-.
    apply outer_Ok_inv in E6 as (w6 & -> & _). apply lookup_insert_eq. }
  split; [exact Hz|]. destruct x1 as [r1 w1]. cbn in *.
  intros (x3 & og & E1 & E)%bind_Ok_inv Hp. injection E1 as <- <-. rewrite Hz, Eb in E.
  apply bind_Ok_inv in E as (x3 & bh & E1 & E). injection E1 as <- <-.
  assert (0 =? ob_Percentage b = false) as Hne by (apply Z.eqb_neq; lia). rewrite Hne in E.
  apply shift_ok in E as (w' & Hw & E). injection E as <-. split; [exact Hw|apply lookup_insert_eq].
Qed.

(** A model whose percentage is 100 stays marked as down after it recovered: the
    report of good health finds the share it wants and changes nothing, and every metric
    event goes on being ignored. *)
Theorem full_offload_never_recovers m o r w x' :
  ol_Behavior o = Some (mkBehavior 100) ->
  healthCheckCallback m o false (r, w) = (x', Ok tt) ->
  healthCheckCallback m o true x' = (x', Ok tt) /\ ModelState x'.1 !! model_key m = Some false /\
  forall reached, metricCallback m o reached x' = (x', Ok tt).
Proof.
  intros Eb (w' & Hw & E)%shift_ok. injection E as <-. split_and!.
  - eapply healthCheckCallback_same; [exact Eb|apply lookup_insert_eq].
  - apply lookup_insert_eq.
  - intros reached. apply metricCallback_down. apply lookup_insert_eq.
Qed.

(** ** The record of the shares *)

(** Every run keeps the record in step with what is in force. *)
Lemma synced_run `{!CleanFailures W} ns r0 w0 x :
  contains_byte "/"%char ns = false -> OngoingOffloadings r0 = ∅ -> ManagedModels r0 = ∅ ->
  rtc (controller_step ns) (r0, w0) x -> synced ns x.
Proof.
  intros Hns Ho0 Hm0 Hrun. eapply (rtc_invariant (controller_step ns)); [| |exact Hrun]; [|by apply synced_init].
  intros y y' Hy Hst. destruct Hst as [ev y1 y2 Hev E|r w w' Hw].
  - eapply synced_handle; [exact Hns|exact Hev|exact Hy|exact E|done].
  - destruct Hy as [Hg Hs]. split; [exact Hg|]. intros n. unfold mine. cbn. rewrite Hw. apply Hs.
Qed.

(** C1. Whatever sequence of reconciliations and events runs in one watched namespace, one
    after the other, the percentage recorded for a model is the one its route has, as long as
    no answer of the gateway is lost: a call of the offloader that fails had no effect. *)
Theorem recorded_share_is_in_force `{!CleanFailures W} ns r0 w0 x :
  contains_byte "/"%char ns = false -> OngoingOffloadings r0 = ∅ -> ManagedModels r0 = ∅ ->
  rtc (controller_step ns) (r0, w0) x ->
  forall n p, OngoingOffloadings x.1 !! slash_key ns n = Some p -> offloaded x.2 !! n = Some p.
Proof. intros Hns Ho0 Hm0 Hrun n p. by apply (proj2 (synced_run ns r0 w0 x Hns Ho0 Hm0 Hrun)). Qed.

(** Two models of one name in two namespaces have one share between them: when the
    second goes down, the record of the first is no longer what is in force. *)
Theorem namespaces_share_a_route m1 m2 o p r w x' :
  md_Name m1 = md_Name m2 -> model_key m1 <> model_key m2 -> p <> 100 ->
  OngoingOffloadings r !! model_key m1 = Some p -> offloaded w !! md_Name m1 = Some p ->
  healthCheckCallback m2 o false (r, w) = (x', Ok tt) ->
  OngoingOffloadings x'.1 !! model_key m1 = Some p /\ offloaded x'.2 !! md_Name m1 = Some 100.
Proof.
  intros Hn Hk Hp Hr Hw (w' & Hw' & E)%shift_ok. injection E as <-. cbn.
  rewrite lookup_insert_ne by congruence. split; [exact Hr|]. rewrite Hw', Hn. apply lookup_insert_eq.
Qed.

(** ** Reconciling *)

(** An applied model is one that is skipped from then on. *)
Lemma apply_model_skips m :
  onok (fun _ => True) (apply_model m) (fun _ x => skip_model x.1 m = true).
Proof.
  enter apply_model.
  eapply (onok_bind _ _ _ (fun _ _ => True)); [done|intros sp].
  eapply (onok_bind _ _ _ (fun _ _ => True)); [done|intros mp].
  set (m2 := match mp with Some p => set_MetricPort p _ | None => _ end).
  assert (md_Meta m2 = md_Meta m) as Hm2 by (by subst m2; destruct mp, sp). clearbody m2.
  do 8 (eapply (onok_bind _ _ _ (fun _ _ => True)); [done|intros ?]).
  eapply onok_bind; [apply configureOffloading_named|]. intros m4.
  eapply (onok_bind _ _ _ (fun _ _ => md_Meta m4 = md_Meta m));
    [by intros ? ? ? -> _|intros ?].
  apply onok_self. intros w. eapply onok_pre; [|apply onok_modify]. cbn. intros r Hm4.
  unfold skip_model. cbn. unfold model_key, md_Namespace, md_Name, md_Generation. rewrite Hm4.
  rewrite lookup_insert_eq. cbn. rewrite Z.eqb_refl. apply orb_true_r.
Qed.

Lemma createOrUpdate_skips m : onok (fun _ => True) (createOrUpdate m) (fun _ x => skip_model x.1 m = true).
Proof.
  intros x x' [] _ (x1 & sk & E1 & E)%bind_Ok_inv. destruct x as [r w]. injection E1 as <- <-.
  destruct (skip_model r m) eqn:Es; [by injection E as <-|]. by eapply (apply_model_skips m).
Qed.

(** The maps that events act on, and that a retry could be skipped for, have no entry for the
    model; [BeamlitModels] keeps the one that the attempt made. *)
Definition forgotten m (r : ModelDeploymentReconciler) : Prop :=
  OngoingOffloadings r !! model_key m = None /\ ModelState r !! model_key m = None /\
  ManagedModels r !! model_key m = None.

(** What settling comes to. *)
Lemma settle_model_outcome m x x' res :
  settle_model m x = (x', res) ->
  match res with
  | Ok false => settle_model m x' = (x', Ok false)
  | Ok true => True
  | Err _ => forgotten m x'.1
  | Panic => True
  end.
Proof.
  unfold settle_model at 1. unfold attempt, M_attempt, mbind, M_bind, try at 1.
  destruct (createOrUpdate m x) as [x1 [[]|e|]] eqn:E; [| |by intros [= <- <-]].
  - intros [= <- <-]. pose proof (createOrUpdate_skips m x x1 tt I E) as Hskip. destruct x1 as [r w]. cbn in Hskip.
    enter settle_model. enter createOrUpdate. mrun. by rewrite Hskip.
  - destruct x1 as [r w]. destruct (IsConflict e); [by intros [= <- <-]|].
    intros [= <- <-]. unfold forgotten. cbn. by rewrite !lookup_delete_eq.
Qed.

(** A model that is deleted and has no offloading settings loses its finalizer
    without any call to Beamlit: between reading it and writing it back the world does
    not change, so the remote model stays. *)
Theorem deleted_model_survives_on_beamlit req m r w w1 :
  client_GetModel req w = (w1, Ok m) -> is_Some (meta_DeletionTimestamp (md_Meta m)) ->
  ContainsFinalizer modelDeploymentFinalizer (md_Meta m) = true ->
  mds_OffloadingConfig (md_Spec m) = None ->
  (Reconcile req (r, w)).1.2 =
    (client_UpdateModel (set_meta (RemoveFinalizer modelDeploymentFinalizer (md_Meta m)) m) w1).1.
Proof.
  intros Hget [d Hd] Hf Hoff. enter Reconcile. enter finalizeModel. mrun. rewrite Hget. cbn. rewrite Hd, Hf. cbn.
  rewrite Hoff. cbn. by destruct (client_UpdateModel _ w1) as [w2 [m2|e|]].
Qed.
End Loop.

(** ** A world to run the controller in

    The offloader is a table of shares, the API server holds models, the Beamlit API
    answers every request with the same model, unless it is down. *)
Module ModelLoopExamples.

Record lab := mkLab {
  lab_shares : gmap string Z;
  lab_managed : gset string;
  lab_models : gmap NamespacedName ModelDeployment;
  lab_notices : list bool;
  lab_down : bool
}.

Definition lab_configure (m : ModelDeployment) (p : Z) : M lab unit :=
  modify (fun w => mkLab (<[md_Name m := p]> (lab_shares w)) ({[md_Name m]} ∪ lab_managed w) (lab_models w) (lab_notices w) (lab_down w)).
Definition lab_cleanup (m : ModelDeployment) : M lab unit := fun w =>
  if decide (md_Name m ∈ lab_managed w)
  then (mkLab (delete (md_Name m) (lab_shares w)) (lab_managed w ∖ {[md_Name m]}) (lab_models w) (lab_notices w) (lab_down w), Ok tt)
  else (w, Ok tt).

#[local] Instance lab_offloader : Offloader lab := {
  off_Configure m lb rb p := lab_configure m p;
  off_Cleanup := lab_cleanup
}.
#[local] Program Instance lab_offloader_spec : OffloaderSpec lab := {
  offloaded := lab_shares;
  managed := lab_managed
}.
Next Obligation. intros. cbn. by rewrite lookup_insert_ne. Qed.
Next Obligation. intros. cbn. split; [apply lookup_insert_eq|done]. Qed.
Next Obligation. done. Qed.
Next Obligation. done. Qed.
Next Obligation. intros m w n Hn. cbn. unfold lab_cleanup. case_decide; [|done]. cbn. by rewrite lookup_delete_ne. Qed.
Next Obligation. intros m w. cbn. unfold lab_cleanup. case_decide; [done|]. cbn. set_solver. Qed.
Next Obligation. intros m w Hin _. cbn. unfold lab_cleanup. rewrite decide_True by done. apply lookup_delete_eq. Qed.
Next Obligation. intros m w Hin. cbn. unfold lab_cleanup. by rewrite decide_False. Qed.
Next Obligation. intros m w. cbn. unfold lab_cleanup. by case_decide. Qed.

Definition lab_get (k : NamespacedName) : M lab ModelDeployment := fun w =>
  match lab_models w !! k with
  | Some m => if decide (md_Namespace m = nn_Namespace k /\ md_Name m = nn_Name k) then (w, Ok m)
              else (w, Err (mkError "not found" StatusReasonNotFound))
  | None => (w, Err (mkError "not found" StatusReasonNotFound))
  end.
Definition lab_service : Service := mkService "ns" "svc" [mkServicePort "http" "TCP" 80 (FromInt 8080)] ∅ "10.0.0.1" [] [] "".
Definition lab_remote_model : BeamlitModel :=
  mkBeamlitModel (mkMetadata (Some "m") (Some "prod") (Some ∅) None (Some "ws") (Some "t") (Some "t"))
    None None None None None.

#[local] Instance lab_client : CtrlClient lab := {
  client_GetService k := mret lab_service;
  client_GetPodTemplate s k := mret "";
  client_GetModel := lab_get;
  client_UpdateModel m := mret m;
  client_UpdateModelStatus m := mret m;
  client_GetPolicy k := throw (mkError "not found" StatusReasonNotFound);
  client_UpdatePolicy p := mret p;
  client_UpdatePolicyStatus p := mret p;
  mapstructure_Decode s := Ok s
}.
#[local] Instance lab_beamlit : BeamlitAPI lab := {
  sdk_GetModel a b w := (w, if lab_down w then Err (Errorf "unavailable") else Ok (200, ""));
  sdk_CreateModel a := mret (200, "");
  sdk_UpdateModel a b := modify (fun w => mkLab (lab_shares w) (lab_managed w) (lab_models w) (lab_notices w ++ [true]) (lab_down w));;
    mret (200, "");
  sdk_DeleteModel a b := mret (200, "");
  sdk_GetPolicy a := mret (404, "");
  sdk_CreatePolicy a := mret (200, "");
  sdk_UpdatePolicy a b := mret (200, "");
  sdk_DeletePolicy a := mret (200, "");
  json_Model s := Ok lab_remote_model;
  json_Policy s := Err (Errorf "")
}.
#[local] Instance lab_configurer : Configurer lab := {
  cfg_Start s := mret tt;
  cfg_Configure s := mret tt;
  cfg_Unconfigure s := mret tt;
  cfg_GetLocalBeamlitService s := deref s
}.
#[local] Instance lab_metrics : MetricInformer lab := {
  mi_Register a b c d e := mret tt;
  mi_Unregister a := mret tt
}.
#[local] Instance lab_health : HealthInformer lab := {
  hi_Register a b := mret tt;
  hi_Unregister a := mret tt
}.
#[local] Instance lab_time : TimeParse := { time_Parse s := Ok 0 }.

#[local] Instance lab_surroundings : Surroundings lab.
Proof.
  split; try done.
  - intros k w. cbn. unfold lab_get. case_match; [case_decide|]; done.
  - intros s w. by destruct s.
  - intros k w m. cbn. unfold lab_get. case_match; [case_decide|]; by intros [= <-].
Qed.
#[local] Instance lab_clean : CleanFailures lab.
Proof. split; [done|done|]. intros m w. cbn. unfold lab_cleanup. by case_decide. Qed.

(** A model offloaded to 30% of its traffic, one offloaded to all of it, one that is
    deleted, and worlds that hold one. *)
Definition lab_ref (name : string) : ServiceReference := mkServiceRef (mkRef "Service" "v1" "ns" name) 80.
Definition lab_remote : RemoteBackend := mkRemoteBackend "run.example.com" None "" ∅ "https".
Definition lab_settings (p : Z) : OffloadingConfig := mkOffloading (Some lab_remote) [] (Some (mkBehavior p)).
Definition lab_model (ns : string) (deleted : option Z) (o : option OffloadingConfig) : ModelDeployment :=
  mkModel (mkMeta ns "m" 1 ∅ deleted [modelDeploymentFinalizer])
    (mkModelSpec "m" true (mkRef "Deployment" "apps/v1" ns "m") (Some (lab_ref "svc")) None "prod" [] None o)
    (mkModelStatus false 0 0 "" 0 0).
Definition lab_world (m : ModelDeployment) : lab :=
  mkLab ∅ ∅ {[mkNN (md_Namespace m) (md_Name m) := m]} [] false.
Definition lab_start : ModelDeploymentReconciler := mkReconciler ∅ ∅ ∅ ∅ (Some lab_remote).
Definition lab_key : NamespacedName := mkNN "ns" "m".
Definition lab_m : ModelDeployment := lab_model "ns" None (Some (lab_settings 30)).

(** The state after the model was reconciled, and after a run of events. *)
Definition run_events (l : list controller_event) (x : ModelDeploymentReconciler * lab) : ModelDeploymentReconciler * lab :=
  foldl (fun x ev => (handle ev x).1) x l.
Definition healthy (b : bool) : controller_event := EvHealth (mkHealthStatus "ns/m" b).
Definition reached (b : bool) : controller_event := EvMetric (mkMetricStatus "ns/m" b).
Definition shares_after (l : list controller_event) : option Z :=
  lab_shares (run_events (EvReconcile lab_key :: l) (lab_start, lab_world lab_m)).2 !! "m".

Example shares_of_runs :
  map shares_after [[]; [reached true]; [reached true; reached false]; [reached true; reached false; reached true];
                    [healthy false]; [healthy false; healthy true]; [healthy true]] =
  [Some 0; Some 30; Some 0; Some 0; Some 100; Some 30; Some 30].
Proof. vm_compute. reflexivity. Qed.

Definition lab_reconciled : ModelDeploymentReconciler * lab := run_events [EvReconcile lab_key] (lab_start, lab_world lab_m).

Lemma unhealthy_model_is_fully_offloaded_witness :
  lab_shares (healthCheckCallback lab_m (lab_settings 30) false lab_reconciled).1.2 !! "m" = Some 100.
Proof.
  assert (healthCheckCallback lab_m (lab_settings 30) false (lab_reconciled.1, lab_reconciled.2) =
    ((healthCheckCallback lab_m (lab_settings 30) false lab_reconciled).1, Ok tt)) as E
    by (vm_compute; reflexivity).
  pose proof (proj1 (unhealthy_model_is_fully_offloaded lab_m (lab_settings 30) _ _ _ E)) as Hs.
  exact (eq_trans (f_equal (fun f : gmap string Z => f !! "m") Hs) (lookup_insert_eq _ _ _)).
Defined.

Lemma metric_offloading_is_one_shot_witness :
  let x := run_events [EvReconcile lab_key; reached true] (lab_start, lab_world lab_m) in
  lab_shares x.2 !! "m" = Some 30 /\
  lab_shares (metricCallback lab_m (lab_settings 30) false x).1.2 = <["m" := 0]> (lab_shares x.2).
Proof.
  intros x. split; [vm_compute; reflexivity|].
  assert (OngoingOffloadings x.1 !! model_key lab_m = Some 30) as E1 by (vm_compute; reflexivity).
  assert (ModelState x.1 !! model_key lab_m <> Some false) as E2 by (vm_compute; congruence).
  assert (metricCallback lab_m (lab_settings 30) false (x.1, x.2) =
    ((metricCallback lab_m (lab_settings 30) false x).1, Ok tt)) as E3 by (vm_compute; reflexivity).
  revert E3. generalize (metricCallback lab_m (lab_settings 30) false x).1. intros x' E3. clearbody x.
  exact (proj1 (metric_offloading_is_one_shot lab_m (lab_settings 30) 30 x.1 x.2 _ E1 ltac:(lia) E2 E3)).
Defined.

Lemma first_healthy_report_offloads_witness :
  let x1 := (start_offloading lab_m (lab_settings 30) (lab_start, lab_world lab_m)).1 in
  lab_shares x1.2 !! "m" = Some 0 /\ OngoingOffloadings x1.1 !! "ns/m" = Some 0.
Proof.
  intros x1. split; [vm_compute; reflexivity|].
  assert (start_offloading lab_m (lab_settings 30) (lab_start, lab_world lab_m) = (x1, Ok tt)) as E
    by (vm_compute; reflexivity).
  clearbody x1. exact (proj1 (first_healthy_report_offloads lab_m (lab_settings 30) (mkBehavior 30) _ _ x1 x1 eq_refl E)).
Defined.

Lemma full_offload_never_recovers_witness :
  let x := (healthCheckCallback lab_m (lab_settings 100) false lab_reconciled).1 in
  healthCheckCallback lab_m (lab_settings 100) true x = (x, Ok tt).
Proof.
  intros x.
  assert (healthCheckCallback lab_m (lab_settings 100) false (lab_reconciled.1, lab_reconciled.2) = (x, Ok tt)) as E
    by (vm_compute; reflexivity).
  clearbody x. exact (proj1 (full_offload_never_recovers lab_m (lab_settings 100) _ _ x eq_refl E)).
Defined.

Lemma recorded_share_is_in_force_witness :
  let x := run_events [EvReconcile lab_key; reached true] (lab_start, lab_world lab_m) in
  OngoingOffloadings x.1 !! "ns/m" = Some 30 /\ lab_shares x.2 !! "m" = Some 30.
Proof.
  intros x.
  assert (OngoingOffloadings x.1 !! "ns/m" = Some 30) as Er by (vm_compute; reflexivity).
  split; [exact Er|].
  assert (contains_byte "/"%char "ns" = false) as Hns by (vm_compute; reflexivity).
  assert (rtc (controller_step "ns") (lab_start, lab_world lab_m) x) as Hrun.
  { eapply (rtc_l _ _ lab_reconciled); [|eapply (rtc_l _ _ x); [|apply rtc_refl]].
    - refine (step_event "ns" (EvReconcile lab_key) _ _ eq_refl _). vm_compute. reflexivity.
    - refine (step_event "ns" (reached true) _ _ I _). vm_compute. reflexivity. }
  clearbody x. exact (recorded_share_is_in_force "ns" lab_start (lab_world lab_m) x Hns eq_refl eq_refl Hrun "m" 30 Er).
Defined.

Lemma namespaces_share_a_route_witness :
  let m2 := lab_model "other" None (Some (lab_settings 30)) in
  let x' := (healthCheckCallback m2 (lab_settings 30) false lab_reconciled).1 in
  OngoingOffloadings x'.1 !! model_key lab_m = Some 0 /\ lab_shares x'.2 !! md_Name lab_m = Some 100.
Proof.
  intros m2 x'.
  assert (0 <> 100) as Hp by lia.
  assert (model_key lab_m <> model_key m2) as Hk by (vm_compute; congruence).
  assert (OngoingOffloadings lab_reconciled.1 !! model_key lab_m = Some 0) as E1 by (vm_compute; reflexivity).
  assert (lab_shares lab_reconciled.2 !! md_Name lab_m = Some 0) as E2 by (vm_compute; reflexivity).
  assert (healthCheckCallback m2 (lab_settings 30) false (lab_reconciled.1, lab_reconciled.2) = (x', Ok tt)) as E3
    by (vm_compute; reflexivity).
  clearbody x'.
  pose proof (namespaces_share_a_route (W:=lab) lab_m m2 (lab_settings 30) 0 lab_reconciled.1 lab_reconciled.2 x' eq_refl) as H.
  exact (H Hk Hp E1 E2 E3).
Defined.

Lemma deleted_model_survives_on_beamlit_witness :
  let m := lab_model "ns" (Some 1) None in
  (Reconcile lab_key (lab_start, lab_world m)).1.2 = lab_world m.
Proof.
  intros m.
  assert (client_GetModel lab_key (lab_world m) = (lab_world m, Ok m)) as E by (vm_compute; reflexivity).
  assert (ContainsFinalizer modelDeploymentFinalizer (md_Meta m) = true) as Ef by (vm_compute; reflexivity).
  exact (deleted_model_survives_on_beamlit lab_key m lab_start _ _ E (mk_is_Some _ _ eq_refl) Ef eq_refl).
Defined.
End ModelLoopExamples.
