(* ===== verification/Publish.v ===== *)
(** What Beamlit holds: the models that reconciling publishes on the Beamlit API, and that
    what the controller takes for done is there. *)

From Stdlib Require Import Ascii.
From stdpp Require Import base numbers gmap strings list relations.
From S2P Require Import Prelude Programs Crd Kube Offloader Configurer Registry Metric Health Convert BeamlitClient.
From S2P Require Import RouteApi ModelReconciler.
Local Open Scope Z_scope.

(** ** The server

    Beamlit is a table of models by environment and name.  Some fields of a model's
    metadata the server fills in itself; the rest is what was sent. *)
Notation models := (gmap (string * string) BeamlitModel).

Definition sent_part (m : BeamlitModel) : BeamlitModel :=
  let d := bmod_Metadata m in
  mkBeamlitModel (mkMetadata (bm_Name d) (bm_Environment d) (bm_Labels d) (bm_DisplayName d) None None None)
    (bmod_Enabled m) (bmod_Runtime m) (bmod_Policies m) (bmod_ServerlessConfig m) (bmod_PodTemplate m).
Definition place_of (m : BeamlitModel) : option (string * string) :=
  match bm_Environment (bmod_Metadata m), bm_Name (bmod_Metadata m) with
  | Some e, Some n => Some (e, n)
  | _, _ => None
  end.

(** [p'] is [p] with what was sent filed at its place. *)
Definition filed (place : string * string) (sent : BeamlitModel) (p p' : models) : Prop :=
  exists stored, sent_part stored = sent_part sent /\ p' = <[place := stored]> p.
Definition accepted (r : res Reply) : Prop := exists code text, r = Ok (code, text) /\ code < 299.

(** What is relied on: a look-up changes nothing and answers with the model that is there;
    a write that is accepted is filed and a deletion that is accepted (or finds nothing)
    leaves nothing; without an answer that says so they may have had their effect or not. *)
Class BeamlitServer (W : Type) `{BeamlitAPI W} := {
  published : W -> models;
  published_place w e n m : published w !! (e, n) = Some m -> place_of m = Some (e, n);
  sdk_GetModel_keeps n e : keeps published (sdk_GetModel n e);
  sdk_GetModel_answer n e w code text : (sdk_GetModel n e w).2 = Ok (code, text) -> code < 299 ->
    exists m, published w !! (e, n) = Some m /\ json_Model (W:=W) text = Ok m;
  sdk_CreateModel_files m place w : place_of m = Some place ->
    (accepted (sdk_CreateModel m w).2 -> filed place m (published w) (published (sdk_CreateModel m w).1)) /\
    (published (sdk_CreateModel m w).1 = published w \/
     filed place m (published w) (published (sdk_CreateModel m w).1));
  sdk_UpdateModel_files m e n w : place_of m = Some (e, n) ->
    (accepted (sdk_UpdateModel n m w).2 -> filed (e, n) m (published w) (published (sdk_UpdateModel n m w).1)) /\
    (published (sdk_UpdateModel n m w).1 = published w \/
     filed (e, n) m (published w) (published (sdk_UpdateModel n m w).1));
  sdk_DeleteModel_removes n e w :
    (forall code text, (sdk_DeleteModel n e w).2 = Ok (code, text) -> code = 404 \/ code < 299 ->
      published (sdk_DeleteModel n e w).1 = delete (e, n) (published w)) /\
    (published (sdk_DeleteModel n e w).1 = published w \/
     published (sdk_DeleteModel n e w).1 = delete (e, n) (published w))
}.

(** Nothing but the client of the API writes to it. *)
Class LeavesBeamlit (W : Type) `{BeamlitServer W} `{CtrlClient W} `{Offloader W} `{Configurer W}
    `{MetricInformer W} `{HealthInformer W} : Prop := {
  leaves_GetModel k : keeps published (client_GetModel k);
  leaves_UpdateModel m : keeps published (client_UpdateModel m);
  leaves_UpdateModelStatus m : keeps published (client_UpdateModelStatus m);
  leaves_GetService k : keeps published (client_GetService k);
  leaves_GetPodTemplate s k : keeps published (client_GetPodTemplate s k);
  leaves_off_Configure m lb rb p : keeps published (off_Configure m lb rb p);
  leaves_off_Cleanup m : keeps published (off_Cleanup m);
  leaves_cfg_Configure s : keeps published (cfg_Configure s);
  leaves_cfg_Unconfigure s : keeps published (cfg_Unconfigure s);
  leaves_cfg_GetLocal s : keeps published (cfg_GetLocalBeamlitService s);
  leaves_mi_Register a b c d e : keeps published (mi_Register a b c d e);
  leaves_mi_Unregister a : keeps published (mi_Unregister a);
  leaves_hi_Register a b : keeps published (hi_Register a b);
  leaves_hi_Unregister a : keeps published (hi_Unregister a);
  GetModel_asked k w m : (client_GetModel k w).2 = Ok m -> md_Namespace m = nn_Namespace k /\ md_Name m = nn_Name k
}.
Ltac leaves_beamlit := first
  [ apply leaves_GetModel | apply leaves_UpdateModel | apply leaves_UpdateModelStatus | apply leaves_GetService
  | apply leaves_GetPodTemplate | apply leaves_off_Configure | apply leaves_off_Cleanup | apply leaves_cfg_Configure
  | apply leaves_cfg_Unconfigure | apply leaves_cfg_GetLocal | apply leaves_mi_Register | apply leaves_mi_Unregister
  | apply leaves_hi_Register | apply leaves_hi_Unregister ].
#[export] Hint Extern 1 (keeps published _) => leaves_beamlit : inv.

(** The place of a model on Beamlit, and what a model deployment says of it: everything but
    its labels, its ports and its pod template, which other resources have a part in. *)
Definition spec_place (s : ModelDeploymentSpec) : string * string := (mds_Environment s, mds_Model s).
Definition describes (s : ModelDeploymentSpec) (b : BeamlitModel) : Prop :=
  bmod_Enabled b = Some (mds_Enabled s) /\
  bmod_Policies b = Some (toBeamlitPolicies (mds_Policies s)) /\
  bmod_ServerlessConfig b = toBeamlitServerless <$> mds_ServerlessConfig s.
Definition on_beamlit (s : ModelDeploymentSpec) (p : models) : Prop :=
  exists b, p !! spec_place s = Some b /\ describes s b.

Lemma describes_sent s b b' : sent_part b = sent_part b' -> describes s b -> describes s b'.
Proof. unfold describes, sent_part. by intros [= _ _ _ _ -> _ -> -> _]. Qed.

(** ** The client's operations *)

Section Client.
Context {W : Type} `{Hb : BeamlitAPI W} `{Hs : !BeamlitServer W}.

Lemma status_accepted (r : res Reply) code text : r = Ok (code, text) -> (299 <=? code) = false -> accepted r.
Proof. intros -> Hc. exists code, text. split; [done|lia]. Qed.

Lemma CreateOrUpdateModel_files m place w : place_of m = Some place ->
  let x := CreateOrUpdateModel m w in
  (published x.1 = published w \/ filed place m (published w) (published x.1)) /\
  (is_Ok x.2 = true -> filed place m (published w) (published x.1)).
Proof.
  intros Hm. unfold CreateOrUpdateModel. pose proof Hm as Hpl. unfold place_of in Hm.
  destruct (bm_Environment _) as [e|] eqn:Ee; [|done]. destruct (bm_Name _) as [n|] eqn:En; [|done].
  injection Hm as <-. cbn zeta. rewrite bind_run.
  pose proof (sdk_GetModel_keeps n e w) as Hk. destruct (sdk_GetModel n e w) as [w1 [resp|er|]]; cbn in Hk; [|by (split; [left|])..].
  rewrite <-Hk. case_match.
  - unfold createModel. rewrite bind_run. destruct (sdk_CreateModel_files m _ w1 Hpl) as [Hok Hany].
    destruct (sdk_CreateModel m w1) as [w2 [[code text]|er|]]; cbn in *; [|by split..].
    destruct (299 <=? code) eqn:Ec; cbn; [by split|]. split; [done|]. intros _. by eapply Hok, status_accepted.
  - unfold updateModel. rewrite En, bind_run. cbn [deref mret M_ret]. rewrite bind_run.
    destruct (sdk_UpdateModel_files m e n w1 Hpl) as [Hok Hany].
    destruct (sdk_UpdateModel n m w1) as [w2 [[code text]|er|]]; cbn in *; [|by split..].
    destruct (299 <=? code) eqn:Ec; cbn; [by split|]. split; [done|]. intros _. by eapply Hok, status_accepted.
Qed.

Lemma DeleteModelDeployment_removes n e w :
  let x := DeleteModelDeployment n e w in
  (published x.1 = published w \/ published x.1 = delete (e, n) (published w)) /\
  (is_Ok x.2 = true -> published x.1 = delete (e, n) (published w)).
Proof.
  unfold DeleteModelDeployment. rewrite bind_run. destruct (sdk_DeleteModel_removes n e w) as [Hok Hany].
  destruct (sdk_DeleteModel n e w) as [w2 [[code text]|er|]]; cbn in *; [|by split..].
  destruct (code =? 404) eqn:E4; cbn; [|destruct (299 <=? code) eqn:Ec; cbn; [by split|]];
    (split; [done|]); intros _; eapply Hok; [done| |done|]; lia.
Qed.

(** A notice changes labels only. *)
Lemma NotifyOnModelOffloading_keeps n e b w s :
  on_beamlit s (published w) -> on_beamlit s (published (NotifyOnModelOffloading n e b w).1).
Proof.
  intros Hon. unfold NotifyOnModelOffloading. rewrite bind_run.
  pose proof (sdk_GetModel_keeps n e w) as Hk. pose proof (sdk_GetModel_answer n e w) as Ha.
  destruct (sdk_GetModel n e w) as [w1 [[code text]|er|]]; cbn in Hk, Ha; rewrite <-Hk in Hon; [|done..].
  cbn [fst]. destruct (299 <=? code) eqn:Ec; [done|].
  destruct (Ha code text eq_refl) as (m & Hm & Hj); [lia|]. rewrite <-Hk in Hm. cbn [snd].
  rewrite bind_run. unfold of_res. rewrite Hj, bind_run.
  destruct (bm_Labels (bmod_Metadata m)) as [l|]; [|done]. cbn [deref mret M_ret].
  rewrite bind_run. set (m' := set_model_labels _ m).
  pose proof (published_place w1 e n m Hm) as Hpl.
  destruct (sdk_UpdateModel_files m' e n w1 Hpl) as [_ Hany].
  replace (published _) with (published (sdk_UpdateModel n m' w1).1) by (by destruct (sdk_UpdateModel n m' w1) as [? [?|?|]]).
  destruct Hany as [->|(st & Hst & ->)]; [done|].
  destruct Hon as (b0 & Hb0 & Hd). destruct (decide ((e, n) = spec_place s)) as [E|Hne].
  - exists st. rewrite E, lookup_insert_eq. split; [done|]. apply (describes_sent s m'); [done|].
    rewrite <-E, Hm in Hb0. by injection Hb0 as <-.
  - exists b0. by rewrite lookup_insert_ne.
Qed.
End Client.

(** ** The handlers *)

Section Handlers.
Context {W : Type} `{Ho : Offloader W} `{Hcl : CtrlClient W} `{Hb : BeamlitAPI W} `{Hs : !BeamlitServer W}
  `{Hcf : Configurer W} `{Hmi : MetricInformer W} `{Hhi : HealthInformer W} `{Htp : TimeParse}
  `{Hl : !LeavesBeamlit W}.
Local Abbreviation RW := (ModelDeploymentReconciler * W)%type.
Implicit Types (x : RW) (r : ModelDeploymentReconciler) (w : W) (m : ModelDeployment).

(** *** Events

    An event changes neither the models the controller knows nor, labels apart, what is on
    Beamlit. *)
Definition kept x x' : Prop :=
  ManagedModels x'.1 = ManagedModels x.1 /\ BeamlitModels x'.1 = BeamlitModels x.1 /\
  forall s, on_beamlit s (published x.2) -> on_beamlit s (published x'.2).

Lemma kept_gets {A} (f : ModelDeploymentReconciler -> A) x0 : preserves (kept x0) (self (gets f)).
Proof. by intros [r w]. Qed.
Lemma kept_modify f x0 : (forall r, ManagedModels (f r) = ManagedModels r) ->
  (forall r, BeamlitModels (f r) = BeamlitModels r) -> preserves (kept x0) (self (modify f)).
Proof. intros Hm Hbm [r w] Hx. unfold kept, wp, self, zoom. cbn in *. by rewrite Hm, Hbm. Qed.
Lemma kept_call {A} (c : M W A) x0 : keeps published c -> preserves (kept x0) (outer c).
Proof. intros Hc [r w] Hx. apply wp_outer. unfold kept, wp. cbn. by rewrite Hc. Qed.
Lemma kept_notify m b x0 : preserves (kept x0) (notifyOnBeamlit m b).
Proof.
  intros [r w] (H1 & H2 & H3). apply wp_outer. split_and!; [done..|]. intros s Hx. cbn.
  by apply NotifyOnModelOffloading_keeps, H3.
Qed.
Hint Resolve kept_gets kept_call kept_notify : inv.
Hint Extern 2 (preserves _ (self (modify _))) => by apply kept_modify : inv.

Lemma kept_offload_to m o p x0 : preserves (kept x0) (offload_to m o p).
Proof. enter offload_to. auto 6 with inv. Qed.
Hint Resolve kept_offload_to : inv.
Lemma kept_metricCallback m o b x0 : preserves (kept x0) (metricCallback m o b).
Proof. enter metricCallback. walk. Qed.
Lemma kept_healthCheckCallback m o b x0 : preserves (kept x0) (healthCheckCallback m o b).
Proof. enter healthCheckCallback. walk. Qed.
Hint Resolve kept_metricCallback kept_healthCheckCallback : inv.
Lemma kept_event_model v x0 : preserves (kept x0) (event_model v).
Proof. enter event_model. auto 8 with inv. Qed.
Hint Resolve kept_event_model : inv.

Lemma kept_event ev x : (forall req, ev <> EvReconcile req) -> kept x (handle ev x).1.
Proof.
  intros Hev. assert (preserves (kept x) (handle ev)) as Hp; [|by apply Hp].
  destruct ev as [req|s|s]; [by destruct (Hev req)| |]; cbn [Handlers.handle];
    [enter on_health|enter on_metric]; walk.
Qed.

(** *** Reconciling

    Most of it touches nothing of what is followed here, but for the entry of the model. *)
Definition spared (key : string) (man man' : gmap string ManagedModel) : Prop :=
  (forall k, k <> key -> man' !! k = man !! k) /\ (man' !! key = man !! key \/ man' !! key = None).
Definition within p b man key x : Prop :=
  published x.2 = p /\ BeamlitModels x.1 = b /\ spared key man (ManagedModels x.1).

Lemma within_gets {A} (f : ModelDeploymentReconciler -> A) p b man key : preserves (within p b man key) (self (gets f)).
Proof. by intros [r w]. Qed.
Lemma within_modify f p b man key : (forall r, ManagedModels (f r) = ManagedModels r) ->
  (forall r, BeamlitModels (f r) = BeamlitModels r) -> preserves (within p b man key) (self (modify f)).
Proof. intros Hm Hbm [r w] Hx. unfold within, wp, self, zoom. cbn in *. by rewrite Hm, Hbm. Qed.
Lemma within_forget p b man key : preserves (within p b man key) (self (modify (upd_managed (delete key)))).
Proof.
  intros [r w] (Hp & Hb' & Hk & _). split_and!; [done..|]. split; cbn.
  - intros k Hne. rewrite lookup_delete_ne by done. by apply Hk.
  - right. apply lookup_delete_eq.
Qed.
Lemma within_call {A} (c : M W A) p b man key : keeps published c -> preserves (within p b man key) (outer c).
Proof. intros Hc [r w] Hx. apply wp_outer. unfold within, wp. cbn. by rewrite Hc. Qed.
Hint Resolve within_gets within_call within_forget : inv.
Hint Extern 2 (preserves _ (self (modify _))) => by apply within_modify : inv.
Lemma keeps_find_port ref port : keeps published (RetrievePodPort ref port).
Proof. apply keeps_RetrievePodPort. intros k. leaves_beamlit. Qed.
Hint Resolve keeps_find_port : inv.
Lemma within_port_of s p b man key : preserves (within p b man key) (port_of s).
Proof. enter port_of. walk. Qed.
Lemma within_start_offloading m o p b man key : preserves (within p b man key) (start_offloading m o).
Proof. enter start_offloading. walk. Qed.
Hint Resolve within_port_of within_start_offloading : inv.
Lemma within_configureOffloading m p b man : preserves (within p b man (model_key m)) (configureOffloading m).
Proof. enter configureOffloading. walk. Qed.
Hint Resolve within_configureOffloading : inv.

(** Applying a model writes one place of Beamlit, and when it is done the model is there. *)
Definition wrote m (p p' : models) : Prop := exists m' podTemplate,
  md_Spec m' = md_Spec m /\ md_Meta m' = md_Meta m /\
  filed (spec_place (md_Spec m)) (beamlit_model m' podTemplate) p p'.
Definition entry_of m : ManagedModel := mkManaged (md_Namespace m) (md_Name m) true (md_Generation m).
Definition applied m x (done : bool) x' : Prop :=
  let b := <[beamlit_key m := md_Name m]> (BeamlitModels x.1) in
  if done then wrote m (published x.2) (published x'.2) /\ BeamlitModels x'.1 = b /\
    exists man, spared (model_key m) (ManagedModels x.1) man /\
      ManagedModels x'.1 = <[model_key m := entry_of m]> man
  else (published x'.2 = published x.2 \/ wrote m (published x.2) (published x'.2)) /\
    (BeamlitModels x'.1 = BeamlitModels x.1 \/ BeamlitModels x'.1 = b) /\
    spared (model_key m) (ManagedModels x.1) (ManagedModels x'.1).

Lemma applied_before m x x' :
  within (published x.2) (BeamlitModels x.1) (ManagedModels x.1) (model_key m) x' -> applied m x false x'.
Proof. unfold applied. intros (-> & -> & Hsp). split_and!; auto. Qed.
Lemma applied_after m x p x' : p = published x.2 \/ wrote m (published x.2) p ->
  within p (<[beamlit_key m := md_Name m]> (BeamlitModels x.1)) (ManagedModels x.1) (model_key m) x' -> applied m x false x'.
Proof. unfold applied. intros Hp (-> & -> & Hsp). split_and!; auto. Qed.

(** Past a part that keeps what [H] says. *)
Ltac past H := eapply wp_bind_preserves; [|exact H|by auto|by auto|]; [solve [auto with inv]|].

(** The second half, from the answer of Beamlit on. *)
Lemma applied_rest m m2 (up : BeamlitModel) p x x1 : md_Spec m2 = md_Spec m -> md_Meta m2 = md_Meta m ->
  wrote m (published x.2) p ->
  within p (<[beamlit_key m := md_Name m]> (BeamlitModels x.1)) (ManagedModels x.1) (model_key m) x1 ->
  wp (ws ← deref (bm_Workspace (bmod_Metadata up));
      createdText ← deref (bm_CreatedAt (bmod_Metadata up));
      createdAt ← of_res (time_Parse createdText);
      updatedText ← deref (bm_UpdatedAt (bmod_Metadata up));
      updatedAt ← of_res (time_Parse updatedText);
      model ← configureOffloading (set_beamlit_status ws createdAt updatedAt m2);
      _ ← outer (client_UpdateModelStatus model);
      self (modify (upd_managed <[model_key model := entry_of model]>)))
    (fun o x' => applied m x (is_Ok o) x') x1.
Proof.
  intros Hspec Hmeta Hp Hx1. pose proof (fun x' => applied_after m x p x' (or_intror Hp)) as Hend.
  do 5 (past Hx1; clear x1 Hx1; intros ? x1 Hx1).
  set (m3 := set_beamlit_status _ _ _ m2).
  assert (md_Meta m3 = md_Meta m /\ model_key m3 = model_key m) as [Hm3 Hk3] by (subst m3; split; [done|];
    unfold model_key, md_Namespace, md_Name; cbn; by rewrite Hmeta).
  clearbody m3.
  pose proof (within_configureOffloading m3 p (<[beamlit_key m := md_Name m]> (BeamlitModels x.1)) (ManagedModels x.1)) as Hc.
  rewrite Hk3 in Hc. specialize (Hc x1 Hx1). pose proof (configureOffloading_named m3 x1) as Hn. unfold wp in Hc.
  apply wp_bind. destruct (configureOffloading m3 x1) as [x2 o] eqn:E. eapply wp_run; [exact E|].
  destruct o as [m4|e|]; [|by apply Hend..]. specialize (Hn x2 m4 I eq_refl). rewrite Hm3 in Hn. cbn in Hc. clear x1 Hx1 E.
  past Hc. intros ? [r3 w3] (Hp3 & Hb3 & Hsp).
  assert (model_key m4 = model_key m /\ entry_of m4 = entry_of m) as [-> ->]
    by (unfold model_key, entry_of, md_Namespace, md_Name, md_Generation; by rewrite Hn).
  apply wp_self, wp_modify. cbn in *. unfold applied. cbn. rewrite Hp3. split_and!; [done..|]. by exists (ManagedModels r3).
Qed.

Lemma apply_model_from m x x1 :
  within (published x.2) (BeamlitModels x.1) (ManagedModels x.1) (model_key m) x1 ->
  wp (apply_model m) (fun o x' => applied m x (is_Ok o) x') x1.
Proof.
  intros Hx1. pose proof (applied_before m x) as Hend. enter apply_model.
  past Hx1. clear x1 Hx1. intros sp x1 Hx1. past Hx1. clear x1 Hx1. intros mp x1 Hx1.
  set (m2 := match mp with Some p => set_MetricPort p _ | None => _ end).
  assert (md_Spec m2 = md_Spec m /\ md_Meta m2 = md_Meta m) as [Hspec Hmeta] by (subst m2; by destruct mp, sp).
  assert (beamlit_key m2 = beamlit_key m /\ md_Name m2 = md_Name m) as [-> ->]
    by (unfold beamlit_key, md_Name; by rewrite Hspec, Hmeta).
  clearbody m2. destruct x1 as [r1 w1]. apply wp_bind, wp_outer.
  pose proof (keeps_ToBeamlitModelDeployment published m2 ltac:(intros; leaves_beamlit) w1) as Hk.
  destruct (ToBeamlitModelDeployment m2 w1) as [w2 o] eqn:E. eapply wp_run; [exact E|]. cbn in Hk.
  destruct o as [b|e|]; [|apply Hend; by destruct Hx1 as (H1 & H2 & H3); split_and!; [cbn in *; congruence|..]..].
  apply ToBeamlitModelDeployment_ok in E as [pt ->].
  destruct Hx1 as (H1 & H2 & H3). cbn [fst snd] in H1, H2, H3. rewrite <-Hk in H1. clear w1 Hk.
  apply wp_bind, wp_self, wp_modify, wp_bind, wp_outer.
  destruct (CreateOrUpdateModel_files (beamlit_model m2 pt) (spec_place (md_Spec m2)) w2 eq_refl) as [Hany Hok].
  rewrite H1 in Hany, Hok.
  assert (forall p, filed (spec_place (md_Spec m2)) (beamlit_model m2 pt) (published x.2) p -> wrote m (published x.2) p) as Hw
    by (intros p Hp; exists m2, pt; by rewrite Hspec in Hp).
  destruct (CreateOrUpdateModel (beamlit_model m2 pt) w2) as [w3 o] eqn:E. eapply wp_run; [exact E|]. cbn in Hany, Hok.
  assert (within (published w3) (<[beamlit_key m := md_Name m]> (BeamlitModels x.1)) (ManagedModels x.1) (model_key m)
    (upd_beamlit <[beamlit_key m := md_Name m]> r1, w3)) as Hx3 by (split_and!; [done|by cbn; rewrite H2|done]).
  assert (published w3 = published x.2 \/ wrote m (published x.2) (published w3)) as Hp
    by (destruct Hany as [->|Hf]; [by left|right; by apply Hw]).
  destruct o as [up|e|]; [|by apply (applied_after m x (published w3))..].
  apply (applied_rest m m2 up (published w3) x); [done..| |exact Hx3]. by apply Hw, Hok.
Qed.

Lemma apply_model_effect m x : wp (apply_model m) (fun o x' => applied m x (is_Ok o) x') x.
Proof. apply apply_model_from. split_and!; [done..|]. split; auto. Qed.

Lemma applied_forgets m x x' f : (forall r, BeamlitModels (f r) = BeamlitModels r) ->
  (forall r, ManagedModels (f r) = ManagedModels r \/ ManagedModels (f r) = delete (model_key m) (ManagedModels r)) ->
  applied m x false x' -> applied m x false (f x'.1, x'.2).
Proof.
  intros Hb' Hm (Hp & Hb1 & Hk & Hkey). unfold applied. cbn. rewrite Hb'. split_and!; [done..|].
  destruct (Hm x'.1) as [->| ->]; [done|]. split; [intros k Hne; rewrite lookup_delete_ne; auto|].
  right. apply lookup_delete_eq.
Qed.

(** A model is skipped or applied. *)
Lemma settle_model_effect m x : wp (settle_model m) (fun o x' =>
  if skip_model x.1 m then o = Ok false /\ x' = x
  else applied m x (match o with Ok b => negb b | _ => false end) x') x.
Proof.
  destruct x as [r w]. enter settle_model. apply wp_bind, wp_try. enter createOrUpdate.
  apply wp_bind, wp_self, wp_gets. cbn [fst]. destruct (skip_model r m); [by split|].
  eapply wp_mono; [apply apply_model_effect|]. intros [[]|e|] x'; [done| |done].
  intros Happ. destruct (IsConflict e); [done|]. destruct x' as [r' w'].
  apply wp_bind, wp_self, wp_modify, wp_bind, wp_self, wp_modify, wp_bind, wp_self, wp_modify, wp_throw.
  apply (applied_forgets m (r, w) (_, w') (upd_managed (delete (model_key m)))); [done|by right|].
  apply (applied_forgets m (r, w) (_, w') (upd_ongoing (delete (model_key m)))); [done|by left|].
  by apply (applied_forgets m (r, w) (r', w') (upd_state (delete (model_key m)))); [|left|].
Qed.

(** A model that is finalized is forgotten, and removed if it has offloading settings. *)
Definition finalized m x x' : Prop :=
  (forall k, k <> model_key m -> ManagedModels x'.1 !! k = ManagedModels x.1 !! k) /\
  ManagedModels x'.1 !! model_key m = None /\
  BeamlitModels x'.1 = delete (beamlit_key m) (BeamlitModels x.1) /\
  (published x'.2 = published x.2 \/ published x'.2 = delete (spec_place (md_Spec m)) (published x.2)).
Definition removed m (p : models) : models :=
  match mds_OffloadingConfig (md_Spec m) with Some _ => delete (spec_place (md_Spec m)) p | None => p end.

Lemma finalizeModel_effect m x : wp (finalizeModel m) (fun o x' =>
  finalized m x x' /\ (is_Ok o = true -> published x'.2 = removed m (published x.2))) x.
Proof.
  destruct x as [r w]. enter finalizeModel. do 4 apply wp_bind, wp_self, wp_modify. set (r1 := upd_managed _ _).
  set (J := fun x' : RW => published x'.2 = published w /\ x'.1 = r1).
  assert (forall x' p, p = published w \/ p = delete (spec_place (md_Spec m)) (published w) ->
    published x'.2 = p -> x'.1 = r1 -> finalized m (r, w) x') as Hfin.
  { intros x' p Hp Ep Er. unfold finalized. rewrite Ep, Er. split_and!; [|by apply lookup_delete_eq|done|done].
    intros k Hk. cbn. by rewrite lookup_delete_ne. }
  assert (forall c : M W unit, keeps published c -> preserves J (outer c)) as HJ
    by (intros c Hc [r' w'] [E1 E2]; apply wp_outer; split; [cbn; by rewrite Hc|done]).
  unfold removed. destruct (mds_OffloadingConfig (md_Spec m)) as [o|]; [|by apply wp_ret; split; [eapply Hfin; [left|..]|]].
  assert (J (r1, w)) as Hx1 by done. revert Hx1. generalize (r1, w). intros x1 Hx1.
  do 4 (eapply (wp_bind_preserves J); [apply HJ; leaves_beamlit|exact Hx1| | |clear x1 Hx1; intros ? x1 Hx1];
    [intros e x' [E1 E2]; split; [by eapply Hfin; [left|..]|done]|intros x' [E1 E2]; split; [by eapply Hfin; [left|..]|done]|]).
  destruct x1 as [r2 w2], Hx1 as [E1 E2]. cbn in E1, E2. apply wp_outer. unfold wp. cbn.
  destruct (DeleteModelDeployment_removes (mds_Model (md_Spec m)) (mds_Environment (md_Spec m)) w2) as [Hany Hok].
  rewrite E1 in Hany, Hok. split; [by eapply Hfin|done].
Qed.

(** What one reconciliation does, with the model it was told. *)
Definition untouched x x' : Prop :=
  published x'.2 = published x.2 /\ BeamlitModels x'.1 = BeamlitModels x.1 /\ ManagedModels x'.1 = ManagedModels x.1.
Definition deleted m : bool := bool_decide (is_Some (meta_DeletionTimestamp (md_Meta m))).
Definition has_finalizer m : bool := ContainsFinalizer modelDeploymentFinalizer (md_Meta m).
Definition reconciled m x (o : res bool) x' : Prop :=
  if negb (has_finalizer m) then untouched x x'
  else if deleted m then finalized m x x' /\ (is_Ok o = true -> published x'.2 = removed m (published x.2))
  else if skip_model x.1 m then o = Ok false /\ untouched x x'
  else applied m x (match o with Ok b => negb b | _ => false end) x'.

Lemma untouched_call {A} (c : M W A) x : keeps published c -> preserves (untouched x) (outer c).
Proof. intros Hc [r w] Hx. apply wp_outer. unfold untouched, wp. cbn. by rewrite Hc. Qed.

(** Removing or adding the finalizer, the last action, is not seen on Beamlit. *)
Lemma update_last (P : RW -> Prop) m' r w :
  (forall w', published w' = published w -> P (r, w')) ->
  wp (_ ← outer (client_UpdateModel m'); mret false) (fun o x' => P x') (r, w).
Proof.
  intros HP. apply wp_bind, wp_outer. unfold wp. pose proof (leaves_UpdateModel m' w) as Hk.
  destruct (client_UpdateModel m' w) as [w' [m2|e|]]; cbn in *; by apply HP.
Qed.

Lemma Reconcile_effect req r w : wp (Reconcile req) (fun o x' =>
  match (client_GetModel req w).2 with Ok m => reconciled m (r, w) o x' | _ => untouched (r, w) x' end) (r, w).
Proof.
  enter Reconcile. apply wp_bind, wp_try, wp_outer. unfold wp at 1. pose proof (leaves_GetModel req w) as Hk.
  destruct (client_GetModel req w) as [w1 [m|e|]]; cbn [fst snd] in *; [|by case_match|done].
  unfold reconciled, deleted, has_finalizer. destruct (meta_DeletionTimestamp (md_Meta m)) as [d|];
    [rewrite bool_decide_eq_true_2 by done|rewrite bool_decide_eq_false_2 by apply is_Some_None];
    destruct (ContainsFinalizer _ _); cbn [negb].
  - apply wp_bind. eapply wp_mono; [apply finalizeModel_effect|]. unfold finalized. cbn [snd]. rewrite Hk.
    intros [[]|e|] [r2 w2] [Hf Hok]; [|by split..]. specialize (Hok eq_refl).
    eapply wp_mono; [apply (update_last (fun x' => finalized m (r, w) x' /\ published x'.2 = removed m (published w)))|].
    + unfold finalized. cbn in *. intros w3 ->. by split.
    + unfold finalized. cbn. by intros o x' [H1 H2].
  - by split_and!.
  - eapply wp_mono; [apply settle_model_effect|]. unfold applied. cbn [fst snd]. rewrite Hk.
    intros o x'. destruct (skip_model r m); [|done]. by intros [-> ->].
  - apply (update_last (untouched (r, w))). intros w2 Hw2. split_and!; [cbn; congruence|done..].
Qed.
End Handlers.

(** ** The controller

    One step is a reconciliation, an event, or a move of the world that leaves Beamlit alone;
    a panic ends the process, which starts again with empty maps.  The history is what the API
    server has answered last for each model of the namespace, and the names on Beamlit of
    models that were deleted while another model described the same. *)
Record history := mkHistory { seen_last : gmap string ModelDeployment; gone_shared : gset string }.

Section Controller.
Context {W : Type} `{Ho : Offloader W} `{Hcl : CtrlClient W} `{Hb : BeamlitAPI W} `{Hs : !BeamlitServer W}
  `{Hcf : Configurer W} `{Hmi : MetricInformer W} `{Hhi : HealthInformer W} `{Htp : TimeParse}
  `{Hl : !LeavesBeamlit W}.
Local Abbreviation RW := (ModelDeploymentReconciler * W)%type.
Implicit Types (x : RW) (r : ModelDeploymentReconciler) (w : W) (m : ModelDeployment) (seen : history).

(** The answers come in order: generations do not go back and each stands for one spec. *)
Definition in_order seen m : Prop := forall m0, seen_last seen !! md_Name m = Some m0 ->
  md_Generation m0 < md_Generation m \/ md_Generation m0 = md_Generation m /\ md_Spec m0 = md_Spec m.
(** Another model describes the same model of Beamlit. *)
Definition shares_name seen m : Prop :=
  map_Exists (fun n m' => n <> md_Name m /\ beamlit_key m' = beamlit_key m) (seen_last seen).
Definition saw m seen : history := mkHistory (<[md_Name m := m]> (seen_last seen)) (gone_shared seen).
Definition saw_go m seen : history :=
  mkHistory (delete (md_Name m) (seen_last seen))
    (if bool_decide (shares_name seen m) then {[beamlit_key m]} ∪ gone_shared seen else gone_shared seen).
Definition now_seen m seen : history := if has_finalizer m && deleted m then saw_go m seen else saw m seen.

Definition restarted r : ModelDeploymentReconciler := mkReconciler ∅ ∅ ∅ ∅ (DefaultRemoteBackend r).
Definition or_restart (y : RW * res unit) : RW :=
  match y.2 with Panic => (restarted y.1.1, y.1.2) | _ => y.1 end.

Inductive publish_step (ns : string) : relation (RW * history) :=
| pub_told req r w seen m : nn_Namespace req = ns -> (client_GetModel req w).2 = Ok m -> in_order seen m ->
    publish_step ns ((r, w), seen) (or_restart (handle (EvReconcile req) (r, w)), now_seen m seen)
| pub_untold req r w seen : nn_Namespace req = ns -> is_Ok (client_GetModel req w).2 = false ->
    publish_step ns ((r, w), seen) (or_restart (handle (EvReconcile req) (r, w)), seen)
| pub_event ev x seen : (forall req, ev <> EvReconcile req) ->
    publish_step ns (x, seen) (or_restart (handle ev x), seen)
| pub_world r w w' seen : published w' = published w -> publish_step ns ((r, w), seen) ((r, w'), seen).

(** What every run keeps: a known generation is at most the one seen, and if it is that one
    the model is on Beamlit, under a name that is held for it, unless another model took both
    away. *)
Definition current ns (c : RW * history) : Prop :=
  (forall n m, seen_last c.2 !! n = Some m -> md_Namespace m = ns /\ md_Name m = n) /\
  forall n v, ManagedModels c.1.1 !! slash_key ns n = Some v -> exists m, seen_last c.2 !! n = Some m /\
    mm_lastGeneration v <= md_Generation m /\
    (mm_lastGeneration v = md_Generation m -> beamlit_key m ∉ gone_shared c.2 ->
      on_beamlit (md_Spec m) (published c.1.2) /\ BeamlitModels c.1.1 !! beamlit_key m = Some n).

Lemma handle_reconcile req x : (handle (EvReconcile req) x).1 = (Reconcile req x).1 /\
  ((handle (EvReconcile req) x).2 = Panic <-> (Reconcile req x).2 = Panic).
Proof.
  cbn [Handlers.handle]. unfold attempt, M_attempt, try. rewrite bind_run.
  by destruct (Reconcile req x) as [x' [b|e|]].
Qed.

Lemma current_restart ns r w seen : (forall n m, seen_last seen !! n = Some m -> md_Namespace m = ns /\ md_Name m = n) ->
  current ns ((restarted r, w), seen).
Proof. intros Hn. by split. Qed.
Lemma or_restart_run y : y.2 <> Panic -> or_restart y = y.1.
Proof. unfold or_restart. by destruct y.2. Qed.

Lemma current_same ns x x' seen : ManagedModels x'.1 = ManagedModels x.1 -> BeamlitModels x'.1 = BeamlitModels x.1 ->
  (forall s, on_beamlit s (published x.2) -> on_beamlit s (published x'.2)) ->
  current ns (x, seen) -> current ns (x', seen).
Proof.
  intros E1 E2 Hp [Hn Hv]. split; [exact Hn|]. cbn in *. rewrite E1, E2. intros n v Hm.
  destruct (Hv n v Hm) as (m & Hs1 & Hle & Heq). exists m. split_and!; [done..|]. intros E Hg. destruct (Heq E Hg). auto.
Qed.

(** A newer answer. *)
Lemma current_told ns x seen m : md_Namespace m = ns -> in_order seen m -> current ns (x, seen) ->
  current ns (x, saw m seen).
Proof.
  intros Hns Hord [Hn Hv]. split; cbn in *.
  - intros n m' [[<- <-]|[_ Hm]]%lookup_insert_Some; [done|by apply Hn].
  - intros n v Hm. destruct (Hv n v Hm) as (m0 & Hs1 & Hle & Heq). destruct (decide (n = md_Name m)) as [->|Hne].
    + exists m. rewrite lookup_insert_eq. split; [done|]. destruct (Hord m0 Hs1) as [Hlt|[Hg Hsp]].
      * split; [lia|lia].
      * unfold beamlit_key in *. rewrite <-Hg, <-Hsp. by split.
    + exists m0. rewrite lookup_insert_ne by done. by split_and!.
Qed.

Lemma wrote_on m p p' : wrote m p p' -> on_beamlit (md_Spec m) p'.
Proof.
  intros (m' & t & Hspec & _ & st & Hst & ->). exists st. rewrite lookup_insert_eq. split; [done|].
  apply (describes_sent _ (beamlit_model m' t)); [done|]. by rewrite <-Hspec.
Qed.
Lemma wrote_others m s p p' : wrote m p p' -> spec_place s <> spec_place (md_Spec m) -> on_beamlit s p -> on_beamlit s p'.
Proof.
  intros (m' & t & _ & _ & st & _ & ->) Hne (b & Hb' & Hd). exists b. by rewrite lookup_insert_ne.
Qed.
Lemma place_key m m' : beamlit_key m' <> beamlit_key m -> spec_place (md_Spec m') <> spec_place (md_Spec m).
Proof. unfold beamlit_key, spec_place. intros Hne [= E1 E2]. apply Hne. by rewrite E1, E2. Qed.

Section Namespace.
Variable ns : string.
Hypothesis Hns : contains_byte "/"%char ns = false.

Lemma other_key n m : md_Namespace m = ns -> n <> md_Name m -> slash_key ns n <> model_key m.
Proof. intros Hm Hne E. unfold model_key in E. rewrite Hm in E. apply slash_key_inj in E as [_ ?]; congruence. Qed.

(** A model that is finalized. *)
Lemma current_finalized m x x' seen : md_Namespace m = ns ->
  finalized m x x' -> current ns (x, seen) -> current ns (x', saw_go m seen).
Proof.
  intros Hm (Hk & Hkey & Hb' & Hp) [Hn Hv]. split; cbn in *.
  - intros n m' [_ Hm']%lookup_delete_Some. by apply Hn.
  - intros n v Hmm. destruct (decide (n = md_Name m)) as [->|Hne].
    + unfold model_key in Hkey. rewrite Hm in Hkey. congruence.
    + rewrite Hk in Hmm by by apply other_key. destruct (Hv n v Hmm) as (m0 & Hs1 & Hle & Heq). exists m0.
      rewrite lookup_delete_ne by done. split_and!; [done..|]. intros E Hg.
      assert (beamlit_key m0 <> beamlit_key m /\ beamlit_key m0 ∉ gone_shared seen) as [Hbk Hg0].
      { split; [intros Eb|by case_bool_decide; set_solver]. rewrite bool_decide_eq_true_2 in Hg; [set_solver|].
        by exists n, m0. }
      destruct (Heq E Hg0) as [Hon Hbm].
      rewrite Hb', lookup_delete_ne by done. split; [|done].
      destruct Hp as [->| ->]; [done|]. destruct Hon as (b & Hb1 & Hd). exists b.
      by rewrite lookup_delete_ne by (apply not_eq_sym; by apply place_key).
Qed.

(** A model that is applied, in full or in part. *)
Lemma current_applied m x x' done seen : md_Namespace m = ns -> in_order seen m -> skip_model x.1 m = false ->
  applied m x done x' -> current ns (x, seen) -> current ns (x', saw m seen).
Proof.
  intros Hm Hord Hskip Happ [Hn Hv]. unfold skip_model in Hskip. apply orb_false_iff in Hskip as [Hbm Hgen].
  assert (forall n m0, BeamlitModels x.1 !! beamlit_key m0 = Some n -> n <> md_Name m -> beamlit_key m0 <> beamlit_key m) as Hfree.
  { intros n m0 E Hne Hk. rewrite Hk in E. rewrite E in Hbm. apply negb_false_iff, String.eqb_eq in Hbm. congruence. }
  assert (published x'.2 = published x.2 \/ wrote m (published x.2) (published x'.2)) as Hp
    by (destruct done; destruct Happ as [? _]; auto).
  assert (BeamlitModels x'.1 = BeamlitModels x.1 \/
    BeamlitModels x'.1 = <[beamlit_key m := md_Name m]> (BeamlitModels x.1)) as Hb'
    by (destruct done; destruct Happ as (_ & ? & _); auto).
  assert (forall n, n <> md_Name m -> ManagedModels x'.1 !! slash_key ns n = ManagedModels x.1 !! slash_key ns n) as Hoth.
  { intros n Hne. pose proof (other_key n m Hm Hne) as Hk. destruct done; [destruct Happ as (_ & _ & man & [Hsp _] & ->)|
      destruct Happ as (_ & _ & Hsp & _)]; [rewrite lookup_insert_ne by congruence|]; by apply Hsp. }
  split; cbn in *; [intros n m' [[<- <-]|[_ Hm']]%lookup_insert_Some; [done|by apply Hn]|].
  intros n v Hmm. destruct (decide (n = md_Name m)) as [->|Hne].
  - exists m. rewrite lookup_insert_eq. split; [done|].
    assert (slash_key ns (md_Name m) = model_key m) as Ek by (unfold model_key; by rewrite Hm). rewrite Ek in Hmm.
    destruct done; [destruct Happ as (Hw & Hb1 & man & _ & Eman)|destruct Happ as (_ & _ & _ & Hkey)].
    + rewrite Eman, lookup_insert_eq in Hmm. injection Hmm as <-. cbn. split; [lia|]. intros _ _.
      split; [by eapply wrote_on|]. rewrite Hb1. apply lookup_insert_eq.
    + destruct Hkey as [E|E]; [|congruence]. rewrite E in Hmm. rewrite Hmm in Hgen. apply Z.eqb_neq in Hgen.
      rewrite <-Ek in Hmm. destruct (Hv _ _ Hmm) as (m0 & Hs1 & Hle & _).
      destruct (Hord m0 Hs1) as [Hlt|[Hg _]]; split; lia.
  - rewrite Hoth in Hmm by done. destruct (Hv n v Hmm) as (m0 & Hs1 & Hle & Heq). exists m0.
    rewrite lookup_insert_ne by done. split_and!; [done..|]. intros E Hg. destruct (Heq E Hg) as [Hon Hb1].
    pose proof (Hfree n m0 Hb1 Hne) as Hk. split.
    + destruct Hp as [->|Hw]; [done|]. eapply wrote_others; [exact Hw|by apply place_key|done].
    + destruct Hb' as [->| ->]; [done|]. by rewrite lookup_insert_ne by congruence.
Qed.

Lemma current_reconciled req r w m x' o seen : nn_Namespace req = ns -> (client_GetModel req w).2 = Ok m ->
  in_order seen m -> reconciled m (r, w) o x' -> current ns ((r, w), seen) -> current ns (x', now_seen m seen).
Proof.
  intros Hreq Hget Hord Hrec Hcur. assert (md_Namespace m = ns) as Hm by (by destruct (GetModel_asked req w m Hget) as [-> _]).
  assert (untouched (r, w) x' -> current ns (x', saw m seen)) as Hsame.
  { intros (H1 & H2 & H3). apply (current_same ns (r, w)); [done|done|by rewrite H1|]. by apply current_told. }
  unfold reconciled, now_seen in *. destruct (has_finalizer m); cbn [negb andb] in *; [|by apply Hsame].
  destruct (deleted m) eqn:Ed.
  - eapply current_finalized; [done|by apply Hrec|done].
  - destruct (skip_model (r, w).1 m) eqn:Esk; [by apply Hsame; destruct Hrec|]. by eapply current_applied.
Qed.

Lemma current_step c c' : publish_step ns c c' -> current ns c -> current ns c'.
Proof.
  intros Hst Hcur. assert (forall y seen, (forall n m, seen_last seen !! n = Some m -> md_Namespace m = ns /\ md_Name m = n) ->
    (y.2 <> Panic -> current ns (y.1, seen)) -> current ns (or_restart y, seen)) as Hend.
  { intros [[r w] [[]|e|]] seen Hn Hok; try by apply Hok. by apply current_restart. }
  destruct Hst as [req r w seen m Hreq Hget Hord|req r w seen Hreq Hget|ev x seen Hev|r w w' seen Hw].
  - pose proof (Reconcile_effect req r w) as He. unfold wp in He. rewrite Hget in He.
    pose proof (current_reconciled _ _ _ _ _ _ _ Hreq Hget Hord He Hcur) as Hx.
    destruct (handle_reconcile req (r, w)) as [E _]. apply Hend; [apply Hx|]. by rewrite E.
  - pose proof (Reconcile_effect req r w) as He. unfold wp in He. destruct (handle_reconcile req (r, w)) as [E _].
    apply Hend; [apply Hcur|]. intros _. rewrite E. destruct (client_GetModel req w).2; [done|..];
      destruct He as (H1 & H2 & H3); (apply (current_same ns (r, w)); [done|done|by rewrite H1|done]).
  - apply Hend; [apply Hcur|]. intros _. destruct (kept_event ev x Hev) as (H1 & H2 & H3).
    by apply (current_same ns x).
  - apply (current_same ns (r, w)); [done|done|cbn; by rewrite Hw|done].
Qed.
End Namespace.

(** ** Properties *)


(** C28. What one reconciliation that is done leaves on Beamlit, in every case: a model that goes
    away is removed when it has offloading settings; a model that is neither skipped nor
    without the finalizer is filed at its place as its conversion, with the pod template and
    the ports that were found; anything else changes nothing there. *)
Theorem reconcile_publishes req r w m x' :
  (client_GetModel req w).2 = Ok m -> Reconcile req (r, w) = (x', Ok false) ->
  if negb (has_finalizer m) then published x'.2 = published w
  else if deleted m then published x'.2 = removed m (published w)
  else if skip_model r m then published x'.2 = published w
  else exists m' podTemplate, md_Spec m' = md_Spec m /\ md_Meta m' = md_Meta m /\
    filed (spec_place (md_Spec m)) (beamlit_model m' podTemplate) (published w) (published x'.2).
Proof.
  intros Hget E. pose proof (Reconcile_effect req r w) as He. unfold wp in He. rewrite Hget, E in He. cbn in He.
  unfold reconciled in He. destruct (has_finalizer m); cbn in *; [|apply He].
  destruct (deleted m); [by apply He|]. destruct (skip_model r m); [by destruct He as [_ [He _]]|apply He].
Qed.

(** A model that is refused, because another one describes the same model of Beamlit, takes
    the other's model with it when it is deleted, and its name. *)
Theorem refused_model_takes_the_other_away req r w m other x' :
  (client_GetModel req w).2 = Ok m -> deleted m = true -> has_finalizer m = true ->
  BeamlitModels r !! beamlit_key m = Some other -> other <> md_Name m -> is_Some (mds_OffloadingConfig (md_Spec m)) ->
  Reconcile req (r, w) = (x', Ok false) ->
  published x'.2 !! spec_place (md_Spec m) = None /\ BeamlitModels x'.1 !! beamlit_key m = None.
Proof.
  intros Hget Hd Hf _ _ [o Ho'] E. pose proof (Reconcile_effect req r w) as He. unfold wp in He.
  rewrite Hget, E in He. cbn in He. unfold reconciled in He. rewrite Hf, Hd in He. cbn in He.
  destruct He as [(_ & _ & -> & _) Hp]. rewrite (Hp eq_refl). unfold removed. rewrite Ho'.
  split; apply lookup_delete_eq.
Qed.

(** A model that is given another name or environment stays on Beamlit where it was, and its
    old place is not free for another model. *)
Theorem renamed_model_is_left_behind req r w m x' old n :
  (client_GetModel req w).2 = Ok m -> deleted m = false -> old <> spec_place (md_Spec m) ->
  slash_key old.1 old.2 <> beamlit_key m -> BeamlitModels r !! slash_key old.1 old.2 = Some n ->
  Reconcile req (r, w) = (x', Ok false) ->
  published x'.2 !! old = published w !! old /\ BeamlitModels x'.1 !! slash_key old.1 old.2 = Some n.
Proof.
  intros Hget Hd Hold Hkey Hn E. pose proof (Reconcile_effect req r w) as He. unfold wp in He.
  rewrite Hget, E in He. cbn in He. unfold reconciled in He. rewrite Hd in He.
  destruct (has_finalizer m); cbn in He; [|by destruct He as (-> & -> & _)].
  destruct (skip_model r m); [by destruct He as [_ (-> & -> & _)]|].
  destruct He as ((m' & t & _ & _ & st & _ & ->) & -> & _). by rewrite !lookup_insert_ne.
Qed.
End Controller.

(** ** A server and a cluster

    The server keeps a table and stamps what it files; its answers number the models. *)
Module PublishExamples.
Import RouteApiExamples.

Record site := mkSite { site_models : gmap NamespacedName ModelDeployment; site_table : models }.

#[local] Instance Metadata_countable : Countable Metadata.
Proof.
  apply (inj_countable' (fun d => (bm_Name d, bm_Environment d, bm_Labels d, bm_DisplayName d, bm_Workspace d,
                                   bm_CreatedAt d, bm_UpdatedAt d))
           (fun '(a, b, c, d, e, f, g) => mkMetadata a b c d e f g)). by intros [].
Defined.
#[local] Instance Runtime_countable : Countable Runtime.
Proof. apply (inj_countable' (fun d => (rt_ServingPort d, rt_MetricPort d)) (fun '(a, b) => mkRuntime a b)). by intros []. Defined.
#[local] Instance BeamlitServerless_countable : Countable BeamlitServerless.
Proof.
  apply (inj_countable' (fun d => (bs_MinNumReplicas d, bs_MaxNumReplicas d, bs_Metric d, bs_Target d, bs_ScaleUpMinimum d,
                                   bs_ScaleDownDelay d, bs_StableWindow d, bs_LastPodRetentionPeriod d))
           (fun '(a, b, c, d, e, f, g, h) => mkBeamlitServerless a b c d e f g h)). by intros [].
Defined.
#[local] Instance BeamlitModel_countable : Countable BeamlitModel.
Proof.
  apply (inj_countable' (fun d => (bmod_Metadata d, bmod_Enabled d, bmod_Runtime d, bmod_Policies d,
                                   bmod_ServerlessConfig d, bmod_PodTemplate d))
           (fun '(a, b, c, d, e, f) => mkBeamlitModel a b c d e f)). by intros [].
Defined.
Definition text_of (m : BeamlitModel) : string := pos_bits (encode m).
Definition of_text (s : string) : res BeamlitModel :=
  match decode (bits_pos s) with Some m => Ok m | None => Err (Errorf "bad model") end.
Lemma of_text_of m : of_text (text_of m) = Ok m.
Proof. unfold of_text, text_of. by rewrite (proj1 (bits_pos_bits _)), decode_encode. Qed.

Definition stamped (m : BeamlitModel) : BeamlitModel :=
  let d := bmod_Metadata m in
  mkBeamlitModel (mkMetadata (bm_Name d) (bm_Environment d) (bm_Labels d) (bm_DisplayName d) (Some "ws") (Some "t") (Some "t"))
    (bmod_Enabled m) (bmod_Runtime m) (bmod_Policies m) (bmod_ServerlessConfig m) (bmod_PodTemplate m).
Lemma stamped_place m : place_of (stamped m) = place_of m.
Proof. done. Qed.
Definition site_file (m : BeamlitModel) : M site Reply := fun w =>
  match place_of m with
  | Some place => (mkSite (site_models w) (<[place := stamped m]> (site_table w)), Ok (200, text_of (stamped m)))
  | None => (w, Ok (422, ""))
  end.
(** Only what is filed at its own place counts as published; nothing else is ever filed. *)
Definition at_place (e : (string * string) * BeamlitModel) : Prop := place_of e.2 = Some e.1.
#[local] Instance at_place_dec e : Decision (at_place e).
Proof. unfold at_place. apply _. Defined.
Definition site_published (w : site) : models := filter at_place (site_table w).
#[local] Instance site_beamlit : BeamlitAPI site := {
  sdk_GetModel n e w := (w, match site_published w !! (e, n) with Some m => Ok (200, text_of m) | None => Ok (404, "") end);
  sdk_CreateModel := site_file;
  sdk_UpdateModel n m := if bool_decide (bm_Name (bmod_Metadata m) = Some n) then site_file m else mret (422, "");
  sdk_DeleteModel n e := modify (fun w => mkSite (site_models w) (delete (e, n) (site_table w))) ;; mret (200, "");
  sdk_GetPolicy a := mret (404, "");
  sdk_CreatePolicy a := mret (503, "");
  sdk_UpdatePolicy a b := mret (503, "");
  sdk_DeletePolicy a := mret (404, "");
  json_Model := of_text;
  json_Policy s := Err (Errorf "")
}.

Lemma site_file_files m place w : place_of m = Some place ->
  filed place m (site_published w) (site_published (site_file m w).1).
Proof.
  intros Hm. unfold site_file. rewrite Hm. exists (stamped m). split; [done|]. unfold site_published. cbn.
  by rewrite map_filter_insert_True.
Qed.
#[local] Program Instance site_server : BeamlitServer site := { published := site_published }.
Next Obligation. intros w e n m [_ Hm]%map_lookup_filter_Some. exact Hm. Qed.
Next Obligation. done. Qed.
Next Obligation.
  intros n e w code text. cbn. destruct (site_published w !! (e, n)) as [m|]; intros [= <- <-]; [|lia].
  intros _. exists m. split; [done|apply of_text_of].
Qed.
Next Obligation. intros m place w Hm. split; [intros _|right]; by apply site_file_files. Qed.
Next Obligation.
  intros m e n w Hm. cbn. assert (bm_Name (bmod_Metadata m) = Some n) as Hn.
  { unfold place_of in Hm. destruct (bm_Environment _), (bm_Name _); congruence. }
  rewrite bool_decide_eq_true_2 by done. split; [intros _|right]; by apply site_file_files.
Qed.
Next Obligation.
  intros n e w. assert (site_published (mkSite (site_models w) (delete (e, n) (site_table w))) = delete (e, n) (site_published w)) as E
    by apply map_filter_delete.
  split; [intros; exact E|right; exact E].
Qed.

Definition not_found : error := mkError "not found" StatusReasonNotFound.
Definition site_get (k : NamespacedName) : M site ModelDeployment := fun w =>
  match site_models w !! k with
  | Some m => if decide (md_Namespace m = nn_Namespace k /\ md_Name m = nn_Name k) then (w, Ok m) else (w, Err not_found)
  | None => (w, Err not_found)
  end.
#[local] Instance site_client : CtrlClient site := {
  client_GetService k := mret (mkService "ns" "svc" [mkServicePort "http" "TCP" 80 (FromInt 8080)] ∅ "10.0.0.1" [] [] "");
  client_GetPodTemplate s k := mret "{}";
  client_GetModel := site_get;
  client_UpdateModel m := mret m;
  client_UpdateModelStatus m := mret m;
  client_GetPolicy k := throw not_found;
  client_UpdatePolicy p := mret p;
  client_UpdatePolicyStatus p := mret p;
  mapstructure_Decode s := Ok s
}.
#[local] Instance site_offloader : Offloader site := { off_Configure m lb rb p := mret tt; off_Cleanup m := mret tt }.
#[local] Instance site_configurer : Configurer site := {
  cfg_Start s := mret tt; cfg_Configure s := mret tt; cfg_Unconfigure s := mret tt; cfg_GetLocalBeamlitService s := deref s
}.
#[local] Instance site_metrics : MetricInformer site := { mi_Register a b c d e := mret tt; mi_Unregister a := mret tt }.
#[local] Instance site_health : HealthInformer site := { hi_Register a b := mret tt; hi_Unregister a := mret tt }.
#[local] Instance site_time : TimeParse := { time_Parse s := Ok 0 }.
#[local] Instance site_leaves : LeavesBeamlit site.
Proof.
  split; try done.
  - intros k w. cbn. unfold site_get. by repeat case_match.
  - intros s w. by destruct s.
  - intros k w m. cbn. unfold site_get. case_match; [case_decide|]; by intros [= <-].
Qed.

(** Two models that describe the same model of Beamlit. *)
Definition site_model (name : string) (gen : Z) (going : option Z) : ModelDeployment :=
  mkModel (mkMeta "ns" name gen ∅ going [modelDeploymentFinalizer])
    (mkModelSpec "llm" true (mkRef "Deployment" "apps/v1" "ns" name)
       (Some (mkServiceRef (mkRef "Service" "v1" "ns" "svc") 80)) None "prod" [mkPolicyRef "remotePolicy" (mkRef "" "" "" "") "eu"]
       None (Some (mkOffloading None [] None)))
    (mkModelStatus false 0 0 "" 0 0).
Definition key (name : string) : NamespacedName := mkNN "ns" name.
Definition cluster (l : list ModelDeployment) : site :=
  mkSite (list_to_map (map (fun m => (mkNN (md_Namespace m) (md_Name m), m)) l)) ∅.
Definition fresh_reconciler : ModelDeploymentReconciler :=
  mkReconciler ∅ ∅ ∅ ∅ (Some (mkRemoteBackend "run.example.com" None "" ∅ "https")).
Definition step_to (ev : controller_event) (x : ModelDeploymentReconciler * site) := (or_restart (W:=site) (handle ev x)).
Definition first_state : ModelDeploymentReconciler * site := (fresh_reconciler, cluster [site_model "a" 1 None; site_model "b" 1 None]).
Definition second_state := step_to (EvReconcile (key "a")) first_state.
Definition third_state := step_to (EvReconcile (key "b")) second_state.

Lemma reconcile_publishes_witness :
  exists m' t, md_Spec m' = md_Spec (site_model "a" 1 None) /\
    filed ("prod", "llm") (beamlit_model m' t) (published first_state.2) (published second_state.2).
Proof.
  assert (Reconcile (key "a") (fresh_reconciler, first_state.2) = (second_state, Ok false)) as E by (vm_compute; reflexivity).
  assert ((client_GetModel (key "a") first_state.2).2 = Ok (site_model "a" 1 None)) as Hget by (vm_compute; reflexivity).
  destruct (reconcile_publishes (W:=site) (key "a") fresh_reconciler _ (site_model "a" 1 None) _ Hget E) as (m' & t & H1 & _ & H2).
  exists m', t. split; [exact H1|exact H2].
Defined.

Lemma told_step n m x seen : (client_GetModel (key n) x.2).2 = Ok m -> in_order seen m ->
  publish_step (W:=site) "ns" (x, seen) (step_to (EvReconcile (key n)) x, now_seen m seen).
Proof. destruct x as [r w]. by apply pub_told. Qed.
Definition seen_a : history := now_seen (site_model "a" 1 None) (mkHistory ∅ ∅).
Definition seen_b : history := now_seen (site_model "b" 1 None) seen_a.
Lemma run_to_third : rtc (publish_step (W:=site) "ns") (first_state, mkHistory ∅ ∅) (third_state, seen_b).
Proof.
  eapply (rtc_l _ _ (second_state, seen_a)); [|eapply (rtc_l _ _ (third_state, seen_b)); [|apply rtc_refl]];
    apply told_step; [vm_compute; reflexivity|done|vm_compute; reflexivity|].
  intros m0 Hm. vm_compute in Hm. discriminate.
Qed.

End PublishExamples.
