(* ===== verification/Requests.v ===== *)
(** The client of the Beamlit API request by request: the reconciler and the loop of the
    events each make several requests per call, and those of the one may fall between those
    of the other. *)

From Stdlib Require Import Ascii.
From stdpp Require Import base numbers gmap strings list relations.
From S2P Require Import Prelude Programs Crd Kube Convert BeamlitClient ModelReconciler Publish.
Local Open Scope Z_scope.

(** ** The calls, request by request *)

Module ByRequest.
Section Code.
Context {W : Type} `{BeamlitAPI W} {F : Type -> Type} `{MRet F, MBind F, Lift W F}.

(** [src/internal/beamlit/model.go:35-54 createModel] *)
Definition createModel (model : BeamlitModel) : F BeamlitModel :=
  resp ← lift (sdk_CreateModel model);
  if 299 <=? resp.1 then lift (S:=W) (throw (status_error "update Model" resp))
  else lift (S:=W) (of_res (json_Model (W:=W) resp.2)).

(** [src/internal/beamlit/model.go:56-75 updateModel] *)
Definition updateModel (model : BeamlitModel) : F BeamlitModel :=
  name ← lift (S:=W) (deref (bm_Name (bmod_Metadata model)));
  resp ← lift (sdk_UpdateModel name model);
  if 299 <=? resp.1 then lift (S:=W) (throw (status_error "update Model" resp))
  else lift (S:=W) (of_res (json_Model (W:=W) resp.2)).

(** [src/internal/beamlit/model.go:18-33 CreateOrUpdateModel] *)
Definition CreateOrUpdateModel (model : BeamlitModel) : F BeamlitModel :=
  match bm_Name (bmod_Metadata model), bm_Environment (bmod_Metadata model) with
  | Some name, Some environment =>
      resp ← lift (sdk_GetModel name environment);
      if resp.1 =? 404 then createModel model else updateModel model
  | _, _ => lift (S:=W) (throw (Errorf "name and environment are required"))
  end.

(** [src/internal/beamlit/model.go:80-103 DeleteModelDeployment] *)
Definition DeleteModelDeployment (model environment : string) : F unit :=
  resp ← lift (sdk_DeleteModel model environment);
  if resp.1 =? 404 then mret tt
  else if 299 <=? resp.1 then lift (S:=W) (throw (status_error "delete Model" resp))
  else mret tt.

(** [src/internal/beamlit/model.go:105-133 NotifyOnModelOffloading] *)
Definition NotifyOnModelOffloading (model environment : string) (offloading : bool) : F unit :=
  resp ← lift (sdk_GetModel model environment);
  if 299 <=? resp.1 then lift (S:=W) (throw (status_error "get ModelDeployment" resp))
  else
    modelDeployment ← lift (S:=W) (of_res (json_Model (W:=W) resp.2));
    labels ← lift (S:=W) (deref (bm_Labels (bmod_Metadata modelDeployment)));
    _ ← lift (sdk_UpdateModel model
          (set_model_labels (<["offloading" := FormatBool offloading]> labels) modelDeployment));
    mret tt.
End Code.
End ByRequest.

(** The calls the controller makes: the reconciler publishes and removes, the events give
    notice. *)
Inductive client_call :=
| Publishing (m : BeamlitModel)
| Removing (n e : string)
| Noticing (n e : string) (offloading : bool).

Section Calls.
Context {W : Type} `{Hb : BeamlitAPI W}.

Definition by_request (c : client_call) : prog W unit :=
  match c with
  | Publishing m => _ ← ByRequest.CreateOrUpdateModel m; mret tt
  | Removing n e => ByRequest.DeleteModelDeployment n e
  | Noticing n e b => ByRequest.NotifyOnModelOffloading n e b
  end.
Definition in_one (c : client_call) : M W unit :=
  match c with
  | Publishing m => _ ← CreateOrUpdateModel m; mret tt
  | Removing n e => DeleteModelDeployment n e
  | Noticing n e b => NotifyOnModelOffloading n e b
  end.

(** With nothing in between they are the calls of the client. *)
Lemma runs_by_request c : runs_as (by_request c) (in_one c).
Proof.
  destruct c as [m|n e|n e b]; cbn [by_request in_one].
  - apply runs_as_bind; [|intros _; apply runs_as_ret].
    unfold ByRequest.CreateOrUpdateModel, CreateOrUpdateModel, ByRequest.createModel, createModel, ByRequest.updateModel, updateModel.
    runs.
  - unfold ByRequest.DeleteModelDeployment, DeleteModelDeployment. runs.
  - unfold ByRequest.NotifyOnModelOffloading, NotifyOnModelOffloading. runs.
Qed.
End Calls.

(** ** What is on Beamlit was sent there *)

(** What was sent, less the label a notice sets. *)
Definition plain_part (m : BeamlitModel) : BeamlitModel :=
  let d := bmod_Metadata m in
  mkBeamlitModel (mkMetadata (bm_Name d) (bm_Environment d) (delete "offloading" <$> bm_Labels d) (bm_DisplayName d) None None None)
    (bmod_Enabled m) (bmod_Runtime m) (bmod_Policies m) (bmod_ServerlessConfig m) (bmod_PodTemplate m).

Lemma plain_sent a b : sent_part a = sent_part b -> plain_part a = plain_part b.
Proof.
  destruct a as [[] ? ? ? ? ?], b as [[] ? ? ? ? ?]. unfold sent_part, plain_part. cbn. by intros [= -> -> -> -> -> -> -> -> ->].
Qed.
Lemma plain_labelled m l b : bm_Labels (bmod_Metadata m) = Some l ->
  plain_part (set_model_labels (<["offloading" := FormatBool b]> l) m) = plain_part m.
Proof. intros Hl. unfold plain_part, set_model_labels. cbn. rewrite Hl. cbn. by rewrite delete_insert_eq. Qed.
Lemma plain_place a b : plain_part a = plain_part b -> place_of a = place_of b.
Proof. unfold place_of. by intros [= -> ->]. Qed.
Lemma plain_labels a b : plain_part a = plain_part b -> is_Some (bm_Labels (bmod_Metadata b)) -> is_Some (bm_Labels (bmod_Metadata a)).
Proof. intros [= _ _ Hl _] [l E]. rewrite E in Hl. by destruct (bm_Labels (bmod_Metadata a)). Qed.

(** Requests return. *)
Class CalmBeamlit (W : Type) `{BeamlitAPI W} : Prop := {
  sdk_GetModel_calm n e w : (sdk_GetModel n e w).2 <> Panic;
  sdk_CreateModel_calm m w : (sdk_CreateModel m w).2 <> Panic;
  sdk_UpdateModel_calm n m w : (sdk_UpdateModel n m w).2 <> Panic;
  sdk_DeleteModel_calm n e w : (sdk_DeleteModel n e w).2 <> Panic;
  json_Model_calm s : json_Model (W:=W) s <> Panic
}.

Section Sent.
Context {W : Type} `{Hs : BeamlitServer W} `{Hcalm : !CalmBeamlit W}.
(** The models that were there or are going to be sent; the controller sends labels. *)
Context (known : BeamlitModel -> Prop).
Hypothesis known_labels : forall m, known m -> is_Some (bm_Labels (bmod_Metadata m)).

Definition genuine (b : BeamlitModel) : Prop := exists m, known m /\ plain_part b = plain_part m.
Definition all_genuine (w : W) : Prop := forall place b, published w !! place = Some b -> genuine b.

Lemma genuine_labelled m l b : genuine m -> bm_Labels (bmod_Metadata m) = Some l ->
  genuine (set_model_labels (<["offloading" := FormatBool b]> l) m).
Proof. intros (k & Hk & E) Hl. exists k. by rewrite plain_labelled. Qed.

Lemma filed_genuine place m (p p' : gmap _ BeamlitModel) : genuine m -> filed place m p p' ->
  (forall place b, p !! place = Some b -> genuine b) -> forall place b, p' !! place = Some b -> genuine b.
Proof.
  intros (k & Hk & E) (st & Hst & ->) Hp pl b. rewrite lookup_insert_Some. intros [[_ <-]|[_ Hb]]; [|by eapply Hp].
  exists k. split; [done|]. by rewrite (plain_sent _ _ Hst).
Qed.

Definition admitted (c : client_call) : Prop :=
  match c with Publishing m => known m | _ => True end.
Abbreviation keeps_genuine := (rgp (S:=W) (X:=W) all_genuine anything).

(** One request. *)
Lemma request_kept {A} (m : M W A) (Q : res A -> W -> Prop) w :
  (forall w, all_genuine w -> all_genuine (m w).1 /\ Q (m w).2 (m w).1) -> keeps_genuine (lift m) Q w.
Proof. intros Hm. apply rgp_lift. intros s _ Hi. cbn. destruct (Hm s Hi). by split_and!. Qed.
Lemma quiet_kept {A} (r : res A) (c : M W A) (Q : res A -> W -> Prop) w : (forall s, c s = (s, r)) -> (forall s, Q r s) ->
  keeps_genuine (lift c) Q w.
Proof. intros Hc HQ. apply request_kept. intros s Hi. by rewrite Hc. Qed.

Definition calm {A} (r : res A) (w : W) : Prop := r <> Panic.
Lemma not_calm {A} w : ~ calm (A:=A) Panic w.
Proof. unfold calm. congruence. Qed.
Lemma ret_kept {A} (a : A) w : keeps_genuine (mret a) calm w.
Proof. by apply rgp_ret. Qed.

Lemma get_kept n e w : keeps_genuine (lift (sdk_GetModel n e))
  (fun (r : res Reply) _ => match r with
              | Ok resp => resp.1 < 299 -> exists m, json_Model (W:=W) resp.2 = Ok m /\ genuine m /\ place_of m = Some (e, n)
              | Err _ => True
              | Panic => False
              end) w.
Proof.
  apply request_kept. intros s Hi. pose proof (sdk_GetModel_keeps n e s) as Hk. pose proof (sdk_GetModel_answer n e s) as Ha.
  pose proof (sdk_GetModel_calm n e s) as Hc.
  split; [unfold all_genuine; by rewrite Hk|]. destruct (sdk_GetModel n e s).2 as [[code text]|er|]; [|done..]. intros Hcode.
  destruct (Ha code text eq_refl Hcode) as (m & Hm & Hj). exists m. split_and!; [done|by eapply Hi|by eapply published_place].
Qed.
Lemma create_kept m w : genuine m -> is_Some (place_of m) -> keeps_genuine (lift (sdk_CreateModel m)) calm w.
Proof.
  intros Hg [pl Hpl]. apply request_kept. intros s Hi. split; [|apply sdk_CreateModel_calm].
  destruct (sdk_CreateModel_files m pl s Hpl) as [_ [E|Hf]]; unfold all_genuine; [by rewrite E|]. by eapply filed_genuine.
Qed.
Lemma update_kept m n e w : genuine m -> place_of m = Some (e, n) -> keeps_genuine (lift (sdk_UpdateModel n m)) calm w.
Proof.
  intros Hg Hpl. apply request_kept. intros s Hi. split; [|apply sdk_UpdateModel_calm].
  destruct (sdk_UpdateModel_files m e n s Hpl) as [_ [E|Hf]]; unfold all_genuine; [by rewrite E|]. by eapply filed_genuine.
Qed.
Lemma delete_kept n e w : keeps_genuine (lift (sdk_DeleteModel n e)) calm w.
Proof.
  apply request_kept. intros s Hi. split; [|apply sdk_DeleteModel_calm].
  destruct (sdk_DeleteModel_removes n e s) as [_ [E|E]]; unfold all_genuine; rewrite E; [done|].
  intros pl b [_ Hb]%lookup_delete_Some. by eapply Hi.
Qed.

(** On to the next request with what is known of the answer. *)
Lemma then_kept {A B} (p : prog W A) (f : A -> prog W B) (P : res A -> W -> Prop) w :
  keeps_genuine p P w -> (forall s, ~ P Panic s) -> (forall a s, P (Ok a) s -> keeps_genuine (f a) calm s) ->
  keeps_genuine (p ≫= f) calm w.
Proof.
  intros Hp Hno Hf. apply rgp_bind. eapply rgp_mono; [exact Hp|]. intros [a|er|] s HP; [by apply Hf|done|by destruct (Hno s)].
Qed.
Lemma decode_kept {A} (r : res A) w : r <> Panic -> keeps_genuine (lift (of_res r)) calm w.
Proof. intros Hr. by apply (quiet_kept r). Qed.
Lemma refuse_kept {A} er w : keeps_genuine (lift (throw er : M W A)) calm w.
Proof. by apply (quiet_kept (Err er)). Qed.
Lemma answered_kept (resp : Reply) er w :
  keeps_genuine (if 299 <=? resp.1 then lift (throw er) else lift (of_res (json_Model (W:=W) resp.2))) calm w.
Proof. case_match; [apply refuse_kept|apply decode_kept, json_Model_calm]. Qed.

Lemma by_request_kept c w : admitted c -> keeps_genuine (by_request c) calm w.
Proof.
  destruct c as [m|n e|n e b]; cbn [by_request admitted].
  - intros Hm. apply (then_kept _ _ calm); [|apply not_calm|intros; apply ret_kept]. unfold ByRequest.CreateOrUpdateModel.
    destruct (bm_Name (bmod_Metadata m)) as [n|] eqn:En; [|apply refuse_kept].
    destruct (bm_Environment (bmod_Metadata m)) as [e|] eqn:Ee; [|apply refuse_kept].
    assert (genuine m) as Hg by (by exists m). assert (place_of m = Some (e, n)) as Hpl by (unfold place_of; by rewrite En, Ee).
    eapply then_kept; [apply get_kept|intros ? []|]. intros resp s _. case_match.
    + eapply then_kept; [by apply create_kept|apply not_calm|]. intros resp2 s2 _. apply answered_kept.
    + unfold ByRequest.updateModel. rewrite En. eapply (then_kept _ _ (fun r _ => r = Ok n)); [by apply (quiet_kept (Ok n))|done|].
      intros ? s2 [= ->]. eapply then_kept; [by apply (update_kept m n e)|apply not_calm|]. intros resp2 s3 _. apply answered_kept.
  - intros _. eapply then_kept; [apply delete_kept|apply not_calm|]. intros resp s _. case_match; [apply ret_kept|]. case_match; [apply refuse_kept|apply ret_kept].
  - intros _. eapply then_kept; [apply get_kept|intros ? []|]. intros resp s Hresp. case_match; [apply refuse_kept|].
    destruct Hresp as (m & Hj & Hg & Hpl); [lia|]. rewrite Hj.
    eapply (then_kept _ _ (fun r _ => r = Ok m)); [by apply (quiet_kept (Ok m))|done|]. intros ? s2 [= ->].
    destruct Hg as (k & Hk & E). destruct (plain_labels m k E (known_labels k Hk)) as [l Hl]. rewrite Hl.
    eapply (then_kept _ _ (fun r _ => r = Ok l)); [by apply (quiet_kept (Ok l))|done|]. intros ? s3 [= ->].
    eapply then_kept; [apply (update_kept _ n e)|apply not_calm|intros; apply ret_kept]; [by apply genuine_labelled; [exists k|]|].
    exact Hpl.
Qed.

(** *** Any interleaving *)

(** A call may start at any time, and its requests may fall anywhere. *)
Definition makes (l : pool W client_call unit) (c : client_call) (p : prog W unit) : Prop :=
  admitted c /\ p = by_request c.
Definition request_step : relation (W * pool W client_call unit) := pool_step (fun _ => False) makes (fun _ _ => False).

(** C30. However the requests of the calls fall among each other, every model on Beamlit is,
    but for the label a notice sets, one that was there or was sent, as a whole and for the
    very place it is at: no two versions are ever mixed; and no call crashes.  Every model that
    was there or is sent has labels, as the ones that the controller sends do ([known]): a
    notice about one without labels would crash. *)
Theorem served_models_were_sent w0 w l :
  (forall place b, published w0 !! place = Some b -> known b) ->
  rtc request_step (w0, []) (w, l) ->
  (forall place b, published w !! place = Some b ->
     exists m, known m /\ place_of m = Some place /\ plain_part b = plain_part m) /\
  (forall c, (c, Crash) ∉ l).
Proof.
  intros H0 Hrun. assert (shared_ok all_genuine anything (fun _ => calm) (w, l)) as [Hg Hl].
  { revert Hrun. apply shared_steps_ok; [exact _|by intros t r x s HP _| |done|].
    - intros l' c p s [Hc ->]. by apply by_request_kept.
    - split; [|by intros c p ?%not_elem_of_nil]. intros pl b Hb. exists b. split; [by eapply H0|done]. }
  split.
  - intros pl b Hb. destruct (Hg pl b Hb) as (m & Hm & E). exists m. split_and!; [done| |done].
    rewrite <-(plain_place _ _ E). destruct pl. by eapply published_place.
  - intros c Hin. by apply (Hl c Crash Hin).
Qed.
End Sent.

(** ** A race

    A notice reads a model, sets its label and writes the model back: what is published in
    between is undone. *)
Module RequestsExamples.
Import PublishExamples.
#[local] Existing Instance site_beamlit.
#[local] Existing Instance site_server.

#[local] Instance site_calm : CalmBeamlit site.
Proof.
  split.
  - intros n e w. cbn. by case_match.
  - intros m w. cbn. unfold site_file. by case_match.
  - intros n m w. cbn. case_match; [|done]. unfold site_file. by case_match.
  - intros n e w. cbn. done.
  - intros s. cbn. unfold of_text. by case_match.
Qed.

(** A model and an edit of it: another policy. *)
Definition with_policy (name : string) : BeamlitModel :=
  beamlit_model (mkModel (mkMeta "ns" "a" 1 ∅ None [])
    (mkModelSpec "llm" true (mkRef "Deployment" "apps/v1" "ns" "a") None None "prod" [mkPolicyRef "remotePolicy" (mkRef "" "" "" "") name]
       None (Some (mkOffloading None [] None))) (mkModelStatus false 0 0 "" 0 0)) "{}".
Definition edited : client_call := Publishing (with_policy "us").
Definition noticed : client_call := Noticing "llm" "prod" true.
#[local] Instance client_call_eq_dec : EqDecision client_call.
Proof. solve_decision. Defined.

Definition sent_models (m : BeamlitModel) : Prop := m = with_policy "eu" \/ m = with_policy "us".
Lemma sent_labels m : sent_models m -> is_Some (bm_Labels (bmod_Metadata m)).
Proof. intros [-> | ->]; by eexists. Qed.

Definition site_with (m : BeamlitModel) : site := mkSite ∅ {[("prod", "llm") := m]}.
Definition config : Type := site * pool site client_call unit.
Definition start_call (c : client_call) (x : config) : config := (x.1, x.2 ++ [(c, by_request c)]).
Definition turns (n : nat) (c : client_call) (x : config) : config := foldl (fun x t => turn t x) x (replicate n c).

Definition raced : config :=
  turns 3 noticed (turns 4 edited (start_call edited (turns 1 noticed (start_call noticed (site_with (with_policy "eu"), []))))).

Lemma start_call_run c x : admitted sent_models c -> rtc (request_step sent_models) x (start_call c x).
Proof. intros Hc. apply rtc_once. destruct x as [w l]. by apply pool_start. Qed.
Lemma call_turns_run n c x : rtc (request_step sent_models) x (turns n c x).
Proof. apply turns_sound. Qed.
Lemma raced_requests_run : rtc (request_step sent_models) (site_with (with_policy "eu"), []) raced.
Proof.
  unfold raced. etransitivity; [by apply (start_call_run noticed)|]. etransitivity; [apply (call_turns_run 1 noticed)|].
  etransitivity; [apply (start_call_run edited); by right|]. etransitivity; [apply (call_turns_run 4 edited)|]. apply call_turns_run.
Qed.

Definition policies_at (w : site) : option BeamlitModel := plain_part <$> published w !! ("prod", "llm").

(** The edit was published and the notice given, both with success, and Beamlit has the
    model from before the edit.  One after the other, in either order, it has the edit. *)
Theorem notice_undoes_an_edit :
  raced.2 = [(noticed, Ret tt); (edited, Ret tt)] /\
  policies_at raced.1 = Some (plain_part (with_policy "eu")) /\
  (let w0 := site_with (with_policy "eu") in
   policies_at (in_one edited (in_one noticed w0).1).1 = Some (plain_part (with_policy "us")) /\
   policies_at (in_one noticed (in_one edited w0).1).1 = Some (plain_part (with_policy "us"))).
Proof. cbv zeta. split_and!; vm_compute; reflexivity. Qed.

Lemma served_models_were_sent_witness :
  raced.2 = [(noticed, Ret tt); (edited, Ret tt)] /\
  (forall b, published raced.1 !! ("prod", "llm") = Some b -> exists m, sent_models m /\ plain_part b = plain_part m).
Proof.
  split; [vm_compute; reflexivity|].
  assert (forall place b, published (site_with (with_policy "eu")) !! place = Some b -> sent_models b) as H0.
  { intros place b Hb. left. apply map_lookup_filter_Some in Hb as [Hb _]. cbn in Hb. by apply lookup_singleton_Some in Hb as [_ <-]. }
  pose proof raced_requests_run as Hrun. revert Hrun. generalize raced. intros [w l] Hrun b Hb.
  destruct (served_models_were_sent sent_models sent_labels _ w l H0 Hrun) as [Hs _].
  destruct (Hs _ b Hb) as (m & Hm & _ & E). exists m. split; [exact Hm|exact E].
Defined.
End RequestsExamples.
