(* ===== verification/Interleave.v ===== *)
(** The model controller with its goroutines side by side: reconciliations run in a worker
    of the manager while the loop of WatchForInformerUpdates handles the events of the
    informers, and both read and write the same maps and the same routes. *)

From Stdlib Require Import Ascii.
From stdpp Require Import base numbers gmap strings list relations.
From S2P Require Import Prelude Programs Crd Kube Offloader Configurer Registry Metric Health Convert BeamlitClient.
From S2P Require Import ModelReconciler ModelSync ModelLoop.
Local Open Scope Z_scope.

Section Interleave.
Context {W : Type} `{Ho : Offloader W} `{Hos : !OffloaderSpec W} `{Hcl : CtrlClient W} `{Hb : BeamlitAPI W}
  `{Hcf : Configurer W} `{Hmi : MetricInformer W} `{Hhi : HealthInformer W} `{Htp : TimeParse}.
Local Abbreviation RW := (ModelDeploymentReconciler * W)%type.

(** The world moves on by itself without touching the shares in force. *)
Inductive world_moves : relation RW :=
| world_move r w w' : offloaded w' = offloaded w -> world_moves (r, w) (r, w').

(** *** One handler per model

    Handlers of one model take turns; handlers of different models overlap, each action
    of one between any two of another.  The manager recovers a reconciliation that panics
    and goes on; [panicked] are the models this happens to. *)
Definition handler_of (ns n : string) (p : prog RW unit) : Prop :=
  exists ev, concerns ns n ev /\ p = Handlers.handle ev.
Definition per_model_step (panicked : string -> Prop) (ns : string) : relation (RW * pool RW string unit) :=
  pool_step panicked (exclusive (handler_of ns)) world_moves.

Lemma interleaved_record `{!Surroundings W} `{!CleanFailures W} panicked ns r0 w0 x l n p :
  contains_byte "/"%char ns = false -> OngoingOffloadings r0 = ∅ -> ManagedModels r0 = ∅ ->
  rtc (per_model_step panicked ns) ((r0, w0), []) (x, l) -> n ∉ l.*1 -> ~ panicked n ->
  OngoingOffloadings x.1 !! slash_key ns n = Some p -> offloaded x.2 !! n = Some p.
Proof.
  intros Hns Ho0 Hm0 Hrun Hn Hp.
  assert (pool_ok (good ns) (mine ns) (fun t => in_step (panicked t)) (x, l)) as (_ & _ & _ & Hout).
  { eapply pool_steps_ok; [| | | |exact Hrun].
    - intros t p' v [ev [Hev ->]] Hv. by apply owns_handle.
    - intros t v Ht. by left.
    - intros s s' [r w w' Hw]. split; [done|]. intros t. unfold mine. cbn. by rewrite Hw.
    - destruct (synced_init (W:=W) ns r0 w0 Ho0 Hm0) as [Hg Hs].
      split_and!; [exact Hg|apply NoDup_nil_2|by intros ? ? ?%not_elem_of_nil|intros t _; right; apply Hs]. }
  destruct (Hout n Hn) as [?|Hv]; [done|]. by apply Hv.
Qed.

(** C4. Handlers of different models may overlap: in any interleaving of reconciliations
    and events with at most one handler in flight per model, the percentage recorded for a
    model without a handler in flight, none of which panicked, is the one its route has;
    a reconciliation of another model that panics and is recovered does not change that.  No
    answer of the gateway is lost: a call that fails has had no effect ([CleanFailures]). *)
Theorem interleaved_record_is_in_force `{!Surroundings W} `{!CleanFailures W} panicked ns r0 w0 x l n p :
  contains_byte "/"%char ns = false -> OngoingOffloadings r0 = ∅ -> ManagedModels r0 = ∅ ->
  rtc (per_model_step panicked ns) ((r0, w0), []) (x, l) -> n ∉ l.*1 -> ~ panicked n ->
  OngoingOffloadings x.1 !! slash_key ns n = Some p -> offloaded x.2 !! n = Some p.
Proof. apply interleaved_record. Qed.

(** A handler that begins, and the steps that follow. *)
Definition begin_handler (n : string) (ev : controller_event) (c : RW * pool RW string unit) : RW * pool RW string unit :=
  (c.1, c.2 ++ [(n, Handlers.handle ev)]).
Definition take_turns (sched : list string) (c : RW * pool RW string unit) : RW * pool RW string unit :=
  foldl (fun c t => turn t c) c sched.
Lemma handler_run panicked ns sched n ev c : n ∉ c.2.*1 -> concerns ns n ev ->
  rtc (per_model_step panicked ns) c (take_turns sched (begin_handler n ev c)).
Proof.
  intros Hn Hev. transitivity (begin_handler n ev c); [|apply turns_sound].
  apply rtc_once. destruct c as [s l]. apply pool_start. split; [done|]. by exists ev.
Qed.

(** *** One reconciliation, one event

    What the code enforces: the manager's only worker reconciles one request at a time and
    recovers panics, and the loop handles one event at a time. *)
Inductive lane := Worker | InformerLoop.
#[local] Instance lane_eq_dec : EqDecision lane.
Proof. solve_decision. Defined.
Definition lane_of (ev : controller_event) : lane :=
  match ev with EvReconcile _ => Worker | _ => InformerLoop end.
Definition lane_program (t : lane) (p : prog RW unit) : Prop :=
  exists ev, lane_of ev = t /\ p = Handlers.handle ev.
Definition lane_step : relation (RW * pool RW lane unit) :=
  pool_step (fun t => t = Worker) (exclusive lane_program) world_moves.

Lemma start_lane s l ev : lane_of ev ∉ l.*1 -> lane_step (s, l) (s, l ++ [(lane_of ev, Handlers.handle ev)]).
Proof. intros Hl. apply pool_start. split; [done|]. by exists ev. Qed.
End Interleave.
#[export] Existing Instance lane_eq_dec.

Module InterleaveExamples.
Import ModelLoopExamples.
#[local] Existing Instance lab_offloader.
#[local] Existing Instance lab_offloader_spec.
#[local] Existing Instance lab_client.
#[local] Existing Instance lab_beamlit.
#[local] Existing Instance lab_configurer.
#[local] Existing Instance lab_metrics.
#[local] Existing Instance lab_health.
#[local] Existing Instance lab_time.
#[local] Existing Instance lab_surroundings.
#[local] Existing Instance lab_clean.

Definition config : Type := (ModelDeploymentReconciler * lab) * pool (ModelDeploymentReconciler * lab) lane unit.
Definition start (ev : controller_event) (c : config) : config := (c.1, c.2 ++ [(lane_of ev, Handlers.handle ev)]).
Definition turns (n : nat) (t : lane) (c : config) : config := foldl (fun c t => turn t c) c (replicate n t).

(** A new generation of the model arrives while an event of it is handled. *)
Definition lab_m2 : ModelDeployment := set_meta (mkMeta "ns" "m" 2 ∅ None [modelDeploymentFinalizer]) lab_m.
Definition edited (c : config) : config :=
  ((c.1.1, mkLab (lab_shares c.1.2) (lab_managed c.1.2) {[lab_key := lab_m2]} (lab_notices c.1.2) (lab_down c.1.2)), c.2).

Definition c1 : config := turns 100 Worker (start (EvReconcile lab_key) ((lab_start, lab_world lab_m), [])).
Definition c2 (n : nat) : config := turns n InformerLoop (start (reached true) c1).
Definition c3 (n : nat) : config := turns 100 Worker (start (EvReconcile lab_key) (edited (c2 n))).
Definition c4 (n : nat) : config := turns 100 InformerLoop (c3 n).

Lemma turns_run n t c : rtc lane_step c (turns n t c).
Proof. apply turns_sound. Qed.
Lemma start_run ev c : lane_of ev ∉ c.2.*1 -> rtc lane_step c (start ev c).
Proof. intros Hl. apply rtc_once. destruct c. by apply start_lane. Qed.
Lemma edited_run c : rtc lane_step c (edited c).
Proof. apply rtc_once. destruct c as [[r w] l]. by apply pool_world. Qed.

(** The event is stopped between putting 30% in force and recording it. *)
Definition raced : config := c4 9.

Lemma started_run n t ev c c' : lane_of ev ∉ c.2.*1 -> c' = turns n t (start ev c) -> rtc lane_step c c'.
Proof. intros Hl ->. etransitivity; [by apply start_run|apply turns_run]. Qed.

Lemma raced_run : rtc lane_step ((lab_start, lab_world lab_m), []) raced.
Proof.
  assert (InformerLoop ∉ c1.2.*1) as H1.
  { assert (c1.2.*1 = []) as -> by (vm_compute; reflexivity). apply not_elem_of_nil. }
  assert (Worker ∉ (c2 9).2.*1) as H2.
  { assert ((c2 9).2.*1 = [InformerLoop]) as -> by (vm_compute; reflexivity). by intros ?%list_elem_of_singleton. }
  transitivity c1; [apply (started_run 100 Worker (EvReconcile lab_key)); [apply not_elem_of_nil|done]|].
  transitivity (c2 9); [exact (started_run 9 InformerLoop (reached true) c1 _ H1 eq_refl)|].
  transitivity (edited (c2 9)); [apply edited_run|].
  transitivity (c3 9); [exact (started_run 100 Worker (EvReconcile lab_key) (edited (c2 9)) _ H2 eq_refl)|].
  apply turns_run.
Qed.

(** Nothing in the code keeps a reconciliation and an event of one model apart: with
    one worker and one loop, a reconciliation that runs between the offloader's call and
    the record of an event leaves a model recorded at its percentage with no traffic
    offloaded, and neither a metric above its target nor a report of good health changes that;
    a report of bad health, or a metric below its target, ends it. *)
Theorem overlapping_handlers_lose_the_share :
  exists x : ModelDeploymentReconciler * lab, rtc lane_step ((lab_start, lab_world lab_m), []) (x, []) /\
    OngoingOffloadings x.1 !! "ns/m" = Some 30 /\ offloaded x.2 !! "m" = Some 0 /\
    handle (reached true) x = (x, Ok tt) /\ handle (healthy true) x = (x, Ok tt) /\
    offloaded (handle (healthy false) x).1.2 !! "m" = Some 100 /\
    OngoingOffloadings (handle (reached false) x).1.1 !! "ns/m" = None.
Proof.
  pose proof raced_run as Hrun. assert (raced.2 = []) as Hl by (vm_compute; reflexivity).
  rewrite (surjective_pairing raced), Hl in Hrun. exists raced.1. split; [exact Hrun|]. clear Hrun Hl.
  split_and!; vm_compute; reflexivity.
Qed.

(** One handler of a model at a time, a reconciliation of another model beside it, which may
    panic and be recovered. *)
Definition panics (n : string) : Prop := n = "other".
Definition b1 := take_turns (replicate 100 "m") (begin_handler "m" (EvReconcile lab_key) ((lab_start, lab_world lab_m), [])).
Definition b2 := take_turns (replicate 9 "m") (begin_handler "m" (reached true) b1).
Definition b3 := take_turns ("other" :: replicate 20 "m") (begin_handler "other" (EvReconcile (mkNN "ns" "other")) b2).

Lemma interleaved_record_is_in_force_witness :
  OngoingOffloadings b3.1.1 !! slash_key "ns" "m" = Some 30 /\ b3.2.*1 = ["other"] /\
  offloaded b3.1.2 !! "m" = Some 30.
Proof.
  assert (OngoingOffloadings b3.1.1 !! slash_key "ns" "m" = Some 30) as Hr by (vm_compute; reflexivity).
  assert (b3.2.*1 = ["other"]) as Hl by (vm_compute; reflexivity).
  split; [exact Hr|]. split; [exact Hl|].
  assert (contains_byte "/"%char "ns" = false) as Hns by (vm_compute; reflexivity).
  assert ("m" ∉ b1.2.*1) as H1.
  { assert (b1.2.*1 = []) as -> by (vm_compute; reflexivity). apply not_elem_of_nil. }
  assert ("other" ∉ b2.2.*1) as H2.
  { assert (b2.2.*1 = ["m"]) as -> by (vm_compute; reflexivity). by intros ?%list_elem_of_singleton. }
  assert ("m" ∉ b3.2.*1) as Hm by (rewrite Hl; by intros ?%list_elem_of_singleton).
  assert (rtc (per_model_step panics "ns") ((lab_start, lab_world lab_m), []) b3) as Hrun.
  { transitivity b1; [exact (handler_run panics "ns" _ "m" (EvReconcile lab_key)
      ((lab_start, lab_world lab_m), []) (not_elem_of_nil _) eq_refl)|].
    transitivity b2; [exact (handler_run panics "ns" _ "m" (reached true) b1 H1 eq_refl)|].
    exact (handler_run panics "ns" _ "other" (EvReconcile (mkNN "ns" "other")) b2 H2 eq_refl). }
  revert Hr Hm Hrun. generalize b3. intros [x l] Hr Hm Hrun.
  assert (~ panics "m") as Hp by discriminate.
  exact (interleaved_record_is_in_force panics "ns" lab_start (lab_world lab_m) x l "m" 30 Hns eq_refl eq_refl Hrun Hm Hp Hr).
Defined.
End InterleaveExamples.
