(* ===== verification/Stuck.v ===== *)
(** A model whose service cannot be given back: what the controller does for it from then
    on, while handlers of any models overlap in any way. *)

From Stdlib Require Import Ascii.
From stdpp Require Import base numbers gmap strings list relations.
From S2P Require Import Prelude Programs Crd Kube Offloader Configurer Registry Metric Health Convert BeamlitClient.
From S2P Require Import ModelReconciler ModelSync.
Local Open Scope Z_scope.

(** The service that a model names. *)
Definition named_service (m : ModelDeployment) : option NamespacedName := sr_key <$> mds_ServiceRef (md_Spec m).

Create HintDb maintain.

Section Stuck.
Context {W : Type} `{Ho : Offloader W} `{Hcl : CtrlClient W} `{Hb : BeamlitAPI W}
  `{Hcf : Configurer W} `{Hmi : MetricInformer W} `{Hhi : HealthInformer W} `{Htp : TimeParse}.
Local Abbreviation RW := (ModelDeploymentReconciler * W)%type.
Implicit Types (m : ModelDeployment) (w : W) (x : RW).

(** In [stuck] the service [key] is not given back, and nothing that is done to the world
    changes that, unless [key] is configured; [req] names a model that names this service. *)
Class Stuck (key : NamespacedName) (req : NamespacedName) (stuck : W -> Prop) : Prop := {
  stuck_Unconfigure s w : stuck w -> stuck (cfg_Unconfigure s w).1 /\ ((cfg_Unconfigure s w).2 = Ok tt -> sr_key <$> s <> Some key);
  stuck_Configure s w : stuck w -> sr_key <$> s <> Some key -> stuck (cfg_Configure s w).1;
  stuck_GetLocal s : preserves stuck (cfg_GetLocalBeamlitService s);
  stuck_GetService k : preserves stuck (client_GetService k);
  stuck_GetPodTemplate s k : preserves stuck (client_GetPodTemplate s k);
  stuck_GetModel k w : stuck w -> stuck (client_GetModel k w).1 /\ forall m, (client_GetModel k w).2 = Ok m ->
    md_Namespace m = nn_Namespace k /\ md_Name m = nn_Name k /\ (k = req -> named_service m = Some key);
  stuck_UpdateModel m : preserves stuck (client_UpdateModel m);
  stuck_UpdateModelStatus m : preserves stuck (client_UpdateModelStatus m);
  stuck_sdk_GetModel a b : preserves stuck (sdk_GetModel a b);
  stuck_sdk_CreateModel a : preserves stuck (sdk_CreateModel a);
  stuck_sdk_UpdateModel a b : preserves stuck (sdk_UpdateModel a b);
  stuck_sdk_DeleteModel a b : preserves stuck (sdk_DeleteModel a b);
  stuck_off_Configure m a b p : preserves stuck (off_Configure m a b p);
  stuck_off_Cleanup m : preserves stuck (off_Cleanup m);
  stuck_mi_Register a b c d e : preserves stuck (mi_Register a b c d e);
  stuck_mi_Unregister a : preserves stuck (mi_Unregister a);
  stuck_hi_Register a b : preserves stuck (hi_Register a b);
  stuck_hi_Unregister a : preserves stuck (hi_Unregister a)
}.

Context (key : NamespacedName) (ns n : string) (stuck : W -> Prop) `{Hst : !Stuck key (mkNN ns n) stuck}.
Hypothesis Hns : contains_byte "/"%char ns = false.

Definition unrecorded x : Prop := stuck x.2 /\ ManagedModels x.1 !! slash_key ns n = None.
Notation maintains := (maintains unrecorded).
Notation yields := (yields unrecorded).

(** ** One action *)

Lemma maintains_call {A} (c : M W A) : preserves stuck c -> maintains (Handlers.call (F:=prog RW) c).
Proof. intros Hc. apply maintains_lift. intros [r w] [Hw Hr]. unfold wp, outer, zoom. cbn. specialize (Hc w Hw). unfold wp in Hc. by destruct (c w). Qed.
Lemma maintains_gets {A} (f : ModelDeploymentReconciler -> A) : maintains (Handlers.own (W:=W) (F:=prog RW) (gets f)).
Proof. apply maintains_lift. by intros [r w] Hx. Qed.
Lemma maintains_modify f : (forall r, ManagedModels r !! slash_key ns n = None -> ManagedModels (f r) !! slash_key ns n = None) ->
  maintains (Handlers.own (W:=W) (F:=prog RW) (modify f)).
Proof. intros Hf. apply maintains_lift. intros [r w] [Hw Hr]. split; [done|]. by apply Hf. Qed.
Lemma maintains_raise {A} e : maintains (Handlers.raise (F:=prog RW) (A:=A) e).
Proof. apply maintains_lift. by intros [r w] Hx. Qed.
Lemma maintains_need {A} (o : option A) : maintains (Handlers.need (W:=W) (F:=prog RW) o).
Proof. apply maintains_lift. intros [r w] Hx. by destruct o. Qed.
Lemma maintains_yield {A} (o : res A) : maintains (Handlers.yield_res (W:=W) (F:=prog RW) o).
Proof. apply maintains_lift. by intros [r w] Hx. Qed.
Lemma gone_stays (r : ModelDeploymentReconciler) k : ManagedModels r !! slash_key ns n = None ->
  delete k (ManagedModels r) !! slash_key ns n = None.
Proof. intros E. apply lookup_delete_None. by right. Qed.

Lemma stuck_Configured s : sr_key <$> s <> Some key -> preserves stuck (cfg_Configure s).
Proof. intros Hs w Hw. exact (stuck_Configure s w Hw Hs). Qed.
Lemma stuck_Unconfigured s : preserves stuck (cfg_Unconfigure s).
Proof. intros w Hw. exact (proj1 (stuck_Unconfigure s w Hw)). Qed.
Lemma stuck_Got k : preserves stuck (client_GetModel k).
Proof. intros w Hw. exact (proj1 (stuck_GetModel k w Hw)). Qed.
Ltac one_call := first
  [ apply stuck_Unconfigured | apply stuck_Got | simple eapply stuck_GetLocal | simple eapply stuck_GetService | simple eapply stuck_GetPodTemplate
  | simple eapply stuck_UpdateModel | simple eapply stuck_UpdateModelStatus | simple eapply stuck_sdk_GetModel | simple eapply stuck_sdk_CreateModel
  | simple eapply stuck_sdk_UpdateModel | simple eapply stuck_sdk_DeleteModel | simple eapply stuck_off_Configure | simple eapply stuck_off_Cleanup
  | simple eapply stuck_mi_Register | simple eapply stuck_mi_Unregister | simple eapply stuck_hi_Register | simple eapply stuck_hi_Unregister ]; exact Hst.
Hint Extern 1 (preserves stuck _) => one_call : inv.

(** The calls that are made of several requests. *)
Lemma stuck_pod_port a b : preserves stuck (RetrievePodPort a b).
Proof. unfold RetrievePodPort. walk. Qed.
Lemma stuck_convert m : preserves stuck (ToBeamlitModelDeployment m).
Proof. unfold ToBeamlitModelDeployment, retrievePodTemplate. walk. Qed.
Lemma stuck_write b : preserves stuck (CreateOrUpdateModel b).
Proof. unfold CreateOrUpdateModel, createModel, updateModel. walk. Qed.
Lemma stuck_delete a b : preserves stuck (DeleteModelDeployment a b).
Proof. unfold DeleteModelDeployment. walk. Qed.
Lemma stuck_notify a b c : preserves stuck (NotifyOnModelOffloading a b c).
Proof. unfold NotifyOnModelOffloading. walk. Qed.
Hint Resolve stuck_pod_port stuck_convert stuck_write stuck_delete stuck_notify : inv.

(** ** One handler *)

Ltac keep := repeat first
  [ solve [eauto 2 with maintain nocore] | apply maintains_ret | apply maintains_attempt | apply maintains_gets | apply maintains_raise
  | apply maintains_need | apply maintains_yield | apply maintains_call; solve [walk]
  | apply maintains_modify; intros; cbn; solve [done | by apply gone_stays]
  | apply maintains_bind; [|intros ?] | case_match ].

Lemma keep_offload_to m o p : maintains (Handlers.offload_to (F:=prog RW) m o p).
Proof. unfold Handlers.offload_to. keep. Qed.
Hint Resolve keep_offload_to : maintain.
Lemma keep_notify m b : maintains (Handlers.notifyOnBeamlit (F:=prog RW) m b).
Proof. unfold Handlers.notifyOnBeamlit. keep. Qed.
Hint Resolve keep_notify : maintain.
Lemma keep_metricCallback m o b : maintains (Handlers.metricCallback (F:=prog RW) m o b).
Proof. unfold Handlers.metricCallback. keep. Qed.
Lemma keep_healthCheckCallback m o b : maintains (Handlers.healthCheckCallback (F:=prog RW) m o b).
Proof. unfold Handlers.healthCheckCallback. keep. Qed.
Hint Resolve keep_metricCallback keep_healthCheckCallback : maintain.
Lemma keep_event_model v : maintains (Handlers.event_model (F:=prog RW) v).
Proof. unfold Handlers.event_model. keep. Qed.
Hint Resolve keep_event_model : maintain.
Lemma keep_start_offloading m o : maintains (Handlers.start_offloading (F:=prog RW) m o).
Proof. unfold Handlers.start_offloading. keep. Qed.
Lemma keep_port_of s : maintains (Handlers.port_of (F:=prog RW) s).
Proof. unfold Handlers.port_of. keep. Qed.
Hint Resolve keep_start_offloading keep_port_of : maintain.

(** Giving the service back fails, and everything that comes after it is left out. *)
Lemma yields_unconfigure {A} s (k : unit -> prog RW A) Q : (forall e, Q (Err e)) -> Q Panic ->
  (sr_key <$> s <> Some key -> yields (k tt) Q) ->
  yields (Handlers.call (F:=prog RW) (cfg_Unconfigure s) ≫= k) Q.
Proof.
  intros He Hc Hk. eapply (yields_bind _ _ _ (fun res => res = Ok tt -> sr_key <$> s <> Some key)).
  - apply yields_lift. intros [r w] [Hw Hr]. unfold outer, zoom. cbn. destruct (stuck_Unconfigure s w Hw) as [Hw' Hs].
    destruct (cfg_Unconfigure s w) as [w' res]. cbn in *. by split.
  - intros [] Hs. apply Hk. by apply Hs.
  - intros e _. apply He.
  - done.
Qed.
Lemma yields_then {A B} (p : prog RW A) (k : A -> prog RW B) Q : maintains p -> (forall e, Q (Err e)) -> Q Panic ->
  (forall a, yields (k a) Q) -> yields (p ≫= k) Q.
Proof. intros Hp He Hc Hk. eapply yields_bind; [exact Hp|intros a _; apply Hk|intros e _; apply He|done]. Qed.

(** What comes of a model is the model with its settings filled in. *)
Definition same_model m (res : res ModelDeployment) : Prop := forall m', res = Ok m' -> model_key m' = model_key m /\ named_service m <> Some key.
Lemma yields_configureOffloading m : yields (Handlers.configureOffloading (F:=prog RW) m) (same_model m).
Proof.
  unfold Handlers.configureOffloading, same_model. do 2 (apply yields_then; [keep|done|done|intros _]).
  apply yields_unconfigure; [done|done|intros Hs]. do 4 (apply yields_then; [keep|done|done|intros _]).
  destruct (mds_OffloadingConfig (md_Spec m)) as [o|]; [|apply yields_ret; by intros m' [= <-]].
  case_match; [apply yields_ret; by intros m' [= <-]|]. apply yields_then; [keep|done|done|intros d].
  apply yields_then; [|done|done|intros _].
  { apply maintains_call, stuck_Configured. exact Hs. }
  apply yields_then; [keep|done|done|intros _]. apply yields_ret. by intros m' [= <-].
Qed.

Definition mentions m : Prop := named_service m = Some key.

Lemma yields_apply_model m : mentions m \/ model_key m <> slash_key ns n ->
  yields (Handlers.apply_model (F:=prog RW) m) (fun res => mentions m -> res <> Ok tt).
Proof.
  intros Hm. unfold Handlers.apply_model. apply yields_then; [keep|done|done|intros sp]. apply yields_then; [keep|done|done|intros mp].
  set (m1 := match mp with Some p => set_MetricPort p _ | None => _ end).
  assert (md_Spec m1 = md_Spec m /\ md_Meta m1 = md_Meta m) as [Hs Hd] by (subst m1; by destruct mp, sp). clearbody m1.
  do 8 (apply yields_then; [keep|done|done|intros ?]).
  eapply yields_bind; [apply yields_configureOffloading| |done|done]. intros m2 Hm2. destruct (Hm2 m2 eq_refl) as [Hk Hn].
  change (named_service m1 <> Some key) in Hn. unfold named_service in Hn. rewrite Hs in Hn.
  eapply (yields_mono _ _ (fun _ => True)); [|by intros res _ Hm'].
  apply maintains_bind; [keep|intros _]. apply maintains_modify. intros r Hr. cbn. rewrite lookup_insert_ne; [done|].
  destruct Hm as [Hm|Hm]; [done|]. rewrite Hk. change (model_key m1 <> slash_key ns n).
  unfold model_key, md_Namespace, md_Name in *. by rewrite Hd.
Qed.

Lemma yields_finalizeModel m : yields (Handlers.finalizeModel (F:=prog RW) m)
  (fun res => mentions m -> mds_OffloadingConfig (md_Spec m) <> None -> res <> Ok tt).
Proof.
  unfold Handlers.finalizeModel. do 4 (apply yields_then; [keep|done|done|intros _]). case_match; [|by apply yields_ret].
  do 2 (apply yields_then; [keep|done|done|intros _]). apply yields_unconfigure; [done|done|intros Hs].
  eapply (yields_mono _ _ (fun _ => True)); [|by intros res _ Hm']. keep.
Qed.

(** A reconciliation of any model, and an event of any. *)
Lemma concerned_model r k m : stuck r -> (client_GetModel k r).2 = Ok m -> nn_Namespace k = ns ->
  mentions m \/ model_key m <> slash_key ns n.
Proof.
  intros Hr E Hk. destruct (proj2 (stuck_GetModel k r Hr) m E) as (E1 & E2 & Hm). destruct (decide (k = mkNN ns n)) as [->|Hne].
  - left. by apply Hm.
  - right. unfold model_key. rewrite E1, E2, Hk. apply (key_ne ns Hns). intros ->. apply Hne. destruct k. by cbn in *; subst.
Qed.

Lemma keep_settle_model m : mentions m \/ model_key m <> slash_key ns n -> maintains (Handlers.settle_model (F:=prog RW) m).
Proof.
  intros Hm. unfold Handlers.settle_model, Handlers.createOrUpdate.
  apply maintains_bind; [|intros r; keep]. apply maintains_attempt, maintains_bind; [keep|intros [|]; [keep|]].
  by eapply yields_maintains, yields_apply_model.
Qed.

Lemma keep_Reconcile k : nn_Namespace k = ns -> maintains (Handlers.Reconcile (F:=prog RW) k).
Proof.
  intros Hk. unfold Handlers.Reconcile.
  eapply (yields_bind _ _ _ (fun res => forall m, res = Ok (inl m) -> mentions m \/ model_key m <> slash_key ns n)).
  - apply yields_attempt, yields_lift. intros [r w] [Hw Hr]. unfold outer, zoom. cbn. split.
    + pose proof (stuck_Got k w Hw) as Hw'. unfold wp in Hw'. by destruct (client_GetModel k w).
    + pose proof (concerned_model w k) as Hm. destruct (client_GetModel k w) as [w' [m|e|]]; cbn in *; [|done..].
      intros m' [= <-]. by apply Hm.
  - intros [m|e] Hm; [|keep]. specialize (Hm m eq_refl). case_match.
    + case_match; [|keep]. apply maintains_bind; [by eapply yields_maintains, yields_finalizeModel|intros ?; keep].
    + case_match; [keep|by apply keep_settle_model].
  - done.
  - done.
Qed.

Lemma keep_handle ev : watched ns ev -> maintains (Handlers.handle (F:=prog RW) ev).
Proof.
  intros Hev. destruct ev as [k|s|s]; unfold Handlers.handle, Handlers.on_health, Handlers.on_metric; [|keep..].
  apply maintains_bind; [|intros ?; keep]. by apply maintains_attempt, keep_Reconcile.
Qed.

(** ** Any handlers at once *)

(** Handlers of watched models start at will and overlap in any way, those that panic may be
    recovered, and the world moves on by itself, as long as the service stays stuck. *)
Definition any_handler (l : pool RW controller_event unit) ev p : Prop := watched ns ev /\ p = Handlers.handle ev.
Inductive stuck_moves : relation RW :=
| stuck_move r w w' : (stuck w -> stuck w') -> stuck_moves (r, w) (r, w').
Definition overlapping : relation (RW * pool RW controller_event unit) := pool_step (fun _ => True) any_handler stuck_moves.

(** A model whose service cannot be given back never recovers: in every interleaving of
    reconciliations and events, it is not recorded again, its events are dropped, and no
    attempt to reconcile it (unless it is refused) or to finalize it succeeds, whatever the
    other components do. *)
Theorem stuck_model_never_recovers r w x l :
  stuck w -> ManagedModels r !! slash_key ns n = None -> rtc overlapping ((r, w), []) (x, l) ->
  ManagedModels x.1 !! slash_key ns n = None /\
  (forall b, handle (EvHealth (mkHealthStatus (slash_key ns n) b)) x = (x, Ok tt) /\
             handle (EvMetric (mkMetricStatus (slash_key ns n) b)) x = (x, Ok tt)) /\
  forall m, mentions m ->
    (skip_model x.1 m = false -> (settle_model m x).2 <> Ok false) /\
    (mds_OffloadingConfig (md_Spec m) <> None -> (finalizeModel m x).2 <> Ok tt).
Proof.
  intros Hw Hr Hrun. assert (unrecorded x) as Hx.
  { apply (maintained unrecorded) in Hrun; [done| | |done].
    - intros l0 ev p [Hev ->]. by apply keep_handle.
    - intros s1 s2 [r0 w1 w2 Hm] [H1 H2]. split; [by apply Hm|exact H2]. }
  split_and!; [apply Hx| |].
  - intros b. split; (eapply unknown_event_ignored; [|apply Hx]); destruct b; auto.
  - intros m Hm. split.
    + intros Hskip. destruct (yields_run unrecorded _ _ x (yields_apply_model m (or_introl Hm)) Hx) as [_ Hne]. specialize (Hne Hm).
      rewrite (runs_apply_model m x) in Hne. enter settle_model. rewrite bind_run. unfold try. enter createOrUpdate.
      destruct x as [rx wx]. rewrite self_gets_bind. cbn in Hskip. rewrite Hskip.
      destruct (apply_model m (rx, wx)) as [x' [[]|e|]]; [done| |done]. by destruct (IsConflict e).
    + intros Hoff. destruct (yields_run unrecorded _ _ x (yields_finalizeModel m) Hx) as [_ Hne].
      rewrite <-(runs_finalizeModel m x). by apply Hne.
Qed.
End Stuck.
