(* ===== verification/ModelShare.v ===== *)
(** The share of one model as an abstract machine: what the informers' events do to it
    while the services the controller calls work. *)

From Stdlib Require Import Ascii.
From stdpp Require Import base numbers gmap strings list.
From S2P Require Import Prelude Programs Crd Kube Offloader Configurer Registry Metric Health Convert BeamlitClient.
From S2P Require Import ModelReconciler ModelSync ModelLoop.
Local Open Scope Z_scope.

(** ** The machine *)

Inductive report := Healthy (b : bool) | Reached (b : bool).

(** What is recorded for the model, whether it is marked up or down, and the percentage in
    force. *)
Record view := mkView { v_entry : option Z; v_state : option bool; v_force : option Z }.

Definition settle_at (p : Z) (st : option bool) : view := mkView (Some p) st (Some p).

(** [percentage]: the one of the model's settings. *)
Definition share_step (percentage : Z) (rep : report) (v : view) : view :=
  match rep, v_entry v with
  | Healthy false, _ => settle_at 100 (Some false)
  | _, None => v
  | Healthy true, Some p => if p =? percentage then v else settle_at percentage (Some true)
  | Reached b, Some p =>
      if bool_decide (v_state v = Some false) then v
      else if b then if p =? percentage then v else settle_at percentage (v_state v)
      else if p =? 0 then v else mkView None (v_state v) (Some 0)
  end.

Section Share.
Context {W : Type} `{Ho : Offloader W} `{Hos : !OffloaderSpec W} `{Hcl : CtrlClient W} `{Hb : BeamlitAPI W}
  `{Hcf : Configurer W} `{Hmi : MetricInformer W} `{Hhi : HealthInformer W} `{Htp : TimeParse} `{Hsur : !Surroundings W}.
Implicit Types (x : ModelDeploymentReconciler * W) (r : ModelDeploymentReconciler) (w : W).

(** The services work for a model: the API server has it, with whatever status, its own
    service exists, the offloader succeeds, and a notice to Beamlit may fail but not panic. *)
Class Working (m : ModelDeployment) (works : W -> Prop) : Prop := {
  works_GetModel w : works w -> exists w' st, client_GetModel (mkNN (md_Namespace m) (md_Name m)) w = (w', Ok (set_status st m)) /\ works w';
  works_GetLocal w : works w -> exists w' lb, cfg_GetLocalBeamlitService (mds_ServiceRef (md_Spec m)) w = (w', Ok lb) /\ works w';
  works_Configure m' lb rb p w : works w -> md_Meta m' = md_Meta m -> mds_ServiceRef (md_Spec m') = mds_ServiceRef (md_Spec m) ->
    exists w', off_Configure m' lb (Some rb) p w = (w', Ok tt) /\ works w';
  works_Notify a b c w : works w -> works (NotifyOnModelOffloading a b c w).1 /\ (NotifyOnModelOffloading a b c w).2 <> Panic
}.

Context (m : ModelDeployment) (works : W -> Prop) `{Hw : !Working m works} (o : OffloadingConfig) (backend : RemoteBackend) (percentage : Z).
Hypothesis Hset : mds_OffloadingConfig (md_Spec m) = Some o.
Hypothesis Hrb : ol_RemoteBackend o = Some backend.
Hypothesis Hbh : ol_Behavior o = Some (mkBehavior percentage).

Definition ready x : Prop := works x.2 /\ exists v, ManagedModels x.1 !! model_key m = Some v /\
  mm_namespace v = md_Namespace m /\ mm_name v = md_Name m /\ mm_healthy v = true.
Definition view_of x : view :=
  mkView (OngoingOffloadings x.1 !! model_key m) (ModelState x.1 !! model_key m) (offloaded x.2 !! md_Name m).
Definition event_of (rep : report) : controller_event :=
  match rep with
  | Healthy b => EvHealth (mkHealthStatus (model_key m) b)
  | Reached b => EvMetric (mkMetricStatus (model_key m) b)
  end.

Lemma with_default_known d : with_default_backend d o = o.
Proof. unfold with_default_backend. by rewrite Hrb. Qed.

Lemma event_model_run v r w :
  works w -> mm_namespace v = md_Namespace m -> mm_name v = md_Name m ->
  exists w' st, event_model v (r, w) = ((r, w'), Ok (set_offloading o (set_status st m), o)) /\ works w' /\ offloaded w' = offloaded w.
Proof.
  intros Hwk Hn1 Hn2. destruct (works_GetModel w Hwk) as (w' & st & E & Hwk').
  pose proof (keeps_GetModel (mkNN (md_Namespace m) (md_Name m)) w) as Hk. rewrite E in Hk. cbn in Hk.
  exists w', st. split; [|done]. enter event_model. mrun. rewrite Hn1, Hn2, E. cbn. rewrite Hset. cbn.
  by rewrite with_default_known.
Qed.

(** The calls of a change run through. *)
Lemma shift_run st p b f (k : RM W unit) r w :
  works w ->
  exists w', (offload_to (set_offloading o (set_status st m)) o p ;; self (modify f) ;; _ ← try (notifyOnBeamlit (set_offloading o (set_status st m)) b); k) (r, w) =
    k (f r, w') /\ works w' /\ offloaded w' = <[md_Name m := p]> (offloaded w).
Proof.
  intros Hwk. destruct (works_GetLocal w Hwk) as (w1 & lb & E1 & Hwk1).
  destruct (works_Configure (m:=m) (set_offloading o (set_status st m)) lb backend p w1 Hwk1 eq_refl eq_refl) as (w2 & E2 & Hwk2).
  assert (offload_to (set_offloading o (set_status st m)) o p (r, w) = ((r, w2), Ok tt)) as E.
  { enter offload_to. mrun. cbn. rewrite E1. cbn. by rewrite Hrb, E2. }
  pose proof (offload_to_ok _ _ _ _ _ _ E) as (w2' & [= <-] & Hf).
  destruct (works_Notify (mds_Model (md_Spec m)) (mds_Environment (md_Spec m)) b w2 Hwk2) as [Hwk3 Hnp].
  pose proof (still_NotifyOnModelOffloading (mds_Model (md_Spec m)) (mds_Environment (md_Spec m)) b w2) as Hs.
  exists (NotifyOnModelOffloading (mds_Model (md_Spec m)) (mds_Environment (md_Spec m)) b w2).1.
  split; [|split; [exact Hwk3|by rewrite Hs]].
  unfold mbind at 1, M_bind at 1. rewrite E. enter notifyOnBeamlit. mrun. cbn.
  by destruct (NotifyOnModelOffloading _ _ b w2) as [w3 [[]|e|]].
Qed.

(** *** The callbacks *)

Lemma metricCallback_eq st value b r w :
  OngoingOffloadings r !! model_key m = Some value -> ModelState r !! model_key m <> Some false ->
  let m := set_offloading o (set_status st m) in
  metricCallback m o b (r, w) =
    (if negb b then
       if value =? 0 then mret tt
       else self (modify (upd_ongoing (delete (model_key m)))) ;;
            (offload_to m o 0 ;; self (modify id) ;; _ ← try (notifyOnBeamlit m false); mret tt)
     else if value =? percentage then mret tt
     else offload_to m o percentage ;; self (modify (upd_ongoing <[model_key m := percentage]>)) ;;
          _ ← try (notifyOnBeamlit m true); mret tt) (r, w).
Proof.
  intros Ev Es m1. enter metricCallback.
  rewrite !self_gets_bind.
  change (model_key m1) with (model_key m). rewrite Ev.
  assert (forall (A : Type) (a1 a2 : A), match ModelState r !! model_key m with Some false => a1 | _ => a2 end = a2) as Hst
    by (intros; by destruct (ModelState r !! model_key m) as [[]|]).
  rewrite Hst, Hbh. destruct b; cbn [negb]; [done|]. destruct (value =? 0); [done|].
  unfold mbind, M_bind. cbn. destruct (offload_to m1 o 0 _) as [x' [[]|e|]]; [|done..]. unfold self, zoom. cbn. by destruct x'.
Qed.

Lemma healthCheckCallback_eq st value r w :
  OngoingOffloadings r !! model_key m = Some value -> value =? percentage = false ->
  let m := set_offloading o (set_status st m) in
  healthCheckCallback m o true (r, w) =
    (offload_to m o percentage ;; self (modify (upd_ongoing <[model_key m := percentage]>)) ;;
     _ ← try (notifyOnBeamlit m true); self (modify (upd_state <[model_key m := true]>))) (r, w).
Proof.
  intros Ev Ep m1. enter healthCheckCallback. cbn [negb].
  rewrite self_gets_bind.
  change (model_key m1) with (model_key m). rewrite Ev, Hbh.
  unfold mbind at 1, M_bind at 1, deref, mret, M_ret. cbn [ob_Percentage]. by rewrite Ep.
Qed.

Definition follows rep x (c : RM W unit) : Prop :=
  exists x', c x = (x', Ok tt) /\ ready x' /\ view_of x' = share_step percentage rep (view_of x).

Lemma follows_same rep x c : ready x -> c x = (x, Ok tt) -> share_step percentage rep (view_of x) = view_of x -> follows rep x c.
Proof. intros Hr E Hv. by exists x. Qed.

Lemma metricCallback_follows st b r w :
  ready (r, w) -> follows (Reached b) (r, w) (metricCallback (set_offloading o (set_status st m)) o b).
Proof.
  intros [Hwk Hm]. pose proof (conj Hwk Hm : ready (r, w)) as Hready.
  destruct (OngoingOffloadings r !! model_key m) as [value|] eqn:Ev.
  2: { apply follows_same; [done|by apply metricCallback_no_entry|]. unfold share_step, view_of. cbn. by rewrite Ev. }
  destruct (decide (ModelState r !! model_key m = Some false)) as [Es|Es].
  { apply follows_same; [done|by apply metricCallback_down|]. unfold share_step, view_of. cbn. by rewrite Ev, Es. }
  pose proof (metricCallback_eq st value b r w Ev Es) as Heq. cbv zeta in Heq.
  assert (bool_decide (ModelState r !! model_key m = Some false) = false) as Hbd by (by apply bool_decide_eq_false).
  destruct b; cbn [negb] in Heq.
  - destruct (value =? percentage) eqn:Ep.
    + apply follows_same; [done|exact Heq|]. unfold share_step, view_of. cbn. by rewrite Ev, Hbd, Ep.
    + destruct (shift_run st percentage true (upd_ongoing <[model_key m := percentage]>) (mret tt) r w Hwk) as (w' & E & Hwk' & Hf).
      exists (upd_ongoing <[model_key m := percentage]> r, w'). split; [exact (eq_trans Heq E)|]. split; [exact (conj Hwk' Hm)|].
      unfold share_step, view_of. cbn. by rewrite Ev, Hbd, Ep, Hf, !lookup_insert_eq.
  - destruct (value =? 0) eqn:Ep.
    + apply follows_same; [done|exact Heq|]. unfold share_step, view_of. cbn. by rewrite Ev, Hbd, Ep.
    + destruct (shift_run st 0 false id (mret tt) (upd_ongoing (delete (model_key m)) r) w Hwk) as (w' & E & Hwk' & Hf).
      exists (upd_ongoing (delete (model_key m)) r, w'). split; [exact (eq_trans Heq E)|]. split; [exact (conj Hwk' Hm)|].
      unfold share_step, view_of. cbn. by rewrite Ev, Hbd, Ep, Hf, lookup_insert_eq, lookup_delete_eq.
Qed.

Lemma healthCheckCallback_follows st b r w :
  ready (r, w) -> follows (Healthy b) (r, w) (healthCheckCallback (set_offloading o (set_status st m)) o b).
Proof.
  intros [Hwk Hm]. pose proof (conj Hwk Hm : ready (r, w)) as Hready. destruct b.
  - destruct (OngoingOffloadings r !! model_key m) as [value|] eqn:Ev.
    2: { apply follows_same; [done|by apply healthCheckCallback_no_entry|]. unfold share_step, view_of. cbn. by rewrite Ev. }
    destruct (value =? percentage) eqn:Ep.
    + apply follows_same; [done| |].
      * apply Z.eqb_eq in Ep as ->. by apply (healthCheckCallback_same _ _ (mkBehavior percentage)).
      * unfold share_step, view_of. cbn. by rewrite Ev, Ep.
    + destruct (shift_run st percentage true (upd_ongoing <[model_key m := percentage]>)
        (self (modify (upd_state <[model_key m := true]>))) r w Hwk) as (w' & E & Hwk' & Hf).
      eexists. split; [|split].
      * exact (eq_trans (healthCheckCallback_eq st value r w Ev Ep) E).
      * exact (conj Hwk' Hm).
      * unfold share_step, view_of. cbn. by rewrite Ev, Ep, Hf, !lookup_insert_eq.
  - destruct (shift_run st 100 true (upd_ongoing <[model_key m := 100]>)
      (self (modify (upd_state <[model_key m := false]>))) r w Hwk) as (w' & E & Hwk' & Hf).
    eexists. split; [exact E|]. split; [exact (conj Hwk' Hm)|].
    unfold share_step, view_of. cbn. by rewrite Hf, !lookup_insert_eq.
Qed.

(** A watched model's event is read, and handed to the callback. *)
Lemma on_event_run v (f : ModelDeployment -> OffloadingConfig -> RM W unit) rep r w :
  works w -> mm_namespace v = md_Namespace m -> mm_name v = md_Name m ->
  (forall w' st, works w' -> offloaded w' = offloaded w -> follows rep (r, w') (f (set_offloading o (set_status st m)) o)) ->
  exists x', (_ ← try ('(model, o) ← event_model v; f model o); mret tt) (r, w) = (x', Ok tt) /\ ready x' /\
    view_of x' = share_step percentage rep (view_of (r, w)).
Proof.
  intros Hwk Hn1 Hn2 Hf. destruct (event_model_run v r w Hwk Hn1 Hn2) as (w1 & st & E1 & Hwk1 & Hf1).
  destruct (Hf w1 st Hwk1 Hf1) as (x' & E & Hr & Hv). exists x'. split; [|split; [exact Hr|]].
  - unfold mbind at 1, M_bind at 1, try, mbind at 1, M_bind at 1. rewrite E1. by rewrite E.
  - rewrite Hv. unfold view_of. cbn. by rewrite Hf1.
Qed.

Lemma event_follows rep x : ready x -> follows rep x (handle (event_of rep)).
Proof.
  destruct x as [r w]. intros [Hwk (v & Ev & Hn1 & Hn2 & Hh)]. cbn in Ev.
  assert (forall w', works w' -> ready (r, w')) as Hready by (intros w' Hwk'; split; [exact Hwk'|by exists v]).
  destruct rep as [b|b].
  - destruct (on_event_run v (fun m o => healthCheckCallback m o b) (Healthy b) r w Hwk Hn1 Hn2) as (x' & E & H).
    { intros w' st Hwk' _. by apply healthCheckCallback_follows, Hready. }
    exists x'. split; [|exact H]. rewrite <-E. cbn [event_of Handlers.handle]. enter on_health.
    rewrite self_gets_bind. cbn [hs_ModelName]. by rewrite Ev.
  - destruct (on_event_run v (fun m o => metricCallback m o b) (Reached b) r w Hwk Hn1 Hn2) as (x' & E & H).
    { intros w' st Hwk' _. by apply metricCallback_follows, Hready. }
    exists x'. split; [|exact H]. rewrite <-E. cbn [event_of Handlers.handle]. enter on_metric.
    rewrite self_gets_bind. cbn [mst_ModelName]. by rewrite Ev, Hh.
Qed.

(** *** Runs *)

Lemma events_run reps x :
  ready x ->
  exists x', foreach reps (fun rep => handle (event_of rep)) x = (x', Ok tt) /\ ready x' /\
    view_of x' = foldl (fun v rep => share_step percentage rep v) (view_of x) reps.
Proof.
  revert x. induction reps as [|rep reps IH]; intros x Hx; cbn [foreach foldl]; [by exists x|].
  destruct (event_follows rep x Hx) as (x1 & E1 & Hx1 & Hv1). destruct (IH x1 Hx1) as (x' & E' & Hx' & Hv').
  exists x'. split; [|split; [exact Hx'|by rewrite Hv', Hv1]]. by rewrite (bind_Ok_run _ _ _ _ _ E1).
Qed.

(** C6. While its services work, the controller runs the share of a model as the machine
    does: any sequence of reports about it is handled without an error, and what is then
    recorded and in force is where the machine arrives. *)
Theorem events_run_the_share_machine reps x :
  ready x ->
  exists x', foreach reps (fun rep => handle (event_of rep)) x = (x', Ok tt) /\ ready x' /\
    view_of x' = foldl (fun v rep => share_step percentage rep v) (view_of x) reps.
Proof. apply events_run. Qed.

(** C10. A metric offloads a model once.  While the services work: when the metrics of a model
    that is offloaded and not down fall below their targets, all of its traffic is taken back
    and its record dropped; from then on no report of its metrics, however often they reach
    their targets again, and no report of good health, offloads it, until it is reported down
    (or reconciled).  The user's guide says otherwise. *)
Theorem metric_offloads_once value reps x :
  ready x -> OngoingOffloadings x.1 !! model_key m = Some value -> value <> 0 ->
  ModelState x.1 !! model_key m <> Some false -> Forall (fun rep => rep <> Healthy false) reps ->
  exists x', foreach (Reached false :: reps) (fun rep => handle (event_of rep)) x = (x', Ok tt) /\
    OngoingOffloadings x'.1 !! model_key m = None /\ offloaded x'.2 !! md_Name m = Some 0.
Proof.
  intros Hx Hog Hv Hst Hreps. destruct (events_run (Reached false :: reps) x Hx) as (x' & E & _ & Hview).
  exists x'. split; [exact E|].
  assert (view_of x' = mkView None (ModelState x.1 !! model_key m) (Some 0)) as Hend.
  { rewrite Hview. cbn [foldl]. assert (share_step percentage (Reached false) (view_of x) =
      mkView None (ModelState x.1 !! model_key m) (Some 0)) as ->.
    { unfold share_step, view_of. cbn. rewrite Hog, bool_decide_eq_false_2 by done. by rewrite (proj2 (Z.eqb_neq _ _) Hv). }
    clear Hview E. induction Hreps as [|rep reps Hrep _ IH]; [done|]. cbn [foldl].
    destruct rep as [[]|[]]; [exact IH|by destruct Hrep|exact IH..]. }
  split; [exact (f_equal v_entry Hend)|exact (f_equal v_force Hend)].
Qed.

(** *** Infinite runs *)

Fixpoint along (reports : nat -> report) x (k : nat) : ModelDeploymentReconciler * W :=
  match k with O => x | S k => (handle (event_of (reports k)) (along reports x k)).1 end.
Definition share_at reports x k : option Z := offloaded (along reports x k).2 !! md_Name m.

Lemma along_follows reports x k : ready x ->
  ready (along reports x k) /\
  view_of (along reports x (S k)) = share_step percentage (reports k) (view_of (along reports x k)).
Proof.
  intros Hx. assert (ready (along reports x k)) as Hk.
  { induction k as [|k IH]; [done|]. destruct (event_follows (reports k) _ IH) as (x' & E & Hx' & _).
    cbn [along]. by rewrite E. }
  split; [done|]. destruct (event_follows (reports k) _ Hk) as (x' & E & _ & Hv). cbn [along]. by rewrite E.
Qed.

(** C9. A model that stays down is drained: in every infinite run of reports in which, from
    some point on, the model is reported down and never healthy again, all of its traffic
    goes to the remote backend from some point on. *)
Theorem down_model_is_drained reports x n :
  ready x -> reports n = Healthy false -> (forall k, (n <= k)%nat -> reports k <> Healthy true) ->
  forall k, (n < k)%nat -> share_at reports x k = Some 100.
Proof.
  intros Hx Hn Hdown.
  assert (forall d, view_of (along reports x (S n + d)) = settle_at 100 (Some false)) as Hd.
  { induction d as [|d IH].
    - rewrite Nat.add_0_r, (proj2 (along_follows reports x n Hx)), Hn. done.
    - rewrite Nat.add_succ_r, (proj2 (along_follows reports x _ Hx)), IH.
      specialize (Hdown (S n + d)%nat ltac:(lia)). destruct (reports (S n + d)%nat) as [[]|]; [by destruct Hdown|done..]. }
  intros k Hk. specialize (Hd (k - S n)%nat). replace (S n + (k - S n))%nat with k in Hd by lia.
  by apply (f_equal v_force) in Hd.
Qed.

End Share.

Module ModelShareExamples.
Import ModelLoopExamples.
#[local] Existing Instance lab_offloader.
#[local] Existing Instance lab_offloader_spec.
#[local] Existing Instance lab_client.
#[local] Existing Instance lab_beamlit.
#[local] Existing Instance lab_configurer.
#[local] Existing Instance lab_metrics.
#[local] Existing Instance lab_health.
#[local] Existing Instance lab_time.
#[local] Existing Instance lab_surroundings.

Definition lab_works (w : lab) : Prop := lab_models w !! lab_key = Some lab_m /\ lab_down w = false.
#[local] Instance lab_working : Working lab_m lab_works.
Proof.
  split.
  - intros w Hw. exists w, (md_Status lab_m). split; [|done]. change (lab_get lab_key w = (w, Ok lab_m)).
    unfold lab_get. rewrite (proj1 Hw). by rewrite decide_True.
  - intros w Hw. by exists w, (lab_ref "svc").
  - intros m' lb rb p w Hw _ _. by eexists.
  - intros a b c w Hw. unfold NotifyOnModelOffloading. rewrite bind_run. cbn. rewrite (proj2 Hw). split; [exact Hw|done].
Qed.

Lemma lab_ready : ready lab_m lab_works lab_reconciled.
Proof. split; [split; vm_compute; reflexivity|]. eexists. split; [vm_compute; reflexivity|done]. Qed.

Lemma events_run_the_share_machine_witness :
  exists x', foreach [Reached true; Healthy false; Reached false; Healthy true] (fun rep => handle (event_of lab_m rep)) lab_reconciled =
    (x', Ok tt) /\ view_of lab_m x' = mkView (Some 30) (Some true) (Some 30).
Proof.
  destruct (events_run_the_share_machine lab_m lab_works (lab_settings 30) lab_remote 30 eq_refl eq_refl eq_refl
    [Reached true; Healthy false; Reached false; Healthy true] lab_reconciled lab_ready) as (x' & E & _ & Hv).
  exists x'. split; [exact E|]. rewrite Hv. vm_compute. reflexivity.
Defined.

(** Metrics that cross their targets three times. *)
Definition lab_offloaded := (handle (event_of lab_m (Reached true)) lab_reconciled).1.
Lemma lab_offloaded_ready : ready lab_m lab_works lab_offloaded.
Proof. split; [split; vm_compute; reflexivity|]. eexists. split; [vm_compute; reflexivity|done]. Qed.
Lemma metric_offloads_once_witness :
  offloaded lab_offloaded.2 !! "m" = Some 30 /\
  exists x', foreach [Reached false; Reached true; Reached false; Reached true] (fun rep => handle (event_of lab_m rep)) lab_offloaded =
    (x', Ok tt) /\ offloaded x'.2 !! "m" = Some 0.
Proof.
  split; [vm_compute; reflexivity|].
  assert (OngoingOffloadings lab_offloaded.1 !! model_key lab_m = Some 30) as Hog by (vm_compute; reflexivity).
  assert (ModelState lab_offloaded.1 !! model_key lab_m <> Some false) as Hst by (vm_compute; discriminate).
  assert (30 <> 0) as Hv by lia.
  assert (Forall (fun rep => rep <> Healthy false) [Reached true; Reached false; Reached true]) as Hreps by (repeat constructor; discriminate).
  destruct (metric_offloads_once lab_m lab_works (lab_settings 30) lab_remote 30 eq_refl eq_refl eq_refl 30 _ lab_offloaded
    lab_offloaded_ready Hog Hv Hst Hreps) as (x' & E & _ & Hf).
  exists x'. exact (conj E Hf).
Defined.

(** Metrics above the target, and a model that goes down at the fifth report. *)
Definition failing (k : nat) : report := if (k <? 5)%nat then Reached true else Healthy false.

Lemma down_model_is_drained_witness : share_at lab_m failing lab_reconciled 9 = Some 100.
Proof.
  assert (forall k, (5 <= k)%nat -> failing k <> Healthy true) as Hdown.
  { intros k Hk. unfold failing. destruct (Nat.ltb_spec k 5); [lia|discriminate]. }
  exact (down_model_is_drained lab_m lab_works (lab_settings 30) lab_remote 30 eq_refl eq_refl eq_refl failing lab_reconciled 5
    lab_ready eq_refl Hdown 9 ltac:(lia)).
Defined.

End ModelShareExamples.
