(* ===== verification/Progress.v ===== *)
(** The reconciler's part in making progress: an attempt that fails, wherever it fails, leaves
    nothing in the reconciler's own maps that makes it skip the next one; and an attempt all of
    whose calls succeed ends with the model set up.  That the calls succeed is an assumption
    here, which [Restart] discharges for the components of the program; after a failed
    [Configure] it is false ([Recovery]). *)

From Stdlib Require Import Ascii.
From stdpp Require Import base numbers gmap strings list.
From S2P Require Import Prelude Programs Crd Kube Offloader Configurer Registry Metric Health Convert BeamlitClient.
From S2P Require Import ModelReconciler ModelSync ModelLoop ModelShare.
Local Open Scope Z_scope.

Section Progress.
Context {W : Type} `{Ho : Offloader W} `{Hos : !OffloaderSpec W} `{Hcl : CtrlClient W} `{Hb : BeamlitAPI W}
  `{Hcf : Configurer W} `{Hmi : MetricInformer W} `{Hhi : HealthInformer W} `{Htp : TimeParse} `{Hsur : !Surroundings W}.
Implicit Types (x : ModelDeploymentReconciler * W) (r : ModelDeploymentReconciler) (w : W).

(** An answer of Beamlit that can be read: the fields the server fills in are there. *)
Definition complete (b : BeamlitModel) : Prop := exists ws c u tc tu,
  bm_Workspace (bmod_Metadata b) = Some ws /\ bm_CreatedAt (bmod_Metadata b) = Some c /\ time_Parse c = Ok tc /\
  bm_UpdatedAt (bmod_Metadata b) = Some u /\ time_Parse u = Ok tu.

(** What the controller sends to Beamlit has a name, an environment and labels. *)
Definition to_send (b : BeamlitModel) : Prop :=
  is_Some (bm_Name (bmod_Metadata b)) /\ is_Some (bm_Environment (bmod_Metadata b)) /\ is_Some (bm_Labels (bmod_Metadata b)).

(** How far a reconciliation has come, by the last thing it has done to the informers, the
    configurer and the offloader. *)
Inductive phase := Reading | HealthStopped | Stopped | Unconfigured | Configured | MetricsWatched | SetUp.

(** Every call that reconciling makes succeeds, those of the configurer, the informers and the
    offloader too: the services the model names exist and have the port, its workload has a
    template, Beamlit accepts what it is sent, the other components do what they are told,
    and the API server takes the status.  [ok p]: what holds of the world in the phase [p]. *)
Class Available (m : ModelDeployment) (ok : phase -> W -> Prop) : Prop := {
  av_working :: Working m (ok SetUp);
  av_GetModel w : ok Reading w -> exists w' st,
    client_GetModel (mkNN (md_Namespace m) (md_Name m)) w = (w', Ok (set_status st m)) /\ ok Reading w';
  av_service s w : ok Reading w -> mds_ServiceRef (md_Spec m) = Some s \/ mds_MetricServiceRef (md_Spec m) = Some s ->
    exists w' service p, client_GetService (sr_key s) w = (w', Ok service) /\ ok Reading w' /\
      find_port (svc_Ports service) (sr_TargetPort s) = Ok p;
  av_kind : ref_Kind (mds_ModelSourceRef (md_Spec m)) ∈ ["Deployment"; "StatefulSet"; "DaemonSet"; "ReplicaSet"];
  av_template kind k w : ok Reading w -> exists w' t pt, client_GetPodTemplate kind k w = (w', Ok t) /\ ok Reading w' /\
    mapstructure_Decode (W:=W) t = Ok pt;
  av_lookup n e w : ok Reading w -> exists w' resp, sdk_GetModel n e w = (w', Ok resp) /\ ok Reading w';
  av_create b w : ok Reading w -> to_send b -> exists w' code text up, sdk_CreateModel b w = (w', Ok (code, text)) /\ ok Reading w' /\
    code < 299 /\ json_Model (W:=W) text = Ok up /\ complete up;
  av_update n b w : ok Reading w -> to_send b -> bm_Name (bmod_Metadata b) = Some n -> exists w' code text up, sdk_UpdateModel n b w = (w', Ok (code, text)) /\ ok Reading w' /\
    code < 299 /\ json_Model (W:=W) text = Ok up /\ complete up;
  av_hi_Unregister w : ok Reading w -> exists w', hi_Unregister (model_key m) w = (w', Ok tt) /\ ok HealthStopped w';
  av_mi_Unregister w : ok HealthStopped w -> exists w', mi_Unregister (model_key m) w = (w', Ok tt) /\ ok Stopped w';
  av_cfg_Unconfigure w : ok Stopped w -> exists w', cfg_Unconfigure (mds_ServiceRef (md_Spec m)) w = (w', Ok tt) /\ ok Unconfigured w';
  av_Cleanup m' w : ok Unconfigured w -> md_Meta m' = md_Meta m -> exists w', off_Cleanup m' w = (w', Ok tt) /\ ok Unconfigured w';
  av_cfg_Configure w : ok Unconfigured w -> exists w', cfg_Configure (mds_ServiceRef (md_Spec m)) w = (w', Ok tt) /\ ok Configured w';
  av_mi_Register b c d e w : ok Configured w -> exists w', mi_Register (model_key m) b c d e w = (w', Ok tt) /\ ok MetricsWatched w';
  av_hi_Register b w : ok MetricsWatched w -> exists w', hi_Register (model_key m) b w = (w', Ok tt) /\ ok SetUp w';
  av_status m' w : ok SetUp w -> md_Meta m' = md_Meta m -> exists w' m'', client_UpdateModelStatus m' w = (w', Ok m'') /\ ok SetUp w'
}.

Context (m : ModelDeployment) (ok : phase -> W -> Prop) `{Hav : !Available m ok} (o : OffloadingConfig) (backend : RemoteBackend)
  (ref : ServiceReference).
Hypothesis Hset : mds_OffloadingConfig (md_Spec m) = Some o.
Hypothesis Hrb : ol_RemoteBackend o = Some backend.
Hypothesis Hon : mds_Enabled (md_Spec m) = true.
Hypothesis Href : mds_ServiceRef (md_Spec m) = Some ref.

(** ** One call after the other *)

Lemma then_call {A B} (c : M W A) (k : A -> M (ModelDeploymentReconciler * W) B) r w w' a : c w = (w', Ok a) -> (outer c ≫= k) (r, w) = k a (r, w').
Proof. intros E. rewrite bind_run. unfold outer, zoom. cbn. by rewrite E. Qed.
Lemma then_own {B} f (k : unit -> M (ModelDeploymentReconciler * W) B) r w : (self (modify f) ≫= k) (r, w) = k tt (f r, w).
Proof. done. Qed.
Lemma then_yield {A B} (q : res A) (k : A -> M (ModelDeploymentReconciler * W) B) a (x : ModelDeploymentReconciler * W) : q = Ok a -> (of_res q ≫= k) x = k a x.
Proof. by intros ->. Qed.

Lemma then_need {A B} (a : A) (k : A -> M (ModelDeploymentReconciler * W) B) x : (deref (Some a) ≫= k) x = k a x.
Proof. done. Qed.

Lemma write_run b w : ok Reading w -> to_send b ->
  exists w' up, CreateOrUpdateModel b w = (w', Ok up) /\ ok Reading w' /\ complete up.
Proof.
  intros Hw Hb'. pose proof Hb' as ([n En] & [e Ee] & _). unfold CreateOrUpdateModel. rewrite En, Ee.
  destruct (av_lookup n e w Hw) as (w1 & resp & E1 & Hw1). rewrite (bind_Ok_run _ _ _ _ _ E1). case_match.
  - destruct (av_create b w1 Hw1 Hb') as (w2 & code & text & up & E2 & Hw2 & Hc & Hj & Hup). exists w2, up. split; [|done].
    unfold createModel. rewrite (bind_Ok_run _ _ _ _ _ E2). cbn. rewrite (proj2 (Z.leb_gt _ _)) by lia. by rewrite Hj.
  - destruct (av_update n b w1 Hw1 Hb' En) as (w2 & code & text & up & E2 & Hw2 & Hc & Hj & Hup). exists w2, up. split; [|done].
    unfold updateModel. rewrite En, (bind_Ok_run (deref (Some n)) _ w1 w1 n eq_refl), (bind_Ok_run _ _ _ _ _ E2). cbn.
    rewrite (proj2 (Z.leb_gt _ _)) by lia. by rewrite Hj.
Qed.

Lemma port_run service r w : ok Reading w ->
  service = mds_ServiceRef (md_Spec m) \/ service = mds_MetricServiceRef (md_Spec m) ->
  exists w' p, port_of service (r, w) = ((r, w'), Ok p) /\ ok Reading w' /\ offloaded w' = offloaded w.
Proof.
  intros Hw Hs. enter port_of. destruct service as [s|]; [|by exists w, None].
  destruct (av_service s w Hw) as (w' & sv & p & E & Hw' & Hp); [by destruct Hs; [left|right]|].
  pose proof (keeps_GetService (sr_key s) w) as Hk. rewrite E in Hk. cbn in Hk.
  exists w', (Some (int32 p)). split; [|done].
  assert (RetrievePodPort (mkRef (ref_Kind (sr_ObjectReference s)) "" (sr_Namespace s) (sr_Name s)) (sr_TargetPort s) w = (w', Ok p)) as E'.
  { unfold RetrievePodPort. cbn [ref_Namespace ref_Name]. change (mkNN (sr_Namespace s) (sr_Name s)) with (sr_key s).
    rewrite (bind_Ok_run _ _ _ _ _ E). by rewrite Hp. }
  by rewrite (then_call _ _ _ _ _ _ E').
Qed.

Lemma convert_run m' w : ok Reading w -> md_Spec m' = md_Spec m -> exists w' pt,
  ToBeamlitModelDeployment m' w = (w', Ok (beamlit_model m' pt)) /\ ok Reading w'.
Proof.
  intros Hw Hspec. unfold ToBeamlitModelDeployment, retrievePodTemplate. rewrite Hspec.
  rewrite bool_decide_eq_true_2 by exact av_kind.
  destruct (av_template (ref_Kind (mds_ModelSourceRef (md_Spec m)))
    (mkNN (ref_Namespace (mds_ModelSourceRef (md_Spec m))) (ref_Name (mds_ModelSourceRef (md_Spec m)))) w Hw) as (w' & t & pt & E & Hw' & Hpt).
  exists w', pt. split; [|done]. rewrite (bind_Ok_run _ _ _ _ _ E). cbn. by rewrite Hpt.
Qed.

(** ** The set-up of the offloading *)

(** What the controller has recorded for a model with nothing offloaded yet. *)
Definition fresh_entry r : Prop :=
  OngoingOffloadings r !! model_key m = Some 0 /\ ModelState r !! model_key m = Some true.

Lemma start_offloading_run st r w : ok Configured w ->
  exists r' w', start_offloading (set_offloading o (set_status st m)) o (r, w) = ((r', w'), Ok tt) /\ ok SetUp w' /\
    fresh_entry r' /\ BeamlitModels r' = BeamlitModels r /\ offloaded w' !! md_Name m = Some 0.
Proof.
  intros Hw. enter start_offloading. rewrite !then_own. change (model_key (set_offloading o (set_status st m))) with (model_key m).
  destruct (av_mi_Register (ol_Metrics o) (mds_ModelSourceRef (md_Spec m)) (5 * Second) (5 * Second) w Hw) as (w1 & E1 & Hw1).
  rewrite (then_call _ _ _ _ _ _ E1).
  destruct (av_hi_Register (mds_ModelSourceRef (md_Spec m)) w1 Hw1) as (w2 & E2 & Hw2). rewrite (then_call _ _ _ _ _ _ E2).
  cbn [set_offloading set_status md_Spec mds_ServiceRef]. rewrite Href, bind_run. cbn [deref mret M_ret].
  change (mkModel (md_Meta m) _ st) with (set_offloading o (set_status st m)). rewrite Hrb.
  destruct (works_Configure (m:=m) (set_offloading o (set_status st m)) (set_sr_Name (sr_Name ref +:+ "-beamlit") ref) backend 0 w2 Hw2
    eq_refl eq_refl) as (w3 & E3 & Hw3).
  pose proof (Configure_ok (set_offloading o (set_status st m)) (set_sr_Name (sr_Name ref +:+ "-beamlit") ref) (Some backend) 0 w2) as Hok.
  rewrite E3 in Hok. cbn in Hok. do 2 eexists. split; [unfold outer, zoom; cbn [fst snd]; by rewrite E3|].
  split_and!; [exact Hw3|split; cbn; by rewrite lookup_insert_eq|done|by apply Hok].
Qed.

Lemma configureOffloading_run st r w : ok Reading w ->
  exists r' w', configureOffloading (set_status st m) (r, w) = ((r', w'), Ok (set_offloading o (set_status st m))) /\ ok SetUp w' /\
    fresh_entry r' /\ BeamlitModels r' = BeamlitModels r /\ offloaded w' !! md_Name m = Some 0.
Proof.
  intros Hw. enter configureOffloading. change (model_key (set_status st m)) with (model_key m).
  destruct (av_hi_Unregister w Hw) as (w1 & E1 & Hw1). rewrite (then_call _ _ _ _ _ _ E1).
  destruct (av_mi_Unregister w1 Hw1) as (w2 & E2 & Hw2). rewrite (then_call _ _ _ _ _ _ E2).
  destruct (av_cfg_Unconfigure w2 Hw2) as (w3 & E3 & Hw3).
  change (mds_ServiceRef (md_Spec (set_status st m))) with (mds_ServiceRef (md_Spec m)). rewrite (then_call _ _ _ _ _ _ E3).
  destruct (av_Cleanup (m:=m) (set_status st m) w3 Hw3 eq_refl) as (w4 & E4 & Hw4). rewrite (then_call _ _ _ _ _ _ E4), !then_own.
  change (mds_OffloadingConfig (md_Spec (set_status st m))) with (mds_OffloadingConfig (md_Spec m)).
  change (mds_Enabled (md_Spec (set_status st m))) with (mds_Enabled (md_Spec m)). rewrite Hset, Hon. cbn [negb].
  rewrite self_gets_bind, (with_default_known o backend Hrb).
  change (mds_ServiceRef (md_Spec (set_offloading o (set_status st m)))) with (mds_ServiceRef (md_Spec m)).
  destruct (av_cfg_Configure w4 Hw4) as (w5 & E5 & Hw5). rewrite (then_call _ _ _ _ _ _ E5).
  set (r1 := upd_managed _ _). destruct (start_offloading_run st r1 w5 Hw5) as (r' & w' & E & Hw' & Hf & Hb' & Ho').
  exists r', w'. split; [by rewrite (bind_Ok_run _ _ _ _ _ E)|]. split_and!; [done..|by rewrite Hb'|done].
Qed.

(** *** The whole of a reconciliation *)

Definition set_up x : Prop := ready m (ok SetUp) x /\ view_of m x = mkView (Some 0) (Some true) (Some 0) /\
  BeamlitModels x.1 !! beamlit_key m = Some (md_Name m).

Lemma apply_model_run st r w : ok Reading w -> exists x', apply_model (set_status st m) (r, w) = (x', Ok tt) /\ set_up x'.
Proof.
  intros Hw. enter apply_model.
  destruct (port_run (mds_ServiceRef (md_Spec m)) r w Hw (or_introl eq_refl)) as (w1 & p1 & E1 & Hw1 & _).
  change (mds_ServiceRef (md_Spec (set_status st m))) with (mds_ServiceRef (md_Spec m)). rewrite (bind_Ok_run _ _ _ _ _ E1). clear E1.
  set (m1 := match p1 with Some p => set_ServingPort p (set_status st m) | None => set_status st m end).
  assert (exists st1, m1 = set_status st1 m) as [st1 ->] by (subst m1; destruct p1; by eexists).
  destruct (port_run (mds_MetricServiceRef (md_Spec m)) r w1 Hw1 (or_intror eq_refl)) as (w2 & p2 & E2 & Hw2 & _).
  change (mds_MetricServiceRef (md_Spec (set_status st1 m))) with (mds_MetricServiceRef (md_Spec m)).
  rewrite (bind_Ok_run _ _ _ _ _ E2). clear E2.
  set (m2 := match p2 with Some p => set_MetricPort p (set_status st1 m) | None => set_status st1 m end).
  assert (exists st2, m2 = set_status st2 m) as [st2 ->] by (subst m2; destruct p2; by eexists).
  destruct (convert_run (set_status st2 m) w2 Hw2 eq_refl) as (w3 & pt & E3 & Hw3). rewrite (then_call _ _ _ _ _ _ E3), then_own.
  destruct (write_run (beamlit_model (set_status st2 m) pt) w3 Hw3 (conj (mk_is_Some _ _ eq_refl) (conj (mk_is_Some _ _ eq_refl) (mk_is_Some _ _ eq_refl))))
    as (w4 & up & E4 & Hw4 & (ws & c & u & tc & tu & Ews & Eca & Ec & Eua & Eu)).
  rewrite (then_call _ _ _ _ _ _ E4), Ews, then_need, Eca, then_need, (then_yield _ _ _ _ Ec), Eua, then_need, (then_yield _ _ _ _ Eu).
  destruct (configureOffloading_run (mkModelStatus (mst_OffloadingStatus st2) (mst_ServingPort st2) (mst_MetricPort st2) ws tc tu)
    (upd_beamlit <[beamlit_key m := md_Name m]> r) w4 Hw4) as (r5 & w5 & E5 & Hw5 & [Hog Hst] & Hbm & Hof).
  set (m3 := set_offloading o _) in E5.
  change (set_beamlit_status ws tc tu (set_status st2 m)) with
    (set_status (mkModelStatus (mst_OffloadingStatus st2) (mst_ServingPort st2) (mst_MetricPort st2) ws tc tu) m).
  change (upd_beamlit _ r) with (upd_beamlit <[beamlit_key m := md_Name m]> r).
  rewrite (bind_Ok_run _ _ _ _ _ E5).
  destruct (av_status (m:=m) m3 w5 Hw5 eq_refl) as (w6 & m4 & E6 & Hw6). rewrite (then_call _ _ _ _ _ _ E6).
  pose proof (keeps_UpdateModelStatus m3 w5) as Hk. rewrite E6 in Hk. cbn in Hk.
  eexists. split; [reflexivity|]. split; [|split].
  - split; [exact Hw6|]. eexists. cbn. split; [apply lookup_insert_eq|done].
  - unfold view_of. cbn. by rewrite Hog, Hst, Hk, Hof.
  - cbn. rewrite Hbm. cbn. apply lookup_insert_eq.
Qed.

Hypothesis Hthere : meta_DeletionTimestamp (md_Meta m) = None.
Hypothesis Hfinalizer : ContainsFinalizer modelDeploymentFinalizer (md_Meta m) = true.
Definition key_of : NamespacedName := mkNN (md_Namespace m) (md_Name m).

Lemma reconcile_run r w : ok Reading w -> skip_model r m = false ->
  exists x', Reconcile key_of (r, w) = (x', Ok false) /\ set_up x'.
Proof.
  intros Hw Hskip. destruct (av_GetModel w Hw) as (w1 & st & E1 & Hw1).
  destruct (apply_model_run st r w1 Hw1) as (x' & E & Hx'). exists x'. split; [|exact Hx'].
  assert (createOrUpdate (set_status st m) (r, w1) = (x', Ok tt)) as E2.
  { enter createOrUpdate. rewrite self_gets_bind. change (skip_model r (set_status st m)) with (skip_model r m). by rewrite Hskip. }
  enter Reconcile. rewrite bind_run. unfold try at 1, outer at 1, zoom at 1. cbn [fst snd]. unfold key_of. rewrite E1. cbn [fst snd].
  change (md_Meta (set_status st m)) with (md_Meta m). rewrite Hthere, Hfinalizer. cbn [negb].
  enter settle_model. by rewrite (bind_Ok_run _ _ _ _ _ (try_Ok_run _ _ _ _ E2)).
Qed.

(** The next attempt is not skipped: no other model has the name on Beamlit, and this
    generation is not recorded. *)
Definition unsettled r : Prop :=
  (forall n, BeamlitModels r !! beamlit_key m = Some n -> n = md_Name m) /\
  (forall v, ManagedModels r !! model_key m = Some v -> mm_lastGeneration v <> md_Generation m).
Lemma unsettled_skip r : unsettled r -> skip_model r m = false.
Proof.
  intros [Hb1 Hm1]. unfold skip_model. apply orb_false_intro.
  - destruct (BeamlitModels r !! beamlit_key m) as [n|] eqn:E; [|done]. by rewrite (Hb1 n eq_refl), String.eqb_refl.
  - destruct (ManagedModels r !! model_key m) as [v|] eqn:E; [|done]. by apply Z.eqb_neq, Hm1.
Qed.
Lemma not_skipped r : skip_model r m = false -> unsettled r.
Proof.
  unfold skip_model. intros [H1 H2]%orb_false_iff. split.
  - intros n E. rewrite E in H1. by apply negb_false_iff, String.eqb_eq in H1.
  - intros v E. rewrite E in H2. by apply Z.eqb_neq.
Qed.
Lemma unsettled_forget k r : unsettled r -> unsettled (upd_managed (delete k) r).
Proof. intros [Hb1 Hm1]. split; [exact Hb1|]. cbn. intros v [_ Hv]%lookup_delete_Some. by apply Hm1. Qed.
Lemma unsettled_take m' r : md_Spec m' = md_Spec m -> md_Meta m' = md_Meta m ->
  unsettled r -> unsettled (upd_beamlit <[beamlit_key m' := md_Name m']> r).
Proof.
  intros Hs Hm [Hb1 Hm1]. split; [|exact Hm1]. unfold beamlit_key, md_Name. rewrite Hs, Hm. cbn. intros n.
  rewrite lookup_insert_Some. intros [[_ <-]|[_ Hn]]; [done|by apply Hb1].
Qed.

(** An attempt is not over before its last action, which records the model. *)
Notation attempting := (fun x : ModelDeploymentReconciler * W => unsettled x.1).
Lemma attempting_modify f : (forall r, unsettled r -> unsettled (f r)) -> preserves attempting (self (modify f)).
Proof. intros Hf. apply (preserves_self unsettled). intros r Hr. by apply Hf. Qed.
Hint Extern 2 (preserves _ (self (modify (upd_managed _)))) => apply attempting_modify, unsettled_forget : inv.
Hint Extern 3 (preserves _ (self (modify _))) => apply attempting_modify; intros r Hr; exact Hr : inv.

Lemma port_of_attempting s : preserves attempting (port_of s).
Proof. enter port_of. walk. Qed.
Lemma start_offloading_attempting m' o' : preserves attempting (start_offloading m' o').
Proof. enter start_offloading. walk. Qed.
Hint Resolve port_of_attempting start_offloading_attempting : inv.
Lemma configureOffloading_attempting m' : preserves attempting (configureOffloading m').
Proof. enter configureOffloading. walk. Qed.
Hint Resolve configureOffloading_attempting : inv.

Definition unless_done (res : res unit) (x : ModelDeploymentReconciler * W) : Prop := res = Ok tt \/ unsettled x.1.
Lemma unless_done_bind {A} (c : RM W A) k x : preserves attempting c -> unsettled x.1 ->
  (forall a x', unsettled x'.1 -> wp (k a) unless_done x') -> wp (c ≫= k : RM W unit) unless_done x.
Proof. intros Hc Hx Hk. eapply (wp_bind_preserves attempting); [exact Hc|exact Hx|by right|by right|exact Hk]. Qed.

Lemma apply_model_attempt st x : unsettled x.1 -> wp (apply_model (set_status st m)) unless_done x.
Proof.
  intros Hx. enter apply_model.
  apply unless_done_bind; [walk|done|clear x Hx; intros sp x Hx]. apply unless_done_bind; [walk|done|clear x Hx; intros mp x Hx].
  set (m2 := match mp with Some p => set_MetricPort p _ | None => _ end).
  assert (md_Spec m2 = md_Spec m /\ md_Meta m2 = md_Meta m) as [Hs Hm] by (subst m2; by destruct mp, sp). clearbody m2.
  apply unless_done_bind; [walk|done|clear x Hx; intros b x Hx].
  apply unless_done_bind; [apply attempting_modify; intros r; by apply unsettled_take|done|clear x Hx; intros _ x Hx].
  do 8 (apply unless_done_bind; [walk|done|clear x Hx; intros ? x Hx]). by left.
Qed.

(** Whatever becomes of an attempt, short of success, the next one is not skipped. *)
Lemma failed_attempt st x x' res : settle_model (set_status st m) x = (x', res) -> res <> Ok false -> unsettled x.1 -> unsettled x'.1.
Proof.
  intros E Hres Hx. assert (wp (createOrUpdate (set_status st m)) unless_done x) as Hc.
  { enter createOrUpdate. apply unless_done_bind; [walk|exact Hx|clear x Hx E; intros [|] x Hx; [by left|by apply apply_model_attempt]]. }
  unfold wp in Hc. enter settle_model in E. rewrite bind_run in E. unfold try in E.
  destruct (createOrUpdate (set_status st m) x) as [x1 [[]|e|]]; [by injection E as <- <-| |].
  - destruct Hc as [?|Hc]; [done|]. destruct (IsConflict e); [by injection E as <- <-|]. injection E as <- <-. cbn.
    by apply unsettled_forget.
  - destruct Hc as [?|Hc]; [done|]. by injection E as <- <-.
Qed.

(** An attempt that was not the last: it failed, met a conflict, or panicked. *)
Definition attempt_failed r1 r2 : Prop := exists st w1 w2 res,
  settle_model (set_status st m) (r1, w1) = ((r2, w2), res) /\ res <> Ok false.
Lemma failed_attempts r0 r : rtc attempt_failed r0 r -> unsettled r0 -> unsettled r.
Proof.
  induction 1 as [r|r1 r2 r3 (st & w1 & w2 & res & E & Hres) _ IH]; [done|].
  intros Hr. apply IH. exact (failed_attempt _ _ _ _ E Hres Hr).
Qed.
End Progress.

(** ** Properties *)

Section Settling.
Context {W : Type} `{Ho : Offloader W} `{Hcl : CtrlClient W} `{Hb : BeamlitAPI W}
  `{Hcf : Configurer W} `{Hmi : MetricInformer W} `{Hhi : HealthInformer W} `{Htp : TimeParse}.

(** C29. Reconciling settles a model: done again for the same generation it does nothing, and
    the next attempt after one that was not done, for an error, a conflict or a panic, is not
    skipped.  An error other than a conflict leaves no entry of the model in the maps of the
    shares, the states and the models; the name it has taken on Beamlit stays taken, for
    itself. *)
Theorem reconcile_settles_or_forgets m (x x' : ModelDeploymentReconciler * W) res :
  settle_model m x = (x', res) ->
  match res with
  | Ok false => settle_model m x' = (x', Ok false)
  | Ok true | Panic => skip_model x'.1 m = false
  | Err _ => forgotten m x'.1 /\ skip_model x'.1 m = false
  end.
Proof.
  intros E. pose proof (settle_model_outcome m x x' res E) as Hout.
  assert (res <> Ok false -> skip_model x'.1 m = false) as Hnext; [|by destruct res as [[]|e|]; auto].
  intros Hres. assert (m = set_status (md_Status m) m) as Hm by (by destruct m).
  apply unsettled_skip. rewrite Hm in E. apply (failed_attempt m _ _ _ _ E Hres).
  rewrite <-Hm in E. apply not_skipped. destruct (skip_model x.1 m) eqn:Es; [|done].
  enter settle_model in E. rewrite bind_run in E. unfold try at 1 in E. enter createOrUpdate in E.
  destruct x as [r w]. rewrite self_gets_bind in E. cbn [fst] in Es. rewrite Es in E. by injection E as <- <-.
Qed.
End Settling.

Module ProgressExamples.
Import ModelLoopExamples.
#[local] Existing Instance lab_offloader.
#[local] Existing Instance lab_client.
#[local] Existing Instance lab_beamlit.
#[local] Existing Instance lab_configurer.
#[local] Existing Instance lab_metrics.
#[local] Existing Instance lab_health.
#[local] Existing Instance lab_time.

(** Beamlit is down at the first attempt, and the second one succeeds. *)
Definition lab_outage : lab := mkLab ∅ ∅ {[lab_key := lab_m]} [] true.
Definition after_outage := (settle_model lab_m (lab_start, lab_outage)).1.
Definition after_retry := (settle_model lab_m (after_outage.1, lab_world lab_m)).1.

Lemma reconcile_settles_or_forgets_witness :
  skip_model after_outage.1 lab_m = false /\ settle_model lab_m after_retry = (after_retry, Ok false).
Proof.
  destruct (settle_model lab_m (lab_start, lab_outage)) as [y res] eqn:E1.
  assert (is_Ok res = false /\ res <> Panic) as [Hres Hp].
  { apply (f_equal snd) in E1. cbn [snd] in E1. subst res. split; [vm_compute; reflexivity|vm_compute; discriminate]. }
  assert (after_outage = y) as -> by exact (f_equal fst E1).
  assert (settle_model lab_m ((settle_model lab_m (lab_start, lab_outage)).1.1, lab_world lab_m) =
    ((settle_model lab_m ((settle_model lab_m (lab_start, lab_outage)).1.1, lab_world lab_m)).1, Ok false)) as E2 by (vm_compute; reflexivity).
  split; [|exact (reconcile_settles_or_forgets lab_m _ _ (Ok false) E2)].
  pose proof (reconcile_settles_or_forgets lab_m _ _ _ E1) as H. destruct res as [b|e|]; [done|exact (proj2 H)|done].
Defined.
End ProgressExamples.
