(* ===== verification/PolicyReconciler.v ===== *)
(** The policy controller (internal/controller/policy_controller.go), and that of the tool
    deployments, which does nothing. *)

From Stdlib Require Import Ascii.
From stdpp Require Import base numbers gmap strings list.
From S2P Require Import Prelude Programs Crd Kube Convert BeamlitClient ModelReconciler.
Local Open Scope Z_scope.

(** ** State *)

(** [src/internal/controller/policy_controller.go:44-47 ManagedPolicyRef] *)
Record ManagedPolicyRef := mkPolicyEntry {
  lastGeneratedID : Z;
  namespacedName : NamespacedName
}.
(** The zero value. *)
Definition zeroPolicyRef : ManagedPolicyRef := mkPolicyEntry 0 (mkNN "" "").

(** [src/internal/controller/policy_controller.go:37-42 PolicyReconciler] by policy name *)
Record PolicyReconciler := mkPolicyReconciler { ManagedPolicies : gmap string ManagedPolicyRef }.

(** [src/internal/controller/policy_controller.go:49-49 policyFinalizer] *)
Definition policyFinalizer : string := "policy.beamlit.com/finalizer".

Definition pol_key (p : Policy) : NamespacedName := mkNN (pol_Namespace p) (pol_Name p).
Definition set_policy_meta (d : ObjectMeta) (p : Policy) : Policy := mkPolicy d (pol_Spec p) (pol_Status p).

Section Reconciler.
Context {W : Type} `{CtrlClient W} `{BeamlitAPI W}.

Definition PM (A : Type) : Type := M (PolicyReconciler * W) A.

(** [src/internal/controller/policy_controller.go:125-141 createOrUpdate] the workspace of the answer is
    set in the caller's copy of the policy, which nothing reads after a success *)
Definition createOrUpdatePolicy (policy : Policy) : PM unit :=
  found ← self (gets (fun r => ManagedPolicies r !! pol_Name policy));
  let ref := default zeroPolicyRef found in
  let foreign := match found with
                 | Some ref => negb (String.eqb (nn_Namespace (namespacedName ref)) (pol_Namespace policy)) ||
                               negb (String.eqb (nn_Name (namespacedName ref)) (pol_Name policy))
                 | None => false
                 end in
  if foreign then throw (Errorf ("policy " +:+ pol_Name policy +:+ " is already defined"))
  else if lastGeneratedID ref =? pol_Generation policy then mret tt
  else
    beamlitPolicy ← outer (CreateOrUpdatePolicy (ToBeamlitPolicy policy));
    _ ← deref (bm_Workspace (bpol_Metadata beamlitPolicy));
    mret tt.

(** [src/internal/controller/policy_controller.go:143-145 finalizePolicy] *)
Definition finalizePolicy (policy : Policy) : PM unit := outer (DeletePolicy (pol_Name policy)).

(** [src/internal/controller/policy_controller.go:103-122 Reconcile] the end of the loop; whether to
    requeue.  The error returned is that of [createOrUpdate], not of the status
    update *)
Definition settle_policy (key : NamespacedName) (policy : Policy) : PM bool :=
  r ← try (createOrUpdatePolicy policy);
  match r with
  | inl _ => mret false
  | inr e =>
      if IsConflict e then mret true
      else
        _ ← outer (client_UpdatePolicyStatus policy);
        self (modify (fun r => mkPolicyReconciler
          (<[pol_Name policy := mkPolicyEntry (pol_Generation policy) key]> (ManagedPolicies r)))) ;;
        throw e
  end.

(** [src/internal/controller/policy_controller.go:64-123 Reconcile] *)
Definition ReconcilePolicy (req : NamespacedName) : PM bool :=
  got ← try (outer (client_GetPolicy req));
  match got with
  | inr e => if IsNotFound e then mret false else throw e
  | inl policy =>
      match meta_DeletionTimestamp (pol_Meta policy) with
      | Some _ =>
          if ContainsFinalizer policyFinalizer (pol_Meta policy) then
            finalizePolicy policy ;;
            self (modify (fun r => mkPolicyReconciler (delete (pol_Name policy) (ManagedPolicies r)))) ;;
            _ ← outer (client_UpdatePolicy (set_policy_meta (RemoveFinalizer policyFinalizer (pol_Meta policy)) policy));
            mret false
          else mret false
      | None =>
          if negb (ContainsFinalizer policyFinalizer (pol_Meta policy)) then
            _ ← outer (client_UpdatePolicy (set_policy_meta (AddFinalizer policyFinalizer (pol_Meta policy)) policy));
            mret false
          else settle_policy req policy
      end
  end.
End Reconciler.

(** ** Lemmas *)

Section Lemmas.
Context {W : Type} `{Hcl : CtrlClient W} `{Hb : BeamlitAPI W}.
Implicit Types (r : PolicyReconciler) (w : W) (p : Policy).

(** An attempt reads the table and does not write it. *)
Lemma createOrUpdatePolicy_table p r w : (createOrUpdatePolicy p (r, w)).1.1 = r.
Proof.
  unfold createOrUpdatePolicy. mrun. repeat case_match; simplify_eq; try done.
  all: unfold deref, panic, mret, M_ret in *; repeat case_match; by simplify_eq.
Qed.

(** A policy whose generation is recorded under its own name. *)
Lemma createOrUpdatePolicy_recorded p r w :
  ManagedPolicies r !! pol_Name p = Some (mkPolicyEntry (pol_Generation p) (pol_key p)) ->
  createOrUpdatePolicy p (r, w) = ((r, w), Ok tt).
Proof. intros E. unfold createOrUpdatePolicy. mrun. rewrite E. cbn. by rewrite !String.eqb_refl, Z.eqb_refl. Qed.
End Lemmas.

(** ** What Beamlit holds

    A table of policies by name.  The server fills in the workspace and the times; the rest
    of what it files is what it was sent. *)
Definition policy_sent (p : BeamlitPolicy) : BeamlitPolicy :=
  let d := bpol_Metadata p in
  mkBeamlitPolicy (mkMetadata (bm_Name d) (bm_Environment d) (bm_Labels d) (bm_DisplayName d) None None None)
    (bpol_Type p) (bpol_Flavors p) (bpol_Locations p).
Definition policy_filed (name : string) (sent : BeamlitPolicy) (t t' : gmap string BeamlitPolicy) : Prop :=
  exists stored, policy_sent stored = policy_sent sent /\ t' = <[name := stored]> t.

Class PolicyServer (W : Type) `{BeamlitAPI W} `{CtrlClient W} := {
  remote_policies : W -> gmap string BeamlitPolicy;
  sdk_GetPolicy_keeps n : keeps remote_policies (sdk_GetPolicy n);
  sdk_CreatePolicy_files p n w code text : bm_Name (bpol_Metadata p) = Some n ->
    (sdk_CreatePolicy p w).2 = Ok (code, text) -> code < 299 ->
    policy_filed n p (remote_policies w) (remote_policies (sdk_CreatePolicy p w).1);
  sdk_UpdatePolicy_files p n w code text : bm_Name (bpol_Metadata p) = Some n ->
    (sdk_UpdatePolicy n p w).2 = Ok (code, text) -> code < 299 ->
    policy_filed n p (remote_policies w) (remote_policies (sdk_UpdatePolicy n p w).1);
  sdk_DeletePolicy_removes n w code text : (sdk_DeletePolicy n w).2 = Ok (code, text) -> code = 404 \/ code < 299 ->
    remote_policies (sdk_DeletePolicy n w).1 = delete n (remote_policies w);
  GetPolicy_keeps k : keeps remote_policies (client_GetPolicy k);
  UpdatePolicy_keeps p : keeps remote_policies (client_UpdatePolicy p);
  UpdatePolicyStatus_keeps p : keeps remote_policies (client_UpdatePolicyStatus p)
}.

Section Published.
Context {W : Type} `{Hcl : CtrlClient W} `{Hb : BeamlitAPI W} `{Hps : !PolicyServer W}.
Implicit Types (r : PolicyReconciler) (w : W) (p : Policy).

Lemma ToBeamlitPolicy_name p : bm_Name (bpol_Metadata (ToBeamlitPolicy p)) = Some (pol_Name p).
Proof. unfold ToBeamlitPolicy. by repeat case_match. Qed.

Lemma CreateOrUpdatePolicy_files b n w w' b' : bm_Name (bpol_Metadata b) = Some n ->
  CreateOrUpdatePolicy b w = (w', Ok b') -> policy_filed n b (remote_policies w) (remote_policies w').
Proof.
  intros Hn. unfold CreateOrUpdatePolicy. rewrite Hn.
  intros (w1 & got & E1 & (w2 & [code text] & E2 & E3)%bind_Ok_inv)%bind_Ok_inv.
  pose proof (sdk_GetPolicy_keeps n w) as Hk. rewrite E1 in Hk. cbn in Hk. rewrite <-Hk.
  cbn [fst snd] in *. destruct (299 <=? code) eqn:Ec; [done|].
  injection E3 as <- _. case_match; [|case_match; [|done]].
  - pose proof (sdk_CreatePolicy_files b n w1 code text Hn) as Hf. rewrite E2 in Hf. apply Hf; [done|lia].
  - pose proof (sdk_UpdatePolicy_files b n w1 code text Hn) as Hf. rewrite E2 in Hf. apply Hf; [done|lia].
Qed.
Lemma DeletePolicy_removes n w w' : DeletePolicy n w = (w', Ok tt) -> remote_policies w' = delete n (remote_policies w).
Proof.
  unfold DeletePolicy. intros (w1 & [code text] & E1 & E2)%bind_Ok_inv.
  pose proof (sdk_DeletePolicy_removes n w code text) as Hd. rewrite E1 in Hd. cbn [fst snd] in *.
  destruct (code =? 404) eqn:E4; [injection E2 as <-; apply Hd; [done|lia]|].
  destruct (299 <=? code) eqn:Ec; [done|]. injection E2 as <-. apply Hd; [done|lia].
Qed.

(** A policy is known as the one of its name, or the name is free. *)
Definition policy_owner r p : bool :=
  match ManagedPolicies r !! pol_Name p with
  | Some ref => bool_decide (namespacedName ref = pol_key p)
  | None => true
  end.
Definition policy_recorded r p : bool :=
  lastGeneratedID (default zeroPolicyRef (ManagedPolicies r !! pol_Name p)) =? pol_Generation p.

Lemma createOrUpdatePolicy_files p r w x' : createOrUpdatePolicy p (r, w) = (x', Ok tt) ->
  policy_owner r p = true /\ x'.1 = r /\
  if policy_recorded r p then x'.2 = w
  else policy_filed (pol_Name p) (ToBeamlitPolicy p) (remote_policies w) (remote_policies x'.2).
Proof.
  unfold createOrUpdatePolicy, policy_recorded. rewrite self_gets_bind. intros E.
  destruct (match ManagedPolicies r !! pol_Name p with Some _ => _ | None => false end) eqn:Ef; [done|]. split.
  { unfold policy_owner. destruct (ManagedPolicies r !! pol_Name p) as [[g [a b]]|]; [|done].
    apply orb_false_iff in Ef as [Ha%negb_false_iff%String.eqb_eq Hb'%negb_false_iff%String.eqb_eq].
    apply bool_decide_eq_true_2. unfold pol_key. cbn in *. by subst. }
  case_match; [by injection E as <-|]. apply bind_Ok_inv in E as (x1 & b & E1 & (x2 & ws & E2 & E3)%bind_Ok_inv).
  apply outer_Ok_inv in E1 as (w1 & -> & E1). injection E3 as <-.
  destruct (bm_Workspace (bpol_Metadata b)); [|done]. injection E2 as <- _. split; [done|].
  eapply CreateOrUpdatePolicy_files; [apply ToBeamlitPolicy_name|exact E1].
Qed.

(** A policy whose name is another's is refused before anything is written. *)
Lemma refused_writes_nothing p r w : policy_owner r p = false ->
  createOrUpdatePolicy p (r, w) = ((r, w), Err (Errorf ("policy " +:+ pol_Name p +:+ " is already defined"))).
Proof.
  unfold policy_owner, createOrUpdatePolicy. rewrite self_gets_bind. intros Ho.
  destruct (ManagedPolicies r !! pol_Name p) as [[g [a b]]|]; [|done]. apply bool_decide_eq_false in Ho. cbn.
  destruct (String.eqb_spec a (pol_Namespace p)) as [->|]; [|done].
  destruct (String.eqb_spec b (pol_Name p)) as [->|]; [|done]. by destruct Ho.
Qed.
Lemma settle_refused key p r w : policy_owner r p = false ->
  remote_policies (settle_policy key p (r, w)).1.2 = remote_policies w /\ is_Ok (settle_policy key p (r, w)).2 = false.
Proof.
  intros Ho. unfold settle_policy. rewrite bind_run. unfold try. rewrite refused_writes_nothing by done.
  set (e := Errorf _). assert (IsConflict e = false) as -> by done. rewrite bind_run. unfold outer, zoom. cbn [fst snd].
  pose proof (UpdatePolicyStatus_keeps p w) as Hk. by destruct (client_UpdatePolicyStatus p w) as [w1 [p'|e'|]].
Qed.
End Published.

(** ** Properties *)

Section Properties.
Context {W : Type} `{Hcl : CtrlClient W} `{Hb : BeamlitAPI W}.
Implicit Types (r : PolicyReconciler) (w : W) (p : Policy).

(** Only failures are recorded, and a recorded generation counts as done: after an
    attempt failed, the retry it asks for reports success without a request to Beamlit.
    A success, on the other hand, leaves no record. *)
Theorem failed_policy_is_never_retried p r w :
  (forall x' b, settle_policy (pol_key p) p (r, w) = (x', Ok b) -> x'.1 = r) /\
  forall e, (createOrUpdatePolicy p (r, w)).2 = Err e -> IsConflict e = false ->
    is_Ok (client_UpdatePolicyStatus p (createOrUpdatePolicy p (r, w)).1.2).2 = true ->
    exists x', settle_policy (pol_key p) p (r, w) = (x', Err e) /\
      forall w2, settle_policy (pol_key p) p (x'.1, w2) = ((x'.1, w2), Ok false).
Proof.
  pose proof (createOrUpdatePolicy_table p r w) as Hr. unfold settle_policy, mbind, M_bind, try.
  destruct (createOrUpdatePolicy p (r, w)) as [[r1 w1] res]. cbn in Hr. subst r1. split.
  - intros x' b. destruct res as [[]|e|]; [by intros [= <- _]| |done].
    destruct (IsConflict e); [by intros [= <- _]|]. unfold outer, zoom. cbn.
    by destruct (client_UpdatePolicyStatus p w1) as [w2 [p'|e'|]].
  - cbn. intros e -> -> Hst. unfold outer, zoom. cbn.
    destruct (client_UpdatePolicyStatus p w1) as [w3 [p'|e'|]]; [|done|done]. eexists. split; [done|]. cbn.
    intros w2. rewrite createOrUpdatePolicy_recorded; [done|]. apply lookup_insert_eq.
Qed.

(** C31. What one reconciliation leaves on Beamlit, in every case that is done: a policy that goes
    away is removed, there and from the table, whoever holds its name there; any other is
    filed as its conversion, unless its generation is recorded.  A policy whose name another
    one holds, and which is not going away, is never done, and writes nothing however its
    reconciliation ends. *)
Theorem reconcile_publishes_policies `{!PolicyServer W} req r w p x' res :
  (client_GetPolicy req w).2 = Ok p -> ReconcilePolicy req (r, w) = (x', res) ->
  if negb (ContainsFinalizer policyFinalizer (pol_Meta p)) then remote_policies x'.2 = remote_policies w
  else match meta_DeletionTimestamp (pol_Meta p) with
       | Some _ => res = Ok false -> remote_policies x'.2 = delete (pol_Name p) (remote_policies w) /\
                   ManagedPolicies x'.1 = delete (pol_Name p) (ManagedPolicies r)
       | None =>
           if policy_owner r p then
             res = Ok false -> x'.1 = r /\
               if policy_recorded r p then remote_policies x'.2 = remote_policies w
               else policy_filed (pol_Name p) (ToBeamlitPolicy p) (remote_policies w) (remote_policies x'.2)
           else is_Ok res = false /\ remote_policies x'.2 = remote_policies w
       end.
Proof.
  intros Hget E. unfold ReconcilePolicy in E. rewrite bind_run in E. unfold try at 1, outer at 1, zoom at 1 in E. cbn [fst snd] in E.
  pose proof (GetPolicy_keeps req w) as Hk. destruct (client_GetPolicy req w) as [w1 o]. cbn [fst snd] in *. subst o. cbn iota in E.
  rewrite <-Hk.
  assert (forall q r2 w2, (_ ← outer (client_UpdatePolicy q); mret false) (r2, w2) = (x', res) ->
    remote_policies x'.2 = remote_policies w2 /\ x'.1 = r2) as Hup.
  { intros q r2 w2. rewrite bind_run. unfold outer, zoom. cbn [fst snd]. pose proof (UpdatePolicy_keeps q w2) as Hu.
    destruct (client_UpdatePolicy q w2) as [w3 [q'|e|]]; by intros [= <- _]. }
  destruct (meta_DeletionTimestamp (pol_Meta p)), (ContainsFinalizer policyFinalizer (pol_Meta p)); cbn [negb] in *.
  - intros ->. apply bind_Ok_inv in E as (x2 & [] & (w2 & -> & E2)%outer_Ok_inv & (x3 & [] & E3 & E)%bind_Ok_inv).
    injection E3 as <-. apply DeletePolicy_removes in E2. rewrite <-E2. by destruct (Hup _ _ _ E) as [-> ->].
  - by injection E as <- _.
  - destruct (policy_owner r p) eqn:Ho.
    2: { pose proof (settle_refused req p r w1 Ho) as [H1 H2]. rewrite E in H1, H2. by split. }
    intros ->. apply bind_Ok_inv in E as (x2 & done & E1 & E). apply try_Ok_inv in E1 as [-> E1].
    destruct done as [[]|e]; [|destruct (IsConflict e); [done|]; by apply bind_Ok_inv in E as (? & ? & _ & E);
      apply bind_Ok_inv in E as (? & ? & _ & E)].
    injection E as <-. destruct (createOrUpdatePolicy p (r, w1)) as [x2 o] eqn:E2. cbn in E1. subst o. cbn.
    apply createOrUpdatePolicy_files in E2 as (H1 & H2 & H3). split; [done|]. by case_match; [rewrite H3|].
  - by apply Hup in E as [-> _].
Qed.

(** A policy whose name another namespace holds is refused, and takes the name over
    by being refused: from then on it is the first policy that is refused. *)
Theorem refused_policy_takes_the_name p q g r w :
  pol_Name p = pol_Name q -> pol_Namespace p <> pol_Namespace q ->
  ManagedPolicies r !! pol_Name q = Some (mkPolicyEntry g (pol_key q)) ->
  is_Ok (client_UpdatePolicyStatus p w).2 = true ->
  exists x' e, settle_policy (pol_key p) p (r, w) = (x', Err e) /\
    forall w2, createOrUpdatePolicy q (x'.1, w2) = ((x'.1, w2), Err e).
Proof.
  intros Hn Hns Hq Hst. unfold settle_policy, mbind, M_bind, try.
  assert (forall a b, a <> b -> negb (String.eqb a b) = true) as Hneq
    by (intros a b Hab%String.eqb_neq; by rewrite Hab).
  assert (createOrUpdatePolicy p (r, w) =
    ((r, w), Err (Errorf ("policy " +:+ pol_Name p +:+ " is already defined")))) as ->.
  { unfold createOrUpdatePolicy. mrun. rewrite Hn, Hq. cbn. by rewrite (Hneq (pol_Namespace q)) by congruence. }
  assert (forall s, IsConflict (Errorf s) = false) as Hnc by done. rewrite Hnc.
  unfold outer, zoom. cbn. destruct (client_UpdatePolicyStatus p w) as [w3 [p'|e'|]]; [|done|done].
  do 2 eexists. split; [reflexivity|]. intros w2. unfold createOrUpdatePolicy. mrun.
  rewrite <- Hn, lookup_insert_eq. cbn. by rewrite (Hneq (pol_Namespace p)) by congruence.
Qed.
End Properties.

(** ** Tool deployments

    The third controller is a place-holder: it is started and told about every tool
    deployment, and neither reads nor writes anything. *)
Module Tools.
(** [src/internal/controller/tooldeployment_controller.go:49-55 ToolDeploymentReconciler.Reconcile] *)
Definition Reconcile {W} (req : NamespacedName) : M W bool := mret false.
End Tools.

(** ** A Beamlit API that is down *)

Module PolicyExamples.
#[local] Instance pol_client : CtrlClient unit := {
  client_GetService k := throw (Errorf "");
  client_GetPodTemplate s k := throw (Errorf "");
  client_GetModel k := throw (Errorf "");
  client_UpdateModel m := mret m;
  client_UpdateModelStatus m := mret m;
  client_GetPolicy k := throw (Errorf "");
  client_UpdatePolicy p := mret p;
  client_UpdatePolicyStatus p := mret p;
  mapstructure_Decode s := Ok s
}.
#[local] Instance pol_beamlit : BeamlitAPI unit := {
  sdk_GetModel a b := mret (503, "");
  sdk_CreateModel a := mret (503, "");
  sdk_UpdateModel a b := mret (503, "");
  sdk_DeleteModel a b := mret (503, "");
  sdk_GetPolicy a := mret (404, "");
  sdk_CreatePolicy a := mret (503, "down");
  sdk_UpdatePolicy a b := mret (503, "down");
  sdk_DeletePolicy a := mret (503, "");
  json_Model s := Err (Errorf "");
  json_Policy s := Err (Errorf "")
}.
Definition pol_example (ns : string) : Policy :=
  mkPolicy (mkMeta ns "eu-only" 3 ∅ None [policyFinalizer]) (mkPolicySpec "EU" "location" [mkPolicyLocation "continent" "eu"] [])
    (mkPolicyStatus 0 0 "").
Definition pol_down : error := status_error "update Policy" (503, "down").

Lemma failed_policy_is_never_retried_witness :
  exists x', settle_policy (pol_key (pol_example "a")) (pol_example "a") (mkPolicyReconciler ∅, tt) = (x', Err pol_down) /\
    settle_policy (pol_key (pol_example "a")) (pol_example "a") (x'.1, tt) = ((x'.1, tt), Ok false).
Proof.
  destruct (proj2 (failed_policy_is_never_retried (W:=unit) (pol_example "a") (mkPolicyReconciler ∅) tt) pol_down)
    as (x' & E & Hr); [vm_compute; reflexivity..|].
  exists x'. split; [exact E|apply Hr].
Defined.

Lemma refused_policy_takes_the_name_witness :
  let r := mkPolicyReconciler {["eu-only" := mkPolicyEntry 3 (pol_key (pol_example "b"))]} in
  exists x' e, settle_policy (pol_key (pol_example "a")) (pol_example "a") (r, tt) = (x', Err e) /\
    createOrUpdatePolicy (pol_example "b") (x'.1, tt) = ((x'.1, tt), Err e).
Proof.
  intros r.
  destruct (refused_policy_takes_the_name (W:=unit) (pol_example "a") (pol_example "b") 3 r tt) as (x' & e & E & Hr);
    [reflexivity|discriminate|vm_compute; reflexivity|vm_compute; reflexivity|].
  exists x', e. split; [exact E|apply Hr].
Defined.

(** A server that keeps what it is sent. *)
Definition shelf : Type := gmap string BeamlitPolicy.
Definition stored_policy (p : BeamlitPolicy) : BeamlitPolicy :=
  let d := bpol_Metadata p in
  mkBeamlitPolicy (mkMetadata (bm_Name d) (bm_Environment d) (bm_Labels d) (bm_DisplayName d) (Some "ws") None None)
    (bpol_Type p) (bpol_Flavors p) (bpol_Locations p).
Definition shelve (p : BeamlitPolicy) : M shelf Reply :=
  match bm_Name (bpol_Metadata p) with
  | Some n => modify <[n := stored_policy p]> ;; mret (200, "")
  | None => mret (422, "")
  end.
#[local] Instance shelf_beamlit : BeamlitAPI shelf := {
  sdk_GetModel a b := mret (404, ""); sdk_CreateModel a := mret (503, ""); sdk_UpdateModel a b := mret (503, "");
  sdk_DeleteModel a b := mret (404, "");
  sdk_GetPolicy n w := (w, Ok (match w !! n with Some _ => (200, "") | None => (404, "") end));
  sdk_CreatePolicy := shelve;
  sdk_UpdatePolicy n p := if bool_decide (bm_Name (bpol_Metadata p) = Some n) then shelve p else mret (422, "");
  sdk_DeletePolicy n := modify (delete n) ;; mret (200, "");
  json_Model s := Err (Errorf "");
  json_Policy s := Ok (mkBeamlitPolicy (mkMetadata None None None None (Some "ws") None None) None None None)
}.
#[local] Instance shelf_client : CtrlClient shelf := {
  client_GetService k := throw (Errorf "");
  client_GetPodTemplate s k := throw (Errorf "");
  client_GetModel k := throw (Errorf "");
  client_UpdateModel m := mret m;
  client_UpdateModelStatus m := mret m;
  client_GetPolicy k := mret (pol_example "a");
  client_UpdatePolicy p := mret p;
  client_UpdatePolicyStatus p := mret p;
  mapstructure_Decode s := Ok s
}.
#[local] Program Instance shelf_server : PolicyServer shelf := { remote_policies w := w }.
Next Obligation. done. Qed.
Next Obligation. intros p n w code text Hn _ _. cbn. unfold shelve. rewrite Hn. by exists (stored_policy p). Qed.
Next Obligation.
  intros p n w code text Hn _ _. cbn. rewrite bool_decide_eq_true_2 by done. unfold shelve. rewrite Hn. by exists (stored_policy p).
Qed.
Next Obligation. done. Qed.
Next Obligation. done. Qed.
Next Obligation. done. Qed.
Next Obligation. done. Qed.

Lemma reconcile_publishes_policies_witness :
  let w' := (ReconcilePolicy (mkNN "a" "eu-only") (mkPolicyReconciler ∅, (∅ : shelf))).1.2 in
  policy_filed "eu-only" (ToBeamlitPolicy (pol_example "a")) ∅ w'.
Proof.
  assert (ReconcilePolicy (mkNN "a" "eu-only") (mkPolicyReconciler ∅, (∅ : shelf)) =
    ((ReconcilePolicy (mkNN "a" "eu-only") (mkPolicyReconciler ∅, (∅ : shelf))).1, Ok false)) as E by (vm_compute; reflexivity).
  exact (proj2 (reconcile_publishes_policies (W:=shelf) (mkNN "a" "eu-only") (mkPolicyReconciler ∅) ∅ (pol_example "a") _ _
    eq_refl E eq_refl)).
Defined.
End PolicyExamples.
