(* ===== verification/Scheme.v ===== *)
(** The registration of the types of the resources (api/v1alpha1/*/groupversion_info.go, the [init]
    functions beside it and in cmd/main.go), and the controllers that are made for them
    ([SetupWithManager]).

    A package registers its types in its [init] functions, with a builder that its variable
    [SchemeBuilder] points to; its variable [AddToScheme] is a method of the builder, taken
    before the first [init] runs.  It is the pointer that makes the types arrive. *)

From Stdlib Require Import Ascii.
From stdpp Require Import base numbers gmap strings list.
From S2P Require Import Prelude Memory.

(** ** The API machinery *)

Record GroupVersion := mkGV { gv_Group : string; gv_Version : string }.
Record GroupVersionKind := mkGVK { gvk_Group : string; gvk_Version : string; gvk_Kind : string }.
#[global] Instance GroupVersionKind_eq_dec : EqDecision GroupVersionKind.
Proof. solve_decision. Defined.
#[global] Instance GroupVersionKind_countable : Countable GroupVersionKind.
Proof.
  apply (inj_countable' (fun k => (gvk_Group k, gvk_Version k, gvk_Kind k)) (fun '(a, b, c) => mkGVK a b c)). by intros [].
Defined.

(** A type of a Go package. *)
Record GoType := mkGoType { t_Package : string; t_Name : string }.
#[global] Instance GoType_eq_dec : EqDecision GoType.
Proof. solve_decision. Defined.

(** apimachinery, client-go and the builder of controller-runtime. *)
Class SchemeMachinery := {
  Builder : Type;
  runtime_Scheme : Type;
  scheme_Builder : GroupVersion -> Builder;
  Builder_Register : list GoType -> Builder -> Builder;
  Builder_AddToScheme : Builder -> M runtime_Scheme unit;
  runtime_NewScheme : runtime_Scheme;
  clientgo_AddToScheme : M runtime_Scheme unit;
  utilruntime_Must : option error -> res unit
}.

(** Making a controller: [NewControllerManagedBy(mgr).For(t).Complete(r)]. *)
Class ControllerBuilder (W : Type) := { ctrl_Complete : GoType -> M W unit }.

(** The kind a type of a group is registered as. *)
Definition kind_of (gv : GroupVersion) (t : GoType) : GroupVersionKind := mkGVK (gv_Group gv) (gv_Version gv) (t_Name t).

(** The kinds that every group gets besides its own. *)
Definition meta_kinds : list string :=
  ["WatchEvent"; "ListOptions"; "GetOptions"; "DeleteOptions"; "CreateOptions"; "UpdateOptions"; "PatchOptions"].

Definition of_kubernetes (t : GoType) : bool := HasPrefix (t_Package t) "k8s.io/".
Definition of_beamlit (k : GroupVersionKind) : bool := HasSuffix (gvk_Group k) ".beamlit.com".

(** What is relied on: a builder adds the types it has been told, once each, unless a kind is
    taken already; client-go registers the groups of Kubernetes. *)
Class SchemeLaws `{SchemeMachinery} := {
  group_of : Builder -> GroupVersion;
  types_of : Builder -> list GoType;
  kinds_of : runtime_Scheme -> GoType -> gset GroupVersionKind;
  scheme_Builder_new gv : group_of (scheme_Builder gv) = gv /\ types_of (scheme_Builder gv) = [];
  Builder_Register_adds ts b :
    group_of (Builder_Register ts b) = group_of b /\ types_of (Builder_Register ts b) = types_of b ++ ts;
  NewScheme_empty t : kinds_of runtime_NewScheme t = ∅;
  clientgo_adds s : (forall t, kinds_of s t = ∅) ->
    exists s', clientgo_AddToScheme s = (s', Ok tt) /\
      (forall t k, k ∈ kinds_of s' t -> of_kubernetes t = true /\ of_beamlit k = false);
  AddToScheme_adds b s :
    Forall (fun t => of_kubernetes t = false /\ t_Name t ∉ meta_kinds) (types_of b) ->
    NoDup (t_Name <$> types_of b) ->
    (forall t t', t ∈ types_of b -> kind_of (group_of b) t ∉ kinds_of s t') ->
    exists s', Builder_AddToScheme b s = (s', Ok tt) /\
      (forall t, of_kubernetes t = false ->
        kinds_of s' t = kinds_of s t ∪ (if decide (t ∈ types_of b) then {[kind_of (group_of b) t]} else ∅)) /\
      (forall t k, k ∈ kinds_of s' t ->
        k ∈ kinds_of s t \/ gvk_Group k = gv_Group (group_of b) \/ gvk_Group k = "");
  Must_spec e : utilruntime_Must e = match e with None => Ok tt | Some _ => Panic end
}.

(** [strings.ToLower], on the letters of ASCII. *)
Definition lower_char (c : ascii) : ascii :=
  let n := N_of_ascii c in if ((65 <=? n) && (n <=? 90))%N then ascii_of_N (n + 32) else c.
Fixpoint ToLower (s : string) : string :=
  match s with EmptyString => EmptyString | String c s => String (lower_char c) (ToLower s) end.

(** A controller is made for a type that the scheme of its manager knows as one kind; its name is
    the kind in lower-case letters, which no controller of the program has yet. *)
Class ControllerBuilderLaws W `{SchemeLaws} `{ControllerBuilder W} := {
  mgr_scheme : W -> runtime_Scheme;
  controllers : W -> list string;
  Complete_adds t k w :
    kinds_of (mgr_scheme w) t = {[k]} -> ToLower (gvk_Kind k) ∉ controllers w ->
    exists w', ctrl_Complete t w = (w', Ok tt) /\ mgr_scheme w' = mgr_scheme w /\
      controllers w' = controllers w ++ [ToLower (gvk_Kind k)];
  Complete_unknown t w : kinds_of (mgr_scheme w) t = ∅ -> exists e, ctrl_Complete t w = (w, Err e)
}.

(** ** The variables of a package *)

#[global] Instance builder_stored `{SchemeMachinery} : Stored Builder Builder.
Proof. refine {| to_cell b := b; of_cell := Some |}. done. Defined.

Section Builders.
Context `{SchemeMachinery}.
Local Abbreviation heap := (gmap loc Builder).

(** The methods of a builder, called through a pointer. *)
Definition Register (p : ptr Builder) (ts : list GoType) : M heap unit :=
  l ← deref (addr p);
  b ← load l;
  store l (Builder_Register ts b).
Definition AddToScheme (p : ptr Builder) : M (heap * runtime_Scheme) unit :=
  l ← deref (addr p);
  b ← self (load l);
  outer (Builder_AddToScheme b).

(** [AddToScheme] is a method value: the method, with the pointer it was taken from. *)
Record Package := mkPackage {
  pkg_SchemeBuilder : ptr Builder;
  pkg_AddToScheme : M (heap * runtime_Scheme) unit
}.

Definition Must (c : M (heap * runtime_Scheme) unit) : M (heap * runtime_Scheme) unit :=
  r ← try c;
  of_res (utilruntime_Must (match r with inl _ => None | inr e => Some e end)).
End Builders.

Module Deployment.
Definition package : string := "github.com/beamlit/beamlit-controller/api/v1alpha1/deployment".
Definition group : GroupVersion := mkGV "deployment.beamlit.com" "v1alpha1".
Definition ModelDeployment := mkGoType package "ModelDeployment".
Definition ModelDeploymentList := mkGoType package "ModelDeploymentList".
Definition ToolDeployment := mkGoType package "ToolDeployment".
Definition ToolDeploymentList := mkGoType package "ToolDeploymentList".

Section Code.
Context `{SchemeMachinery}.
(** [src/api/v1alpha1/deployment/groupversion_info.go:27-36 SchemeBuilder] *)
Definition variables : M (gmap loc Builder) Package :=
  l ← alloc (scheme_Builder group);
  mret (mkPackage (Ptr (Some l)) (AddToScheme (Ptr (Some l)))).
(** [src/api/v1alpha1/deployment/modeldeployment_types.go:272-274 init] *)
Definition init_models (p : Package) : M (gmap loc Builder) unit :=
  Register (pkg_SchemeBuilder p) [ModelDeployment; ModelDeploymentList].
(** [src/api/v1alpha1/deployment/tooldeployment_types.go:62-64 init] *)
Definition init_tools (p : Package) : M (gmap loc Builder) unit :=
  Register (pkg_SchemeBuilder p) [ToolDeployment; ToolDeploymentList].
End Code.
End Deployment.

Module Authorization.
Definition package : string := "github.com/beamlit/beamlit-controller/api/v1alpha1/authorization".
Definition group : GroupVersion := mkGV "authorization.beamlit.com" "v1alpha1".
Definition Policy := mkGoType package "Policy".
Definition PolicyList := mkGoType package "PolicyList".

Section Code.
Context `{SchemeMachinery}.
(** [src/api/v1alpha1/authorization/groupversion_info.go:27-36 SchemeBuilder] *)
Definition variables : M (gmap loc Builder) Package :=
  l ← alloc (scheme_Builder group);
  mret (mkPackage (Ptr (Some l)) (AddToScheme (Ptr (Some l)))).
(** [src/api/v1alpha1/authorization/policy_types.go:106-108 init] *)
Definition init_policies (p : Package) : M (gmap loc Builder) unit :=
  Register (pkg_SchemeBuilder p) [Policy; PolicyList].
End Code.
End Authorization.

(** ** The start of the program *)

Section Start.
Context `{SchemeMachinery}.

(** [src/cmd/main.go:63-69 init] *)
Definition main_init (authorization deployment : Package) : M (gmap loc Builder * runtime_Scheme) unit :=
  Must (outer clientgo_AddToScheme) ;;
  Must (pkg_AddToScheme authorization) ;;
  Must (pkg_AddToScheme deployment).

(** The packages in the order of their import paths, each with its variables first, and then
    that of the program, whose scheme is a new one. *)
Definition initialize : M (gmap loc Builder * runtime_Scheme) unit :=
  authorization ← self Authorization.variables;
  self (Authorization.init_policies authorization) ;;
  deployment ← self Deployment.variables;
  self (Deployment.init_models deployment) ;;
  self (Deployment.init_tools deployment) ;;
  main_init authorization deployment.
End Start.

(** [src/internal/controller/modeldeployment_controller.go:316-321 SetupWithManager] *)
Definition ModelDeploymentReconciler_SetupWithManager `{ControllerBuilder W} : M W unit :=
  ctrl_Complete Deployment.ModelDeployment.

(** [src/internal/controller/policy_controller.go:147-152 SetupWithManager] *)
Definition PolicyReconciler_SetupWithManager `{ControllerBuilder W} : M W unit :=
  ctrl_Complete Authorization.Policy.

(** [src/internal/controller/tooldeployment_controller.go:57-62 SetupWithManager] *)
Definition ToolDeploymentReconciler_SetupWithManager `{ControllerBuilder W} : M W unit :=
  ctrl_Complete Deployment.ToolDeployment.

(** ** Properties *)

Section Facts.
Context `{SchemeLaws}.
Implicit Types (h : gmap loc Builder) (s : runtime_Scheme) (b : Builder).

Lemma Must_Ok (c : M (gmap loc Builder * runtime_Scheme) unit) x x' : c x = (x', Ok tt) -> Must c x = (x', Ok tt).
Proof. intros E. unfold Must, try, mbind, M_bind. rewrite E. cbn. unfold of_res. by rewrite Must_spec. Qed.

Lemma alloc_fresh b h : exists l, l ∉ dom h /\ alloc b h = (<[l := b]> h, Ok l).
Proof. exists (fresh (dom h)). split; [apply is_fresh|done]. Qed.

Lemma Register_stores l ts b h : h !! l = Some b -> Register (Ptr (Some l)) ts h = (<[l := Builder_Register ts b]> h, Ok tt).
Proof. intros Hl. unfold Register, mbind, M_bind. cbn. unfold load. rewrite Hl. reflexivity. Qed.

Lemma AddToScheme_reads l b h s s' : h !! l = Some b -> Builder_AddToScheme b s = (s', Ok tt) ->
  AddToScheme (Ptr (Some l)) (h, s) = ((h, s'), Ok tt).
Proof.
  intros Hl Hs. unfold AddToScheme, mbind, M_bind. cbn. unfold self, zoom, load. cbn. rewrite Hl. cbn.
  unfold outer, zoom. cbn. by rewrite Hs.
Qed.

(** What the builders hold when the program's own [init] begins. *)
Lemma types_are_registered s : exists h la ld a d,
  h !! la = Some a /\ group_of a = Authorization.group /\
  types_of a = [Authorization.Policy; Authorization.PolicyList] /\
  h !! ld = Some d /\ group_of d = Deployment.group /\
  types_of d = [Deployment.ModelDeployment; Deployment.ModelDeploymentList;
                Deployment.ToolDeployment; Deployment.ToolDeploymentList] /\
  initialize (∅, s) = main_init (mkPackage (Ptr (Some la)) (AddToScheme (Ptr (Some la))))
                                (mkPackage (Ptr (Some ld)) (AddToScheme (Ptr (Some ld)))) (h, s).
Proof.
  destruct (alloc_fresh (scheme_Builder Authorization.group) ∅) as (la & _ & Ea).
  set (a := Builder_Register [Authorization.Policy; Authorization.PolicyList] (scheme_Builder Authorization.group)).
  set (h1 := <[la := a]> (<[la := scheme_Builder Authorization.group]> (∅ : gmap loc Builder))).
  destruct (alloc_fresh (scheme_Builder Deployment.group) h1) as (ld & Hld & Ed).
  set (d0 := scheme_Builder Deployment.group) in *.
  set (d1 := Builder_Register [Deployment.ModelDeployment; Deployment.ModelDeploymentList] d0).
  set (d2 := Builder_Register [Deployment.ToolDeployment; Deployment.ToolDeploymentList] d1).
  assert (ld <> la) by (intros ->; apply Hld; unfold h1; rewrite dom_insert; set_solver).
  exists (<[ld := d2]> (<[ld := d1]> (<[ld := d0]> h1))), la, ld, a, d2.
  destruct (scheme_Builder_new Authorization.group) as [Hag Hat], (scheme_Builder_new Deployment.group) as [Hdg Hdt].
  destruct (Builder_Register_adds [Authorization.Policy; Authorization.PolicyList] (scheme_Builder Authorization.group)) as [Ag At].
  destruct (Builder_Register_adds [Deployment.ModelDeployment; Deployment.ModelDeploymentList] d0) as [Dg Dt].
  destruct (Builder_Register_adds [Deployment.ToolDeployment; Deployment.ToolDeploymentList] d1) as [Dg' Dt'].
  fold d0 in Hdg, Hdt. fold d1 in Dg, Dt. fold d2 in Dg', Dt'. fold a in Ag, At.
  split_and!; [rewrite !lookup_insert_ne by done; apply lookup_insert_eq|congruence|by rewrite At, Hat|
               apply lookup_insert_eq|congruence|by rewrite Dt', Dt, Hdt|].
  assert (Register (Ptr (Some la)) [Authorization.Policy; Authorization.PolicyList]
    (<[la := scheme_Builder Authorization.group]> ∅) = (h1, Ok tt)) as R1 by (apply Register_stores, lookup_insert_eq).
  assert (Register (Ptr (Some ld)) [Deployment.ModelDeployment; Deployment.ModelDeploymentList] (<[ld := d0]> h1) =
    (<[ld := d1]> (<[ld := d0]> h1), Ok tt)) as R2 by (apply Register_stores, lookup_insert_eq).
  assert (Register (Ptr (Some ld)) [Deployment.ToolDeployment; Deployment.ToolDeploymentList] (<[ld := d1]> (<[ld := d0]> h1)) =
    (<[ld := d2]> (<[ld := d1]> (<[ld := d0]> h1)), Ok tt)) as R3 by (apply Register_stores, lookup_insert_eq).
  clearbody h1 d2. unfold initialize, mbind, M_bind, self, zoom. cbn [fst snd].
  unfold Authorization.variables, Deployment.variables, Authorization.init_policies, Deployment.init_models, Deployment.init_tools, mbind, M_bind.
  fold d0.   rewrite Ea. cbn [mret M_ret fst snd pkg_SchemeBuilder]. rewrite R1. cbn [fst snd]. rewrite Ed. cbn [mret M_ret fst snd pkg_SchemeBuilder].
  rewrite R2. cbn [fst snd]. rewrite R3. reflexivity.
Qed.
End Facts.

(** The types of the program and their groups. *)
Definition resources : list (GroupVersion * GoType) :=
  [(Authorization.group, Authorization.Policy); (Authorization.group, Authorization.PolicyList);
   (Deployment.group, Deployment.ModelDeployment); (Deployment.group, Deployment.ModelDeploymentList);
   (Deployment.group, Deployment.ToolDeployment); (Deployment.group, Deployment.ToolDeploymentList)].

Section Registration.
Context `{SchemeLaws}.
Implicit Types (s : runtime_Scheme).

(** Membership in a closed list, and what it decides. *)
Ltac decides :=
  repeat match goal with
  | |- context [decide ?P] =>
      first [ rewrite (decide_True (P:=P)) by (apply (bool_decide_unpack _); vm_compute; exact I)
            | rewrite (decide_False (P:=P)) by (intros HP%(bool_decide_pack _); vm_compute in HP; exact HP) ]
  end; set_solver.

(** A package's own types get into a scheme in which nothing has its group. *)
Lemma group_arrives l b (h : gmap loc Builder) s gv :
  h !! l = Some b -> group_of b = gv ->
  Forall (fun t => of_kubernetes t = false /\ t_Name t ∉ meta_kinds) (types_of b) ->
  NoDup (t_Name <$> types_of b) ->
  (forall t k, k ∈ kinds_of s t -> gvk_Group k <> gv_Group gv) ->
  exists s', Must (AddToScheme (Ptr (Some l))) (h, s) = ((h, s'), Ok tt) /\
    (forall t, of_kubernetes t = false ->
      kinds_of s' t = kinds_of s t ∪ (if decide (t ∈ types_of b) then {[kind_of gv t]} else ∅)) /\
    (forall t k, k ∈ kinds_of s' t -> k ∈ kinds_of s t \/ gvk_Group k = gv_Group gv \/ gvk_Group k = "").
Proof.
  intros Hl <- Hown Hnd Hnew.
  destruct (AddToScheme_adds b s Hown Hnd) as (s' & E & Hk & Hg).
  { intros t t' _ Hin. by apply Hnew in Hin. }
  exists s'. split; [|done]. by eapply Must_Ok, AddToScheme_reads.
Qed.

Lemma initialize_registers : exists h s,
  initialize (∅, runtime_NewScheme) = ((h, s), Ok tt) /\
  Forall (fun r : GroupVersion * GoType => kinds_of s r.2 = {[kind_of r.1 r.2]}) resources.
Proof.
  destruct (types_are_registered runtime_NewScheme) as (h & la & ld & a & d & Ha & Hag & Hat & Hd & Hdg & Hdt & ->).
  destruct (clientgo_adds runtime_NewScheme NewScheme_empty) as (s1 & E1 & H1).
  assert (forall t, of_kubernetes t = false -> kinds_of s1 t = ∅) as Hnone.
  { intros t Ht. apply leibniz_equiv, elem_of_equiv_empty. intros k Hk. apply H1 in Hk as [Hk _]. congruence. }
  destruct (group_arrives la a h s1 _ Ha Hag) as (s2 & E2 & H2 & G2).
  { rewrite Hat. repeat constructor; cbn; set_solver. }
  { rewrite Hat. apply (bool_decide_unpack _). by vm_compute. }
  { intros t k Hk Hg. apply H1 in Hk as [_ Hk]. unfold of_beamlit in Hk. rewrite Hg in Hk. by vm_compute in Hk. }
  destruct (group_arrives ld d h s2 _ Hd Hdg) as (s3 & E3 & H3 & _).
  { rewrite Hdt. repeat constructor; cbn; set_solver. }
  { rewrite Hdt. apply (bool_decide_unpack _). by vm_compute. }
  { intros t k Hk Hg. apply G2 in Hk as [Hk|[Hk|Hk]]; [|by rewrite Hg in Hk..].
    apply H1 in Hk as [_ Hk]. unfold of_beamlit in Hk. rewrite Hg in Hk. by vm_compute in Hk. }
  exists h, s3. split.
  - unfold main_init, mbind, M_bind. cbn [pkg_AddToScheme].
    rewrite (Must_Ok _ (h, runtime_NewScheme) (h, s1)) by (unfold outer, zoom; cbn; by rewrite E1).
    by rewrite E2, E3.
  - unfold resources. rewrite !Forall_cons. cbn [fst snd]. rewrite !H3, !H2, !Hnone, Hat, Hdt by reflexivity.
    split_and!; [decides..|done].
Qed.
End Registration.

Section Controllers.
Context `{ControllerBuilderLaws W}.

(** A type that is known makes a controller, and what was known stays so. *)
Lemma controller_is_made gv t s (w : W) used :
  mgr_scheme w = s -> controllers w = used -> kinds_of s t = {[kind_of gv t]} -> ToLower (t_Name t) ∉ used ->
  exists w', ctrl_Complete t w = (w', Ok tt) /\ mgr_scheme w' = s /\ controllers w' = used ++ [ToLower (t_Name t)].
Proof. intros <- <- Hk Hu. by apply (Complete_adds t (kind_of gv t) w). Qed.

(** C39. When the program has been initialised its scheme knows each of its types as one kind, the
    one its group and its name say, although [AddToScheme] is taken from the builders before
    any type is registered with them; so a manager with this scheme is given the three
    controllers, each under the name of its own. *)
Theorem controllers_know_their_types : exists h s,
  initialize (∅, runtime_NewScheme) = ((h, s), Ok tt) /\
  Forall (fun r : GroupVersion * GoType => kinds_of s r.2 = {[kind_of r.1 r.2]}) resources /\
  forall w : W, mgr_scheme w = s -> controllers w = [] ->
    exists w', (ModelDeploymentReconciler_SetupWithManager ;; PolicyReconciler_SetupWithManager ;;
                ToolDeploymentReconciler_SetupWithManager) w = (w', Ok tt) /\
      controllers w' = ["modeldeployment"; "policy"; "tooldeployment"].
Proof.
  destruct initialize_registers as (h & s & E & Hall). exists h, s. do 2 (split; [done|]).
  unfold resources in Hall. rewrite !Forall_cons in Hall. cbn [fst snd] in Hall. destruct Hall as (Hp & _ & Hm & _ & Ht & _).
  intros w Hs Hc. unfold mbind, M_bind.
  destruct (controller_is_made _ _ s w [] Hs Hc Hm) as (w1 & E1 & Hs1 & Hc1); [set_solver|].
  destruct (controller_is_made _ _ s w1 _ Hs1 Hc1 Hp) as (w2 & E2 & Hs2 & Hc2); [by vm_compute; set_solver|].
  destruct (controller_is_made _ _ s w2 _ Hs2 Hc2 Ht) as (w3 & E3 & Hs3 & Hc3); [by vm_compute; set_solver|].
  unfold ModelDeploymentReconciler_SetupWithManager, PolicyReconciler_SetupWithManager, ToolDeploymentReconciler_SetupWithManager.
  rewrite E1, E2, E3. exists w3. by rewrite Hc3.
Qed.
End Controllers.

Module SchemeExamples.
Definition table : Type := list (GoType * GroupVersionKind).
Definition known (s : table) (t : GoType) : gset GroupVersionKind := list_to_set (filter (fun e => e.1 = t) s).*2.

#[local] Instance machinery : SchemeMachinery := {|
  Builder := GroupVersion * list GoType;
  runtime_Scheme := table;
  scheme_Builder gv := (gv, []);
  Builder_Register ts b := (b.1, b.2 ++ ts);
  Builder_AddToScheme b := modify (fun s => ((fun t => (t, kind_of b.1 t)) <$> b.2) ++ s);
  runtime_NewScheme := [];
  clientgo_AddToScheme := modify (fun s => [(mkGoType "k8s.io/api/core/v1" "Pod", mkGVK "" "v1" "Pod")] ++ s);
  utilruntime_Must e := match e with None => Ok tt | Some _ => Panic end
|}.

Lemma elem_of_known s t k : k ∈ known s t <-> (t, k) ∈ s.
Proof.
  unfold known. rewrite elem_of_list_to_set, list_elem_of_fmap. split.
  - intros ([t' k'] & -> & [Ht Hin]%list_elem_of_filter). cbn in Ht. by subst t'.
  - intros Hin. exists (t, k). split; [done|]. by apply list_elem_of_filter.
Qed.
Lemma known_app (s s' : table) t : known (s ++ s') t = known s t ∪ known s' t.
Proof. apply leibniz_equiv. intros k. by rewrite elem_of_union, !elem_of_known, elem_of_app. Qed.
Lemma known_new gv (ts : list GoType) t :
  known ((fun t => (t, kind_of gv t)) <$> ts) t = if decide (t ∈ ts) then {[kind_of gv t]} else ∅.
Proof.
  apply leibniz_equiv. intros k. rewrite elem_of_known, list_elem_of_fmap. case_decide as Ht; [rewrite elem_of_singleton|]; split.
  - by intros (t' & [= -> ->] & _).
  - intros ->. eauto.
  - by intros (t' & [= -> ->] & ?).
  - by intros ?%elem_of_empty.
Qed.

#[local] Instance machinery_laws : SchemeLaws.
Proof.
  refine {| group_of (b : Builder) := b.1; types_of (b : Builder) := b.2; kinds_of (s : runtime_Scheme) := known s |}; cbn.
  - done.
  - done.
  - done.
  - intros s Hs. eexists. split; [reflexivity|]. intros t k Hk. apply (elem_of_known (_ :: s)) in Hk.
    apply elem_of_cons in Hk as [[= -> ->]|Hk]; [done|]. apply elem_of_known in Hk. rewrite Hs in Hk. set_solver.
  - intros b s _ _ _. eexists. split; [reflexivity|]. split.
    + intros t _. rewrite known_app, known_new. apply union_comm_L.
    + intros t k [Hk|Hk]%elem_of_known%elem_of_app; [|left; by apply elem_of_known].
      apply list_elem_of_fmap in Hk as (t' & [= -> ->] & _). by right; left.
  - done.
Defined.

#[local] Instance builder : ControllerBuilder (table * list string) := {|
  ctrl_Complete t w :=
    match elements (known w.1 t) with
    | [k] => if decide (ToLower (gvk_Kind k) ∈ w.2) then (w, Err (Errorf "controller name is not unique"))
             else ((w.1, w.2 ++ [ToLower (gvk_Kind k)]), Ok tt)
    | _ => (w, Err (Errorf "no kind is registered for the type"))
    end
|}.
#[local] Instance builder_laws : ControllerBuilderLaws (table * list string).
Proof.
  refine {| mgr_scheme (w : table * list string) := (w.1 : runtime_Scheme); controllers (w : table * list string) := w.2 |}.
  - intros t k w Hk Hu. unfold ctrl_Complete, builder. cbn in Hk. rewrite Hk, elements_singleton.
    rewrite decide_False by done. by eexists.
  - intros t w Hk. unfold ctrl_Complete, builder. cbn in Hk. rewrite Hk, elements_empty. by eexists.
Defined.

(** A type that is not registered is refused. *)
Example unregistered_type :
  (ctrl_Complete Authorization.Policy ([], [] : list string)).2 = Err (Errorf "no kind is registered for the type").
Proof. reflexivity. Qed.

Lemma controllers_know_their_types_witness : exists h (s : table),
  initialize (∅, []) = ((h, s), Ok tt) /\
  (ModelDeploymentReconciler_SetupWithManager ;; PolicyReconciler_SetupWithManager ;;
   ToolDeploymentReconciler_SetupWithManager) (s, [] : list string) =
  ((s, ["modeldeployment"; "policy"; "tooldeployment"]), Ok tt).
Proof.
  destruct (controllers_know_their_types (W:=table * list string)) as (h & s & E & _ & Hm). exists h, s. split; [exact E|].
  destruct (Hm (s, []) eq_refl eq_refl) as ([s' l] & E' & Hl).
  assert (s' = s) as ->; [|cbn in Hl; by subst l].
  clear -E'. assert (forall t w, ((ctrl_Complete t w).1 : table * list string).1 = w.1) as Hsame.
  { intros t w. unfold ctrl_Complete, builder. destruct (elements _) as [|k [|]]; [done| |done]. by case_decide. }
  assert (keeps fst (ModelDeploymentReconciler_SetupWithManager ;; PolicyReconciler_SetupWithManager ;;
    ToolDeploymentReconciler_SetupWithManager : M (table * list string) unit)) as Hk.
  { repeat (apply keeps_bind; [intros w; apply Hsame|intros _]). intros w. apply Hsame. }
  specialize (Hk (s, [])). by rewrite E' in Hk.
Defined.
End SchemeExamples.
