(* ===== verification/Config.v ===== *)
(** The configuration of the controller (internal/config/config.go) and what the main
    program makes of it (cmd/main.go). *)

From Stdlib Require Import Ascii.
From stdpp Require Import base numbers gmap strings list.
From S2P Require Import Prelude Programs RouteApi Crd Kube Offloader Configurer Metric Health Convert BeamlitClient ModelReconciler Scheme.
Local Open Scope Z_scope.

(** ** Data *)

(** [src/internal/config/config.go:65-74 ProxyServiceConfig] *)
Record ProxyServiceConfig := mkProxyService {
  pc_Namespace : option string;
  pc_Name : option string;
  pc_Port : option Z;
  pc_AdminPort : option Z
}.

(** [src/internal/config/config.go:76-81 MetricInformerType] *)
Definition MetricInformerTypePrometheus : string := "prometheus".
Definition MetricInformerTypeKubernetes : string := "kubernetes".

(** [src/internal/config/config.go:83-94 MetricInformersConfig] the Prometheus settings are its address *)
Record MetricInformersConfig := mkMetricInformers {
  mic_Type : string;
  mic_Prometheus : option string
}.

(** [src/internal/config/config.go:40-54 Config] the anonymous struct of the default backend *)
Record DefaultBackendConfig := mkDefaultBackend {
  db_Host : option string;
  db_AuthConfig : option AuthConfig;
  db_PathPrefix : option string;
  db_HeadersToAdd : option (gmap string string);
  db_Scheme : option string
}.

(** [src/internal/config/config.go:22-63 Config] less [Deployment], which nothing reads *)
Record Config := mkConfig {
  cfg_MetricsAddr : option string;
  cfg_EnableLeaderElection : option bool;
  cfg_ProbeAddr : option string;
  cfg_SecureMetrics : option bool;
  cfg_EnableHTTP2 : option bool;
  cfg_Namespaces : option string;
  cfg_MetricInformerConfig : option MetricInformersConfig;
  cfg_ProxyService : ProxyServiceConfig;
  cfg_DefaultRemoteBackend : DefaultBackendConfig
}.

(** ** Operations *)

(** [src/internal/config/config.go:96-101 Config.Validate] *)
Definition Validate (c : Config) : res unit :=
  let p := cfg_ProxyService c in
  match pc_Namespace p, pc_Name p, pc_Port p, pc_AdminPort p with
  | Some _, Some _, Some _, Some _ => Ok tt
  | _, _, _, _ => Err (Errorf "proxy service is not configured")
  end.

(** [src/internal/config/config.go:103-113 Config.Default] *)
Definition Default (c : Config) : Config :=
  mkConfig (Some ":8080") (Some false) (Some ":8081") (Some false) (Some false) (Some "default")
    (Some (mkMetricInformers MetricInformerTypeKubernetes None)) (cfg_ProxyService c) (cfg_DefaultRemoteBackend c).

(** The decoders overwrite the fields that a document names. *)
Class ConfigCodec := {
  yaml_Decode_config : string -> Config -> res Config;
  json_Decode_config : string -> Config -> res Config
}.

(** [src/internal/config/config.go:115-120 Config.FromFile] *)
Definition FromFile `{ConfigCodec} (name contents : string) (c : Config) : res Config :=
  if HasSuffix name ".yaml" || HasSuffix name ".yml"
  then yaml_Decode_config contents c
  else json_Decode_config contents c.

(** ** The main program *)

(** [src/cmd/main.go:139-151 main] the namespaces watched; none means all of them *)
Definition watched_namespaces (s : string) : gset string :=
  if String.eqb s "" then ∅ else list_to_set (Split s ","%char).

(** [src/cmd/main.go:165-183 main] the informer of the metrics and the address it asks, [""] for the
    cluster's *)
Definition choose_informer (c : Config) : M unit (MetricInformerType * string) :=
  k8s ← of_res (NewMetricInformer K8SMetricInformerType);
  match cfg_MetricInformerConfig c with
  | None => mret (k8s, "")
  | Some mic =>
      if String.eqb (mic_Type mic) MetricInformerTypePrometheus then
        address ← deref (mic_Prometheus mic);
        t ← of_res (NewMetricInformer PrometheusMetricInformerType);
        mret (t, address)
      else mret (k8s, "")
  end.

(** [src/cmd/main.go:262-278 main] *)
Definition default_remote_backend (d : DefaultBackendConfig) : option RemoteBackend :=
  match db_Host d with
  | None => None
  | Some host => Some (mkRemoteBackend host (db_AuthConfig d) (default "" (db_PathPrefix d))
                         (default ∅ (db_HeadersToAdd d)) (default "" (db_Scheme d)))
  end.

(** The settings of the manager, each dereferenced. *)
Record ManagerOptions := mkManagerOptions {
  mo_HTTP2 : bool;
  mo_Metrics : string * bool;
  mo_Probe : string;
  mo_LeaderElection : bool;
  mo_Namespaces : gset string
}.

(** [src/cmd/main.go:117-151 main] *)
Definition manager_options (c : Config) : M unit ManagerOptions :=
  http2 ← deref (cfg_EnableHTTP2 c);
  metricsAddr ← deref (cfg_MetricsAddr c);
  secure ← deref (cfg_SecureMetrics c);
  probe ← deref (cfg_ProbeAddr c);
  election ← deref (cfg_EnableLeaderElection c);
  namespaces ← deref (cfg_Namespaces c);
  mret (mkManagerOptions http2 (metricsAddr, secure) probe election (watched_namespaces namespaces)).

(** [src/cmd/main.go:212-222 main] the service the configurer is started with *)
Definition proxy_service_ref (p : ProxyServiceConfig) : M unit ServiceReference :=
  namespace ← deref (pc_Namespace p);
  name ← deref (pc_Name p);
  port ← deref (pc_Port p);
  mret (mkServiceRef (mkRef "" "" namespace name) (int32 port)).

(** [src/cmd/main.go:224-241 main] the client set the offloader is given *)
Definition admin_client (p : ProxyServiceConfig) : M unit ClientSet :=
  name ← deref (pc_Name p);
  namespace ← deref (pc_Namespace p);
  adminPort ← deref (pc_AdminPort p);
  mret (mkClientSet (name +:+ "." +:+ namespace +:+ ".svc.cluster.local:" +:+ Itoa adminPort)).

(** What the components are started with. *)
Record Wiring := mkWiring {
  wi_Manager : ManagerOptions;
  wi_Informer : MetricInformerType * string;
  wi_Proxy : ServiceReference;
  wi_Admin : ClientSet;
  wi_DefaultRemoteBackend : option RemoteBackend
}.

(** The steps of main that depend on the settings, in their order. *)
Definition wire (c : Config) : M unit Wiring :=
  options ← manager_options c;
  informer ← choose_informer c;
  proxy ← proxy_service_ref (cfg_ProxyService c);
  admin ← admin_client (cfg_ProxyService c);
  mret (mkWiring options informer proxy admin (default_remote_backend (cfg_DefaultRemoteBackend c))).

(** *** The start *)

(** What the main program asks of the operating system and of its libraries; a failing
    call returns an error.  [new_client] makes a client of the library that is named. *)
Class Platform (W : Type) := {
  os_ReadConfig : string -> M W string;
  ctrl_GetConfig : M W unit;
  ctrl_NewManager : ManagerOptions -> M W unit;
  new_client : string -> M W unit;
  sdk_NewClient : string -> res unit;
  AddHealthzCheck : M W unit;
  AddReadyzCheck : M W unit;
  mgr_Start : M W unit
}.

(** The goroutines that are started besides the manager. *)
Inductive thread := MetricErrors | HealthErrors | ConfigurerStart | EventLoop | PolicyUpdates.
#[global] Instance thread_eq_dec : EqDecision thread.
Proof. solve_decision. Defined.

(** What the manager and the goroutines share. *)
Record Program := mkProgram {
  pr_Manager : ManagerOptions;
  pr_Informer : MetricInformerType * string;
  pr_Configurer : kubernetesConfigurer;
  pr_Proxy : ServiceReference;
  pr_Offloader : beamlitGatewayOffloader;
  pr_Admin : ClientSet;
  pr_Client : Client;
  pr_Reconciler : ModelDeploymentReconciler
}.

Section Main.
Context {W : Type} `{Platform W} `{ControllerBuilder W} `{ConfigCodec} `{Base64}.

(** [if err != nil { setupLog.Error(err, msg); os.Exit(1) }]. *)
Definition or_exit {A} (msg : string) (c : M (list thread * W) A) : M (list thread * W) A :=
  wrap_err ("exit status 1: " +:+ msg +:+ ": ") c.
Definition go (t : thread) : M (list thread * W) unit := self (modify (fun l => l ++ [t])).
(** A step that only reads the settings. *)
Definition settings {A} (c : M unit A) : M (list thread * W) A := of_res (c tt).2.

(** [src/cmd/main.go:84-100 main] the configuration: the defaults, then what the file says *)
Definition read_config (cfgPath : string) : M (list thread * W) Config :=
  contents ← or_exit "unable to open config file" (outer (os_ReadConfig cfgPath));
  or_exit "unable to load config file" (of_res (FromFile cfgPath contents
    (Default (mkConfig None None None None None None None (mkProxyService None None None None)
      (mkDefaultBackend None None None None None))))).

(** [src/cmd/main.go:84-104 main] the configuration, checked *)
Definition load_config (cfgPath : string) : M (list thread * W) Config :=
  cfg ← read_config cfgPath;
  or_exit "invalid config" (of_res (Validate cfg)) ;;
  mret cfg.

(** [src/cmd/main.go:242-261 main] the reconciler starts with empty maps *)
Definition new_reconciler (d : DefaultBackendConfig) : ModelDeploymentReconciler :=
  mkReconciler ∅ ∅ ∅ ∅ (default_remote_backend d).

(** [src/internal/informers/metric/kubernetes_informer.go:59-110 newK8sMetricInformer] the clients it is made of *)
Definition newK8sMetricInformer : M W unit :=
  new_client "discovery" ;;
  new_client "resource metrics" ;;
  new_client "external metrics" ;;
  new_client "kubernetes" ;;
  new_client "scale".
(** [src/internal/informers/metric/prometheus_informer.go:25-36 newPrometheusMetricInformer] *)
Definition newPrometheusMetricInformer (address : string) : M W unit := new_client ("prometheus " +:+ address).
(** [src/internal/informers/health/kubernetes_informer.go:40-51 newK8SHealthInformer] *)
Definition newK8SHealthInformer : M W unit := new_client "kubernetes".

(** [src/internal/informers/health/informer.go:45-63 NewHealthInformer] the factory *)
Definition NewHealthInformer (t : HealthInformerType) : M W unit :=
  if t =? K8SHealthInformerType then newK8SHealthInformer
  else throw (Errorf ("unknown health informer type: " +:+ Itoa t)).

(** [src/internal/informers/metric/kubernetes_informer.go:111-123 Start] a goroutine logs the errors; the
    Prometheus informer starts none (prometheus_informer.go:70-72) *)
Definition start_metrics (t : MetricInformerType) : M (list thread * W) unit :=
  match t with PrometheusMetricInformerType => mret tt | _ => go MetricErrors end.

(** [src/cmd/main.go:165-204 main] the informers, which start their loops at once, and the clients *)
Definition start_informers (cfg : Config) (env : gmap string string) : M (list thread * W) ((MetricInformerType * string) * Client) :=
  or_exit "unable to create metrics watcher" (outer newK8sMetricInformer) ;;
  informer ← settings (choose_informer cfg);
  match informer.1 with
  | PrometheusMetricInformerType =>
      or_exit "unable to create prometheus metrics watcher" (outer (newPrometheusMetricInformer informer.2))
  | _ => mret tt
  end ;;
  start_metrics informer.1 ;;
  or_exit "unable to create health watcher" (outer (NewHealthInformer K8SHealthInformerType)) ;;
  go HealthErrors ;;
  or_exit "unable to create clientset" (outer (new_client "kubernetes")) ;;
  client ← or_exit "unable to create beamlit client" (of_res (NewClient (sdk_NewClient (W:=W)) env));
  mret (informer, client).

(** [src/cmd/main.go:279-321 main] the controllers and the probes, then the loop of the events *)
Definition set_up_controllers : M (list thread * W) unit :=
  or_exit "unable to create controller" (outer ModelDeploymentReconciler_SetupWithManager) ;;
  or_exit "unable to create controller" (outer PolicyReconciler_SetupWithManager) ;;
  or_exit "unable to create controller" (outer ToolDeploymentReconciler_SetupWithManager) ;;
  or_exit "unable to set up health check" (outer AddHealthzCheck) ;;
  or_exit "unable to set up ready check" (outer AddReadyzCheck) ;;
  go EventLoop ;;
  go PolicyUpdates.

(** [src/cmd/main.go:153-162 main] everything before the manager is started *)
Definition prepare (cfgPath : string) (env : gmap string string) : M (list thread * W) Program :=
  cfg ← load_config cfgPath;
  options ← settings (manager_options cfg);
  or_exit "unable to get config" (outer ctrl_GetConfig) ;;
  or_exit "unable to start manager" (outer (ctrl_NewManager options)) ;;
  '(informer, client) ← start_informers cfg env;
  configurer ← or_exit "unable to create configurer" (of_res (NewConfigurer "kubernetes"));
  proxy ← settings (proxy_service_ref (cfg_ProxyService cfg));
  go ConfigurerStart ;;
  admin ← settings (admin_client (cfg_ProxyService cfg));
  offloader ← or_exit "unable to create offloader" (of_res (NewOffloader "beamlit-gateway"));
  set_up_controllers ;;
  mret (mkProgram options informer configurer proxy offloader admin client (new_reconciler (cfg_DefaultRemoteBackend cfg))).

(** [src/cmd/main.go:323-328 main] the manager runs until a signal *)
Definition main (cfgPath : string) (env : gmap string string) : M (list thread * W) Program :=
  program ← prepare cfgPath env;
  or_exit "problem running manager" (outer mgr_Start) ;;
  mret program.
End Main.

(** ** Properties *)

(** The settings [Default] fills in, that a document may have set to null. *)
Definition settings_present (c : Config) : Prop :=
  is_Some (cfg_EnableHTTP2 c) /\ is_Some (cfg_MetricsAddr c) /\ is_Some (cfg_SecureMetrics c) /\
  is_Some (cfg_ProbeAddr c) /\ is_Some (cfg_EnableLeaderElection c) /\ is_Some (cfg_Namespaces c).

(** A Prometheus informer that is given no address. *)
Definition lacks_prometheus (c : Config) : Prop :=
  match cfg_MetricInformerConfig c with
  | Some mic => String.eqb (mic_Type mic) MetricInformerTypePrometheus = true /\ mic_Prometheus mic = None
  | None => False
  end.
#[global] Instance lacks_prometheus_dec c : Decision (lacks_prometheus c).
Proof. unfold lacks_prometheus. destruct (cfg_MetricInformerConfig c); apply _. Defined.

Lemma address_prefix name ns port :
  HasPrefix (name +:+ "." +:+ ns +:+ ".svc.cluster.local:" +:+ port)
    (name +:+ "." +:+ ns +:+ ".svc.cluster.local:") = true.
Proof. apply HasPrefix_spec. exists port. by rewrite <- !app_assoc_str. Qed.

(** A validated configuration starts the program, with the proxy's data-plane and
    administration addresses it names, except in one case that validation lets through:
    a Prometheus informer without Prometheus settings is a nil dereference. *)
Theorem validated_config_starts c :
  Validate c = Ok tt -> settings_present c ->
  if decide (lacks_prometheus c) then (wire c tt).2 = Panic
  else exists w, wire c tt = (tt, Ok w) /\
    Some (sr_Name (wi_Proxy w)) = pc_Name (cfg_ProxyService c) /\
    Some (sr_Namespace (wi_Proxy w)) = pc_Namespace (cfg_ProxyService c) /\
    HasPrefix (apiAddr (wi_Admin w))
      (sr_Name (wi_Proxy w) +:+ "." +:+ sr_Namespace (wi_Proxy w) +:+ ".svc.cluster.local:") = true.
Proof.
  intros Hv (H1 & H2 & H3 & H4 & H5 & H6).
  destruct c as [ma el pa sm h2 nss mic [pns pn pp pap] db]. cbn in *. unfold Validate in Hv. cbn in Hv.
  destruct pns as [pns|], pn as [pn|], pp as [pp|], pap as [pap|]; try done.
  destruct H1 as [? ->], H2 as [? ->], H3 as [? ->], H4 as [? ->], H5 as [? ->], H6 as [? ->].
  unfold lacks_prometheus, wire, manager_options, proxy_service_ref, admin_client, choose_informer. cbn [cfg_MetricInformerConfig].
  destruct mic as [[ty [addr|]]|]; cbn [mic_Type mic_Prometheus].
  all: destruct (decide _) as [Hd|Hd].
  - by destruct Hd.
  - destruct (String.eqb ty MetricInformerTypePrometheus) eqn:E;
      (eexists; split; [reflexivity|]; split_and!; [done..|]; apply address_prefix).
  - destruct Hd as [Hd _]. mrun. by rewrite Hd.
  - destruct (String.eqb ty MetricInformerTypePrometheus) eqn:E; [by destruct Hd|].
    eexists. split; [reflexivity|]. split_and!; [done..|]. apply address_prefix.
  - done.
  - eexists. split; [reflexivity|]. split_and!; [done..|]. apply address_prefix.
Qed.

(** *** The start *)

Section Start.
Context {W : Type} `{Platform W} `{ControllerBuilder W} `{ConfigCodec} `{Base64}.
Implicit Types (x : list thread * W).

(** The goroutines but the one that logs the errors of the metrics, which only the
    Kubernetes informer has. *)
Definition others (l : list thread) : list thread := filter (fun t => t <> MetricErrors) l.

(** A part of the start that begins none of them. *)
Definition quiet {A} (c : M (list thread * W) A) : Prop := forall x, others (c x).1.1 = others x.1.

Lemma quiet_or_exit_outer {A} msg (c : M W A) : quiet (or_exit msg (outer c)).
Proof. intros [l w]. unfold or_exit, wrap_err, outer, zoom. cbn. by destruct (c w) as [w' [a|e|]]. Qed.
Lemma quiet_or_exit_of_res {A} msg (r : res A) : quiet (or_exit msg (of_res r)).
Proof. intros [l w]. unfold or_exit, wrap_err, of_res. by destruct r. Qed.
Lemma quiet_settings {A} (c : M unit A) : quiet (settings (W:=W) c).
Proof. done. Qed.
Lemma quiet_ret {A} (a : A) : quiet (mret a).
Proof. done. Qed.
Lemma quiet_bind {A B} (c : M (list thread * W) A) k : quiet c -> (forall a, quiet (k a)) -> quiet (c ≫= k : M _ B).
Proof.
  intros Hc Hk x. unfold mbind, M_bind. specialize (Hc x). destruct (c x) as [x' [a|e|]]; [|done..].
  cbn in Hc. by rewrite Hk.
Qed.

(** [begins l lf c]: a success has begun the goroutines [l], a failure some first ones of
    [lf]. *)
Definition begins {A} (l lf : list thread) (c : M (list thread * W) A) : Prop :=
  forall x, match c x with
            | (x', Ok _) => others x'.1 = others x.1 ++ l
            | (x', _) => exists l1, l1 `prefix_of` lf /\ others x'.1 = others x.1 ++ l1
            end.

Lemma begins_quiet {A} (c : M (list thread * W) A) : quiet c -> begins [] [] c.
Proof.
  intros Hc x. specialize (Hc x). destruct (c x) as [x' [a|e|]]; cbn in Hc; rewrite Hc.
  - by rewrite app_nil_r.
  - exists []. by rewrite app_nil_r.
  - exists []. by rewrite app_nil_r.
Qed.
Lemma quiet_start_metrics t : quiet (start_metrics t).
Proof. intros [l w]. unfold others. destruct t; cbn; rewrite ?filter_app; cbn; by rewrite ?app_nil_r. Qed.
Lemma begins_go t : t <> MetricErrors -> begins [t] [] (go t).
Proof. intros Ht [l w]. cbn. unfold others. rewrite filter_app. by rewrite (filter_cons_True _ t []). Qed.
Lemma begins_bind {A B} l1 lf1 l2 lf2 (c : M (list thread * W) A) k :
  begins l1 lf1 c -> lf1 `prefix_of` l1 -> (forall a, begins l2 lf2 (k a)) ->
  begins (l1 ++ l2) (l1 ++ lf2) (c ≫= k : M _ B).
Proof.
  intros Hc Hpre Hk x. unfold mbind, M_bind. specialize (Hc x).
  assert (forall l, l `prefix_of` lf1 -> l `prefix_of` l1 ++ lf2) as Hfail
    by (intros l Hl; etrans; [exact Hl|]; by apply prefix_app_r).
  destruct (c x) as [x' [a|e|]].
  - specialize (Hk a x'). destruct (k a x') as [x2 [b|e|]]; rewrite Hc in Hk.
    + by rewrite app_assoc.
    + destruct Hk as (l & Hl & ->). exists (l1 ++ l). split; [by apply prefix_app|by rewrite app_assoc].
    + destruct Hk as (l & Hl & ->). exists (l1 ++ l). split; [by apply prefix_app|by rewrite app_assoc].
  - destruct Hc as (l & Hl & ->). eauto.
  - destruct Hc as (l & Hl & ->). eauto.
Qed.
Lemma begins_step {A B} l lf (c : M (list thread * W) A) k :
  quiet c -> (forall a, begins l lf (k a)) -> begins l lf (c ≫= k : M _ B).
Proof. intros Hc Hk. apply (begins_bind [] [] l lf); [by apply begins_quiet|done|exact Hk]. Qed.
Lemma begins_go_step {B} t l lf k :
  t <> MetricErrors -> (forall a, begins l lf (k a)) -> begins (t :: l) (t :: lf) (go t ≫= k : M _ B).
Proof. intros Ht Hk. apply (begins_bind [t] [] l lf); [by apply begins_go|apply prefix_nil|exact Hk]. Qed.

Lemma begins_then_ret {A B} l lf (c : M (list thread * W) A) (b : B) : begins l lf c -> begins l lf (c ;; mret b).
Proof. intros Hc x. specialize (Hc x). unfold mbind, M_bind. by destruct (c x) as [x' [a|e|]]. Qed.

Ltac starts :=
  repeat first
    [ apply quiet_or_exit_outer | apply quiet_or_exit_of_res | apply quiet_settings | apply quiet_ret
    | apply quiet_start_metrics | apply begins_go_step; [done|intros ?] | apply begins_step; [|intros ?] | apply quiet_bind; [|intros ?] | case_match ].

Lemma begins_informers cfg env : begins [HealthErrors] [HealthErrors] (start_informers cfg env).
Proof. unfold start_informers. starts; by apply begins_quiet. Qed.

Lemma begins_controllers : begins [EventLoop; PolicyUpdates] [] set_up_controllers.
Proof.
  unfold set_up_controllers. do 5 (apply begins_step; [apply quiet_or_exit_outer|intros _]).
  intros [l w]. unfold mbind, M_bind. cbn. unfold others. rewrite !filter_app. by rewrite <-app_assoc.
Qed.

Lemma begins_prepare path env :
  begins [HealthErrors; ConfigurerStart; EventLoop; PolicyUpdates] [HealthErrors; ConfigurerStart] (prepare path env).
Proof.
  unfold prepare. apply begins_step; [unfold load_config; starts|intros cfg].
  do 3 (apply begins_step; [starts|intros ?]).
  apply (begins_bind [HealthErrors] [HealthErrors] [ConfigurerStart; EventLoop; PolicyUpdates] [ConfigurerStart]); [apply begins_informers|done|]. intros [informer client].
  do 2 (apply begins_step; [starts|intros ?]). apply begins_go_step; [done|]. intros _.
  do 2 (apply begins_step; [starts|intros ?]).
  apply begins_then_ret, begins_controllers.
Qed.

Lemma no_event_loop (l0 : list thread) :
  (exists l, l `prefix_of` [HealthErrors; ConfigurerStart] /\ others l0 = others [] ++ l) -> EventLoop ∉ l0.
Proof.
  intros (l & Hl & El) Hin. assert (EventLoop ∈ others l0) as Hin' by (by apply list_elem_of_filter).
  rewrite El in Hin'. apply (elem_of_prefix _ _ _ Hin') in Hl. cbn in Hl. set_solver.
Qed.

(** What the program hands to the manager, made of the configuration [cfg] and the environment. *)
Definition made_of (cfg : Config) (env : gmap string string) (p : Program) : Prop :=
  manager_options cfg tt = (tt, Ok (pr_Manager p)) /\
  choose_informer cfg tt = (tt, Ok (pr_Informer p)) /\
  proxy_service_ref (cfg_ProxyService cfg) tt = (tt, Ok (pr_Proxy p)) /\
  admin_client (cfg_ProxyService cfg) tt = (tt, Ok (pr_Admin p)) /\
  NewClient (sdk_NewClient (W:=W)) env = Ok (pr_Client p) /\
  pr_Reconciler p = mkReconciler ∅ ∅ ∅ ∅ (default_remote_backend (cfg_DefaultRemoteBackend cfg)) /\
  gatewayServiceRef (pr_Configurer p) = None /\ managedRoutes (pr_Offloader p) = ∅.

Lemma of_settings {A} (c : M unit A) y y' a : settings (W:=W) c y = (y', Ok a) -> c tt = (tt, Ok a).
Proof. unfold settings, of_res. destruct (c tt) as [[] [b|e|]]; cbn; congruence. Qed.
Lemma of_or_exit {A} msg (r : res A) (y y' : list thread * W) a : or_exit msg (of_res r) y = (y', Ok a) -> r = Ok a.
Proof. unfold or_exit, wrap_err, of_res. by destruct r; intros [= _ ->]. Qed.

Lemma prepare_made_of path env x0 x1 cfg y p :
  read_config path x0 = (x1, Ok cfg) -> prepare path env x0 = (y, Ok p) -> made_of cfg env p.
Proof.
  intros Ec E.
  unfold prepare, load_config in E. apply bind_Ok_inv in E as (? & cfg' & El & E).
  apply bind_Ok_inv in El as (? & ? & Ec' & El). apply bind_Ok_inv in El as (? & [] & _ & El).
  injection El as _ <-. rewrite Ec in Ec'. injection Ec' as _ <-.
  apply bind_Ok_inv in E as (? & o & Ho%of_settings & E).
  do 2 (apply bind_Ok_inv in E as (? & [] & _ & E)). apply bind_Ok_inv in E as (? & [inf cl] & Ei & E).
  unfold start_informers in Ei. apply bind_Ok_inv in Ei as (? & [] & _ & Ei).
  apply bind_Ok_inv in Ei as (? & inf' & Hinf%of_settings & Ei).
  do 5 (apply bind_Ok_inv in Ei as (? & [] & _ & Ei)).
  apply bind_Ok_inv in Ei as (? & cl' & Hcl%of_or_exit & Ei). injection Ei as _ <- <-.
  apply bind_Ok_inv in E as (? & cf & Hcf%of_or_exit & E). apply bind_Ok_inv in E as (? & proxy & Hp%of_settings & E).
  apply bind_Ok_inv in E as (? & [] & _ & E). apply bind_Ok_inv in E as (? & ad & Had%of_settings & E).
  apply bind_Ok_inv in E as (? & off & Hoff%of_or_exit & E). apply bind_Ok_inv in E as (? & [] & _ & E).
  injection E as _ <-. injection Hcf as <-. injection Hoff as <-. by split_and!.
Qed.

End Start.

Module ConfigExamples.
Definition proxy_service := mkProxyService (Some "beamlit") (Some "gateway") (Some 8080) (Some 8081).
Definition no_backend := mkDefaultBackend None None None None None.
Definition loaded (mic : option MetricInformersConfig) : Config :=
  let c := Default (mkConfig None None None None None None None proxy_service no_backend) in
  match mic with
  | None => c
  | Some _ => mkConfig (cfg_MetricsAddr c) (cfg_EnableLeaderElection c) (cfg_ProbeAddr c) (cfg_SecureMetrics c)
                (cfg_EnableHTTP2 c) (cfg_Namespaces c) mic proxy_service no_backend
  end.

Lemma validated_config_starts_witness :
  (wire (loaded (Some (mkMetricInformers "prometheus" None))) tt).2 = Panic /\
  exists w, wire (loaded None) tt = (tt, Ok w) /\ apiAddr (wi_Admin w) = "gateway.beamlit.svc.cluster.local:8081" /\
    mo_Namespaces (wi_Manager w) = {["default"]}.
Proof.
  split.
  - refine (validated_config_starts (loaded (Some (mkMetricInformers "prometheus" None))) eq_refl _).
    repeat split; by eexists.
  - eexists. split; [reflexivity|]. split; [vm_compute; reflexivity|]. apply leibniz_equiv. vm_compute. set_solver.
Defined.
End ConfigExamples.
