(* ===== verification/System.v ===== *)
(** The parts put together: the model controller over the gateway offloader, which sets
    up the routes of the gateway that forwards the requests. *)

From Stdlib Require Import Ascii.
From stdpp Require Import base numbers gmap strings list.
From S2P Require Import Prelude Programs RouteStore Balancer Http Forward RouteApi Crd Kube Offloader Configurer.
From S2P Require Import Metric Health Convert BeamlitClient ModelReconciler ModelSync ModelLoop.
Local Open Scope Z_scope.

(** A gateway whose failed calls have no effect makes a [Cleanup] that has none. *)
Lemma clean_Cleanup_gateway {W} `{KubeAPI W} `{GatewayClient W} `{!GatewaySpec W} :
  (forall c (w : W) e, (gw_call c w).2 = Err e -> gw_routes (gw_call c w).1 = gw_routes w) ->
  forall m (o : beamlitGatewayOffloader) (w : W), (Cleanup m (o, w)).2 <> Ok tt ->
  gw_routes (Cleanup m (o, w)).1.2 = gw_routes w.
Proof.
  intros Hcall m o w. unfold Cleanup. mrun. case_bool_decide; [|done]. cbn.
  pose proof (Hcall (CallDelete (md_Name m)) w) as Hc.
  destruct (gw_delete_law (md_Name m) w) as (w1 & r1 & E1 & Hr1). rewrite E1 in *. cbn in Hc.
  destruct r1 as [r|e|]; cbn; [done|intros _; by eapply Hc|done].
Qed.

(** A [Cleanup] deletes the model's route or leaves the gateway as it is. *)
Lemma Cleanup_routes {W} `{KubeSpec W} `{!GatewayClient W} `{!GatewaySpec W} m (o : beamlitGatewayOffloader) (w : W) :
  gw_routes (Cleanup m (o, w)).1.2 = gw_routes w \/
  gw_routes (Cleanup m (o, w)).1.2 = delete (md_Name m) (gw_routes w).
Proof.
  by destruct (Cleanup_outcome m o w) as (o' & w' & r & -> & _ & _ & Hg & _).
Qed.

Section System.
Context {P K Env : Type} `{Hpers : PersistenceSpec P} `{Hkube : KubeAPI K} `{Hks : !KubeSpec K}
  `{Henv : HttpEnvSpec Env}.

(** The cluster and the gateway.  The client set is faithful (see
    [RouteApi.client_call_refines_direct_call]), so a call is the call of the gateway
    itself. *)
Definition Plant : Type := K * ProxyV1Alpha1 P.
Definition plant_proxy (w : Plant) : ProxyV1Alpha1 P := w.2.

#[local] Existing Instance kube_beside.
#[local] Existing Instance kube_beside_spec.
#[local] Instance direct_gateway : GatewayClient Plant := { gw_call c := outer (run_call c) }.

(** A route that is stored is stored under its name, by either call. *)
Lemma store_call_run c r (g : ProxyV1Alpha1 P) :
  c = CallRegister r \/ c = CallUpdate r ->
  exists s, run_call c g = (file_tables r g s, Ok r) /\ stored s = <[route_Name r := r]> (routes g).
Proof. intros [-> | ->]; [apply RegisterRoute_run|apply UpdateRoute_run]. Qed.

#[local] Instance direct_gateway_spec : GatewaySpec Plant.
Proof.
  refine {| gw_routes w := routes (plant_proxy w) |}.
  - intros c r [k g] Hc. destruct (store_call_run c r g Hc) as (s & E1 & Hs). cbn. unfold outer, zoom. cbn.
    rewrite E1. do 2 eexists. split; [done|]. by split.
  - intros n [k g]. cbn. unfold outer, zoom. cbn. destruct (DeleteRoute_run n g) as (s & E1 & Hs). rewrite E1.
    do 2 eexists. split; [done|]. destruct (routes g !! n); [exact Hs|by right].
  - intros ns n [k g]. cbn. by rewrite self_run.
Defined.

(** The world of the controller. *)
Definition World : Type := beamlitGatewayOffloader * Plant.
Definition world_proxy (w : World) : ProxyV1Alpha1 P := plant_proxy w.2.

(** Where the requests for a service arrive. *)
Definition names_of (ref : ServiceReference) : list string :=
  let name := sr_Name ref in
  let ns := sr_Namespace ref in
  [name; name +:+ "." +:+ ns; name +:+ "." +:+ ns +:+ ".svc"; name +:+ "." +:+ ns +:+ ".svc.cluster.local"].

(** What a successful call of the offloader leaves in the gateway. *)
Lemma Configure_files m lb rb p (o : beamlitGatewayOffloader) (w : Plant) x' :
  Offloader.Configure m lb rb p (o, w) = (x', Ok tt) ->
  exists ref service remote ws s,
    mds_ServiceRef (md_Spec m) = Some ref /\ rb = Some remote /\ svc_key service = sr_key ref /\
    world_proxy x' = file_tables (offloading_route ws m service lb remote p) (plant_proxy w) s /\
    stored s = <[md_Name m := offloading_route ws m service lb remote p]> (routes (plant_proxy w)).
Proof.
  destruct w as [k g]. unfold Offloader.Configure.
  intros (x1 & ref & E1 & (x2 & service & E2 & (x3 & [] & E3 & E)%bind_Ok_inv)%bind_Ok_inv)%bind_Ok_inv.
  destruct (mds_ServiceRef (md_Spec m)) as [ref'|]; [|done]. injection E1 as <- <-.
  destruct (svc_Get_law (sr_Namespace ref') (sr_Name ref') k) as (k1 & r1 & Eg & _ & _ & Hr1).
  assert (r1 = Ok service /\ x2 = (o, (k1, g))) as [-> ->].
  { revert E2. unfold outer, zoom. cbn. unfold self, zoom. cbn. rewrite Eg. by intros [= <- ->]. }
  destruct Hr1 as [_ Hkey]. injection E3 as <-.
  apply bind_Ok_inv in E as (x4 & remote & E4 & E). destruct rb as [remote'|]; [|done]. injection E4 as <- <-.
  apply bind_Ok_inv in E as (x5 & ws & E5 & E). injection E5 as <- <-.
  apply bind_Ok_inv in E as (x6 & known & E6 & E). injection E6 as <- <-.
  set (route := offloading_route _ m service lb remote' p) in E.
  destruct (store_call_run (if bool_decide (md_Name m ∈ managedRoutes (learn_workspace m o)) then CallUpdate route
    else CallRegister route) route g) as (s & Es & Hs); [by case_bool_decide; auto|].
  apply bind_Ok_inv in E as (x7 & rt & E7 & E).
  apply outer_Ok_inv in E7 as (w7 & -> & E7). cbn in E7. unfold outer, zoom in E7. cbn in E7.
  rewrite Es in E7. injection E7 as <- <-. injection E as <-.
  exists ref', service, remote', (workspace (learn_workspace m o)), s. by split_and!.
Qed.

(** The table of host names answers for every name of the service. *)
Lemma filed_host_resolves route (g : ProxyV1Alpha1 P) s h :
  stored s = <[route_Name route := route]> (routes g) -> extractHost h ∈ route_Hostnames route ->
  resolve_host h (file_tables route g s) = (file_tables route g s, Ok route).
Proof.
  intros Hs Hh. unfold resolve_host. mrun. rewrite lookup_store_all, decide_True by done. cbn.
  unfold with_persistence, zoom. cbn. rewrite spec_get, Hs, lookup_insert_eq. done.
Qed.

(** The split of an offloading route. *)
Lemma offloading_weights ws m service lb remote p :
  0 <= p <= 100 ->
  let l := map weighted (route_Backends (offloading_route ws m service lb remote p)) in
  weights_ok l /\ total_weight l = 100.
Proof.
  intros Hp. cbn. assert (add64 100 (- p) = 100 - p) as Hadd
    by (rewrite add64_id; [lia|unfold in_int64; lia]).
  split; [|cbn; rewrite Hadd; lia]. split; [|cbn; rewrite Hadd; lia].
  repeat constructor; cbn; rewrite ?Hadd; lia.
Qed.

Lemma names_of_hostnames ref service h :
  svc_key service = sr_key ref -> h ∈ names_of ref -> h ∈ service_hostnames service.
Proof.
  unfold svc_key, sr_key, names_of, service_hostnames. intros [= -> ->] Hh. by apply elem_of_cons; right.
Qed.

(** OAuth settings come with the type that needs them. *)
Definition auth_complete (remote : RemoteBackend) : Prop :=
  forall c, rb_AuthConfig remote = Some c -> ac_Type c = "oauth" -> is_Some (ac_OAuthConfig c).

(** The chosen backend: the model's own pods below 100, the remote backend above 0. *)
Definition share_choice ws m lb remote p (b : Backend) : Prop :=
  b = local_backend lb p /\ p < 100 \/ b = remote_backend ws m remote p /\ 0 < p.

Lemma remote_configured ws m remote p : auth_complete remote -> oauth_configured (remote_backend ws m remote p).
Proof.
  intros Hauth. unfold oauth_configured. cbn. unfold backend_auth.
  destruct (rb_AuthConfig remote) as [c|] eqn:Ec; [|done]. cbn. specialize (Hauth c Ec).
  destruct (String.eqb_spec (ac_Type c) "oauth") as [Ht|]; [|discriminate].
  intros _. destruct (Hauth Ht) as [oc ->]. by eexists.
Qed.

(** A request for the service of a model that was just set up is handled for one of the two
    backends, and for none without a share. *)
Lemma configured_request_run m lb remote p (o : beamlitGatewayOffloader) (w : Plant) x' ref r_in (ex : Exchange P Env) :
  0 <= p <= 100 -> auth_complete remote -> mds_ServiceRef (md_Spec m) = Some ref ->
  Offloader.Configure m lb (Some remote) p (o, w) = (x', Ok tt) ->
  ex_proxy ex = world_proxy x' -> extractHost (req_Host r_in) ∈ names_of ref ->
  exists ws b drawn w' out, share_choice ws m lb remote p b /\ addressed b drawn (ex_out ex) w' out /\
    RewriteV1Alpha1 r_in ex =
      (mkExchange (ex_proxy ex) w' (SetXForwarded r_in out) (ex_w ex) (ex_resp ex), Ok tt).
Proof.
  intros Hp Hauth Href E Hex Hh.
  apply Configure_files in E as (ref' & service & remote' & ws & s & Href' & Hrem & Hkey & Hfiles & Hs).
  rewrite Href in Href'. injection Href' as <-. injection Hrem as <-.
  set (route := offloading_route ws m service lb remote p) in *.
  destruct (offloading_weights ws m service lb remote p Hp) as [Hok Htot].
  assert (resolve_host (req_Host r_in) (ex_proxy ex) = (ex_proxy ex, Ok route)) as Hres.
  { rewrite Hex, Hfiles. apply filed_host_resolves; [exact Hs|]. by eapply names_of_hostnames. }
  destruct (weighted_choice_run _ (ex_env ex) Hok) as (wb & w1 & Hin & Hwb & Hrun); [rewrite Htot; lia|].
  assert (add64 100 (- p) = 100 - p) as Hadd by (rewrite add64_id; [lia|unfold in_int64; lia]).
  assert (share_choice ws m lb remote p (wb_backend wb)) as Hb.
  { apply elem_of_cons in Hin as [-> |Hin%list_elem_of_singleton]; [left|right].
    - split; [done|]. cbn in Hwb. rewrite Hadd in Hwb. lia.
    - subst wb. by split. }
  assert (oauth_configured (wb_backend wb)) as Hcfg by (destruct Hb as [[-> _]|[-> _]]; [done|by apply remote_configured]).
  destruct (rewrite_with_choice r_in ex route (wb_backend wb) w1 Hres Hok) as (w2 & out & Hout & Hrw);
    [unfold route; rewrite Htot; lia|exact Hrun|exact Hcfg|].
  by exists ws, (wb_backend wb), w1, w2, out.
Qed.

(** C11. The percentage reaches the requests: after a successful call of the offloader the
    gateway handles every request for the model's service for the local backend or the
    remote one, for the local one alone at 0 and for the remote one alone at 100: the request
    is addressed to that backend, with a token where the backend asks for one; a token
    server that gives none leaves it as it came, addressed to neither. *)
Theorem configured_share_reaches_requests m lb remote p (o : beamlitGatewayOffloader) (w : Plant) x' ref r_in
    (ex : Exchange P Env) :
  0 <= p <= 100 -> auth_complete remote -> mds_ServiceRef (md_Spec m) = Some ref ->
  Offloader.Configure m lb (Some remote) p (o, w) = (x', Ok tt) ->
  ex_proxy ex = world_proxy x' -> extractHost (req_Host r_in) ∈ names_of ref ->
  exists ws b drawn w' out,
    RewriteV1Alpha1 r_in ex =
      (mkExchange (ex_proxy ex) w' (SetXForwarded r_in out) (ex_w ex) (ex_resp ex), Ok tt) /\
    addressed b drawn (ex_out ex) w' out /\
    (b = local_backend lb p \/ b = remote_backend ws m remote p) /\
    (p = 0 -> b = local_backend lb p) /\ (p = 100 -> b = remote_backend ws m remote p).
Proof.
  intros Hp Hauth Href E Hex Hh.
  destruct (configured_request_run m lb remote p o w x' ref r_in ex Hp Hauth Href E Hex Hh)
    as (ws & b & drawn & w' & out & Hb & Hout & Hrun).
  exists ws, b, drawn, w', out. split; [exact Hrun|]. split; [exact Hout|].
  destruct Hb as [[-> Hlt]|[-> Hlt]]; split_and!; auto; lia.
Qed.

(** *** Well-formed routes *)

Lemma offloading_route_sound ws m service lb remote p :
  0 <= p <= 100 -> auth_complete remote -> sound_route (offloading_route ws m service lb remote p).
Proof.
  intros Hp Hauth. assert (add64 100 (- p) = 100 - p) as Hadd
    by (rewrite add64_id; [lia|unfold in_int64; lia]).
  split.
  - repeat constructor. by apply (remote_configured ws m remote p).
  - assert (forall b, 0 <= backend_Weight b <= 100 -> 0 <= wb_weight (weighted (bumped b)) <= 100) as Hb.
    { intros b Hw. unfold bumped. destruct (Z.eqb_spec (backend_Weight b) 0); cbn; lia. }
    pose proof (Hb (local_backend lb p) ltac:(cbn; lia)) as H1.
    pose proof (Hb (remote_backend ws m remote p) ltac:(cbn; lia)) as H2.
    unfold weights_ok, offloading_route. cbn [route_Backends map total_weight foldr]. split; [|lia].
    repeat constructor; lia.
Qed.

(** Calls of the offloader with a percentage, whatever they come to. *)
Inductive offloader_step : relation World :=
| configure_step m lb remote p x x' res : 0 <= p <= 100 -> auth_complete remote ->
    Offloader.Configure m lb (Some remote) p x = (x', res) -> offloader_step x x'
| cleanup_step m x : offloader_step x (Offloader.Cleanup m x).1.

Definition all_sound (g : ProxyV1Alpha1 P) : Prop := forall n route, routes g !! n = Some route -> sound_route route.

(** A call that fails stores nothing, and its error is the API server's. *)
Lemma failed_Configure_no_store m lb rb p (o : beamlitGatewayOffloader) (k : K) (g : ProxyV1Alpha1 P) x' res :
  Offloader.Configure m lb rb p (o, (k, g)) = (x', res) -> res <> Ok tt ->
  world_proxy x' = g /\ forall e, res = Err e -> exists ns n, (svc_Get ns n k).2 = Err e.
Proof.
  unfold Offloader.Configure. unfold mbind at 1, M_bind at 1.
  destruct (mds_ServiceRef (md_Spec m)) as [ref|]; [|by intros [= <- <-]]. cbn.
  unfold mbind at 1, M_bind at 1. unfold outer at 1, zoom at 1. cbn. unfold self at 1, zoom at 1. cbn.
  destruct (svc_Get (sr_Namespace ref) (sr_Name ref) k) as [k1 [service|e|]] eqn:Eg; cbn;
    [|intros [= <- <-] _; split; [done|intros e' [= <-]; exists (sr_Namespace ref), (sr_Name ref); by rewrite Eg]
     |by intros [= <- <-]].
  mrun. destruct rb as [remote|]; [|by intros [= <- <-]]. cbn.
  match goal with |- context [run_call ?c g] => destruct (store_call_run c (offloading_route
    (workspace (learn_workspace m o)) m service lb remote p) g) as (s & Es & _); [by case_bool_decide; auto|] end.
  rewrite Es. by intros [= <- <-].
Qed.

(** A call that finds the service goes through. *)
Lemma Configure_succeeds m lb remote p (o : beamlitGatewayOffloader) (k k1 : K) (g : ProxyV1Alpha1 P) ref service :
  mds_ServiceRef (md_Spec m) = Some ref -> svc_Get (sr_Namespace ref) (sr_Name ref) k = (k1, Ok service) ->
  exists o' g', Offloader.Configure m lb (Some remote) p (o, (k, g)) = ((o', (k1, g')), Ok tt).
Proof.
  intros Href Hget. unfold Offloader.Configure. unfold mbind at 1, M_bind at 1. rewrite Href. cbn.
  unfold mbind at 1, M_bind at 1. unfold outer at 1, zoom at 1. cbn. unfold self at 1, zoom at 1. cbn. rewrite Hget. cbn.
  mrun. cbn.
  match goal with |- context [run_call ?c g] => destruct (store_call_run c (offloading_route
    (workspace (learn_workspace m o)) m service lb remote p) g) as (s & Es & _); [by case_bool_decide; auto|] end.
  rewrite Es. by do 2 eexists.
Qed.

Lemma Cleanup_proxy m (x : World) :
  routes (world_proxy (Offloader.Cleanup m x).1) = routes (world_proxy x) \/
  routes (world_proxy (Offloader.Cleanup m x).1) = delete (md_Name m) (routes (world_proxy x)).
Proof. destruct x as [o w]. exact (Cleanup_routes m o w). Qed.

Lemma offloader_step_sound x x' : offloader_step x x' -> all_sound (world_proxy x) -> all_sound (world_proxy x').
Proof.
  intros [m lb remote p [o [k g]] x1 res Hp Hauth E|m y] Hall n route.
  - destruct (decide (res = Ok tt)) as [->|Hres].
    + apply Configure_files in E as (ref & service & remote' & ws & s & _ & [= <-] & _ & Hfiles & Hs).
      assert (routes (world_proxy x1) = stored s) as -> by (by rewrite Hfiles). rewrite Hs.
      intros [[_ <-]|[_ Hr]]%lookup_insert_Some; [by apply offloading_route_sound|by eapply Hall].
    + destruct (failed_Configure_no_store m lb (Some remote) p o k g x1 res E Hres) as [-> _]. apply Hall.
  - destruct (Cleanup_proxy m y) as [->| ->]; [apply Hall|].
    intros [_ Hr]%lookup_delete_Some. by eapply Hall.
Qed.

(** C34. The offloader builds well-formed routes only.  For percentages between 0 and 100, and
    remote backends of type "oauth" that have their OAuth settings (which the type of the custom
    resource leaves optional), every route in the gateway keeps non-negative weights that
    do not overflow and complete credentials, whatever calls are made and whichever fail; so
    a request that fails on such a gateway is answered: 404 for a host of no route, a
    backend's answer or 503 for another, but for a backend's status code below 100. *)
Theorem offloader_routes_are_sound x x' (ex : Exchange P Env) :
  rtc offloader_step x x' -> all_sound (world_proxy x) ->
  all_sound (world_proxy x') /\
  (ex_proxy ex = world_proxy x' -> rw_sent (ex_w ex) = None ->
   let '(ex', r) := ErrorHandler ex in
   fallback_outcome (W:=Env) (backendHostToRoute (ex_proxy ex) !! req_Host (ex_out ex)) (ex_w ex) r (ex_w ex')).
Proof.
  intros Hrun Hall.
  assert (all_sound (world_proxy x')) as Hall' by (induction Hrun; eauto using offloader_step_sound).
  split; [exact Hall'|]. intros Hex Hnone.
  destruct (error_handler_ends ex) as [_ Hend]; [intros n r; rewrite Hex; apply Hall'|exact Hnone|].
  by destruct (ErrorHandler ex) as [ex' r].
Qed.

(** *** The controller on top *)

Section Controller.
Context `{Hcl : CtrlClient World} `{Hb : BeamlitAPI World} `{Hcf : Configurer World}.
(** The Beamlit API is not the gateway. *)
Hypothesis sdk_GetModel_proxy : forall a b w, world_proxy (sdk_GetModel a b w).1 = world_proxy w.
Hypothesis sdk_UpdateModel_proxy : forall a b w, world_proxy (sdk_UpdateModel a b w).1 = world_proxy w.

Lemma notify_keeps_proxy a b c g :
  preserves (fun w => world_proxy w = g) (NotifyOnModelOffloading a b c).
Proof.
  unfold NotifyOnModelOffloading. apply preserves_bind.
  - intros w Hw. unfold wp. by rewrite sdk_GetModel_proxy.
  - intros resp. apply preserves_if; [apply preserves_throw|].
    apply preserves_bind; [apply preserves_of_res|]. intros md.
    apply preserves_bind; [apply preserves_deref|]. intros l.
    apply preserves_bind; [|intros ?; apply preserves_ret].
    intros w Hw. unfold wp. by rewrite sdk_UpdateModel_proxy.
Qed.

(** From the event to the wire: once the controller has handled a report that the
    model is down, the gateway handles every request for the model's service for its
    remote backend. *)
Theorem unhealthy_traffic_goes_remote m settings remote ref r (w : World) x' r_in (ex : Exchange P Env) :
  ol_RemoteBackend settings = Some remote -> auth_complete remote ->
  mds_ServiceRef (md_Spec m) = Some ref ->
  healthCheckCallback m settings false (r, w) = (x', Ok tt) ->
  ex_proxy ex = world_proxy x'.2 -> extractHost (req_Host r_in) ∈ names_of ref ->
  exists ws drawn w' out, addressed (remote_backend ws m remote 100) drawn (ex_out ex) w' out /\
    RewriteV1Alpha1 r_in ex =
      (mkExchange (ex_proxy ex) w' (SetXForwarded r_in out) (ex_w ex) (ex_resp ex), Ok tt).
Proof.
  intros Hrem Hauth Href E Hex Hh. enter healthCheckCallback in E. enter offload_to in E. cbn [negb] in E.
  apply bind_Ok_inv in E as (x1 & [] & (x2 & lb & E1 & E2)%bind_Ok_inv & E).
  apply outer_Ok_inv in E1 as ([o2 w2] & -> & _). apply outer_Ok_inv in E2 as (w3 & -> & E2).
  rewrite Hrem in E2. cbn [off_Configure gateway_offloader] in E2.
  apply bind_Ok_inv in E as (x4 & [] & E3 & E). injection E3 as <-.
  apply bind_Ok_inv in E as (x5 & v & E4 & E). injection E as <-.
  apply try_Ok_inv in E4 as [E4 _].
  pose proof (notify_keeps_proxy (mds_Model (md_Spec m)) (mds_Environment (md_Spec m)) true (world_proxy w3) w3 eq_refl)
    as Hn. unfold wp in Hn.
  assert (world_proxy x5.2 = world_proxy w3) as Hx5.
  { rewrite E4. enter notifyOnBeamlit. unfold outer, zoom. cbn. by destruct (NotifyOnModelOffloading _ _ true w3). }
  destruct (configured_request_run m lb remote 100 o2 w2 w3 ref r_in ex ltac:(lia) Hauth Href E2)
    as (ws & b & drawn & w' & out & Hb' & Hout & Hrun); [|exact Hh|].
  { rewrite Hex, <- Hx5. unfold self, zoom, modify. by destruct x5. }
  exists ws, drawn, w', out. split; [|exact Hrun]. destruct Hb' as [[_ Hlt]|[-> _]]; [lia|exact Hout].
Qed.

(** The direct calls of the gateway fail without effect, if they fail. *)
Hypothesis svc_Get_no_conflict : forall ns n (k : K) e, (svc_Get ns n k).2 = Err e -> IsConflict e = false.

Lemma direct_calls_clean c (w : Plant) e : (gw_call c w).2 = Err e -> gw_routes (gw_call c w).1 = gw_routes w.
Proof.
  destruct w as [k g]. cbn. unfold outer, zoom. cbn. destruct c as [r|r|n|n]; cbn.
  - destruct (RegisterRoute_run r g) as (s & E1 & _). by rewrite E1.
  - destruct (UpdateRoute_run r g) as (s & E1 & _). by rewrite E1.
  - by rewrite GetRoute_run.
  - destruct (DeleteRoute_run n g) as (s & E1 & Hs). rewrite E1. cbn. unfold plant_proxy.
    destruct (routes g !! n) eqn:El; [done|]. intros _. transitivity (stored s); [done|]. by rewrite Hs, delete_id.
Qed.

Lemma direct_clean : CleanFailures World.
Proof.
  split.
  - intros m lb rb p [o [k g]] Hne.
    destruct (failed_Configure_no_store m lb rb p o k g _ _ (surjective_pairing _) Hne) as [Hg _].
    exact (f_equal (fun g => omap remote_share (routes g)) Hg).
  - intros m lb rb p [o [k g]] e He.
    destruct (failed_Configure_no_store m lb rb p o k g (Offloader.Configure m lb rb p (o, (k, g))).1 (Err e))
      as [_ Hsvc]; [|done|].
    { rewrite (surjective_pairing (Offloader.Configure m lb rb p (o, (k, g)))). by apply (f_equal2 pair). }
    destruct (Hsvc e eq_refl) as (ns & n & Hget). by eapply svc_Get_no_conflict.
  - intros m [o w] Hne. apply (f_equal (omap remote_share)).
    exact (clean_Cleanup_gateway direct_calls_clean m o w Hne).
Qed.

(** The record is the weight in the gateway: after any run of the controller over the
    gateway offloader, in one watched namespace, the percentage it has recorded for a
    model is the weight of the remote backend of the route the gateway holds for it. *)
Theorem recorded_share_is_the_weight `{Hmi : MetricInformer World} `{Hhi : HealthInformer World} `{Htp : TimeParse}
    `{Hsur : !Surroundings World} ns r0 (w0 : World) x n p :
  contains_byte "/"%char ns = false -> OngoingOffloadings r0 = ∅ -> ManagedModels r0 = ∅ ->
  rtc (controller_step ns) (r0, w0) x -> OngoingOffloadings x.1 !! slash_key ns n = Some p ->
  exists route b, routes (world_proxy x.2) !! n = Some route /\ route_Backends route !! 1%nat = Some b /\
    backend_Weight b = p.
Proof.
  intros Hns Ho Hm Hrun Hp. pose proof direct_clean as Hclean.
  apply (proj2 (synced_run ns r0 w0 x Hns Ho Hm Hrun) n p) in Hp.
  cbn in Hp. apply lookup_omap_Some in Hp as (route & Hshare & Hroute).
  unfold remote_share in Hshare. apply fmap_Some in Hshare as (b & Hb2 & ->). by exists route, b.
Qed.
End Controller.
End System.

(** ** A cluster, a gateway and a controller *)

Module SystemExamples.
#[local] Existing Instance kube_beside.
#[local] Existing Instance kube_beside_spec.
#[local] Existing Instance direct_gateway.
#[local] Existing Instance direct_gateway_spec.
Definition sys_ref : ServiceReference := mkServiceRef (mkRef "Service" "v1" "default" "my-model") 80.
Definition sys_local : ServiceReference := mkServiceRef (mkRef "" "" "default" "my-model-beamlit") 80.
Definition sys_remote : RemoteBackend := mkRemoteBackend "run.beamlit.com" None "/$workspace/models/$model" ∅ "https".
Definition sys_settings : OffloadingConfig := mkOffloading (Some sys_remote) [] (Some (mkBehavior 30)).
Definition sys_model : ModelDeployment :=
  mkModel (mkMeta "default" "my-model" 1 ∅ None [modelDeploymentFinalizer])
    (mkModelSpec "llama" true (mkRef "Deployment" "apps/v1" "default" "my-model") (Some sys_ref) None "production" [] None
       (Some sys_settings))
    (mkModelStatus false 0 0 "acme" 0 0).
Definition sys_service : Service :=
  mkService "default" "my-model" [mkServicePort "http" "TCP" 80 (FromInt 8080)] ∅ "10.0.0.7" ["10.0.0.7"] [] "ClusterIP".
Definition sys_cluster : MemCluster.t :=
  MemCluster.put_service sys_service (MemCluster.mk ∅ ∅ [] 10).
Definition sys_world : World (P:=InMem.t) (K:=MemCluster.t) := (newBeamlitGatewayOffloader, (sys_cluster, New)).
Definition sys_request : Request :=
  mkRequest "GET" (mkURL "" "" "/v1/chat") "my-model.default:80" ∅ "" ("HTTP/1.1", (1, 1)) None (Some "192.0.2.7") false.
Definition sys_exchange (g : ProxyV1Alpha1 InMem.t) : Exchange InMem.t (list Z) :=
  mkExchange g [] sys_request newWriter (mkResponse 0 "" ∅ NoBody).

Lemma sys_request_named : extractHost (req_Host sys_request) ∈ names_of sys_ref.
Proof. vm_compute. apply elem_of_cons. right. apply elem_of_cons. by left. Qed.

Lemma sys_remote_complete : auth_complete sys_remote.
Proof. done. Qed.

Lemma configured_share_reaches_requests_witness :
  exists x' ws w',
    Offloader.Configure sys_model sys_local (Some sys_remote) 0 (newBeamlitGatewayOffloader, (sys_cluster, New)) = (x', Ok tt) /\
    let ex := sys_exchange (world_proxy x') in
    RewriteV1Alpha1 sys_request ex =
      (mkExchange (ex_proxy ex) w' (SetXForwarded sys_request (target_backend (local_backend sys_local 0) sys_request))
         newWriter (mkResponse 0 "" ∅ NoBody), Ok tt) /\
    remote_backend ws sys_model sys_remote 0 <> local_backend sys_local 0.
Proof.
  destruct (Offloader.Configure sys_model sys_local (Some sys_remote) 0 (newBeamlitGatewayOffloader, (sys_cluster, New)))
    as [x' r'] eqn:E.
  assert (r' = Ok tt) as -> by (apply (f_equal snd) in E; exact (eq_sym E)).
  destruct (configured_share_reaches_requests sys_model sys_local sys_remote 0 _ _ x' sys_ref sys_request
    (sys_exchange (world_proxy x')) ltac:(lia) sys_remote_complete eq_refl E eq_refl sys_request_named)
    as (ws & b & drawn & w' & out & Hrun & Hout & _ & Hz & _).
  rewrite (Hz eq_refl) in Hout. apply addressed_plain_inv in Hout as [-> ->]; [|done].
  exists x', ws, drawn. split; [done|]. split; [exact Hrun|discriminate].
Defined.

(** A request that failed on its way to a route of the offloader gets an answer. *)
Definition sys_failed (g : ProxyV1Alpha1 InMem.t) : Exchange InMem.t (list Z) :=
  mkExchange g [] (target_backend (local_backend sys_local 30) sys_request) newWriter (mkResponse 0 "" ∅ NoBody).
Lemma offloader_routes_are_sound_witness :
  exists x', Offloader.Configure sys_model sys_local (Some sys_remote) 30 sys_world = (x', Ok tt) /\
    is_Some (routes (world_proxy x') !! "my-model") /\ all_sound (world_proxy x') /\
    let '(ex', r) := ErrorHandler (sys_failed (world_proxy x')) in
    fallback_outcome (W:=list Z) (backendHostToRoute (world_proxy x') !! req_Host (ex_out (sys_failed (world_proxy x')))) newWriter r (ex_w ex').
Proof.
  destruct (Offloader.Configure sys_model sys_local (Some sys_remote) 30 sys_world) as [x' r'] eqn:E.
  assert (r' = Ok tt) as -> by (apply (f_equal snd) in E; exact (eq_sym E)).
  assert (all_sound (world_proxy sys_world)) as H0.
  { intros n route. change (routes (world_proxy sys_world)) with (∅ : gmap string Route). by rewrite lookup_empty. }
  pose proof sys_remote_complete as Ha.
  assert (0 <= 30 <= 100) as Hp by lia.
  assert (rtc offloader_step sys_world x') as Hrun by exact (rtc_once _ _ (configure_step _ _ _ _ _ _ _ Hp Ha E)).
  assert (is_Some (routes (world_proxy x') !! "my-model")) as Hm.
  { apply (f_equal fst) in E. change x' with (x', Ok tt : res unit).1. rewrite <-E. vm_compute. by eexists. }
  destruct (offloader_routes_are_sound sys_world x' (sys_failed (world_proxy x')) Hrun H0) as [Hs Hwp].
  exists x'. exact (conj eq_refl (conj Hm (conj Hs (Hwp eq_refl eq_refl)))).
Defined.

(** The controller's other services, which leave the gateway alone. *)
#[local] Instance sys_client : CtrlClient (World (P:=InMem.t) (K:=MemCluster.t)) := {
  client_GetService k := mret sys_service;
  client_GetPodTemplate s k := mret "";
  client_GetModel k := if decide (k = mkNN "default" "my-model") then mret sys_model else throw (Errorf "");
  client_UpdateModel m := mret m;
  client_UpdateModelStatus m := mret m;
  client_GetPolicy k := throw (Errorf "");
  client_UpdatePolicy p := mret p;
  client_UpdatePolicyStatus p := mret p;
  mapstructure_Decode s := Ok s
}.
#[local] Instance sys_beamlit : BeamlitAPI (World (P:=InMem.t) (K:=MemCluster.t)) := {
  sdk_GetModel a b := mret (503, "");
  sdk_CreateModel a := mret (503, "");
  sdk_UpdateModel a b := mret (503, "");
  sdk_DeleteModel a b := mret (503, "");
  sdk_GetPolicy a := mret (503, "");
  sdk_CreatePolicy a := mret (503, "");
  sdk_UpdatePolicy a b := mret (503, "");
  sdk_DeletePolicy a := mret (503, "");
  json_Model s := Err (Errorf "");
  json_Policy s := Err (Errorf "")
}.
#[local] Instance sys_configurer : Configurer (World (P:=InMem.t) (K:=MemCluster.t)) := {
  cfg_Start s := mret tt;
  cfg_Configure s := mret tt;
  cfg_Unconfigure s := mret tt;
  cfg_GetLocalBeamlitService s := mret sys_local
}.

Definition sys_start : ModelDeploymentReconciler := mkReconciler ∅ ∅ ∅ ∅ None.

(** The Beamlit API is down: the traffic goes to the remote backend all the same. *)
Lemma unhealthy_traffic_goes_remote_witness :
  exists x' ws w',
    healthCheckCallback sys_model sys_settings false (sys_start, sys_world) = (x', Ok tt) /\
    let ex := sys_exchange (world_proxy x'.2) in
    RewriteV1Alpha1 sys_request ex =
      (mkExchange (ex_proxy ex) w'
         (SetXForwarded sys_request (target_backend (remote_backend ws sys_model sys_remote 100) sys_request))
         newWriter (mkResponse 0 "" ∅ NoBody), Ok tt).
Proof.
  destruct (healthCheckCallback sys_model sys_settings false (sys_start, sys_world)) as [x' r'] eqn:E.
  assert (r' = Ok tt) as -> by (apply (f_equal snd) in E; exact (eq_sym E)).
  assert (forall a b (w : World (P:=InMem.t) (K:=MemCluster.t)), world_proxy (sdk_GetModel a b w).1 = world_proxy w) as Hg
    by done.
  assert (forall a b (w : World (P:=InMem.t) (K:=MemCluster.t)), world_proxy (sdk_UpdateModel a b w).1 = world_proxy w) as Hu
    by done.
  destruct (unhealthy_traffic_goes_remote Hg Hu sys_model sys_settings sys_remote
    sys_ref _ _ x' sys_request (sys_exchange (world_proxy x'.2)) eq_refl sys_remote_complete eq_refl E eq_refl sys_request_named)
    as (ws & drawn & w' & out & Hout & Hrun).
  apply addressed_plain_inv in Hout as [-> ->]; [|done]. exists x', ws, drawn. split; [done|exact Hrun].
Defined.

#[local] Instance sys_metrics : MetricInformer (World (P:=InMem.t) (K:=MemCluster.t)) := {
  mi_Register a b c d e := mret tt;
  mi_Unregister a := mret tt
}.
#[local] Instance sys_health : HealthInformer (World (P:=InMem.t) (K:=MemCluster.t)) := {
  hi_Register a b := mret tt;
  hi_Unregister a := mret tt
}.
#[local] Instance sys_time : TimeParse := { time_Parse s := Ok 0 }.
(** The same API when it is up. *)
Definition sys_up : BeamlitAPI (World (P:=InMem.t) (K:=MemCluster.t)) := {|
  sdk_GetModel a b := mret (200, "");
  sdk_CreateModel a := mret (200, "");
  sdk_UpdateModel a b := mret (200, "");
  sdk_DeleteModel a b := mret (200, "");
  sdk_GetPolicy a := mret (404, "");
  sdk_CreatePolicy a := mret (200, "");
  sdk_UpdatePolicy a b := mret (200, "");
  sdk_DeletePolicy a := mret (200, "");
  json_Model s := Ok ModelLoopExamples.lab_remote_model;
  json_Policy s := Err (Errorf "")
|}.
Definition sys_surroundings : Surroundings (World (P:=InMem.t) (K:=MemCluster.t)) (H2:=sys_up).
Proof.
  split; try done.
  - intros k w. cbn. by case_decide.
  - intros k w m. cbn. case_decide as Hk; [|done]. intros [= <-]. by rewrite Hk.
Qed.

(** The model is reconciled, and then goes down. *)
Definition sys_run : ModelDeploymentReconciler * World (P:=InMem.t) (K:=MemCluster.t) :=
  (Handlers.handle (F:=M _) (Hb:=sys_up) (EvHealth (mkHealthStatus "default/my-model" false))
    (Handlers.handle (F:=M _) (Hb:=sys_up) (EvReconcile (mkNN "default" "my-model")) (sys_start, sys_world)).1).1.

Lemma recorded_share_is_the_weight_witness :
  exists route b, routes (world_proxy sys_run.2) !! "my-model" = Some route /\ route_Backends route !! 1%nat = Some b /\
    backend_Weight b = 100.
Proof.
  assert (OngoingOffloadings sys_run.1 !! slash_key "default" "my-model" = Some 100) as Hp by (vm_compute; reflexivity).
  assert (contains_byte "/"%char "default" = false) as Hns by reflexivity.
  assert (rtc (controller_step (Hb:=sys_up) "default") (sys_start, sys_world) sys_run) as Hrun.
  { eapply rtc_l; [|eapply (rtc_l _ _ sys_run); [|apply rtc_refl]].
    - refine (step_event (Hb:=sys_up) "default" (EvReconcile (mkNN "default" "my-model")) _
        (Handlers.handle (F:=M _) (Hb:=sys_up) (EvReconcile (mkNN "default" "my-model")) (sys_start, sys_world)).1 eq_refl _).
      vm_compute. reflexivity.
    - refine (step_event (Hb:=sys_up) "default" (EvHealth (mkHealthStatus "default/my-model" false)) _ _ I _).
      vm_compute. reflexivity. }
  assert (forall ns n (k : MemCluster.t) e, (svc_Get ns n k).2 = Err e -> IsConflict e = false) as Hnc.
  { intros ns n k e. cbn. unfold MemCluster.get_service. repeat case_match; by intros [= <-]. }
  pose proof (recorded_share_is_the_weight (Hb:=sys_up) (Hsur:=sys_surroundings) Hnc "default" sys_start sys_world sys_run
    "my-model" 100) as Hthm.
  exact (Hthm Hns eq_refl eq_refl Hrun Hp).
Defined.
End SystemExamples.
