(* ===== verification/Wire.v ===== *)
(** The offloader over the wire: the same offloader, with the client set of the gateway
    and its management API between it and the routes. *)

From Stdlib Require Import Ascii.
From stdpp Require Import base numbers gmap strings list.
From S2P Require Import Prelude Programs RouteStore Balancer Http Forward RouteApi Crd Kube Offloader System.
Local Open Scope Z_scope.

(** ** Computations that differ in the text of their errors *)
Section Agree.
Context {S A : Type}.

Definition same_outcome (r1 r2 : res A) : Prop :=
  match r1, r2 with
  | Ok a, Ok b => a = b
  | Err _, Err _ => True
  | Panic, Panic => True
  | _, _ => False
  end.
Definition agree (y1 y2 : S * res A) : Prop := y1.1 = y2.1 /\ same_outcome y1.2 y2.2.

Lemma agree_refl y : agree y y.
Proof. split; [done|]. by destruct y.2. Qed.
Lemma agree_is_Ok y1 y2 : agree y1 y2 -> (y1.1, is_Ok y1.2) = (y2.1, is_Ok y2.2).
Proof. destruct y1 as [s1 [?|?|]], y2 as [s2 [?|?|]]; by intros [[= ->] ?]. Qed.
End Agree.

Section AgreeBind.
Context {S W A B : Type}.

Lemma agree_bind (m1 m2 : M S A) (k1 k2 : A -> M S B) s :
  agree (m1 s) (m2 s) -> (forall a s', agree (k1 a s') (k2 a s')) -> agree ((m1 ≫= k1) s) ((m2 ≫= k2) s).
Proof.
  unfold mbind, M_bind. intros [Hs Hr] Hk. destruct (m1 s) as [s1 [a|e|]], (m2 s) as [s2 [b|e'|]]; cbn in *; subst; try done.
Qed.
Lemma agree_try_bind (m1 m2 : M S A) (k1 k2 : A + error -> M S B) s :
  agree (m1 s) (m2 s) -> (forall a s', agree (k1 (inl a) s') (k2 (inl a) s')) ->
  (forall e1 e2 s', agree (k1 (inr e1) s') (k2 (inr e2) s')) -> agree ((try m1 ≫= k1) s) ((try m2 ≫= k2) s).
Proof.
  unfold mbind, M_bind, try. intros [Hs Hr] Hok Herr.
  destruct (m1 s) as [s1 [a|e|]], (m2 s) as [s2 [b|e'|]]; cbn in *; subst; try done.
Qed.
Lemma agree_outer (m1 m2 : M W A) (x : S * W) : agree (m1 x.2) (m2 x.2) -> agree (outer m1 x) (outer m2 x).
Proof.
  unfold outer, zoom. destruct (m1 x.2) as [w1 r1], (m2 x.2) as [w2 r2]. cbn. by intros [[= ->] Hr].
Qed.
End AgreeBind.

Section Wire.
Context {P K : Type} `{Hpers : PersistenceSpec P} `{Hkube : KubeAPI K}
  `{Hcodec : RouteCodecSpec} `{Htr : ApiTransport (ProxyV1Alpha1 P)} `{!UrlSpec (ProxyV1Alpha1 P)} `{!Delivers P}.
Local Abbreviation World := (World (P:=P) (K:=K)).
Local Abbreviation Plant := (Plant (P:=P) (K:=K)).
#[local] Existing Instance kube_beside.

(** The client set that main makes for the offloader, at the address of the
    configuration ([Config.admin_client]). *)
Variable c : ClientSet.
Hypothesis Haddr : plain_address (apiAddr c).
Definition wired_gateway : GatewayClient Plant := {| gw_call call := outer (client_call c call) |}.
Definition direct_calls : GatewayClient Plant := direct_gateway.

(** The offloader's two operations. *)
Inductive offload_call :=
| Offload (m : ModelDeployment) (localBackend : ServiceReference) (remoteBackend : option RemoteBackend) (p : Z)
| Withdraw (m : ModelDeployment).
Definition call_model (a : offload_call) : string :=
  match a with Offload m _ _ _ | Withdraw m => md_Name m end.
Definition perform `{Hgw : GatewayClient Plant} (a : offload_call) : M World unit :=
  match a with
  | Offload m lb rb p => Offloader.Configure m lb rb p
  | Withdraw m => Offloader.Cleanup m
  end.

(** The states it goes through to, and which of the calls succeeded. *)
Fixpoint perform_all `{Hgw : GatewayClient Plant} (calls : list offload_call) (x : World) : World * list bool :=
  match calls with
  | [] => (x, [])
  | a :: calls' =>
      let '(x', r) := perform a x in
      let '(x'', rs) := perform_all calls' x' in (x'', is_Ok r :: rs)
  end.

Lemma wired_call call (w : Plant) : sendable call -> stored_sendable (plant_proxy w) ->
  agree (gw_call (GatewayClient:=wired_gateway) call w) (gw_call (GatewayClient:=direct_calls) call w).
Proof.
  intros Hcall Hst. apply agree_outer. destruct w as [k g]. cbn.
  destruct (call_faithful c call g Haddr Hcall Hst) as [Hs Hr]. split; [exact Hs|].
  destruct (run_call call g).2; [by rewrite Hr|by destruct Hr as [e' ->]|done].
Qed.

(** The routes in the gateway are ones that JSON holds, before and after every direct call. *)
Definition world_sendable (x : World) : Prop := stored_sendable (world_proxy x).
Fixpoint stays_sendable (calls : list offload_call) (x : World) : Prop :=
  world_sendable x /\
  match calls with [] => True | a :: calls' => stays_sendable calls' (perform (Hgw:=direct_calls) a x).1 end.
Lemma stays_sendable_now calls x : stays_sendable calls x -> world_sendable x.
Proof. by destruct calls as [|a calls]; intros [Hx _]. Qed.

(** A call of the gateway that left sendable routes had sent one. *)
Lemma stored_call_sendable call r (g : ProxyV1Alpha1 P) : plain_name (route_Name r) ->
  call = CallRegister r \/ call = CallUpdate r -> stored_sendable (run_call call g).1 -> sendable call.
Proof.
  intros Hn Hcall Hst. destruct (store_call_run call r g Hcall) as (s & E & Hs). rewrite E in Hst.
  assert (json_route r = true) as Hj.
  { apply (Hst (route_Name r)). unfold routes. cbn. by rewrite Hs, lookup_insert_eq. }
  destruct Hcall as [-> | ->]; (split; [|exact Hj]); [by repeat split|exact Hn].
Qed.

(** What comes before the call of the gateway is the same, and leaves the routes alone. *)
Lemma agree_after {A} (m : M World A) (k1 k2 : A -> M World unit) (g : ProxyV1Alpha1 P) x :
  world_proxy x = g -> (forall a x', m x = (x', Ok a) -> world_proxy x' = g) ->
  (forall a x', world_proxy x' = g -> world_sendable (k2 a x').1 -> agree (k1 a x') (k2 a x')) ->
  world_sendable ((m ≫= k2) x).1 -> agree ((m ≫= k1) x) ((m ≫= k2) x).
Proof.
  intros Hx Hm Hk. unfold mbind, M_bind. destruct (m x) as [x' [a|e|]] eqn:E; [|by split..].
  apply Hk. by apply (Hm a).
Qed.

Lemma self_proxy {A} (m : M beamlitGatewayOffloader A) (x : World) : world_proxy (self m x).1 = world_proxy x.
Proof. unfold self, zoom. by destruct (m x.1). Qed.
Lemma deref_proxy {A} (o : option A) (x : World) : world_proxy (deref o x).1 = world_proxy x.
Proof. by destruct o. Qed.
Lemma service_proxy ns n (x : World) : world_proxy (outer (svc_Get ns n) x).1 = world_proxy x.
Proof.
  unfold outer, zoom, world_proxy, plant_proxy. cbn. unfold self, zoom. by destruct (svc_Get ns n x.2.1).
Qed.
Ltac same_before Hx :=
  apply (agree_after _ _ _ _ _ Hx);
  [intros a x' E; rewrite <-(f_equal fst E : _ = x'); cbn [fst]; by rewrite ?self_proxy, ?deref_proxy, ?service_proxy|].

Lemma wired_store call r x : plain_name (route_Name r) -> call = CallRegister r \/ call = CallUpdate r ->
  world_sendable x -> world_sendable (outer (gw_call (GatewayClient:=direct_calls) call) x).1 ->
  agree (outer (gw_call (GatewayClient:=wired_gateway) call) x) (outer (gw_call (GatewayClient:=direct_calls) call) x).
Proof.
  intros Hn Hcall Hx Hst. apply agree_outer, wired_call; [|exact Hx]. destruct x as [o [k g]].
  apply (stored_call_sendable call r g Hn Hcall). revert Hst. unfold outer, zoom. cbn. unfold outer, zoom. cbn.
  by destruct (run_call call g).
Qed.

Lemma wired_perform a x : plain_name (call_model a) -> world_sendable x ->
  world_sendable (perform (Hgw:=direct_calls) a x).1 ->
  agree (perform (Hgw:=wired_gateway) a x) (perform (Hgw:=direct_calls) a x).
Proof.
  intros Hname Hx. unfold world_sendable in Hx. remember (world_proxy x) as g eqn:Hg. symmetry in Hg.
  destruct a as [m lb rb p|m]; cbn [perform call_model] in *.
  - unfold Offloader.Configure. same_before Hg. clear x Hg. intros ref x Hg.
    same_before Hg. clear x Hg. intros service x Hg. same_before Hg. clear x Hg. intros [] x Hg.
    same_before Hg. clear x Hg. intros remote x Hg. same_before Hg. clear x Hg. intros ws x Hg.
    same_before Hg. clear x Hg. intros known x Hg Hfin.
    apply agree_bind; [|intros ??; apply agree_refl].
    apply (wired_store _ (offloading_route ws m service lb remote p)).
    + exact Hname.
    + by case_match; auto.
    + unfold world_sendable. by rewrite Hg.
    + revert Hfin. unfold world_sendable. rewrite bind_run. by destruct (outer _ x) as [x' [r|e|]]; rewrite ?self_proxy.
  - unfold Offloader.Cleanup. same_before Hg. clear x Hg. intros known x Hg _. case_match; [|apply agree_refl].
    apply agree_try_bind; [|intros ??; apply agree_refl|intros e1 e2 [o w]; by split].
    apply agree_outer, wired_call; [by split|]. unfold world_proxy in Hg. by rewrite Hg.
Qed.

End Wire.

(** ** Witness: offloading a model, changing its share and withdrawing it *)
Module WireExamples.
Import SystemExamples RouteApiExamples.

Definition day : list offload_call :=
  [Offload sys_model sys_local (Some sys_remote) 30; Offload sys_model sys_local None 50;
   Offload sys_model sys_local (Some sys_remote) 100; Withdraw sys_model; Withdraw sys_model].
Definition wired_day := perform_all (P:=InMem.t) (K:=MemCluster.t) (Hgw:=wired_gateway RouteApiExamples.gateway) day sys_world.

(** What the state of the day's gateway holds, as a check that runs. *)
Definition sendable_now (x : World (P:=InMem.t) (K:=MemCluster.t)) : bool :=
  forallb (fun kv => json_route kv.2) (map_to_list (routes (world_proxy x))).
Lemma sendable_now_ok x : sendable_now x = true -> world_sendable x.
Proof.
  unfold sendable_now. rewrite forallb_forall. intros H n r Hr. apply (H (n, r)), list_elem_of_In, elem_of_map_to_list. exact Hr.
Qed.

Lemma day_sendable : stays_sendable day sys_world.
Proof. unfold day. cbn [stays_sendable]. split_and!; try done; apply sendable_now_ok; vm_compute; reflexivity. Qed.

End WireExamples.
