(* ===== verification/Whole.v ===== *)
(** The controller with all of its parts: the reconciler over the Kubernetes configurer,
    the gateway offloader and both Kubernetes informers, on one cluster, one gateway and
    one Beamlit API. *)

From Stdlib Require Import Ascii.
From stdpp Require Import base numbers gmap strings list relations.
From S2P Require Import Prelude Programs RouteStore Balancer Http Forward RouteApi Crd Kube Offloader Configurer.
From S2P Require Import Registry Metric Health Convert BeamlitClient ModelReconciler ModelSync ModelLoop ModelShare Interleave System.
Local Open Scope Z_scope.

Section Whole.
Context {P K B Env : Type} `{Hpers : PersistenceSpec P} `{Hkube : KubeAPI K} `{Hks : !KubeSpec K}
  `{Hcl : CtrlClient K} `{Hb : BeamlitAPI B} `{Henv : HttpEnvSpec Env} `{Htp : TimeParse}.

(** ** The state

    What [main] makes and hands to the reconciler, the cluster they all act on, the
    gateway, and the Beamlit API. *)
Record Whole := mkWhole {
  wh_configurer : kubernetesConfigurer;
  wh_offloader : beamlitGatewayOffloader;
  wh_metrics : k8sMetricInformer;
  wh_health : k8sHealthInformer;
  wh_cluster : K;
  wh_proxy : ProxyV1Alpha1 P;
  wh_api : B
}.
Implicit Types (x : Whole).

(** The part of each component. *)
Definition at_configurer x : kubernetesConfigurer * K := (wh_configurer x, wh_cluster x).
Definition set_at_configurer (c : kubernetesConfigurer * K) x : Whole :=
  mkWhole c.1 (wh_offloader x) (wh_metrics x) (wh_health x) c.2 (wh_proxy x) (wh_api x).
Definition at_offloader x : beamlitGatewayOffloader * Plant (P:=P) (K:=K) := (wh_offloader x, (wh_cluster x, wh_proxy x)).
Definition set_at_offloader (c : beamlitGatewayOffloader * Plant (P:=P) (K:=K)) x : Whole :=
  mkWhole (wh_configurer x) c.1 (wh_metrics x) (wh_health x) c.2.1 c.2.2 (wh_api x).
Definition set_metrics (c : k8sMetricInformer) x : Whole :=
  mkWhole (wh_configurer x) (wh_offloader x) c (wh_health x) (wh_cluster x) (wh_proxy x) (wh_api x).
Definition set_health (c : k8sHealthInformer) x : Whole :=
  mkWhole (wh_configurer x) (wh_offloader x) (wh_metrics x) c (wh_cluster x) (wh_proxy x) (wh_api x).
Definition set_cluster (c : K) x : Whole :=
  mkWhole (wh_configurer x) (wh_offloader x) (wh_metrics x) (wh_health x) c (wh_proxy x) (wh_api x).
Definition set_api (c : B) x : Whole :=
  mkWhole (wh_configurer x) (wh_offloader x) (wh_metrics x) (wh_health x) (wh_cluster x) (wh_proxy x) c.

(** ** The services of the reconciler *)

#[local] Existing Instance kube_beside.
#[local] Existing Instance kube_beside_spec.
#[local] Existing Instance direct_gateway.
#[local] Existing Instance direct_gateway_spec.

Definition on_cluster {A} (c : M K A) : M Whole A := zoom wh_cluster set_cluster c.
Definition on_api {A} (c : M B A) : M Whole A := zoom wh_api set_api c.

#[export] Instance whole_configurer : Configurer Whole := {
  cfg_Start s := zoom at_configurer set_at_configurer (cfg_Start s);
  cfg_Configure s := zoom at_configurer set_at_configurer (cfg_Configure s);
  cfg_Unconfigure s := zoom at_configurer set_at_configurer (cfg_Unconfigure s);
  cfg_GetLocalBeamlitService s := zoom at_configurer set_at_configurer (cfg_GetLocalBeamlitService s)
}.
#[export] Instance whole_offloader : Offloader Whole := {
  off_Configure m lb rb p := zoom at_offloader set_at_offloader (off_Configure m lb rb p);
  off_Cleanup m := zoom at_offloader set_at_offloader (off_Cleanup m)
}.
#[export] Instance whole_metrics : MetricInformer Whole := {
  mi_Register model metrics resource interval window := zoom wh_metrics set_metrics (Metric.Register model metrics resource interval window);
  mi_Unregister model := zoom wh_metrics set_metrics (Metric.Unregister model)
}.
#[export] Instance whole_health : HealthInformer Whole := {
  hi_Register model resource := zoom wh_health set_health (Health.Register model resource);
  hi_Unregister model := zoom wh_health set_health (Health.Unregister model)
}.
#[export] Instance whole_client : CtrlClient Whole := {
  client_GetService k := on_cluster (client_GetService k);
  client_GetPodTemplate s k := on_cluster (client_GetPodTemplate s k);
  client_GetModel k := on_cluster (client_GetModel k);
  client_UpdateModel m := on_cluster (client_UpdateModel m);
  client_UpdateModelStatus m := on_cluster (client_UpdateModelStatus m);
  client_GetPolicy k := on_cluster (client_GetPolicy k);
  client_UpdatePolicy p := on_cluster (client_UpdatePolicy p);
  client_UpdatePolicyStatus p := on_cluster (client_UpdatePolicyStatus p);
  mapstructure_Decode := mapstructure_Decode (W:=K)
}.
#[export] Instance whole_beamlit : BeamlitAPI Whole := {
  sdk_GetModel a b := on_api (sdk_GetModel a b);
  sdk_CreateModel a := on_api (sdk_CreateModel a);
  sdk_UpdateModel a b := on_api (sdk_UpdateModel a b);
  sdk_DeleteModel a b := on_api (sdk_DeleteModel a b);
  sdk_GetPolicy a := on_api (sdk_GetPolicy a);
  sdk_CreatePolicy a := on_api (sdk_CreatePolicy a);
  sdk_UpdatePolicy a b := on_api (sdk_UpdatePolicy a b);
  sdk_DeletePolicy a := on_api (sdk_DeletePolicy a);
  json_Model := json_Model (W:=B);
  json_Policy := json_Policy (W:=B)
}.

Lemma zoom_run {S T A} (get : S -> T) set (m : M T A) (s : S) : zoom get set m s = (set (m (get s)).1 s, (m (get s)).2).
Proof. unfold zoom. by destruct (m (get s)). Qed.

(** ** What they promise each other *)

Lemma at_set_offloader c x : at_offloader (set_at_offloader c x) = c.
Proof. by destruct c as [o [k g]]. Qed.

#[export] Instance whole_offloader_spec : OffloaderSpec Whole.
Proof.
  refine {| offloaded x := offloaded (at_offloader x); managed x := managed (at_offloader x) |};
    intros *; unfold off_Configure, off_Cleanup, whole_offloader; rewrite !zoom_run; cbn [fst snd];
    rewrite ?at_set_offloader.
  - by apply Configure_others.
  - by apply Configure_ok.
  - by apply Configure_err.
  - by apply Configure_no_panic.
  - by apply Cleanup_others.
  - by apply Cleanup_managed.
  - by apply Cleanup_ok.
  - intros Hn. rewrite Cleanup_unmanaged by done. by destruct w.
  - by apply Cleanup_no_panic.
Defined.

(** Nothing but the offloader moves the shares, and registering a watcher returns nothing. *)
Class ClusterLaws : Prop := {
  GetModel_named_law k (c : K) m : (client_GetModel k c).2 = Ok m -> md_Namespace m = nn_Namespace k /\ md_Name m = nn_Name k;
  svc_Get_no_conflict_law ns n (c : K) e : (svc_Get ns n c).2 = Err e -> IsConflict e = false
}.
Context `{Hlaws : !ClusterLaws}.

Lemma register_watcher_no_error {A} model (a : A) r e : (register_watcher model a r).2 <> Err e.
Proof.
  unfold register_watcher, unregister_watcher, cancel_watcher, remove_model, add_watcher. mrun.
  destruct (watchers r !! model) as [id|]; cbn; [|done].
  by destruct (heap r !! id) as [[[? ?] []]|].
Qed.

#[export] Instance whole_surroundings : Surroundings Whole.
Proof.
  split; intros *; unfold offloaded, whole_offloader_spec; cbn [
    client_GetModel client_UpdateModel client_UpdateModelStatus client_GetService client_GetPodTemplate whole_client
    sdk_GetModel sdk_CreateModel sdk_UpdateModel sdk_DeleteModel whole_beamlit
    cfg_Configure cfg_Unconfigure cfg_GetLocalBeamlitService whole_configurer
    mi_Register mi_Unregister whole_metrics hi_Register hi_Unregister whole_health];
    unfold on_cluster, on_api; rewrite ?zoom_run; cbn [fst snd]; try reflexivity.
  - apply register_watcher_no_error.
  - apply register_watcher_no_error.
  - apply GetModel_named_law.
Qed.

#[export] Instance whole_clean : CleanFailures Whole.
Proof.
  pose proof (direct_clean svc_Get_no_conflict_law) as Hclean.
  split; intros *; unfold offloaded, whole_offloader_spec; unfold off_Configure, off_Cleanup, whole_offloader;
    rewrite !zoom_run; cbn [fst snd]; rewrite ?at_set_offloader.
  - apply clean_Configure.
  - apply Configure_no_conflict.
  - apply clean_Cleanup.
Qed.

(** ** The program *)

(** The weight of the second backend, the remote one, of a model's route in the gateway. *)
Definition gateway_share x (n : string) : option Z :=
  route ← routes (wh_proxy x) !! n; backend_Weight <$> route_Backends route !! 1%nat.

(** C2. Put together, the parts keep the record.  The controller runs over its own configurer,
    offloader, informers and API client, in one watched namespace; the handlers of different
    models overlap, call by call, with at most one in flight per model; the gateway is called
    directly, so that no answer of it is lost; and whatever else moves leaves the shares alone.
    Then the percentage recorded for a model without a handler in flight, none of which
    panicked, is the weight of the remote backend of its route in the gateway. *)
Theorem whole_record_is_the_weight panicked ns r0 x0 r x l n p :
  contains_byte "/"%char ns = false -> OngoingOffloadings r0 = ∅ -> ManagedModels r0 = ∅ ->
  rtc (per_model_step panicked ns) ((r0, x0), []) ((r, x), l) -> n ∉ l.*1 -> ~ panicked n ->
  OngoingOffloadings r !! slash_key ns n = Some p -> gateway_share x n = Some p.
Proof.
  intros Hns Ho Hm Hrun Hn Hpan Hp.
  pose proof (interleaved_record panicked ns r0 x0 (r, x) l n p Hns Ho Hm Hrun Hn Hpan Hp) as Hf.
  change (omap remote_share (routes (wh_proxy x)) !! n = Some p) in Hf.
  apply lookup_omap_Some in Hf as (route & Hshare & Hroute). unfold gateway_share. rewrite Hroute. exact Hshare.
Qed.

(** *** From an event of the cluster to the wire *)

(** The services work for one model: the API server has the model (with whatever status) and its service, the
    configurer has set the service up, and the Beamlit API may refuse a notice but its
    answers do not make the client panic, as long as [api_ok] holds of it. *)
Record serving (m : ModelDeployment) (ref : ServiceReference) (own : NamespacedName) (cluster_ok : K -> Prop)
    (api_ok : B -> Prop) : Prop := {
  serving_ref : mds_ServiceRef (md_Spec m) = Some ref;
  serving_model k : cluster_ok k ->
    (exists st, (client_GetModel (mkNN (md_Namespace m) (md_Name m)) k).2 = Ok (set_status st m)) /\
    cluster_ok (client_GetModel (mkNN (md_Namespace m) (md_Name m)) k).1;
  serving_service k : cluster_ok k -> exists service,
    (svc_Get (sr_Namespace ref) (sr_Name ref) k).2 = Ok service /\ cluster_ok (svc_Get (sr_Namespace ref) (sr_Name ref) k).1;
  serving_notice a b c (x : B) : api_ok x ->
    api_ok (NotifyOnModelOffloading a b c x).1 /\ (NotifyOnModelOffloading a b c x).2 <> Panic
}.

Definition set_up (ref : ServiceReference) (own : NamespacedName) (cluster_ok : K -> Prop) (api_ok : B -> Prop) x : Prop :=
  (cluster_ok (wh_cluster x) /\ api_ok (wh_api x)) /\ beamlitServicesByModelService (wh_configurer x) !! sr_key ref = Some (Some own).

(** The client over the whole is the client over the API. *)
Lemma notify_whole a b c x :
  NotifyOnModelOffloading a b c x = (set_api (NotifyOnModelOffloading a b c (wh_api x)).1 x, (NotifyOnModelOffloading a b c (wh_api x)).2).
Proof.
  unfold NotifyOnModelOffloading at 1. unfold mbind at 1, M_bind at 1. unfold sdk_GetModel at 1, whole_beamlit at 1, on_api at 1.
  rewrite zoom_run. unfold NotifyOnModelOffloading, mbind, M_bind.
  destruct (sdk_GetModel a b (wh_api x)) as [y1 [resp|e|]]; cbn [fst snd]; [|done..].
  case_match; [done|]. cbn [json_Model whole_beamlit].
  destruct (json_Model (W:=B) resp.2) as [md|e|]; cbn; [|done..].
  destruct (bm_Labels (bmod_Metadata md)) as [l|]; cbn; [|done].
  unfold on_api. rewrite zoom_run. cbn. by destruct (sdk_UpdateModel _ _ y1) as [y2 [r|e|]].
Qed.

Context (m : ModelDeployment) (ref : ServiceReference) (own : NamespacedName) (cluster_ok : K -> Prop) (api_ok : B -> Prop)
  (Hserving : serving m ref own cluster_ok api_ok).

#[local] Instance whole_working : Working m (set_up ref own cluster_ok api_ok).
Proof.
  destruct Hserving as [Href Hmodel Hsvc Hnotice]. split.
  - intros x [[Hk Ha] Ho]. destruct (Hmodel _ Hk) as [[st E] Hk']. eexists _, st. split.
    + cbn [client_GetModel whole_client]. unfold on_cluster. rewrite zoom_run. by rewrite E.
    + split; [by split|exact Ho].
  - intros x [[Hk Ha] Ho]. rewrite Href. do 2 eexists. split.
    + cbn [cfg_GetLocalBeamlitService whole_configurer]. rewrite zoom_run. cbn. unfold GetLocalBeamlitService. mrun.
      rewrite Ho. reflexivity.
    + split; [by split|exact Ho].
  - intros m' lb rb p x [[Hk Ha] Ho] Hmeta Href'. rewrite Href in Href'. destruct (Hsvc _ Hk) as (service & E & Hk').
    destruct (Configure_succeeds m' lb rb p (wh_offloader x) (wh_cluster x) (svc_Get (sr_Namespace ref) (sr_Name ref) (wh_cluster x)).1
      (wh_proxy x) ref service Href') as (o' & g' & E'); [by rewrite <-E, <-surjective_pairing|].
    eexists. split.
    + cbn [off_Configure whole_offloader]. rewrite zoom_run.
      change (off_Configure m' lb (Some rb) p (at_offloader x)) with
        (Offloader.Configure m' lb (Some rb) p (wh_offloader x, (wh_cluster x, wh_proxy x))). by rewrite E'.
    + split; [by split|exact Ho].
  - intros a b c x [[Hk Ha] Ho]. rewrite notify_whole. destruct (Hnotice a b c _ Ha) as [Ha' Hnp]. split; [split; [by split|exact Ho]|exact Hnp].
Qed.

Context (settings : OffloadingConfig) (remote : RemoteBackend) (percentage : Z).
Hypothesis Hset : mds_OffloadingConfig (md_Spec m) = Some settings.
Hypothesis Hremote : ol_RemoteBackend settings = Some remote.
Hypothesis Hbehavior : ol_Behavior settings = Some (mkBehavior percentage).

(** A change of the share goes through, down to the call of the gateway. *)
Lemma offload_to_whole st p r x :
  set_up ref own cluster_ok api_ok x ->
  exists lb x', offload_to (set_offloading settings (set_status st m)) settings p (r, x) = ((r, x'), Ok tt) /\ set_up ref own cluster_ok api_ok x' /\
    Offloader.Configure (set_offloading settings (set_status st m)) lb (Some remote) p (at_offloader x) = (at_offloader x', Ok tt).
Proof.
  intros Hx. destruct (works_GetLocal (m:=m) x Hx) as (x1 & lb & E1 & Hx1).
  pose proof (works_Configure (m:=m) (set_offloading settings (set_status st m)) lb remote p x1 Hx1 eq_refl eq_refl) as (x2 & E2 & Hx2).
  exists lb, x2. split; [|split; [exact Hx2|]].
  - enter offload_to. rewrite (bind_Ok_run _ _ (r, x) (r, x1) lb);
      [|by unfold outer, zoom; cbn [fst snd]; change (mds_ServiceRef (md_Spec (set_offloading settings (set_status st m)))) with
          (mds_ServiceRef (md_Spec m)); rewrite E1].
    unfold outer, zoom. cbn [fst snd]. by rewrite Hremote, E2.
  - assert (at_offloader x1 = at_offloader x) as Hat.
    { cbn [cfg_GetLocalBeamlitService whole_configurer] in E1. rewrite zoom_run in E1. injection E1 as <- _.
      cbn. unfold GetLocalBeamlitService. mrun. destruct (mds_ServiceRef (md_Spec m)) as [ref'|]; [|done]. cbn.
      by destruct (beamlitServicesByModelService (wh_configurer x) !! sr_key ref') as [[n|]|]. }
    rewrite <-Hat. cbn [off_Configure whole_offloader] in E2. rewrite zoom_run in E2. injection E2 as <- Hr.
    rewrite at_set_offloader. by apply injective_projections.
Qed.

(** C3. From the cluster to the wire: when the watched workload of a model is not healthy, as its
    kind defines it, its watcher reports the model down, the controller's loop handles the
    report, and from then on the gateway handles every request for the model's service for its
    remote backend, whatever the Beamlit API answers to the notice: the request is addressed to
    that backend, with a token where it asks for one, unless the token server gives none. *)
Theorem dead_workload_traffic_goes_remote h ev r x :
  auth_complete remote ->
  hw_model h = model_key m -> is_Ok (start_kind h) = true ->
  workload_ref (event_object ev) = Some (target_ref h) -> workload_healthy (event_object ev) = false ->
  ready m (set_up ref own cluster_ok api_ok) (r, x) ->
  exists s y, handleEvent h (event_object ev) = ReportHealth s /\ handle (EvHealth s) (r, x) = (y, Ok tt) /\
    forall r_in (ex : Exchange P Env), ex_proxy ex = wh_proxy y.2 -> extractHost (req_Host r_in) ∈ names_of ref ->
    exists ws drawn w' out, addressed (remote_backend ws m remote 100) drawn (ex_out ex) w' out /\
      RewriteV1Alpha1 r_in ex =
        (mkExchange (ex_proxy ex) w' (SetXForwarded r_in out) (ex_w ex) (ex_resp ex), Ok tt).
Proof.
  intros Hauth Hmodel Hkind Hobj Hdead [Hx (v & Ev & Hn1 & Hn2 & _)]. cbn in Hx, Ev.
  exists (mkHealthStatus (hw_model h) false).
  destruct (event_model_run m (set_up ref own cluster_ok api_ok) settings remote Hset Hremote v r x Hx Hn1 Hn2) as (x1 & st & E1 & Hx1 & _).
  destruct (offload_to_whole st 100 r x1 Hx1) as (lb & x2 & E2 & Hx2 & Ec).
  set (r2 := upd_ongoing <[model_key m := 100]> r).
  set (x3 := (NotifyOnModelOffloading (mds_Model (md_Spec m)) (mds_Environment (md_Spec m)) true x2).1).
  assert (wh_proxy x3 = wh_proxy x2) as Hproxy by (unfold x3; by rewrite notify_whole).
  assert (healthCheckCallback (set_offloading settings (set_status st m)) settings false (r, x1) =
    ((upd_state <[model_key m := false]> r2, x3), Ok tt)) as E3.
  { assert (exists v, try (notifyOnBeamlit (set_offloading settings (set_status st m)) true) (r2, x2) = ((r2, x3), Ok v)) as [v4 E4].
    { destruct (works_Notify (m:=m) (mds_Model (md_Spec m)) (mds_Environment (md_Spec m)) true x2 Hx2) as [_ Hnp].
      unfold try. enter notifyOnBeamlit. unfold outer, zoom. cbn [fst snd]. subst x3.
      change (md_Spec (set_offloading settings (set_status st m))) with (set_offloading settings (set_status st m)).(md_Spec). cbn [set_offloading md_Spec mds_Model mds_Environment].
      destruct (NotifyOnModelOffloading _ _ true x2) as [y [[]|e|]]; [by eexists..|done]. }
    enter healthCheckCallback. cbn [negb]. rewrite (bind_Ok_run _ _ _ _ _ E2). change (model_key (set_offloading settings (set_status st m))) with (model_key m).
    rewrite (bind_Ok_run (self (modify (upd_ongoing <[model_key m := 100]>))) _ (r, x2) (r2, x2) tt eq_refl).
    by rewrite (bind_Ok_run _ _ _ _ _ E4). }
  exists (upd_state <[model_key m := false]> r2, x3). split; [|split].
  - rewrite handleEvent_spec by done. rewrite decide_True by done. by rewrite Hdead.
  - cbn [Handlers.handle]. enter on_health. rewrite self_gets_bind. cbn [hs_ModelName hs_Healthy]. rewrite Hmodel, Ev.
    assert (('(model, o) ← event_model v; healthCheckCallback model o false) (r, x) =
      ((upd_state <[model_key m := false]> r2, x3), Ok tt)) as E5
      by (rewrite (bind_Ok_run _ _ _ _ _ E1); exact E3).
    rewrite (bind_Ok_run _ _ (r, x) (upd_state <[model_key m := false]> r2, x3) (inl tt)); [done|].
    exact (try_Ok_run _ _ _ _ E5).
  - intros r_in ex Hex Hhost. cbn [snd] in Hex. rewrite Hproxy in Hex.
    destruct Hserving as [Href _ _ _].
    destruct (configured_request_run (set_offloading settings (set_status st m)) lb remote 100 (wh_offloader x1) (wh_cluster x1, wh_proxy x1)
      (at_offloader x2) ref r_in ex ltac:(lia) Hauth Href Ec Hex Hhost) as (ws & b & drawn & w' & out & Hb' & Hout & Hrun).
    exists ws, drawn, w', out. split; [|exact Hrun]. destruct Hb' as [[_ Hlt]|[-> _]]; [lia|exact Hout].
Qed.
End Whole.

(** ** A run of the whole *)

Module WholeExamples.
Import SystemExamples.

#[local] Instance cluster_client : CtrlClient MemCluster.t := {
  client_GetService k := svc_Get (nn_Namespace k) (nn_Name k);
  client_GetPodTemplate s k := mret "";
  client_GetModel k := if decide (k = mkNN "default" "my-model") then mret sys_model else throw (MemCluster.not_found "models" (nn_Name k));
  client_UpdateModel m := mret m;
  client_UpdateModelStatus m := mret m;
  client_GetPolicy k := throw (MemCluster.not_found "policies" (nn_Name k));
  client_UpdatePolicy p := mret p;
  client_UpdatePolicyStatus p := mret p;
  mapstructure_Decode s := Ok s
}.
#[local] Instance cluster_laws : ClusterLaws (K:=MemCluster.t).
Proof.
  split.
  - intros k c m. cbn. case_decide as Hk; [|done]. intros [= <-]. by rewrite Hk.
  - intros ns n c e. cbn. unfold MemCluster.get_service. repeat case_match; by intros [= <-].
Qed.
#[local] Instance remote_api : BeamlitAPI unit := {
  sdk_GetModel a b := mret (200, "");
  sdk_CreateModel a := mret (200, "");
  sdk_UpdateModel a b := mret (200, "");
  sdk_DeleteModel a b := mret (200, "");
  sdk_GetPolicy a := mret (404, "");
  sdk_CreatePolicy a := mret (200, "");
  sdk_UpdatePolicy a b := mret (200, "");
  sdk_DeletePolicy a := mret (200, "");
  json_Model s := Ok ModelLoopExamples.lab_remote_model;
  json_Policy s := Err (Errorf "")
}.
#[local] Instance the_time : TimeParse := { time_Parse s := Ok 0 }.

Notation whole := (Whole (P:=InMem.t) (K:=MemCluster.t) (B:=unit)).
Definition whole_start : whole :=
  mkWhole (set_gateway (Some ConfigurerExamples.gw) newKubernetesConfigurer) newBeamlitGatewayOffloader emptyRegistry emptyRegistry
    ConfigurerExamples.cluster New tt.
Definition whole_request : controller_event := EvReconcile (mkNN "default" "my-model").
Definition whole_set_up : ModelDeploymentReconciler * whole := (handle whole_request (sys_start, whole_start)).1.
Definition whole_down : ModelDeploymentReconciler * whole :=
  (handle (EvHealth (mkHealthStatus "default/my-model" false)) whole_set_up).1.

(** The same with a reconciliation of another model beside the report. *)
Definition none_panics (n : string) : Prop := False.
Definition whole_b1 := take_turns (replicate 200 "my-model") (begin_handler "my-model" whole_request ((sys_start, whole_start), [])).
Definition whole_b2 := take_turns (replicate 5 "my-model")
  (begin_handler "my-model" (EvHealth (mkHealthStatus "default/my-model" false)) whole_b1).
Definition whole_b3 := take_turns ("other" :: replicate 100 "my-model")
  (begin_handler "other" (EvReconcile (mkNN "default" "other")) whole_b2).

Lemma whole_record_is_the_weight_witness :
  whole_b2.2.*1 = ["my-model"] /\ whole_b3.2.*1 = ["other"] /\ gateway_share whole_b3.1.2 "my-model" = Some 100.
Proof.
  assert (OngoingOffloadings whole_b3.1.1 !! slash_key "default" "my-model" = Some 100) as Hp by (vm_compute; reflexivity).
  assert (contains_byte "/"%char "default" = false) as Hns by reflexivity.
  assert (whole_b1.2.*1 = []) as L1 by (vm_compute; reflexivity).
  assert (whole_b2.2.*1 = ["my-model"]) as L2 by (vm_compute; reflexivity).
  assert (whole_b3.2.*1 = ["other"]) as L3 by (vm_compute; reflexivity).
  assert ("my-model" ∉ whole_b1.2.*1) as N1 by (rewrite L1; apply not_elem_of_nil).
  assert ("other" ∉ whole_b2.2.*1) as N2 by (rewrite L2; by intros ?%list_elem_of_singleton).
  assert (rtc (per_model_step none_panics "default") ((sys_start, whole_start), []) whole_b3) as Hrun.
  { transitivity whole_b1; [exact (handler_run none_panics "default" _ "my-model" whole_request
      ((sys_start, whole_start), []) (not_elem_of_nil _) eq_refl)|].
    transitivity whole_b2; [exact (handler_run none_panics "default" _ "my-model"
      (EvHealth (mkHealthStatus "default/my-model" false)) whole_b1 N1 eq_refl)|].
    exact (handler_run none_panics "default" _ "other" (EvReconcile (mkNN "default" "other")) whole_b2 N2 eq_refl). }
  assert ("my-model" ∉ whole_b3.2.*1) as Hm by (rewrite L3; by intros ?%list_elem_of_singleton).
  split; [exact L2|]. split; [exact L3|]. clear L1 L2 L3 N1 N2.
  revert Hp Hm Hrun. generalize whole_b3. intros [[r x] l] Hp Hm Hrun.
  exact (whole_record_is_the_weight none_panics "default" sys_start whole_start r x l "my-model" 100 Hns eq_refl eq_refl Hrun Hm (fun f => f) Hp).
Defined.

(** The last replica of the model's Deployment is gone. *)
Definition the_watcher : k8sHealthWatcher := mkHealthWatcher "default/my-model" (mds_ModelSourceRef (md_Spec sys_model)).
Definition the_event : workload_event := Updated (Deployment "default" "my-model" 1) (Deployment "default" "my-model" 0).
Definition cluster_serves (k : MemCluster.t) : Prop := svc_Get "default" "my-model" k = (k, Ok ConfigurerExamples.user).

Definition any_api (b : unit) : Prop := True.
Lemma sys_serving : serving (B:=unit) sys_model sys_ref (mkNN "default" "my-model-beamlit") cluster_serves any_api.
Proof.
  split.
  - reflexivity.
  - intros k Hk. split; [exists (md_Status sys_model); vm_compute; reflexivity|exact Hk].
  - intros k Hk. exists ConfigurerExamples.user. unfold cluster_serves in Hk. cbn [sr_Namespace sr_Name sr_ObjectReference sys_ref ref_Namespace ref_Name].
    by rewrite !Hk.
  - intros a b c x _. split; [done|]. vm_compute. discriminate.
Qed.

Lemma whole_ready : ready sys_model (set_up sys_ref (mkNN "default" "my-model-beamlit") cluster_serves any_api) whole_set_up.
Proof.
  split; [split; [split; [vm_compute; reflexivity|done]|vm_compute; reflexivity]|]. eexists. split; [vm_compute; reflexivity|done].
Qed.

Lemma dead_workload_traffic_goes_remote_witness :
  exists s y ws w', handleEvent the_watcher (event_object the_event) = ReportHealth s /\
    handle (EvHealth s) whole_set_up = (y, Ok tt) /\
    RewriteV1Alpha1 sys_request (sys_exchange (wh_proxy y.2)) =
      (mkExchange (wh_proxy y.2) w' (SetXForwarded sys_request (target_backend (remote_backend ws sys_model sys_remote 100) sys_request))
         newWriter (mkResponse 0 "" ∅ NoBody), Ok tt).
Proof.
  pose proof whole_ready as Hready. rewrite (surjective_pairing whole_set_up) in Hready |- *.
  revert Hready. generalize whole_set_up.1 whole_set_up.2. intros r x Hready.
  destruct (dead_workload_traffic_goes_remote sys_model sys_ref (mkNN "default" "my-model-beamlit") cluster_serves any_api sys_serving
    sys_settings sys_remote eq_refl eq_refl the_watcher the_event r x sys_remote_complete eq_refl eq_refl eq_refl eq_refl Hready)
    as (s & y & E1 & E2 & Hrw).
  destruct (Hrw sys_request (sys_exchange (wh_proxy y.2)) eq_refl sys_request_named) as (ws & drawn & w' & out & Hout & E3).
  apply addressed_plain_inv in Hout as [-> ->]; [|done]. exists s, y, ws, drawn. exact (conj E1 (conj E2 E3)).
Defined.
End WholeExamples.
