(* ===== verification/Recovery.v ===== *)
(** What becomes of a model after a failure, with all of the controller's parts in place: a
    service that is left half configured is never given back. *)

From Stdlib Require Import Ascii.
From stdpp Require Import base numbers gmap strings list relations.
From S2P Require Import Prelude Programs RouteStore Balancer Http Forward RouteApi Crd Kube Offloader Configurer.
From S2P Require Import Registry Metric Health Convert BeamlitClient ModelReconciler ModelSync ModelLoop ModelShare System Stuck Whole.
Local Open Scope Z_scope.

Section HalfConfiguredModel.
Context {P K B : Type} `{Hpers : PersistenceSpec P} `{Hkube : KubeAPI K}
  `{Hcl : CtrlClient K} `{Hb : BeamlitAPI B} `{Htp : TimeParse} `{Hlaws : !ClusterLaws (K:=K)}.
Context (key : NamespacedName) (ns n : string).
Hypothesis Hns : contains_byte "/"%char ns = false.
(** Nobody edits the model to name another service. *)
Hypothesis Hnamed : forall k m, (client_GetModel (mkNN ns n) k).2 = Ok m -> named_service m = Some key.

Definition half (x : Whole (P:=P) (K:=K) (B:=B)) : Prop := half_configured key (wh_configurer x).

(** A call of another part. *)
Local Ltac elsewhere := intros *; intros x Hx; unfold wp; cbn [client_GetService client_GetPodTemplate client_UpdateModel
  client_UpdateModelStatus whole_client sdk_GetModel sdk_CreateModel sdk_UpdateModel sdk_DeleteModel whole_beamlit
  off_Configure off_Cleanup whole_offloader mi_Register mi_Unregister whole_metrics hi_Register hi_Unregister whole_health];
  unfold on_cluster, on_api; rewrite zoom_run; exact Hx.

#[local] Instance whole_stuck : Stuck key (mkNN ns n) half.
Proof.
  split; try elsewhere.
  - intros s x Hx. cbn [cfg_Unconfigure whole_configurer]. rewrite zoom_run. exact (half_Unconfigure key s (at_configurer x) Hx).
  - intros s x Hx Hs. cbn [cfg_Configure whole_configurer]. rewrite zoom_run. exact (half_Configure key s (at_configurer x) Hx Hs).
  - intros s x Hx. unfold wp. cbn [cfg_GetLocalBeamlitService whole_configurer]. rewrite zoom_run.
    exact (preserves_GetLocal (half_configured key) s (at_configurer x) Hx).
  - intros k x Hx. cbn [client_GetModel whole_client]. unfold on_cluster. rewrite zoom_run. split; [exact Hx|].
    intros m E. destruct (GetModel_named_law k (wh_cluster x) m E) as [E1 E2]. split_and!; [done..|]. intros ->. by apply (Hnamed (wh_cluster x)).
Qed.

(** C7. A service that is left half configured holds its model for good: in every interleaving of
    reconciliations and events over the real configurer, offloader, informers and client, and
    whatever the cluster, the gateway and the Beamlit API do, the model is not recorded again,
    its events are dropped, and no attempt to set it up again (unless it is refused) or to
    delete it while it has offloading settings succeeds; as long as the model is not edited to
    name another service. *)
Theorem half_configured_model_never_recovers r x r' x' l :
  half x -> ManagedModels r !! slash_key ns n = None ->
  rtc (overlapping ns half) ((r, x), []) ((r', x'), l) ->
  ManagedModels r' !! slash_key ns n = None /\
  (forall b, handle (EvHealth (mkHealthStatus (slash_key ns n) b)) (r', x') = ((r', x'), Ok tt) /\
             handle (EvMetric (mkMetricStatus (slash_key ns n) b)) (r', x') = ((r', x'), Ok tt)) /\
  forall m, named_service m = Some key ->
    (skip_model r' m = false -> (settle_model m (r', x')).2 <> Ok false) /\
    (mds_OffloadingConfig (md_Spec m) <> None -> (finalizeModel m (r', x')).2 <> Ok tt).
Proof. intros Hx Hr Hrun. exact (stuck_model_never_recovers key ns n half Hns r x (r', x') l Hx Hr Hrun). Qed.
End HalfConfiguredModel.

(** ** Runs *)

Module RecoveryExamples.
Import SystemExamples WholeExamples.
#[local] Existing Instance cluster_client.
#[local] Existing Instance cluster_laws.
#[local] Existing Instance remote_api.
#[local] Existing Instance the_time.
Notation whole := (Whole (P:=InMem.t) (K:=MemCluster.t) (B:=unit)).

#[local] Instance MetricStatus_eq_dec : EqDecision MetricStatus.
Proof. solve_decision. Defined.
#[local] Instance controller_event_eq_dec : EqDecision controller_event.
Proof. solve_decision. Defined.

(** The model's first set-up comes before Kubernetes has made a slice for the operator's
    service; the slice comes later, and then the model is reconciled again. *)
Definition early_cluster : MemCluster.t :=
  MemCluster.put_slice ConfigurerExamples.user_slice (MemCluster.put_service ConfigurerExamples.gateway
    (MemCluster.put_service ConfigurerExamples.user (MemCluster.mk ∅ ∅ [] 10000000000))).
Definition early_start : whole := set_cluster early_cluster whole_start.
Definition early : ModelDeploymentReconciler * whole := (handle whole_request (sys_start, early_start)).1.
Definition later : ModelDeploymentReconciler * whole :=
  (early.1, set_cluster (MemCluster.put_slice ConfigurerExamples.own_slice (wh_cluster early.2)) early.2).
Definition retry : (ModelDeploymentReconciler * whole) * pool (ModelDeploymentReconciler * whole) controller_event unit :=
  (later, [(whole_request, Handlers.handle whole_request)]).
Definition retried := foldl (fun c t => turn t c) retry (replicate 60 whole_request).

Lemma early_half : half (sr_key sys_ref) early.2.
Proof. split; [eexists|]; vm_compute; reflexivity. Qed.

Lemma retry_run : rtc (overlapping "default" (half (sr_key sys_ref))) (early, []) retried.
Proof.
  transitivity (later, [] : pool (ModelDeploymentReconciler * whole) controller_event unit).
  { apply rtc_once. unfold later. generalize early. intros [r x]. apply pool_world, stuck_move. intros Hx. exact Hx. }
  transitivity retry; [|apply turns_sound]. apply rtc_once.
  exact (pool_start (fun _ => True) (any_handler "default") (stuck_moves (half (sr_key sys_ref))) later [] whole_request _ (conj eq_refl eq_refl)).
Qed.

Lemma half_configured_model_never_recovers_witness :
  retried.2 = [] /\ ManagedModels retried.1.1 !! "default/my-model" = None /\
  (settle_model sys_model retried.1).2 <> Ok false /\ (finalizeModel sys_model retried.1).2 <> Ok tt.
Proof.
  split; [vm_compute; reflexivity|].
  assert (forall (k : MemCluster.t) m, (client_GetModel (mkNN "default" "my-model") k).2 = Ok m -> named_service m = Some (sr_key sys_ref)) as Hnamed
    by (intros k m [= <-]; vm_compute; reflexivity).
  assert (ManagedModels early.1 !! slash_key "default" "my-model" = None) as Hr by (vm_compute; reflexivity).
  assert (skip_model retried.1.1 sys_model = false) as Hskip by (vm_compute; reflexivity).
  pose proof early_half as Hhalf. pose proof retry_run as Hrun. revert Hhalf Hrun Hr Hskip.
  generalize early retried. intros [r x] [[r' x'] l] Hhalf Hrun Hr Hskip.
  destruct (half_configured_model_never_recovers (sr_key sys_ref) "default" "my-model" eq_refl Hnamed r x r' x' l Hhalf Hr Hrun)
    as (H1 & _ & H2).
  destruct (H2 sys_model ltac:(vm_compute; reflexivity)) as [H3 H4]. split; [exact H1|]. split; [by apply H3|]. apply H4. discriminate.
Defined.

(** The first set-up did fail for want of the slice. *)
Lemma early_configure_leaves_half_witness :
  (Configurer.Configure (Some sys_ref) (at_configurer early_start)).2 <> Ok tt.
Proof.
  refine (proj1 (early_configure_leaves_half sys_ref (at_configurer early_start) _ eq_refl)).
  intros k e He [_ Hof]. cbn in He. apply lookup_insert_Some in He as [[_ <-]|[_ He]]; [|by rewrite lookup_empty in He].
  vm_compute in Hof. discriminate.
Defined.
End RecoveryExamples.
