(* ===== verification/Restart.v ===== *)
(** The set-up of a model after a restart of the controller, with all of the parts in place: the
    controller knows nothing, and the cluster has what an earlier run has left, the operator's
    own service with its slice among it.  When the API server, the gateway and the Beamlit API
    work, it succeeds.  The very first set-up finds no such slice, and does not
    ([Configurer.early_configure_leaves_half]). *)

From Stdlib Require Import Ascii.
From stdpp Require Import base numbers gmap strings list relations.
From S2P Require Import Prelude Programs RouteStore Balancer Http Forward RouteApi Crd Kube Offloader Configurer Reliable.
From S2P Require Import Registry Metric Health Convert BeamlitClient ModelReconciler ModelSync ModelLoop ModelShare Publish Progress System Whole.
Local Open Scope Z_scope.

Section Restart.
Context {P K B : Type} `{Hpers : PersistenceSpec P} `{Hkube : KubeAPI K} `{Hks : !KubeSpec K}
  `{Hcl : CtrlClient K} `{Hb : BeamlitAPI B} `{Htp : TimeParse} `{Hlaws : !ClusterLaws (K:=K)} `{Hserver : !BeamlitServer B}.
Notation whole := (Whole (P:=P) (K:=K) (B:=B)).
Implicit Types (x : whole) (k : K) (b : B).

(** ** What Beamlit holds

    The components other than the client of the Beamlit API leave it alone. *)

Local Ltac through_zoom := cbn [sdk_GetModel sdk_CreateModel sdk_UpdateModel sdk_DeleteModel json_Model whole_beamlit];
  unfold on_api; rewrite ?zoom_run; cbn [fst snd].
#[export] Instance whole_server : BeamlitServer whole.
Proof.
  refine {| published x := published (wh_api x) |}.
  - intros x. apply published_place.
  - intros n e x. through_zoom. apply sdk_GetModel_keeps.
  - intros n e x. through_zoom. apply sdk_GetModel_answer.
  - intros md place x. through_zoom. apply sdk_CreateModel_files.
  - intros md e n x. through_zoom. apply sdk_UpdateModel_files.
  - intros n e x. through_zoom. apply sdk_DeleteModel_removes.
Defined.
#[export] Instance whole_leaves : LeavesBeamlit whole.
Proof.
  split; intros *; try (intros x; unfold published, whole_server;
    cbn [client_GetModel client_UpdateModel client_UpdateModelStatus client_GetService client_GetPodTemplate whole_client
         off_Configure off_Cleanup whole_offloader cfg_Configure cfg_Unconfigure cfg_GetLocalBeamlitService whole_configurer
         mi_Register mi_Unregister whole_metrics hi_Register hi_Unregister whole_health];
    unfold on_cluster; rewrite zoom_run; reflexivity).
  cbn [client_GetModel whole_client]. unfold on_cluster. rewrite zoom_run. apply GetModel_named_law.
Qed.

(** ** What has to work *)

(** A read that is answered and leaves the objects alone. *)
Definition reads {A} (up : K -> Prop) (c : M K A) k (Q : A -> Prop) : Prop := exists k' a,
  c k = (k', Ok a) /\ up k' /\ services k' = services k /\ slices k' = slices k /\ Q a.

(** The client of the controller on a server that works: it has the model, its services and
    the template of its workload, and takes its status. *)
Record client_works (m : ModelDeployment) (up : K -> Prop) : Prop := {
  cw_model k : up k -> reads up (client_GetModel (mkNN (md_Namespace m) (md_Name m))) k (fun m' => exists st, m' = set_status st m);
  cw_service s sv k : up k -> services k !! s = Some sv -> reads up (client_GetService s) k (fun sv' => sv' = sv);
  cw_template kind n k : up k -> reads up (client_GetPodTemplate kind n) k (fun t => is_Ok (mapstructure_Decode (W:=K) t) = true);
  cw_status m' k : up k -> md_Meta m' = md_Meta m -> reads up (client_UpdateModelStatus m') k (fun _ => True)
}.

(** The Beamlit API answers, accepts what it is sent, and fills in its fields. *)
Record api_works (open : B -> Prop) : Prop := {
  aw_lookup n e b : open b -> exists b' resp, sdk_GetModel n e b = (b', Ok resp) /\ open b';
  aw_create md b : open b -> to_send md -> exists b' code text up, sdk_CreateModel md b = (b', Ok (code, text)) /\ open b' /\
    code < 299 /\ json_Model (W:=B) text = Ok up /\ complete up;
  aw_update n md b : open b -> to_send md -> bm_Name (bmod_Metadata md) = Some n ->
    exists b' code text up, sdk_UpdateModel n md b = (b', Ok (code, text)) /\ open b' /\
    code < 299 /\ json_Model (W:=B) text = Ok up /\ complete up;
  aw_notice a c d b : open b -> open (NotifyOnModelOffloading a c d b).1 /\ (NotifyOnModelOffloading a c d b).2 <> Panic
}.

Context (m : ModelDeployment) (ref gw : ServiceReference) (up : K -> Prop) (open : B -> Prop)
  `{Hup : !Reliable K up} (Hclient : client_works m up) (Hapi : api_works open).
Hypothesis Href : mds_ServiceRef (md_Spec m) = Some ref.
Hypothesis Hkind : ref_Kind (mds_ModelSourceRef (md_Spec m)) ∈ ["Deployment"; "StatefulSet"; "DaemonSet"; "ReplicaSet"].

(** ** How far the set-up is *)

Definition own_service : NamespacedName := mkNN (sr_Namespace ref) (beamlit_name ref).
Definition served k : Prop := up k /\ is_Some (services k !! sr_key ref).

(** The controller has done nothing for the model since it was started: the model is not watched,
    not routed, and its service not recorded; the cluster is such that it can be taken over (an
    earlier run has left the operator's own service with its slice), and the services that the
    model names have their ports. *)
Record blank x : Prop := {
  blank_up : up (wh_cluster x);
  blank_open : open (wh_api x);
  blank_shape : configurable ref gw (wh_configurer x) (services (wh_cluster x)) (slices (wh_cluster x));
  blank_ports s : mds_ServiceRef (md_Spec m) = Some s \/ mds_MetricServiceRef (md_Spec m) = Some s ->
    exists sv p, services (wh_cluster x) !! sr_key s = Some sv /\ find_port (svc_Ports sv) (sr_TargetPort s) = Ok p;
  blank_service : beamlitServicesByModelService (wh_configurer x) !! sr_key ref = None;
  blank_metrics : watchers (wh_metrics x) !! model_key m = None;
  blank_health : watchers (wh_health x) !! model_key m = None;
  blank_route : md_Name m ∉ managedRoutes (wh_offloader x)
}.
Definition phases (p : phase) x : Prop :=
  match p with
  | Reading | HealthStopped | Stopped | Unconfigured => blank x
  | Configured => set_up ref own_service served open x /\ watchers (wh_metrics x) !! model_key m = None /\ watchers (wh_health x) !! model_key m = None
  | MetricsWatched => set_up ref own_service served open x /\ watchers (wh_health x) !! model_key m = None
  | SetUp => set_up ref own_service served open x
  end.

Lemma blank_cluster x k : blank x -> up k -> services k = services (wh_cluster x) -> slices k = slices (wh_cluster x) -> blank (set_cluster k x).
Proof. intros [] Hk Hs He. split; cbn; rewrite ?Hs, ?He; done. Qed.
Lemma blank_api x b : blank x -> open b -> blank (set_api b x).
Proof. by intros [] Hb'. Qed.
Lemma set_up_cluster x k : set_up ref own_service served open x -> up k -> services k = services (wh_cluster x) -> set_up ref own_service served open (set_cluster k x).
Proof. intros [[[_ Hs] Ha] Ho] Hk E. split; [|exact Ho]. split; [|exact Ha]. split; [exact Hk|]. cbn. by rewrite E. Qed.

(** A call on the cluster, or on the Beamlit API, from the whole. *)
Lemma on_cluster_run {A} (c : M K A) x k a : c (wh_cluster x) = (k, Ok a) -> on_cluster c x = (set_cluster k x, Ok a).
Proof. intros E. unfold on_cluster. by rewrite zoom_run, E. Qed.
Lemma on_api_run {A} (c : M B A) x b a : c (wh_api x) = (b, Ok a) -> on_api c x = (set_api b x, Ok a).
Proof. intros E. unfold on_api. by rewrite zoom_run, E. Qed.

Lemma unwatched_unregister {A} model (r : registry A) : watchers r !! model = None -> unregister_watcher model r = (r, Ok tt).
Proof. intros E. unfold unregister_watcher, mbind, M_bind, gets. by rewrite E. Qed.
Lemma unwatched_register {A} model a (r : registry A) : watchers r !! model = None -> exists r', register_watcher model a r = (r', Ok tt).
Proof. intros E. unfold register_watcher. rewrite (bind_Ok_run _ _ _ _ _ (unwatched_unregister model r E)). by eexists. Qed.

Lemma served_serving : serving m ref own_service served open.
Proof.
  split; [exact Href| | |intros *; apply (aw_notice _ Hapi)].
  - intros k [Hk Hs]. destruct (cw_model _ _ Hclient k Hk) as (k' & m' & E & Hk' & Es & _ & [st ->]). rewrite E.
    split; [by exists st|]. split; [exact Hk'|]. cbn. by rewrite Es.
  - intros k [Hk Hs]. destruct (up_svc_Get (sr_Namespace ref) (sr_Name ref) k Hk Hs) as (sv & E & Hk').
    exists sv. split; [exact E|]. split; [exact Hk'|].
    destruct (svc_Get_law (sr_Namespace ref) (sr_Name ref) k) as (k' & r & E' & Es & _). rewrite E'. cbn. by rewrite Es.
Qed.

#[local] Instance whole_working_here : Working m (phases SetUp) := whole_working m ref own_service served open served_serving.

#[local] Instance whole_available : Available m phases.
Proof.
  split.
  - exact _.
  - intros x Hx. destruct (cw_model _ _ Hclient _ (blank_up _ Hx)) as (k' & m' & E & Hk' & Es & Ee & [st ->]).
    exists (set_cluster k' x), st. split; [exact (on_cluster_run _ _ _ _ E)|by apply blank_cluster].
  - intros s x Hx Hs. destruct (blank_ports _ Hx s Hs) as (sv & p & Esv & Ep).
    destruct (cw_service _ _ Hclient _ sv _ (blank_up _ Hx) Esv) as (k' & sv' & E & Hk' & Es & Ee & ->).
    exists (set_cluster k' x), sv, p. split; [exact (on_cluster_run _ _ _ _ E)|]. split; [by apply blank_cluster|exact Ep].
  - exact Hkind.
  - intros kind n x Hx. destruct (cw_template _ _ Hclient kind n _ (blank_up _ Hx)) as (k' & t & E & Hk' & Es & Ee & Hd).
    destruct (mapstructure_Decode (W:=K) t) as [pt|e|] eqn:Ed; [|done..].
    exists (set_cluster k' x), t, pt. split; [exact (on_cluster_run _ _ _ _ E)|]. split; [by apply blank_cluster|exact Ed].
  - intros n e x Hx. destruct (aw_lookup _ Hapi n e _ (blank_open _ Hx)) as (b' & resp & E & Hb').
    exists (set_api b' x), resp. split; [exact (on_api_run _ _ _ _ E)|by apply blank_api].
  - intros md x Hx Hmd. destruct (aw_create _ Hapi md _ (blank_open _ Hx) Hmd) as (b' & code & text & upd & E & Hb' & Hc & Hj & Hcm).
    exists (set_api b' x), code, text, upd. split; [exact (on_api_run _ _ _ _ E)|]. split; [by apply blank_api|done].
  - intros n md x Hx Hmd Hn. destruct (aw_update _ Hapi n md _ (blank_open _ Hx) Hmd Hn) as (b' & code & text & upd & E & Hb' & Hc & Hj & Hcm).
    exists (set_api b' x), code, text, upd. split; [exact (on_api_run _ _ _ _ E)|]. split; [by apply blank_api|done].
  - intros x Hx. exists x. split; [|exact Hx]. cbn [hi_Unregister whole_health]. rewrite zoom_run. unfold Health.Unregister.
    rewrite (unwatched_unregister _ _ (blank_health _ Hx)). by destruct x.
  - intros x Hx. exists x. split; [|exact Hx]. cbn [mi_Unregister whole_metrics]. rewrite zoom_run. unfold Metric.Unregister.
    rewrite (unwatched_unregister _ _ (blank_metrics _ Hx)). by destruct x.
  - intros x Hx. exists x. split; [|exact Hx]. rewrite Href. cbn [cfg_Unconfigure whole_configurer]. rewrite zoom_run. cbn.
    unfold Unconfigure. mrun. rewrite (blank_service _ Hx). by destruct x.
  - intros m' x Hx Hm. exists x. split; [|exact Hx]. apply (Cleanup_unmanaged (W:=whole)). unfold md_Name. rewrite Hm. exact (blank_route _ Hx).
  - intros x Hx. destruct (total_Configure up ref gw (at_configurer x)) as (y & [] & E & Hy & Hrec).
    { split; [exact (blank_up _ Hx)|exact (blank_shape _ Hx)]. }
    exists (set_at_configurer y x). split.
    + rewrite Href. cbn [cfg_Configure whole_configurer]. rewrite zoom_run.
      change (cfg_Configure (Some ref) (at_configurer x)) with (Configurer.Configure (Some ref) (at_configurer x)). by rewrite E.
    + destruct Hrec as (_ & _ & Hs & Ho). split; [|exact (conj (blank_metrics _ Hx) (blank_health _ Hx))]. split; [split; [by split|exact (blank_open _ Hx)]|exact Ho].
  - intros a c d e x (Hx & Hmw & Hhw). destruct (unwatched_register (model_key m)
      (mkWatcher (model_key m) d a c, mkCondition [] false e zeroTime) (wh_metrics x) Hmw) as [r' E].
    exists (set_metrics r' x). split; [|by split]. cbn [mi_Register whole_metrics]. rewrite zoom_run. unfold Metric.Register. by rewrite E.
  - intros a x (Hx & Hhw). destruct (unwatched_register (model_key m) (mkHealthWatcher (model_key m) a) (wh_health x) Hhw) as [r' E].
    exists (set_health r' x). split; [|exact Hx]. cbn [hi_Register whole_health]. rewrite zoom_run. unfold Health.Register.
    change (removeWatcher (model_key m) ;; add_watcher (model_key m) (mkHealthWatcher (model_key m) a)) with
      (register_watcher (model_key m) (mkHealthWatcher (model_key m) a)). by rewrite E.
  - intros m' x Hx Hm. destruct Hx as [[[Hk Hs] Ha] Ho]. destruct (cw_status _ _ Hclient m' _ Hk Hm) as (k' & m'' & E & Hk' & Es & _ & _).
    exists (set_cluster k' x), m''. split; [exact (on_cluster_run _ _ _ _ E)|]. apply set_up_cluster; [by repeat split|done..].
Qed.

(** ** Properties *)

Lemma share_in_gateway x n : offloaded x !! n = gateway_share x n.
Proof. change (omap remote_share (routes (wh_proxy x)) !! n = gateway_share x n). apply lookup_omap. Qed.

Context (settings : OffloadingConfig) (remote : RemoteBackend) (percentage : Z).
Hypothesis Hset : mds_OffloadingConfig (md_Spec m) = Some settings.
Hypothesis Hremote : ol_RemoteBackend settings = Some remote.
Hypothesis Hbehavior : ol_Behavior settings = Some (mkBehavior percentage).
Hypothesis Hon : mds_Enabled (md_Spec m) = true.
Hypothesis Hthere : meta_DeletionTimestamp (md_Meta m) = None.
Hypothesis Hfinalizer : ContainsFinalizer modelDeploymentFinalizer (md_Meta m) = true.

(** A reconciliation that is done has filed the model. *)
Lemma published_by_reconcile r x y : blank x -> skip_model r m = false ->
  Reconcile (key_of m) (r, x) = (y, Ok false) -> on_beamlit (md_Spec m) (published (wh_api y.2)).
Proof.
  intros Hx Hskip E. destruct (cw_model _ _ Hclient _ (blank_up _ Hx)) as (k' & m' & Em & _ & _ & _ & [st ->]).
  pose proof (Reconcile_effect (W:=whole) (key_of m) r x) as He. unfold wp in He.
  assert ((client_GetModel (key_of m) x).2 = Ok (set_status st m)) as Eg.
  { exact (f_equal snd (on_cluster_run _ _ _ _ Em)). }
  rewrite Eg, E in He. cbn [fst snd] in He. unfold reconciled, has_finalizer, deleted in He.
  change (md_Meta (set_status st m)) with (md_Meta m) in He. rewrite Hfinalizer, Hthere in He. cbn in He.
  change (skip_model r (set_status st m)) with (skip_model r m) in He. rewrite Hskip in He.
  exact (wrote_on (set_status st m) _ _ (proj1 He)).
Qed.

(** C8. A set-up after a restart goes through, down to the gateway: with the API server, the
    gateway and the Beamlit API working, a model for which the controller has done nothing
    yet, whose services are there, the operator's own with its one slice as an earlier run has
    left it, is set up by the next reconciliation, whatever attempts failed before without
    touching the other parts: it is on Beamlit as it describes itself, its service is taken
    over, and its route is in the gateway with all of the traffic local; and from then on
    every sequence of reports is handled, and the weight of the remote backend in the gateway
    is the one the abstract machine has. *)
Theorem set_up_after_restart_succeeds r0 r x : unsettled m r0 -> rtc (attempt_failed (W:=whole) m) r0 r -> blank x ->
  exists y, Reconcile (key_of m) (r, x) = (y, Ok false) /\ on_beamlit (md_Spec m) (published (wh_api y.2)) /\
    gateway_share y.2 (md_Name m) = Some 0 /\
    beamlitServicesByModelService (wh_configurer y.2) !! sr_key ref = Some (Some own_service) /\
    forall reps, exists y', foreach reps (fun rep => handle (event_of m rep)) y = (y', Ok tt) /\
      gateway_share y'.2 (md_Name m) = v_force (foldl (fun v rep => share_step percentage rep v) (settle_at 0 (Some true)) reps).
Proof.
  intros Hr0 Hfail Hx. assert (unsettled m r) as Hr by (by eapply failed_attempts).
  pose proof (unsettled_skip m r Hr) as Hskip.
  destruct (reconcile_run m phases settings remote ref Hset Hremote Hon Href Hthere Hfinalizer r x Hx Hskip)
    as (y & E & Hready & Hv & _).
  exists y. split; [exact E|]. split; [by apply (published_by_reconcile r x y)|].
  split; [rewrite <-share_in_gateway; exact (f_equal v_force Hv)|]. split; [exact (proj2 (proj1 Hready))|].
  intros reps. destruct (events_run m (phases SetUp) settings remote percentage Hset Hremote Hbehavior reps y Hready) as (y' & E' & _ & Hv').
  exists y'. split; [exact E'|]. rewrite <-share_in_gateway. rewrite Hv in Hv'. exact (f_equal v_force Hv').
Qed.
End Restart.

(** ** A restart

    The controller has set the model up, and is started again: the cluster and the gateway are
    as the first run has left them, and nothing is recorded. *)

Module RestartExamples.
Import SystemExamples WholeExamples ConfigurerExamples ReliableMemory.
#[local] Existing Instance cluster_client.
#[local] Existing Instance cluster_laws.
#[local] Existing Instance PublishExamples.site_beamlit.
#[local] Existing Instance PublishExamples.site_server.
#[local] Existing Instance the_time.
Notation site := PublishExamples.site.

Lemma sys_client : client_works sys_model well_filed.
Proof.
  split.
  - intros k Hk. exists k, sys_model. split_and!; [done..|]. by exists (md_Status sys_model).
  - intros s sv k Hk Hs. exists k, sv. split_and!; [|done..]. cbn in *. unfold MemCluster.get_service.
    assert (mkNN (nn_Namespace s) (nn_Name s) = s) as -> by by destruct s. rewrite Hs. by rewrite decide_True by exact (Hk _ _ Hs).
  - intros kind n k Hk. by exists k, "".
  - intros m' k Hk _. by exists k, m'.
Qed.

(** The server in memory works as long as the models in it have labels. *)
Definition labelled_models (w : site) : Prop := map_Forall (fun _ b => is_Some (bm_Labels (bmod_Metadata b))) (published w).
Lemma labelled_filed place b (w w' : site) : is_Some (bm_Labels (bmod_Metadata b)) -> labelled_models w ->
  filed place b (published w) (published w') -> labelled_models w'.
Proof.
  intros Hb Hw (st & Hst & E). unfold labelled_models. rewrite E. apply map_Forall_insert_2; [|exact Hw].
  injection Hst as _ _ Hl _ _ _ _ _ _. by rewrite Hl.
Qed.
Lemma site_write b w : to_send b -> labelled_models w -> exists w' text up,
  PublishExamples.site_file b w = (w', Ok (200, text)) /\ labelled_models w' /\ json_Model (W:=site) text = Ok up /\ complete up.
Proof.
  intros ([n En] & [e Ee] & Hl) Hw. assert (place_of b = Some (e, n)) as Hp by (unfold place_of; by rewrite En, Ee).
  pose proof (PublishExamples.site_file_files b _ w Hp) as Hf. unfold PublishExamples.site_file in *. rewrite Hp in *.
  do 3 eexists. split; [reflexivity|]. split; [exact (labelled_filed _ _ _ _ Hl Hw Hf)|].
  split; [apply PublishExamples.of_text_of|]. by exists "ws", "t", "t", 0, 0.
Qed.
Lemma site_api : api_works labelled_models.
Proof.
  split.
  - intros n e w Hw. cbn. destruct (PublishExamples.site_published w !! (e, n)); by do 2 eexists.
  - intros b w Hw Hb. destruct (site_write b w Hb Hw) as (w' & text & up & E & Hw' & Hup). by exists w', 200, text, up.
  - intros n b w Hw Hb Hn. destruct (site_write b w Hb Hw) as (w' & text & up & E & Hw' & Hup). exists w', 200, text, up.
    split; [|done]. cbn. by rewrite bool_decide_eq_true_2.
  - intros n e f w Hw. unfold NotifyOnModelOffloading. rewrite bind_run. cbn.
    destruct (PublishExamples.site_published w !! (e, n)) as [b|] eqn:Eb; [|by split]. cbn.
    rewrite bind_run. unfold of_res. rewrite PublishExamples.of_text_of, bind_run.
    destruct (Hw _ _ Eb) as [l El]. rewrite El. cbn [deref mret M_ret]. rewrite bind_run. cbn [sdk_UpdateModel PublishExamples.site_beamlit].
    case_bool_decide; [|by split].
    destruct (site_write (set_model_labels (<["offloading" := FormatBool f]> l) b) w) as (w' & text & up & -> & Hw' & _); [|exact Hw|by split].
    pose proof (published_place w e n b Eb) as Hp. unfold place_of in Hp. unfold to_send. cbn.
    destruct (bm_Environment (bmod_Metadata b)), (bm_Name (bmod_Metadata b)); [|done..]. by repeat eexists.
Qed.

(** The slices of a service in a cluster, computed. *)
#[local] Instance of_service_dec ns n e : Decision (of_service ns n e).
Proof. unfold of_service. apply _. Defined.
Lemma only_slice (es : gmap NamespacedName EndpointSlice) ns n e :
  filter (fun ke => of_service ns n ke.2) (map_to_list es) = [(es_key e, e)] ->
  forall e', es !! es_key e' = Some e' /\ of_service ns n e' <-> e' = e.
Proof.
  intros E e'. rewrite <-elem_of_map_to_list. split.
  - intros [Hin Hof]. assert ((es_key e', e') ∈ filter (fun ke => of_service ns n ke.2) (map_to_list es)) as H
      by (by apply list_elem_of_filter). rewrite E in H. apply list_elem_of_singleton in H. congruence.
  - intros ->. assert ((es_key e, e) ∈ filter (fun ke => of_service ns n ke.2) (map_to_list es)) as H
      by (rewrite E; by apply list_elem_of_singleton). by apply list_elem_of_filter in H as [? ?].
Qed.

Definition restarted : Whole (P:=InMem.t) (K:=MemCluster.t) (B:=site) :=
  mkWhole (set_gateway (Some gw) newKubernetesConfigurer) newBeamlitGatewayOffloader emptyRegistry emptyRegistry
    (wh_cluster whole_set_up.2) (wh_proxy whole_set_up.2) (PublishExamples.mkSite ∅ ∅).
Example own_service_left : is_Some (services (wh_cluster restarted) !! mkNN "default" "my-model-beamlit").
Proof. vm_compute. by eexists. Qed.

Lemma restarted_blank : blank sys_model sys_ref gw well_filed labelled_models restarted.
Proof.
  split; try (vm_compute; reflexivity).
  - assert (forallb (fun ks => bool_decide (svc_key ks.2 = ks.1)) (map_to_list (services (wh_cluster restarted))) = true) as H by (vm_compute; reflexivity).
    intros k s Hs. apply elem_of_map_to_list, list_elem_of_In in Hs. rewrite forallb_forall in H.
    exact (bool_decide_eq_true_1 _ (H _ Hs)).
  - intros k b Hb. vm_compute in Hb. discriminate.
  - split_and!; [reflexivity|vm_compute; by eexists| |].
    + do 2 eexists. split_and!; [vm_compute; reflexivity..|]. vm_compute. discriminate.
    + exists own_slice. split; [apply only_slice; vm_compute; reflexivity|repeat constructor; by eexists].
  - intros s [[= <-]|Hs]; [|vm_compute in Hs; discriminate]. do 2 eexists. split; vm_compute; reflexivity.
  - apply not_elem_of_empty.
Qed.

(** The first attempt does not find the model's service. *)
Definition not_yet : Whole (P:=InMem.t) (K:=MemCluster.t) (B:=site) := set_cluster (MemCluster.mk ∅ ∅ [] 10) restarted.
Definition tried : ModelDeploymentReconciler := (settle_model sys_model (sys_start, not_yet)).1.1.

Lemma set_up_after_restart_succeeds_witness : exists y y',
  Reconcile (mkNN "default" "my-model") (tried, restarted) = (y, Ok false) /\ on_beamlit (md_Spec sys_model) (published (wh_api y.2)) /\
  gateway_share y.2 "my-model" = Some 0 /\
  foreach [Reached true; Healthy false] (fun rep => handle (event_of sys_model rep)) y = (y', Ok tt) /\
  gateway_share y'.2 "my-model" = Some 100.
Proof.
  assert (unsettled sys_model sys_start) as Hr by (split; intros ?; discriminate).
  assert (rtc (attempt_failed (W:=Whole (P:=InMem.t) (K:=MemCluster.t) (B:=site)) sys_model) sys_start tried) as Hfail.
  { apply rtc_once. exists (md_Status sys_model), not_yet, (settle_model sys_model (sys_start, not_yet)).1.2,
      (settle_model sys_model (sys_start, not_yet)).2.
    split; [apply injective_projections; [apply injective_projections|]; reflexivity|vm_compute; discriminate]. }
  destruct (set_up_after_restart_succeeds sys_model sys_ref gw well_filed labelled_models sys_client site_api eq_refl
    ltac:(vm_compute; set_solver) sys_settings sys_remote 30 eq_refl eq_refl eq_refl eq_refl eq_refl eq_refl
    sys_start tried restarted Hr Hfail restarted_blank) as (y & E & Hb & Hs & _ & Hrun).
  destruct (Hrun [Reached true; Healthy false]) as (y' & E' & Hs'). exists y, y'. split_and!; [exact E|exact Hb|exact Hs|exact E'|exact Hs'].
Defined.
End RestartExamples.
